(* ===== verification/_CoqProject ===== *)
-Q . S2P
Prelude.v
Memory.v
Utf8.v
Ranges.v
Reverse.v
Rtl.v
RtlProps.v
Shaper.v
ShaperSpec.v
ShaperRefine.v
ShaperProps.v
ShaperForms.v
Unshape.v
LutGen.v
SdkEnums.v
SdkTypes.v
SdkMacros.v
Abi.v
SdkDecls.v
SdkApi.v
AbiProps.v
Patch.v
PatchProps.v
Frame.v
Asm.v
AsmProps.v
LutGenProps.v
PackLutProps.v
ShaperScriptProps.v
ScriptText.v
Bytes.v
Crc.v
Thumb.v
Loops.v
Regex.v
RegexProps.v
Disasm.v
Patcher.v
PatcherProps.v
SearchProps.v
PatchScript.v
PatchScriptProps.v
FindFonts.v
FixIjam.v
FixIjamProps.v
Glyph.v
GlyphProps.v
Bundle.v
BundleProps.v
Pfo.v
PfoProps.v
PfoFormat.v
PfoRoundtrip.v
Fontgen.v
FontgenProps.v
CArray.v
Compose.v
ComposeProps.v
ShownProps.v
Generator.v
GeneratorProps.v
LangpackProps.v
ExtractProps.v
ShownTextProps.v
