(* ===== verification/Prelude.v ===== *)
(** * elbbeP: a verification library for the right-to-left text patch

    elbbeP patches the firmware of the Pebble watch so that it shows Hebrew and Arabic
    text.  The patch is a few hundred lines of C and assembly (src/runtime/) that are
    linked into the firmware by Python scripts; other scripts generate the fonts, the
    shaping tables and the firmware bundle.  This library models the code that runs on
    the watch, the linker of the patch, and the generators of tables, fonts, resource
    packs and checksums, and proves what they do.

    ** The program and its model

    The firmware calls the hooks of patch.c and patch.S when it draws or measures a
    text.  A hook shapes the text in place ([shape_text], text_shaper.c): letters are
    replaced by the glyph of their position in the word, under code points of blocks
    that no supported script uses.  Before and after a line is rendered it is laid out
    right to left in place ([rtl_apply], rtl.c).  When the firmware keeps the text, it
    is unshaped afterwards ([unshape_text]).  All of them read and write runes with
    utf8.c, and classify them with rtl_ranges.c.  The assembly that saves registers
    around the C functions is written in patch.S and injected by patch.py; [Patcher]
    (patch_tools.py) queues the places to patch, and writes an image in which branches
    lead to the compiled hooks.

    The basis:
    - [Prelude]: integers of C, exhaustive checks over bytes, [RANGE] (range.h).
    - [Memory]: the memory is a map from addresses to bytes, a [char *] is an address,
      and code is a function in the monad [M], whose outcomes are a result with a new
      memory, a fault (an access to an unmapped address), or the end of the fuel of a
      loop.  [put p l m] is [m] with the bytes [l] at [p]; [holds m p l] says that they
      are there.
    - [Bytes]: byte strings, slices and packed integers of Python.

    The text on the watch:
    - [Utf8] (utf8.c): [read_utf8], [write_utf8] and the reference encoding
      [utf8_bytes].
    - [Ranges] (rtl_ranges.c, and font_ranges.c as fonts/compose.py generates it).
    - [Reverse] (rtl.c, [reverse_span]): the byte-wise pass and the pass that turns the
      runes back.
    - [Rtl] (rtl.c, [rtl_apply]): a definition per block of the loop, the specification
      [rtl_runes] on code points, and the refinement between them.  [RtlProps]: what
      it means for lines of one kind of rune and of several.
    - [Shaper] (text_shaper.c): tables as byte arrays that are cast to structures,
      lookups, the loop of [shape_text] as [shape_body], [unshape_text].
      [ShaperSpec]: what the tables promise, and [shape_runes], shaping on code points:
      [ligate] resolves ligatures and [shape_go] chooses the shapes.  [ShaperRefine]:
      [shape_text] implements [shape_runes].  [ShaperProps]: what it means for letters,
      other runes and the rest of the memory.  [Unshape]: undoing it.
    - [LutGen] (fonts/text_shaper.py): the generator of the tables, and of the map of
      code points that the fonts are generated with.  [LutGenProps]: its tables fulfil the
      interfaces below.  [PackLutProps]: for which alphabets there are code points enough.
      [ShaperScriptProps]: the whole script; what the shaper leaves of a text has a glyph in
      the map.

    The hooks and the machine:
    - [SdkEnums], [SdkTypes], [SdkMacros] (pebble.h): the data types and macros of the
      SDK that the runtime is compiled against.  [Abi]: types of C, their layout, and the
      places of arguments in registers and on the stack.  [SdkDecls], [SdkApi]
      (pebble.h): every type and function of the header as a declaration.  [AbiProps].
    - [Patch] (patch.c, patch.S, and the assembly in patch.py): the hooks, with the
      functions of the firmware as parameters.  [PatchProps]: what a caller sees.
    - [Frame]: the code of the runtime uses only the memory it is given.
    - [Asm] (patch.S, patch.py): the instructions of the assembly on registers and
      memory, and its blocks.  [AsmProps]: the blocks implement the hooks of [Patch].

    The build:
    - [Thumb] (patch_tools.py, the encoding of a branch in [finalize]).
    - [Regex]: the regular expressions of Python that the scripts use, with the order in
      which the backtracking matcher tries the matches, and the parser of patterns.
      [RegexProps]: the language of an expression, and what a search finds.
    - [Disasm] (patch_tools.py): what is read from disassemblies.
    - [Patcher] (patch_tools.py): the symbol table, searches in the disassembly
      ([patcher_match]), the queue of changes, the generated sources, and [finalize], with
      objdump, the compiler and nm as parameters.  [PatcherProps].  [SearchProps]: what
      the searches find.
    - [PatchScript] (patch.py): the searches for the places of the hooks, and the code
      that is injected.  [PatchScriptProps]: what the script queues, that the injected code
      is the blocks of [Asm], and the firmware that is written.
    - [Glyph] (pebblesdk/fontgen.py, [glyph_bits]), with the rasteriser as a parameter.
      [GlyphProps].
    - [Loops]: loops with exceptions, and sorting.
    - [Fontgen] (pebblesdk/fontgen.py, [build_tables] and [bitstring]): the font file made
      of the glyphs.  [FontgenProps].  [CArray] (pebblesdk/generate_c_byte_array.py): the same
      bytes as an array in C.
    - [Pfo] (fonts/pfo_merge.py): font files are read, merged and written.  [PfoFormat]:
      what a font file is, for both of its writers.  [PfoRoundtrip], [PfoProps].
    - [Bundle] (generator.py: resource packs, version tag, manifest entry of the
      firmware).  [BundleProps].
    - [FindFonts] (fonts/find_system_fonts.py): the table of font resources in an image,
      with the dictionaries in a store, and the names of the copied files.
    - [FixIjam] (fonts/fix_ijam.py): the marks of dumped bitmaps.  [FixIjamProps].
    - [Compose] (fonts/compose.py, and the command pfo of pebblesdk/fontgen.py): the
      templates, and how a font is put together.  [ComposeProps].  [ShownProps]: what a
      composed font shows for every code point.  [ShownTextProps]: the shaper's tables and
      the fonts of a language pack together.
    - [Generator] (generator.py): language packs and the firmware of a bundle.
      [GeneratorProps].  [LangpackProps]: from the fonts of a firmware to the packs.
      [ExtractProps]: the fonts that are extracted from a firmware.
    - [Crc] (pebblesdk/stm32_crc.py).

    ** Interfaces

    What the build generates reaches the code through type classes: [ShaperTables] and
    [ShaperRange] are the generated arrays and ranges, [ShaperTablesOk],
    [ShaperFormsOk], [ShaperRangeOk], [UnshapeTablesOk] and [LettersRtl] what the
    theorems assume of them.  [LutGenProps] proves that [pack_lut] makes such tables
    for any alphabet of right-to-left letters and two-letter ligatures of them.
    [Machine] is what surrounds the assembly: the C functions it calls, and what a call
    leaves in registers and below the stack pointer; [CallingConvention] is what the
    procedure call standard promises about that.  [local], the frame property, connects
    the two: C code whose theorems are about a memory runs beside any stack.

    ** Theorems

    - Refinement: [shape_text_refines], [rtl_apply_refines],
      [pack_lut_fulfils_interface] for the generator, [draw_text_block_refines],
      [content_size_block_refines], [render_wrap_block_refines] and
      [unshape_block_refines] for the assembly, [process_buffer_remainder]: the checksum
      is a remainder of polynomials.
    - Round trips: [unshape_text_restores], [generated_tables_round_trip],
      [rtl_apply_twice_rtl_sentence], [reverse_span_involutive],
      [write_utf8_read_back], [unpack_pack_resources],
      [compress_glyph_RLE4_round_trip], [decompress_in_place] for the decoder of the
      watch, [font_read_write], and [write_reads_back].
    - Fonts: [build_tables_read] (from the rasteriser to what is read of the file),
      [merge_fonts_spec], [font_write_bins], [compose_font_layers], [composed_code_points],
      [fonts_have_templates], [extract_longest_run], [extracted_fonts] (which files there are, and
      when the extraction fails), [copies_named] and [process_glyph_keeps].
    - Shaping and fonts together: [shaped_text_has_glyphs], and [shaped_text_shown], from
      the text in memory, through the tables of the script and its map, to the bitmaps in the
      bytes of a language pack.  [pack_lut_fails]: when the script has no code points left.
    - What a reader sees: [shape_text_contextual], [rtl_apply_rtl_sentence],
      [rtl_apply_word_in_ltr], [rtl_apply_number_in_word] and
      [gdt_alignment_step_first_strong]; [glyph_bitmap_mono] for the pixels of a glyph.
    - The hooks: [graphics_draw_text_patch_calls], [graphics_draw_text_unshape_restores],
      [content_size_measures_shaped], [render_rtl_step_keeps_trailing_spaces],
      [render_wrap_shows_visual_order] and [render_rtl_step_guard].
    - The linked image: [build_symbol_table_spec], [match_symbol_whole_instructions],
      [wrap_passthru], [encode_branch_decodes], [finalize_branches],
      [finalize_layout] (nothing else changes), [finalize_error], and [addr_step_finds].
    - The script: [finditer_found], [patcher_match_spec], [patcher_match_assertion],
      [patch_queues] and [patched_firmware]: every hook of the written firmware is
      reached, by the code whose blocks are proved to implement it.
    - Declarations: [pebble_declarations_ok], [struct_layout_spec], [places_spec] and
      [hooked_arguments].
    - Bundles: [pack_resources_layout], [pack_resources_error], [tag_version_spec],
      [crc32_detects_word_change], [platforms_known], [generated_firmware] (patched, fitting,
      tagged and described), [langpack_fonts] and [langpack_shows] (what the fonts of a pack
      show, from the rasteriser and the firmware's fonts to the bytes of the pack).
    - Safety: nothing outside of the text changes ([shape_text_in_place],
      [rtl_apply_keeps_runes]), and uninitialised variables and a read out of bounds do
      not matter ([shape_text_late_finalize_safe], [find_ligature_by_codepts_spec], and
      the arguments [oob] and [uninit] of [shape_text_refines]).
    - Termination on every memory, also on bytes that are not text: the theorems named
      [_terminates].
    - Where the code does not do what it means to: [rtl_apply_number_before_ltr_reversed],
      [rtl_apply_number_space_moves], [rtl_apply_second_call_does_not_restore],
      [rtl_apply_stops_at_aliased_nul], [reverse_span_malformed_writes_outside],
      [shape_text_lone_letter_with_mark], [shape_text_overwrites_aliased],
      [unshape_text_shared_glyph], [encode_branch_far], [render_wrap_flag_in_r3],
      [font_read_rle4_truncates], [font_read_version_2], [wildcard_twice],
      [normalise_lsl], [branch_pattern_matches_code], [bold_for_regular], [lone_dot_error],
      [left_dot_moves_out], [right_edge_clears_left], [name_with_space] and
      [shared_glyph_too_far].

    ** Fuel

    Loops are [loop fuel body].  [reverse_fuel] and [rtl_fuel] are the length of the
    span or the line and one more: every iteration but the last one consumes a byte.
    [text_fuel] is three times the number of mapped addresses: every iteration that
    reads a rune moves past a mapped address, and of two iterations one reads.  That
    no loop ever runs out of it is proved for all inputs, not only for text.
    [layout_fuel] bounds the depth of names in a type; [pebble_declarations_ok] computes
    with it.  [addr_step] and [deasm_index], which may not end in Python, take their fuel
    as an argument; [bound] says when it is enough.  A search with [finditer] takes as many
    steps as the text has characters, and one more, which [finditer_found] shows to be
    enough; the parser of patterns has three units of fuel for each character.

    ** What is not modelled

    The wrapping of addresses at 2^32; the firmware's own functions; how the compiler
    translates the C code, whose calls are computations of [M] that follow the calling
    convention.  Texts are in memory that is read and written like RAM.  Of
    regular expressions, what the scripts do not use (repetition of groups, back
    references, an alternative at the top of a pattern that is a part of a longer one).
    Of the build: what objdump, gcc, nm, hb-shape and freetype give, which are parameters;
    the editing of bitmaps by hand; the labels of text_shaper.py, which only name the files of
    dumped bitmaps; JSON, downloads, archives and calling other programs, whose files are
    arguments and results of functions here; and the directories of earlier runs that the
    generator takes over. *)

From stdpp Require Export base numbers list option gmap.
From Stdlib Require Export ZArith Lia.
#[export] Set Default Goal Selector "!".

Global Open Scope Z_scope.

(** ** Machine integers *)

(** Conversion to [uint16_t]: the value is taken modulo 2^16. *)
Definition u16 (x : Z) : Z := x mod 65536.

(** Conversion to [char]: on the ARM targets of the patch [char] is
    unsigned, so a stored value is taken modulo 2^8. *)
Definition u8 (x : Z) : Z := x mod 256.

(** [RANGE(cp, start, end)] of runtime/range.h. *)
Definition RANGE (cp start_ end_ : Z) : bool := (start_ <=? cp) && (cp <? end_).

(** Python's [len], and the size of a C array. *)
Abbreviation len l := (Z.of_nat (length l)).

Definition is_byte (b : Z) : Prop := 0 <= b < 256.

(** ** Exhaustive checks over the 256 byte values *)

Definition all_bytes : list Z := seqZ 0 256.

Lemma all_bytes_spec (P : Z -> bool) :
  forallb P all_bytes = true -> forall b, is_byte b -> P b = true.
Proof.
  intros H b [Hl Hu]. rewrite forallb_forall in H. apply H.
  apply list_elem_of_In, elem_of_seqZ. lia.
Qed.

(** Two integer functions that agree on every byte, by running them. *)
Lemma all_bytes_eq (f g : Z -> Z) :
  forallb (fun b => f b =? g b) all_bytes = true -> forall b, is_byte b -> f b = g b.
Proof. intros H b Hb. apply Z.eqb_eq. by apply (all_bytes_spec _ H). Qed.

(** ** Integer lemmas *)

(** Linear arithmetic with division and remainder by constants. *)
Ltac dlia := Z.div_mod_to_equations; lia.

Lemma u16_small x : 0 <= x < 65536 -> u16 x = x.
Proof. unfold u16. intros. by rewrite Z.mod_small. Qed.

Lemma u16_range x : 0 <= u16 x < 65536.
Proof. unfold u16. apply Z.mod_pos_bound. lia. Qed.

Lemma u8_small x : is_byte x -> u8 x = x.
Proof. unfold u8, is_byte. intros. by rewrite Z.mod_small. Qed.

Lemma u8_is_byte x : is_byte (u8 x).
Proof. unfold u8, is_byte. pose proof (Z.mod_pos_bound x 256). lia. Qed.

(** A shifted value and a value below the shift have no bit in common. *)
Lemma lor_shiftl_add a b n :
  0 <= n -> 0 <= b < 2 ^ n -> Z.lor (Z.shiftl a n) b = a * 2 ^ n + b.
Proof.
  intros Hn Hb. rewrite <- Z.shiftl_mul_pow2 by done.
  assert (Hland : Z.land (Z.shiftl a n) b = 0).
  { apply Z.bits_inj'. intros i Hi. rewrite Z.land_spec, Z.bits_0.
    destruct (decide (i < n)); [by rewrite Z.shiftl_spec_low|].
    rewrite <- (Z.mod_small b (2 ^ n)) by done.
    rewrite Z.mod_pow2_bits_high by lia. by rewrite andb_false_r. }
  rewrite Z.add_nocarry_lxor by done. by rewrite Z.lxor_lor.
Qed.

Lemma RANGE_spec cp s e : RANGE cp s e = true <-> s <= cp < e.
Proof. unfold RANGE. rewrite andb_true_iff, Z.leb_le, Z.ltb_lt. done. Qed.

Lemma RANGE_false cp s e : RANGE cp s e = false <-> (cp < s \/ e <= cp).
Proof. unfold RANGE. rewrite andb_false_iff, Z.leb_gt, Z.ltb_ge. lia. Qed.

Lemma existsb_false_iff {A} (f : A -> bool) (l : list A) :
  existsb f l = false <-> Forall (fun x => f x = false) l.
Proof.
  induction l as [|x l IH]; simpl; [split; done|].
  rewrite orb_false_iff, IH, Forall_cons. done.
Qed.

(** A loop over a range that collects results, each with a property. *)
Lemma mapM_seqZ {A} (f : Z -> option A) (P : nat -> A -> Prop) (n : nat) :
  (forall i, (i < n)%nat -> exists a, f (Z.of_nat i) = Some a /\ P i a) ->
  exists l, mapM f (seqZ 0 (Z.of_nat n)) = Some l /\ length l = n /\
    forall i a, l !! i = Some a -> P i a.
Proof.
  intros H. assert (exists l, Forall2 (fun x a => f x = Some a /\ P (Z.to_nat x) a) (seqZ 0 (Z.of_nat n)) l)
    as [l Hl].
  { induction n as [|n IH]; [by exists []|]. destruct IH as [l Hl]; [auto with lia|].
    destruct (H n) as (a & Ha & HP); [lia|]. exists (l ++ [a]). rewrite seqZ_S, Z.add_0_l.
    apply Forall2_app; [done|]. constructor; [|done]. by rewrite Nat2Z.id. }
  exists l. pose proof (Forall2_length _ _ _ Hl) as Hlen. rewrite length_seqZ, Nat2Z.id in Hlen.
  split; [|split; [done|]].
  - apply mapM_Some. eapply Forall2_impl; [done|]. by intros ?? [].
  - intros i a Hi. destruct (Forall2_lookup_r _ _ _ _ _ Hl Hi) as (x & [-> _]%lookup_seqZ & _ & HP).
    by rewrite Z.add_0_l, Nat2Z.id in HP.
Qed.

Create HintDb text discriminated.
#[export] Hint Resolve u16_range u8_is_byte : text.
