(* ===== verification/Memory.v ===== *)
(** * The byte-addressed memory of the watch and the monad of C code

    The runtime code (src/runtime/) reads and writes text through [char *]
    pointers.  A pointer is its address, [NULL] is 0, and the memory is a finite
    map from addresses to bytes; an access outside the map is a fault, which is a
    result of its own, as is running out of the fuel that bounds a loop. *)

From S2P Require Import Prelude.

Abbreviation mem := (gmap Z Z).

Definition NULL : Z := 0.

(** ** The monad: memory passing with faults *)

Inductive outcome (A : Type) :=
| Ok (a : A) (m : mem)
| Fault (p : Z)
| OutOfFuel.
Arguments Ok {A}.
Arguments Fault {A}.
Arguments OutOfFuel {A}.

Definition M (A : Type) : Type := mem -> outcome A.

#[export] Instance M_ret : MRet M := fun A a m => Ok a m.

#[export] Instance M_bind : MBind M := fun A B f c m =>
  match c m with
  | Ok a m' => f a m'
  | Fault p => Fault p
  | OutOfFuel => OutOfFuel
  end.

Definition load8 (p : Z) : M Z := fun m =>
  match m !! p with Some b => Ok b m | None => Fault p end.

Definition store8 (p v : Z) : M unit := fun m =>
  match m !! p with Some _ => Ok tt (<[p := u8 v]> m) | None => Fault p end.

Definition fault {A} (p : Z) : M A := fun _ => Fault p.

(** A little-endian 32-bit load, the width of a pointer on the watch. *)
Definition load32 (p : Z) : M Z :=
  b0 ← load8 p; b1 ← load8 (p + 1); b2 ← load8 (p + 2); b3 ← load8 (p + 3);
  mret (b0 + 256 * b1 + 65536 * b2 + 16777216 * b3).

(** A C loop: [body] runs one iteration on the loop's locals and either goes on
    with new locals ([inl]) or leaves the loop with a result ([inr]). *)
Fixpoint loop {S R : Type} (fuel : nat) (body : S -> M (S + R)) (s : S) : M R :=
  match fuel with
  | O => fun _ => OutOfFuel
  | Datatypes.S fuel =>
      r ← body s;
      match r with
      | inl s' => loop fuel body s'
      | inr r => mret r
      end
  end.

#[global] Arguments loop : simpl never.

(** Fuel for a loop that walks over mapped addresses: every iteration that reads a
    rune moves to a higher mapped address, and at most two iterations in a row read
    none. *)
Definition text_fuel (m : mem) : nat := (3 * size (dom m) + 3)%nat.

(** The states a loop goes through: [reaches body s m s' m'] when iterations from [s]
    and [m] lead to the head of an iteration with [s'] and [m']. *)
Inductive reaches {S R : Type} (body : S -> M (S + R)) (s : S) (m : mem) : S -> mem -> Prop :=
| reaches_start : reaches body s m s m
| reaches_step s1 m1 s2 m2 :
    reaches body s m s1 m1 -> body s1 m1 = Ok (inl s2) m2 -> reaches body s m s2 m2.

(** ** Arrays in memory *)

(** The memory [m] overwritten with the bytes [l] from address [p] on. *)
Fixpoint put (p : Z) (l : list Z) (m : mem) : mem :=
  match l with
  | [] => m
  | b :: l => <[p := b]> (put (p + 1) l m)
  end.

(** The memory holds the bytes [l] at address [p]. *)
Definition holds (m : mem) (p : Z) (l : list Z) : Prop := put p l m = m.

(** ** Equations of the monad *)

Lemma bind_ok {A B} (c : M A) (f : A -> M B) m a m' :
  c m = Ok a m' -> (c ≫= f) m = f a m'.
Proof. unfold mbind, M_bind. by intros ->. Qed.

Lemma bind_ret {A B} (a : A) (f : A -> M B) m : (mret a ≫= f) m = f a m.
Proof. done. Qed.

Lemma bind_assoc {A B C} (c : M A) (f : A -> M B) (g : B -> M C) m :
  ((c ≫= f) ≫= g) m = (c ≫= (fun a => f a ≫= g)) m.
Proof. unfold mbind, M_bind. by destruct (c m). Qed.

Lemma bind_inv {A B} (c : M A) (f : A -> M B) m b m' :
  (c ≫= f) m = Ok b m' -> exists a m1, c m = Ok a m1 /\ f a m1 = Ok b m'.
Proof. unfold mbind, M_bind. destruct (c m) as [a m1| |]; [eauto|done..]. Qed.

Lemma ret_inv {A} (a b : A) m m' : (mret a : M A) m = Ok b m' -> b = a /\ m' = m.
Proof. by intros [= -> ->]. Qed.

Lemma loop_S {S R} fuel (body : S -> M (S + R)) s m :
  loop (Datatypes.S fuel) body s m =
  (r ← body s; match r with inl s' => loop fuel body s' | inr r => mret r end) m.
Proof. done. Qed.

Lemma loop_next {S R} fuel (body : S -> M (S + R)) s s' m m' :
  body s m = Ok (inl s') m' ->
  loop (Datatypes.S fuel) body s m = loop fuel body s' m'.
Proof. intros H. rewrite loop_S. by rewrite (bind_ok _ _ _ _ _ H). Qed.

Lemma loop_exit {S R} fuel (body : S -> M (S + R)) s r m m' :
  body s m = Ok (inr r) m' ->
  loop (Datatypes.S fuel) body s m = Ok r m'.
Proof. intros H. rewrite loop_S. by rewrite (bind_ok _ _ _ _ _ H). Qed.

(** More fuel never changes the result of a loop that finished. *)
Lemma loop_mono {S R} (body : S -> M (S + R)) fuel fuel' s m r m' :
  (fuel <= fuel')%nat -> loop fuel body s m = Ok r m' -> loop fuel' body s m = Ok r m'.
Proof.
  revert fuel' s m. induction fuel as [|fuel IH]; intros fuel' s m Hle; [done|].
  destruct fuel' as [|fuel']; [lia|]. rewrite !loop_S.
  unfold mbind, M_bind. destruct (body s m) as [[s'|r'] m1|p|]; try done.
  apply IH. lia.
Qed.

(** A loop whose continuing iterations decrease a measure ends within that much fuel. *)
Lemma loop_ends_mem {S R} (mu : S -> mem -> nat) (body : S -> M (S + R)) :
  (forall s m, body s m <> OutOfFuel) ->
  (forall s m s' m', body s m = Ok (inl s') m' -> (mu s' m' < mu s m)%nat) ->
  forall fuel s m, (mu s m < fuel)%nat -> loop fuel body s m <> OutOfFuel.
Proof.
  intros Hbody Hmu. induction fuel as [|fuel IH]; intros s m Hf; [lia|].
  rewrite loop_S. unfold mbind, M_bind. specialize (Hbody s m).
  destruct (body s m) as [[s'|r] m'|p|] eqn:E; try done.
  apply IH. apply Hmu in E. lia.
Qed.

Lemma loop_ends {S R} (mu : S -> nat) (body : S -> M (S + R)) :
  (forall s m, body s m <> OutOfFuel) ->
  (forall s m s' m', body s m = Ok (inl s') m' -> (mu s' < mu s)%nat) ->
  forall fuel s m, (mu s < fuel)%nat -> loop fuel body s m <> OutOfFuel.
Proof. intros Hbody Hmu fuel s m. by apply (loop_ends_mem (fun s _ => mu s)). Qed.

(** The state after [n] iterations, when none of them leaves the loop. *)
Fixpoint iterate {S R} (n : nat) (body : S -> M (S + R)) (s : S) (m : mem) : option (S * mem) :=
  match n with
  | O => Some (s, m)
  | Datatypes.S n =>
      match body s m with Ok (inl s') m' => iterate n body s' m' | _ => None end
  end.

Lemma iterate_reaches {S R} n (body : S -> M (S + R)) s m s' m' :
  iterate n body s m = Some (s', m') -> reaches body s m s' m'.
Proof.
  assert (forall s0 m0, reaches body s0 m0 s m -> iterate n body s m = Some (s', m') ->
    reaches body s0 m0 s' m') as Hgen.
  { revert s m. induction n as [|n IH]; intros s m s0 m0 Hr; cbn [iterate]; [by intros [= <- <-]|].
    destruct (body s m) as [[s1|]| |] eqn:E; try done.
    apply IH. by eapply reaches_step. }
  apply Hgen, reaches_start.
Qed.

Lemma bind_no_fuel {A B} (c : M A) (f : A -> M B) m :
  c m <> OutOfFuel -> (forall a m', f a m' <> OutOfFuel) -> (c ≫= f) m <> OutOfFuel.
Proof. unfold mbind, M_bind. by destruct (c m). Qed.

Lemma bind_no_fuel_eq {A B} (c : M A) (f : A -> M B) m :
  c m <> OutOfFuel -> (forall a m', c m = Ok a m' -> f a m' <> OutOfFuel) ->
  (c ≫= f) m <> OutOfFuel.
Proof. unfold mbind, M_bind. destruct (c m); naive_solver. Qed.

Lemma load8_no_fuel p m : load8 p m <> OutOfFuel.
Proof. unfold load8. by destruct (m !! p). Qed.

Lemma store8_no_fuel p v m : store8 p v m <> OutOfFuel.
Proof. unfold store8. by destruct (m !! p). Qed.

Create HintDb fuel discriminated.
#[export] Hint Resolve bind_no_fuel load8_no_fuel store8_no_fuel : fuel.

(** Straight-line code never runs out of fuel. *)
Ltac no_fuel :=
  repeat first
    [ apply load8_no_fuel | apply store8_no_fuel | done
    | apply bind_no_fuel; [|intros ? ?] | progress case_match ].

(** ** Walking over mapped addresses *)

(** How many addresses from [q] on are mapped. *)
Definition mapped_from (q : Z) (m : mem) : nat := size (filter (fun a => q <= a) (dom m)).

Lemma mapped_from_fuel q m : (mapped_from q m <= size (dom m))%nat.
Proof. apply subseteq_size. intros a. by rewrite elem_of_filter; intros []. Qed.

Lemma mapped_from_lt q q' m :
  is_Some (m !! q) -> q < q' -> (mapped_from q' m < mapped_from q m)%nat.
Proof.
  intros Hq Hlt. apply subset_size. split.
  - intros a. rewrite !elem_of_filter. intros [? ?]. split; [lia|done].
  - intros Hsub. specialize (Hsub q). rewrite !elem_of_filter, !elem_of_dom in Hsub.
    destruct Hsub as [? _]; [split; [lia|done]|lia].
Qed.

Lemma mapped_from_dom q m m' : dom m' = dom m -> mapped_from q m' = mapped_from q m.
Proof. unfold mapped_from. by intros ->. Qed.

(** A computation that maps and unmaps no address. *)
Definition keeps_dom {A} (c : M A) : Prop := forall m a m', c m = Ok a m' -> dom m' = dom m.

Lemma keeps_dom_ret {A} (a : A) : keeps_dom (mret a).
Proof. by intros m a' m' [= _ <-]. Qed.

Lemma keeps_dom_fault {A} p : keeps_dom (@fault A p).
Proof. done. Qed.

Lemma keeps_dom_bind {A B} (c : M A) (f : A -> M B) :
  keeps_dom c -> (forall a, keeps_dom (f a)) -> keeps_dom (c ≫= f).
Proof.
  intros Hc Hf m b m'. unfold mbind, M_bind. destruct (c m) as [a m1| |] eqn:E; try done.
  intros Hb. rewrite (Hf _ _ _ _ Hb). by eapply Hc.
Qed.

Lemma keeps_dom_load8 p : keeps_dom (load8 p).
Proof. intros m a m'. unfold load8. destruct (m !! p); [intros Heq; by simplify_eq|done]. Qed.

Lemma keeps_dom_store8 p v : keeps_dom (store8 p v).
Proof.
  intros m a m'. unfold store8. destruct (m !! p) eqn:E; [|done]. intros Heq. simplify_eq.
  by apply dom_insert_lookup_L.
Qed.

#[export] Hint Resolve keeps_dom_ret keeps_dom_fault keeps_dom_load8 keeps_dom_store8 : fuel.

(** ** Lookup in an overwritten memory *)

Lemma put_lookup p l m a :
  put p l m !! a =
  if (p <=? a) && (a <? p + len l) then l !! Z.to_nat (a - p) else m !! a.
Proof.
  revert p. induction l as [|b l IH]; intros p; simpl.
  { replace ((p <=? a) && (a <? p + Z.of_nat 0)) with false; [done|].
    symmetry. apply andb_false_iff. rewrite Z.leb_gt, Z.ltb_ge. lia. }
  destruct (decide (a = p)) as [->|Hne].
  - rewrite lookup_insert_eq.
    destruct (Z.leb_spec p p), (Z.ltb_spec p (p + Z.of_nat (S (length l)))); try lia.
    simpl. by rewrite Z.sub_diag.
  - rewrite lookup_insert_ne, IH by done.
    destruct (Z.leb_spec (p + 1) a), (Z.leb_spec p a), (Z.ltb_spec a (p + 1 + len l)),
      (Z.ltb_spec a (p + Z.of_nat (S (length l)))); simpl; try done; try lia.
    by replace (Z.to_nat (a - p)) with (S (Z.to_nat (a - (p + 1)))) by lia.
Qed.

Lemma put_lookup_out p l m a : a < p \/ p + len l <= a -> put p l m !! a = m !! a.
Proof.
  intros H. rewrite put_lookup.
  destruct (Z.leb_spec p a), (Z.ltb_spec a (p + len l)); simpl; try done; lia.
Qed.

Lemma put_lookup_mid p pre b post m :
  put p (pre ++ b :: post) m !! (p + len pre) = Some b.
Proof.
  rewrite put_lookup, length_app. simpl.
  destruct (Z.leb_spec p (p + len pre)),
    (Z.ltb_spec (p + len pre) (p + Z.of_nat (length pre + S (length post)))); try lia.
  simpl. replace (Z.to_nat (p + len pre - p)) with (length pre) by lia.
  by rewrite list_lookup_middle.
Qed.

Lemma put_put p l l' m : length l = length l' -> put p l (put p l' m) = put p l m.
Proof.
  intros Hlen. apply map_eq. intros a. rewrite !put_lookup, <- Hlen.
  by destruct ((p <=? a) && (a <? p + len l)).
Qed.

Lemma put_app p l1 l2 m : put p (l1 ++ l2) m = put p l1 (put (p + len l1) l2 m).
Proof.
  revert p. induction l1 as [|b l1 IH]; intros p; simpl.
  { by rewrite Z.add_0_r. }
  rewrite IH. by replace (p + 1 + len l1) with (p + Z.of_nat (S (length l1))) by lia.
Qed.

Lemma put_insert p pre b b' post m :
  <[p + len pre := b']> (put p (pre ++ b :: post) m) = put p (pre ++ b' :: post) m.
Proof.
  apply map_eq. intros a. destruct (decide (a = p + len pre)) as [->|Hne].
  - by rewrite lookup_insert_eq, put_lookup_mid.
  - rewrite lookup_insert_ne, !put_lookup, !length_app by done. simpl.
    destruct (Z.leb_spec p a),
      (Z.ltb_spec a (p + Z.of_nat (length pre + S (length post)))); simpl; try done.
    destruct (decide (Z.to_nat (a - p) < length pre)%nat).
    + by rewrite !lookup_app_l by done.
    + rewrite !lookup_app_r by lia.
      destruct (Z.to_nat (a - p) - length pre)%nat eqn:E; [lia|done].
Qed.

Lemma holds_lookup m p l :
  holds m p l <-> forall i b, l !! i = Some b -> m !! (p + Z.of_nat i) = Some b.
Proof.
  unfold holds. split.
  - intros H i b Hi. rewrite <- H, put_lookup.
    pose proof (lookup_lt_Some _ _ _ Hi).
    destruct (Z.leb_spec p (p + Z.of_nat i)), (Z.ltb_spec (p + Z.of_nat i) (p + len l));
      try lia. simpl. by replace (Z.to_nat (p + Z.of_nat i - p)) with i by lia.
  - intros H. apply map_eq. intros a. rewrite put_lookup.
    destruct (Z.leb_spec p a), (Z.ltb_spec a (p + len l)); simpl; try done.
    destruct (l !! Z.to_nat (a - p)) eqn:E.
    + rewrite <- (H _ _ E). f_equal. lia.
    + apply lookup_ge_None in E. lia.
Qed.

Lemma holds_put p l m : holds (put p l m) p l.
Proof. unfold holds. by rewrite put_put. Qed.

Lemma holds_app_r m p l1 l2 : holds m p (l1 ++ l2) -> holds m (p + len l1) l2.
Proof.
  rewrite !holds_lookup. intros H i b Hi.
  replace (p + len l1 + Z.of_nat i) with (p + Z.of_nat (length l1 + i)) by lia.
  apply H. by rewrite lookup_app_r, Nat.add_comm, Nat.add_sub by lia.
Qed.

Lemma holds_app_l m p l1 l2 : holds m p (l1 ++ l2) -> holds m p l1.
Proof.
  rewrite !holds_lookup. intros H i b Hi. apply H.
  by apply lookup_app_l_Some.
Qed.

(** ** Loads and stores in an array *)

Lemma load8_ok p b m : m !! p = Some b -> load8 p m = Ok b m.
Proof. intros H. unfold load8. by rewrite H. Qed.

Lemma store8_ok p b v m : m !! p = Some b -> store8 p v m = Ok tt (<[p := u8 v]> m).
Proof. intros H. unfold store8. by rewrite H. Qed.

Lemma load8_mid p pre b post m q :
  q = p + len pre ->
  load8 q (put p (pre ++ b :: post) m) = Ok b (put p (pre ++ b :: post) m).
Proof. intros ->. unfold load8. by rewrite put_lookup_mid. Qed.

Lemma store8_mid p pre b post m v q :
  q = p + len pre ->
  store8 q v (put p (pre ++ b :: post) m) = Ok tt (put p (pre ++ u8 v :: post) m).
Proof. intros ->. unfold store8. by rewrite put_lookup_mid, put_insert. Qed.

(** The same, by index into the part of the array after a prefix. *)
Lemma load8_at p pre l k b m q :
  l !! k = Some b -> q = p + len pre + Z.of_nat k ->
  load8 q (put p (pre ++ l) m) = Ok b (put p (pre ++ l) m).
Proof.
  intros Hk ->. rewrite <- (take_drop_middle _ _ _ Hk) at 1 2. rewrite app_assoc.
  apply load8_mid. rewrite length_app, length_take.
  pose proof (lookup_lt_Some _ _ _ Hk). lia.
Qed.

Lemma store8_at p pre l k v m q :
  (k < length l)%nat -> q = p + len pre + Z.of_nat k ->
  store8 q v (put p (pre ++ l) m) = Ok tt (put p (pre ++ <[k := u8 v]> l) m).
Proof.
  intros Hk ->. destruct (lookup_lt_is_Some_2 _ _ Hk) as [b Hb].
  rewrite (insert_take_drop _ _ _ Hk).
  rewrite <- (take_drop_middle _ _ _ Hb) at 1. rewrite !app_assoc.
  apply store8_mid. rewrite length_app, length_take. lia.
Qed.
