(* ===== verification/Utf8.v ===== *)
(** * Reading and writing UTF-8 in place (runtime/utf8.c)

    [read_utf8] and [write_utf8] are the only way the patch looks at text.  The
    reference is the UTF-8 encoding itself, [utf8_bytes]: what the code does on
    text is stated on the code points that the bytes encode. *)

From S2P Require Import Prelude Memory.

(** ** The code *)

(** The [switch] on the high nibble of the first byte: how many bytes follow it. *)
Definition utf8_extra (codept : Z) : nat :=
  match Z.shiftr codept 4 with
  | 15 => 3%nat
  | 14 => 2%nat
  | 12 | 13 => 1%nat
  | _ => 0%nat
  end.

(** [while (ct--) codept = (codept << 6) | ( *(++( *ptr)) & ~0b10000000);] *)
Fixpoint read_continuation (ct : nat) (codept ptr : Z) : M (Z * Z) :=
  match ct with
  | O => mret (codept, ptr)
  | Datatypes.S ct =>
      let ptr := ptr + 1 in
      b ← load8 ptr;
      read_continuation ct (u16 (Z.lor (Z.shiftl codept 6) (Z.land b (Z.lnot 128)))) ptr
  end.

(** Reads the rune at [ptr]: its 16-bit code point and the pointer after it. *)
Definition read_utf8 (ptr : Z) : M (Z * Z) :=
  codept ← load8 ptr;
  let ct := utf8_extra codept in
  let codept := u16 (Z.land codept (Z.shiftr (Z.lnot 1920) (Z.of_nat ct))) in
  '(codept, ptr) ← read_continuation ct codept ptr;
  mret (codept, ptr + 1).

(** Writes a two-byte rune at [ptr]; [codept] arrives as a [uint16_t]. *)
Definition write_utf8 (ptr codept : Z) : M unit :=
  let codept := u16 codept in
  store8 ptr (Z.lor 192 (Z.shiftr codept 6));;
  store8 (ptr + 1) (Z.lor 128 (Z.land codept 63)).

(** ** The reference: UTF-8 *)

(** The UTF-8 encoding of a code point. *)
Definition utf8_bytes (c : Z) : list Z :=
  if c <? 128 then [c]
  else if c <? 2048 then [192 + c / 64; 128 + c mod 64]
  else if c <? 65536 then
    [224 + c / 4096; 128 + (c / 64) mod 64; 128 + c mod 64]
  else
    [240 + c / 262144; 128 + (c / 4096) mod 64; 128 + (c / 64) mod 64; 128 + c mod 64].

Definition encode (cps : list Z) : list Z := flat_map utf8_bytes cps.

(** A code point of NUL-free text. *)
Definition is_codept (c : Z) : Prop := 1 <= c < 1114112.

(** A code point [write_utf8] can write: one with a two-byte encoding. *)
Definition two_byte (c : Z) : Prop := 128 <= c < 2048.

#[export] Instance is_codept_dec c : Decision (is_codept c) := _.
#[export] Instance two_byte_dec c : Decision (two_byte c) := _.

(** ** Encodings as byte lists *)

Lemma encode_app l1 l2 : encode (l1 ++ l2) = encode l1 ++ encode l2.
Proof. apply flat_map_app. Qed.

Lemma encode_cons c l : encode (c :: l) = utf8_bytes c ++ encode l.
Proof. done. Qed.

Lemma encode_one c : encode [c] = utf8_bytes c.
Proof. apply app_nil_r. Qed.

Lemma two_byte_codept c : two_byte c -> is_codept c.
Proof. unfold two_byte, is_codept. lia. Qed.

Lemma utf8_two_byte c : two_byte c -> utf8_bytes c = [192 + c / 64; 128 + c mod 64].
Proof.
  unfold two_byte, utf8_bytes. intros.
  destruct (Z.ltb_spec c 128), (Z.ltb_spec c 2048); [lia..|done|lia].
Qed.

(** The four shapes of an encoding. *)
Lemma utf8_cases c :
  is_codept c ->
  (c < 128 /\ utf8_bytes c = [c]) \/
  (two_byte c /\ utf8_bytes c = [192 + c / 64; 128 + c mod 64]) \/
  (2048 <= c < 65536 /\
   utf8_bytes c = [224 + c / 4096; 128 + (c / 64) mod 64; 128 + c mod 64]) \/
  (65536 <= c /\
   utf8_bytes c = [240 + c / 262144; 128 + (c / 4096) mod 64;
                   128 + (c / 64) mod 64; 128 + c mod 64]).
Proof.
  unfold is_codept, two_byte, utf8_bytes. intros.
  destruct (Z.ltb_spec c 128); [left; done|].
  destruct (Z.ltb_spec c 2048); [right; left; done|].
  destruct (Z.ltb_spec c 65536); [right; right; left; done|].
  right; right; right; done.
Qed.

(** ** The leading byte *)

Lemma utf8_extra_spec b :
  is_byte b ->
  utf8_extra b = if b <? 192 then 0%nat else if b <? 224 then 1%nat
                 else if b <? 240 then 2%nat else 3%nat.
Proof.
  intros Hb. apply Nat.eqb_eq. revert b Hb.
  apply (all_bytes_spec (fun b => Nat.eqb (utf8_extra b) _)). by vm_compute.
Qed.

Lemma utf8_mask_spec b :
  is_byte b ->
  u16 (Z.land b (Z.shiftr (Z.lnot 1920) (Z.of_nat (utf8_extra b)))) =
  if b <? 128 then b else if b <? 192 then b - 128 else if b <? 224 then b - 192
  else if b <? 240 then b - 224 else b - 240.
Proof. revert b. apply all_bytes_eq. by vm_compute. Qed.

Lemma continuation_mask b : is_byte b -> Z.land b (Z.lnot 128) = b mod 128.
Proof. revert b. apply all_bytes_eq. by vm_compute. Qed.

(** One continuation byte shifts six bits in. *)
Lemma continuation_step x y :
  0 <= y < 64 ->
  u16 (Z.lor (Z.shiftl x 6) (Z.land (128 + y) (Z.lnot 128))) = u16 (x * 64 + y).
Proof.
  intros. rewrite continuation_mask by (unfold is_byte; lia).
  replace ((128 + y) mod 128) with y by dlia.
  by rewrite lor_shiftl_add by lia.
Qed.

(** ** Reading the encoding of a code point *)

Lemma u16_step x y : u16 (u16 x * 64 + y) = u16 (x * 64 + y).
Proof. unfold u16. by rewrite <- Zplus_mod_idemp_l, Zmult_mod_idemp_l, Zplus_mod_idemp_l. Qed.

(** One round of the continuation loop on a continuation byte. *)
Lemma read_continuation_step ct x q y m :
  0 <= y < 64 -> m !! (q + 1) = Some (128 + y) ->
  read_continuation (S ct) (u16 x) q m = read_continuation ct (u16 (x * 64 + y)) (q + 1) m.
Proof.
  intros Hy Hq. cbn [read_continuation].
  rewrite (bind_ok _ _ _ _ _ (load8_ok _ _ _ Hq)).
  by rewrite continuation_step, u16_step.
Qed.

(** The first byte of an encoding gives the number of further bytes and its payload. *)
Lemma read_utf8_lead q b m :
  is_byte b -> m !! q = Some b ->
  read_utf8 q m =
  ('(codept, ptr) ← read_continuation (utf8_extra b)
      (u16 (if b <? 128 then b else if b <? 192 then b - 128 else if b <? 224 then b - 192
            else if b <? 240 then b - 224 else b - 240)) q;
   mret (codept, ptr + 1)) m.
Proof.
  intros Hb Hq. unfold read_utf8. rewrite (bind_ok _ _ _ _ _ (load8_ok _ _ _ Hq)).
  rewrite utf8_mask_spec by done. rewrite u16_small; [done|].
  unfold is_byte in Hb. repeat case_match; lia.
Qed.

(** [read_utf8] on an encoded code point returns it modulo 2^16 and steps over
    exactly its bytes, leaving the memory alone. *)
Lemma read_utf8_enc c q m :
  is_codept c -> holds m q (utf8_bytes c) ->
  read_utf8 q m = Ok (u16 c, q + len (utf8_bytes c)) m.
Proof.
  intros Hc Hh. unfold is_codept in Hc.
  destruct (utf8_cases c Hc) as [[? E]|[[? E]|[[? E]|[? E]]]]; rewrite E in Hh |- *;
    unfold two_byte in *; rewrite holds_lookup in Hh;
    pose proof (Hh 0%nat _ eq_refl) as L0; rewrite Z.add_0_r in L0;
    match type of L0 with _ = Some ?b => assert (is_byte b) as Hb by (unfold is_byte; dlia) end;
    rewrite (read_utf8_lead _ _ _ Hb L0), (utf8_extra_spec _ Hb);
    repeat match goal with |- context [?x <? ?y] =>
      destruct (Z.ltb_spec x y); [try (exfalso; dlia)|try (exfalso; dlia)] end;
    unfold mbind, M_bind.
  - done.
  - rewrite (read_continuation_step _ _ _ (c mod 64)) by (dlia || apply (Hh 1%nat _ eq_refl)).
    cbn. unfold mret, M_ret. do 2 f_equal; [f_equal; dlia|lia].
  - rewrite (read_continuation_step _ _ _ ((c / 64) mod 64))
      by (dlia || apply (Hh 1%nat _ eq_refl)).
    rewrite (read_continuation_step _ _ _ (c mod 64))
      by (dlia || (rewrite <- Z.add_assoc; apply (Hh 2%nat _ eq_refl))).
    cbn. unfold mret, M_ret. do 2 f_equal; [f_equal; dlia|lia].
  - rewrite (read_continuation_step _ _ _ ((c / 4096) mod 64))
      by (dlia || apply (Hh 1%nat _ eq_refl)).
    rewrite (read_continuation_step _ _ _ ((c / 64) mod 64))
      by (dlia || (rewrite <- Z.add_assoc; apply (Hh 2%nat _ eq_refl))).
    rewrite (read_continuation_step _ _ _ (c mod 64))
      by (dlia || (rewrite <- !Z.add_assoc; apply (Hh 3%nat _ eq_refl))).
    cbn. unfold mret, M_ret. do 2 f_equal; [f_equal; dlia|lia].
Qed.

(** ** Runes of a text in memory *)

Lemma utf8_bytes_range c : is_codept c -> Forall (fun b => is_byte b /\ b <> 0) (utf8_bytes c).
Proof.
  intros Hc. unfold is_codept in Hc.
  destruct (utf8_cases c Hc) as [[? ->]|[[? ->]|[[? ->]|[? ->]]]];
    unfold two_byte in *; repeat apply Forall_cons_2; try apply Forall_nil_2;
    unfold is_byte; dlia.
Qed.

Lemma utf8_bytes_cons c :
  is_codept c -> exists b bs, utf8_bytes c = b :: bs /\ is_byte b /\ b <> 0.
Proof.
  intros Hc. pose proof (utf8_bytes_range c Hc) as HF.
  destruct (utf8_cases c Hc) as [[? E]|[[? E]|[[? E]|[? E]]]]; rewrite E in HF |- *;
    apply Forall_cons in HF as [[] _]; eauto.
Qed.

Lemma encode_length_pos c l : is_codept c -> 0 < len (encode (c :: l)).
Proof.
  intros Hc. destruct (utf8_bytes_cons c Hc) as (b & bs & E & _).
  rewrite encode_cons, E. simpl. lia.
Qed.

Lemma read_utf8_mid p pre c post m q :
  is_codept c -> q = p + len pre ->
  read_utf8 q (put p (pre ++ utf8_bytes c ++ post) m) =
  Ok (u16 c, q + len (utf8_bytes c)) (put p (pre ++ utf8_bytes c ++ post) m).
Proof.
  intros Hc ->. apply read_utf8_enc; [done|].
  eapply holds_app_l, holds_app_r, holds_put.
Qed.

Lemma load8_rune p pre c post m q :
  is_codept c -> q = p + len pre ->
  exists b, b <> 0 /\
  load8 q (put p (pre ++ utf8_bytes c ++ post) m) =
  Ok b (put p (pre ++ utf8_bytes c ++ post) m).
Proof.
  intros Hc Hq. destruct (utf8_bytes_cons c Hc) as (b & bs & -> & _ & Hb).
  exists b. split; [done|]. by apply load8_mid.
Qed.

(** The two bytes [write_utf8] stores. *)
Definition written (codept : Z) : list Z :=
  [u8 (Z.lor 192 (Z.shiftr (u16 codept) 6)); u8 (Z.lor 128 (Z.land (u16 codept) 63))].

Lemma written_spec c : 0 <= c < 2048 -> written c = [192 + c / 64; 128 + c mod 64].
Proof.
  intros Hc. unfold written. rewrite u16_small by lia.
  change 63 with (Z.ones 6). rewrite Z.land_ones by lia. change (2 ^ 6) with 64.
  rewrite (Z.shiftr_div_pow2 c 6) by lia. change (2 ^ 6) with 64.
  change 192 with (Z.shiftl 3 6) at 1. change 128 with (Z.shiftl 2 6) at 1.
  rewrite !lor_shiftl_add by dlia. rewrite !u8_small by (unfold is_byte; dlia). done.
Qed.

Lemma written_two_byte c : two_byte c -> written c = utf8_bytes c.
Proof.
  intros Hc. rewrite utf8_two_byte by done. apply written_spec. unfold two_byte in Hc. lia.
Qed.

Lemma write_utf8_mid p pre a b post m q c :
  q = p + len pre ->
  write_utf8 q c (put p (pre ++ a :: b :: post) m) =
  Ok tt (put p (pre ++ written c ++ post) m).
Proof.
  intros Hq. unfold write_utf8.
  rewrite (bind_ok _ _ _ _ _ (store8_mid p pre a _ m _ q Hq)).
  change (pre ++ ?x :: b :: post) with (pre ++ [x] ++ b :: post). rewrite app_assoc.
  rewrite store8_mid by (rewrite length_app; simpl; lia). by rewrite <- app_assoc.
Qed.

(** Overwriting a two-byte rune of a text with another one. *)
Lemma write_utf8_rune p l1 old new l2 post m q :
  two_byte old -> two_byte new -> q = p + len (encode l1) ->
  write_utf8 q new (put p (encode (l1 ++ old :: l2) ++ post) m) =
  Ok tt (put p (encode (l1 ++ new :: l2) ++ post) m).
Proof.
  intros Hold Hnew Hq. rewrite !encode_app, !encode_cons, <- !app_assoc.
  rewrite <- (written_two_byte new) by done. rewrite utf8_two_byte by done.
  by apply write_utf8_mid.
Qed.

Lemma utf8_length_eq c c' :
  two_byte c -> two_byte c' -> length (utf8_bytes c) = length (utf8_bytes c').
Proof. intros. by rewrite !utf8_two_byte. Qed.

#[export] Hint Resolve two_byte_codept : text.

(** ** The fuel of a loop over a text *)

(** A text fits in the addresses that are mapped. *)
Lemma size_put p l m : (length l <= size (dom (put p l m)))%nat.
Proof.
  transitivity (size (dom (put p l (∅ : mem)))).
  - revert p. induction l as [|b l IH]; intros p; cbn [put length]; [lia|].
    rewrite dom_insert_L, size_union.
    + rewrite size_singleton. specialize (IH (p + 1)). lia.
    + apply disjoint_singleton_l, not_elem_of_dom. rewrite put_lookup_out by lia. done.
  - apply subseteq_size. intros a. rewrite !elem_of_dom, !put_lookup.
    by destruct ((p <=? a) && (a <? p + len l)); [|intros []].
Qed.

Lemma encode_length_ge cs : Forall is_codept cs -> (length cs <= length (encode cs))%nat.
Proof.
  induction 1 as [|c cs Hc _ IH]; [done|].
  rewrite encode_cons, length_app. simpl.
  destruct (utf8_bytes_cons c Hc) as (b & bs & -> & _). simpl. lia.
Qed.

Lemma text_fuel_enough p cps tail m :
  Forall is_codept cps -> (length cps + 3 <= text_fuel (put p (encode cps ++ 0%Z :: tail) m))%nat.
Proof.
  intros Hcps. unfold text_fuel. pose proof (size_put p (encode cps ++ 0 :: tail) m) as Hs.
  rewrite length_app in Hs. cbn [length] in Hs.
  pose proof (encode_length_ge _ Hcps).
  lia.
Qed.

(** ** Reading arbitrary memory *)

Lemma read_continuation_no_fuel ct codept q m : read_continuation ct codept q m <> OutOfFuel.
Proof.
  revert codept q m. induction ct as [|ct IH]; intros; cbn [read_continuation]; [done|].
  apply bind_no_fuel; [apply load8_no_fuel|intros; apply IH].
Qed.

Lemma read_utf8_no_fuel q m : read_utf8 q m <> OutOfFuel.
Proof.
  unfold read_utf8. apply bind_no_fuel; [apply load8_no_fuel|intros b m'].
  apply bind_no_fuel; [apply read_continuation_no_fuel|by intros []].
Qed.

Lemma read_continuation_advances ct codept q m codept' q' m' :
  read_continuation ct codept q m = Ok (codept', q') m' -> q' = q + Z.of_nat ct /\ m' = m.
Proof.
  revert codept q. induction ct as [|ct IH]; intros codept q; cbn [read_continuation].
  - intros [= <- <- <-]. by rewrite Z.add_0_r.
  - unfold mbind, M_bind, load8. destruct (m !! (q + 1)); [|done].
    intros [-> ->]%IH. split; [lia|done].
Qed.

Lemma read_utf8_advances q m codept q' m' :
  read_utf8 q m = Ok (codept, q') m' -> q < q' /\ m' = m.
Proof.
  unfold read_utf8, mbind, M_bind, load8. destruct (m !! q); [|done].
  destruct (read_continuation _ _ _ _) as [[] ?|?|] eqn:E; try done.
  intros [= <- <- <-]. apply read_continuation_advances in E as [-> ->]. split; [lia|done].
Qed.

Lemma write_utf8_no_fuel q c m : write_utf8 q c m <> OutOfFuel.
Proof. unfold write_utf8. no_fuel. Qed.

Lemma write_utf8_keeps_dom q c : keeps_dom (write_utf8 q c).
Proof. unfold write_utf8. apply keeps_dom_bind; [|intros ?]; apply keeps_dom_store8. Qed.

#[export] Hint Resolve read_utf8_no_fuel write_utf8_no_fuel write_utf8_keeps_dom : fuel.

(** ** Properties *)

(** [read_utf8] decodes: on the UTF-8 encoding of any code point it returns the
    code point modulo 2^16, moves the pointer to the byte after the encoding, and
    changes nothing in memory. *)
Theorem read_utf8_decodes c q m :
  is_codept c -> holds m q (utf8_bytes c) ->
  read_utf8 q m = Ok (c mod 65536, q + len (utf8_bytes c)) m.
Proof. apply read_utf8_enc. Qed.

Theorem read_utf8_decodes_witness :
  read_utf8 100 (put 100 [240; 159; 152; 128] ∅) =
  Ok (62976, 104) (put 100 [240; 159; 152; 128] ∅).
Proof.
  apply (read_utf8_decodes 128512 100); [by vm_compute|apply holds_put].
Defined.

(** a code point below 2^11 written over any two bytes is read back as itself,
    the pointer lands behind the two bytes, no other byte changes, and the two
    bytes are never NUL, so that a write never ends the text early. *)
Theorem write_utf8_read_back c p a b m :
  0 <= c < 2048 -> holds m p [a; b] ->
  exists m', write_utf8 p c m = Ok tt m' /\
    read_utf8 p m' = Ok (c, p + 2) m' /\
    (forall x, x <> p -> x <> p + 1 -> m' !! x = m !! x) /\
    (exists b0 b1, m' !! p = Some b0 /\ m' !! (p + 1) = Some b1 /\ 128 <= b0 /\ 128 <= b1).
Proof.
  intros Hc Hh. exists (put p (written c) m). split.
  { rewrite <- Hh at 1. rewrite (write_utf8_mid p [] a b []) by (simpl; lia).
    by rewrite app_nil_r. }
  rewrite written_spec by done. split; [|split].
  - rewrite (read_utf8_lead _ (192 + c / 64)) by (unfold is_byte; dlia || apply lookup_insert_eq).
    rewrite utf8_extra_spec by (unfold is_byte; dlia).
    repeat match goal with |- context [?x <? ?y] =>
      destruct (Z.ltb_spec x y); [try (exfalso; dlia)|try (exfalso; dlia)] end.
    unfold mbind, M_bind. rewrite (read_continuation_step _ _ _ (c mod 64)).
    + cbn. unfold mret, M_ret, u16. do 2 f_equal; [f_equal; dlia|lia].
    + dlia.
    + simpl. by rewrite lookup_insert_ne, lookup_insert_eq by lia.
  - intros x H1 H2. apply put_lookup_out. simpl. lia.
  - exists (192 + c / 64), (128 + c mod 64). split; [apply lookup_insert_eq|].
    split; [|dlia]. simpl. by rewrite lookup_insert_ne, lookup_insert_eq by lia.
Qed.

Theorem write_utf8_read_back_witness :
  exists m', write_utf8 7 0x628 (put 7 [0; 0] ∅) = Ok tt m' /\
    read_utf8 7 m' = Ok (0x628, 7 + 2) m' /\
    (forall x, x <> 7 -> x <> 7 + 1 -> m' !! x = put 7 [0; 0] ∅ !! x) /\
    (exists b0 b1, m' !! 7 = Some b0 /\ m' !! (7 + 1) = Some b1 /\ 128 <= b0 /\ 128 <= b1).
Proof. apply (write_utf8_read_back 0x628 7 0 0); [lia|apply holds_put]. Defined.
