(* ===== verification/Ranges.v ===== *)
(** * Classes of code points (runtime/rtl_ranges.c, the generated font_ranges.c)

    [is_zero_width] and [ZERO_WIDTH_CODEPT] are generated by fonts/compose.py from
    the table [ZERO_WIDTH_CODEPOINT_RANGES]; [ARABIC_SHAPER_RANGE] comes from
    the generated text_shaper_lut.h, so its ranges are a parameter here. *)

From S2P Require Import Prelude.

(** ** font_ranges.c, as fonts/compose.py writes it *)

Definition ZERO_WIDTH_CODEPOINT_RANGES : list (Z * Z) :=
  [(0x591, 0x5C0); (0x5C1, 0x5C3); (0x5C4, 0x5C6); (0x5C7, 0x5C8); (0x610, 0x61B);
   (0x64B, 0x660); (0x6D6, 0x6DC); (0x6DF, 0x6E9); (0x6EA, 0x6EE); (0x8B6, 0x8FF)].

(** [list(itertools.chain.from_iterable((range( *r) for r in ...)))] *)
Definition ZERO_WIDTH_CODEPOINTS : list Z :=
  flat_map (fun r => seqZ r.1 (r.2 - r.1)) ZERO_WIDTH_CODEPOINT_RANGES.

(** The generated disjunction of [RANGE] tests. *)
Definition in_ranges (ranges : list (Z * Z)) (cp : Z) : bool :=
  existsb (fun r => RANGE cp r.1 r.2) ranges.

Definition is_zero_width (codept : Z) : bool := in_ranges ZERO_WIDTH_CODEPOINT_RANGES codept.

(** [#define ZERO_WIDTH_CODEPT %d] with [ZERO_WIDTH_CODEPOINTS[0]]. *)
Definition ZERO_WIDTH_CODEPT : Z := default 0 (head ZERO_WIDTH_CODEPOINTS).

(** ** rtl_ranges.c *)

(** The ranges behind [ARABIC_SHAPER_RANGE], which text_shaper.py generates. *)
Class ShaperRange := shapable_ranges : list (Z * Z).

Definition ARABIC_SHAPER_RANGE `{ShaperRange} (cp : Z) : bool := in_ranges shapable_ranges cp.

Definition is_rtl `{ShaperRange} (cp : Z) : bool :=
  RANGE cp 0x60E 0x660 ||
  RANGE cp 0x66D (0x6FF + 1) ||
  RANGE cp 0x750 (0x77F + 1) ||
  RANGE cp 0x590 0x600 ||
  ARABIC_SHAPER_RANGE cp.

Definition is_neutral (cp : Z) : bool :=
  RANGE cp 0x20 0x23 ||
  RANGE cp 0x26 0x30 ||
  RANGE cp 0x3A 0x41 ||
  RANGE cp 0x5B 0x61 ||
  RANGE cp 0x7B 0xA2 ||
  RANGE cp 0xA6 0xA7 ||
  RANGE cp 0xA8 0xB0 ||
  RANGE cp 0xB7 0xBf ||
  RANGE cp 0x600 0x60E ||
  is_zero_width cp.

Definition is_weak_ltr (cp : Z) : bool :=
  RANGE cp 0x30 0x3A ||
  RANGE cp 0x660 0x66D.

(** ** Interface to the clients *)

(** What the generator promises about the shaper's code points: they lie in the
    two scratch blocks of text_shaper.py, so they are two-byte runes. *)
Class ShaperRangeOk `{ShaperRange} : Prop := {
  shaper_range_scratch cp :
    ARABIC_SHAPER_RANGE cp = true -> 0x700 <= cp < 0x750 \/ 0x780 <= cp < 0x800
}.
