(* ===== verification/Reverse.v ===== *)
(** * Reversing a span of text in place ([reverse_span] of runtime/rtl.c) *)

From S2P Require Import Prelude Memory Utf8.

(** ** The code *)

(** [SWAP(a, b)] *)
Definition SWAP (a b : Z) : M unit :=
  swap ← load8 a;
  y ← load8 b;
  store8 a y;;
  store8 b swap.

(** One iteration of the byte-wise reversal, on [start_iter] and [end_iter]. *)
Definition reverse_bytes_body (it : Z * Z) : M (Z * Z + unit) :=
  let '(start_iter, end_iter) := it in
  if start_iter <? end_iter then
    SWAP start_iter end_iter;;
    mret (inl (start_iter + 1, end_iter - 1))
  else mret (inr tt).

(** One iteration of the pass that rotates the runes back, on [end_iter]. *)
Definition rotate_runes_body (start end_iter : Z) : M (Z + unit) :=
  let end_iter := end_iter - 1 in
  if end_iter >=? start then
    b ← load8 end_iter;
    match Z.shiftr b 4 with
    | 15 =>
        SWAP (end_iter - 3) end_iter;;
        SWAP (end_iter - 2) (end_iter - 1);;
        mret (inl (end_iter - 3))
    | 14 =>
        SWAP (end_iter - 2) end_iter;;
        mret (inl (end_iter - 2))
    | 12 | 13 =>
        SWAP (end_iter - 1) end_iter;;
        mret (inl (end_iter - 1))
    | _ => mret (inl end_iter)
    end
  else mret (inr tt).

(** Each pass takes at most one iteration per byte and one for its last test. *)
Definition reverse_fuel (start end_ : Z) : nat := S (Z.to_nat (end_ - start)).

Definition reverse_span (start end_ : Z) : M unit :=
  loop (reverse_fuel start end_) reverse_bytes_body (start, end_ - 1);;
  loop (reverse_fuel start end_) (rotate_runes_body start) end_.

(** ** The byte-wise pass *)

Lemma SWAP_at p pre l i j x y m a b :
  is_byte x -> is_byte y -> l !! i = Some x -> l !! j = Some y ->
  a = p + len pre + Z.of_nat i -> b = p + len pre + Z.of_nat j ->
  SWAP a b (put p (pre ++ l) m) =
  Ok tt (put p (pre ++ <[j := x]> (<[i := y]> l)) m).
Proof.
  intros Hx Hy Hi Hj Ha Hb. unfold SWAP.
  rewrite (bind_ok _ _ _ _ _ (load8_at _ _ _ _ _ _ _ Hi Ha)).
  rewrite (bind_ok _ _ _ _ _ (load8_at _ _ _ _ _ _ _ Hj Hb)).
  pose proof (lookup_lt_Some _ _ _ Hi) as Hli. pose proof (lookup_lt_Some _ _ _ Hj) as Hlj.
  rewrite (bind_ok _ _ _ _ _ (store8_at p pre l i y m a Hli Ha)), u8_small by done.
  rewrite (store8_at p pre _ j x m b); [by rewrite u8_small|by rewrite length_insert|done].
Qed.

Lemma SWAP_mid p A x L y B m a b :
  is_byte x -> is_byte y -> a = p + len A -> b = p + len A + 1 + len L ->
  SWAP a b (put p (A ++ x :: L ++ y :: B) m) =
  Ok tt (put p (A ++ y :: L ++ x :: B) m).
Proof.
  intros Hx Hy -> ->.
  rewrite (SWAP_at p A _ 0 (S (length L)) x y); [|done|done|done| |lia|lia].
  - simpl. by rewrite insert_app_r_alt, Nat.sub_diag by done.
  - simpl. by rewrite list_lookup_middle.
Qed.

Lemma rev_ends {A} (l : list A) :
  l = [] \/ (exists x, l = [x]) \/ exists x l' y, l = x :: l' ++ [y].
Proof.
  destruct l as [|x l]; [by left|right].
  destruct l as [|y l _] using rev_ind; [left; by exists x|right; by exists x, l, y].
Qed.

Lemma reverse_bytes_loop p fuel l A B m s e :
  Forall is_byte l -> (length l < fuel)%nat ->
  s = p + len A -> e = p + len A + len l - 1 ->
  loop fuel reverse_bytes_body (s, e) (put p (A ++ l ++ B) m) =
  Ok tt (put p (A ++ rev l ++ B) m).
Proof.
  revert l A B s e. induction fuel as [|fuel IH]; intros l A B s e Hl Hf Hs He; [lia|].
  destruct (rev_ends l) as [->|[[x ->]|(x & l' & y & ->)]].
  1,2: apply loop_exit; unfold reverse_bytes_body; simpl in He;
       destruct (Z.ltb_spec s e); [lia|done].
  simpl in He, Hf, Hl. rewrite length_app in He, Hf. simpl in He, Hf.
  apply Forall_cons in Hl as [Hx [Hl [Hy _]%Forall_cons]%Forall_app].
  erewrite (loop_next _ _ _ (s + 1, e - 1) _ (put p ((A ++ [y]) ++ l' ++ x :: B) m)).
  - rewrite IH; [|done|lia|rewrite length_app; simpl; lia..].
    f_equal. simpl. rewrite rev_app_distr. simpl. by rewrite <- !app_assoc.
  - unfold reverse_bytes_body. destruct (Z.ltb_spec s e); [|lia].
    simpl. rewrite <- !app_assoc. simpl.
    rewrite (bind_ok _ _ _ _ _ (SWAP_mid p A x l' y B m s e Hx Hy Hs
      ltac:(lia))).
    done.
Qed.

(** ** The pass over the runes *)

(** Runes with the bytes of each one backwards. *)
Definition backward_runes (cs : list Z) : list Z := flat_map (fun c => rev (utf8_bytes c)) cs.

Lemma rev_encode cs : rev (encode cs) = backward_runes (rev cs).
Proof.
  induction cs as [|c cs IH]; [done|].
  rewrite encode_cons, rev_app_distr, IH. unfold backward_runes.
  simpl. rewrite flat_map_app. simpl. by rewrite app_nil_r.
Qed.

Lemma backward_runes_length cs : length (backward_runes cs) = length (encode cs).
Proof.
  induction cs as [|c cs IH]; [done|]. simpl. unfold backward_runes, encode in *. simpl.
  rewrite !length_app, IH. by rewrite length_rev.
Qed.

Lemma high_nibble b : Z.shiftr b 4 = b / 16.
Proof. by rewrite Z.shiftr_div_pow2. Qed.

(** Runs the [load8] or the [SWAP] at the head of the goal on known bytes. *)
Ltac run_load k b :=
  match goal with |- context [mbind _ (load8 ?q) (put ?p (?X ++ ?l) ?m)] =>
    rewrite (bind_ok _ _ _ _ _ (load8_at p X l k b m q eq_refl ltac:(lia))) end.

Ltac run_SWAP i j x y :=
  match goal with |- context [mbind _ (SWAP ?a ?b) (put ?p (?X ++ ?l) ?m)] =>
    rewrite (bind_ok _ _ _ _ _ (SWAP_at p X l i j x y m a b
      ltac:(unfold is_byte; dlia) ltac:(unfold is_byte; dlia)
      eq_refl eq_refl ltac:(lia) ltac:(lia))); cbn end.

(** The iteration that meets a rune whose bytes are backwards puts them right. *)
Lemma rotate_rune p c X B m start q :
  is_codept c -> start <= p + len X -> q = p + len X + len (utf8_bytes c) ->
  rotate_runes_body start q (put p (X ++ rev (utf8_bytes c) ++ B) m) =
  Ok (inl (p + len X)) (put p (X ++ utf8_bytes c ++ B) m).
Proof.
  intros Hc Hstart Hq. unfold is_codept in Hc.
  destruct (utf8_cases c Hc) as [[? E]|[[? E]|[[? E]|[? E]]]]; rewrite E in *;
    unfold rotate_runes_body, two_byte in *; cbn [rev app] in *; cbn [length] in Hq;
    destruct (Z.geb_spec (q - 1) start); try lia.
  - run_load 0%nat c. rewrite high_nibble.
    assert (c / 16 = 0 \/ c / 16 = 1 \/ c / 16 = 2 \/ c / 16 = 3 \/
            c / 16 = 4 \/ c / 16 = 5 \/ c / 16 = 6 \/ c / 16 = 7) as Hn by dlia.
    replace (q - 1) with (p + len X) by lia. by destruct_or? Hn; rewrite Hn.
  - run_load 1%nat (192 + c / 64). rewrite high_nibble.
    assert ((192 + c / 64) / 16 = 12 \/ (192 + c / 64) / 16 = 13) as Hn by dlia.
    destruct_or? Hn; rewrite Hn.
    all: run_SWAP 0%nat 1%nat (128 + c mod 64) (192 + c / 64).
    all: by replace (q - 1 - 1) with (p + len X) by lia.
  - run_load 2%nat (224 + c / 4096). rewrite high_nibble.
    assert ((224 + c / 4096) / 16 = 14) as -> by dlia.
    run_SWAP 0%nat 2%nat (128 + c mod 64) (224 + c / 4096).
    by replace (q - 1 - 2) with (p + len X) by lia.
  - run_load 3%nat (240 + c / 262144). rewrite high_nibble.
    assert ((240 + c / 262144) / 16 = 15) as -> by dlia.
    run_SWAP 0%nat 3%nat (128 + c mod 64) (240 + c / 262144).
    run_SWAP 1%nat 2%nat (128 + (c / 64) mod 64) (128 + (c / 4096) mod 64).
    by replace (q - 1 - 3) with (p + len X) by lia.
Qed.

Lemma rotate_runes_loop p cs fuel A B m q :
  Forall is_codept cs -> (length cs < fuel)%nat -> q = p + len A + len (encode cs) ->
  loop fuel (rotate_runes_body (p + len A)) q (put p (A ++ backward_runes cs ++ B) m) =
  Ok tt (put p (A ++ encode cs ++ B) m).
Proof.
  revert fuel B q. induction cs as [|c cs IH] using rev_ind; intros fuel B q Hcs Hf Hq;
    (destruct fuel as [|fuel]; [lia|]).
  - apply loop_exit. unfold rotate_runes_body. simpl in Hq.
    destruct (Z.geb_spec (q - 1) (p + len A)); [lia|done].
  - apply Forall_app in Hcs as [Hcs [Hc _]%Forall_cons]. rewrite length_app in Hf. simpl in Hf.
    rewrite encode_app, encode_one in Hq |- *. rewrite length_app in Hq.
    unfold backward_runes. rewrite flat_map_app. simpl. rewrite app_nil_r, <- !app_assoc.
    fold (backward_runes cs).
    erewrite loop_next.
    2: { rewrite app_assoc. apply (rotate_rune p c); [done| |].
         all: rewrite length_app, backward_runes_length; lia. }
    rewrite <- app_assoc. apply IH; [done|lia|].
    rewrite length_app, backward_runes_length. lia.
Qed.

(** ** The whole function *)

Lemma encode_is_byte cs : Forall is_codept cs -> Forall is_byte (encode cs).
Proof.
  induction 1 as [|c cs Hc _ IH]; [apply Forall_nil_2|].
  rewrite encode_cons. apply Forall_app_2; [|done].
  by eapply Forall_impl; [apply utf8_bytes_range|intros ? []].
Qed.

Lemma reverse_span_runes p cs A B m s e :
  Forall is_codept cs -> s = p + len A -> e = p + len A + len (encode cs) ->
  reverse_span s e (put p (A ++ encode cs ++ B) m) =
  Ok tt (put p (A ++ encode (rev cs) ++ B) m).
Proof.
  intros Hcs Hs He. unfold reverse_span.
  pose proof (encode_length_ge cs Hcs) as Hlen.
  erewrite bind_ok.
  2: { apply reverse_bytes_loop; [by apply encode_is_byte| |done|lia].
       unfold reverse_fuel. lia. }
  rewrite rev_encode, Hs. apply rotate_runes_loop.
  - by apply Forall_rev.
  - unfold reverse_fuel. rewrite length_rev. lia.
  - rewrite <- (backward_runes_length (rev cs)), <- rev_encode, length_rev. lia.
Qed.

(** ** Termination on any input *)

Lemma SWAP_no_fuel a b m : SWAP a b m <> OutOfFuel.
Proof. unfold SWAP. no_fuel. Qed.

Lemma reverse_span_no_fuel s e m : reverse_span s e m <> OutOfFuel.
Proof.
  unfold reverse_span. apply bind_no_fuel; [|intros _ m'].
  - apply (loop_ends (fun it => Z.to_nat (it.2 + 1 - it.1))).
    + intros [? ?] ?. unfold reverse_bytes_body. case_match; [|done].
      apply bind_no_fuel; [apply SWAP_no_fuel|done].
    + intros [x y] m0 s' m1. unfold reverse_bytes_body.
      destruct (Z.ltb_spec x y); [|done]. unfold mbind, M_bind.
      destruct (SWAP _ _ _); try done. intros [= <-]. simpl. lia.
    + unfold reverse_fuel. simpl. lia.
  - apply (loop_ends (fun it => Z.to_nat (it - s))).
    + intros ? ?. unfold rotate_runes_body. case_match; [|done].
      apply bind_no_fuel; [apply load8_no_fuel|intros].
      repeat case_match; try done; repeat (apply bind_no_fuel; [apply SWAP_no_fuel|intros]);
        done.
    + intros x m0 s' m1. unfold rotate_runes_body. destruct (Z.geb_spec (x - 1) s); [|done].
      unfold mbind, M_bind. destruct (load8 _ _); try done.
      repeat case_match; try done; intros [= <-]; lia.
    + unfold reverse_fuel. lia.
Qed.

(** ** Properties *)

(** C16: on a span that holds UTF-8 text, [reverse_span] reverses the order of its
    code points, keeps the bytes of each one in order, and leaves every byte
    outside the span alone. *)
Theorem reverse_span_reverses_runes cs m s e :
  Forall is_codept cs -> holds m s (encode cs) -> e = s + len (encode cs) ->
  reverse_span s e m = Ok tt (put s (encode (rev cs)) m).
Proof.
  intros Hcs Hm He. rewrite <- Hm at 1.
  pose proof (reverse_span_runes s cs [] [] m s e Hcs ltac:(simpl; lia) ltac:(simpl; lia)) as H.
  simpl in H. by rewrite !app_nil_r in H.
Qed.

(** The span "א(é)" of 1-, 2- and 3-byte runes. *)
Theorem reverse_span_reverses_runes_witness :
  reverse_span 10 18 (put 10 (encode [0x5D0; 0x28; 0x20AC; 0xE9]) ∅) =
  Ok tt (put 10 (encode [0xE9; 0x20AC; 0x28; 0x5D0])
           (put 10 (encode [0x5D0; 0x28; 0x20AC; 0xE9]) ∅)).
Proof.
  apply (reverse_span_reverses_runes [0x5D0; 0x28; 0x20AC; 0xE9]);
    [repeat apply Forall_cons_2; (apply Forall_nil_2 || by vm_compute)|apply holds_put|done].
Defined.

(** Reversing a span of text twice restores the whole memory. *)
Theorem reverse_span_involutive cs m s e :
  Forall is_codept cs -> holds m s (encode cs) -> e = s + len (encode cs) ->
  (reverse_span s e;; reverse_span s e) m = Ok tt m.
Proof.
  intros Hcs Hm He.
  assert (forall l, Forall is_codept l -> len (encode l) = len (encode cs) ->
    reverse_span s e (put s (encode l) m) = Ok tt (put s (encode (rev l)) m)) as H.
  { intros l Hl Hlen.
    pose proof (reverse_span_runes s l [] [] m s e Hl ltac:(simpl; lia) ltac:(simpl; lia)) as H.
    simpl in H. by rewrite !app_nil_r in H. }
  rewrite <- Hm at 1. rewrite (bind_ok _ _ _ _ _ (H cs Hcs eq_refl)), H.
  - by rewrite rev_involutive, Hm.
  - by apply Forall_rev.
  - by rewrite <- (backward_runes_length (rev cs)), <- rev_encode, length_rev.
Qed.

Theorem reverse_span_involutive_witness :
  (reverse_span 10 13;; reverse_span 10 13) (put 10 (encode [0x5D0; 0x31]) ∅) =
  Ok tt (put 10 (encode [0x5D0; 0x31]) ∅).
Proof.
  apply (reverse_span_involutive [0x5D0; 0x31]);
    [repeat apply Forall_cons_2; (apply Forall_nil_2 || by vm_compute)|apply holds_put|done].
Defined.

(** [reverse_span] ends on every input, well-formed text or not: the loops never
    take more iterations than the span has bytes, plus one. *)
Theorem reverse_span_terminates s e m : reverse_span s e m <> OutOfFuel.
Proof. apply reverse_span_no_fuel. Qed.

(** The rotation trusts the leading bytes: on a span whose text is not well-formed
    UTF-8 (here a stray three-byte lead) it writes in front of the span. *)
Theorem reverse_span_malformed_writes_outside :
  exists m m' : mem,
    m = put 8 [0x61; 0x62; 0x41; 0xE0] ∅ /\
    reverse_span 10 12 m = Ok tt m' /\ m !! 8 = Some 0x61 /\ m' !! 8 = Some 0xE0.
Proof. do 2 eexists. split; [reflexivity|]. by vm_compute. Qed.
