(* ===== verification/Rtl.v ===== *)
(** * Laying out a line right to left ([rtl_apply] of runtime/rtl.c)

    [rtl_apply] scans a line once, rune by rune with one rune of lookahead, and
    reverses spans of the line in place.  [rtl_runes] is its specification on the
    code points of the line. *)

From S2P Require Import Prelude Memory Utf8 Ranges Reverse.

Section Rtl.
Context `{ShaperRange}.

(** ** The code *)

(** [{'{', '}', '[', ']', '(', ')', '<', '>'}] *)
Definition RTL_SWAPS : list Z := [123; 125; 91; 93; 40; 41; 60; 62].

(** The loop of [apply_swaps] from index [i] on, [n] entries before the end. *)
Fixpoint apply_swaps_from (n i : nat) (ch val : Z) : M unit :=
  match n with
  | O => mret tt
  | Datatypes.S n =>
      if val =? nth i RTL_SWAPS 0 then store8 ch (nth (Nat.lxor i 1) RTL_SWAPS 0)
      else apply_swaps_from n (Datatypes.S i) ch val
  end.

Definition apply_swaps (ch : Z) : M unit :=
  val ← load8 ch;
  apply_swaps_from (length RTL_SWAPS) 0 ch val.

(** The locals of [rtl_apply] that live across iterations. *)
Record rtl_locals := mk_rtl {
  did_transform : bool;
  rtl_span_start : Z;
  weak_ltr_span_start : Z;
  iter : Z;
  next_codept_ptr : Z;
  next_codept : Z;
}.

(** [if (iter < line_end && *iter)]: the next rune, or 0 at the end of the line. *)
Definition rtl_read_next (line_end it : Z) : M (Z * Z * Z) :=
  more ← (if it <? line_end then b ← load8 it; mret (negb (b =? 0)) else mret false);
  if more : bool then
    '(codept, it') ← read_utf8 it;
    mret (codept, it, it')
  else mret (0, NULL, it).

(** The "weak LTR" block: the new weak span start and the value of [neutral]. *)
Definition rtl_weak_step (weak_ltr neutral : bool) (span weak this_ptr : Z) : M (Z * bool) :=
  if weak_ltr && negb (span =? NULL) then
    mret (if weak =? NULL then this_ptr else weak, true)
  else if negb weak_ltr && negb neutral && negb (span =? NULL) && negb (weak =? NULL) then
    reverse_span weak this_ptr;;
    mret (NULL, neutral)
  else mret (weak, neutral).

(** The runes after which a neutral one stays in the span. *)
Definition continues_span (next : Z) : bool :=
  is_rtl next || is_neutral next || is_weak_ltr next || (next <? 0x20).

(** The block that opens, extends or finishes an RTL span. *)
Definition rtl_span_step (did rtl neutral : bool) (span weak this_ptr next : Z)
    : M (bool * Z * Z) :=
  if rtl && (span =? NULL) && negb (next =? 0) then mret (did, this_ptr, weak)
  else if neutral && negb (span =? NULL) && continues_span next then
    apply_swaps this_ptr;;
    mret (did, span, weak)
  else if negb rtl && negb (span =? NULL) then
    reverse_span span this_ptr;;
    mret (true, NULL, NULL)
  else mret (did, span, weak).

(** One iteration of the [do ... while (next_codept)] loop. *)
Definition rtl_body (line_end : Z) (l : rtl_locals) : M (rtl_locals + rtl_locals) :=
  let this_codept := next_codept l in
  let this_ptr := next_codept_ptr l in
  '(next, next_ptr, it) ← rtl_read_next line_end (iter l);
  let rtl := is_rtl this_codept in
  let weak_ltr := is_weak_ltr this_codept in
  '(weak, neutral) ← rtl_weak_step weak_ltr (is_neutral this_codept)
                       (rtl_span_start l) (weak_ltr_span_start l) this_ptr;
  '(did, span, weak) ← rtl_span_step (did_transform l) rtl neutral (rtl_span_start l) weak
                         this_ptr next;
  let l' := mk_rtl did span weak it next_ptr next in
  mret (if next =? 0 then inr l' else inl l').

(** Every iteration but the last one consumes a byte before [line_end]. *)
Definition rtl_fuel (line_start line_end : Z) : nat :=
  Datatypes.S (Z.to_nat (line_end - line_start)).

Definition rtl_apply (line_start line_end : Z) : M bool :=
  '(next, it) ← read_utf8 line_start;
  l ← loop (rtl_fuel line_start line_end) (rtl_body line_end)
        (mk_rtl false NULL NULL it line_start next);
  (if negb (weak_ltr_span_start l =? NULL)
   then reverse_span (weak_ltr_span_start l) (iter l) else mret tt);;
  if negb (rtl_span_start l =? NULL) then
    reverse_span (rtl_span_start l) (iter l);;
    mret true
  else mret (did_transform l).

(** ** The specification on code points *)

(** The bracket that faces the other way. *)
Definition mirror (c : Z) : Z :=
  if c =? 123 then 125 else if c =? 125 then 123 else if c =? 91 then 93
  else if c =? 93 then 91 else if c =? 40 then 41 else if c =? 41 then 40
  else if c =? 60 then 62 else if c =? 62 then 60 else c.

(** The line read so far: finished runes, then the open RTL span, cut at the start
    of its trailing weak span if it has one. *)
Record rtl_view := mk_view {
  v_did : bool;
  v_done : list Z;
  v_span : option (list Z * option (list Z));
}.

Definition push (c : Z) (sw : list Z * option (list Z)) : list Z * option (list Z) :=
  match sw with
  | (s, None) => (s ++ [c], None)
  | (s, Some w) => (s, Some (w ++ [c]))
  end.

Definition span_runes (sw : list Z * option (list Z)) : list Z := sw.1 ++ default [] sw.2.

(** A digit opens a weak span, or stays in it; a strong rune closes it by reversal. *)
Definition weak_view (weak neutral : bool) (sw : list Z * option (list Z))
    : list Z * option (list Z) :=
  match sw with
  | (s, w) =>
      if weak then (s, Some (default [] w))
      else if neutral then (s, w)
      else (s ++ rev (default [] w), None)
  end.

(** The effect of one rune [c] followed by [next] (0 at the end of the line). *)
Definition rtl_rune (v : rtl_view) (c next : Z) : rtl_view :=
  let rtl := is_rtl (u16 c) in
  let weak := is_weak_ltr (u16 c) in
  let neutral := is_neutral (u16 c) in
  match v_span v with
  | None =>
      if rtl && negb (next =? 0) then mk_view (v_did v) (v_done v) (Some ([c], None))
      else mk_view (v_did v) (v_done v ++ [c]) None
  | Some sw =>
      let sw := weak_view weak neutral sw in
      if (weak || neutral) && continues_span next
      then mk_view (v_did v) (v_done v) (Some (push (mirror c) sw))
      else if negb rtl then mk_view true (v_done v ++ rev (span_runes sw) ++ [c]) None
      else mk_view (v_did v) (v_done v) (Some (push c sw))
  end.

Definition lookahead (cps : list Z) : Z :=
  match cps with [] => 0 | c :: _ => u16 c end.

Fixpoint rtl_scan (v : rtl_view) (cps : list Z) : rtl_view :=
  match cps with
  | [] => v
  | c :: rest => rtl_scan (rtl_rune v c (lookahead rest)) rest
  end.

(** The end of the line reverses an open weak span, then the open span. *)
Definition rtl_close (v : rtl_view) : bool * list Z :=
  match v_span v with
  | None => (v_did v, v_done v)
  | Some (s, w) => (true, v_done v ++ rev (s ++ rev (default [] w)))
  end.

Definition rtl_runes (cps : list Z) : bool * list Z :=
  rtl_close (rtl_scan (mk_view false [] None) cps).

(** A line [rtl_apply] sees whole: its code points are not read as 0. *)
Definition line_ok (cps : list Z) : Prop := Forall (fun c => is_codept c /\ u16 c <> 0) cps.

(** The text ends at [line_end], or before it with a NUL. *)
Definition line_stops (line_end q : Z) (post : list Z) : Prop :=
  line_end = q \/ (q <= line_end /\ exists post', post = 0 :: post').

(** Where the span starts and the weak span starts of a view are in memory. *)
Definition flat (v : rtl_view) : list Z :=
  v_done v ++ match v_span v with None => [] | Some sw => span_runes sw end.

Definition span_ptr (p : Z) (v : rtl_view) : Z :=
  match v_span v with None => NULL | Some _ => p + len (encode (v_done v)) end.

Definition weak_ptr (p : Z) (v : rtl_view) : Z :=
  match v_span v with
  | Some (s, Some _) => p + len (encode (v_done v ++ s))
  | _ => NULL
  end.

(** The locals of the scan at the head of an iteration that will process [c]. *)
Definition locals_of (p : Z) (v : rtl_view) (c : Z) : rtl_locals :=
  let q := p + len (encode (flat v)) in
  mk_rtl (v_did v) (span_ptr p v) (weak_ptr p v) (q + len (utf8_bytes c)) q (u16 c).

(** ** Code point classes and brackets *)

Lemma mirror_codept c : is_codept c -> is_codept (mirror c).
Proof. unfold mirror, is_codept. intros. repeat case_match; lia. Qed.

Lemma utf8_mirror_length c : is_codept c -> len (utf8_bytes (mirror c)) = len (utf8_bytes c).
Proof.
  intros Hc. unfold mirror.
  repeat match goal with |- context [?x =? ?y] => destruct (Z.eqb_spec x y) as [->|] end; done.
Qed.

Lemma not_NULL p n : 0 < p -> 0 <= n -> (p + n =? NULL) = false.
Proof. unfold NULL. intros. apply Z.eqb_neq. lia. Qed.

(** [apply_swaps] mirrors the rune it points at. *)
Lemma apply_swaps_rune p X c Y m q :
  is_codept c -> q = p + len X ->
  apply_swaps q (put p (X ++ utf8_bytes c ++ Y) m) =
  Ok tt (put p (X ++ utf8_bytes (mirror c) ++ Y) m).
Proof.
  intros Hc Hq. unfold apply_swaps. unfold is_codept in Hc.
  assert (c < 128 \/ 128 <= c) as [Hlt|Hge] by lia.
  - assert (forall x, 0 <= x < 128 -> utf8_bytes x = [x]) as E.
    { intros x Hx. unfold utf8_bytes. destruct (Z.ltb_spec x 128); [done|lia]. }
    rewrite (E c) by lia.
    rewrite (bind_ok _ _ _ _ _ (load8_mid p X c Y m q Hq)).
    unfold mirror. cbn -[put store8 utf8_bytes Z.eqb].
    repeat match goal with |- context [c =? ?y] => destruct (Z.eqb_spec c y) as [->|] end.
    all: first [by rewrite (store8_mid p X _ Y m _ q Hq) | by rewrite E by lia].
  - assert (mirror c = c) as ->.
    { unfold mirror.
      repeat match goal with |- context [c =? ?y] => destruct (Z.eqb_spec c y); [lia|] end. done. }
    destruct (utf8_cases c Hc) as [[? E]|[[? E]|[[? E]|[? E]]]]; [lia|..]; rewrite E;
      unfold two_byte in *; cbn [app];
      rewrite (bind_ok _ _ _ _ _ (load8_mid p X _ _ m q Hq));
      cbn -[put store8 utf8_bytes Z.eqb Z.div Z.modulo Z.add];
      repeat match goal with |- context [?x =? ?y] => destruct (Z.eqb_spec x y); [exfalso; dlia|] end;
      done.
Qed.

(** ** One iteration on a view *)

Lemma flat_none did done_ : flat (mk_view did done_ None) = done_.
Proof. apply app_nil_r. Qed.

Lemma rtl_read_next_ok p X rest post m q line_end :
  Forall is_codept rest -> q = p + len X ->
  line_stops line_end (q + len (encode rest)) post ->
  rtl_read_next line_end q (put p (X ++ encode rest ++ post) m) =
  Ok (match rest with
      | [] => (0, NULL, q)
      | c :: _ => (u16 c, q, q + len (utf8_bytes c))
      end) (put p (X ++ encode rest ++ post) m).
Proof.
  intros Hrest Hq Hstop. unfold rtl_read_next. destruct rest as [|c rest].
  - simpl in *. destruct (Z.ltb_spec q line_end) as [Hlt|]; [|done].
    destruct Hstop as [|[_ [post' ->]]]; [lia|].
    by rewrite (bind_assoc _ _ _ _), (bind_ok _ _ _ _ _ (load8_mid p X 0 post' m q Hq)).
  - apply Forall_cons in Hrest as [Hc Hrest].
    pose proof (encode_length_pos c rest Hc) as Hpos.
    assert (q < line_end) as Hlt by (destruct Hstop as [|[]]; lia).
    destruct (Z.ltb_spec q line_end); [|lia].
    rewrite encode_cons, <- app_assoc.
    destruct (load8_rune p X c (encode rest ++ post) m q Hc Hq) as (b & Hb & Hload).
    rewrite (bind_assoc _ _ _ _), (bind_ok _ _ _ _ _ Hload), bind_ret.
    apply Z.eqb_neq in Hb. rewrite Hb. cbn [negb].
    by rewrite (bind_ok _ _ _ _ _ (read_utf8_mid p X c _ m q Hc Hq)).
Qed.

(** Lists of runes that encode to equally many bytes. *)
Lemma encode_rev_length l : len (encode (rev l)) = len (encode l).
Proof. by rewrite <- (backward_runes_length (rev l)), <- rev_encode, length_rev. Qed.

Lemma reverse_span_at p A cs B m s e :
  Forall is_codept cs -> s = p + len (encode A) -> e = p + len (encode (A ++ cs)) ->
  reverse_span s e (put p (encode (A ++ cs) ++ B) m) =
  Ok tt (put p (encode (A ++ rev cs) ++ B) m).
Proof.
  intros Hcs Hs He. rewrite !encode_app, <- !app_assoc.
  apply reverse_span_runes; [done|done|]. rewrite He, encode_app, length_app. lia.
Qed.

(** The view after the "weak LTR" block. *)
Definition weak_step_view (weak neutral : bool) (v : rtl_view) : rtl_view :=
  mk_view (v_did v) (v_done v) (weak_view weak neutral <$> v_span v).

Lemma weak_step_flat_length weak neutral v :
  len (encode (flat (weak_step_view weak neutral v))) = len (encode (flat v)).
Proof.
  unfold flat, weak_step_view. destruct (v_span v) as [[s w]|]; [|done]. simpl.
  unfold span_runes. destruct weak, neutral, w; simpl; rewrite ?app_nil_r; try done.
  rewrite !encode_app, !length_app, !Nat2Z.inj_add, encode_rev_length. lia.
Qed.

Lemma rtl_weak_step_ok p v weak neutral Y m this_ptr :
  0 < p -> Forall is_codept (flat v) -> this_ptr = p + len (encode (flat v)) ->
  rtl_weak_step weak neutral (span_ptr p v) (weak_ptr p v) this_ptr
    (put p (encode (flat v) ++ Y) m) =
  Ok (weak_ptr p (weak_step_view weak neutral v),
      match v_span v with None => neutral | Some _ => weak || neutral end)
     (put p (encode (flat (weak_step_view weak neutral v)) ++ Y) m).
Proof.
  intros Hp Hv Hthis. unfold rtl_weak_step, flat, span_ptr, weak_ptr, weak_step_view in *.
  destruct v as [did done_ [[s w]|]]; simpl in *; [|by destruct weak, neutral].
  rewrite not_NULL by lia. simpl.
  destruct w as [w|]; unfold span_runes in *; simpl in *; rewrite ?app_nil_r in *.
  - rewrite not_NULL by lia. destruct weak, neutral; simpl; try done.
    rewrite app_assoc in Hv, Hthis |- *. rewrite (bind_ok _ _ _ _ _
      (reverse_span_at p (done_ ++ s) w Y m _ _ (proj2 (proj1 (Forall_app _ _ _) Hv))
         eq_refl Hthis)). by rewrite app_nil_r, !app_assoc.
  - destruct weak, neutral; simpl; rewrite ?app_nil_r; try done.
    all: by rewrite Hthis.
Qed.

(** Putting the processed rune [c] behind a view. *)
Definition span_step_view (rtl neutral : bool) (v : rtl_view) (c next : Z) : rtl_view :=
  match v_span v with
  | None =>
      if rtl && negb (next =? 0) then mk_view (v_did v) (v_done v) (Some ([c], None))
      else mk_view (v_did v) (v_done v ++ [c]) None
  | Some sw =>
      if neutral && continues_span next
      then mk_view (v_did v) (v_done v) (Some (push (mirror c) sw))
      else if negb rtl then mk_view true (v_done v ++ rev (span_runes sw) ++ [c]) None
      else mk_view (v_did v) (v_done v) (Some (push c sw))
  end.

Lemma rtl_rune_steps v c next :
  rtl_rune v c next =
  span_step_view (is_rtl (u16 c))
    (match v_span v with
     | None => is_neutral (u16 c)
     | Some _ => is_weak_ltr (u16 c) || is_neutral (u16 c)
     end) (weak_step_view (is_weak_ltr (u16 c)) (is_neutral (u16 c)) v) c next.
Proof. unfold rtl_rune, span_step_view, weak_step_view. by destruct (v_span v). Qed.

Lemma push_span_runes c sw : span_runes (push c sw) = span_runes sw ++ [c].
Proof.
  destruct sw as [s [w|]]; unfold span_runes; simpl; rewrite ?app_nil_r; [|done].
  by rewrite app_assoc.
Qed.

Lemma push_weak_ptr p did done_ c sw :
  weak_ptr p (mk_view did done_ (Some (push c sw))) =
  weak_ptr p (mk_view did done_ (Some sw)).
Proof. by destruct sw as [s [w|]]. Qed.

Lemma rtl_span_step_ok p v rtl neutral c next Y m this_ptr :
  0 < p -> Forall is_codept (flat v) -> is_codept c ->
  this_ptr = p + len (encode (flat v)) ->
  let v' := span_step_view rtl neutral v c next in
  rtl_span_step (v_did v) rtl neutral (span_ptr p v) (weak_ptr p v) this_ptr next
    (put p (encode (flat v) ++ utf8_bytes c ++ Y) m) =
  Ok (v_did v', span_ptr p v', weak_ptr p v') (put p (encode (flat v') ++ Y) m).
Proof.
  intros Hp Hv Hc Hthis. unfold rtl_span_step, span_step_view.
  assert (forall x l, encode (l ++ [x]) ++ Y = encode l ++ utf8_bytes x ++ Y) as Eone
    by (intros; by rewrite encode_app, encode_one, <- app_assoc).
  destruct v as [did done_ [sw|]]; unfold span_ptr, flat in *; simpl in *.
  - rewrite not_NULL by lia. rewrite andb_false_r. simpl. rewrite andb_true_r.
    destruct (neutral && continues_span next); simpl.
    { rewrite (bind_ok _ _ _ _ _ (apply_swaps_rune p _ c Y m _ Hc Hthis)).
      by rewrite push_weak_ptr, push_span_runes, (app_assoc done_), Eone. }
    destruct rtl; simpl.
    { by rewrite push_weak_ptr, push_span_runes, (app_assoc done_), Eone. }
    rewrite (bind_ok _ _ _ _ _ (reverse_span_at p done_ (span_runes sw) _ m _ _
      (proj2 (proj1 (Forall_app _ _ _) Hv)) eq_refl Hthis)).
    by rewrite app_nil_r, (app_assoc done_), Eone.
  - rewrite app_nil_r in *. rewrite andb_false_r. simpl. rewrite andb_true_r, andb_false_r.
    destruct (rtl && negb (next =? 0)); simpl.
    + change (span_runes ([c], None)) with [c]. by rewrite Hthis, Eone.
    + by rewrite app_nil_r, Eone.
Qed.

(** ** The scan *)

Lemma rev_perm {A} (l : list A) : rev l ≡ₚ l.
Proof. symmetry. apply Permutation_rev. Qed.

Lemma encode_length_perm l l' : l ≡ₚ l' -> len (encode l) = len (encode l').
Proof.
  induction 1 as [|c l l' _ IH|c c' l|l l' l'' _ IH1 _ IH2]; [done|..];
    rewrite ?encode_cons, ?length_app in *; lia.
Qed.

Lemma weak_step_perm weak neutral v : flat (weak_step_view weak neutral v) ≡ₚ flat v.
Proof.
  unfold flat, weak_step_view. destruct v as [did done_ [[s w]|]]; simpl; [|done].
  apply Permutation_app_head. unfold span_runes.
  destruct weak, neutral; simpl; rewrite ?app_nil_r; try done.
  apply Permutation_app_head, rev_perm.
Qed.

(** The scan keeps every rune, at most mirrored. *)
Lemma span_step_perm rtl neutral v c next :
  exists c', (c' = c \/ c' = mirror c) /\
    flat (span_step_view rtl neutral v c next) ≡ₚ flat v ++ [c'].
Proof.
  unfold flat, span_step_view. destruct v as [did done_ [sw|]]; simpl.
  - destruct (neutral && continues_span next); [|destruct rtl]; simpl.
    + exists (mirror c). split; [by right|]. by rewrite push_span_runes, app_assoc.
    + exists c. split; [by left|]. by rewrite push_span_runes, app_assoc.
    + exists c. split; [by left|]. rewrite app_nil_r, app_assoc.
      apply Permutation_app_tail, Permutation_app_head, rev_perm.
  - exists c. split; [by left|]. destruct (rtl && negb (next =? 0)); simpl.
    + by rewrite app_nil_r.
    + by rewrite !app_nil_r.
Qed.

Lemma rtl_rune_perm v c next :
  exists c', (c' = c \/ c' = mirror c) /\ flat (rtl_rune v c next) ≡ₚ flat v ++ [c'].
Proof.
  rewrite rtl_rune_steps.
  match goal with |- context [span_step_view ?r ?n ?v ?c ?x] =>
    destruct (span_step_perm r n v c x) as (c' & Hc' & Hp) end.
  exists c'. split; [done|]. rewrite Hp. by apply Permutation_app_tail, weak_step_perm.
Qed.

Lemma rtl_rune_codepts v c next :
  Forall is_codept (flat v) -> is_codept c -> Forall is_codept (flat (rtl_rune v c next)).
Proof.
  intros Hv Hc. destruct (rtl_rune_perm v c next) as (c' & Hc' & ->).
  apply Forall_app_2; [done|]. apply Forall_cons_2; [|apply Forall_nil_2].
  destruct Hc' as [->| ->]; [done|by apply mirror_codept].
Qed.

Lemma rtl_rune_length v c next :
  is_codept c ->
  len (encode (flat (rtl_rune v c next))) = len (encode (flat v)) + len (utf8_bytes c).
Proof.
  intros Hc. destruct (rtl_rune_perm v c next) as (c' & Hc' & Hp).
  rewrite (encode_length_perm _ _ Hp), encode_app, encode_one, length_app.
  destruct Hc' as [->| ->]; [lia|]. pose proof (utf8_mirror_length c Hc). lia.
Qed.

Lemma line_ok_codept l : line_ok l -> Forall is_codept l.
Proof. intros Hl. eapply Forall_impl; [exact Hl|]. by intros ? []. Qed.

(** The locals after the iteration that processed [c] with [rest] still to come. *)
Definition locals_next (p : Z) (v : rtl_view) (rest : list Z) : rtl_locals :=
  match rest with
  | c :: _ => locals_of p v c
  | [] => mk_rtl (v_did v) (span_ptr p v) (weak_ptr p v) (p + len (encode (flat v))) NULL 0
  end.

Lemma rtl_body_ok p v c rest post m line_end :
  0 < p -> Forall is_codept (flat v) -> is_codept c -> line_ok rest ->
  line_stops line_end (p + len (encode (flat v ++ c :: rest))) post ->
  rtl_body line_end (locals_of p v c)
    (put p (encode (flat v) ++ encode (c :: rest) ++ post) m) =
  let v' := rtl_rune v c (lookahead rest) in
  Ok ((if lookahead rest =? 0 then inr else inl) (locals_next p v' rest))
     (put p (encode (flat v') ++ encode rest ++ post) m).
Proof.
  intros Hp Hv Hc Hrest Hstop. unfold rtl_body, locals_of. cbv zeta.
  cbn [next_codept next_codept_ptr iter did_transform rtl_span_start weak_ltr_span_start].
  assert (Forall is_codept rest) as Hrest' by by (by apply line_ok_codept).
  rewrite encode_app, encode_cons, !length_app in Hstop.
  rewrite encode_cons, <- app_assoc, (app_assoc (encode (flat v))).
  rewrite (bind_ok _ _ _ _ _ (rtl_read_next_ok p (encode (flat v) ++ utf8_bytes c) rest post m
    (p + len (encode (flat v)) + len (utf8_bytes c)) line_end Hrest'
    ltac:(rewrite length_app; lia)
    ltac:(rewrite <- !Z.add_assoc, <- !Nat2Z.inj_add; done))).
  rewrite <- app_assoc.
  pose proof (rtl_weak_step_ok p v (is_weak_ltr (u16 c)) (is_neutral (u16 c))
    (utf8_bytes c ++ encode rest ++ post) m _ Hp Hv eq_refl) as Hweak.
  set (w := weak_step_view (is_weak_ltr (u16 c)) (is_neutral (u16 c)) v) in Hweak.
  assert (Forall is_codept (flat w)) as Hw by (unfold w; by rewrite weak_step_perm).
  pose proof (rtl_span_step_ok p w (is_rtl (u16 c)) (match v_span v with
     | None => is_neutral (u16 c)
     | Some _ => is_weak_ltr (u16 c) || is_neutral (u16 c) end) c (lookahead rest)
     (encode rest ++ post) m _ Hp Hw Hc eq_refl) as Hspan.
  cbv zeta in Hspan. unfold w in Hspan at 6 7 8 9. rewrite <- rtl_rune_steps in Hspan.
  assert (span_ptr p w = span_ptr p v) as Ew by (unfold w, span_ptr; simpl; by destruct (v_span v)).
  change (v_did w) with (v_did v) in Hspan.
  rewrite Ew, (encode_length_perm (flat w) (flat v)) in Hspan
    by (unfold w; apply weak_step_perm).
  destruct rest as [|c' rest]; rewrite (bind_ok _ _ _ _ _ Hweak);
    cbn [lookahead] in Hspan |- *; rewrite (bind_ok _ _ _ _ _ Hspan); cbv zeta.
  - cbn [locals_next]. rewrite rtl_rune_length by done.
    unfold mret, M_ret. simpl. by rewrite Z.add_assoc.
  - unfold mret, M_ret, locals_next, locals_of. cbv zeta. rewrite rtl_rune_length by done.
    apply Forall_cons in Hrest as [[_ Hc'] _]. apply Z.eqb_neq in Hc'. rewrite Hc'.
    by rewrite Z.add_assoc.
Qed.

Lemma rtl_loop_ok p rest v c post m line_end fuel :
  0 < p -> Forall is_codept (flat v) -> line_ok (c :: rest) -> (length rest < fuel)%nat ->
  line_stops line_end (p + len (encode (flat v ++ c :: rest))) post ->
  let v' := rtl_scan v (c :: rest) in
  loop fuel (rtl_body line_end) (locals_of p v c)
    (put p (encode (flat v) ++ encode (c :: rest) ++ post) m) =
  Ok (locals_next p v' []) (put p (encode (flat v') ++ post) m).
Proof.
  intros Hp. revert v c fuel. induction rest as [|c' rest IH];
    intros v c fuel Hv Hline Hf Hstop; (destruct fuel as [|fuel]; [simpl in Hf; lia|]);
    pose proof (line_ok_codept _ Hline) as Hcs;
    apply Forall_cons in Hline as [[Hc _] Hline];
    pose proof (rtl_body_ok p v c _ post m line_end Hp Hv Hc Hline Hstop) as Hbody.
  - by apply loop_exit.
  - cbn [lookahead] in Hbody. pose proof Hline as [[_ Hnz%Z.eqb_neq] _]%Forall_cons.
    rewrite Hnz in Hbody. rewrite (loop_next _ _ _ _ _ _ Hbody).
    assert (Forall is_codept (flat (rtl_rune v c (u16 c')))) as Hv'
      by (by apply rtl_rune_codepts).
    apply IH; [done|done|simpl in Hf; lia|].
    rewrite !encode_app, !encode_cons, !length_app in *.
    pose proof (rtl_rune_length v c (u16 c') Hc).
    match type of Hstop with line_stops _ ?x _ =>
      match goal with |- line_stops _ ?y _ => by replace y with x by lia end end.
Qed.

(** The reversals behind the loop. *)
Lemma rtl_end_ok p v post m e :
  0 < p -> Forall is_codept (flat v) -> e = p + len (encode (flat v)) ->
  ((if negb (weak_ptr p v =? NULL) then reverse_span (weak_ptr p v) e else mret tt);;
   if negb (span_ptr p v =? NULL) then reverse_span (span_ptr p v) e;; mret true
   else mret (v_did v)) (put p (encode (flat v) ++ post) m) =
  Ok (rtl_close v).1 (put p (encode (rtl_close v).2 ++ post) m).
Proof.
  intros Hp Hv He. unfold rtl_close, weak_ptr, span_ptr, flat in *.
  destruct v as [did done_ [[s w]|]]; simpl in *; [|by rewrite app_nil_r].
  rewrite (not_NULL p (len (encode done_))) by lia. unfold span_runes in *. simpl in *.
  destruct w as [w|]; simpl in *.
  - rewrite not_NULL by lia. simpl. rewrite app_assoc in *.
    apply Forall_app in Hv as [Hds Hw].
    rewrite (bind_ok _ _ _ _ _ (reverse_span_at p (done_ ++ s) w post m _ _ Hw eq_refl He)).
    rewrite <- app_assoc. erewrite bind_ok; [done|].
    apply Forall_app in Hds as [Hd Hs]. apply reverse_span_at; [|done|].
    + apply Forall_app_2; [done|by apply Forall_rev].
    + rewrite He, !encode_app, !length_app, !Nat2Z.inj_add, encode_rev_length. lia.
  - rewrite bind_ret, !app_nil_r in *. apply Forall_app in Hv as [Hd Hs].
    by rewrite (bind_ok _ _ _ _ _ (reverse_span_at p done_ s post m _ _ Hs eq_refl He)).
Qed.

Lemma rtl_scan_codepts v cps :
  Forall is_codept (flat v) -> Forall is_codept cps -> Forall is_codept (flat (rtl_scan v cps)).
Proof.
  intros Hv Hcps. revert v Hv. induction Hcps as [|c cps Hc _ IH]; intros v Hv; [done|].
  apply IH. by apply rtl_rune_codepts.
Qed.

Lemma rtl_apply_runes p cps post m line_end :
  0 < p -> line_ok cps -> cps <> [] -> line_stops line_end (p + len (encode cps)) post ->
  rtl_apply p line_end (put p (encode cps ++ post) m) =
  Ok (rtl_runes cps).1 (put p (encode (rtl_runes cps).2 ++ post) m).
Proof.
  intros Hp Hline Hne Hstop. destruct cps as [|c rest]; [done|].
  pose proof (line_ok_codept _ Hline) as Hcs. pose proof Hcs as [Hc Hrest]%Forall_cons.
  unfold rtl_apply, rtl_runes. rewrite encode_cons at 1. rewrite <- app_assoc.
  rewrite (bind_ok _ _ _ _ _ (read_utf8_mid p [] c (encode rest ++ post) m p Hc
    ltac:(simpl; lia))). cbn [app].
  set (v0 := mk_view false [] None). set (v := rtl_scan v0 (c :: rest)).
  assert (length rest < rtl_fuel p line_end)%nat as Hfuel.
  { unfold rtl_fuel. pose proof (encode_length_ge _ Hcs) as Hl. cbn [length] in Hl |- *.
    destruct Hstop as [|[]]; lia. }
  pose proof (rtl_loop_ok p rest v0 c post m line_end (rtl_fuel p line_end) Hp
    (Forall_nil_2 _) Hline Hfuel Hstop) as Hloop. cbv zeta in Hloop. fold v in Hloop.
  assert (locals_of p v0 c = mk_rtl false NULL NULL (p + len (utf8_bytes c)) p (u16 c)) as El
    by (unfold locals_of; cbv zeta; change (len (encode (flat v0))) with 0;
        by rewrite Z.add_0_r).
  rewrite El in Hloop. cbn [v0 flat v_done v_span app encode flat_map] in Hloop.
  rewrite <- app_assoc in Hloop. rewrite (bind_ok _ _ _ _ _ Hloop).
  apply rtl_end_ok; [done| |done].
  apply rtl_scan_codepts; [apply Forall_nil_2|done].
Qed.
End Rtl.
