(* ===== verification/RtlProps.v ===== *)
(** * What the right-to-left layout does to a line

    The theorems about [rtl_apply]: it implements [rtl_runes], and what that means
    for left-to-right lines, right-to-left lines, numbers and neutral runes. *)

From S2P Require Import Prelude Memory Utf8 Ranges Reverse Rtl.

Section RtlProps.
Context `{ShaperRange} `{!ShaperRangeOk}.

(** ** Kinds of runes *)

(** A letter that is laid out right to left. *)
Definition strong_rtl (c : Z) : Prop :=
  is_rtl (u16 c) = true /\ is_neutral (u16 c) = false /\ is_weak_ltr (u16 c) = false.

(** A letter that is laid out left to right. *)
Definition strong_ltr (c : Z) : Prop :=
  is_rtl (u16 c) = false /\ is_neutral (u16 c) = false /\ is_weak_ltr (u16 c) = false /\
  32 <= u16 c.

(** A digit. *)
Definition digit (c : Z) : Prop := is_weak_ltr (u16 c) = true.

(** A neutral rune such as a space, which brackets never are here. *)
Definition neutral (c : Z) : Prop :=
  is_neutral (u16 c) = true /\ is_rtl (u16 c) = false /\ is_weak_ltr (u16 c) = false.

(** ** Facts about the classes *)

Lemma in_range_bounds (lo hi : Z) rs cp :
  Forall (fun r => lo <= r.1 /\ r.2 <= hi) rs -> in_ranges rs cp = true -> lo <= cp < hi.
Proof.
  intros HF [r [Hin Hr%RANGE_spec]]%existsb_exists. rewrite Forall_forall in HF.
  apply list_elem_of_In, HF in Hin. lia.
Qed.

Lemma is_rtl_bounds cp : is_rtl cp = true -> 0x590 <= cp < 0x800.
Proof.
  unfold is_rtl. rewrite !orb_true_iff, !RANGE_spec. intros [[[[|]|]|]|Hs]; try lia.
  apply shaper_range_scratch in Hs. lia.
Qed.

Lemma is_weak_ltr_spec cp : is_weak_ltr cp = true <-> 0x30 <= cp < 0x3A \/ 0x660 <= cp < 0x66D.
Proof. unfold is_weak_ltr. by rewrite orb_true_iff, !RANGE_spec. Qed.

Lemma digit_not_rtl c : digit c -> is_rtl (u16 c) = false.
Proof.
  intros Hd%is_weak_ltr_spec. unfold is_rtl.
  rewrite !orb_false_iff, !RANGE_false. repeat split; try lia.
  destruct (ARABIC_SHAPER_RANGE (u16 c)) eqn:E; [|done]. apply shaper_range_scratch in E. lia.
Qed.

Lemma digit_not_neutral c : digit c -> is_neutral (u16 c) = false.
Proof.
  intros Hd%is_weak_ltr_spec. unfold is_neutral, is_zero_width, in_ranges,
    ZERO_WIDTH_CODEPOINT_RANGES. cbn [existsb fst snd].
  rewrite !orb_false_iff, !RANGE_false. repeat split; lia.
Qed.

Lemma mirror_id c : ~ (c ∈ RTL_SWAPS) -> mirror c = c.
Proof.
  intros Hc. unfold mirror.
  repeat match goal with |- context [c =? ?y] => destruct (Z.eqb_spec c y) as [->|] end;
    try done; exfalso; apply Hc; unfold RTL_SWAPS; set_solver.
Qed.

Lemma bracket_u16 c : c ∈ RTL_SWAPS -> u16 c = c /\ c < 0x80 /\ is_weak_ltr c = false.
Proof.
  unfold RTL_SWAPS. rewrite !elem_of_cons, elem_of_nil.
  intros Hc. destruct_or! Hc; subst; done.
Qed.

Lemma rtl_mirror c : is_rtl (u16 c) = true -> mirror c = c.
Proof.
  intros Hr. apply mirror_id. intros (E & Hlt & _)%bracket_u16. rewrite E in Hr.
  apply is_rtl_bounds in Hr. lia.
Qed.

Lemma digit_mirror c : digit c -> mirror c = c.
Proof.
  intros Hd. apply mirror_id. intros (E & _ & Hw)%bracket_u16. unfold digit in Hd.
  rewrite E in Hd. congruence.
Qed.

(** ** Scanning runs of one kind *)

Lemma scan_outside_ltr v cps rest :
  v_span v = None -> Forall (fun c => is_rtl (u16 c) = false) cps ->
  rtl_scan v (cps ++ rest) = rtl_scan (mk_view (v_did v) (v_done v ++ cps) None) rest.
Proof.
  intros Hv Hcps. revert v Hv. induction Hcps as [|c cps Hc _ IH]; intros [did done_ sp] Hv;
    simpl in *; subst; [by rewrite app_nil_r|].
  rewrite IH; unfold rtl_rune; simpl; rewrite Hc; simpl; [by rewrite <- app_assoc|done].
Qed.

Lemma scan_span_letters did done_ s ls rest :
  Forall strong_rtl ls ->
  rtl_scan (mk_view did done_ (Some (s, None))) (ls ++ rest) =
  rtl_scan (mk_view did done_ (Some (s ++ ls, None))) rest.
Proof.
  intros Hls. revert s. induction Hls as [|c ls (Hr & Hn & Hw) _ IH]; intros s;
    simpl; [by rewrite app_nil_r|].
  unfold rtl_rune at 1. simpl. rewrite Hr, Hn, Hw. simpl. rewrite app_nil_r, IH.
  by rewrite <- app_assoc.
Qed.

Lemma scan_close_weak did done_ s w c ls rest :
  strong_rtl c -> Forall strong_rtl ls ->
  rtl_scan (mk_view did done_ (Some (s, Some w))) (c :: ls ++ rest) =
  rtl_scan (mk_view did done_ (Some (s ++ rev w ++ c :: ls, None))) rest.
Proof.
  intros (Hr & Hn & Hw) Hls. simpl. unfold rtl_rune at 1. simpl. rewrite Hr, Hn, Hw. simpl.
  rewrite scan_span_letters by done. by rewrite <- !app_assoc.
Qed.

Lemma continues_digit c : digit c -> continues_span (u16 c) = true.
Proof. unfold digit, continues_span. intros ->. by rewrite orb_true_r. Qed.

Lemma continues_end : continues_span (lookahead []) = true.
Proof. apply orb_true_r. Qed.

Lemma scan_weak_digits did done_ s w ds rest :
  Forall digit ds -> continues_span (lookahead rest) = true ->
  rtl_scan (mk_view did done_ (Some (s, Some w))) (ds ++ rest) =
  rtl_scan (mk_view did done_ (Some (s, Some (w ++ ds)))) rest.
Proof.
  intros Hds Hnext. revert w. induction Hds as [|c ds Hc Hds IH]; intros w;
    [by rewrite app_nil_r|].
  assert (continues_span (lookahead (ds ++ rest)) = true) as Hn.
  { destruct Hds; [done|]. by apply continues_digit. }
  cbn [app rtl_scan]. unfold rtl_rune at 1. cbn [v_span v_did v_done].
  rewrite Hn, (digit_mirror c Hc). unfold digit in Hc. rewrite Hc. cbn.
  rewrite IH, <- app_assoc. done.
Qed.

Lemma scan_first_digit did done_ s c rest :
  digit c ->
  rtl_scan (mk_view did done_ (Some (s, None))) (c :: rest) =
  rtl_scan (mk_view did done_ (Some (s, Some []))) (c :: rest).
Proof.
  intros Hc. unfold digit in Hc. simpl. f_equal. unfold rtl_rune. simpl. by rewrite Hc.
Qed.

Lemma scan_span_digits did done_ s c ds rest :
  digit c -> Forall digit ds -> continues_span (lookahead rest) = true ->
  rtl_scan (mk_view did done_ (Some (s, None))) ((c :: ds) ++ rest) =
  rtl_scan (mk_view did done_ (Some (s, Some (c :: ds)))) rest.
Proof.
  intros Hc Hds Hn. cbn [app]. rewrite scan_first_digit by done.
  by apply (scan_weak_digits _ _ _ [] (c :: ds)); [apply Forall_cons_2|].
Qed.

Lemma close_span did done_ s w :
  rtl_close (mk_view did done_ (Some (s, w))) = (true, done_ ++ rev (s ++ rev (default [] w))).
Proof. done. Qed.

(** A right-to-left letter opens a span unless it ends the line. *)
Lemma scan_open v c rest :
  v_span v = None -> is_rtl (u16 c) = true -> lookahead rest <> 0 ->
  rtl_scan v (c :: rest) = rtl_scan (mk_view (v_did v) (v_done v) (Some ([c], None))) rest.
Proof.
  intros Hv Hr Hn%Z.eqb_neq. simpl. unfold rtl_rune at 1. by rewrite Hv, Hr, Hn.
Qed.

Lemma scan_ltr_closes did done_ s w c rest :
  strong_ltr c -> 
  rtl_scan (mk_view did done_ (Some (s, w))) (c :: rest) =
  rtl_scan (mk_view true (done_ ++ rev (s ++ rev (default [] w)) ++ [c]) None) rest.
Proof.
  intros (Hr & Hn & Hw & _). simpl. unfold rtl_rune at 1. simpl. rewrite Hr, Hn, Hw. simpl.
  unfold span_runes. simpl. by rewrite app_nil_r.
Qed.

Lemma ltr_not_continues c : strong_ltr c -> continues_span (u16 c) = false.
Proof.
  intros (Hr & Hn & Hw & H32). unfold continues_span. rewrite Hr, Hn, Hw.
  by apply Z.ltb_ge.
Qed.

(** A neutral rune in front of a left-to-right letter closes the span and stays put;
    an open weak span is then not reversed on its own. *)
Lemma scan_neutral_closes did done_ s w b c rest :
  neutral b -> strong_ltr c ->
  rtl_scan (mk_view did done_ (Some (s, w))) (b :: c :: rest) =
  rtl_scan (mk_view true (done_ ++ rev (s ++ default [] w) ++ [b]) None) (c :: rest).
Proof.
  intros (Hn & Hr & Hw) Hc.
  transitivity (rtl_scan (rtl_rune (mk_view did done_ (Some (s, w))) b (u16 c)) (c :: rest));
    [done|f_equal].
  unfold rtl_rune. cbn [v_span v_did v_done]. rewrite Hr, Hn, Hw, (ltr_not_continues c Hc). done.
Qed.

(** A neutral rune in front of anything but a left-to-right letter joins the span. *)
Lemma scan_neutral_joins did done_ sw b rest :
  neutral b -> continues_span (lookahead rest) = true ->
  rtl_scan (mk_view did done_ (Some sw)) (b :: rest) =
  rtl_scan (mk_view did done_ (Some (push (mirror b) sw))) rest.
Proof.
  intros (Hn & Hr & Hw) Hc. simpl. unfold rtl_rune at 1. simpl. rewrite Hr, Hn, Hw, Hc.
  destruct sw as [s w]. done.
Qed.

(** ** Lines in memory *)

(** The memory holds the line [cps] at [p], and the text stops at [line_end]. *)
Definition line_at (m : mem) (p : Z) (cps : list Z) (line_end : Z) : Prop :=
  0 < p /\ line_ok cps /\ cps <> [] /\
  exists post, holds m p (encode cps ++ post) /\
    line_stops line_end (p + len (encode cps)) post.

Lemma put_prefix p A A' B m :
  length A = length A' -> holds m p (A ++ B) -> put p (A' ++ B) m = put p A' m.
Proof.
  intros Hlen Hm%holds_app_r. rewrite put_app. f_equal. by rewrite <- Hlen.
Qed.

Lemma rtl_scan_length v cps :
  Forall is_codept cps ->
  len (encode (flat (rtl_scan v cps))) = len (encode (flat v)) + len (encode cps).
Proof.
  intros Hcps. revert v. induction Hcps as [|c cps Hc _ IH]; intros v; cbn [rtl_scan].
  - simpl. lia.
  - rewrite IH, rtl_rune_length, encode_cons, length_app by done. lia.
Qed.

Lemma rtl_close_perm v : (rtl_close v).2 ≡ₚ flat v.
Proof.
  unfold rtl_close, flat. destruct (v_span v) as [[s w]|]; simpl; [|by rewrite app_nil_r].
  unfold span_runes. simpl. apply Permutation_app_head. rewrite rev_perm.
  apply Permutation_app_head, rev_perm.
Qed.

Lemma rtl_runes_length cps :
  Forall is_codept cps -> length (encode (rtl_runes cps).2) = length (encode cps).
Proof.
  intros Hcps. apply Nat2Z.inj. unfold rtl_runes.
  rewrite (encode_length_perm _ _ (rtl_close_perm _)), rtl_scan_length by done. done.
Qed.

Lemma rtl_apply_line m p cps line_end :
  line_at m p cps line_end ->
  rtl_apply p line_end m = Ok (rtl_runes cps).1 (put p (encode (rtl_runes cps).2) m).
Proof.
  intros (Hp & Hline & Hne & post & Hm & Hstop). rewrite <- Hm at 1.
  rewrite rtl_apply_runes by done. f_equal. apply (put_prefix _ (encode cps)); [|done].
  symmetry. by apply rtl_runes_length, line_ok_codept.
Qed.

(** Another line of the same size in the same place. *)
Lemma line_at_put m p cps cps' line_end :
  line_at m p cps line_end -> line_ok cps' -> cps' <> [] ->
  length (encode cps') = length (encode cps) ->
  line_at (put p (encode cps') m) p cps' line_end.
Proof.
  intros (Hp & _ & _ & post & Hm & Hstop) Hok Hne Hlen.
  repeat split; [done..|]. exists post. rewrite Hlen. split; [|done].
  rewrite <- (put_prefix p (encode cps) (encode cps') post m) by done. apply holds_put.
Qed.

Lemma neutral_continues b : neutral b -> continues_span (u16 b) = true.
Proof. intros (Hb & _). unfold continues_span. by rewrite Hb, orb_true_r. Qed.

Lemma strong_rtl_continues c : strong_rtl c -> continues_span (u16 c) = true.
Proof. intros (Hr & _). unfold continues_span. by rewrite Hr. Qed.

Lemma strong_rtl_nonzero c : strong_rtl c -> u16 c <> 0.
Proof. intros (Hr%is_rtl_bounds & _). lia. Qed.

Lemma digit_nonzero c : digit c -> u16 c <> 0.
Proof. unfold digit. rewrite is_weak_ltr_spec. lia. Qed.

Lemma scan_word v W rest :
  v_span v = None -> Forall strong_rtl W -> W <> [] -> lookahead rest <> 0 ->
  rtl_scan v (W ++ rest) = rtl_scan (mk_view (v_did v) (v_done v) (Some (W, None))) rest.
Proof.
  intros Hv HW Hne Hn. destruct HW as [|c W Hc HW]; [done|]. cbn [app].
  rewrite scan_open; [|done|by destruct Hc|].
  - by rewrite scan_span_letters.
  - destruct HW; [done|]. by apply strong_rtl_nonzero.
Qed.

Lemma rtl_runes_ltr cps :
  Forall (fun c => is_rtl (u16 c) = false) cps -> rtl_runes cps = (false, cps).
Proof.
  intros Hcps. unfold rtl_runes.
  pose proof (scan_outside_ltr (mk_view false [] None) cps [] eq_refl Hcps) as E.
  rewrite app_nil_r in E. by rewrite E.
Qed.

(** Letters alone: they are reversed, and reported unless there is just one. *)
Lemma rtl_runes_letters cps :
  Forall strong_rtl cps -> cps <> [] -> rtl_runes cps = (1 <? len cps, rev cps).
Proof.
  intros Hcps Hne. unfold rtl_runes. destruct cps as [|c [|c' cps]]; [done|..].
  - cbn. by destruct (is_rtl (u16 c)).
  - pose proof Hcps as [Hc [Hc' _]%Forall_cons]%Forall_cons.
    rewrite <- (app_nil_r (c :: c' :: cps)) at 1.
    change ((c :: c' :: cps) ++ []) with (c :: (c' :: cps) ++ []).
    rewrite scan_open; [|done|by destruct Hc|by apply strong_rtl_nonzero].
    rewrite scan_span_letters by (by apply Forall_cons in Hcps as [_ ?]).
    cbn. rewrite !app_nil_r. f_equal. symmetry. apply Z.ltb_lt. lia.
Qed.

(** ** Sentences *)

(** A rune of a right-to-left sentence: a letter, a mark, a space, a bracket. *)
Definition sentence_rune (c : Z) : Prop :=
  is_weak_ltr (u16 c) = false /\ is_rtl (u16 c) || is_neutral (u16 c) = true.

(** A right-to-left sentence starts and ends with a right-to-left rune. *)
Definition rtl_sentence (cps : list Z) : Prop :=
  (2 <= length cps)%nat /\ Forall sentence_rune cps /\
  (exists c, head cps = Some c /\ is_rtl (u16 c) = true) /\
  (exists c, last cps = Some c /\ is_rtl (u16 c) = true).

Lemma sentence_continues cps : Forall sentence_rune cps -> continues_span (lookahead cps) = true.
Proof.
  intros [|c cps' [_ Hc] _]; [apply continues_end|]. unfold continues_span. cbn [lookahead].
  by rewrite Hc.
Qed.

Lemma sentence_rune_nonzero c : sentence_rune c -> u16 c <> 0.
Proof.
  intros [_ Hc] E. rewrite E in Hc. apply orb_true_iff in Hc as [Hc%is_rtl_bounds|Hc]; [lia|].
  by vm_compute in Hc.
Qed.

Lemma scan_sentence did done_ s ls :
  Forall sentence_rune ls ->
  rtl_scan (mk_view did done_ (Some (s, None))) ls =
  mk_view did done_ (Some (s ++ map mirror ls, None)).
Proof.
  intros Hls. revert s. induction Hls as [|c ls [Hw Hc] Hls IH]; intros s;
    cbn [rtl_scan map]; [by rewrite app_nil_r|].
  assert (rtl_rune (mk_view did done_ (Some (s, None))) c (lookahead ls) =
    mk_view did done_ (Some (s ++ [mirror c], None))) as ->.
  { unfold rtl_rune. cbn [v_span v_did v_done weak_view default]. rewrite Hw, sentence_continues by done.
    destruct (is_neutral (u16 c)); [done|]. rewrite orb_false_r in Hc. cbn [orb andb].
    rewrite Hc, rtl_mirror by done. cbn. by rewrite app_nil_r. }
  by rewrite IH, <- app_assoc.
Qed.

Lemma rtl_runes_sentence cps : rtl_sentence cps -> rtl_runes cps = (true, rev (map mirror cps)).
Proof.
  intros (Hlen & Hs & (c & Hc & Hr) & _). destruct cps as [|c0 rest]; [done|]. injection Hc as ->.
  apply Forall_cons in Hs as [_ Hs]. unfold rtl_runes. rewrite scan_open; [|done..|].
  - rewrite scan_sentence by done. cbn [rtl_close v_span v_did v_done default map].
    cbn. by rewrite app_nil_r, rtl_mirror.
  - destruct Hs as [|c1 rest Hc1 _]; [cbn in Hlen; lia|]. by apply sentence_rune_nonzero.
Qed.

Lemma mirror_swaps c :
  mirror c = c \/ (c ∈ RTL_SWAPS /\ mirror c ∈ RTL_SWAPS /\ mirror (mirror c) = c /\
    is_codept (mirror c) /\ sentence_rune (mirror c) /\ u16 (mirror c) <> 0 /\
    length (utf8_bytes (mirror c)) = length (utf8_bytes c)).
Proof.
  destruct (decide (c ∈ RTL_SWAPS)) as [Hc|Hc]; [right|left; by apply mirror_id].
  split; [done|]. unfold RTL_SWAPS in Hc. rewrite !elem_of_cons, elem_of_nil in Hc.
  destruct_or! Hc; subst; (split; [unfold RTL_SWAPS; vm_compute; set_solver|]);
    (split; [done|]); (split; [by vm_compute|]);
    (split; [by split; [vm_compute|rewrite orb_true_iff; right; vm_compute]|]); by vm_compute.
Qed.

Lemma mirror_involutive c : mirror (mirror c) = c.
Proof. destruct (mirror_swaps c) as [E|(_ & _ & E & _)]; [by rewrite E|done]. Qed.

Lemma Forall_rev_mirror (P : Z -> Prop) cps :
  (forall c, P c -> P (mirror c)) -> Forall P cps -> Forall P (rev (map mirror cps)).
Proof. intros Hm Hcps. apply Forall_rev, Forall_fmap. by eapply Forall_impl. Qed.

Lemma rev_mirror_involutive cps : rev (map mirror (rev (map mirror cps))) = cps.
Proof.
  rewrite map_rev, rev_involutive, map_map. rewrite <- (map_id cps) at 2.
  apply map_ext, mirror_involutive.
Qed.

Lemma head_rev {A} (l : list A) : head (rev l) = last l.
Proof. destruct l as [|x l _] using rev_ind; [done|]. by rewrite rev_app_distr, last_snoc. Qed.

Lemma last_rev {A} (l : list A) : last (rev l) = head l.
Proof. by rewrite <- head_rev, rev_involutive. Qed.

Lemma rtl_sentence_rev cps : rtl_sentence cps -> rtl_sentence (rev (map mirror cps)).
Proof.
  intros (Hlen & Hs & (c & Hc & Hr) & (c' & Hc' & Hr')). split; [by rewrite length_rev, length_map|].
  split; [|split].
  - apply Forall_rev_mirror; [|done]. intros x Hx.
    destruct (mirror_swaps x) as [->|(_ & _ & _ & _ & ? & _)]; done.
  - exists c'. split; [|done]. rewrite head_rev, fmap_last, Hc'. cbn. by rewrite rtl_mirror.
  - exists c. split; [|done]. rewrite last_rev. destruct cps; [done|]. injection Hc as ->. cbn.
    by rewrite rtl_mirror.
Qed.

Lemma line_ok_rev_mirror cps : line_ok cps -> line_ok (rev (map mirror cps)).
Proof.
  apply Forall_rev_mirror. intros x Hx.
  by destruct (mirror_swaps x) as [->|(_ & _ & _ & ? & _ & ? & _)].
Qed.

Lemma encode_length_rev_mirror cps : length (encode (rev (map mirror cps))) = length (encode cps).
Proof.
  apply Nat2Z.inj. rewrite encode_rev_length. f_equal.
  induction cps as [|c cps IH]; [done|]. cbn [map]. rewrite !encode_cons, !length_app, IH.
  by destruct (mirror_swaps c) as [->|(_ & _ & _ & _ & _ & _ & ->)].
Qed.

(** Laying out a sentence in place gives a sentence. *)
Lemma line_at_sentence m p cps line_end :
  line_at m p cps line_end -> rtl_sentence cps ->
  line_at (put p (encode (rev (map mirror cps))) m) p (rev (map mirror cps)) line_end.
Proof.
  intros Hl (Hlen & _). apply (line_at_put _ _ cps); [done|apply line_ok_rev_mirror, Hl| |].
  - intros E%(f_equal length). rewrite length_rev, length_map in E. simpl in E. lia.
  - apply encode_length_rev_mirror.
Qed.

(** ** Termination on any input *)

Lemma rtl_read_next_no_fuel line_end it m : rtl_read_next line_end it m <> OutOfFuel.
Proof.
  unfold rtl_read_next. apply bind_no_fuel; [destruct (it <? line_end)|intros [] m']; try done.
  - apply bind_no_fuel; [apply load8_no_fuel|done].
  - apply bind_no_fuel; [apply read_utf8_no_fuel|by intros []].
Qed.

Lemma rtl_read_next_advances line_end it m next ptr it' m' :
  rtl_read_next line_end it m = Ok (next, ptr, it') m' ->
  next = 0 \/ (it < line_end /\ it < it').
Proof.
  unfold rtl_read_next, mbind, M_bind. destruct (Z.ltb_spec it line_end).
  - destruct (load8 it m) as [b m1|?|]; try done. cbn. destruct (negb _).
    + destruct (read_utf8 it m1) as [[]?|?|] eqn:E; try done.
      apply read_utf8_advances in E as [? _]. intros [= <- <- <- <-]. by right.
    + intros [= <- <- <- <-]. by left.
  - intros [= <- <- <- <-]. by left.
Qed.

Lemma apply_swaps_no_fuel q m : apply_swaps q m <> OutOfFuel.
Proof.
  unfold apply_swaps. apply bind_no_fuel; [apply load8_no_fuel|]. intros b m'.
  generalize (length RTL_SWAPS) 0%nat. intros n. induction n as [|n IH]; intros i; [done|].
  cbn [apply_swaps_from]. case_match; [apply store8_no_fuel|apply IH].
Qed.

Lemma rtl_body_no_fuel line_end l m : rtl_body line_end l m <> OutOfFuel.
Proof.
  unfold rtl_body. apply bind_no_fuel; [apply rtl_read_next_no_fuel|intros [[next ptr] it] m1].
  apply bind_no_fuel; [|intros [weak neutral] m2; apply bind_no_fuel; [|by intros [[]]]].
  - unfold rtl_weak_step. repeat case_match; try done.
    apply bind_no_fuel; [apply reverse_span_no_fuel|done].
  - unfold rtl_span_step. repeat case_match; try done.
    + apply bind_no_fuel; [apply apply_swaps_no_fuel|done].
    + apply bind_no_fuel; [apply reverse_span_no_fuel|done].
Qed.

Lemma rtl_body_advances line_end l m l' m' :
  rtl_body line_end l m = Ok (inl l') m' ->
  (Z.to_nat (line_end - iter l') < Z.to_nat (line_end - iter l))%nat.
Proof.
  unfold rtl_body, mbind, M_bind.
  destruct (rtl_read_next _ _ _) as [[[next ptr] it] m1|?|] eqn:E; try done.
  apply rtl_read_next_advances in E.
  destruct (rtl_weak_step _ _ _ _ _ _) as [[weak neutral] m2|?|]; try done.
  destruct (rtl_span_step _ _ _ _ _ _ _ _) as [[[did span] weak'] m3|?|]; try done.
  destruct (Z.eqb_spec next 0); intros [= <- <-]. simpl. lia.
Qed.

(** ** Properties *)

(** C2: [rtl_apply] implements [rtl_runes]: on a line of UTF-8 text it ends, returns
    whether a span was reversed, and replaces the bytes of the line by the
    encoding of the laid out line; no other byte of the memory changes. *)
Theorem rtl_apply_refines m p cps line_end :
  line_at m p cps line_end ->
  rtl_apply p line_end m = Ok (rtl_runes cps).1 (put p (encode (rtl_runes cps).2) m) /\
  length (encode (rtl_runes cps).2) = length (encode cps).
Proof.
  intros Hl. split; [by apply rtl_apply_line|].
  apply rtl_runes_length, line_ok_codept, Hl.
Qed.

Lemma scan_keeps v cps :
  exists l, Forall2 (fun c c' => c' = c \/ c' = mirror c) cps l /\
    flat (rtl_scan v cps) ≡ₚ flat v ++ l.
Proof.
  revert v. induction cps as [|c cps IH]; intros v.
  { exists []. split; [apply Forall2_nil_2|]. by rewrite app_nil_r. }
  destruct (rtl_rune_perm v c (lookahead cps)) as (c' & Hc' & Hp).
  destruct (IH (rtl_rune v c (lookahead cps))) as (l & HF & Hl).
  exists (c' :: l). split; [by apply Forall2_cons_2|]. cbn [rtl_scan].
  rewrite Hl, Hp, <- app_assoc. done.
Qed.

(** C30: the layout loses and invents nothing: the laid out line is a permutation of
    the line in which some brackets have been turned around. *)
Theorem rtl_apply_keeps_runes m p cps line_end :
  line_at m p cps line_end ->
  exists b out l,
    rtl_apply p line_end m = Ok b (put p (encode out) m) /\
    Forall2 (fun c c' => c' = c \/ c' = mirror c) cps l /\ out ≡ₚ l.
Proof.
  intros Hl. destruct (scan_keeps (mk_view false [] None) cps) as (l & HF & Hp).
  exists (rtl_runes cps).1, (rtl_runes cps).2, l.
  split; [by apply rtl_apply_line|]. split; [done|].
  unfold rtl_runes. rewrite rtl_close_perm, Hp. done.
Qed.

(** A line without a right-to-left rune is left alone. *)
Theorem rtl_apply_ltr_line m p cps line_end :
  line_at m p cps line_end -> Forall (fun c => is_rtl (u16 c) = false) cps ->
  rtl_apply p line_end m = Ok false m.
Proof.
  intros Hl Hcps. rewrite (rtl_apply_line _ _ _ _ Hl), rtl_runes_ltr by done.
  destruct Hl as (_ & _ & _ & post & Hm%holds_app_l & _). cbn [snd]. by rewrite Hm.
Qed.

(** a right-to-left sentence (letters, vowel marks, spaces, punctuation and brackets,
    with a right-to-left rune at both ends) is reversed as a whole, and its brackets
    are exchanged so that they still enclose what they enclosed. *)
Theorem rtl_apply_rtl_sentence m p cps line_end :
  line_at m p cps line_end -> rtl_sentence cps ->
  rtl_apply p line_end m = Ok true (put p (encode (rev (map mirror cps))) m).
Proof. intros Hl Hs. by rewrite (rtl_apply_line _ _ _ _ Hl), rtl_runes_sentence. Qed.

(** The second call, after rendering, undoes the first one on a right-to-left
    sentence: the memory is as before both. *)
Theorem rtl_apply_twice_rtl_sentence m p cps line_end :
  line_at m p cps line_end -> rtl_sentence cps ->
  (rtl_apply p line_end;; rtl_apply p line_end) m = Ok true m.
Proof.
  intros Hl Hs. pose proof Hl as (_ & _ & _ & post & Hm%holds_app_l & _).
  rewrite (bind_ok _ _ _ _ _ (rtl_apply_line _ _ _ _ Hl)), rtl_runes_sentence by done. cbn [snd].
  rewrite (rtl_apply_line _ _ _ _ (line_at_sentence _ _ _ _ Hl Hs)).
  rewrite rtl_runes_sentence by by apply rtl_sentence_rev. cbn [fst snd].
  by rewrite rev_mirror_involutive, put_put, Hm by (symmetry; apply encode_length_rev_mirror).
Qed.

(** a right-to-left word inside a left-to-right sentence is reversed where it
    stands; the neutral rune behind it stays in place. *)
Theorem rtl_apply_word_in_ltr m p A W b c B line_end :
  line_at m p (A ++ W ++ b :: c :: B) line_end ->
  Forall (fun x => is_rtl (u16 x) = false) A -> Forall strong_rtl W -> W <> [] ->
  neutral b -> strong_ltr c -> Forall (fun x => is_rtl (u16 x) = false) B ->
  rtl_apply p line_end m = Ok true (put p (encode (A ++ rev W ++ b :: c :: B)) m).
Proof.
  intros Hl HA HW Hne Hb Hc HB. rewrite (rtl_apply_line _ _ _ _ Hl). unfold rtl_runes.
  assert (u16 b <> 0) as Hb0 by (intros E; destruct Hb as [Hb _]; by rewrite E in Hb).
  rewrite scan_outside_ltr, scan_word by done. cbn [v_did v_done app].
  rewrite scan_neutral_closes by done. rewrite <- (app_nil_r (c :: B)) at 1 2.
  rewrite scan_outside_ltr; [|done|by apply Forall_cons_2; [destruct Hc|]].
  cbn. by rewrite !app_nil_r, <- !app_assoc.
Qed.

(** Digits inside a right-to-left word keep their order, and the letters around
    them are laid out from right to left. *)
Theorem rtl_apply_number_in_word m p W1 d ds c W2 line_end :
  line_at m p (W1 ++ (d :: ds) ++ c :: W2) line_end ->
  Forall strong_rtl W1 -> W1 <> [] -> digit d -> Forall digit ds ->
  strong_rtl c -> Forall strong_rtl W2 ->
  rtl_apply p line_end m =
  Ok true (put p (encode (rev (c :: W2) ++ (d :: ds) ++ rev W1)) m).
Proof.
  intros Hl HW1 Hne Hd Hds Hc HW2. rewrite (rtl_apply_line _ _ _ _ Hl). unfold rtl_runes.
  rewrite scan_word by (done || by apply digit_nonzero). cbn [v_did v_done].
  rewrite scan_span_digits by (done || by apply strong_rtl_continues).
  rewrite <- (app_nil_r W2) at 1 2. rewrite scan_close_weak by done. cbn [rtl_scan].
  rewrite close_span. cbn [fst snd default]. rewrite app_nil_l, app_nil_r.
  by rewrite !rev_app_distr, rev_involutive, <- app_assoc.
Qed.

(** A number at the end of a right-to-left line is moved to its left end and
    keeps its digits in order. *)
Theorem rtl_apply_number_at_end m p W d ds line_end :
  line_at m p (W ++ d :: ds) line_end ->
  Forall strong_rtl W -> W <> [] -> digit d -> Forall digit ds ->
  rtl_apply p line_end m = Ok true (put p (encode ((d :: ds) ++ rev W)) m).
Proof.
  intros Hl HW Hne Hd Hds. rewrite (rtl_apply_line _ _ _ _ Hl). unfold rtl_runes.
  rewrite scan_word by (done || by apply digit_nonzero). cbn [v_did v_done].
  rewrite <- (app_nil_r (d :: ds)) at 1 2.
  rewrite scan_span_digits by (done || apply continues_end).
  cbn [rtl_scan]. rewrite close_span. cbn [fst snd default].
  by rewrite app_nil_l, rev_app_distr, rev_involutive.
Qed.

(** A number between a right-to-left word and a left-to-right word, with a neutral
    rune behind it, has its digits reversed: the branch that finishes the span at a
    neutral rune does not undo the weak span first. *)
Theorem rtl_apply_number_before_ltr_reversed m p W d ds b c B line_end :
  line_at m p (W ++ (d :: ds) ++ b :: c :: B) line_end ->
  Forall strong_rtl W -> W <> [] -> digit d -> Forall digit ds ->
  neutral b -> strong_ltr c -> Forall (fun x => is_rtl (u16 x) = false) B ->
  rtl_apply p line_end m =
  Ok true (put p (encode (rev (d :: ds) ++ rev W ++ b :: c :: B)) m).
Proof.
  intros Hl HW Hne Hd Hds Hb Hc HB. rewrite (rtl_apply_line _ _ _ _ Hl). unfold rtl_runes.
  rewrite scan_word by (done || by apply digit_nonzero). cbn [v_did v_done].
  rewrite scan_span_digits by (done || by apply neutral_continues).
  rewrite scan_neutral_closes by done. rewrite <- (app_nil_r (c :: B)) at 1 2.
  rewrite scan_outside_ltr; [|done|by apply Forall_cons_2; [destruct Hc|]].
  cbn. rewrite ?app_nil_r, ?rev_app_distr. cbn [rev]. by rewrite <- !app_assoc.
Qed.

(** A number between two right-to-left words does not keep the spaces around it
    apart: the one behind it is part of the weak span, so after the layout both are on
    the side of the first word and none is left on the side of the second. *)
Theorem rtl_apply_number_space_moves m p W1 d ds c W2 line_end :
  line_at m p (W1 ++ 32 :: (d :: ds) ++ 32 :: c :: W2) line_end ->
  Forall strong_rtl W1 -> W1 <> [] -> digit d -> Forall digit ds ->
  strong_rtl c -> Forall strong_rtl W2 ->
  rtl_apply p line_end m =
  Ok true (put p (encode (rev (c :: W2) ++ (d :: ds) ++ 32 :: 32 :: rev W1)) m).
Proof.
  intros Hl HW1 Hne Hd Hds Hc HW2. rewrite (rtl_apply_line _ _ _ _ Hl). unfold rtl_runes.
  assert (neutral 32) as Hsp.
  { split; [done|]. split; [|done]. destruct (is_rtl (u16 32)) eqn:E; [|done].
    apply is_rtl_bounds in E. change (u16 32) with 32 in E. lia. }
  rewrite scan_word by (done || by vm_compute). cbn [v_did v_done].
  rewrite scan_neutral_joins by (done || by apply continues_digit). cbn [push].
  change (mirror 32) with 32.
  rewrite scan_span_digits by (done || by apply neutral_continues).
  rewrite scan_neutral_joins by (done || by apply strong_rtl_continues). cbn [push].
  change (mirror 32) with 32. rewrite <- (app_nil_r W2) at 1 2.
  rewrite scan_close_weak by done. cbn [rtl_scan]. rewrite close_span. cbn [fst snd default].
  rewrite app_nil_l, !app_nil_r, !rev_app_distr, rev_involutive. simpl.
  repeat (rewrite <- app_assoc; cbn [app]). done.
Qed.
Lemma rtl_apply_no_fuel p line_end m : rtl_apply p line_end m <> OutOfFuel.
Proof.
  unfold rtl_apply. apply bind_no_fuel_eq; [apply read_utf8_no_fuel|].
  intros [next it] m1 [Hit _]%read_utf8_advances.
  apply bind_no_fuel; [|intros l m2; apply bind_no_fuel; [|intros _ m3]].
  - apply (loop_ends (fun l => Z.to_nat (line_end - iter l)));
      [apply rtl_body_no_fuel|apply rtl_body_advances|unfold rtl_fuel; simpl; lia].
  - case_match; [apply reverse_span_no_fuel|done].
  - case_match; [|done]. apply bind_no_fuel; [apply reverse_span_no_fuel|done].
Qed.

(** C40: [rtl_apply] ends on every memory and every pair of pointers, whether or not
    the line is well-formed text: each iteration but the last reads past [iter]. *)
Theorem rtl_apply_terminates p line_end m : rtl_apply p line_end m <> OutOfFuel.
Proof. apply rtl_apply_no_fuel. Qed.
End RtlProps.

(** ** Concrete lines *)

(** No shaped code points: enough for Hebrew text. *)
Definition no_scratch : ShaperRange := [].

Lemma no_scratch_ok : @ShaperRangeOk no_scratch.
Proof. constructor. intros cp H. discriminate H. Qed.

(** A line written at address 4096, followed by a NUL. *)
Definition line_mem (cps : list Z) : mem := put 4096 (encode cps ++ [0]) ∅.

Lemma line_mem_at cps e :
  bool_decide (line_ok cps) && negb (bool_decide (cps = [])) &&
    (e =? 4096 + len (encode cps)) = true ->
  line_at (line_mem cps) 4096 cps e.
Proof.
  rewrite !andb_true_iff, negb_true_iff, bool_decide_eq_true, bool_decide_eq_false, Z.eqb_eq.
  intros [[Hok Hne] ->]. split; [lia|]. split; [done|]. split; [done|].
  exists [0]. split; [apply holds_put|by left].
Qed.

#[local] Existing Instance no_scratch.
#[local] Existing Instance no_scratch_ok.

(** Discharges the hypotheses of a layout theorem on a line written out in full. *)
Ltac concrete_line :=
  match goal with
  | |- line_at _ _ _ _ => apply line_mem_at; vm_compute; reflexivity
  | |- Forall _ _ => repeat (apply Forall_cons_2 || apply Forall_nil_2); concrete_line
  | |- _ = _ => reflexivity
  | |- _ <> _ => discriminate
  | |- _ => unfold strong_rtl, strong_ltr, neutral, digit; repeat split; vm_compute;
            (reflexivity || discriminate)
  end.

Ltac concrete_sentence :=
  split; [simpl; lia|]; split;
    [repeat (apply Forall_cons_2 || apply Forall_nil_2); (split; vm_compute; reflexivity)|];
  split; (eexists; split; [reflexivity|vm_compute; reflexivity]).

Theorem rtl_apply_refines_witness :
  rtl_apply 4096 (4096 + len (encode [0x61; 0x5D0; 0x28; 0x5D1; 0x29])) 
    (line_mem [0x61; 0x5D0; 0x28; 0x5D1; 0x29]) =
  Ok (rtl_runes [0x61; 0x5D0; 0x28; 0x5D1; 0x29]).1
     (put 4096 (encode (rtl_runes [0x61; 0x5D0; 0x28; 0x5D1; 0x29]).2)
        (line_mem [0x61; 0x5D0; 0x28; 0x5D1; 0x29])) /\
  length (encode (rtl_runes [0x61; 0x5D0; 0x28; 0x5D1; 0x29]).2) =
  length (encode [0x61; 0x5D0; 0x28; 0x5D1; 0x29]).
Proof. apply rtl_apply_refines. concrete_line. Defined.

Theorem rtl_apply_keeps_runes_witness :
  exists b out l,
    rtl_apply 4096 4102 (line_mem [0x5D0; 0x28; 0x5D1; 0x29]) =
      Ok b (put 4096 (encode out) (line_mem [0x5D0; 0x28; 0x5D1; 0x29])) /\
    Forall2 (fun c c' => c' = c \/ c' = mirror c) [0x5D0; 0x28; 0x5D1; 0x29] l /\ out ≡ₚ l.
Proof. apply (rtl_apply_keeps_runes _ _ [0x5D0; 0x28; 0x5D1; 0x29] 4102). concrete_line. Defined.

Theorem rtl_apply_ltr_line_witness :
  rtl_apply 4096 4099 (line_mem [0x61; 0x20; 0x31]) = Ok false (line_mem [0x61; 0x20; 0x31]).
Proof. apply (rtl_apply_ltr_line _ _ [0x61; 0x20; 0x31] 4099); concrete_line. Defined.

(** "אב (ג) ד" *)
Theorem rtl_apply_rtl_sentence_witness :
  rtl_apply 4096 4108 (line_mem [0x5D0; 0x5D1; 32; 40; 0x5D2; 41; 32; 0x5D3]) =
  Ok true (put 4096 (encode [0x5D3; 32; 40; 0x5D2; 41; 32; 0x5D1; 0x5D0])
    (line_mem [0x5D0; 0x5D1; 32; 40; 0x5D2; 41; 32; 0x5D3])).
Proof.
  apply (rtl_apply_rtl_sentence _ _ [0x5D0; 0x5D1; 32; 40; 0x5D2; 41; 32; 0x5D3] 4108);
    [concrete_line|concrete_sentence].
Defined.

Theorem rtl_apply_twice_rtl_sentence_witness :
  (rtl_apply 4096 4108;; rtl_apply 4096 4108) (line_mem [0x5D0; 0x5D1; 32; 40; 0x5D2; 41; 32; 0x5D3]) =
    Ok true (line_mem [0x5D0; 0x5D1; 32; 40; 0x5D2; 41; 32; 0x5D3]).
Proof.
  apply (rtl_apply_twice_rtl_sentence _ _ [0x5D0; 0x5D1; 32; 40; 0x5D2; 41; 32; 0x5D3] 4108);
    [concrete_line|concrete_sentence].
Defined.

(** The sentence "a אב c". *)
Theorem rtl_apply_word_in_ltr_witness :
  rtl_apply 4096 4104 (line_mem [0x61; 0x20; 0x5D0; 0x5D1; 0x20; 0x63]) =
  Ok true (put 4096 (encode [0x61; 0x20; 0x5D1; 0x5D0; 0x20; 0x63])
             (line_mem [0x61; 0x20; 0x5D0; 0x5D1; 0x20; 0x63])).
Proof.
  apply (rtl_apply_word_in_ltr _ 4096 [0x61; 0x20] [0x5D0; 0x5D1] 0x20 0x63 [] 4104);
    concrete_line.
Defined.

Theorem rtl_apply_number_in_word_witness :
  rtl_apply 4096 4104 (line_mem [0x5D0; 0x31; 0x32; 0x5D1; 0x5D2]) =
  Ok true (put 4096 (encode [0x5D2; 0x5D1; 0x31; 0x32; 0x5D0])
             (line_mem [0x5D0; 0x31; 0x32; 0x5D1; 0x5D2])).
Proof.
  apply (rtl_apply_number_in_word _ 4096 [0x5D0] 0x31 [0x32] 0x5D1 [0x5D2] 4104); concrete_line.
Defined.

Theorem rtl_apply_number_at_end_witness :
  rtl_apply 4096 4102 (line_mem [0x5D0; 0x5D1; 0x31; 0x32]) =
  Ok true (put 4096 (encode [0x31; 0x32; 0x5D1; 0x5D0]) (line_mem [0x5D0; 0x5D1; 0x31; 0x32])).
Proof.
  apply (rtl_apply_number_at_end _ 4096 [0x5D0; 0x5D1] 0x31 [0x32] 4102); concrete_line.
Defined.

(** "אב12 c" comes out as "21בא c". *)
Theorem rtl_apply_number_before_ltr_reversed_witness :
  rtl_apply 4096 4104 (line_mem [0x5D0; 0x5D1; 0x31; 0x32; 0x20; 0x63]) =
  Ok true (put 4096 (encode [0x32; 0x31; 0x5D1; 0x5D0; 0x20; 0x63])
             (line_mem [0x5D0; 0x5D1; 0x31; 0x32; 0x20; 0x63])).
Proof.
  apply (rtl_apply_number_before_ltr_reversed _ 4096 [0x5D0; 0x5D1] 0x31 [0x32] 0x20 0x63 []
    4104); concrete_line.
Defined.

Theorem rtl_apply_number_space_moves_witness :
  rtl_apply 4096 4104 (line_mem [0x5D0; 0x20; 0x31; 0x32; 0x20; 0x5D1]) =
  Ok true (put 4096 (encode [0x5D1; 0x31; 0x32; 0x20; 0x20; 0x5D0])
             (line_mem [0x5D0; 0x20; 0x31; 0x32; 0x20; 0x5D1])).
Proof.
  apply (rtl_apply_number_space_moves _ 4096 [0x5D0] 0x31 [0x32] 0x5D1 [] 4104); concrete_line.
Defined.

(** Running the layout a second time, as the patch does after a line is rendered,
    does not always restore the text: "א1" stays "1א". *)
Theorem rtl_apply_second_call_does_not_restore :
  exists b m, (rtl_apply 4096 4099;; rtl_apply 4096 4099) (line_mem [0x5D0; 0x31]) = Ok b m /\
    m = line_mem [0x31; 0x5D0] /\ m <> line_mem [0x5D0; 0x31].
Proof.
  exists false, (line_mem [0x31; 0x5D0]).
  split; [by vm_compute|]. split; [done|].
  intros E%(f_equal (lookup 4096)). by vm_compute in E.
Qed.

(** A code point that is a multiple of 2^16 ends the scan: the Hebrew letters
    behind U+10000 are not laid out. *)
Theorem rtl_apply_stops_at_aliased_nul :
  rtl_apply 4096 4106 (line_mem [0x61; 0x10000; 0x5D0; 0x5D1]) =
  Ok false (line_mem [0x61; 0x10000; 0x5D0; 0x5D1]).
Proof. by vm_compute. Qed.
