(* ===== verification/Shaper.v ===== *)
(** * Contextual shaping of Arabic text (runtime/text_shaper.c)

    The tables [ARABIC_SHAPER_LUT] and [ARABIC_LIGATURE_LUT] are generated by
    fonts/text_shaper.py; here they are byte arrays that the code casts to
    packed structs and to 16-bit words.  [shape_text] and [unshape_text] rewrite a
    NUL-terminated text in place. *)

From S2P Require Import Prelude Memory Utf8 Ranges.

(** ** Tables *)

(** The generated tables, as the bytes of the C arrays. *)
Class ShaperTables := {
  ARABIC_SHAPER_LUT : list Z;
  ARABIC_LIGATURE_LUT : list Z;
}.

(** [struct __attribute__((packed)) ShaperLUTEntry] *)
Record ShaperLUTEntry := mk_entry {
  true_codept : Z;
  isolated_codept : Z;
  initial_codept_delta : Z;
  medial_codept_delta : Z;
  final_codept_delta : Z;
}.

(** A little-endian [uint16_t] and an [int8_t] in a byte array. *)
Definition get_uint16 (bs : list Z) (o : nat) : Z := nth o bs 0 + 256 * nth (o + 1) bs 0.
Definition get_int8 (bs : list Z) (o : nat) : Z :=
  let b := nth o bs 0 in if b <? 128 then b else b - 256.

(** [sizeof(ShaperLUTEntry)]: the struct is packed. *)
Definition sizeof_entry : nat := 7.

(** [shaper_lut[i]] of the array cast to the packed struct. *)
Definition lut_entry (bs : list Z) (i : nat) : ShaperLUTEntry :=
  let o := (i * sizeof_entry)%nat in
  mk_entry (get_uint16 bs o) (get_uint16 bs (o + 2))
    (get_int8 bs (o + 4)) (get_int8 bs (o + 5)) (get_int8 bs (o + 6)).

(** [(ShaperLUTEntry * )ARABIC_SHAPER_LUT], all its entries in order. *)
Definition shaper_lut (bs : list Z) : list ShaperLUTEntry :=
  lut_entry bs <$> seq 0 (length bs / sizeof_entry).

(** [(uint16_t * )ARABIC_LIGATURE_LUT], all its words in order. *)
Definition ligature_lut (bs : list Z) : list Z :=
  (fun i => get_uint16 bs (i * 2)) <$> seq 0 (length bs / 2).

Definition LIG_REPLACEMENT_CODEPT_MASK : Z := Z.shiftl 1 15.

Definition is_replacement (w : Z) : bool := negb (Z.land w LIG_REPLACEMENT_CODEPT_MASK =? 0).

Definition replacement (w : Z) : Z := u16 (Z.land w (Z.lnot LIG_REPLACEMENT_CODEPT_MASK)).

(** ** Lookups *)

(** The loop of [find_lut_entry_by_codept]. *)
Fixpoint find_entry (lut : list ShaperLUTEntry) (codept : Z) : option ShaperLUTEntry :=
  match lut with
  | [] => None
  | e :: lut => if true_codept e =? codept then Some e else find_entry lut codept
  end.

Definition find_lut_entry_by_codept `{ShaperTables} (codept : Z) : option ShaperLUTEntry :=
  if (codept <? 0x600) && (codept >? 0x6ff) then None
  else find_entry (shaper_lut ARABIC_SHAPER_LUT) codept.

(** The loop of [find_ligature_by_codepts] from its current word on; [pattern[i]]
    past the end of [pattern], which the comparison reads, is [oob]. *)
Fixpoint find_ligature (oob : Z) (pattern : list Z) (ws : list Z) (searching : bool)
    (pattern_idx : nat) : Z :=
  match ws with
  | [] => 0
  | w :: ws =>
      if searching then
        if (w =? nth pattern_idx pattern oob) && (pattern_idx <? length pattern)%nat
        then find_ligature oob pattern ws true (S pattern_idx)
        else if is_replacement w then replacement w
        else find_ligature oob pattern ws false 0
      else find_ligature oob pattern ws (is_replacement w) pattern_idx
  end.

Definition find_ligature_by_codepts `{ShaperTables} (oob : Z) (pattern : list Z) : Z :=
  find_ligature oob pattern (ligature_lut ARABIC_LIGATURE_LUT) true 0.

(** ** [shape_text] *)

Inductive ShaperState := STATE_INITIAL | STATE_MEDIAL.

#[export] Instance ShaperState_eq_dec : EqDecision ShaperState.
Proof. solve_decision. Defined.

(** The locals of [shape_text] that live across iterations. *)
Record shaper_locals := mk_shaper {
  state : ShaperState;
  ptr : Z;
  next_codept_ptr : Z;
  this_codept : Z;
  next_codept : Z;
  next_lut_entry : option ShaperLUTEntry;
  this_codept_ptr : Z;
  late_finalize_ptr : Z;
  late_finalize_lut_entry : option ShaperLUTEntry;
  ligature_span : Z;
}.

(** [!next_lut_entry && !is_zero_width(...)], or a letter without a medial form. *)
Definition ends_here (e : ShaperLUTEntry) (next_entry : option ShaperLUTEntry) (next : Z) : bool :=
  (negb (bool_decide (is_Some next_entry)) && negb (is_zero_width next)) ||
  ((medial_codept_delta e =? final_codept_delta e) && negb (final_codept_delta e =? 0)).

Section Code.
Context `{ShaperTables}.

(** "Read forward one": the next code point, its pointer and entry, the advanced
    [ptr] and the ligature span. *)
Definition shape_read (oob : Z) (l : shaper_locals) : M (Z * Z * option ShaperLUTEntry * Z * Z) :=
  b ← load8 (ptr l);
  if negb (b =? 0) then
    '(codept, ptr') ← read_utf8 (ptr l);
    let lig_codept := find_ligature_by_codepts oob [next_codept l; codept] in
    let '(codept, span) :=
      if negb (lig_codept =? 0) then (lig_codept, 1) else (codept, ligature_span l) in
    mret (codept, ptr l, find_lut_entry_by_codept codept, ptr', span)
  else mret (0, NULL, None, ptr l, ligature_span l).

(** "Close any existing word": the letter a zero-width run followed. *)
Definition late_finalize (st : ShaperState) (late_ptr : Z) (late_entry : option ShaperLUTEntry)
    : M unit :=
  if late_ptr =? NULL then mret tt
  else match late_entry with
       | None => fault late_ptr
       | Some e =>
           match st with
           | STATE_INITIAL => write_utf8 late_ptr (isolated_codept e)
           | STATE_MEDIAL => write_utf8 late_ptr (isolated_codept e + final_codept_delta e)
           end
       end.

(** What is done to the current letter: the new state, late pointer and late entry. *)
Definition shape_this (st : ShaperState) (late_ptr : Z) (late_entry : option ShaperLUTEntry)
    (this next : Z) (this_ptr : Z) (this_entry next_entry : option ShaperLUTEntry)
    : M (ShaperState * Z * option ShaperLUTEntry) :=
  if is_zero_width this then mret (st, late_ptr, late_entry)
  else match this_entry with
  | Some e =>
      if ends_here e next_entry next then
        match st with
        | STATE_INITIAL => write_utf8 this_ptr (isolated_codept e)
        | STATE_MEDIAL => write_utf8 this_ptr (isolated_codept e + final_codept_delta e)
        end;;
        mret (STATE_INITIAL, NULL, late_entry)
      else match st with
      | STATE_INITIAL =>
          write_utf8 this_ptr (isolated_codept e + initial_codept_delta e);;
          mret (STATE_MEDIAL, this_ptr, Some e)
      | STATE_MEDIAL =>
          write_utf8 this_ptr (isolated_codept e + medial_codept_delta e);;
          mret (STATE_MEDIAL, this_ptr, Some e)
      end
  | None =>
      late_finalize st late_ptr late_entry;;
      mret (STATE_INITIAL, NULL, late_entry)
  end.

(** One iteration of the [do ... while] loop. *)
Definition shape_body (oob : Z) (l : shaper_locals) : M (shaper_locals + unit) :=
  let this := next_codept l in
  let this_ptr := next_codept_ptr l in
  let this_entry := next_lut_entry l in
  '(next, next_ptr, next_entry, ptr', span) ← shape_read oob l;
  '(st, late_ptr, late_entry, span) ←
    (if negb (span =? 0) then
       write_utf8 this_ptr ZERO_WIDTH_CODEPT;;
       mret (state l, late_finalize_ptr l, late_finalize_lut_entry l, span - 1)
     else
       '(st, late_ptr, late_entry) ←
         shape_this (state l) (late_finalize_ptr l) (late_finalize_lut_entry l)
           this next this_ptr this_entry next_entry;
       mret (st, late_ptr, late_entry, span));
  let l' := mk_shaper st ptr' next_ptr this next next_entry this_ptr late_ptr late_entry span in
  mret (if (this =? 0) && (next =? 0) then inr tt else inl l').

(** [uninit] is the value of the uninitialised [next_codept_ptr]. *)
Definition shape_init (uninit text : Z) : shaper_locals :=
  mk_shaper STATE_INITIAL text uninit 0 0 None NULL NULL None 0.

Definition shape_text (oob uninit text : Z) : M unit := fun m =>
  loop (text_fuel m) (shape_body oob) (shape_init uninit text) m.

(** ** [unshape_text] *)

(** The loop of [find_base_codept_by_shaped]. *)
Fixpoint find_base (lut : list ShaperLUTEntry) (codept : Z) : Z :=
  match lut with
  | [] => 0
  | e :: lut =>
      if (isolated_codept e =? codept) ||
         (isolated_codept e + initial_codept_delta e =? codept) ||
         (isolated_codept e + medial_codept_delta e =? codept) ||
         (isolated_codept e + final_codept_delta e =? codept)
      then true_codept e
      else find_base lut codept
  end.

Definition find_base_codept_by_shaped (codept : Z) : Z :=
  find_base (shaper_lut ARABIC_SHAPER_LUT) codept.

(** The inner loop of [expand_ligature]: copies words up to the replacement. *)
Fixpoint write_pattern (n : nat) (ws : list Z) (start : nat) (p : Z) : M unit :=
  match n with
  | O => fun _ => OutOfFuel
  | S n =>
      let w := nth start ws 0 in
      if negb (is_replacement w) then
        write_utf8 p w;;
        write_pattern n ws (S start) (p + 2)
      else mret tt
  end.

(** The loop of [expand_ligature] at index [i], with [n] words to go. *)
Fixpoint expand_from (ws : list Z) (codept p : Z) (n i last_pattern_start : nat) : M bool :=
  match n with
  | O => mret false
  | S n =>
      let w := nth i ws 0 in
      if is_replacement w then
        if replacement w =? codept then
          write_pattern (S (i - last_pattern_start)) ws last_pattern_start
            (p - 2 * (Z.of_nat i - Z.of_nat last_pattern_start - 1));;
          mret true
        else expand_from ws codept p n (S i) (S i)
      else expand_from ws codept p n (S i) last_pattern_start
  end.

Definition expand_ligature (codept p : Z) : M bool :=
  let ws := ligature_lut ARABIC_LIGATURE_LUT in
  expand_from ws codept p (length ws) 0 0.

(** One iteration of [while ( *iter)]. *)
Definition unshape_body `{ShaperRange} (iter : Z) : M (Z + unit) :=
  b ← load8 iter;
  if b =? 0 then mret (inr tt)
  else
    let iter_pre := iter in
    '(codept, iter) ← read_utf8 iter;
    if negb (ARABIC_SHAPER_RANGE codept) then mret (inl iter)
    else
      let old_codept := find_base_codept_by_shaped codept in
      if negb (old_codept =? 0) then
        expanded ← expand_ligature old_codept iter_pre;
        (if expanded : bool then mret tt else write_utf8 iter_pre old_codept);;
        mret (inl iter)
      else mret (inl iter).

Definition unshape_text `{ShaperRange} (text : Z) : M unit := fun m =>
  loop (text_fuel m) unshape_body text m.
End Code.
