(* ===== verification/ShaperSpec.v ===== *)
(** * What the shaper's tables promise, and shaping on code points

    The interface [ShaperTablesOk] states what the code relies on in the generated
    tables; [shape_runes] is the specification of [shape_text] on the code points
    of the text. *)

From S2P Require Import Prelude Memory Utf8 Ranges Shaper.

(** ** The interface of the generated tables *)

(** The words of a two-letter ligature in the ligature table. *)
Definition lig_words (l : Z * Z * Z) : list Z :=
  let '(a, b, r) := l in [a; b; r + 32768].

(** The four shapes of a letter. *)
Definition iso e := isolated_codept e.
Definition ini e := isolated_codept e + initial_codept_delta e.
Definition med e := isolated_codept e + medial_codept_delta e.
Definition fin e := isolated_codept e + final_codept_delta e.
Definition forms (e : ShaperLUTEntry) : list Z := [iso e; ini e; med e; fin e].

(** What text_shaper.py makes sure of. *)
Class ShaperTablesOk `{ShaperTables} := {
  ligatures : list (Z * Z * Z);
  (** the ligature table is a sequence of two-letter ligatures *)
  ligature_table : ligature_lut ARABIC_LIGATURE_LUT = flat_map lig_words ligatures;
  (** letters and their shapes are two-byte runes *)
  entry_two_byte : Forall (fun e => two_byte (true_codept e) /\ Forall two_byte (forms e))
                     (shaper_lut ARABIC_SHAPER_LUT);
  (** the letters of a ligature are in the table, and so is the ligature, which is
      not a zero-width code point *)
  ligature_letters : Forall (fun '(a, b, r) =>
    is_Some (find_lut_entry_by_codept a) /\ is_Some (find_lut_entry_by_codept b) /\
    is_Some (find_lut_entry_by_codept r) /\ is_zero_width r = false) ligatures;
}.

(** The shapes of letters have code points of their own, and no letter of the table
    is zero-width. *)
Class ShaperFormsOk `{ShaperTables} : Prop := {
  forms_not_letters : Forall (fun e => Forall (fun f => find_lut_entry_by_codept f = None) (forms e))
                        (shaper_lut ARABIC_SHAPER_LUT);
  letters_not_zero_width : Forall (fun e => is_zero_width (true_codept e) = false)
                             (shaper_lut ARABIC_SHAPER_LUT);
}.

(** ** Lookups as the tables define them *)

(** The ligature of two letters: the first of the table. *)
Fixpoint lig_of (ligs : list (Z * Z * Z)) (a b : Z) : Z :=
  match ligs with
  | [] => 0
  | (a', b', r) :: ligs => if (a' =? a) && (b' =? b) then r else lig_of ligs a b
  end.

(** ** Shaping code points *)

Section Spec.
Context `{ShaperTables}.

Definition letter (c : Z) : option ShaperLUTEntry := find_lut_entry_by_codept (u16 c).
Definition zw (c : Z) : bool := is_zero_width (u16 c).
Definition lig (a b : Z) : Z := find_ligature_by_codepts 0 [u16 a; u16 b].

(** Ligatures first: the first letter of one becomes a zero-width code point, the
    second one the ligature, which can itself start the next one. *)
Fixpoint ligate_from (c : Z) (rest : list Z) : list Z :=
  match rest with
  | [] => [c]
  | c2 :: rest =>
      if lig c c2 =? 0 then c :: ligate_from c2 rest
      else ZERO_WIDTH_CODEPT :: ligate_from (lig c c2) rest
  end.

Definition ligate (cps : list Z) : list Z :=
  match cps with [] => [] | c :: rest => ligate_from c rest end.

(** The letter joins what follows: a letter or a zero-width code point. *)
Definition joins_next (rest : list Z) : bool :=
  match rest with
  | [] => false
  | c :: _ => bool_decide (is_Some (letter c)) || zw c
  end.

(** The first code point that is not zero-width is a letter. *)
Fixpoint next_letter (rest : list Z) : bool :=
  match rest with
  | [] => false
  | c :: rest => if zw c then next_letter rest else bool_decide (is_Some (letter c))
  end.

(** A letter whose medial and final shapes are the same joins only to the right. *)
Definition right_joining (e : ShaperLUTEntry) : bool :=
  (medial_codept_delta e =? final_codept_delta e) && negb (final_codept_delta e =? 0).

(** The shape of a letter, by whether it joins the letter before and after it. *)
Definition shape_of (st : ShaperState) (joins_after : bool) (e : ShaperLUTEntry) : Z :=
  match st, joins_after with
  | STATE_INITIAL, false => iso e
  | STATE_INITIAL, true => ini e
  | STATE_MEDIAL, true => med e
  | STATE_MEDIAL, false => fin e
  end.

Fixpoint shape_go (st : ShaperState) (s : list Z) : list Z :=
  match s with
  | [] => []
  | c :: rest =>
      if zw c then c :: shape_go st rest
      else match letter c with
      | None => c :: shape_go STATE_INITIAL rest
      | Some e =>
          if negb (joins_next rest) || right_joining e
          then shape_of st false e :: shape_go STATE_INITIAL rest
          else (if next_letter rest then shape_of st true e else fin e)
               :: shape_go STATE_MEDIAL rest
      end
  end.

Definition shape_runes (cps : list Z) : list Z := shape_go STATE_INITIAL (ligate cps).

(** A code point [shape_text] treats as itself: it is not read as NUL, and is not
    taken for a letter by losing its high bits. *)
Definition shapeable (c : Z) : Prop :=
  is_codept c /\ u16 c <> 0 /\ (is_Some (letter c) -> c < 65536).

#[export] Instance shapeable_dec c : Decision (shapeable c).
Proof. unfold shapeable. apply _. Defined.
End Spec.

(** ** Words of the ligature table *)

Lemma is_replacement_letter w : 0 <= w < 32768 -> is_replacement w = false.
Proof.
  intros Hw. unfold is_replacement, LIG_REPLACEMENT_CODEPT_MASK.
  replace (Z.land w (Z.shiftl 1 15)) with 0; [done|].
  symmetry. apply Z.bits_inj'. intros i Hi. rewrite Z.land_spec, Z.bits_0.
  rewrite <- (Z.mod_small w (2 ^ 15)) by (simpl; lia).
  destruct (decide (i < 15)).
  - by rewrite Z.shiftl_spec_low, andb_false_r by lia.
  - by rewrite Z.mod_pow2_bits_high by lia.
Qed.

Lemma is_replacement_ligature r : 0 <= r < 32768 -> is_replacement (r + 32768) = true.
Proof.
  intros Hr. unfold is_replacement, LIG_REPLACEMENT_CODEPT_MASK.
  apply negb_true_iff, Z.eqb_neq. intros E%(f_equal (fun z => Z.testbit z 15)).
  rewrite Z.land_spec, Z.bits_0 in E.
  replace (r + 32768) with (Z.lor (Z.shiftl 1 15) r) in E by (rewrite lor_shiftl_add; lia).
  by rewrite Z.lor_spec in E.
Qed.

Lemma replacement_ligature r : 0 <= r < 32768 -> replacement (r + 32768) = r.
Proof.
  intros Hr. unfold replacement, LIG_REPLACEMENT_CODEPT_MASK.
  replace (Z.land (r + 32768) (Z.lnot (Z.shiftl 1 15))) with r; [by rewrite u16_small by lia|].
  symmetry. rewrite <- Z.ldiff_land.
  replace (r + 32768) with (Z.lor (Z.shiftl 1 15) r) by (rewrite lor_shiftl_add; lia).
  apply Z.bits_inj'. intros i Hi. rewrite Z.ldiff_spec, Z.lor_spec.
  destruct (decide (i = 15)) as [->|Hne].
  - rewrite <- (Z.mod_small r (2 ^ 15)) by (simpl; lia).
    by rewrite Z.mod_pow2_bits_high by lia.
  - replace (Z.testbit (Z.shiftl 1 15) i) with false; [by rewrite andb_true_r|].
    rewrite Z.shiftl_spec by lia. symmetry.
    destruct (decide (i < 15)); [by rewrite Z.testbit_neg_r by lia|].
    apply (Z.bits_above_log2 1); simpl; lia.
Qed.
