(* ===== verification/ShaperRefine.v ===== *)
(** * [shape_text] implements [shape_runes] *)

From S2P Require Import Prelude Memory Utf8 Ranges Shaper ShaperSpec.

Section Refine.
Context `{ShaperTables} `{!ShaperTablesOk}.

(** ** Lookups *)

Lemma find_entry_Some lut codept e :
  find_entry lut codept = Some e -> e ∈ lut /\ true_codept e = codept.
Proof.
  induction lut as [|e' lut IH]; [done|]. simpl.
  destruct (Z.eqb_spec (true_codept e') codept).
  - intros [= <-]. split; [by left|done].
  - intros [? ?]%IH. split; [by right|done].
Qed.

(** The guard in front of the loop never fires. *)
Lemma find_lut_entry_eq codept :
  find_lut_entry_by_codept codept = find_entry (shaper_lut ARABIC_SHAPER_LUT) codept.
Proof.
  unfold find_lut_entry_by_codept.
  destruct (Z.ltb_spec codept 0x600), (Z.gtb_spec codept 0x6ff); try done; lia.
Qed.

Lemma entry_two_bytes codept e :
  find_lut_entry_by_codept codept = Some e ->
  two_byte codept /\ two_byte (iso e) /\ two_byte (ini e) /\ two_byte (med e) /\ two_byte (fin e).
Proof.
  rewrite find_lut_entry_eq. intros [Hin <-]%find_entry_Some.
  pose proof entry_two_byte as HF. rewrite Forall_forall in HF.
  destruct (HF e Hin) as [Ht Hf]. unfold forms in Hf. by rewrite !Forall_cons in Hf; destruct_and! Hf.
Qed.

Lemma find_ligature_words oob a b ligs :
  Forall (fun '(a, b, r) => two_byte a /\ two_byte b /\ two_byte r) ligs ->
  find_ligature oob [a; b] (flat_map lig_words ligs) true 0 = lig_of ligs a b.
Proof.
  unfold two_byte.
  induction 1 as [|[[a' b'] r] ligs (Ha & Hb & Hr) _ IH]; [done|]. cbn [flat_map lig_words app lig_of].
  cbn [find_ligature nth length Nat.ltb Nat.leb]. rewrite !andb_true_r, andb_false_r.
  rewrite (is_replacement_letter a'), (is_replacement_letter b'), is_replacement_ligature by lia.
  rewrite replacement_ligature by lia. rewrite IH.
  by destruct (a' =? a), (b' =? b).
Qed.

Lemma ligatures_two_byte :
  Forall (fun '(a, b, r) => two_byte a /\ two_byte b /\ two_byte r) ligatures.
Proof.
  eapply Forall_impl; [apply ligature_letters|].
  intros [[a b] r] ([? Ha] & [? Hb] & [? Hr] & _).
  apply entry_two_bytes in Ha as [? _], Hb as [? _], Hr as [? _]. done.
Qed.

Lemma find_ligature_eq oob a b :
  find_ligature_by_codepts oob [a; b] = lig_of ligatures a b.
Proof.
  unfold find_ligature_by_codepts. rewrite ligature_table.
  apply find_ligature_words, ligatures_two_byte.
Qed.

Lemma lig_of_letters a b :
  lig_of ligatures a b <> 0 ->
  is_Some (find_lut_entry_by_codept a) /\ is_Some (find_lut_entry_by_codept b) /\
  is_Some (find_lut_entry_by_codept (lig_of ligatures a b)) /\
  is_zero_width (lig_of ligatures a b) = false.
Proof.
  pose proof ligature_letters as HF. revert HF. generalize ligatures. intros ligs.
  induction 1 as [|[[a' b'] r] ligs Hl _ IH]; [done|]. cbn [lig_of].
  destruct (Z.eqb_spec a' a) as [->|], (Z.eqb_spec b' b) as [->|]; simpl; done.
Qed.

(** ** Code points as letters *)

Lemma letter_two_byte c e : letter c = Some e -> two_byte (u16 c).
Proof. unfold letter. by intros [? _]%entry_two_bytes. Qed.

Lemma shapeable_letter c e : shapeable c -> letter c = Some e -> u16 c = c /\ two_byte c.
Proof.
  intros (Hc & _ & Hl) He. pose proof (letter_two_byte c e He) as Ht.
  assert (u16 c = c) as E by (apply u16_small; unfold is_codept in Hc; eauto with lia).
  by rewrite E in Ht.
Qed.

Lemma ZERO_WIDTH_two_byte : two_byte ZERO_WIDTH_CODEPT.
Proof. by vm_compute. Qed.

Lemma zw_ZERO_WIDTH : zw ZERO_WIDTH_CODEPT = true.
Proof. by vm_compute. Qed.

(** Code points in the buffer: [c] is the code point, [c0] the rune in memory; they
    differ when [c] is a ligature that has not been written yet. *)
Definition buffered (c c0 : Z) : Prop :=
  (c = c0 /\ shapeable c0) \/
  (two_byte c0 /\ two_byte c /\ zw c = false /\ is_Some (letter c)).

Lemma buffered_codept c c0 : buffered c c0 -> is_codept c0.
Proof. intros [[_ (? & _)]|[? _]]; [done|by apply two_byte_codept]. Qed.

Lemma buffered_nonzero c c0 : buffered c c0 -> u16 c <> 0.
Proof.
  intros [[-> (_ & ? & _)]|(_ & Hc & _)]; [done|].
  unfold two_byte in Hc. rewrite u16_small by lia. lia.
Qed.

Lemma buffered_letter c c0 e : buffered c c0 -> letter c = Some e -> two_byte c0.
Proof. intros [[-> Hs]|[? _]] He; [by eapply shapeable_letter|done]. Qed.

Lemma buffered_other c c0 : buffered c c0 -> zw c = true \/ letter c = None -> c = c0.
Proof.
  intros [[-> _]|(_ & _ & Hz & [e He])]; [done|]. rewrite Hz, He. by intros [].
Qed.

(** ** Where a late finalisation is pending *)

(** [pending st late_ptr late_entry A res]: the runes [A] are processed, and come
    out as [res s] once it is known that [s] follows. *)
Inductive pending (p : Z) : ShaperState -> Z -> option ShaperLUTEntry -> list Z ->
    (list Z -> list Z) -> Prop :=
| pending_none st le A : pending p st NULL le A (fun _ => A)
| pending_late A x e Zs :
    two_byte x -> two_byte (fin e) ->
    pending p STATE_MEDIAL (p + len (encode A)) (Some e) (A ++ x :: Zs)
      (fun s => A ++ (if next_letter s then x else fin e) :: Zs).

Lemma pending_zw p st lp le A res c :
  pending p st lp le A res -> zw c = true ->
  exists res', pending p st lp le (A ++ [c]) res' /\
    forall s, res' s = res (c :: s) ++ [c].
Proof.
  intros [|A' x e Zs Hx He] Hc; eexists.
  - split; [apply pending_none|]. done.
  - rewrite <- app_assoc. cbn [app]. split; [by apply pending_late|].
    intros s. cbn [next_letter]. by rewrite Hc, <- app_assoc.
Qed.

Lemma pending_letter p st lp le A res c s :
  pending p st lp le A res -> zw c = false -> is_Some (letter c) -> res (c :: s) = A.
Proof.
  intros [|A' x e Zs Hx He] Hz Hl; [done|]. cbn [next_letter]. by rewrite Hz, bool_decide_true.
Qed.

(** "Close any existing word". *)
Lemma late_finalize_ok p st lp le A res B m :
  0 < p -> pending p st lp le A res ->
  late_finalize st lp le (put p (encode A ++ B) m) =
  Ok tt (put p (encode (res []) ++ B) m).
Proof.
  intros Hp [|A' x e Zs Hx He]; [done|]. unfold late_finalize.
  assert ((p + len (encode A') =? NULL) = false) as -> by (apply Z.eqb_neq; unfold NULL; lia).
  cbn [next_letter]. by apply write_utf8_rune.
Qed.

Lemma pending_other p st lp le A res s :
  pending p st lp le A res -> next_letter s = false -> res s = res [].
Proof. intros [|A' x e Zs Hx He] Hs; [done|]. by rewrite Hs. Qed.

Lemma pending_length p st lp le A res s :
  pending p st lp le A res -> len (encode (res s)) = len (encode A).
Proof.
  intros [|A' x e Zs Hx He]; [done|]. rewrite !encode_app, !encode_cons, !length_app.
  destruct (next_letter s); [done|]. by rewrite (utf8_length_eq (fin e) x).
Qed.

(** ** One iteration *)

Lemma write_shape p A c0 B post m v :
  two_byte c0 -> two_byte v ->
  write_utf8 (p + len (encode A)) v (put p (encode (A ++ c0 :: B) ++ post) m) =
  Ok tt (put p (encode ((A ++ [v]) ++ B) ++ post) m).
Proof. intros. rewrite <- app_assoc. by apply write_utf8_rune. Qed.

Lemma snoc_length A v c0 :
  two_byte c0 -> two_byte v -> len (encode (A ++ [v])) = len (encode (A ++ [c0])).
Proof.
  intros. rewrite !encode_app, !encode_one, !length_app. by rewrite (utf8_length_eq v c0).
Qed.

(** The current letter is processed: the text so far is extended by the shape of [c]
    as the specification has it, or a later rune will correct it. *)
Lemma shape_this_ok p st lp le A res c c0 B post m next next_entry s :
  0 < p -> pending p st lp le A res -> buffered c c0 ->
  bool_decide (is_Some next_entry) || is_zero_width next = joins_next s ->
  exists st' lp' le' A' res',
    shape_this st lp le (u16 c) next (p + len (encode A)) (letter c) next_entry
      (put p (encode (A ++ c0 :: B) ++ post) m) =
      Ok (st', lp', le') (put p (encode (A' ++ B) ++ post) m) /\
    pending p st' lp' le' A' res' /\
    len (encode A') = len (encode (A ++ [c0])) /\
    res' s ++ shape_go st' s = res (c :: s) ++ shape_go st (c :: s).
Proof.
  intros Hp Hpend Hbuf Hjoin. unfold shape_this. fold (zw c). cbn [shape_go].
  destruct (zw c) eqn:Hz.
  { assert (c = c0) as <- by eauto using buffered_other.
    destruct (pending_zw _ _ _ _ _ _ _ Hpend Hz) as (res' & Hp' & Hres).
    exists st, lp, le, (A ++ [c]), res'. split; [by rewrite <- app_assoc|].
    split; [done|]. split; [done|]. by rewrite Hres, <- app_assoc. }
  destruct (letter c) as [e|] eqn:He.
  - pose proof (buffered_letter _ _ _ Hbuf He) as Hc0.
    assert (two_byte (iso e) /\ two_byte (ini e) /\ two_byte (med e) /\ two_byte (fin e))
      as (Hiso & Hini & Hmed & Hfin) by exact (proj2 (entry_two_bytes _ _ He)).
    rewrite (pending_letter _ _ _ _ _ _ _ _ Hpend Hz) by eauto.
    assert (ends_here e next_entry next = negb (joins_next s) || right_joining e) as ->
      by (unfold ends_here, right_joining; by rewrite <- Hjoin, negb_orb).
    destruct (negb (joins_next s) || right_joining e).
    + exists STATE_INITIAL, NULL, le, (A ++ [shape_of st false e]), (fun _ => A ++ [shape_of st false e]).
      split; [|split; [apply pending_none|split; [by destruct st; apply snoc_length|]]].
      * by destruct st; erewrite bind_ok by (by apply write_shape).
      * by rewrite <- app_assoc.
    + exists STATE_MEDIAL, (p + len (encode A)), (Some e), (A ++ [shape_of st true e]), (fun s =>
        A ++ (if next_letter s then shape_of st true e else fin e) :: []).
      split; [|split; [apply pending_late; by destruct st|
                       split; [by destruct st; apply snoc_length|]]].
      * by destruct st; erewrite bind_ok by (by apply write_shape).
      * by rewrite <- app_assoc.
  - assert (c = c0) as <- by eauto using buffered_other.
    exists STATE_INITIAL, NULL, le, (res [] ++ [c]), (fun _ => res [] ++ [c]).
    split; [|split; [apply pending_none|split]].
    + rewrite encode_app, <- app_assoc.
      rewrite (bind_ok _ _ _ _ _ (late_finalize_ok p st lp le A res _ m Hp Hpend)).
      by rewrite app_assoc, <- encode_app, <- app_assoc.
    + rewrite !encode_app, !length_app, !Nat2Z.inj_add, (pending_length _ _ _ _ _ _ [] Hpend). done.
    + rewrite (pending_other _ _ _ _ _ _ (c :: s) Hpend); [by rewrite <- app_assoc|].
      cbn [next_letter]. by rewrite Hz, He.
Qed.

(** "Read forward one" on the rest of the text. *)
Lemma shape_read_ok oob p X rest tail m l :
  Forall shapeable rest -> ptr l = p + len X ->
  shape_read oob l (put p (X ++ encode rest ++ 0 :: tail) m) =
  Ok (match rest with
      | [] => (0, NULL, None, ptr l, ligature_span l)
      | c2 :: _ =>
          let L := lig_of ligatures (next_codept l) (u16 c2) in
          if L =? 0
          then (u16 c2, ptr l, letter c2, ptr l + len (utf8_bytes c2), ligature_span l)
          else (L, ptr l, find_lut_entry_by_codept L, ptr l + len (utf8_bytes c2), 1)
      end) (put p (X ++ encode rest ++ 0 :: tail) m).
Proof.
  intros Hrest Hptr. unfold shape_read. destruct rest as [|c2 rest].
  - by rewrite (bind_ok _ _ _ _ _ (load8_mid p X 0 tail m _ Hptr)).
  - apply Forall_cons in Hrest as [(Hc & _) _].
    rewrite encode_cons, <- app_assoc.
    destruct (load8_rune p X c2 (encode rest ++ 0 :: tail) m _ Hc Hptr) as (b & Hb & Hload).
    rewrite (bind_ok _ _ _ _ _ Hload). apply Z.eqb_neq in Hb. rewrite Hb. cbn [negb].
    rewrite (bind_ok _ _ _ _ _ (read_utf8_mid p X c2 _ m _ Hc Hptr)), find_ligature_eq.
    by destruct (lig_of ligatures _ _ =? 0).
Qed.

Lemma lig_eq a b : lig a b = lig_of ligatures (u16 a) (u16 b).
Proof. apply find_ligature_eq. Qed.

(** The lookahead of the code agrees with the one of the specification, which sees
    the first letter of a ligature as zero-width. *)
Lemma joins_ligate c rest :
  joins_next (ligate_from c rest) = bool_decide (is_Some (letter c)) || zw c.
Proof.
  destruct rest as [|c2 rest]; [done|]. cbn [ligate_from].
  destruct (Z.eqb_spec (lig c c2) 0) as [|Hlig]; [done|].
  rewrite lig_eq in Hlig. apply lig_of_letters in Hlig as (Ha & _).
  cbn [joins_next]. rewrite zw_ZERO_WIDTH, orb_true_r. by rewrite bool_decide_true.
Qed.

(** Behind the text: a pending letter is closed, and the loop ends. *)
Lemma shape_end_ok oob p st lp le A res tail m tc tp q fuel :
  0 < p -> pending p st lp le A res -> q = p + len (encode A) ->
  loop (S fuel) (shape_body oob) (mk_shaper st q NULL tc 0 None tp lp le 0)
    (put p (encode A ++ 0 :: tail) m) =
  Ok tt (put p (encode (res []) ++ 0 :: tail) m).
Proof.
  intros Hp Hpend Hq. apply loop_exit. unfold shape_body.
  rewrite (bind_ok _ _ _ _ _ (shape_read_ok oob p (encode A) [] tail m
    (mk_shaper st q NULL tc 0 None tp lp le 0) (Forall_nil_2 _) Hq)).
  cbn [state late_finalize_ptr late_finalize_lut_entry next_codept next_codept_ptr
    next_lut_entry ligature_span Z.eqb negb].
  rewrite bind_assoc. unfold shape_this. change (is_zero_width 0) with false. cbn iota.
  rewrite bind_assoc. cbn [app encode flat_map].
  rewrite (bind_ok _ _ _ _ _ (late_finalize_ok p st lp le A res _ m Hp Hpend)). done.
Qed.

(** The runes of the text that follow [c] once ligatures are resolved. *)
Definition ligated (rest : list Z) : list Z :=
  match rest with [] => [] | c2 :: rest => ligate_from c2 rest end.

(** The locals at the head of an iteration that will process [c], read as [c0]. *)
Definition at_rune (p : Z) (A : list Z) (c c0 : Z) st tc tp lp le : shaper_locals :=
  mk_shaper st (p + len (encode (A ++ [c0]))) (p + len (encode A)) tc (u16 c) (letter c)
    tp lp le 0.

(** The locals after an iteration, before the first rune of [rest] or the end. *)
Definition before_rest (p : Z) (A rest : list Z) st tc tp lp le : shaper_locals :=
  match rest with
  | [] => mk_shaper st (p + len (encode A)) NULL tc 0 None tp lp le 0
  | c2 :: _ => at_rune p A c2 c2 st tc tp lp le
  end.

Lemma encode_snoc_length A c0 : len (encode (A ++ [c0])) = len (encode A) + len (utf8_bytes c0).
Proof. rewrite encode_app, encode_one, length_app. lia. Qed.

(** An iteration whose rune does not start a ligature. *)
Lemma shape_body_plain oob p A c c0 rest tail m st tc tp lp le res :
  0 < p -> pending p st lp le A res -> buffered c c0 -> Forall shapeable rest ->
  match rest with [] => True | c2 :: _ => lig c c2 = 0 end ->
  exists st' lp' le' A' res',
    shape_body oob (at_rune p A c c0 st tc tp lp le)
      (put p (encode (A ++ c0 :: rest) ++ 0 :: tail) m) =
      Ok (inl (before_rest p A' rest st' (u16 c) (p + len (encode A)) lp' le'))
        (put p (encode (A' ++ rest) ++ 0 :: tail) m) /\
    pending p st' lp' le' A' res' /\
    res' (ligated rest) ++ shape_go st' (ligated rest) =
    res (c :: ligated rest) ++ shape_go st (c :: ligated rest).
Proof.
  intros Hp Hpend Hbuf Hrest Hlig.
  pose proof (buffered_nonzero _ _ Hbuf) as Hnz%Z.eqb_neq.
  set (next := match rest with [] => 0 | c2 :: _ => u16 c2 end).
  set (next_entry := match rest with [] => None | c2 :: _ => letter c2 end).
  assert (bool_decide (is_Some next_entry) || is_zero_width next = joins_next (ligated rest)) as Hj
    by (destruct rest; [done|cbn [ligated]; by rewrite joins_ligate]).
  destruct (shape_this_ok p st lp le A res c c0 rest (0 :: tail) m next next_entry
    (ligated rest) Hp Hpend Hbuf Hj) as (st' & lp' & le' & A' & res' & Hrun & Hpend' & Hlen & Hres).
  exists st', lp', le', A', res'. split; [|by split]. unfold shape_body.
  pose proof (shape_read_ok oob p (encode (A ++ [c0])) rest tail m
    (at_rune p A c c0 st tc tp lp le) Hrest eq_refl) as Hread.
  rewrite app_assoc, <- encode_app, <- app_assoc in Hread. cbn [app] in Hread.
  rewrite (bind_ok _ _ _ _ _ Hread). unfold at_rune, next, next_entry in *.
  destruct rest as [|c2 rest];
    cbn [state late_finalize_ptr late_finalize_lut_entry next_codept next_codept_ptr
      next_lut_entry ligature_span ptr Z.eqb negb] in *.
  - rewrite bind_assoc, (bind_ok _ _ _ _ _ Hrun), bind_ret.
    unfold before_rest. by rewrite Hnz, Hlen.
  - rewrite lig_eq in Hlig. rewrite Hlig. cbn [Z.eqb negb].
    rewrite bind_assoc, (bind_ok _ _ _ _ _ Hrun), bind_ret.
    unfold before_rest, at_rune. rewrite Hnz. by rewrite (encode_snoc_length A'), Hlen, Z.add_assoc.
Qed.

(** An iteration whose rune and the next one are a ligature. *)
Lemma shape_body_ligature oob p A c c0 c2 rest tail m st tc tp lp le :
  buffered c c0 -> Forall shapeable (c2 :: rest) -> lig c c2 <> 0 ->
  shape_body oob (at_rune p A c c0 st tc tp lp le)
    (put p (encode (A ++ c0 :: c2 :: rest) ++ 0 :: tail) m) =
    Ok (inl (at_rune p (A ++ [ZERO_WIDTH_CODEPT]) (lig c c2) c2 st (u16 c) (p + len (encode A)) lp le))
      (put p (encode ((A ++ [ZERO_WIDTH_CODEPT]) ++ c2 :: rest) ++ 0 :: tail) m) /\
  buffered (lig c c2) c2.
Proof.
  intros Hbuf Hrest Hlig. pose proof (buffered_nonzero _ _ Hbuf) as Hnz%Z.eqb_neq.
  rewrite lig_eq in Hlig |- *. pose proof (lig_of_letters _ _ Hlig) as ([e Ha] & [e2 Hb] & [eL HL] & HzL).
  pose proof (entry_two_bytes _ _ HL) as [HtL _].
  assert (u16 (lig_of ligatures (u16 c) (u16 c2)) = lig_of ligatures (u16 c) (u16 c2)) as EL
    by (apply u16_small; unfold two_byte in HtL; lia).
  pose proof (buffered_letter _ _ _ Hbuf Ha) as Hc0. split.
  - unfold shape_body.
    pose proof (shape_read_ok oob p (encode (A ++ [c0])) (c2 :: rest) tail m
      (at_rune p A c c0 st tc tp lp le) Hrest eq_refl) as Hread.
    rewrite app_assoc, <- encode_app, <- app_assoc in Hread. cbn [app] in Hread.
    rewrite (bind_ok _ _ _ _ _ Hread). unfold at_rune.
    cbn [state late_finalize_ptr late_finalize_lut_entry next_codept next_codept_ptr
      next_lut_entry ligature_span ptr]. pose proof Hlig as Hl0%Z.eqb_neq. rewrite Hl0.
    cbn [Z.eqb negb]. rewrite bind_assoc.
    rewrite (bind_ok _ _ _ _ _ (write_shape p A c0 _ _ m _ Hc0 ZERO_WIDTH_two_byte)), bind_ret.
    rewrite Hnz. unfold letter. rewrite EL. cbn [andb Z.sub].
    rewrite (encode_snoc_length (A ++ [_])), Z.add_assoc.
    by rewrite (snoc_length A ZERO_WIDTH_CODEPT c0 Hc0 ZERO_WIDTH_two_byte).
  - right. apply Forall_cons in Hrest as [Hc2 _].
    destruct (shapeable_letter c2 e2 Hc2 Hb) as [_ ?].
    split; [done|]. split; [done|]. unfold zw, letter. rewrite EL. eauto.
Qed.

(** ** The loop *)

Lemma shape_loop_ok oob p rest A c c0 tail m st tc tp lp le res fuel :
  0 < p -> pending p st lp le A res -> buffered c c0 -> Forall shapeable rest ->
  (length rest + 2 <= fuel)%nat ->
  loop fuel (shape_body oob) (at_rune p A c c0 st tc tp lp le)
    (put p (encode (A ++ c0 :: rest) ++ 0 :: tail) m) =
  Ok tt (put p (encode (res (ligate_from c rest) ++ shape_go st (ligate_from c rest)) ++ 0 :: tail) m).
Proof.
  intros Hp. revert A c c0 st tc tp lp le res fuel.
  induction rest as [|c2 rest IH]; intros A c c0 st tc tp lp le res fuel Hpend Hbuf Hrest Hf;
    (destruct fuel as [|fuel]; [lia|]); cbn [length] in Hf.
  - destruct (shape_body_plain oob p A c c0 [] tail m st tc tp lp le res Hp Hpend Hbuf Hrest I)
      as (st' & lp' & le' & A' & res' & Hrun & Hpend' & Hres).
    rewrite (loop_next _ _ _ _ _ _ Hrun). unfold before_rest.
    destruct fuel as [|fuel]; [lia|]. rewrite app_nil_r.
    rewrite (shape_end_ok _ _ _ _ _ _ _ _ _ _ _ _ _ Hp Hpend' eq_refl).
    cbn [ligated ligate_from] in *. rewrite <- Hres. cbn [shape_go]. by rewrite app_nil_r.
  - cbn [ligate_from]. destruct (Z.eqb_spec (lig c c2) 0) as [Hlig|Hlig].
    + destruct (shape_body_plain oob p A c c0 (c2 :: rest) tail m st tc tp lp le res Hp Hpend Hbuf
        Hrest Hlig) as (st' & lp' & le' & A' & res' & Hrun & Hpend' & Hres).
      rewrite (loop_next _ _ _ _ _ _ Hrun). unfold before_rest.
      apply Forall_cons in Hrest as [Hc2 Hrest].
      rewrite (IH A' c2 c2 st' _ _ lp' le' res' fuel Hpend'); [|by left|done|lia].
      cbn [ligated] in Hres. by rewrite Hres.
    + destruct (shape_body_ligature oob p A c c0 c2 rest tail m st tc tp lp le Hbuf Hrest Hlig)
        as [Hrun Hbuf']. rewrite (loop_next _ _ _ _ _ _ Hrun).
      destruct (pending_zw _ _ _ _ _ _ _ Hpend zw_ZERO_WIDTH) as (res' & Hpend' & Hres).
      apply Forall_cons in Hrest as [Hc2 Hrest].
      rewrite (IH _ _ _ _ _ _ _ _ _ fuel Hpend' Hbuf' Hrest); [|lia].
      rewrite Hres, <- app_assoc. cbn [shape_go app]. by rewrite zw_ZERO_WIDTH.
Qed.

(** The first letter a ligature can have is not NUL. *)
Lemma no_ligature_of_nul b : lig_of ligatures 0 b = 0.
Proof.
  destruct (Z.eqb_spec (lig_of ligatures 0 b) 0) as [|Hne]; [done|].
  apply lig_of_letters in Hne as ([e [Ht _]%entry_two_bytes] & _). unfold two_byte in Ht. lia.
Qed.

Lemma nul_no_letter : find_lut_entry_by_codept 0 = None.
Proof.
  destruct (find_lut_entry_by_codept 0) eqn:E; [|done].
  apply entry_two_bytes in E as [Ht _]. unfold two_byte in Ht. lia.
Qed.

(** The first iteration only reads. *)
Lemma shape_first_ok oob uninit p cps tail m :
  0 < p -> Forall shapeable cps ->
  shape_body oob (shape_init uninit p) (put p (encode cps ++ 0 :: tail) m) =
  Ok (match cps with
      | [] => inr tt
      | c :: _ => inl (at_rune p [] c c STATE_INITIAL 0 uninit NULL None)
      end) (put p (encode cps ++ 0 :: tail) m).
Proof.
  intros Hp Hcps. unfold shape_body.
  pose proof (shape_read_ok oob p [] cps tail m (shape_init uninit p) Hcps) as Hread.
  specialize (Hread (eq_sym (Z.add_0_r p))).
  cbn [app] in Hread. rewrite (bind_ok _ _ _ _ _ Hread). unfold shape_init.
  cbn [state late_finalize_ptr late_finalize_lut_entry next_codept next_codept_ptr
      next_lut_entry ligature_span ptr].
  destruct cps as [|c cps]; [done|].
  rewrite no_ligature_of_nul. apply Forall_cons in Hcps as [(_ & Hnz & _) _].
  apply Z.eqb_neq in Hnz. cbn [Z.eqb negb]. rewrite bind_assoc. unfold shape_this.
  change (is_zero_width 0) with false. cbn iota.
  unfold late_finalize. cbn [Z.eqb NULL]. rewrite bind_assoc, !bind_ret.
  rewrite Hnz. cbn [andb]. unfold at_rune. cbn [app encode flat_map].
  by rewrite app_nil_r, Z.add_0_r.
Qed.

(** ** The routine *)

Lemma shapeable_codepts cps : Forall shapeable cps -> Forall is_codept cps.
Proof. intros Hcps. eapply Forall_impl; [exact Hcps|]. by intros c []. Qed.

Lemma shape_text_runes oob uninit p cps tail m :
  0 < p -> Forall shapeable cps ->
  shape_text oob uninit p (put p (encode cps ++ 0 :: tail) m) =
  Ok tt (put p (encode (shape_runes cps) ++ 0 :: tail) m).
Proof.
  intros Hp Hcps. unfold shape_text.
  pose proof (text_fuel_enough p cps tail m (shapeable_codepts cps Hcps)) as Hf.
  destruct (text_fuel _) as [|fuel]; [lia|].
  pose proof (shape_first_ok oob uninit p cps tail m Hp Hcps) as Hrun.
  destruct cps as [|c cps].
  - by rewrite (loop_exit _ _ _ _ _ _ Hrun).
  - rewrite (loop_next _ _ _ _ _ _ Hrun). apply Forall_cons in Hcps as [Hc Hcps].
    cbn [length] in Hf.
    apply (shape_loop_ok oob p cps [] c c tail m _ _ _ _ _ (fun _ => [])); [done| |by left|done|lia].
    apply pending_none.
Qed.
End Refine.
