(* ===== verification/ShaperProps.v ===== *)
(** * What shaping does to a text

    The theorems about [shape_text]: it implements [shape_runes], what that means for
    the shapes of letters, which parts of the text it leaves alone, and that it ends
    and is safe on every memory. *)

From S2P Require Import Prelude Memory Utf8 Ranges Shaper ShaperSpec ShaperRefine.

Section Spec.
Context `{ShaperTables} `{!ShaperTablesOk}.

(** ** Runes keep their places *)

(** [v] can stand where [c] was: the rune is kept, or a two-byte rune replaces a
    two-byte rune. *)
Definition replaces (c v : Z) : Prop := v = c \/ (two_byte c /\ two_byte v).

Lemma replaces_trans a b c : replaces a b -> replaces b c -> replaces a c.
Proof. intros [->|[? ?]] [->|[? ?]]; unfold replaces; tauto. Qed.

(** [v] is what [shape_go] makes of [c]. *)
Definition shaped (c v : Z) : Prop :=
  (zw c = true \/ letter c = None) /\ v = c \/
  zw c = false /\ exists e, letter c = Some e /\ v ∈ forms e.

Lemma shape_go_shaped st s : Forall2 shaped s (shape_go st s).
Proof.
  revert st. induction s as [|c s IH]; intros st; cbn [shape_go]; [constructor|].
  destruct (zw c) eqn:Hz; [constructor; [left; auto|apply IH]|].
  destruct (letter c) as [e|] eqn:He; [|constructor; [left; auto|apply IH]].
  assert (forall j, shape_of st j e ∈ forms e) as Hf
    by (intros j; unfold forms; destruct st, j; set_solver).
  assert (fin e ∈ forms e) by (unfold forms; set_solver).
  destruct (_ || _); constructor; try apply IH; right; (split; [done|]); exists e.
  - auto.
  - by destruct (next_letter s).
Qed.

Lemma ligate_from_replaces c c0 rest :
  buffered c c0 -> Forall shapeable rest ->
  Forall2 (fun c v => (v = c /\ shapeable c) \/ (two_byte c /\ two_byte v)) (c0 :: rest) (ligate_from c rest).
Proof.
  revert c c0. induction rest as [|c2 rest IH]; intros c c0 Hbuf Hrest; cbn [ligate_from].
  - constructor; [|constructor].
    destruct Hbuf as [[-> ?]|(? & ? & _)]; auto.
  - apply Forall_cons in Hrest as [Hc2 Hrest]. destruct (Z.eqb_spec (lig c c2) 0) as [|Hlig].
    + constructor; [destruct Hbuf as [[-> ?]|(? & ? & _)]; auto|].
      apply IH; [by left|done].
    + rewrite lig_eq in Hlig. destruct (lig_of_letters _ _ Hlig) as ([e Ha] & [e2 Hb] & [eL HL] & HzL).
      pose proof (entry_two_bytes _ _ HL) as [HtL _].
      constructor; [right; split; [by eapply buffered_letter|by apply ZERO_WIDTH_two_byte]|].
      apply IH; [|done]. right. rewrite lig_eq.
      destruct (shapeable_letter c2 e2 Hc2 Hb) as [_ ?].
      unfold zw, letter. rewrite (u16_small (lig_of _ _ _)) by (unfold two_byte in HtL; lia). eauto.
Qed.

Lemma shaped_replaces c v : (shapeable c \/ two_byte c) -> shaped c v -> replaces c v.
Proof.
  intros Hc [[_ ->]|[Hz (e & He & Hv)]]; [by left|]. right.
  pose proof (entry_two_bytes _ _ He) as (Ht & ? & ? & ? & ?). split.
  - destruct Hc as [Hs|?]; [|done]. by eapply shapeable_letter.
  - unfold forms in Hv. rewrite !elem_of_cons, elem_of_nil in Hv. by destruct_or! Hv; subst.
Qed.

Lemma shape_runes_replaces cps :
  Forall shapeable cps -> Forall2 replaces cps (shape_runes cps).
Proof.
  intros Hcps. unfold shape_runes. destruct cps as [|c cps]; [constructor|].
  apply Forall_cons in Hcps as [Hc Hcps]. cbn [ligate].
  pose proof (ligate_from_replaces c c cps (or_introl (conj eq_refl Hc)) Hcps) as H1.
  pose proof (shape_go_shaped STATE_INITIAL (ligate_from c cps)) as H2.
  revert H2. generalize (shape_go STATE_INITIAL (ligate_from c cps)).
  induction H1 as [|x y xs ys Hxy _ IH]; intros zs H2; inversion H2; subst; constructor.
  - destruct Hxy as [[-> ?]|[? ?]]; [apply shaped_replaces; auto|].
    apply (replaces_trans _ y); [by right|]. apply shaped_replaces; auto.
  - by apply IH.
Qed.

Lemma shape_runes_codepts cps : Forall shapeable cps -> Forall is_codept (shape_runes cps).
Proof.
  intros Hcps. pose proof (shape_runes_replaces cps Hcps) as Hrep.
  induction Hrep as [|c v cs vs Hv _ IH]; [done|]. apply Forall_cons in Hcps as [[? _] ?].
  constructor; [|by apply IH]. destruct Hv as [->|[_ ?]]; [done|by apply two_byte_codept].
Qed.

Lemma replaces_encode cps vs :
  Forall2 replaces cps vs -> length (encode vs) = length (encode cps).
Proof.
  induction 1 as [|c v cps vs Hv _ IH]; [done|]. rewrite !encode_cons, !length_app, IH.
  destruct Hv as [->|[? ?]]; [done|]. by rewrite (utf8_length_eq c v).
Qed.

(** ** Texts without ligatures and zero-width code points *)

Lemma ligate_from_id c rest :
  (forall i a b, (c :: rest) !! i = Some a -> (c :: rest) !! (S i) = Some b -> lig a b = 0) ->
  ligate_from c rest = c :: rest.
Proof.
  revert c. induction rest as [|c2 rest IH]; intros c Hlig; [done|]. cbn [ligate_from].
  rewrite (Hlig 0%nat c c2 eq_refl eq_refl). cbn [Z.eqb]. f_equal. apply IH.
  intros i a b Ha Hb. by apply (Hlig (S i)).
Qed.

Lemma ligate_id cps :
  (forall i a b, cps !! i = Some a -> cps !! (S i) = Some b -> lig a b = 0) -> ligate cps = cps.
Proof. destruct cps as [|c cps]; [done|apply ligate_from_id]. Qed.

Lemma lig_no_letter a b : letter a = None -> lig a b = 0.
Proof.
  intros Ha. rewrite lig_eq. destruct (Z.eqb_spec (lig_of ligatures (u16 a) (u16 b)) 0) as [|Hne]; [done|].
  apply lig_of_letters in Hne as ([e He] & _). unfold letter in Ha. congruence.
Qed.

Lemma lig_no_letter_r a b : letter b = None -> lig a b = 0.
Proof.
  intros Hb. rewrite lig_eq. destruct (Z.eqb_spec (lig_of ligatures (u16 a) (u16 b)) 0) as [|Hne]; [done|].
  apply lig_of_letters in Hne as (_ & [e He] & _). unfold letter in Hb. congruence.
Qed.

(** What follows begins with a rune that neither is nor carries on a word. *)
Definition word_ends (rest : list Z) : Prop :=
  match rest with [] => True | x :: _ => zw x = false /\ letter x = None end.

Lemma ligate_from_marks c zs rest :
  Forall (fun z => letter z = None) zs -> word_ends rest ->
  ligate_from c (zs ++ rest) = c :: zs ++ ligated rest.
Proof.
  intros Hzs Hrest. revert c. induction Hzs as [|z zs Hz _ IH]; intros c; cbn [app].
  - destruct rest as [|x rest]; [done|]. cbn [ligate_from ligated].
    by rewrite lig_no_letter_r by apply Hrest.
  - cbn [ligate_from]. rewrite lig_no_letter_r by done. cbn [Z.eqb]. by rewrite IH.
Qed.

Lemma word_ends_ligated rest : word_ends rest -> word_ends (ligated rest).
Proof.
  destruct rest as [|x [|y rest]]; [done..|]. intros [Hz Hl]. cbn [ligated ligate_from].
  rewrite lig_no_letter by done. cbn [Z.eqb word_ends]. done.
Qed.

Lemma joins_next_ends s : word_ends s -> joins_next s = false.
Proof. destruct s as [|x s]; [done|]. cbn [word_ends joins_next]. by intros [-> ->]. Qed.

Lemma next_letter_marks zs s :
  Forall (fun z => zw z = true) zs -> word_ends s -> next_letter (zs ++ s) = false.
Proof.
  intros Hzs Hs. induction Hzs as [|z zs Hz _ IH]; cbn [app].
  - destruct s as [|x s]; [done|]. destruct Hs as [Hz Hl]. cbn [next_letter]. by rewrite Hz, Hl.
  - cbn [next_letter]. by rewrite Hz.
Qed.

Lemma shape_runes_no_letters cps :
  Forall (fun c => letter c = None) cps -> shape_runes cps = cps.
Proof.
  intros Hcps. unfold shape_runes. rewrite ligate_id.
  - generalize STATE_INITIAL. induction Hcps as [|c cps Hc _ IH]; intros st; [done|].
    cbn [shape_go]. rewrite Hc. destruct (zw c); by rewrite IH.
  - intros i a b Ha _. apply lig_no_letter. by eapply Forall_lookup_1 in Hcps.
Qed.

(** ** Shapes by context *)

(** The rune before position [i] joins to the left: it is a letter with a medial
    shape.  [first] says so for the rune before the first. *)
Definition joined_before (first : bool) (s : list Z) (i : nat) : bool :=
  match i with
  | O => first
  | S j => match s !! j ≫= letter with Some e => negb (right_joining e) | None => false end
  end.

(** The rune at position [i], with entry [e], joins the one after it. *)
Definition joined_after (s : list Z) (i : nat) (e : ShaperLUTEntry) : bool :=
  negb (right_joining e) && bool_decide (is_Some (s !! S i ≫= letter)).

(** The four shapes of Arabic writing, by the joins on both sides. *)
Definition contextual_form (before after : bool) (e : ShaperLUTEntry) : Z :=
  match before, after with
  | false, false => iso e
  | false, true => ini e
  | true, true => med e
  | true, false => fin e
  end.

Definition contextual (first : bool) (s : list Z) (i : nat) (c : Z) : Z :=
  match letter c with
  | None => c
  | Some e => contextual_form (joined_before first s i) (joined_after s i e) e
  end.

Lemma shape_go_contextual st first s i c :
  Forall (fun c => zw c = false) s ->
  (forall c0, head s = Some c0 -> is_Some (letter c0) -> first = bool_decide (st = STATE_MEDIAL)) ->
  s !! i = Some c -> shape_go st s !! i = Some (contextual first s i c).
Proof.
  revert st first i. induction s as [|c0 s IH]; intros st first i Hzw Hfirst Hi; [done|].
  apply Forall_cons in Hzw as [Hz0 Hzw]. cbn [shape_go]. rewrite Hz0.
  assert (joins_next s = bool_decide (is_Some (head s ≫= letter))) as Hj.
  { destruct Hzw as [|c1 s Hz1 _]; [done|]. cbn [joins_next head]. by rewrite Hz1, orb_false_r. }
  assert (next_letter s = bool_decide (is_Some (head s ≫= letter))) as Hn.
  { destruct Hzw as [|c1 s Hz1 _]; [done|]. cbn [next_letter head]. by rewrite Hz1. }
  rewrite Hj, Hn. destruct i as [|i].
  - injection Hi as <-. unfold contextual, joined_after, joined_before. cbn [lookup list_lookup].
    replace (s !! 0%nat) with (head s) by (by destruct s).
    destruct (letter c0) as [e|] eqn:He; [|done].
    rewrite (Hfirst c0 eq_refl) by eauto.
    destruct (bool_decide (is_Some (head s ≫= letter))), (right_joining e), st; done.
  - assert (contextual first (c0 :: s) (S i) c =
      contextual (match letter c0 with Some e => negb (right_joining e) | None => false end) s i c)
      as -> by (unfold contextual, joined_before, joined_after; by destruct i).
    cbn [lookup list_lookup] in Hi.
    destruct (letter c0) as [e|] eqn:He.
    + destruct (bool_decide_reflect (is_Some (head s ≫= letter))) as [Hl|Hl], (right_joining e);
        cbn [orb negb]; cbn [lookup list_lookup]; apply IH; try done;
        intros c1 Hc1 Hl1; try done.
      exfalso. apply Hl. by rewrite Hc1.
    + by apply IH.
Qed.

(** ** Shaping again *)

Lemma letter_entry c e : letter c = Some e -> e ∈ shaper_lut ARABIC_SHAPER_LUT /\ true_codept e = u16 c.
Proof. unfold letter. rewrite find_lut_entry_eq. apply find_entry_Some. Qed.

Lemma letter_not_zw `{!ShaperFormsOk} c e : letter c = Some e -> zw c = false.
Proof.
  intros [He Hc]%letter_entry. unfold zw. rewrite <- Hc.
  pose proof letters_not_zero_width as HF. by eapply Forall_forall in HF.
Qed.

Lemma form_not_letter `{!ShaperFormsOk} c e f :
  letter c = Some e -> f ∈ forms e -> two_byte f /\ letter f = None.
Proof.
  intros He Hf. pose proof (letter_entry c e He) as [Hin _].
  pose proof forms_not_letters as HF. eapply Forall_forall in HF; [|done].
  eapply Forall_forall in HF; [|done].
  pose proof entry_two_byte as HT. eapply Forall_forall in HT as [_ HT]; [|done].
  eapply Forall_forall in HT; [|done]. split; [done|].
  unfold letter. rewrite u16_small; [done|]. unfold two_byte in HT. lia.
Qed.

Lemma shape_runes_all_shaped `{!ShaperFormsOk} cps :
  Forall (fun v => letter v = None) (shape_runes cps).
Proof.
  unfold shape_runes. pose proof (shape_go_shaped STATE_INITIAL (ligate cps)) as Hs.
  induction Hs as [|c v cs vs Hv _ IH]; constructor; [|done].
  destruct Hv as [[[Hz|Hl] ->]|[Hz (e & He & Hf)]]; [|done|by eapply form_not_letter].
  destruct (letter c) as [e|] eqn:He; [|done]. apply letter_not_zw in He. congruence.
Qed.

Lemma shape_runes_shapeable `{!ShaperFormsOk} cps :
  Forall shapeable cps -> Forall shapeable (shape_runes cps).
Proof.
  intros Hcps. pose proof (shape_runes_replaces cps Hcps) as Hr.
  pose proof (shape_runes_all_shaped cps) as Hn. induction Hr as [|c v cs vs Hv _ IH]; [done|].
  apply Forall_cons in Hcps as [Hc Hcps], Hn as [Hl Hn]. constructor; [|by apply IH].
  destruct Hv as [->|[_ Hv]]; [done|]. unfold shapeable. rewrite Hl.
  split; [by apply two_byte_codept|]. split; [|by intros []].
  unfold two_byte in Hv. rewrite u16_small by lia. lia.
Qed.
End Spec.

(** ** Every memory *)

Section Safety.
Context `{ShaperTables}.

Lemma late_finalize_no_fuel st lp le m : late_finalize st lp le m <> OutOfFuel.
Proof. unfold late_finalize. repeat case_match; auto with fuel; done. Qed.

Lemma late_finalize_keeps_dom st lp le : keeps_dom (late_finalize st lp le).
Proof. unfold late_finalize. repeat case_match; auto with fuel. Qed.

Lemma shape_this_no_fuel st lp le this next tp te ne m :
  shape_this st lp le this next tp te ne m <> OutOfFuel.
Proof.
  unfold shape_this. repeat case_match; try done; (apply bind_no_fuel; [|done]);
    auto using late_finalize_no_fuel with fuel.
Qed.

Lemma shape_this_keeps_dom st lp le this next tp te ne :
  keeps_dom (shape_this st lp le this next tp te ne).
Proof.
  unfold shape_this. repeat case_match; auto with fuel;
    (apply keeps_dom_bind; [|auto with fuel]); auto using late_finalize_keeps_dom with fuel.
Qed.

Lemma shape_read_no_fuel oob l m : shape_read oob l m <> OutOfFuel.
Proof.
  unfold shape_read. apply bind_no_fuel; [auto with fuel|intros b m1]. case_match; [|done].
  apply bind_no_fuel; [auto with fuel|]. intros [] m2. by case_match.
Qed.

(** Either the text goes on and a rune is read, or the next code point is 0. *)
Lemma shape_read_advances oob l m next np ne q sp m' :
  shape_read oob l m = Ok (next, np, ne, q, sp) m' ->
  m' = m /\ (next = 0 /\ q = ptr l \/ is_Some (m !! ptr l) /\ ptr l < q).
Proof.
  unfold shape_read, load8. intros (b & m1 & Hb & Hr)%bind_inv.
  cbv beta in Hb. destruct (m !! ptr l) eqn:E; [|done]. injection Hb as <- <-. case_match.
  - apply bind_inv in Hr as ([codept q'] & m2 & [Hq ->]%read_utf8_advances & Hr).
    case_match; apply ret_inv in Hr as [? ->]; simplify_eq; eauto.
  - apply ret_inv in Hr as [? ->]. simplify_eq. auto.
Qed.

Lemma shape_body_no_fuel oob l m : shape_body oob l m <> OutOfFuel.
Proof.
  unfold shape_body. apply bind_no_fuel; [apply shape_read_no_fuel|].
  intros [[[[next np] ne] q] sp] m1. apply bind_no_fuel.
  - case_match; (apply bind_no_fuel; [auto using shape_this_no_fuel with fuel|]); [done|].
    by intros [[]].
  - by intros [[[]]].
Qed.

(** The part of an iteration behind the read. *)
Lemma shape_body_inv oob l m l' m' :
  shape_body oob l m = Ok (inl l') m' ->
  exists next np ne q sp m1, shape_read oob l m = Ok (next, np, ne, q, sp) m1 /\
    dom m' = dom m1 /\ ptr l' = q /\ next_codept l' = next /\
    (next = 0 -> next_codept l <> 0) /\
    ((state l' = state l /\ late_finalize_ptr l' = late_finalize_ptr l /\
      late_finalize_lut_entry l' = late_finalize_lut_entry l) \/
     exists m2, shape_this (state l) (late_finalize_ptr l) (late_finalize_lut_entry l)
       (next_codept l) next (next_codept_ptr l) (next_lut_entry l) ne m1 =
       Ok (state l', late_finalize_ptr l', late_finalize_lut_entry l') m2).
Proof.
  unfold shape_body. intros ([[[[next np] ne] q] sp] & m1 & Hread & Hb)%bind_inv.
  exists next, np, ne, q, sp, m1. split; [done|].
  apply bind_inv in Hb as ([[[st lp] le] sp'] & m2 & Hthis & Hb).
  assert (m2 = m' /\ l' = mk_shaper st q np (next_codept l) next ne (next_codept_ptr l) lp le sp' /\
    (next_codept l =? 0) && (next =? 0) = false) as (-> & -> & Hc)
    by (apply ret_inv in Hb as [? ->]; case_match; by simplify_eq).
  apply andb_false_iff in Hc. rewrite !Z.eqb_neq in Hc. cbn.
  destruct (negb (sp =? 0)).
  - apply bind_inv in Hthis as ([] & m3 & Hw & Hthis). apply ret_inv in Hthis as [? ->]. simplify_eq.
    apply write_utf8_keeps_dom in Hw. repeat split; auto; tauto.
  - apply bind_inv in Hthis as ([[st' lp'] le'] & m3 & Hw & Hthis).
    apply ret_inv in Hthis as [? ->]. simplify_eq.
    repeat split; eauto; [by eapply shape_this_keeps_dom|tauto].
Qed.

Definition shape_measure (l : shaper_locals) (m : mem) : nat :=
  (2 * mapped_from (ptr l) m + if (next_codept l =? 0)%Z then 0 else 1)%nat.

Lemma shape_body_decreases oob l m l' m' :
  shape_body oob l m = Ok (inl l') m' -> (shape_measure l' m' < shape_measure l m)%nat.
Proof.
  intros (next & np & ne & q & sp & m1 & Hread & Hdom & Hq & Hn & Hnz & _)%shape_body_inv.
  apply shape_read_advances in Hread as [-> Hadv]. unfold shape_measure.
  rewrite (mapped_from_dom _ _ _ Hdom), Hq, Hn.
  destruct Hadv as [[-> ->]|[Hm Hlt]].
  - specialize (Hnz eq_refl). apply Z.eqb_neq in Hnz. rewrite Hnz. simpl. lia.
  - pose proof (mapped_from_lt _ _ _ Hm Hlt). destruct (next =? 0), (next_codept l =? 0); lia.
Qed.

(** What holds of the late finalisation at the head of every iteration. *)
Definition late_ok (l : shaper_locals) : Prop :=
  late_finalize_ptr l <> NULL -> state l = STATE_MEDIAL /\ is_Some (late_finalize_lut_entry l).

Lemma shape_this_late st lp le this next tp te ne m st' lp' le' m' :
  (lp <> NULL -> st = STATE_MEDIAL /\ is_Some le) ->
  shape_this st lp le this next tp te ne m = Ok (st', lp', le') m' ->
  lp' <> NULL -> st' = STATE_MEDIAL /\ is_Some le'.
Proof.
  unfold shape_this. intros Hok. repeat case_match; intros Hr;
    try (apply bind_inv in Hr as (? & ? & _ & Hr)); apply ret_inv in Hr as [? _]; simplify_eq; eauto; done.
Qed.

Lemma shape_body_late oob l m l' m' :
  late_ok l -> shape_body oob l m = Ok (inl l') m' -> late_ok l'.
Proof.
  unfold late_ok. intros Hok (? & ? & ? & ? & ? & ? & _ & _ & _ & _ & _ & Hthis)%shape_body_inv.
  destruct Hthis as [(-> & -> & ->)|[? Hthis]]; [done|]. by eapply shape_this_late.
Qed.
End Safety.

(** ** The properties of [shape_text] *)

Section Properties.
Context `{ShaperTables} `{!ShaperTablesOk}.

(** C1: [shape_text] implements the specification [shape_runes]: whatever the code
    points of the text, the bytes behind its NUL, the value read past the end of the
    ligature pattern and the initial value of the uninitialised pointer, the loop
    ends normally and the text in memory is the encoding of the shaped code points. *)
Theorem shape_text_refines oob uninit p cps tail m :
  0 < p -> Forall shapeable cps ->
  shape_text oob uninit p (put p (encode cps ++ 0 :: tail) m) =
  Ok tt (put p (encode (shape_runes cps) ++ 0 :: tail) m).
Proof. apply shape_text_runes. Qed.

(** C29: shaping is done in place: the shaped text has as many runes and as many bytes
    as before, so the NUL stays where it is, and a rune is only ever replaced when it
    and the new one have two bytes.  Nothing outside of the text changes. *)
Theorem shape_text_in_place oob uninit p cps tail m :
  0 < p -> Forall shapeable cps -> holds m p (encode cps ++ 0 :: tail) ->
  exists cps' m', shape_text oob uninit p m = Ok tt m' /\
    holds m' p (encode cps' ++ 0 :: tail) /\
    Forall2 (fun c c' => c' = c \/ (two_byte c /\ two_byte c')) cps cps' /\
    length (encode cps') = length (encode cps) /\
    (forall a, a < p \/ p + len (encode cps) <= a -> m' !! a = m !! a).
Proof.
  intros Hp Hcps Hm. exists (shape_runes cps), (put p (encode (shape_runes cps) ++ 0 :: tail) m).
  pose proof (shape_runes_replaces cps Hcps) as Hr. pose proof (replaces_encode _ _ Hr) as Hlen.
  split; [rewrite <- Hm at 1; by apply shape_text_runes|].
  split; [apply holds_put|]. split; [done|]. split; [done|]. intros a Ha.
  rewrite <- Hm at 2. by rewrite !put_app, Hlen, (put_lookup_out p _ _ a), (put_lookup_out p (encode cps)) by lia.
Qed.

(** C13: without ligatures and zero-width code points, every letter gets the shape that
    the joining rules of Arabic writing give it: isolated, initial, medial or final
    by whether the letter before it joins to the left and whether it does so itself
    and is followed by a letter.  All other runes are kept. *)
Theorem shape_text_contextual oob uninit p cps tail m :
  0 < p -> Forall shapeable cps -> Forall (fun c => zw c = false) cps ->
  (forall i a b, cps !! i = Some a -> cps !! (S i) = Some b -> lig a b = 0) ->
  exists cps', length cps' = length cps /\
    shape_text oob uninit p (put p (encode cps ++ 0 :: tail) m) =
    Ok tt (put p (encode cps' ++ 0 :: tail) m) /\
    forall i c, cps !! i = Some c -> cps' !! i = Some (contextual false cps i c).
Proof.
  intros Hp Hcps Hzw Hlig. exists (shape_runes cps). split; [|split].
  - by rewrite (Forall2_length _ _ _ (shape_runes_replaces cps Hcps)).
  - by apply shape_text_runes.
  - intros i c Hi. unfold shape_runes. rewrite ligate_id by done. by apply shape_go_contextual.
Qed.

(** A text without letters of the table, such as a text in another script, is
    left exactly as it is. *)
Theorem shape_text_other_script oob uninit p cps tail m :
  0 < p -> Forall shapeable cps -> Forall (fun c => letter c = None) cps ->
  shape_text oob uninit p (put p (encode cps ++ 0 :: tail) m) =
  Ok tt (put p (encode cps ++ 0 :: tail) m).
Proof. intros. by rewrite shape_text_runes, shape_runes_no_letters. Qed.

(** The looked-up ligature is the one of the first pattern of the table that
    consists of the two code points, and 0 without one; the code point read behind
    the end of [pattern] has no influence. *)
Theorem find_ligature_by_codepts_spec oob a b :
  find_ligature_by_codepts oob [a; b] = lig_of ligatures a b.
Proof. apply find_ligature_eq. Qed.

(** C37: shaping a text that has been shaped changes nothing, as when the text is
    measured and then drawn. *)
Theorem shape_text_idempotent `{!ShaperFormsOk} oob uninit oob' uninit' p cps tail m :
  0 < p -> Forall shapeable cps ->
  let m0 := put p (encode cps ++ 0 :: tail) m in
  (shape_text oob uninit p;; shape_text oob' uninit' p) m0 = shape_text oob uninit p m0.
Proof.
  intros Hp Hcps m0. unfold m0. rewrite (bind_ok _ _ _ _ _ (shape_text_runes oob uninit p cps tail m Hp Hcps)).
  rewrite !shape_text_runes by auto using shape_runes_shapeable.
  by rewrite (shape_runes_no_letters (shape_runes cps)) by apply shape_runes_all_shaped.
Qed.

(** A letter on its own is isolated, but with a vowel mark behind it takes its
    final shape: the mark counts as joining, and when no letter follows the marks the
    late correction only knows the final shape.  Its branch for the isolated shape is
    never taken. *)
Theorem shape_text_lone_letter_with_mark oob uninit p c e zs rest tail m :
  0 < p -> Forall shapeable (c :: zs ++ rest) ->
  letter c = Some e -> zw c = false -> right_joining e = false ->
  Forall (fun z => zw z = true /\ letter z = None) zs ->
  word_ends rest ->
  exists s, shape_text oob uninit p (put p (encode (c :: zs ++ rest) ++ 0 :: tail) m) =
    Ok tt (put p (encode (match zs with [] => iso e | _ => fin e end :: s) ++ 0 :: tail) m).
Proof.
  intros Hp Hcps He Hz Hr Hzs Hrest. rewrite shape_text_runes by done. unfold shape_runes.
  pose proof (word_ends_ligated _ Hrest) as Hend. cbn [ligate].
  pose proof Hzs as [Hzs1 Hzs2]%Forall_and. rewrite ligate_from_marks by done.
  cbn [shape_go]. rewrite Hz, He, Hr, orb_false_r.
  rewrite next_letter_marks by done.
  destruct zs as [|z zs]; cbn [app].
  - rewrite joins_next_ends by done. by eexists.
  - apply Forall_cons in Hzs as [[Hzw _] _]. cbn [joins_next]. rewrite Hzw, orb_true_r. by eexists.
Qed.
End Properties.

Section Anywhere.
Context `{ShaperTables}.

(** C39: [shape_text] ends on every memory and from every pointer, with any tables,
    also when the bytes are not UTF-8 or there is no NUL. *)
Theorem shape_text_terminates oob uninit p m : shape_text oob uninit p m <> OutOfFuel.
Proof.
  unfold shape_text. apply (loop_ends_mem shape_measure).
  - apply shape_body_no_fuel.
  - apply shape_body_decreases.
  - unfold shape_measure, text_fuel. pose proof (mapped_from_fuel p m). simpl. lia.
Qed.

(** C38: in every iteration that the loop of [shape_text] reaches, on any memory, a late
    finalisation is only pending in the medial state and with its table entry set:
    the uninitialised [late_finalize_lut_entry] is never used, and the isolated
    branch of the late finalisation is dead. *)
Theorem shape_text_late_finalize_safe oob uninit p m l m' :
  reaches (shape_body oob) (shape_init uninit p) m l m' -> late_finalize_ptr l <> NULL ->
  state l = STATE_MEDIAL /\ is_Some (late_finalize_lut_entry l).
Proof.
  intros Hr. induction Hr as [|l1 m1 l2 m2 _ IH Hb]; [done|].
  by apply (shape_body_late _ _ _ _ _ IH Hb).
Qed.
End Anywhere.

(** ** Concrete tables *)

(** Tables as text_shaper.py writes them: alef, beh, tatweel, lam and the ligature of
    lam and alef. *)
#[export] Instance example_tables : ShaperTables := {|
  ARABIC_SHAPER_LUT :=
    [0x27; 0x06; 0x01; 0x07; 0; 1; 1;
     0x28; 0x06; 0x03; 0x07; 1; 2; 3;
     0x40; 0x06; 0x0D; 0x07; 0; 0; 0;
     0x44; 0x06; 0x07; 0x07; 1; 2; 3;
     0x00; 0x07; 0x0B; 0x07; 0; 1; 1];
  ARABIC_LIGATURE_LUT := [0x44; 0x06; 0x27; 0x06; 0x00; 0x87];
|}.

#[export] Instance example_range : ShaperRange := [(0x700, 0x70E)].

#[export] Instance example_tables_ok : ShaperTablesOk.
Proof.
  refine {| ligatures := [(0x644, 0x627, 0x700)] |}.
  - by vm_compute.
  - by apply (bool_decide_unpack _); vm_compute.
  - apply Forall_singleton. repeat split; vm_compute; by eauto.
Defined.

#[export] Instance example_forms_ok : ShaperFormsOk.
Proof. split; by apply (bool_decide_unpack _); vm_compute. Qed.

(** ** Witnesses *)

Ltac decide_by_running := by apply (bool_decide_unpack _); vm_compute.

(** Beh, lam, alef, space, beh with a vowel mark: the ligature gets its final shape. *)
Theorem shape_text_refines_witness :
  shape_text 0 0 100 (put 100 (encode [0x628; 0x644; 0x627; 32; 0x628; 0x64E] ++ 0 :: [65]) ∅) =
  Ok tt (put 100 (encode [0x704; 0x591; 0x70C; 32; 0x706; 0x64E] ++ 0 :: [65]) ∅).
Proof.
  rewrite (shape_text_refines 0 0 100 [0x628; 0x644; 0x627; 32; 0x628; 0x64E] [65] ∅);
    [by vm_compute|done|decide_by_running].
Defined.

Theorem shape_text_in_place_witness :
  let m := put 100 (encode [0x628; 65] ++ 0 :: []) ∅ in
  exists cps' m', shape_text 0 0 100 m = Ok tt m' /\
    holds m' 100 (encode cps' ++ 0 :: []) /\
    Forall2 (fun c c' => c' = c \/ (two_byte c /\ two_byte c')) [0x628; 65] cps' /\
    length (encode cps') = length (encode [0x628; 65]) /\
    (forall a, a < 100 \/ 100 + len (encode [0x628; 65]) <= a -> m' !! a = m !! a).
Proof. apply shape_text_in_place; [done|decide_by_running|apply holds_put]. Defined.

(** Beh, alef, beh, beh: initial, final, initial, final. *)
Theorem shape_text_contextual_witness :
  exists cps', length cps' = length [0x628; 0x627; 0x628; 0x628] /\
    shape_text 0 0 100 (put 100 (encode [0x628; 0x627; 0x628; 0x628] ++ 0 :: []) ∅) =
    Ok tt (put 100 (encode cps' ++ 0 :: []) ∅) /\
    forall i c, [0x628; 0x627; 0x628; 0x628] !! i = Some c ->
      cps' !! i = Some (contextual false [0x628; 0x627; 0x628; 0x628] i c).
Proof.
  apply shape_text_contextual; [done|decide_by_running|decide_by_running|].
  intros i a b. destruct i as [|[|[|[|i]]]]; intros [= <-] [= <-]; by vm_compute.
Defined.

Example contextual_forms :
  imap (contextual false [0x628; 0x627; 0x628; 0x628; 0x628]) [0x628; 0x627; 0x628; 0x628; 0x628] =
  [0x704; 0x702; 0x704; 0x705; 0x706].
Proof. by vm_compute. Qed.

Theorem shape_text_other_script_witness :
  shape_text 0 0 100 (put 100 (encode [72; 0xE9; 0x5D0] ++ 0 :: []) ∅) =
  Ok tt (put 100 (encode [72; 0xE9; 0x5D0] ++ 0 :: []) ∅).
Proof. apply shape_text_other_script; [done|decide_by_running|decide_by_running]. Defined.

Theorem shape_text_idempotent_witness :
  let m0 := put 100 (encode [0x644; 0x627] ++ 0 :: []) ∅ in
  (shape_text 0 0 100;; shape_text 5 6 100) m0 = shape_text 0 0 100 m0.
Proof. apply shape_text_idempotent; [done|decide_by_running]. Defined.

Theorem shape_text_lone_letter_with_mark_witness :
  exists s, shape_text 0 0 100 (put 100 (encode (0x628 :: [0x64E] ++ [32]) ++ 0 :: []) ∅) =
    Ok tt (put 100 (encode (0x706 :: s) ++ 0 :: []) ∅).
Proof.
  apply (shape_text_lone_letter_with_mark 0 0 100 0x628 (mk_entry 0x628 0x703 1 2 3) [0x64E] [32]);
    try done; decide_by_running.
Defined.

(** The state of the loop after two runes of the text beh, vowel mark. *)
Definition example_state : shaper_locals * mem :=
  let m := put 100 (encode [0x628; 0x64E] ++ 0 :: []) ∅ in
  default (shape_init 0 100, m) (iterate 2 (shape_body 0) (shape_init 0 100) m).

Theorem shape_text_late_finalize_safe_witness :
  late_finalize_ptr example_state.1 <> NULL /\
  state example_state.1 = STATE_MEDIAL /\ is_Some (late_finalize_lut_entry example_state.1).
Proof.
  assert (late_finalize_ptr example_state.1 <> NULL) as Hl by by vm_compute.
  split; [done|].
  apply (shape_text_late_finalize_safe 0 0 100 (put 100 (encode [0x628; 0x64E] ++ 0 :: []) ∅)
    example_state.1 example_state.2); [|done].
  apply (iterate_reaches 2). by vm_compute.
Defined.

(** Code points above 0xFFFF are shaped as the letter with the same low 16 bits:
    U+20627 is taken for alef, and the first two of its four bytes are overwritten, so
    that the text is no longer UTF-8. *)
Theorem shape_text_overwrites_aliased :
  shape_text 0 0 100 (put 100 (encode [0x20627] ++ [0]) ∅) =
  Ok tt (put 100 (utf8_bytes 0x701 ++ [152; 167; 0]) ∅).
Proof. by vm_compute. Qed.
