(* ===== verification/ShaperForms.v ===== *)
(** * Which form a letter takes

    The rules by which [shape_text] chooses between the isolated, initial, medial and final form, on
    the kinds of the code points of a text: marks that take no room, letters that join on both
    sides or only to the letter before, and other code points.  [shape_go_forms]: the shapes
    that the specification of the shaper gives are those. *)

From S2P Require Import Prelude Memory Utf8 Ranges Shaper ShaperSpec.

(** ** Rules on kinds *)

Inductive kind := Mark | Letter (right_only : bool) | Other.

(** Something that a letter joins comes next: a letter, or a mark on it. *)
Definition followed (after : list kind) : bool :=
  match after with Letter _ :: _ | Mark :: _ => true | _ => false end.

(** The first that is no mark is a letter. *)
Fixpoint letter_ahead (after : list kind) : bool :=
  match after with
  | Mark :: after => letter_ahead after
  | Letter _ :: _ => true
  | _ => false
  end.

(** The letter at a position joins what comes after it. *)
Definition joins_on (ks : list kind) (i : nat) : bool :=
  match ks !! i with Some (Letter false) => followed (drop (S i) ks) | _ => false end.

(** The last one before a position that is no mark is a letter that joins what comes after it; [first]
    is what holds in front of the text. *)
Fixpoint joined_to (first : bool) (ks : list kind) (i : nat) : bool :=
  match i with
  | O => first
  | S j => match ks !! j with Some Mark => joined_to first ks j | _ => joins_on ks j end
  end.

(** The form of the letter at a position, by whether it is joined to the letter before and to the one
    after.  A letter that has marks after it and then no other letter is final even if there is none
    before: the code finds out too late that the word has ended. *)
Definition form_from (first : bool) (ks : list kind) (i : nat) : bool * bool :=
  let before := joined_to first ks i in
  if joins_on ks i then
    if letter_ahead (drop (S i) ks) then (before, true) else (true, false)
  else (before, false).

Definition form_at : list kind -> nat -> bool * bool := form_from false.

Lemma joined_to_cons first k ks i : joined_to first (k :: ks) (S i) =
  joined_to (match k with Mark => first | _ => joins_on (k :: ks) 0 end) ks i.
Proof.
  induction i as [|i IH]; [by destruct k|].
  change (match ks !! i with Some Mark => joined_to first (k :: ks) (S i) | _ => joins_on ks i end
    = joined_to (match k with Mark => first | _ => joins_on (k :: ks) 0 end) ks (S i)).
  cbn [joined_to]. destruct (ks !! i) as [[]|]; [exact IH|done..].
Qed.

(** ** The shapes of the specification *)

Section Forms.
Context `{ShaperTables}.

Definition code_kind (c : Z) : kind :=
  if zw c then Mark else match letter c with Some e => Letter (right_joining e) | None => Other end.

(** The isolated, initial, medial and final shape. *)
Definition joined_shape (form : bool * bool) (e : ShaperLUTEntry) : Z :=
  match form with
  | (false, false) => iso e
  | (false, true) => ini e
  | (true, true) => med e
  | (true, false) => fin e
  end.

(** The shape of the code point at a position. *)
Definition shape_from (first : bool) (s : list Z) (i : nat) (c : Z) : Z :=
  if zw c then c
  else match letter c with
  | Some e => joined_shape (form_from first (code_kind <$> s) i) e
  | None => c
  end.

Lemma followed_kinds rest : followed (code_kind <$> rest) = joins_next rest.
Proof.
  destruct rest as [|c rest]; [done|]. rewrite fmap_cons. cbn [followed joins_next]. unfold code_kind. destruct (zw c), (letter c); done.
Qed.

Lemma letter_ahead_kinds rest : letter_ahead (code_kind <$> rest) = next_letter rest.
Proof.
  induction rest as [|c rest IH]; [done|]. rewrite fmap_cons. cbn [letter_ahead next_letter]. unfold code_kind at 1.
  destruct (zw c); [exact IH|]. by destruct (letter c).
Qed.

Lemma shape_from_cons first c0 s i c : shape_from first (c0 :: s) (S i) c =
  shape_from (match code_kind c0 with Mark => first | Letter false => joins_next s | _ => false end) s i c.
Proof.
  unfold shape_from, form_from. rewrite fmap_cons, joined_to_cons.
  assert (joins_on (code_kind c0 :: (code_kind <$> s)) 0
    = match code_kind c0 with Letter false => joins_next s | _ => false end) as ->.
  { rewrite <- followed_kinds. unfold joins_on, drop. by destruct (code_kind c0) as [|[]|]. }
  by destruct (code_kind c0).
Qed.

(** The state says whether the letter before joins this one. *)
Lemma shape_go_from st s i c : s !! i = Some c ->
  shape_go st s !! i = Some (shape_from (bool_decide (st = STATE_MEDIAL)) s i c).
Proof.
  revert st i. induction s as [|c0 s IH]; intros st i Hi; [done|]. cbn [shape_go].
  destruct i as [|i]; [injection Hi as ->|].
  - unfold shape_from. destruct (zw c) eqn:Ez; [done|]. destruct (letter c) as [e|] eqn:El; [|done].
    unfold form_from, joins_on. rewrite fmap_cons. cbn [lookup list_lookup drop joined_to].
    assert (code_kind c = Letter (right_joining e)) as -> by (unfold code_kind; by rewrite Ez, El).
    rewrite <- followed_kinds, <- letter_ahead_kinds.
    unfold drop. destruct (right_joining e), (followed (code_kind <$> s)), (letter_ahead (code_kind <$> s)), st; reflexivity.
  - change (s !! i = Some c) in Hi. pose proof (fun st => IH st i Hi) as IH'. rewrite shape_from_cons.
    unfold code_kind. destruct (zw c0); [exact (IH' st)|].
    destruct (letter c0) as [e|]; [|exact (IH' STATE_INITIAL)].
    destruct (joins_next s), (right_joining e); first [exact (IH' STATE_INITIAL)|exact (IH' STATE_MEDIAL)].
Qed.

(** A shaped text has for every letter its form, and all else as it was. *)
Lemma shape_runes_form cps i c : ligate cps !! i = Some c ->
  shape_runes cps !! i = Some (if zw c then c else match letter c with
    | Some e => joined_shape (form_at (code_kind <$> ligate cps) i) e
    | None => c
    end).
Proof. apply (shape_go_from STATE_INITIAL). Qed.
End Forms.
