(* ===== verification/Unshape.v ===== *)
(** * Undoing the shaping of a text

    [unshape_text] (runtime/text_shaper.c, used when the firmware keeps the text)
    turns the code points of shapes back into letters and ligatures into their two
    letters.  With tables in which a shape belongs to one letter, it restores the
    text that [shape_text] was given. *)

From S2P Require Import Prelude Memory Utf8 Ranges Shaper ShaperSpec ShaperRefine ShaperProps.

(** ** What the tables need for it *)

Class UnshapeTablesOk `{ShaperTables} `{!ShaperTablesOk} `{ShaperRange} : Prop := {
  (** shapes are recognised, and belong to one letter *)
  forms_in_range : Forall (fun e => Forall (fun f => ARABIC_SHAPER_RANGE f = true) (forms e))
                     (shaper_lut ARABIC_SHAPER_LUT);
  base_of_form : Forall (fun e => Forall (fun f => find_base_codept_by_shaped f = true_codept e) (forms e))
                   (shaper_lut ARABIC_SHAPER_LUT);
  (** a ligature has one pattern, is a code point of its own, and starts no ligature *)
  ligature_once : NoDup (snd <$> ligatures);
  ligature_in_range : Forall (fun r => ARABIC_SHAPER_RANGE r = true) (snd <$> ligatures);
  ligature_last : Forall (fun l => Forall (fun l' => l'.1.1 <> l.2) ligatures) ligatures;
}.

Section Unshape.
Context `{ShaperTables} `{!ShaperTablesOk} `{ShaperRange} `{!ShaperRangeOk} `{!UnshapeTablesOk}.

(** ** Expanding a ligature *)

(** [expand_from] at the start of a pattern of the table. *)
Lemma expand_from_pattern ligs a b r post n codept q m :
  two_byte a -> two_byte b -> 0 <= r < 32768 ->
  let ws := flat_map lig_words (ligs ++ (a, b, r) :: post) in
  let start := length (flat_map lig_words ligs) in
  expand_from ws codept q (3 + n) start start m =
  if r =? codept
  then (write_utf8 (q - 2) a;; write_utf8 q b;; mret true) m
  else expand_from ws codept q n (3 + start) (3 + start) m.
Proof.
  intros Ha Hb Hr ws start. unfold two_byte in *.
  assert (forall k, nth (k + start) ws 0 = nth k (lig_words (a, b, r) ++ flat_map lig_words post) 0) as Hnth.
  { intros k. unfold ws. rewrite flat_map_app, app_nth2 by lia. f_equal. lia. }
  cbn [Nat.add expand_from].
  rewrite (Hnth 0%nat : nth start ws 0 = a). rewrite is_replacement_letter by lia.
  rewrite (Hnth 1%nat : nth (S start) ws 0 = b). rewrite is_replacement_letter by lia.
  rewrite (Hnth 2%nat : nth (S (S start)) ws 0 = r + 32768).
  rewrite is_replacement_ligature, replacement_ligature by lia.
  destruct (r =? codept); [|done].
  replace (S (S (S start) - start)) with 3%nat by lia. cbn [write_pattern].
  rewrite (Hnth 0%nat : nth start ws 0 = a). rewrite (is_replacement_letter a) by lia.
  rewrite (Hnth 1%nat : nth (S start) ws 0 = b). rewrite (is_replacement_letter b) by lia.
  rewrite (Hnth 2%nat : nth (S (S start)) ws 0 = r + 32768).
  rewrite is_replacement_ligature by lia. cbn [negb].
  replace (q - 2 * (Z.of_nat (S (S start)) - Z.of_nat start - 1)) with (q - 2) by lia.
  replace (q - 2 + 2) with q by lia. rewrite !bind_assoc.
  unfold mbind, M_bind. destruct (write_utf8 (q - 2) a m); [|done..].
  by destruct (write_utf8 q b _).
Qed.

Lemma expand_from_spec ligs pre codept q m :
  Forall (fun '(a, b, r) => two_byte a /\ two_byte b /\ two_byte r) ligs ->
  expand_from (flat_map lig_words (pre ++ ligs)) codept q (length (flat_map lig_words ligs))
    (length (flat_map lig_words pre)) (length (flat_map lig_words pre)) m =
  match list_find (fun l => l.2 = codept) ligs with
  | Some (_, (a, b, _)) => (write_utf8 (q - 2) a;; write_utf8 q b;; mret true) m
  | None => Ok false m
  end.
Proof.
  intros Hl. revert pre. induction Hl as [|[[a b] r] ligs (Ha & Hb & Hr) _ IH]; intros pre; [done|].
  change (length (flat_map lig_words ((a, b, r) :: ligs))) with (3 + length (flat_map lig_words ligs))%nat.
  rewrite expand_from_pattern by (done || unfold two_byte in Hr; lia).
  cbn [list_find]. destruct (Z.eqb_spec r codept) as [->|Hne].
  - by rewrite decide_True by done.
  - rewrite decide_False by done.
    replace (3 + length (flat_map lig_words pre))%nat
      with (length (flat_map lig_words (pre ++ [(a, b, r)])))
      by (rewrite flat_map_app, length_app; simpl; lia).
    replace (pre ++ (a, b, r) :: ligs) with ((pre ++ [(a, b, r)]) ++ ligs) by (by rewrite <- app_assoc).
    rewrite IH. by destruct (list_find _ ligs) as [[? [[? ?] ?]]|].
Qed.

Lemma expand_ligature_eq codept q m :
  expand_ligature codept q m =
  match list_find (fun l => l.2 = codept) ligatures with
  | Some (_, (a, b, _)) => (write_utf8 (q - 2) a;; write_utf8 q b;; mret true) m
  | None => Ok false m
  end.
Proof.
  unfold expand_ligature. rewrite ligature_table.
  apply (expand_from_spec ligatures [] codept q m), ligatures_two_byte.
Qed.

(** ** What is undone *)

(** Text that [unshape_text] restores: code points that are not in the scratch blocks
    of the shaper. *)
Definition restorable (c : Z) : Prop := shapeable c /\ ARABIC_SHAPER_RANGE (u16 c) = false.

(** [unshaped s t]: the shaped text [s] is undone to [t]. *)
Inductive unshaped : list Z -> list Z -> Prop :=
| unshaped_nil : unshaped [] []
| unshaped_plain c s t : restorable c -> unshaped s t -> unshaped (c :: s) (c :: t)
| unshaped_form c e f s t :
    restorable c -> letter c = Some e -> f ∈ forms e -> unshaped s t -> unshaped (f :: s) (c :: t)
| unshaped_ligature a b e f s t :
    restorable a -> restorable b -> lig a b <> 0 -> find_lut_entry_by_codept (lig a b) = Some e ->
    f ∈ forms e -> unshaped s t -> unshaped (ZERO_WIDTH_CODEPT :: f :: s) (a :: b :: t).

Lemma zero_width_not_shaped : ARABIC_SHAPER_RANGE (u16 ZERO_WIDTH_CODEPT) = false.
Proof.
  destruct (ARABIC_SHAPER_RANGE _) eqn:E; [|done]. apply shaper_range_scratch in E.
  assert (u16 ZERO_WIDTH_CODEPT = 0x591) as E' by by vm_compute. lia.
Qed.

Lemma lig_in a b : lig a b <> 0 -> (u16 a, u16 b, lig a b) ∈ ligatures.
Proof.
  rewrite lig_eq. generalize ligatures. intros ligs.
  induction ligs as [|[[a' b'] r] ligs IH]; [done|]. cbn [lig_of].
  destruct (Z.eqb_spec a' (u16 a)) as [->|], (Z.eqb_spec b' (u16 b)) as [->|]; cbn [andb];
    intros Hne; try (right; by apply IH). by left.
Qed.

Lemma ligature_found l : l ∈ ligatures -> exists i, list_find (fun l' => l'.2 = l.2) ligatures = Some (i, l).
Proof.
  pose proof ligature_once as Hnd. revert Hnd. generalize ligatures. intros ligs.
  induction ligs as [|l0 ligs IH]; [by intros _ ?%elem_of_nil|]. rewrite fmap_cons, NoDup_cons.
  intros [Hni Hnd] [->|Hin]%elem_of_cons; cbn [list_find].
  - rewrite decide_True by done. eauto.
  - rewrite decide_False.
    + destruct (IH Hnd Hin) as [i ->]. eauto.
    + intros E. apply Hni. rewrite E. by apply list_elem_of_fmap_2.
Qed.

Lemma restorable_no_ligature c : restorable c -> list_find (fun l => l.2 = u16 c) ligatures = None.
Proof.
  intros [_ Hc]. apply list_find_None. pose proof ligature_in_range as HF.
  rewrite Forall_fmap in HF. eapply Forall_impl; [exact HF|]. cbn. intros l Hl E. congruence.
Qed.

(** What the tables say about the shape of a letter. *)
Lemma form_facts codept e f :
  find_lut_entry_by_codept codept = Some e -> f ∈ forms e ->
  two_byte f /\ ARABIC_SHAPER_RANGE (u16 f) = true /\ find_base_codept_by_shaped (u16 f) = codept.
Proof.
  rewrite find_lut_entry_eq. intros [Hin Ht]%find_entry_Some Hf.
  pose proof entry_two_byte as HT. eapply Forall_forall in HT as [_ HT]; [|done].
  pose proof forms_in_range as HR. eapply Forall_forall in HR; [|done].
  pose proof base_of_form as HB. eapply Forall_forall in HB; [|done].
  rewrite Forall_forall in HT, HR, HB. specialize (HT f Hf). specialize (HB f Hf). specialize (HR f Hf).
  rewrite (u16_small f) by (unfold two_byte in HT; lia). by rewrite HB.
Qed.

(** ** The loop *)

(** A rune that is not a shape is skipped. *)
Lemma unshape_body_skip p A c B post m :
  is_codept c -> ARABIC_SHAPER_RANGE (u16 c) = false ->
  unshape_body (p + len (encode A)) (put p (encode (A ++ c :: B) ++ post) m) =
  Ok (inl (p + len (encode (A ++ [c])))) (put p (encode (A ++ c :: B) ++ post) m).
Proof.
  intros Hc Hr. unfold unshape_body. rewrite encode_app, encode_cons, <- !app_assoc.
  destruct (load8_rune p (encode A) c (encode B ++ post) m _ Hc eq_refl) as (b & Hb%Z.eqb_neq & Hload).
  rewrite (bind_ok _ _ _ _ _ Hload), Hb. rewrite (bind_ok _ _ _ _ _ (read_utf8_mid p (encode A) c _ m _ Hc eq_refl)).
  rewrite Hr. cbn [negb]. by rewrite encode_snoc_length, Z.add_assoc.
Qed.

(** A shape is turned back into its letter, or its ligature into the two letters. *)
Lemma unshape_body_form p A codept e f B post m :
  find_lut_entry_by_codept codept = Some e -> f ∈ forms e ->
  let q := p + len (encode A) in
  let m0 := put p (encode (A ++ f :: B) ++ post) m in
  unshape_body q m0 =
  match list_find (fun l => l.2 = codept) ligatures with
  | Some (_, (a, b, _)) =>
      (write_utf8 (q - 2) a;; write_utf8 q b;; mret (inl (q + 2))) m0
  | None => Ok (inl (q + 2)) (put p (encode (A ++ codept :: B) ++ post) m)
  end.
Proof.
  intros He Hf q m0. destruct (form_facts codept e f He Hf) as (Ht & Hr & Hb).
  destruct (entry_two_bytes codept e He) as [Htc _].
  pose proof (two_byte_codept _ Ht) as Hc. unfold unshape_body.
  assert (exists b, b <> 0 /\ load8 q m0 = Ok b m0) as (b & Hb0%Z.eqb_neq & Hload).
  { unfold m0. rewrite encode_app, encode_cons, <- !app_assoc. by apply load8_rune. }
  assert (read_utf8 q m0 = Ok (u16 f, q + 2) m0) as Hread.
  { unfold m0. rewrite encode_app, encode_cons, <- !app_assoc.
    rewrite (read_utf8_mid p (encode A) f _ m _ Hc eq_refl). by rewrite utf8_two_byte. }
  rewrite (bind_ok _ _ _ _ _ Hload), Hb0, (bind_ok _ _ _ _ _ Hread), Hr, Hb. cbn [negb].
  assert ((codept =? 0) = false) as -> by (apply Z.eqb_neq; unfold two_byte in Htc; lia). cbn [negb].
  pose proof (expand_ligature_eq codept q m0) as Hexp.
  destruct (list_find _ ligatures) as [[i [[a b'] r]]|].
  - unfold mbind, M_bind in Hexp |- *. rewrite Hexp.
    destruct (write_utf8 (q - 2) a m0); [|done..]. by destruct (write_utf8 q b' _).
  - rewrite (bind_ok _ _ _ _ _ Hexp).
    by rewrite (bind_ok _ _ _ _ _ (write_utf8_rune p A f codept B post m q Ht Htc eq_refl)).
Qed.

Lemma write_pair {A} (r : A) p l x y a b B post m :
  two_byte x -> two_byte y -> two_byte a -> two_byte b ->
  (write_utf8 (p + len (encode l)) a;; write_utf8 (p + len (encode l) + 2) b;; mret r)
    (put p (encode (l ++ x :: y :: B) ++ post) m) =
  Ok r (put p (encode (l ++ a :: b :: B) ++ post) m).
Proof.
  intros Hx Hy Ha Hb.
  rewrite (bind_ok _ _ _ _ _ (write_utf8_rune p l x a (y :: B) post m _ Hx Ha eq_refl)).
  rewrite (cons_middle a l), (cons_middle a l (b :: B)), !app_assoc.
  assert (p + len (encode l) + 2 = p + len (encode (l ++ [a]))) as E
    by (rewrite encode_snoc_length, utf8_two_byte by done; simpl; lia).
  by rewrite (bind_ok _ _ _ _ _ (write_utf8_rune p (l ++ [a]) y b B post m _ Hy Hb E)).
Qed.

Lemma unshape_loop_ok p s t A tail m fuel :
  unshaped s t -> (length s < fuel)%nat ->
  loop fuel unshape_body (p + len (encode A)) (put p (encode (A ++ s) ++ 0 :: tail) m) =
  Ok tt (put p (encode (A ++ t) ++ 0 :: tail) m).
Proof.
  intros Hs. revert A fuel.
  induction Hs as [|c s t Hc _ IH|c e f s t Hc He Hf _ IH|a b e f s t Ha Hb Hlig He Hf _ IH];
    intros A fuel Hfuel; (destruct fuel as [|fuel]; [cbn in Hfuel; lia|]); cbn [length] in Hfuel.
  - apply loop_exit. unfold unshape_body. rewrite app_nil_r.
    by rewrite (bind_ok _ _ _ _ _ (load8_mid p (encode A) 0 tail m _ eq_refl)).
  - destruct Hc as ((Hcp & _) & Hr). rewrite (loop_next _ _ _ _ _ _ (unshape_body_skip p A c s _ m Hcp Hr)).
    rewrite (cons_middle c A s), (cons_middle c A t), !app_assoc. apply IH. lia.
  - pose proof (restorable_no_ligature c Hc) as Hnone. pose proof Hc as [Hsh _].
    destruct (shapeable_letter c e Hsh He) as [Ec Htc].
    destruct (form_facts _ _ _ He Hf) as [Htf _].
    pose proof (unshape_body_form p A _ e f s (0 :: tail) m He Hf) as Hbody. cbv zeta in Hbody.
    rewrite Hnone, Ec in Hbody. rewrite (loop_next _ _ _ _ _ _ Hbody).
    rewrite (cons_middle c A s), (cons_middle c A t), !app_assoc.
    replace (p + len (encode A) + 2) with (p + len (encode (A ++ [c])))
      by (rewrite encode_snoc_length, utf8_two_byte by done; simpl; lia).
    apply IH. lia.
  - destruct fuel as [|fuel]; [lia|].
    pose proof Ha as [Hsa _]. pose proof Hb as [Hsb _].
    pose proof Hlig as Hlig'. rewrite lig_eq in Hlig'.
    destruct (lig_of_letters _ _ Hlig') as ([ea Hea] & [eb Heb] & _).
    destruct (shapeable_letter a ea Hsa Hea) as [Ea Hta], (shapeable_letter b eb Hsb Heb) as [Eb Htb].
    destruct (form_facts _ _ _ He Hf) as [Htf _].
    rewrite (loop_next _ _ _ _ _ _ (unshape_body_skip p A ZERO_WIDTH_CODEPT (f :: s) _ m
      (two_byte_codept _ ZERO_WIDTH_two_byte) zero_width_not_shaped)).
    pose proof (unshape_body_form p (A ++ [ZERO_WIDTH_CODEPT]) _ e f s (0 :: tail) m He Hf) as Hbody.
    destruct (ligature_found _ (lig_in a b Hlig)) as [i Hi]. cbn [snd] in Hi.
    cbv zeta in Hbody. rewrite Hi, Ea, Eb in Hbody.
    assert (p + len (encode (A ++ [ZERO_WIDTH_CODEPT])) = p + len (encode A) + 2) as Eq
      by (rewrite encode_snoc_length, utf8_two_byte by apply ZERO_WIDTH_two_byte; simpl; lia).
    rewrite Eq in Hbody |- *. rewrite <- app_assoc in Hbody. cbn [app] in Hbody.
    rewrite Z.add_simpl_r, write_pair in Hbody by (done || apply ZERO_WIDTH_two_byte).
    rewrite (loop_next _ _ _ _ _ _ Hbody).
    change (a :: b :: s) with ([a; b] ++ s). change (a :: b :: t) with ([a; b] ++ t).
    rewrite !app_assoc.
    replace (p + len (encode A) + 2 + 2) with (p + len (encode (A ++ [a; b]))).
    + apply IH. lia.
    + change [a; b] with ([a] ++ [b]). rewrite app_assoc, !encode_snoc_length, !utf8_two_byte by done.
      simpl. lia.
Qed.

(** ** Shaped text is undone *)

(** No ligature starts with a ligature. *)
Lemma ligate_ligature a b rest :
  lig a b <> 0 -> ligate_from (lig a b) rest = lig a b :: ligated rest.
Proof.
  intros Hlig. destruct rest as [|c rest]; [done|]. cbn [ligate_from ligated].
  destruct (Z.eqb_spec (lig (lig a b) c) 0) as [|Hne]; [done|]. exfalso.
  pose proof ligature_last as HF.
  eapply Forall_forall in HF; [|by apply (lig_in a b)].
  eapply Forall_forall in HF; [|by apply (lig_in (lig a b) c)]. apply HF. cbn [fst snd].
  rewrite lig_eq in Hlig |- *. destruct (lig_of_letters _ _ Hlig) as (_ & _ & [e [He _]%entry_two_bytes] & _).
  apply u16_small. unfold two_byte in He. lia.
Qed.

Lemma lig_letters a b :
  lig a b <> 0 -> zw (lig a b) = false /\ exists e, letter (lig a b) = Some e /\
    find_lut_entry_by_codept (lig a b) = Some e.
Proof.
  rewrite lig_eq. intros Hlig.
  destruct (lig_of_letters _ _ Hlig) as (_ & _ & [e He] & Hz).
  pose proof (entry_two_bytes _ _ He) as [Ht _].
  unfold zw, letter. rewrite u16_small by (unfold two_byte in Ht; lia). eauto.
Qed.

Lemma shaped_unshaped n cps vs :
  (length cps <= n)%nat -> Forall restorable cps -> Forall2 shaped (ligated cps) vs -> unshaped vs cps.
Proof.
  revert cps vs. induction n as [|n IH]; intros [|c rest] vs Hn Hcps Hvs; cbn [length] in Hn; try lia;
    [inversion Hvs; constructor..|].
  apply Forall_cons in Hcps as [Hc Hrest]. cbn [ligated] in Hvs.
  assert (forall v vs, shaped c v -> Forall2 shaped (ligated rest) vs -> unshaped (v :: vs) (c :: rest))
    as Hplain.
  { intros v vs' [[_ ->]|[_ (e & He & Hf)]] Hvs'.
    - apply unshaped_plain; [done|]. apply IH; [lia|done..].
    - eapply unshaped_form; [done..|]. apply IH; [lia|done..]. }
  destruct rest as [|c2 rest]; [inversion Hvs; by apply Hplain|].
  cbn [ligate_from] in Hvs. destruct (Z.eqb_spec (lig c c2) 0) as [|Hlig];
    [inversion Hvs; by apply Hplain|].
  apply Forall_cons in Hrest as [Hc2 Hrest]. rewrite ligate_ligature in Hvs by done.
  inversion Hvs as [|? z ? vs1 Hz Hvs1]; subst. inversion Hvs1 as [|? f ? vs2 Hf Hvs2]; subst.
  destruct (lig_letters _ _ Hlig) as (HzL & e & He & He').
  destruct Hz as [[_ ->]|[Hz _]]; [|by rewrite zw_ZERO_WIDTH in Hz].
  destruct Hf as [[[Hf|Hf] _]|[_ (e' & Hf & Hin)]]; [congruence..|].
  assert (e' = e) as -> by congruence.
  eapply unshaped_ligature; [done..|]. apply IH; [cbn [length] in Hn; lia|done..].
Qed.

Lemma shape_runes_unshaped cps :
  Forall restorable cps -> unshaped (shape_runes cps) cps.
Proof.
  intros Hcps. apply (shaped_unshaped (length cps)); [done..|].
  replace (ligated cps) with (ligate cps) by done. apply shape_go_shaped.
Qed.

Lemma unshape_text_ok p s t tail m :
  unshaped s t -> Forall shapeable t -> length (encode s) = length (encode t) -> length s = length t ->
  unshape_text p (put p (encode s ++ 0 :: tail) m) = Ok tt (put p (encode t ++ 0 :: tail) m).
Proof.
  intros Hs Ht Hlen Hlen'. unfold unshape_text.
  rewrite <- (Z.add_0_r p) at 2. apply (unshape_loop_ok p s t []); [done|].
  pose proof (text_fuel_enough p t tail m (shapeable_codepts t Ht)) as Hf. unfold text_fuel in *.
  replace (dom (put p (encode s ++ 0 :: tail) m)) with (dom (put p (encode t ++ 0 :: tail) m)); [lia|].
  apply set_eq. intros a. rewrite !elem_of_dom, !put_lookup, !length_app, Hlen. cbn [length].
  case_match eqn:Ha; [|done].
  rewrite !lookup_lt_is_Some, !length_app, Hlen. done.
Qed.
End Unshape.

(** ** Every memory *)

Section Anywhere.
Context `{ShaperTables} `{ShaperRange}.

Lemma write_pattern_no_fuel n ws start p m :
  (exists k, (k < n)%nat /\ is_replacement (nth (start + k) ws 0) = true) ->
  write_pattern n ws start p m <> OutOfFuel.
Proof.
  revert start p m. induction n as [|n IH]; intros start p m (k & Hk & Hr); [lia|]. cbn [write_pattern].
  destruct (is_replacement (nth start ws 0)) eqn:E; cbn [negb]; [done|].
  apply bind_no_fuel; [auto with fuel|]. intros _ m'. apply IH.
  destruct k as [|k]; [rewrite Nat.add_0_r in Hr; congruence|].
  exists k. split; [lia|]. by replace (S start + k)%nat with (start + S k)%nat by lia.
Qed.

Lemma write_pattern_keeps_dom n ws start p : keeps_dom (write_pattern n ws start p).
Proof.
  revert start p. induction n as [|n IH]; intros start p; cbn [write_pattern]; [done|].
  case_match; [|auto with fuel]. apply keeps_dom_bind; auto with fuel.
Qed.

Lemma expand_from_no_fuel ws codept p n i start m :
  (start <= i)%nat -> expand_from ws codept p n i start m <> OutOfFuel.
Proof.
  revert i start. induction n as [|n IH]; intros i start Hle; cbn [expand_from]; [done|].
  destruct (is_replacement (nth i ws 0)) eqn:E; [|apply IH; lia].
  case_match; [|apply IH; lia]. apply bind_no_fuel; [|done]. apply write_pattern_no_fuel.
  exists (i - start)%nat. split; [lia|]. by replace (start + (i - start))%nat with i by lia.
Qed.

Lemma expand_from_keeps_dom ws codept p n i start : keeps_dom (expand_from ws codept p n i start).
Proof.
  revert i start. induction n as [|n IH]; intros i start; cbn [expand_from]; [auto with fuel|].
  repeat case_match; auto. apply keeps_dom_bind; auto using write_pattern_keeps_dom with fuel.
Qed.

Lemma unshape_body_no_fuel q m : unshape_body q m <> OutOfFuel.
Proof.
  unfold unshape_body. apply bind_no_fuel; [auto with fuel|intros b m1]. case_match; [done|].
  apply bind_no_fuel; [auto with fuel|intros [codept q'] m2]. repeat case_match; try done.
  apply bind_no_fuel; [by apply expand_from_no_fuel|intros [] m3]; (apply bind_no_fuel; auto with fuel; done).
Qed.

Lemma unshape_body_decreases q m q' m' :
  unshape_body q m = Ok (inl q') m' -> (mapped_from q' m' < mapped_from q m)%nat.
Proof.
  unfold unshape_body, load8. intros (b & m1 & Hb & Hr)%bind_inv. cbv beta in Hb.
  destruct (m !! q) eqn:Hq; [|done]. injection Hb as <- <-. case_match; [done|].
  apply bind_inv in Hr as ([codept q1] & m2 & [Hlt ->]%read_utf8_advances & Hr).
  assert (dom m' = dom m /\ q' = q1) as [Hd ->].
  { repeat case_match; try (apply ret_inv in Hr as [? ->]; by simplify_eq).
    apply bind_inv in Hr as (ex & m3 & He & Hr). apply expand_from_keeps_dom in He. rewrite <- He.
    apply bind_inv in Hr as ([] & m4 & Hw & Hr). apply ret_inv in Hr as [? ->]. simplify_eq.
    split; [|done]. destruct ex; [by apply ret_inv in Hw as [_ ->]|by apply write_utf8_keeps_dom in Hw]. }
  rewrite (mapped_from_dom _ _ _ Hd). by apply mapped_from_lt; [rewrite Hq|].
Qed.

(** [unshape_text] ends on every memory and from every pointer, with any tables: the
    loop over the text moves forward, and the inner loop that writes the pattern of a
    ligature stops at its replacement. *)
Theorem unshape_text_terminates p m : unshape_text p m <> OutOfFuel.
Proof.
  unfold unshape_text. apply (loop_ends_mem mapped_from).
  - apply unshape_body_no_fuel.
  - apply unshape_body_decreases.
  - unfold text_fuel. pose proof (mapped_from_fuel p m). lia.
Qed.
End Anywhere.

(** ** The round trip *)

Section RoundTrip.
Context `{ShaperTables} `{!ShaperTablesOk} `{ShaperRange} `{!ShaperRangeOk} `{!UnshapeTablesOk}.

(** C3: undoing restores the text: when every shape belongs to one letter, ligatures
    are not chained and the text holds none of the shaper's own code points, then
    [unshape_text] after [shape_text] leaves the memory as it was before both,
    letters, ligatures, zero-width marks and all. *)
Theorem unshape_text_restores oob uninit p cps tail m :
  0 < p -> Forall shapeable cps -> Forall (fun c => ARABIC_SHAPER_RANGE (u16 c) = false) cps ->
  holds m p (encode cps ++ 0 :: tail) ->
  (shape_text oob uninit p;; unshape_text p) m = Ok tt m.
Proof.
  intros Hp Hcps Hr Hm. rewrite <- Hm.
  rewrite (bind_ok _ _ _ _ _ (shape_text_runes oob uninit p cps tail m Hp Hcps)).
  pose proof (shape_runes_replaces cps Hcps) as Hrep.
  apply unshape_text_ok; [|done|by apply replaces_encode|].
  - apply shape_runes_unshaped. by apply Forall_and.
  - symmetry. by apply Forall2_length in Hrep.
Qed.
End RoundTrip.

#[export] Instance example_unshape_ok : UnshapeTablesOk.
Proof. split; by apply (bool_decide_unpack _); vm_compute. Qed.

#[export] Instance example_range_ok : ShaperRangeOk.
Proof.
  constructor. intros cp Hcp. left. unfold ARABIC_SHAPER_RANGE, in_ranges in Hcp. cbn in Hcp.
  rewrite orb_false_r in Hcp. apply RANGE_spec in Hcp. lia.
Qed.

Theorem unshape_text_restores_witness :
  let m := put 100 (encode [0x628; 0x644; 0x627; 32; 0x628; 0x64E; 65] ++ 0 :: []) ∅ in
  (shape_text 0 0 100;; unshape_text 100) m = Ok tt m.
Proof.
  apply (unshape_text_restores 0 0 100 [0x628; 0x644; 0x627; 32; 0x628; 0x64E; 65] []);
    [done|decide_by_running|decide_by_running|apply holds_put].
Defined.

(** ** Letters that share a glyph *)

(** Tables as text_shaper.py writes them for a font in which kaf and keheh have the
    same initial glyph, which then gets one code point. *)
Definition shared_glyph_tables : ShaperTables := {|
  ARABIC_SHAPER_LUT :=
    [0x43; 0x06; 0x00; 0x07; 1; 2; 3;
     0xA9; 0x06; 0x04; 0x07; 253; 1; 2];
  ARABIC_LIGATURE_LUT := [];
|}.

(** [unshape_text] does not restore a letter whose shape is shared with a letter
    earlier in the table, as text_shaper.py allows: two kehehs come back as a kaf and
    a keheh. *)
Theorem unshape_text_shared_glyph :
  let m := put 100 (encode [0x6A9; 0x6A9] ++ 0 :: []) ∅ in
  (@shape_text shared_glyph_tables 0 0 100;;
   @unshape_text shared_glyph_tables [(0x700, 0x707)] 100) m =
  Ok tt (put 100 (encode [0x643; 0x6A9] ++ 0 :: []) ∅).
Proof. by vm_compute. Qed.
