(* ===== verification/LutGen.v ===== *)
(** * Generating the shaper's tables (fonts/text_shaper.py)

    [pack_lut] assigns code points of the scratch blocks to glyphs and ligatures and
    packs the two tables; [contiguous_ranges] gives the ranges of [ARABIC_SHAPER_RANGE];
    [text_shaper] is the whole script, with the map of code points that the fonts are generated
    with.  The labels, which only name the files of dumped bitmaps, are left out.
    A Python string is the list of its code points, a dictionary is a map or an
    association list, and an exception is [None].  The shaping engine (hb-shape) is a
    parameter. *)

From stdpp Require Import sorting strings.
From S2P Require Import Prelude Memory Utf8 Ranges Shaper.

(** [tuple(range( *p) for p in scratch_codepoint_ranges)], chained *)
Definition scratch_codepoint_ranges : list (Z * Z) := [(0x700, 0x750); (0x780, 0x7FF + 1)].
Definition scratch_codepoints : list Z :=
  flat_map (fun r => seqZ r.1 (r.2 - r.1)) scratch_codepoint_ranges.

Definition kashida : Z := 0x640.

(** ** The forms of the letters *)

(** A dictionary of forms: in the order of insertion, each key once. *)
Fixpoint set_forms (forms : list (list Z * list Z)) (ch fs : list Z) : list (list Z * list Z) :=
  match forms with
  | [] => [(ch, fs)]
  | (ch', fs') :: forms => if decide (ch' = ch) then (ch, fs) :: forms else (ch', fs') :: set_forms forms ch fs
  end.

Section GenerateForms.
(** The glyphs that hb-shape prints for a text in the font. *)
Variable hb_shape : list Z -> list Z.
(** [missing_glyph], which is [None] for the text that finds it. *)
Variable missing_glyph : option Z.
Variable kashida_glyph : Z.

(** [shape_text] of the script: a glyph that is missing is an exception. *)
Definition font_shape_text (txt : list Z) : option (list Z) :=
  let glyphs := hb_shape txt in
  if existsb (fun g => bool_decide (Some g = missing_glyph)) glyphs then None else Some glyphs.

(** The glyph of one of the four compositions of a letter with the kashida. *)
Definition target_glyph (ch ch_comp : list Z) : option Z :=
  if decide (ch = [kashida]) then Some kashida_glyph
  else
    shaped ← font_shape_text ch_comp;
    match filter (fun g => g <> kashida_glyph) shaped with
    | [g] => Some g
    | _ => None
    end.

Definition ch_comps (ch : list Z) : list (list Z) := [ch; ch ++ [kashida]; kashida :: ch ++ [kashida]; kashida :: ch].

Definition ch_forms (ch : list Z) : option (list Z) := mapM (target_glyph ch) (ch_comps ch).

Fixpoint generate_forms_from (forms : list (list Z * list Z)) (chs : list (list Z)) : option (list (list Z * list Z)) :=
  match chs with
  | [] => Some forms
  | ch :: chs => fs ← ch_forms ch; generate_forms_from (set_forms forms ch fs) chs
  end.

Definition generate_forms (alphabet : list Z) (ligatures : list (list Z)) : option (list (list Z * list Z)) :=
  generate_forms_from [] (((fun c => [c]) <$> alphabet) ++ ligatures).
End GenerateForms.

(** ** [struct.pack] *)

(** Little-endian [H] and [b]; a value out of range is an error. *)
Definition pack_H (v : Z) : option (list Z) :=
  if (0 <=? v) && (v <? 65536) then Some [v mod 256; v / 256] else None.
Definition pack_b (v : Z) : option (list Z) :=
  if (-128 <=? v) && (v <? 128) then Some [v mod 256] else None.

(** [struct.pack("<HHbbb", *line_parts)] *)
Definition pack_line (line_parts : list Z) : option (list Z) :=
  match line_parts with
  | [t; i; d1; d2; d3] =>
      bt ← pack_H t; bi ← pack_H i; b1 ← pack_b d1; b2 ← pack_b d2; b3 ← pack_b d3;
      Some (bt ++ bi ++ b1 ++ b2 ++ b3)
  | _ => None
  end.

(** ** [pack_lut] *)

Record pack_state := mk_pack {
  available_codepts : list Z;
  selected_glyphs : gmap Z Z;
  dirtied_codepts : list Z;
  lut_data : list Z;
  lig_data : list Z;
}.

(** [next(available_codepts)], recorded in [dirtied_codepts] *)
Definition next_codept (st : pack_state) : option (Z * pack_state) :=
  match available_codepts st with
  | [] => None
  | c :: cs =>
      Some (c, mk_pack cs (selected_glyphs st) (dirtied_codepts st ++ [c]) (lut_data st) (lig_data st))
  end.

(** The code point of a glyph, a new one when the glyph has none. *)
Definition select_glyph (st : pack_state) (glyph : Z) : option (Z * pack_state) :=
  match selected_glyphs st !! glyph with
  | Some c => Some (c, st)
  | None =>
      '(c, st) ← next_codept st;
      Some (c, mk_pack (available_codepts st) (<[glyph := c]> (selected_glyphs st))
                 (dirtied_codepts st) (lut_data st) (lig_data st))
  end.

Fixpoint select_glyphs (st : pack_state) (glyphs : list Z) : option (list Z * pack_state) :=
  match glyphs with
  | [] => Some ([], st)
  | g :: gs =>
      '(c, st) ← select_glyph st g;
      '(cs, st) ← select_glyphs st gs;
      Some (c :: cs, st)
  end.

(** The true code point: the letter's own, or a new one for a ligature, which is then
    also entered in the ligature table. *)
Definition true_codept_of (st : pack_state) (ch : list Z) : option (Z * pack_state) :=
  match ch with
  | [c] => Some (c, st)
  | _ =>
      if (length ch <=? 2)%nat then
        '(r, st) ← next_codept st;
        ls ← mapM pack_H ch;
        lr ← pack_H (Z.lor r (Z.shiftl 1 15));
        Some (r, mk_pack (available_codepts st) (selected_glyphs st) (dirtied_codepts st)
                   (lut_data st) (lig_data st ++ concat ls ++ lr))
      else None
  end.

(** [line_parts] behind the true code point: the first code point, and then differences
    to it. *)
Definition deltas (codepts : list Z) : list Z :=
  match codepts with [] => [] | base :: cs => base :: ((fun c => c - base) <$> cs) end.

(** One letter or ligature of the alphabet. *)
Definition pack_entry (st : pack_state) (entry : list Z * list Z) : option pack_state :=
  '(t, st) ← true_codept_of st entry.1;
  '(cs, st) ← select_glyphs st entry.2;
  line ← pack_line (t :: deltas cs);
  Some (mk_pack (available_codepts st) (selected_glyphs st) (dirtied_codepts st)
          (lut_data st ++ line) (lig_data st)).

Fixpoint pack_entries (st : pack_state) (forms : list (list Z * list Z)) : option pack_state :=
  match forms with
  | [] => Some st
  | e :: forms => st ← pack_entry st e; pack_entries st forms
  end.

(** Python's order on strings. *)
Fixpoint str_le (a b : list Z) : bool :=
  match a, b with
  | [], _ => true
  | _ :: _, [] => false
  | x :: a, y :: b => (x <? y) || ((x =? y) && str_le a b)
  end.

Definition pack_lut (forms : list (list Z * list Z)) : option pack_state :=
  pack_entries (mk_pack scratch_codepoints ∅ [] [] [])
    (merge_sort (fun a b => Is_true (str_le a.1 b.1)) forms).

(** ** [contiguous_ranges] *)

(** The loop over the sorted values: the run so far is [first] to [last]. *)
Fixpoint contiguous_from (first last : Z) (vals : list Z) : list (Z * Z) :=
  match vals with
  | [] => [(first, last)]
  | v :: vals =>
      if last + 1 =? v then contiguous_from first v vals
      else (first, last) :: contiguous_from v v vals
  end.

(** An [IndexError] without any value. *)
Definition contiguous_ranges (vals : list Z) : option (list (Z * Z)) :=
  match merge_sort Z.le vals with
  | [] => None
  | v :: vals => Some (contiguous_from v v vals)
  end.

(** [write_lut]: the arrays, and the ranges of [ARABIC_SHAPER_RANGE] with their ends
    excluded. *)
Definition write_range (r : Z * Z) : Z * Z := (r.1, r.2 + 1).

(** ** The script *)

(** The alphabets of the platforms. *)
Definition subset_full : list Z :=
  [0x627; 0x628; 0x67e; 0x62a; 0x679; 0x62b; 0x62c; 0x686; 0x62d; 0x62e; 0x62f; 0x688; 0x630; 0x631; 0x691; 0x632; 0x698;
   0x633; 0x634; 0x635; 0x636; 0x637; 0x638; 0x639; 0x63a; 0x641; 0x642; 0x643; 0x6a9; 0x6af; 0x644; 0x645; 0x646; 0x648;
   0x647; 0x6be; 0x621; 0x6cc; 0x6d2; 0x67c; 0x685; 0x681; 0x689; 0x693; 0x696; 0x69a; 0x6ab; 0x6bc; 0x64a; 0x6d0; 0x6cd;
   0x626; 0x695; 0x6ce; 0x6c6; 0x6d5; 0x6b5; 0x6a4; 0x623; 0x625; 0x629; 0x649; 0x624; 0x622] ++ [kashida].
Definition subset_arabic : list Z :=
  [0x63a; 0x638; 0x636; 0x630; 0x62e; 0x62b; 0x62a; 0x634; 0x631; 0x642; 0x635; 0x641; 0x639; 0x633; 0x646; 0x645; 0x644;
   0x643; 0x64a; 0x637; 0x62d; 0x632; 0x648; 0x647; 0x62f; 0x62c; 0x628; 0x627; 0x621; 0x622; 0x623; 0x625; 0x629] ++ [kashida].

(** [subsets[subset_key]] *)
Definition subsets (subset_key : string) : option (list Z) :=
  if decide (subset_key = "full"%string) then Some subset_full
  else if decide (subset_key = "arabic"%string) then Some subset_arabic
  else None.

Definition supplemental_alphabet : list Z :=
  [0x661; 0x662; 0x663; 0x664; 0x665; 0x666; 0x667; 0x668; 0x669; 0x660; 0x61f; 0x61b; 0x60c].
Definition shaped_ligatures : list (list Z) := [[0x644; 0x627]].

(** A text that the font has no glyph for. *)
Definition missing_text : list Z := [0x14c4].

(** [len(ch.encode("utf-8")) == 2] *)
Definition encodes_in_2_bytes (ch : Z) : bool := (0x80 <=? ch) && (ch <? 0x800).

(** [selected_glyphs[glyph] = ord(ch)] for the code points that are not shaped: it replaces
    what the glyph had. *)
Fixpoint supplement_selected_glyphs (hb_shape : list Z -> list Z) (missing_glyph : option Z)
    (selected_glyphs : gmap Z Z) (alphabet : list Z) : option (gmap Z Z) :=
  match alphabet with
  | [] => Some selected_glyphs
  | ch :: alphabet =>
      glyphs ← font_shape_text hb_shape missing_glyph [ch];
      glyph ← head glyphs;
      supplement_selected_glyphs hb_shape missing_glyph (<[glyph := ch]> selected_glyphs) alphabet
  end.

(** [{v: k for k, v in selected_glyphs.items()}] *)
Definition selected_codepts (selected_glyphs : gmap Z Z) : gmap Z Z :=
  list_to_map ((fun item => (item.2, item.1)) <$> map_to_list selected_glyphs).

(** What the script writes: the arrays and ranges of the code, and the map of code points to
    glyphs that the fonts are generated with. *)
Record shaper_output := mk_shaper_output {
  out_lut : list Z;
  out_lig : list Z;
  out_ranges : list (Z * Z);
  out_map : gmap Z Z;
}.

Definition text_shaper (hb_shape : list Z -> list Z) (subset_key : string) : option shaper_output :=
  shaped_alphabet ← subsets subset_key;
  if forallb encodes_in_2_bytes shaped_alphabet then
    missing ← font_shape_text hb_shape None missing_text;
    missing_glyph ← head missing;
    kashidas ← font_shape_text hb_shape (Some missing_glyph) [kashida];
    kashida_glyph ← head kashidas;
    character_forms ← generate_forms hb_shape (Some missing_glyph) kashida_glyph shaped_alphabet shaped_ligatures;
    st ← pack_lut character_forms;
    shapable_ranges ← contiguous_ranges (dirtied_codepts st);
    glyphs ← supplement_selected_glyphs hb_shape (Some missing_glyph) (selected_glyphs st) supplemental_alphabet;
    Some (mk_shaper_output (lut_data st) (lig_data st) (write_range <$> shapable_ranges) (selected_codepts glyphs))
  else None.
