(* ===== verification/SdkEnums.v ===== *)
(** * Enumerations of the SDK (runtime/pebble.h)

    The enumerations that the header declares, with the header's numbering: an
    [Inductive] with the enumerators as constructors and an instance of [CEnum], the
    values a C program sees.  An enumerator that repeats the value of another one is a
    definition. *)

From S2P Require Import Prelude.

(** ** C enumerations *)

(** The values of the enumerators, and all enumerators in the order of the header. *)
Class CEnum (A : Type) := {
  enum_value : A -> Z;
  enum_all : list A;
}.

(** The enumerator that an integer stands for. *)
Definition enum_of `{CEnum A} (v : Z) : option A := find (fun a => enum_value a =? v) enum_all.

(** Different enumerators have different values, so that a value can be read back. *)
Class CEnumOk (A : Type) `{CEnum A} : Prop := {
  enum_of_value (a : A) : enum_of (enum_value a) = Some a;
}.

Ltac solve_enum := constructor; intros []; vm_compute; reflexivity.

Lemma enum_value_inj `{CEnumOk A} (a b : A) : enum_value a = enum_value b -> a = b.
Proof. intros E. apply (inj Some). by rewrite <- !enum_of_value, E. Qed.

Lemma enum_of_Some `{CEnum A} v (a : A) : enum_of v = Some a -> enum_value a = v.
Proof. unfold enum_of. intros [_ E%Z.eqb_eq]%find_some. done. Qed.

#[export] Instance enum_eq_dec `{CEnumOk A} : EqDecision A.
Proof.
  intros a b. destruct (decide (enum_value a = enum_value b)) as [E|E].
  - left. by apply enum_value_inj.
  - right. by intros ->.
Defined.

(** ** The enumerations *)

(** ButtonId: Button ID values *)
Inductive ButtonId := BUTTON_ID_BACK | BUTTON_ID_UP | BUTTON_ID_SELECT | BUTTON_ID_DOWN |
  NUM_BUTTONS.

#[export] Instance ButtonId_enum : CEnum ButtonId := {|
  enum_value e := match e with
    | BUTTON_ID_BACK => 0
    | BUTTON_ID_UP => 1
    | BUTTON_ID_SELECT => 2
    | BUTTON_ID_DOWN => 3
    | NUM_BUTTONS => 4
    end;
  enum_all := [BUTTON_ID_BACK; BUTTON_ID_UP; BUTTON_ID_SELECT; BUTTON_ID_DOWN; NUM_BUTTONS];
|}.

#[export] Instance ButtonId_enum_ok : CEnumOk ButtonId.
Proof. solve_enum. Qed.

(** WatchInfoModel: The different watch models. *)
Inductive WatchInfoModel := WATCH_INFO_MODEL_UNKNOWN | WATCH_INFO_MODEL_PEBBLE_ORIGINAL |
  WATCH_INFO_MODEL_PEBBLE_STEEL | WATCH_INFO_MODEL_PEBBLE_TIME |
  WATCH_INFO_MODEL_PEBBLE_TIME_STEEL | WATCH_INFO_MODEL_PEBBLE_TIME_ROUND_14 |
  WATCH_INFO_MODEL_PEBBLE_TIME_ROUND_20.

#[export] Instance WatchInfoModel_enum : CEnum WatchInfoModel := {|
  enum_value e := match e with
    | WATCH_INFO_MODEL_UNKNOWN => 0
    | WATCH_INFO_MODEL_PEBBLE_ORIGINAL => 1
    | WATCH_INFO_MODEL_PEBBLE_STEEL => 2
    | WATCH_INFO_MODEL_PEBBLE_TIME => 3
    | WATCH_INFO_MODEL_PEBBLE_TIME_STEEL => 4
    | WATCH_INFO_MODEL_PEBBLE_TIME_ROUND_14 => 5
    | WATCH_INFO_MODEL_PEBBLE_TIME_ROUND_20 => 6
    end;
  enum_all := [WATCH_INFO_MODEL_UNKNOWN; WATCH_INFO_MODEL_PEBBLE_ORIGINAL;
    WATCH_INFO_MODEL_PEBBLE_STEEL; WATCH_INFO_MODEL_PEBBLE_TIME;
    WATCH_INFO_MODEL_PEBBLE_TIME_STEEL; WATCH_INFO_MODEL_PEBBLE_TIME_ROUND_14;
    WATCH_INFO_MODEL_PEBBLE_TIME_ROUND_20];
|}.

#[export] Instance WatchInfoModel_enum_ok : CEnumOk WatchInfoModel.
Proof. solve_enum. Qed.

(** WatchInfoColor: The different watch colors. *)
Inductive WatchInfoColor := WATCH_INFO_COLOR_UNKNOWN | WATCH_INFO_COLOR_BLACK |
  WATCH_INFO_COLOR_WHITE | WATCH_INFO_COLOR_RED | WATCH_INFO_COLOR_ORANGE |
  WATCH_INFO_COLOR_GRAY | WATCH_INFO_COLOR_STAINLESS_STEEL | WATCH_INFO_COLOR_MATTE_BLACK |
  WATCH_INFO_COLOR_BLUE | WATCH_INFO_COLOR_GREEN | WATCH_INFO_COLOR_PINK |
  WATCH_INFO_COLOR_TIME_WHITE | WATCH_INFO_COLOR_TIME_BLACK | WATCH_INFO_COLOR_TIME_RED |
  WATCH_INFO_COLOR_TIME_STEEL_SILVER | WATCH_INFO_COLOR_TIME_STEEL_BLACK |
  WATCH_INFO_COLOR_TIME_STEEL_GOLD | WATCH_INFO_COLOR_TIME_ROUND_SILVER_14 |
  WATCH_INFO_COLOR_TIME_ROUND_BLACK_14 | WATCH_INFO_COLOR_TIME_ROUND_SILVER_20 |
  WATCH_INFO_COLOR_TIME_ROUND_BLACK_20 | WATCH_INFO_COLOR_TIME_ROUND_ROSE_GOLD_14.

#[export] Instance WatchInfoColor_enum : CEnum WatchInfoColor := {|
  enum_value e := match e with
    | WATCH_INFO_COLOR_UNKNOWN => 0
    | WATCH_INFO_COLOR_BLACK => 1
    | WATCH_INFO_COLOR_WHITE => 2
    | WATCH_INFO_COLOR_RED => 3
    | WATCH_INFO_COLOR_ORANGE => 4
    | WATCH_INFO_COLOR_GRAY => 5
    | WATCH_INFO_COLOR_STAINLESS_STEEL => 6
    | WATCH_INFO_COLOR_MATTE_BLACK => 7
    | WATCH_INFO_COLOR_BLUE => 8
    | WATCH_INFO_COLOR_GREEN => 9
    | WATCH_INFO_COLOR_PINK => 10
    | WATCH_INFO_COLOR_TIME_WHITE => 11
    | WATCH_INFO_COLOR_TIME_BLACK => 12
    | WATCH_INFO_COLOR_TIME_RED => 13
    | WATCH_INFO_COLOR_TIME_STEEL_SILVER => 14
    | WATCH_INFO_COLOR_TIME_STEEL_BLACK => 15
    | WATCH_INFO_COLOR_TIME_STEEL_GOLD => 16
    | WATCH_INFO_COLOR_TIME_ROUND_SILVER_14 => 17
    | WATCH_INFO_COLOR_TIME_ROUND_BLACK_14 => 18
    | WATCH_INFO_COLOR_TIME_ROUND_SILVER_20 => 19
    | WATCH_INFO_COLOR_TIME_ROUND_BLACK_20 => 20
    | WATCH_INFO_COLOR_TIME_ROUND_ROSE_GOLD_14 => 21
    end;
  enum_all := [WATCH_INFO_COLOR_UNKNOWN; WATCH_INFO_COLOR_BLACK; WATCH_INFO_COLOR_WHITE;
    WATCH_INFO_COLOR_RED; WATCH_INFO_COLOR_ORANGE; WATCH_INFO_COLOR_GRAY;
    WATCH_INFO_COLOR_STAINLESS_STEEL; WATCH_INFO_COLOR_MATTE_BLACK; WATCH_INFO_COLOR_BLUE;
    WATCH_INFO_COLOR_GREEN; WATCH_INFO_COLOR_PINK; WATCH_INFO_COLOR_TIME_WHITE;
    WATCH_INFO_COLOR_TIME_BLACK; WATCH_INFO_COLOR_TIME_RED;
    WATCH_INFO_COLOR_TIME_STEEL_SILVER; WATCH_INFO_COLOR_TIME_STEEL_BLACK;
    WATCH_INFO_COLOR_TIME_STEEL_GOLD; WATCH_INFO_COLOR_TIME_ROUND_SILVER_14;
    WATCH_INFO_COLOR_TIME_ROUND_BLACK_14; WATCH_INFO_COLOR_TIME_ROUND_SILVER_20;
    WATCH_INFO_COLOR_TIME_ROUND_BLACK_20; WATCH_INFO_COLOR_TIME_ROUND_ROSE_GOLD_14];
|}.

#[export] Instance WatchInfoColor_enum_ok : CEnumOk WatchInfoColor.
Proof. solve_enum. Qed.

(** WeekDay: Weekday values *)
Inductive WeekDay := TODAY | SUNDAY | MONDAY | TUESDAY | WEDNESDAY | THURSDAY | FRIDAY |
  SATURDAY.

#[export] Instance WeekDay_enum : CEnum WeekDay := {|
  enum_value e := match e with
    | TODAY => 0
    | SUNDAY => 1
    | MONDAY => 2
    | TUESDAY => 3
    | WEDNESDAY => 4
    | THURSDAY => 5
    | FRIDAY => 6
    | SATURDAY => 7
    end;
  enum_all := [TODAY; SUNDAY; MONDAY; TUESDAY; WEDNESDAY; THURSDAY; FRIDAY; SATURDAY];
|}.

#[export] Instance WeekDay_enum_ok : CEnumOk WeekDay.
Proof. solve_enum. Qed.

(** AccelAxisType: Enumerated values defining the three accelerometer axes. *)
Inductive AccelAxisType := ACCEL_AXIS_X | ACCEL_AXIS_Y | ACCEL_AXIS_Z.

#[export] Instance AccelAxisType_enum : CEnum AccelAxisType := {|
  enum_value e := match e with
    | ACCEL_AXIS_X => 0
    | ACCEL_AXIS_Y => 1
    | ACCEL_AXIS_Z => 2
    end;
  enum_all := [ACCEL_AXIS_X; ACCEL_AXIS_Y; ACCEL_AXIS_Z];
|}.

#[export] Instance AccelAxisType_enum_ok : CEnumOk AccelAxisType.
Proof. solve_enum. Qed.

(** AccelSamplingRate: Valid accelerometer sampling rates, in Hz *)
Inductive AccelSamplingRate := ACCEL_SAMPLING_10HZ | ACCEL_SAMPLING_25HZ |
  ACCEL_SAMPLING_50HZ | ACCEL_SAMPLING_100HZ.

#[export] Instance AccelSamplingRate_enum : CEnum AccelSamplingRate := {|
  enum_value e := match e with
    | ACCEL_SAMPLING_10HZ => 10
    | ACCEL_SAMPLING_25HZ => 25
    | ACCEL_SAMPLING_50HZ => 50
    | ACCEL_SAMPLING_100HZ => 100
    end;
  enum_all := [ACCEL_SAMPLING_10HZ; ACCEL_SAMPLING_25HZ; ACCEL_SAMPLING_50HZ;
    ACCEL_SAMPLING_100HZ];
|}.

#[export] Instance AccelSamplingRate_enum_ok : CEnumOk AccelSamplingRate.
Proof. solve_enum. Qed.

(** CompassStatus: Enum describing the current state of the Compass Service calibration *)
Inductive CompassStatus := CompassStatusDataInvalid | CompassStatusCalibrating |
  CompassStatusCalibrated.

#[export] Instance CompassStatus_enum : CEnum CompassStatus := {|
  enum_value e := match e with
    | CompassStatusDataInvalid => 0
    | CompassStatusCalibrating => 1
    | CompassStatusCalibrated => 2
    end;
  enum_all := [CompassStatusDataInvalid; CompassStatusCalibrating; CompassStatusCalibrated];
|}.

#[export] Instance CompassStatus_enum_ok : CEnumOk CompassStatus.
Proof. solve_enum. Qed.

(** TimeUnits: Time unit flags that can be used to create a bitmask for use in
    tick_timer_service_subscribe(). *)
Inductive TimeUnits := SECOND_UNIT | MINUTE_UNIT | HOUR_UNIT | DAY_UNIT | MONTH_UNIT |
  YEAR_UNIT.

#[export] Instance TimeUnits_enum : CEnum TimeUnits := {|
  enum_value e := match e with
    | SECOND_UNIT => 1
    | MINUTE_UNIT => 2
    | HOUR_UNIT => 4
    | DAY_UNIT => 8
    | MONTH_UNIT => 16
    | YEAR_UNIT => 32
    end;
  enum_all := [SECOND_UNIT; MINUTE_UNIT; HOUR_UNIT; DAY_UNIT; MONTH_UNIT; YEAR_UNIT];
|}.

#[export] Instance TimeUnits_enum_ok : CEnumOk TimeUnits.
Proof. solve_enum. Qed.

(** HealthMetric: Health metric values used to retrieve health data. *)
Inductive HealthMetric := HealthMetricStepCount | HealthMetricActiveSeconds |
  HealthMetricWalkedDistanceMeters | HealthMetricSleepSeconds |
  HealthMetricSleepRestfulSeconds | HealthMetricRestingKCalories |
  HealthMetricActiveKCalories.

#[export] Instance HealthMetric_enum : CEnum HealthMetric := {|
  enum_value e := match e with
    | HealthMetricStepCount => 0
    | HealthMetricActiveSeconds => 1
    | HealthMetricWalkedDistanceMeters => 2
    | HealthMetricSleepSeconds => 3
    | HealthMetricSleepRestfulSeconds => 4
    | HealthMetricRestingKCalories => 5
    | HealthMetricActiveKCalories => 6
    end;
  enum_all := [HealthMetricStepCount; HealthMetricActiveSeconds;
    HealthMetricWalkedDistanceMeters; HealthMetricSleepSeconds;
    HealthMetricSleepRestfulSeconds; HealthMetricRestingKCalories;
    HealthMetricActiveKCalories];
|}.

#[export] Instance HealthMetric_enum_ok : CEnumOk HealthMetric.
Proof. solve_enum. Qed.

(** HealthServiceTimeScope: Used by health_service_sum_averaged() to specify how the average
    is computed. *)
Inductive HealthServiceTimeScope := HealthServiceTimeScopeOnce |
  HealthServiceTimeScopeWeekly | HealthServiceTimeScopeDailyWeekdayOrWeekend |
  HealthServiceTimeScopeDaily.

#[export] Instance HealthServiceTimeScope_enum : CEnum HealthServiceTimeScope := {|
  enum_value e := match e with
    | HealthServiceTimeScopeOnce => 0
    | HealthServiceTimeScopeWeekly => 1
    | HealthServiceTimeScopeDailyWeekdayOrWeekend => 2
    | HealthServiceTimeScopeDaily => 3
    end;
  enum_all := [HealthServiceTimeScopeOnce; HealthServiceTimeScopeWeekly;
    HealthServiceTimeScopeDailyWeekdayOrWeekend; HealthServiceTimeScopeDaily];
|}.

#[export] Instance HealthServiceTimeScope_enum_ok : CEnumOk HealthServiceTimeScope.
Proof. solve_enum. Qed.

(** HealthActivity: Health-related activities that can be accessed using
    health_service_peek_current_activities() and health_service_activities_iterate(). *)
Inductive HealthActivity := HealthActivityNone | HealthActivitySleep |
  HealthActivityRestfulSleep.

#[export] Instance HealthActivity_enum : CEnum HealthActivity := {|
  enum_value e := match e with
    | HealthActivityNone => 0
    | HealthActivitySleep => 1
    | HealthActivityRestfulSleep => 2
    end;
  enum_all := [HealthActivityNone; HealthActivitySleep; HealthActivityRestfulSleep];
|}.

#[export] Instance HealthActivity_enum_ok : CEnumOk HealthActivity.
Proof. solve_enum. Qed.

(** HealthIterationDirection: Iteration direction, passed to
    health_service_activities_iterate(). *)
Inductive HealthIterationDirection := HealthIterationDirectionPast |
  HealthIterationDirectionFuture.

#[export] Instance HealthIterationDirection_enum : CEnum HealthIterationDirection := {|
  enum_value e := match e with
    | HealthIterationDirectionPast => 0
    | HealthIterationDirectionFuture => 1
    end;
  enum_all := [HealthIterationDirectionPast; HealthIterationDirectionFuture];
|}.

#[export] Instance HealthIterationDirection_enum_ok : CEnumOk HealthIterationDirection.
Proof. solve_enum. Qed.

(** HealthServiceAccessibilityMask: Possible values returned by
    health_service_metric_accessible(). *)
Inductive HealthServiceAccessibilityMask := HealthServiceAccessibilityMaskAvailable |
  HealthServiceAccessibilityMaskNoPermission | HealthServiceAccessibilityMaskNotSupported |
  HealthServiceAccessibilityMaskNotAvailable.

#[export] Instance HealthServiceAccessibilityMask_enum : CEnum HealthServiceAccessibilityMask := {|
  enum_value e := match e with
    | HealthServiceAccessibilityMaskAvailable => 1
    | HealthServiceAccessibilityMaskNoPermission => 2
    | HealthServiceAccessibilityMaskNotSupported => 4
    | HealthServiceAccessibilityMaskNotAvailable => 8
    end;
  enum_all := [HealthServiceAccessibilityMaskAvailable;
    HealthServiceAccessibilityMaskNoPermission; HealthServiceAccessibilityMaskNotSupported;
    HealthServiceAccessibilityMaskNotAvailable];
|}.

#[export] Instance HealthServiceAccessibilityMask_enum_ok : CEnumOk HealthServiceAccessibilityMask.
Proof. solve_enum. Qed.

(** HealthEventType: Health event enum. *)
Inductive HealthEventType := HealthEventSignificantUpdate | HealthEventMovementUpdate |
  HealthEventSleepUpdate.

#[export] Instance HealthEventType_enum : CEnum HealthEventType := {|
  enum_value e := match e with
    | HealthEventSignificantUpdate => 0
    | HealthEventMovementUpdate => 1
    | HealthEventSleepUpdate => 2
    end;
  enum_all := [HealthEventSignificantUpdate; HealthEventMovementUpdate;
    HealthEventSleepUpdate];
|}.

#[export] Instance HealthEventType_enum_ok : CEnumOk HealthEventType.
Proof. solve_enum. Qed.

(** AmbientLightLevel: Light level enum *)
Inductive AmbientLightLevel := AmbientLightLevelUnknown | AmbientLightLevelVeryDark |
  AmbientLightLevelDark | AmbientLightLevelLight | AmbientLightLevelVeryLight.

#[export] Instance AmbientLightLevel_enum : CEnum AmbientLightLevel := {|
  enum_value e := match e with
    | AmbientLightLevelUnknown => 0
    | AmbientLightLevelVeryDark => 1
    | AmbientLightLevelDark => 2
    | AmbientLightLevelLight => 3
    | AmbientLightLevelVeryLight => 4
    end;
  enum_all := [AmbientLightLevelUnknown; AmbientLightLevelVeryDark; AmbientLightLevelDark;
    AmbientLightLevelLight; AmbientLightLevelVeryLight];
|}.

#[export] Instance AmbientLightLevel_enum_ok : CEnumOk AmbientLightLevel.
Proof. solve_enum. Qed.

(** MeasurementSystem: Types of measurement system a HealthMetric may be measured in. *)
Inductive MeasurementSystem := MeasurementSystemUnknown | MeasurementSystemMetric |
  MeasurementSystemImperial.

#[export] Instance MeasurementSystem_enum : CEnum MeasurementSystem := {|
  enum_value e := match e with
    | MeasurementSystemUnknown => 0
    | MeasurementSystemMetric => 1
    | MeasurementSystemImperial => 2
    end;
  enum_all := [MeasurementSystemUnknown; MeasurementSystemMetric; MeasurementSystemImperial];
|}.

#[export] Instance MeasurementSystem_enum_ok : CEnumOk MeasurementSystem.
Proof. solve_enum. Qed.

(** DataLoggingItemType: The different types of session data that Pebble supports. *)
Inductive DataLoggingItemType := DATA_LOGGING_BYTE_ARRAY | DATA_LOGGING_UINT |
  DATA_LOGGING_INT.

#[export] Instance DataLoggingItemType_enum : CEnum DataLoggingItemType := {|
  enum_value e := match e with
    | DATA_LOGGING_BYTE_ARRAY => 0
    | DATA_LOGGING_UINT => 2
    | DATA_LOGGING_INT => 3
    end;
  enum_all := [DATA_LOGGING_BYTE_ARRAY; DATA_LOGGING_UINT; DATA_LOGGING_INT];
|}.

#[export] Instance DataLoggingItemType_enum_ok : CEnumOk DataLoggingItemType.
Proof. solve_enum. Qed.

(** DataLoggingResult: Enumerated values describing the possible outcomes of data logging
    operations *)
Inductive DataLoggingResult := DATA_LOGGING_SUCCESS | DATA_LOGGING_BUSY | DATA_LOGGING_FULL
  | DATA_LOGGING_NOT_FOUND | DATA_LOGGING_CLOSED | DATA_LOGGING_INVALID_PARAMS |
  DATA_LOGGING_INTERNAL_ERR.

#[export] Instance DataLoggingResult_enum : CEnum DataLoggingResult := {|
  enum_value e := match e with
    | DATA_LOGGING_SUCCESS => 0
    | DATA_LOGGING_BUSY => 1
    | DATA_LOGGING_FULL => 2
    | DATA_LOGGING_NOT_FOUND => 3
    | DATA_LOGGING_CLOSED => 4
    | DATA_LOGGING_INVALID_PARAMS => 5
    | DATA_LOGGING_INTERNAL_ERR => 6
    end;
  enum_all := [DATA_LOGGING_SUCCESS; DATA_LOGGING_BUSY; DATA_LOGGING_FULL;
    DATA_LOGGING_NOT_FOUND; DATA_LOGGING_CLOSED; DATA_LOGGING_INVALID_PARAMS;
    DATA_LOGGING_INTERNAL_ERR];
|}.

#[export] Instance DataLoggingResult_enum_ok : CEnumOk DataLoggingResult.
Proof. solve_enum. Qed.

(** AppLogLevel: Suggested log level values *)
Inductive AppLogLevel := APP_LOG_LEVEL_ERROR | APP_LOG_LEVEL_WARNING | APP_LOG_LEVEL_INFO |
  APP_LOG_LEVEL_DEBUG | APP_LOG_LEVEL_DEBUG_VERBOSE.

#[export] Instance AppLogLevel_enum : CEnum AppLogLevel := {|
  enum_value e := match e with
    | APP_LOG_LEVEL_ERROR => 1
    | APP_LOG_LEVEL_WARNING => 50
    | APP_LOG_LEVEL_INFO => 100
    | APP_LOG_LEVEL_DEBUG => 200
    | APP_LOG_LEVEL_DEBUG_VERBOSE => 255
    end;
  enum_all := [APP_LOG_LEVEL_ERROR; APP_LOG_LEVEL_WARNING; APP_LOG_LEVEL_INFO;
    APP_LOG_LEVEL_DEBUG; APP_LOG_LEVEL_DEBUG_VERBOSE];
|}.

#[export] Instance AppLogLevel_enum_ok : CEnumOk AppLogLevel.
Proof. solve_enum. Qed.

(** DictionaryResult: Return values for dictionary write/conversion functions. *)
Inductive DictionaryResult := DICT_OK | DICT_NOT_ENOUGH_STORAGE | DICT_INVALID_ARGS |
  DICT_INTERNAL_INCONSISTENCY | DICT_MALLOC_FAILED.

#[export] Instance DictionaryResult_enum : CEnum DictionaryResult := {|
  enum_value e := match e with
    | DICT_OK => 0
    | DICT_NOT_ENOUGH_STORAGE => 2
    | DICT_INVALID_ARGS => 4
    | DICT_INTERNAL_INCONSISTENCY => 8
    | DICT_MALLOC_FAILED => 16
    end;
  enum_all := [DICT_OK; DICT_NOT_ENOUGH_STORAGE; DICT_INVALID_ARGS;
    DICT_INTERNAL_INCONSISTENCY; DICT_MALLOC_FAILED];
|}.

#[export] Instance DictionaryResult_enum_ok : CEnumOk DictionaryResult.
Proof. solve_enum. Qed.

(** TupleType: Values representing the type of data that the `value` field of a Tuple
    contains *)
Inductive TupleType := TUPLE_BYTE_ARRAY | TUPLE_CSTRING | TUPLE_UINT | TUPLE_INT.

#[export] Instance TupleType_enum : CEnum TupleType := {|
  enum_value e := match e with
    | TUPLE_BYTE_ARRAY => 0
    | TUPLE_CSTRING => 1
    | TUPLE_UINT => 2
    | TUPLE_INT => 3
    end;
  enum_all := [TUPLE_BYTE_ARRAY; TUPLE_CSTRING; TUPLE_UINT; TUPLE_INT];
|}.

#[export] Instance TupleType_enum_ok : CEnumOk TupleType.
Proof. solve_enum. Qed.

(** DictationSessionStatus *)
Inductive DictationSessionStatus := DictationSessionStatusSuccess |
  DictationSessionStatusFailureTranscriptionRejected |
  DictationSessionStatusFailureTranscriptionRejectedWithError |
  DictationSessionStatusFailureSystemAborted | DictationSessionStatusFailureNoSpeechDetected
  | DictationSessionStatusFailureConnectivityError | DictationSessionStatusFailureDisabled |
  DictationSessionStatusFailureInternalError | DictationSessionStatusFailureRecognizerError.

#[export] Instance DictationSessionStatus_enum : CEnum DictationSessionStatus := {|
  enum_value e := match e with
    | DictationSessionStatusSuccess => 0
    | DictationSessionStatusFailureTranscriptionRejected => 1
    | DictationSessionStatusFailureTranscriptionRejectedWithError => 2
    | DictationSessionStatusFailureSystemAborted => 3
    | DictationSessionStatusFailureNoSpeechDetected => 4
    | DictationSessionStatusFailureConnectivityError => 5
    | DictationSessionStatusFailureDisabled => 6
    | DictationSessionStatusFailureInternalError => 7
    | DictationSessionStatusFailureRecognizerError => 8
    end;
  enum_all := [DictationSessionStatusSuccess;
    DictationSessionStatusFailureTranscriptionRejected;
    DictationSessionStatusFailureTranscriptionRejectedWithError;
    DictationSessionStatusFailureSystemAborted;
    DictationSessionStatusFailureNoSpeechDetected;
    DictationSessionStatusFailureConnectivityError; DictationSessionStatusFailureDisabled;
    DictationSessionStatusFailureInternalError;
    DictationSessionStatusFailureRecognizerError];
|}.

#[export] Instance DictationSessionStatus_enum_ok : CEnumOk DictationSessionStatus.
Proof. solve_enum. Qed.

(** AppMessageResult: AppMessage result codes. *)
Inductive AppMessageResult := APP_MSG_OK | APP_MSG_SEND_TIMEOUT | APP_MSG_SEND_REJECTED |
  APP_MSG_NOT_CONNECTED | APP_MSG_APP_NOT_RUNNING | APP_MSG_INVALID_ARGS | APP_MSG_BUSY |
  APP_MSG_BUFFER_OVERFLOW | APP_MSG_ALREADY_RELEASED | APP_MSG_CALLBACK_ALREADY_REGISTERED |
  APP_MSG_CALLBACK_NOT_REGISTERED | APP_MSG_OUT_OF_MEMORY | APP_MSG_CLOSED |
  APP_MSG_INTERNAL_ERROR | APP_MSG_INVALID_STATE.

#[export] Instance AppMessageResult_enum : CEnum AppMessageResult := {|
  enum_value e := match e with
    | APP_MSG_OK => 0
    | APP_MSG_SEND_TIMEOUT => 2
    | APP_MSG_SEND_REJECTED => 4
    | APP_MSG_NOT_CONNECTED => 8
    | APP_MSG_APP_NOT_RUNNING => 16
    | APP_MSG_INVALID_ARGS => 32
    | APP_MSG_BUSY => 64
    | APP_MSG_BUFFER_OVERFLOW => 128
    | APP_MSG_ALREADY_RELEASED => 512
    | APP_MSG_CALLBACK_ALREADY_REGISTERED => 1024
    | APP_MSG_CALLBACK_NOT_REGISTERED => 2048
    | APP_MSG_OUT_OF_MEMORY => 4096
    | APP_MSG_CLOSED => 8192
    | APP_MSG_INTERNAL_ERROR => 16384
    | APP_MSG_INVALID_STATE => 32768
    end;
  enum_all := [APP_MSG_OK; APP_MSG_SEND_TIMEOUT; APP_MSG_SEND_REJECTED; APP_MSG_NOT_CONNECTED;
    APP_MSG_APP_NOT_RUNNING; APP_MSG_INVALID_ARGS; APP_MSG_BUSY; APP_MSG_BUFFER_OVERFLOW;
    APP_MSG_ALREADY_RELEASED; APP_MSG_CALLBACK_ALREADY_REGISTERED;
    APP_MSG_CALLBACK_NOT_REGISTERED; APP_MSG_OUT_OF_MEMORY; APP_MSG_CLOSED;
    APP_MSG_INTERNAL_ERROR; APP_MSG_INVALID_STATE];
|}.

#[export] Instance AppMessageResult_enum_ok : CEnumOk AppMessageResult.
Proof. solve_enum. Qed.

(** AppWorkerResult: Possible error codes from app_worker_launch, app_worker_kill *)
Inductive AppWorkerResult := APP_WORKER_RESULT_SUCCESS | APP_WORKER_RESULT_NO_WORKER |
  APP_WORKER_RESULT_DIFFERENT_APP | APP_WORKER_RESULT_NOT_RUNNING |
  APP_WORKER_RESULT_ALREADY_RUNNING | APP_WORKER_RESULT_ASKING_CONFIRMATION.

#[export] Instance AppWorkerResult_enum : CEnum AppWorkerResult := {|
  enum_value e := match e with
    | APP_WORKER_RESULT_SUCCESS => 0
    | APP_WORKER_RESULT_NO_WORKER => 1
    | APP_WORKER_RESULT_DIFFERENT_APP => 2
    | APP_WORKER_RESULT_NOT_RUNNING => 3
    | APP_WORKER_RESULT_ALREADY_RUNNING => 4
    | APP_WORKER_RESULT_ASKING_CONFIRMATION => 5
    end;
  enum_all := [APP_WORKER_RESULT_SUCCESS; APP_WORKER_RESULT_NO_WORKER;
    APP_WORKER_RESULT_DIFFERENT_APP; APP_WORKER_RESULT_NOT_RUNNING;
    APP_WORKER_RESULT_ALREADY_RUNNING; APP_WORKER_RESULT_ASKING_CONFIRMATION];
|}.

#[export] Instance AppWorkerResult_enum_ok : CEnumOk AppWorkerResult.
Proof. solve_enum. Qed.

(** SniffInterval: Intervals during which the Bluetooth module may enter a low power mode.
    *)
Inductive SniffInterval := SNIFF_INTERVAL_NORMAL | SNIFF_INTERVAL_REDUCED.

#[export] Instance SniffInterval_enum : CEnum SniffInterval := {|
  enum_value e := match e with
    | SNIFF_INTERVAL_NORMAL => 0
    | SNIFF_INTERVAL_REDUCED => 1
    end;
  enum_all := [SNIFF_INTERVAL_NORMAL; SNIFF_INTERVAL_REDUCED];
|}.

#[export] Instance SniffInterval_enum_ok : CEnumOk SniffInterval.
Proof. solve_enum. Qed.

(** StatusCode: Status codes. *)
Inductive StatusCode := S_SUCCESS | E_ERROR | E_UNKNOWN | E_INTERNAL | E_INVALID_ARGUMENT |
  E_OUT_OF_MEMORY | E_OUT_OF_STORAGE | E_OUT_OF_RESOURCES | E_RANGE | E_DOES_NOT_EXIST |
  E_INVALID_OPERATION | E_BUSY | E_AGAIN | S_TRUE | S_NO_MORE_ITEMS | S_NO_ACTION_REQUIRED.

#[export] Instance StatusCode_enum : CEnum StatusCode := {|
  enum_value e := match e with
    | S_SUCCESS => 0
    | E_ERROR => (-1)
    | E_UNKNOWN => (-2)
    | E_INTERNAL => (-3)
    | E_INVALID_ARGUMENT => (-4)
    | E_OUT_OF_MEMORY => (-5)
    | E_OUT_OF_STORAGE => (-6)
    | E_OUT_OF_RESOURCES => (-7)
    | E_RANGE => (-8)
    | E_DOES_NOT_EXIST => (-9)
    | E_INVALID_OPERATION => (-10)
    | E_BUSY => (-11)
    | E_AGAIN => (-12)
    | S_TRUE => 1
    | S_NO_MORE_ITEMS => 2
    | S_NO_ACTION_REQUIRED => 3
    end;
  enum_all := [S_SUCCESS; E_ERROR; E_UNKNOWN; E_INTERNAL; E_INVALID_ARGUMENT; E_OUT_OF_MEMORY;
    E_OUT_OF_STORAGE; E_OUT_OF_RESOURCES; E_RANGE; E_DOES_NOT_EXIST; E_INVALID_OPERATION;
    E_BUSY; E_AGAIN; S_TRUE; S_NO_MORE_ITEMS; S_NO_ACTION_REQUIRED];
|}.

#[export] Instance StatusCode_enum_ok : CEnumOk StatusCode.
Proof. solve_enum. Qed.

Definition S_FALSE : StatusCode := S_SUCCESS.

(** AppLaunchReason: AppLaunchReason is used to inform the application about how it was
    launched *)
Inductive AppLaunchReason := APP_LAUNCH_SYSTEM | APP_LAUNCH_USER | APP_LAUNCH_PHONE |
  APP_LAUNCH_WAKEUP | APP_LAUNCH_WORKER | APP_LAUNCH_QUICK_LAUNCH |
  APP_LAUNCH_TIMELINE_ACTION.

#[export] Instance AppLaunchReason_enum : CEnum AppLaunchReason := {|
  enum_value e := match e with
    | APP_LAUNCH_SYSTEM => 0
    | APP_LAUNCH_USER => 1
    | APP_LAUNCH_PHONE => 2
    | APP_LAUNCH_WAKEUP => 3
    | APP_LAUNCH_WORKER => 4
    | APP_LAUNCH_QUICK_LAUNCH => 5
    | APP_LAUNCH_TIMELINE_ACTION => 6
    end;
  enum_all := [APP_LAUNCH_SYSTEM; APP_LAUNCH_USER; APP_LAUNCH_PHONE; APP_LAUNCH_WAKEUP;
    APP_LAUNCH_WORKER; APP_LAUNCH_QUICK_LAUNCH; APP_LAUNCH_TIMELINE_ACTION];
|}.

#[export] Instance AppLaunchReason_enum_ok : CEnumOk AppLaunchReason.
Proof. solve_enum. Qed.

(** GBitmapFormat: The format of a GBitmap can either be 1-bit or 8-bit. *)
Inductive GBitmapFormat := GBitmapFormat1Bit | GBitmapFormat8Bit | GBitmapFormat1BitPalette
  | GBitmapFormat2BitPalette | GBitmapFormat4BitPalette | GBitmapFormat8BitCircular.

#[export] Instance GBitmapFormat_enum : CEnum GBitmapFormat := {|
  enum_value e := match e with
    | GBitmapFormat1Bit => 0
    | GBitmapFormat8Bit => 1
    | GBitmapFormat1BitPalette => 2
    | GBitmapFormat2BitPalette => 3
    | GBitmapFormat4BitPalette => 4
    | GBitmapFormat8BitCircular => 5
    end;
  enum_all := [GBitmapFormat1Bit; GBitmapFormat8Bit; GBitmapFormat1BitPalette;
    GBitmapFormat2BitPalette; GBitmapFormat4BitPalette; GBitmapFormat8BitCircular];
|}.

#[export] Instance GBitmapFormat_enum_ok : CEnumOk GBitmapFormat.
Proof. solve_enum. Qed.

(** GAlign: Values to specify how two things should be aligned relative to each other. *)
Inductive GAlign := GAlignCenter | GAlignTopLeft | GAlignTopRight | GAlignTop | GAlignLeft |
  GAlignBottom | GAlignRight | GAlignBottomRight | GAlignBottomLeft.

#[export] Instance GAlign_enum : CEnum GAlign := {|
  enum_value e := match e with
    | GAlignCenter => 0
    | GAlignTopLeft => 1
    | GAlignTopRight => 2
    | GAlignTop => 3
    | GAlignLeft => 4
    | GAlignBottom => 5
    | GAlignRight => 6
    | GAlignBottomRight => 7
    | GAlignBottomLeft => 8
    end;
  enum_all := [GAlignCenter; GAlignTopLeft; GAlignTopRight; GAlignTop; GAlignLeft;
    GAlignBottom; GAlignRight; GAlignBottomRight; GAlignBottomLeft];
|}.

#[export] Instance GAlign_enum_ok : CEnumOk GAlign.
Proof. solve_enum. Qed.

(** GCompOp: Values to specify how the source image should be composited onto the
    destination image. *)
Inductive GCompOp := GCompOpAssign | GCompOpAssignInverted | GCompOpOr | GCompOpAnd |
  GCompOpClear | GCompOpSet.

#[export] Instance GCompOp_enum : CEnum GCompOp := {|
  enum_value e := match e with
    | GCompOpAssign => 0
    | GCompOpAssignInverted => 1
    | GCompOpOr => 2
    | GCompOpAnd => 3
    | GCompOpClear => 4
    | GCompOpSet => 5
    end;
  enum_all := [GCompOpAssign; GCompOpAssignInverted; GCompOpOr; GCompOpAnd; GCompOpClear;
    GCompOpSet];
|}.

#[export] Instance GCompOp_enum_ok : CEnumOk GCompOp.
Proof. solve_enum. Qed.

(** GCornerMask: Bit mask values to specify the corners of a rectangle. *)
Inductive GCornerMask := GCornerNone | GCornerTopLeft | GCornerTopRight | GCornerBottomLeft
  | GCornerBottomRight | GCornersAll | GCornersTop | GCornersBottom | GCornersLeft |
  GCornersRight.

#[export] Instance GCornerMask_enum : CEnum GCornerMask := {|
  enum_value e := match e with
    | GCornerNone => 0
    | GCornerTopLeft => 1
    | GCornerTopRight => 2
    | GCornerBottomLeft => 4
    | GCornerBottomRight => 8
    | GCornersAll => 15
    | GCornersTop => 3
    | GCornersBottom => 12
    | GCornersLeft => 5
    | GCornersRight => 10
    end;
  enum_all := [GCornerNone; GCornerTopLeft; GCornerTopRight; GCornerBottomLeft;
    GCornerBottomRight; GCornersAll; GCornersTop; GCornersBottom; GCornersLeft;
    GCornersRight];
|}.

#[export] Instance GCornerMask_enum_ok : CEnumOk GCornerMask.
Proof. solve_enum. Qed.

(** GOvalScaleMode: Values to specify how a given rectangle should be used to derive an oval
    shape. *)
Inductive GOvalScaleMode := GOvalScaleModeFitCircle | GOvalScaleModeFillCircle.

#[export] Instance GOvalScaleMode_enum : CEnum GOvalScaleMode := {|
  enum_value e := match e with
    | GOvalScaleModeFitCircle => 0
    | GOvalScaleModeFillCircle => 1
    end;
  enum_all := [GOvalScaleModeFitCircle; GOvalScaleModeFillCircle];
|}.

#[export] Instance GOvalScaleMode_enum_ok : CEnumOk GOvalScaleMode.
Proof. solve_enum. Qed.

(** GDrawCommandType *)
Inductive GDrawCommandType := GDrawCommandTypeInvalid | GDrawCommandTypePath |
  GDrawCommandTypeCircle | GDrawCommandTypePrecisePath.

#[export] Instance GDrawCommandType_enum : CEnum GDrawCommandType := {|
  enum_value e := match e with
    | GDrawCommandTypeInvalid => 0
    | GDrawCommandTypePath => 1
    | GDrawCommandTypeCircle => 2
    | GDrawCommandTypePrecisePath => 3
    end;
  enum_all := [GDrawCommandTypeInvalid; GDrawCommandTypePath; GDrawCommandTypeCircle;
    GDrawCommandTypePrecisePath];
|}.

#[export] Instance GDrawCommandType_enum_ok : CEnumOk GDrawCommandType.
Proof. solve_enum. Qed.

(** GTextOverflowMode: Text overflow mode controls the way text overflows when the string
    that is drawn does not fit inside the area constraint. *)
Inductive GTextOverflowMode := GTextOverflowModeWordWrap | GTextOverflowModeTrailingEllipsis
  | GTextOverflowModeFill.

#[export] Instance GTextOverflowMode_enum : CEnum GTextOverflowMode := {|
  enum_value e := match e with
    | GTextOverflowModeWordWrap => 0
    | GTextOverflowModeTrailingEllipsis => 1
    | GTextOverflowModeFill => 2
    end;
  enum_all := [GTextOverflowModeWordWrap; GTextOverflowModeTrailingEllipsis;
    GTextOverflowModeFill];
|}.

#[export] Instance GTextOverflowMode_enum_ok : CEnumOk GTextOverflowMode.
Proof. solve_enum. Qed.

(** GTextAlignment: Text aligment controls the way the text is aligned inside the box the
    text is drawn into. *)
Inductive GTextAlignment := GTextAlignmentLeft | GTextAlignmentCenter | GTextAlignmentRight.

#[export] Instance GTextAlignment_enum : CEnum GTextAlignment := {|
  enum_value e := match e with
    | GTextAlignmentLeft => 0
    | GTextAlignmentCenter => 1
    | GTextAlignmentRight => 2
    end;
  enum_all := [GTextAlignmentLeft; GTextAlignmentCenter; GTextAlignmentRight];
|}.

#[export] Instance GTextAlignment_enum_ok : CEnumOk GTextAlignment.
Proof. solve_enum. Qed.

(** SmartstrapResult: Error values which may be returned from the smartstrap APIs. *)
Inductive SmartstrapResult := SmartstrapResultOk | SmartstrapResultInvalidArgs |
  SmartstrapResultNotPresent | SmartstrapResultBusy | SmartstrapResultServiceUnavailable |
  SmartstrapResultAttributeUnsupported | SmartstrapResultTimeOut.

#[export] Instance SmartstrapResult_enum : CEnum SmartstrapResult := {|
  enum_value e := match e with
    | SmartstrapResultOk => 0
    | SmartstrapResultInvalidArgs => 1
    | SmartstrapResultNotPresent => 2
    | SmartstrapResultBusy => 3
    | SmartstrapResultServiceUnavailable => 4
    | SmartstrapResultAttributeUnsupported => 5
    | SmartstrapResultTimeOut => 6
    end;
  enum_all := [SmartstrapResultOk; SmartstrapResultInvalidArgs; SmartstrapResultNotPresent;
    SmartstrapResultBusy; SmartstrapResultServiceUnavailable;
    SmartstrapResultAttributeUnsupported; SmartstrapResultTimeOut];
|}.

#[export] Instance SmartstrapResult_enum_ok : CEnumOk SmartstrapResult.
Proof. solve_enum. Qed.

(** AnimationCurve: Values that are used to indicate the different animation curves, which
    determine the speed at which the animated value(s) change(s). *)
Inductive AnimationCurve := AnimationCurveLinear | AnimationCurveEaseIn |
  AnimationCurveEaseOut | AnimationCurveEaseInOut | AnimationCurveCustomFunction |
  AnimationCurveCustomInterpolationFunction | AnimationCurve_Reserved1 |
  AnimationCurve_Reserved2.

#[export] Instance AnimationCurve_enum : CEnum AnimationCurve := {|
  enum_value e := match e with
    | AnimationCurveLinear => 0
    | AnimationCurveEaseIn => 1
    | AnimationCurveEaseOut => 2
    | AnimationCurveEaseInOut => 3
    | AnimationCurveCustomFunction => 4
    | AnimationCurveCustomInterpolationFunction => 5
    | AnimationCurve_Reserved1 => 6
    | AnimationCurve_Reserved2 => 7
    end;
  enum_all := [AnimationCurveLinear; AnimationCurveEaseIn; AnimationCurveEaseOut;
    AnimationCurveEaseInOut; AnimationCurveCustomFunction;
    AnimationCurveCustomInterpolationFunction; AnimationCurve_Reserved1;
    AnimationCurve_Reserved2];
|}.

#[export] Instance AnimationCurve_enum_ok : CEnumOk AnimationCurve.
Proof. solve_enum. Qed.

Definition AnimationCurveDefault : AnimationCurve := AnimationCurveEaseInOut.

(** ContentIndicatorDirection: Value to describe directions for ContentIndicator. *)
Inductive ContentIndicatorDirection := ContentIndicatorDirectionUp |
  ContentIndicatorDirectionDown | NumContentIndicatorDirections.

#[export] Instance ContentIndicatorDirection_enum : CEnum ContentIndicatorDirection := {|
  enum_value e := match e with
    | ContentIndicatorDirectionUp => 0
    | ContentIndicatorDirectionDown => 1
    | NumContentIndicatorDirections => 2
    end;
  enum_all := [ContentIndicatorDirectionUp; ContentIndicatorDirectionDown;
    NumContentIndicatorDirections];
|}.

#[export] Instance ContentIndicatorDirection_enum_ok : CEnumOk ContentIndicatorDirection.
Proof. solve_enum. Qed.

(** MenuRowAlign: Values to specify how a (selected) row should be aligned relative to the
    visible area of the MenuLayer. *)
Inductive MenuRowAlign := MenuRowAlignNone | MenuRowAlignCenter | MenuRowAlignTop |
  MenuRowAlignBottom.

#[export] Instance MenuRowAlign_enum : CEnum MenuRowAlign := {|
  enum_value e := match e with
    | MenuRowAlignNone => 0
    | MenuRowAlignCenter => 1
    | MenuRowAlignTop => 2
    | MenuRowAlignBottom => 3
    end;
  enum_all := [MenuRowAlignNone; MenuRowAlignCenter; MenuRowAlignTop; MenuRowAlignBottom];
|}.

#[export] Instance MenuRowAlign_enum_ok : CEnumOk MenuRowAlign.
Proof. solve_enum. Qed.

(** ActionBarLayerIconPressAnimation *)
Inductive ActionBarLayerIconPressAnimation := ActionBarLayerIconPressAnimationNone |
  ActionBarLayerIconPressAnimationMoveLeft | ActionBarLayerIconPressAnimationMoveUp |
  ActionBarLayerIconPressAnimationMoveRight | ActionBarLayerIconPressAnimationMoveDown.

#[export] Instance ActionBarLayerIconPressAnimation_enum : CEnum ActionBarLayerIconPressAnimation := {|
  enum_value e := match e with
    | ActionBarLayerIconPressAnimationNone => 0
    | ActionBarLayerIconPressAnimationMoveLeft => 1
    | ActionBarLayerIconPressAnimationMoveUp => 2
    | ActionBarLayerIconPressAnimationMoveRight => 3
    | ActionBarLayerIconPressAnimationMoveDown => 4
    end;
  enum_all := [ActionBarLayerIconPressAnimationNone; ActionBarLayerIconPressAnimationMoveLeft;
    ActionBarLayerIconPressAnimationMoveUp; ActionBarLayerIconPressAnimationMoveRight;
    ActionBarLayerIconPressAnimationMoveDown];
|}.

#[export] Instance ActionBarLayerIconPressAnimation_enum_ok : CEnumOk ActionBarLayerIconPressAnimation.
Proof. solve_enum. Qed.

(** StatusBarLayerSeparatorMode: Values that are used to indicate the different status bar
    separator modes. *)
Inductive StatusBarLayerSeparatorMode := StatusBarLayerSeparatorModeNone |
  StatusBarLayerSeparatorModeDotted.

#[export] Instance StatusBarLayerSeparatorMode_enum : CEnum StatusBarLayerSeparatorMode := {|
  enum_value e := match e with
    | StatusBarLayerSeparatorModeNone => 0
    | StatusBarLayerSeparatorModeDotted => 1
    end;
  enum_all := [StatusBarLayerSeparatorModeNone; StatusBarLayerSeparatorModeDotted];
|}.

#[export] Instance StatusBarLayerSeparatorMode_enum_ok : CEnumOk StatusBarLayerSeparatorMode.
Proof. solve_enum. Qed.

(** ActionMenuAlign *)
Inductive ActionMenuAlign := ActionMenuAlignTop | ActionMenuAlignCenter.

#[export] Instance ActionMenuAlign_enum : CEnum ActionMenuAlign := {|
  enum_value e := match e with
    | ActionMenuAlignTop => 0
    | ActionMenuAlignCenter => 1
    end;
  enum_all := [ActionMenuAlignTop; ActionMenuAlignCenter];
|}.

#[export] Instance ActionMenuAlign_enum_ok : CEnumOk ActionMenuAlign.
Proof. solve_enum. Qed.

(** ActionMenuLevelDisplayMode: enum value that controls whether menu items are displayed in
    a grid (similarly to the emoji replies) or in a single column (reminiscent of MenuLayer)
    *)
Inductive ActionMenuLevelDisplayMode := ActionMenuLevelDisplayModeWide |
  ActionMenuLevelDisplayModeThin.

#[export] Instance ActionMenuLevelDisplayMode_enum : CEnum ActionMenuLevelDisplayMode := {|
  enum_value e := match e with
    | ActionMenuLevelDisplayModeWide => 0
    | ActionMenuLevelDisplayModeThin => 1
    end;
  enum_all := [ActionMenuLevelDisplayModeWide; ActionMenuLevelDisplayModeThin];
|}.

#[export] Instance ActionMenuLevelDisplayMode_enum_ok : CEnumOk ActionMenuLevelDisplayMode.
Proof. solve_enum. Qed.
