(* ===== verification/SdkTypes.v ===== *)
(** * Types of the SDK (runtime/pebble.h)

    The structures, unions and function types that the header declares, in its order.
    A field [f] of a structure [S] is [S_f]; integers are [Z], with the C type in the
    name of the abbreviation; a pointer is its address; a callback is a function into
    the monad of the development, so that it can read and write memory. *)

From S2P Require Import Prelude Memory SdkEnums.

Abbreviation uint8_t := Z (only parsing).
Abbreviation int8_t := Z (only parsing).
Abbreviation uint16_t := Z (only parsing).
Abbreviation int16_t := Z (only parsing).
Abbreviation uint32_t := Z (only parsing).
Abbreviation int32_t := Z (only parsing).
Abbreviation uint64_t := Z (only parsing).
Abbreviation int_t := Z (only parsing).
Abbreviation size_t := Z (only parsing).
Abbreviation time_t := Z (only parsing).
Abbreviation ptr := Z (only parsing).

(** A combination of the bits of an enumeration. *)
Abbreviation mask := Z (only parsing).

(** WatchInfoVersion: Data structure containing the version of the firmware running on the
    watch. *)
Record WatchInfoVersion := mk_WatchInfoVersion {
  WatchInfoVersion_major : uint8_t;
  WatchInfoVersion_minor : uint8_t;
  WatchInfoVersion_patch : uint8_t;
}.

(** ConnectionHandler(connected) *)
Definition ConnectionHandler : Type := bool -> M unit.

(** ConnectionHandlers *)
Record ConnectionHandlers := mk_ConnectionHandlers {
  ConnectionHandlers_pebble_app_connection_handler : ConnectionHandler;
  ConnectionHandlers_pebblekit_connection_handler : ConnectionHandler;
}.

(** BluetoothConnectionHandler: should use ConnectionHandler directly. *)
Definition BluetoothConnectionHandler : Type := ConnectionHandler.

(** AppFocusHandler(in_focus): Callback type for focus events *)
Definition AppFocusHandler : Type := bool -> M unit.

(** AppFocusHandlers: There are two different focus events which take place when
    transitioning to and from an app being in focus. *)
Record AppFocusHandlers := mk_AppFocusHandlers {
  AppFocusHandlers_will_focus : AppFocusHandler;
  AppFocusHandlers_did_focus : AppFocusHandler;
}.

(** BatteryChargeState: Structure for retrieval of the battery charge state *)
Record BatteryChargeState := mk_BatteryChargeState {
  BatteryChargeState_charge_percent : uint8_t;
  BatteryChargeState_is_charging : bool;
  BatteryChargeState_is_plugged : bool;
}.

(** BatteryStateHandler(charge): Callback type for battery state change events *)
Definition BatteryStateHandler : Type := BatteryChargeState -> M unit.

(** AccelData: A single accelerometer sample for all three axes including timestamp and
    vibration rumble status. *)
Record AccelData := mk_AccelData {
  AccelData_x : int16_t;
  AccelData_y : int16_t;
  AccelData_z : int16_t;
  AccelData_did_vibrate : bool;
  AccelData_timestamp : uint64_t;
}.

(** AccelRawData: A single accelerometer sample for all three axes *)
Record AccelRawData := mk_AccelRawData {
  AccelRawData_x : int16_t;
  AccelRawData_y : int16_t;
  AccelRawData_z : int16_t;
}.

(** AccelDataHandler(data, num_samples): Callback type for accelerometer data events *)
Definition AccelDataHandler : Type := ptr -> uint32_t -> M unit.

(** AccelRawDataHandler(data, num_samples, timestamp): Callback type for accelerometer raw
    data events *)
Definition AccelRawDataHandler : Type := ptr -> uint32_t -> uint64_t -> M unit.

(** AccelTapHandler(axis, direction): Callback type for accelerometer tap events *)
Definition AccelTapHandler : Type := AccelAxisType -> int32_t -> M unit.

(** CompassHeading: Represents an angle relative to get to a reference direction, e.g. *)
Definition CompassHeading : Type := int32_t.

(** CompassHeadingData: Structure containing a single heading towards magnetic and true
    north. *)
Record CompassHeadingData := mk_CompassHeadingData {
  CompassHeadingData_magnetic_heading : CompassHeading;
  CompassHeadingData_true_heading : CompassHeading;
  CompassHeadingData_compass_status : CompassStatus;
  CompassHeadingData_is_declination_valid : bool;
}.

(** CompassHeadingHandler(heading): Callback type for compass heading events *)
Definition CompassHeadingHandler : Type := CompassHeadingData -> M unit.

(** TickHandler(tick_time, units_changed): Callback type for tick timer events *)
Definition TickHandler : Type := ptr -> mask -> M unit.

(** HealthValue: Type used to represent HealthMetric values *)
Definition HealthValue : Type := int32_t.

(** HealthActivityMask: Expresses a set of HealthActivity values as a bitmask. *)
Definition HealthActivityMask : Type := uint32_t.

(** HealthActivityIteratorCB(activity, time_start, time_end, context): Callback used by
    health_service_activities_iterate(). *)
Definition HealthActivityIteratorCB : Type := HealthActivity -> time_t -> time_t -> ptr -> M
  bool.

(** HealthEventHandler(event, context): Developer-supplied event handler, called when a
    health-related event occurs after subscribing via health_service_events_subscribe(); *)
Definition HealthEventHandler : Type := HealthEventType -> ptr -> M unit.

(** HealthMinuteData: Structure representing a single minute data record returned by
    health_service_get_minute_history(). *)
Record HealthMinuteData := mk_HealthMinuteData {
  HealthMinuteData_steps : uint8_t;
  HealthMinuteData_orientation : uint8_t;
  HealthMinuteData_vmc : uint16_t;
  (** one byte: [is_invalid] is bit 0, [light] bits 1 to 3, [padding] bits 4 to 7 *)
  HealthMinuteData_is_invalid : bool;
  HealthMinuteData_light : AmbientLightLevel;
  HealthMinuteData_padding : uint8_t;
  HealthMinuteData_reserved : list uint8_t;
}.

(** DataLoggingSessionRef *)
Definition DataLoggingSessionRef : Type := ptr.

(** Uuid *)
Record Uuid := mk_Uuid {
  Uuid_byte0 : uint8_t;
  Uuid_byte1 : uint8_t;
  Uuid_byte2 : uint8_t;
  Uuid_byte3 : uint8_t;
  Uuid_byte4 : uint8_t;
  Uuid_byte5 : uint8_t;
  Uuid_byte6 : uint8_t;
  Uuid_byte7 : uint8_t;
  Uuid_byte8 : uint8_t;
  Uuid_byte9 : uint8_t;
  Uuid_byte10 : uint8_t;
  Uuid_byte11 : uint8_t;
  Uuid_byte12 : uint8_t;
  Uuid_byte13 : uint8_t;
  Uuid_byte14 : uint8_t;
  Uuid_byte15 : uint8_t;
}.

(** Tuple: Data structure for one serialized key/value tuple *)
Record Tuple := mk_Tuple {
  Tuple_key : uint32_t;
  Tuple_type : TupleType;
  Tuple_length : uint16_t;
  (** the bytes of the flexible union member *)
  Tuple_value : list uint8_t;
}.

(** The views of the union: a little-endian integer at its first byte. *)
Definition value_uint (n : nat) (t : Tuple) : Z :=
  foldr (fun b acc => b + 256 * acc) 0 (take n (Tuple_value t)).
Definition value_int (n : nat) (t : Tuple) : Z :=
  let v := value_uint n t in
  if v <? 2 ^ (8 * Z.of_nat n - 1) then v else v - 2 ^ (8 * Z.of_nat n).
Definition value_uint8 (t : Tuple) : uint8_t := value_uint 1 t.
Definition value_uint16 (t : Tuple) : uint16_t := value_uint 2 t.
Definition value_uint32 (t : Tuple) : uint32_t := value_uint 4 t.
Definition value_int8 (t : Tuple) : int8_t := value_int 1 t.
Definition value_int16 (t : Tuple) : int16_t := value_int 2 t.
Definition value_int32 (t : Tuple) : int32_t := value_int 4 t.

(** DictionaryIterator: An iterator can be used to iterate over the key/value tuples in an
    existing dictionary, using dict_read_begin_from_buffer(), *)
Record DictionaryIterator := mk_DictionaryIterator {
  DictionaryIterator_dictionary : ptr;
  DictionaryIterator_end : ptr;
  DictionaryIterator_cursor : ptr;
}.

(** Tuplet: Non-serialized, template data structure for a key/value pair. *)
Inductive TupletData :=
| Tuplet_bytes (data : ptr) (length : uint16_t)
| Tuplet_cstring (data : ptr) (length : uint16_t)
| Tuplet_integer (storage : uint32_t) (width : uint16_t).
Record Tuplet := mk_Tuplet {
  Tuplet_type : TupleType;
  Tuplet_key : uint32_t;
  Tuplet_data : TupletData;
}.

(** DictionarySerializeCallback(data, size, context): Callback for dict_serialize_tuplets()
    utility. *)
Definition DictionarySerializeCallback : Type := ptr -> uint16_t -> ptr -> M unit.

(** DictionaryKeyUpdatedCallback(key, new_tuple, old_tuple, context): Type of the callback
    used in dict_merge() *)
Definition DictionaryKeyUpdatedCallback : Type := uint32_t -> ptr -> ptr -> ptr -> M unit.

(** DictationSessionStatusCallback(session, status, transcription, context): Dictation
    status callback. *)
Definition DictationSessionStatusCallback : Type := ptr -> DictationSessionStatus -> ptr ->
  ptr -> M unit.

(** AppMessageInboxReceived(iterator, context): Called after an incoming message is
    received. *)
Definition AppMessageInboxReceived : Type := ptr -> ptr -> M unit.

(** AppMessageInboxDropped(reason, context): Called after an incoming message is dropped. *)
Definition AppMessageInboxDropped : Type := AppMessageResult -> ptr -> M unit.

(** AppMessageOutboxSent(iterator, context): Called after an outbound message has been sent
    and the reply has been received. *)
Definition AppMessageOutboxSent : Type := ptr -> ptr -> M unit.

(** AppMessageOutboxFailed(iterator, reason, context): Called after an outbound message has
    not been sent successfully. *)
Definition AppMessageOutboxFailed : Type := ptr -> AppMessageResult -> ptr -> M unit.

(** AppSyncTupleChangedCallback(key, new_tuple, old_tuple, context): Called whenever a Tuple
    changes. *)
Definition AppSyncTupleChangedCallback : Type := uint32_t -> ptr -> ptr -> ptr -> M unit.

(** AppSyncErrorCallback(dict_error, app_message_error, context): Called whenever there was
    an error. *)
Definition AppSyncErrorCallback : Type := DictionaryResult -> AppMessageResult -> ptr -> M
  unit.

(** AppSync *)
Record AppSync := mk_AppSync {
  AppSync_current_iter : DictionaryIterator;
  (** the union of the pointers [current] and [buffer] *)
  AppSync_current : ptr;
  AppSync_buffer_size : uint16_t;
  AppSync_callback_value_changed : AppSyncTupleChangedCallback;
  AppSync_callback_error : AppSyncErrorCallback;
  AppSync_callback_context : ptr;
}.

(** ResHandle: Opaque reference to a resource. *)
Definition ResHandle : Type := ptr.

(** AppWorkerMessage: Generic structure of a worker message that can be sent between an app
    and its worker *)
Record AppWorkerMessage := mk_AppWorkerMessage {
  AppWorkerMessage_data0 : uint16_t;
  AppWorkerMessage_data1 : uint16_t;
  AppWorkerMessage_data2 : uint16_t;
}.

(** AppWorkerMessageHandler(type, data): Callback type for worker messages. *)
Definition AppWorkerMessageHandler : Type := uint16_t -> ptr -> M unit.

(** AppTimerCallback(data): The type of function which can be called when a timer fires. *)
Definition AppTimerCallback : Type := ptr -> M unit.

(** status_t: Return value for system operations. *)
Definition status_t : Type := int32_t.

(** WakeupId: WakeupId is an identifier for a wakeup event *)
Definition WakeupId : Type := int32_t.

(** WakeupHandler(wakeup_id, cookie): The type of function which can be called when a wakeup
    event occurs. *)
Definition WakeupHandler : Type := WakeupId -> int32_t -> M unit.

(** GColor8 *)
Record GColor8 := mk_GColor8 { GColor8_argb : uint8_t }.

(** The bit fields of the union, from the low bits on. *)
Definition GColor8_b (c : GColor8) : Z := Z.land (GColor8_argb c) 3.
Definition GColor8_g (c : GColor8) : Z := Z.land (Z.shiftr (GColor8_argb c) 2) 3.
Definition GColor8_r (c : GColor8) : Z := Z.land (Z.shiftr (GColor8_argb c) 4) 3.
Definition GColor8_a (c : GColor8) : Z := Z.land (Z.shiftr (GColor8_argb c) 6) 3.

(** GColor *)
Definition GColor : Type := GColor8.

(** GPoint: Represents a point in a 2-dimensional coordinate system. *)
Record GPoint := mk_GPoint {
  GPoint_x : int16_t;
  GPoint_y : int16_t;
}.

(** GSize: Represents a 2-dimensional size. *)
Record GSize := mk_GSize {
  GSize_w : int16_t;
  GSize_h : int16_t;
}.

(** GRect: Represents a rectangle and defining it using the origin of the upper-lefthand
    corner and its size. *)
Record GRect := mk_GRect {
  GRect_origin : GPoint;
  GRect_size : GSize;
}.

(** GBitmapDataRowInfo: Description of a single data row in the pixel data of a bitmap *)
Record GBitmapDataRowInfo := mk_GBitmapDataRowInfo {
  GBitmapDataRowInfo_data : ptr;
  GBitmapDataRowInfo_min_x : int16_t;
  GBitmapDataRowInfo_max_x : int16_t;
}.

(** GEdgeInsets: Represents insets for four sides. *)
Record GEdgeInsets := mk_GEdgeInsets {
  GEdgeInsets_top : int16_t;
  GEdgeInsets_right : int16_t;
  GEdgeInsets_bottom : int16_t;
  GEdgeInsets_left : int16_t;
}.

(** GDrawCommandListIteratorCb(command, index, context): Callback for iterating over draw
    command list *)
Definition GDrawCommandListIteratorCb : Type := ptr -> uint32_t -> ptr -> M bool.

(** GPathInfo: Data structure describing a naked path *)
Record GPathInfo := mk_GPathInfo {
  GPathInfo_num_points : uint32_t;
  GPathInfo_points : ptr;
}.

(** GPath: Data structure describing a path, plus its rotation and translation. *)
Record GPath := mk_GPath {
  GPath_num_points : uint32_t;
  GPath_points : ptr;
  GPath_rotation : int32_t;
  GPath_offset : GPoint;
}.

(** GFont: Pointer to opaque font data structure. *)
Definition GFont : Type := ptr.

(** SmartstrapServiceId: A type representing a smartstrap ServiceId. *)
Definition SmartstrapServiceId : Type := uint16_t.

(** SmartstrapAttributeId: A type representing a smartstrap AttributeId. *)
Definition SmartstrapAttributeId : Type := uint16_t.

(** SmartstrapServiceAvailabilityHandler(service_id, is_available): The type of function
    which is called after the smartstrap connection status changes. *)
Definition SmartstrapServiceAvailabilityHandler : Type := SmartstrapServiceId -> bool -> M
  unit.

(** SmartstrapReadHandler(attribute, result, data, length): The type of function which can
    be called when a read request is completed. *)
Definition SmartstrapReadHandler : Type := ptr -> SmartstrapResult -> ptr -> size_t -> M
  unit.

(** SmartstrapWriteHandler(attribute, result): The type of function which can be called when
    a write request is completed. *)
Definition SmartstrapWriteHandler : Type := ptr -> SmartstrapResult -> M unit.

(** SmartstrapNotifyHandler(attribute): The type of function which can be called when the
    smartstrap sends a notification to the watch *)
Definition SmartstrapNotifyHandler : Type := ptr -> M unit.

(** SmartstrapHandlers: Handlers which are passed to smartstrap_subscribe. *)
Record SmartstrapHandlers := mk_SmartstrapHandlers {
  SmartstrapHandlers_availability_did_change : SmartstrapServiceAvailabilityHandler;
  SmartstrapHandlers_did_read : SmartstrapReadHandler;
  SmartstrapHandlers_did_write : SmartstrapWriteHandler;
  SmartstrapHandlers_notified : SmartstrapNotifyHandler;
}.

(** ClickRecognizerRef: Reference to opaque click recognizer When a ClickHandler callback is
    called, the recognizer that fired the handler is passed in. *)
Definition ClickRecognizerRef : Type := ptr.

(** ClickHandler(recognizer, context): Function signature of the callback that handles a
    recognized click pattern *)
Definition ClickHandler : Type := ClickRecognizerRef -> ptr -> M unit.

(** ClickConfigProvider(context): This callback is called every time the window becomes
    visible (and when you call window_set_click_config_provider() if the window is already
    visible). *)
Definition ClickConfigProvider : Type := ptr -> M unit.

(** LayerUpdateProc(layer, ctx): Function signature for a Layer's render callback (the name
    of the type is derived from the words 'update procedure'). *)
Definition LayerUpdateProc : Type := ptr -> ptr -> M unit.

(** WindowHandler(window): Function signature for a handler that deals with transition
    events of a window. *)
Definition WindowHandler : Type := ptr -> M unit.

(** WindowHandlers: WindowHandlers These handlers are called by the WindowStack as windows
    get pushed on / popped. *)
Record WindowHandlers := mk_WindowHandlers {
  WindowHandlers_load : WindowHandler;
  WindowHandlers_appear : WindowHandler;
  WindowHandlers_disappear : WindowHandler;
  WindowHandlers_unload : WindowHandler;
}.

(** AnimationProgress: The type used to represent how far an animation has progressed. *)
Definition AnimationProgress : Type := int32_t.

(** AnimationCurveFunction(linear_distance): The function pointer type of a custom animation
    curve. *)
Definition AnimationCurveFunction : Type := AnimationProgress -> M AnimationProgress.

(** AnimationStartedHandler(animation, context): The function pointer type of the handler
    that will be called when an animation is started, just before updating the first frame
    of the animation. *)
Definition AnimationStartedHandler : Type := ptr -> ptr -> M unit.

(** AnimationStoppedHandler(animation, finished, context): The function pointer type of the
    handler that will be called when the animation is stopped. *)
Definition AnimationStoppedHandler : Type := ptr -> bool -> ptr -> M unit.

(** AnimationHandlers: The handlers that will get called when an animation starts and stops.
    *)
Record AnimationHandlers := mk_AnimationHandlers {
  AnimationHandlers_started : AnimationStartedHandler;
  AnimationHandlers_stopped : AnimationStoppedHandler;
}.

(** AnimationSetupImplementation(animation): Pointer to function that (optionally) prepares
    the animation for running. *)
Definition AnimationSetupImplementation : Type := ptr -> M unit.

(** AnimationUpdateImplementation(animation, progress): Pointer to function that updates the
    animation according to the given normalized progress. *)
Definition AnimationUpdateImplementation : Type := ptr -> AnimationProgress -> M unit.

(** AnimationTeardownImplementation(animation): Pointer to function that (optionally) cleans
    up the animation. *)
Definition AnimationTeardownImplementation : Type := ptr -> M unit.

(** AnimationImplementation: The 3 callbacks that implement a custom animation. *)
Record AnimationImplementation := mk_AnimationImplementation {
  AnimationImplementation_setup : AnimationSetupImplementation;
  AnimationImplementation_update : AnimationUpdateImplementation;
  AnimationImplementation_teardown : AnimationTeardownImplementation;
}.

(** GPointReturn: Work-around for function pointer return type GPoint to avoid tripping the
    pre-processor to use the equally named GPoint define *)
Definition GPointReturn : Type := GPoint.

(** GRectReturn: Work-around for function pointer return type GRect to avoid tripping the
    pre-processor to use the equally named GRect define *)
Definition GRectReturn : Type := GRect.

(** Int16Setter(subject, int16): Function signature of a setter function to set a property
    of type int16_t onto the subject. *)
Definition Int16Setter : Type := ptr -> int16_t -> M unit.

(** Int16Getter(subject): Function signature of a getter function to get the current
    property of type int16_t of the subject. *)
Definition Int16Getter : Type := ptr -> M int16_t.

(** UInt32Setter(subject, uint32): Function signature of a setter function to set a property
    of type uint32_t onto the subject. *)
Definition UInt32Setter : Type := ptr -> uint32_t -> M unit.

(** UInt32Getter(subject): Function signature of a getter function to get the current
    property of type uint32_t of the subject. *)
Definition UInt32Getter : Type := ptr -> M uint32_t.

(** GPointSetter(subject, gpoint): Function signature of a setter function to set a property
    of type GPoint onto the subject. *)
Definition GPointSetter : Type := ptr -> GPoint -> M unit.

(** GPointGetter(subject): Function signature of a getter function to get the current
    property of type GPoint of the subject. *)
Definition GPointGetter : Type := ptr -> M GPointReturn.

(** GRectSetter(subject, grect): Function signature of a setter function to set a property
    of type GRect onto the subject. *)
Definition GRectSetter : Type := ptr -> GRect -> M unit.

(** GRectGetter(subject): Function signature of a getter function to get the current
    property of type GRect of the subject. *)
Definition GRectGetter : Type := ptr -> M GRectReturn.

(** GColor8Setter(subject, gcolor): Function signature of a setter function to set a
    property of type GColor8 onto the subject. *)
Definition GColor8Setter : Type := ptr -> GColor8 -> M unit.

(** GColor8Getter(subject): Function signature of a getter function to get the current
    property of type GColor8 of the subject. *)
Definition GColor8Getter : Type := ptr -> M GColor8.

(** PropertyAnimationAccessors: Data structure containing the setter and getter function
    pointers that the property animation should use. *)
Inductive PropertySetter :=
| setter_int16 (f : Int16Setter)
| setter_gpoint (f : GPointSetter)
| setter_grect (f : GRectSetter)
| setter_gcolor8 (f : GColor8Setter)
| setter_uint32 (f : UInt32Setter).
Inductive PropertyGetter :=
| getter_int16 (f : Int16Getter)
| getter_gpoint (f : GPointGetter)
| getter_grect (f : GRectGetter)
| getter_gcolor8 (f : GColor8Getter)
| getter_uint32 (f : UInt32Getter).
Record PropertyAnimationAccessors := mk_PropertyAnimationAccessors {
  PropertyAnimationAccessors_setter : PropertySetter;
  PropertyAnimationAccessors_getter : PropertyGetter;
}.

(** PropertyAnimationImplementation: Data structure containing a collection of function
    pointers that form the implementation of the property animation. *)
Record PropertyAnimationImplementation := mk_PropertyAnimationImplementation {
  PropertyAnimationImplementation_base : AnimationImplementation;
  PropertyAnimationImplementation_accessors : PropertyAnimationAccessors;
}.

(** ScrollLayerCallback(scroll_layer, context): Function signature for the
    `.content_offset_changed_handler` callback. *)
Definition ScrollLayerCallback : Type := ptr -> ptr -> M unit.

(** ScrollLayerCallbacks: All the callbacks that the ScrollLayer exposes for use by
    applications. *)
Record ScrollLayerCallbacks := mk_ScrollLayerCallbacks {
  ScrollLayerCallbacks_click_config_provider : ClickConfigProvider;
  ScrollLayerCallbacks_content_offset_changed_handler : ScrollLayerCallback;
}.

(** ContentIndicatorConfig: Struct used to configure directions for ContentIndicator. *)
Record ContentIndicatorConfig := mk_ContentIndicatorConfig {
  ContentIndicatorConfig_layer : ptr;
  ContentIndicatorConfig_times_out : bool;
  ContentIndicatorConfig_alignment : GAlign;
  ContentIndicatorConfig_colors_foreground : GColor;
  ContentIndicatorConfig_colors_background : GColor;
}.

(** MenuIndex: Data structure to represent an menu item's position in a menu, by specifying
    the section index and the row index within that section. *)
Record MenuIndex := mk_MenuIndex {
  MenuIndex_section : uint16_t;
  MenuIndex_row : uint16_t;
}.

(** MenuCellSpan *)
Record MenuCellSpan := mk_MenuCellSpan {
  MenuCellSpan_y : int16_t;
  MenuCellSpan_h : int16_t;
  MenuCellSpan_sep : int16_t;
  MenuCellSpan_index : MenuIndex;
}.

(** MenuLayerGetNumberOfSectionsCallback(menu_layer, callback_context): Function signature
    for the callback to get the number of sections in a menu. *)
Definition MenuLayerGetNumberOfSectionsCallback : Type := ptr -> ptr -> M uint16_t.

(** MenuLayerGetNumberOfRowsInSectionsCallback(menu_layer, section_index, callback_context):
    Function signature for the callback to get the number of rows in a given section in a
    menu. *)
Definition MenuLayerGetNumberOfRowsInSectionsCallback : Type := ptr -> uint16_t -> ptr -> M
  uint16_t.

(** MenuLayerGetCellHeightCallback(menu_layer, cell_index, callback_context): Function
    signature for the callback to get the height of the menu cell at a given index. *)
Definition MenuLayerGetCellHeightCallback : Type := ptr -> ptr -> ptr -> M int16_t.

(** MenuLayerGetHeaderHeightCallback(menu_layer, section_index, callback_context): Function
    signature for the callback to get the height of the section header at a given section
    index. *)
Definition MenuLayerGetHeaderHeightCallback : Type := ptr -> uint16_t -> ptr -> M int16_t.

(** MenuLayerGetSeparatorHeightCallback(menu_layer, cell_index, callback_context): Function
    signature for the callback to get the height of the separator at a given index. *)
Definition MenuLayerGetSeparatorHeightCallback : Type := ptr -> ptr -> ptr -> M int16_t.

(** MenuLayerDrawRowCallback(ctx, cell_layer, cell_index, callback_context): Function
    signature for the callback to render the menu cell at a given MenuIndex. *)
Definition MenuLayerDrawRowCallback : Type := ptr -> ptr -> ptr -> ptr -> M unit.

(** MenuLayerDrawHeaderCallback(ctx, cell_layer, section_index, callback_context): Function
    signature for the callback to render the section header at a given section index. *)
Definition MenuLayerDrawHeaderCallback : Type := ptr -> ptr -> uint16_t -> ptr -> M unit.

(** MenuLayerDrawSeparatorCallback(ctx, cell_layer, cell_index, callback_context): Function
    signature for the callback to render the separator at a given MenuIndex. *)
Definition MenuLayerDrawSeparatorCallback : Type := ptr -> ptr -> ptr -> ptr -> M unit.

(** MenuLayerSelectCallback(menu_layer, cell_index, callback_context): Function signature
    for the callback to handle the event that a user hits the SELECT button. *)
Definition MenuLayerSelectCallback : Type := ptr -> ptr -> ptr -> M unit.

(** MenuLayerSelectionChangedCallback(menu_layer, new_index, old_index, callback_context):
    Function signature for the callback to handle a change in the current selected item in
    the menu. *)
Definition MenuLayerSelectionChangedCallback : Type := ptr -> MenuIndex -> MenuIndex -> ptr
  -> M unit.

(** MenuLayerSelectionWillChangeCallback(menu_layer, new_index, old_index,
    callback_context): Function signature for the callback which allows or changes selection
    behavior of the menu. *)
Definition MenuLayerSelectionWillChangeCallback : Type := ptr -> ptr -> MenuIndex -> ptr ->
  M unit.

(** MenuLayerDrawBackgroundCallback(ctx, bg_layer, highlight, callback_context): Function
    signature for the callback which draws the menu's background. *)
Definition MenuLayerDrawBackgroundCallback : Type := ptr -> ptr -> bool -> ptr -> M unit.

(** MenuLayerCallbacks: Data structure containing all the callbacks of a MenuLayer. *)
Record MenuLayerCallbacks := mk_MenuLayerCallbacks {
  MenuLayerCallbacks_get_num_sections : MenuLayerGetNumberOfSectionsCallback;
  MenuLayerCallbacks_get_num_rows : MenuLayerGetNumberOfRowsInSectionsCallback;
  MenuLayerCallbacks_get_cell_height : MenuLayerGetCellHeightCallback;
  MenuLayerCallbacks_get_header_height : MenuLayerGetHeaderHeightCallback;
  MenuLayerCallbacks_draw_row : MenuLayerDrawRowCallback;
  MenuLayerCallbacks_draw_header : MenuLayerDrawHeaderCallback;
  MenuLayerCallbacks_select_click : MenuLayerSelectCallback;
  MenuLayerCallbacks_select_long_click : MenuLayerSelectCallback;
  MenuLayerCallbacks_selection_changed : MenuLayerSelectionChangedCallback;
  MenuLayerCallbacks_get_separator_height : MenuLayerGetSeparatorHeightCallback;
  MenuLayerCallbacks_draw_separator : MenuLayerDrawSeparatorCallback;
  MenuLayerCallbacks_selection_will_change : MenuLayerSelectionWillChangeCallback;
  MenuLayerCallbacks_draw_background : MenuLayerDrawBackgroundCallback;
}.

(** SimpleMenuLayerSelectCallback(index, context): Function signature for the callback to
    handle the event that a user hits the SELECT button. *)
Definition SimpleMenuLayerSelectCallback : Type := int_t -> ptr -> M unit.

(** SimpleMenuItem: Data structure containing the information of a menu item. *)
Record SimpleMenuItem := mk_SimpleMenuItem {
  SimpleMenuItem_title : ptr;
  SimpleMenuItem_subtitle : ptr;
  SimpleMenuItem_icon : ptr;
  SimpleMenuItem_callback : SimpleMenuLayerSelectCallback;
}.

(** SimpleMenuSection: Data structure containing the information of a menu section. *)
Record SimpleMenuSection := mk_SimpleMenuSection {
  SimpleMenuSection_title : ptr;
  SimpleMenuSection_items : ptr;
  SimpleMenuSection_num_items : uint32_t;
}.

(** NumberWindowCallback(number_window, context): Function signature for NumberWindow
    callbacks. *)
Definition NumberWindowCallback : Type := ptr -> ptr -> M unit.

(** NumberWindowCallbacks: Data structure containing all the callbacks for a NumberWindow.
    *)
Record NumberWindowCallbacks := mk_NumberWindowCallbacks {
  NumberWindowCallbacks_incremented : NumberWindowCallback;
  NumberWindowCallbacks_decremented : NumberWindowCallback;
  NumberWindowCallbacks_selected : NumberWindowCallback;
}.

(** ActionMenuDidCloseCb(menu, performed_action, context): Callback executed after the
    ActionMenu has closed, so memory may be freed. *)
Definition ActionMenuDidCloseCb : Type := ptr -> ptr -> ptr -> M unit.

(** ActionMenuPerformActionCb(action_menu, action, context): Callback executed when a given
    action is selected *)
Definition ActionMenuPerformActionCb : Type := ptr -> ptr -> ptr -> M unit.

(** ActionMenuEachItemCb(item, context): Callback invoked for each item in an action menu
    hierarchy. *)
Definition ActionMenuEachItemCb : Type := ptr -> ptr -> M unit.

(** ActionMenuConfig: Configuration struct for the ActionMenu *)
Record ActionMenuConfig := mk_ActionMenuConfig {
  ActionMenuConfig_root_level : ptr;
  ActionMenuConfig_context : ptr;
  ActionMenuConfig_colors_background : GColor;
  ActionMenuConfig_colors_foreground : GColor;
  ActionMenuConfig_will_close : ActionMenuDidCloseCb;
  ActionMenuConfig_did_close : ActionMenuDidCloseCb;
  ActionMenuConfig_align : ActionMenuAlign;
}.

(** tm: structure containing broken-down time for expressing calendar time (ie. *)
Record tm := mk_tm {
  tm_sec : int_t;
  tm_min : int_t;
  tm_hour : int_t;
  tm_mday : int_t;
  tm_mon : int_t;
  tm_year : int_t;
  tm_wday : int_t;
  tm_yday : int_t;
  tm_isdst : int_t;
  tm_gmtoff : int_t;
  tm_zone : list int8_t;
}.
