(* ===== verification/SdkMacros.v ===== *)
(** * Macros of the SDK (runtime/pebble.h)

    The constants and the function-like macros of the header, for the black-and-white
    rectangular watch it is generated for.  A macro with the name of a type makes a
    value of it, and is called [make_] and the name here.  Functions of the firmware
    that macros call are variables of a section. *)

From S2P Require Import Prelude Memory SdkEnums SdkTypes.

(** ** C types and sizes *)

(** The arithmetic types that [IS_SIGNED] tells apart, and their sizes on the watch. *)
Inductive c_type :=
| c_unsigned_char | c_unsigned_short | c_unsigned_int | c_unsigned_long | c_unsigned_long_long
| c_signed_char | c_short | c_int | c_long | c_long_long.

Definition c_sizeof (t : c_type) : Z :=
  match t with
  | c_unsigned_char | c_signed_char => 1
  | c_unsigned_short | c_short => 2
  | c_unsigned_int | c_int | c_unsigned_long | c_long => 4
  | c_unsigned_long_long | c_long_long => 8
  end.

(** The chain of [__builtin_choose_expr]: signed unless one of the unsigned types. *)
Definition IS_SIGNED (t : c_type) : bool :=
  match t with
  | c_unsigned_char => false
  | c_unsigned_short => false
  | c_unsigned_int => false
  | c_unsigned_long => false
  | c_unsigned_long_long => false
  | _ => true
  end.

(** [sizeof(array) / sizeof(array[0])]: of [n] elements of [size] bytes. *)
Definition ARRAY_LENGTH (sizeof_array sizeof_element : Z) : Z := sizeof_array / sizeof_element.

Definition UINT32_MAX : Z := 2 ^ 32 - 1.

(** The sizes that macros mention. *)
Definition sizeof_int16 : Z := 2.
Definition sizeof_GPoint : Z := 4.
Definition sizeof_GRect : Z := 8.

(** ** Constants *)

Definition TRIG_MAX_RATIO : Z := 0xffff.
Definition TRIG_MAX_ANGLE : Z := 0x10000.
Definition TIMEZONE_NAME_LENGTH : Z := 32.
Definition HealthActivityMaskAll : HealthActivityMask :=
  Z.shiftl (enum_value HealthActivityRestfulSleep) 1 - 1.
Definition UUID_SIZE : Z := 16.
Definition UUID_STRING_BUFFER_LENGTH : Z := 32 + 4 + 2 + 1.
Definition APP_MESSAGE_INBOX_SIZE_MINIMUM : Z := 124.
Definition APP_MESSAGE_OUTBOX_SIZE_MINIMUM : Z := 636.
Definition PERSIST_DATA_MAX_LENGTH : Z := 256.
Definition PERSIST_STRING_MAX_LENGTH : Z := PERSIST_DATA_MAX_LENGTH.
Definition PLAY_COUNT_INFINITE : Z := UINT32_MAX.
Definition PLAY_DURATION_INFINITE : Z := UINT32_MAX.
Definition SMARTSTRAP_TIMEOUT_DEFAULT : Z := 250.
Definition SMARTSTRAP_RAW_DATA_SERVICE_ID : SmartstrapServiceId := 0.
Definition SMARTSTRAP_RAW_DATA_ATTRIBUTE_ID : SmartstrapAttributeId := 0.
Definition ANIMATION_DURATION_INFINITE : Z := UINT32_MAX.
Definition ANIMATION_PLAY_COUNT_INFINITE : Z := UINT32_MAX.
Definition ANIMATION_NORMALIZED_MIN : AnimationProgress := 0.
Definition ANIMATION_NORMALIZED_MAX : AnimationProgress := 65535.
Definition MENU_CELL_BASIC_HEADER_HEIGHT : Z := 16.
Definition MENU_INDEX_NOT_FOUND : Z := u16 (Z.lnot 0).
Definition MENU_CELL_ROUND_FOCUSED_SHORT_CELL_HEIGHT : Z := 68.
Definition MENU_CELL_ROUND_FOCUSED_TALL_CELL_HEIGHT : Z := 84.
Definition MENU_CELL_ROUND_UNFOCUSED_SHORT_CELL_HEIGHT : Z := 24.
Definition MENU_CELL_ROUND_UNFOCUSED_TALL_CELL_HEIGHT : Z := 32.
Definition NUM_ACTION_BAR_ITEMS : Z := 3.
Definition TZ_LEN : Z := 6.
Definition SECONDS_PER_MINUTE : Z := 60.
Definition MINUTES_PER_HOUR : Z := 60.
Definition SECONDS_PER_HOUR : Z := SECONDS_PER_MINUTE * MINUTES_PER_HOUR.
Definition HOURS_PER_DAY : Z := 24.
Definition MINUTES_PER_DAY : Z := HOURS_PER_DAY * MINUTES_PER_HOUR.
Definition SECONDS_PER_DAY : Z := MINUTES_PER_DAY * SECONDS_PER_MINUTE.

(** ** Choices by the capabilities of the watch *)

Definition PBL_IF_HEALTH_ELSE {A} (if_true if_false : A) : A := if_false.
Definition PBL_IF_MICROPHONE_ELSE {A} (if_true if_false : A) : A := if_false.
Definition COLOR_FALLBACK {A} (color bw : A) : A := bw.
Definition PBL_IF_RECT_ELSE {A} (if_true if_false : A) : A := if_true.
Definition PBL_IF_ROUND_ELSE {A} (if_true if_false : A) : A := if_false.
Definition PBL_IF_BW_ELSE {A} (if_true if_false : A) : A := if_true.
Definition PBL_IF_COLOR_ELSE {A} (if_true if_false : A) : A := if_false.
Definition PBL_IF_SMARTSTRAP_ELSE {A} (if_true if_false : A) : A := if_false.
Definition ACTION_BAR_WIDTH : Z := PBL_IF_RECT_ELSE 30 40.
Definition STATUS_BAR_LAYER_HEIGHT : Z := PBL_IF_RECT_ELSE 16 24.

(** ** Angles *)

(** C's division rounds towards zero. *)
Definition TRIGANGLE_TO_DEG (trig_angle : Z) : Z := Z.quot (trig_angle * 360) TRIG_MAX_ANGLE.
Definition DEG_TO_TRIGANGLE (angle : Z) : Z := Z.quot (angle * TRIG_MAX_ANGLE) 360.

(** ** Makers *)

Definition UuidMake (p0 p1 p2 p3 p4 p5 p6 p7 p8 p9 p10 p11 p12 p13 p14 p15 : uint8_t) : Uuid :=
  mk_Uuid p0 p1 p2 p3 p4 p5 p6 p7 p8 p9 p10 p11 p12 p13 p14 p15.

Definition UuidMakeFromBEBytes (b : list uint8_t) : Uuid :=
  let b i := nth i b 0 in
  UuidMake (b 0%nat) (b 1%nat) (b 2%nat) (b 3%nat) (b 4%nat) (b 5%nat) (b 6%nat) (b 7%nat)
    (b 8%nat) (b 9%nat) (b 10%nat) (b 11%nat) (b 12%nat) (b 13%nat) (b 14%nat) (b 15%nat).

Definition UuidMakeFromLEBytes (b : list uint8_t) : Uuid :=
  let b i := nth i b 0 in
  UuidMake (b 15%nat) (b 14%nat) (b 13%nat) (b 12%nat) (b 11%nat) (b 10%nat) (b 9%nat) (b 8%nat)
    (b 7%nat) (b 6%nat) (b 5%nat) (b 4%nat) (b 3%nat) (b 2%nat) (b 1%nat) (b 0%nat).

Definition TupletBytes (key : uint32_t) (data length : Z) : Tuplet :=
  mk_Tuplet TUPLE_BYTE_ARRAY key (Tuplet_bytes data length).

(** [strlen] is the length of the string at [cstring]. *)
Definition TupletCString (strlen : ptr -> Z) (key : uint32_t) (cstring : ptr) : Tuplet :=
  mk_Tuplet TUPLE_CSTRING key
    (Tuplet_cstring cstring (if negb (cstring =? NULL) then strlen cstring + 1 else 0)).

(** The integer has the C type [t]. *)
Definition TupletInteger (key : uint32_t) (t : c_type) (integer : Z) : Tuplet :=
  mk_Tuplet (if IS_SIGNED t then TUPLE_INT else TUPLE_UINT) key
    (Tuplet_integer (integer mod 2 ^ 32) (c_sizeof t)).

Definition make_GPoint (x y : int16_t) : GPoint := mk_GPoint x y.
Definition GPointZero : GPoint := make_GPoint 0 0.
Definition make_GSize (w h : int16_t) : GSize := mk_GSize w h.
Definition GSizeZero : GSize := make_GSize 0 0.
Definition make_GRect (x y w h : int16_t) : GRect := mk_GRect (mk_GPoint x y) (mk_GSize w h).
Definition GRectZero : GRect := make_GRect 0 0 0 0.

Definition GEdgeInsets4 (t r b l : int16_t) : GEdgeInsets := mk_GEdgeInsets t r b l.
Definition GEdgeInsets3 (t rl b : int16_t) : GEdgeInsets := mk_GEdgeInsets t rl b rl.
Definition GEdgeInsets2 (tb rl : int16_t) : GEdgeInsets := mk_GEdgeInsets tb rl tb rl.
Definition GEdgeInsets1 (trbl : int16_t) : GEdgeInsets := mk_GEdgeInsets trbl trbl trbl trbl.

(** The variadic macro, which picks one of the above by the number of arguments. *)
Definition make_GEdgeInsets (args : list int16_t) : option GEdgeInsets :=
  match args with
  | [trbl] => Some (GEdgeInsets1 trbl)
  | [tb; rl] => Some (GEdgeInsets2 tb rl)
  | [t; rl; b] => Some (GEdgeInsets3 t rl b)
  | [t; r; b; l] => Some (GEdgeInsets4 t r b l)
  | _ => None
  end.

Definition make_MenuIndex (section row : uint16_t) : MenuIndex := mk_MenuIndex section row.

(** ** Property animations *)

Section PropertyAnimation.
(** The firmware's functions: the animation, the value, its size, and whether to set. *)
Variable animation_clone : ptr -> M ptr.
Variables property_animation_from property_animation_to : ptr -> ptr -> size_t -> bool -> M bool.
Variable property_animation_subject : ptr -> ptr -> bool -> M bool.

Definition property_animation_clone (property_animation : ptr) : M ptr :=
  animation_clone property_animation.

Definition property_animation_get_from_grect (property_animation value_ptr : ptr) : M bool :=
  property_animation_from property_animation value_ptr sizeof_GRect false.
Definition property_animation_set_from_grect (property_animation value_ptr : ptr) : M bool :=
  property_animation_from property_animation value_ptr sizeof_GRect true.
Definition property_animation_get_from_gpoint (property_animation value_ptr : ptr) : M bool :=
  property_animation_from property_animation value_ptr sizeof_GPoint false.
Definition property_animation_set_from_gpoint (property_animation value_ptr : ptr) : M bool :=
  property_animation_from property_animation value_ptr sizeof_GPoint true.
Definition property_animation_get_from_int16 (property_animation value_ptr : ptr) : M bool :=
  property_animation_from property_animation value_ptr sizeof_int16 false.
Definition property_animation_set_from_int16 (property_animation value_ptr : ptr) : M bool :=
  property_animation_from property_animation value_ptr sizeof_int16 true.
Definition property_animation_get_to_grect (property_animation value_ptr : ptr) : M bool :=
  property_animation_to property_animation value_ptr sizeof_GRect false.
Definition property_animation_set_to_grect (property_animation value_ptr : ptr) : M bool :=
  property_animation_to property_animation value_ptr sizeof_GRect true.
Definition property_animation_get_to_gpoint (property_animation value_ptr : ptr) : M bool :=
  property_animation_to property_animation value_ptr sizeof_GPoint false.
Definition property_animation_set_to_gpoint (property_animation value_ptr : ptr) : M bool :=
  property_animation_to property_animation value_ptr sizeof_GPoint true.
Definition property_animation_get_to_int16 (property_animation value_ptr : ptr) : M bool :=
  property_animation_to property_animation value_ptr sizeof_int16 false.
Definition property_animation_set_to_int16 (property_animation value_ptr : ptr) : M bool :=
  property_animation_to property_animation value_ptr sizeof_int16 true.
Definition property_animation_get_subject (property_animation value_ptr : ptr) : M bool :=
  property_animation_subject property_animation value_ptr false.
Definition property_animation_set_subject (property_animation value_ptr : ptr) : M bool :=
  property_animation_subject property_animation value_ptr true.
End PropertyAnimation.

(** ** What the macros compute *)

(** Converting degrees to an angle and back loses one degree, except at multiples of 45;
    in this range no product leaves the C type [int]. *)
Lemma trig_angle_round_trip d :
  0 <= d < 32768 -> TRIGANGLE_TO_DEG (DEG_TO_TRIGANGLE d) = if d mod 45 =? 0 then d else d - 1.
Proof.
  intros Hd. unfold TRIGANGLE_TO_DEG, DEG_TO_TRIGANGLE, TRIG_MAX_ANGLE.
  rewrite !Z.quot_div_nonneg by (try apply Z.mul_nonneg_nonneg; try apply Z.quot_pos; lia).
  destruct (Z.eqb_spec (d mod 45) 0); dlia.
Qed.

(** The bytes of a UUID. *)
Definition uuid_bytes (u : Uuid) : list Z :=
  [Uuid_byte0 u; Uuid_byte1 u; Uuid_byte2 u; Uuid_byte3 u; Uuid_byte4 u; Uuid_byte5 u;
   Uuid_byte6 u; Uuid_byte7 u; Uuid_byte8 u; Uuid_byte9 u; Uuid_byte10 u; Uuid_byte11 u;
   Uuid_byte12 u; Uuid_byte13 u; Uuid_byte14 u; Uuid_byte15 u].

Lemma uuid_from_bytes b :
  len b = UUID_SIZE ->
  uuid_bytes (UuidMakeFromBEBytes b) = b /\ uuid_bytes (UuidMakeFromLEBytes b) = rev b.
Proof.
  unfold UUID_SIZE. intros Hb. assert (length b = 16%nat) as Hb' by lia. clear Hb.
  do 16 (destruct b as [|? b]; [done|]). by destruct b.
Qed.

(** The mask of all activities is the union of the activities' bits. *)
Lemma health_activity_mask_all :
  HealthActivityMaskAll = foldr (fun a m => Z.lor (enum_value a) m) 0 (enum_all (A := HealthActivity)).
Proof. by vm_compute. Qed.

(** The bit fields of a colour determine its byte. *)
Lemma GColor8_fields c :
  is_byte (GColor8_argb c) ->
  GColor8_argb c = GColor8_b c + 4 * GColor8_g c + 16 * GColor8_r c + 64 * GColor8_a c.
Proof.
  destruct c as [b]. unfold GColor8_b, GColor8_g, GColor8_r, GColor8_a. cbn [GColor8_argb]. revert b.
  apply (all_bytes_eq (fun b => b)). by vm_compute.
Qed.
