(* ===== verification/Abi.v ===== *)
(** * Types of C and how they are passed on the watch

    The SDK's functions are called from C and from the assembly of the patch.  This file
    has the types of their declarations, the layout of a type in memory, and where the
    procedure call standard of the ARM architecture (AAPCS, base variant) puts the
    arguments of a call: [sizeof] and [place_args]. *)

From stdpp Require Import strings gmap.
From S2P Require Import Prelude.

(** ** Types *)

Inductive ctype :=
| Void
| Bool
| Char
| Integer (signed : bool) (bytes : Z)
| Double
| Named (n : string)
| Pointer (t : ctype)
| Const (t : ctype).

#[export] Instance ctype_eq_dec : EqDecision ctype.
Proof. solve_decision. Defined.

Definition uint8_t := Integer false 1.
Definition int8_t := Integer true 1.
Definition uint16_t := Integer false 2.
Definition int16_t := Integer true 2.
Definition uint32_t := Integer false 4.
Definition int32_t := Integer true 4.
Definition uint64_t := Integer false 8.
Definition int := Integer true 4.
Definition size_t := Integer false 4.
Definition time_t := Integer true 4.

(** What a name of the header stands for.  Fields are in order; [BitFields] are packed
    into that many bytes. *)
Inductive decl :=
| Typedef (t : ctype)
| Structure (packed : bool) (fields : list (string * ctype))
| UnionOf (packed : bool) (fields : list (string * ctype))
| Enumeration (values : list Z)
| FunctionPointer
| BitFields (bytes : Z)
| Array (t : ctype) (n : Z)
| Incomplete.

(** A function declaration. *)
Record prototype := mk_prototype {
  p_name : string;
  p_result : ctype;
  p_params : list (string * ctype);
  p_variadic : bool;
}.

(** ** Layout *)

Definition align_up (x a : Z) : Z := (x + a - 1) / a * a.

(** The size and alignment of an enumeration: the smallest integer that has its values. *)
Definition enum_layout (values : list Z) : Z * Z :=
  let fits n := forallb (fun v => (0 <=? v) && (v <? n)) values
                || forallb (fun v => (- n / 2 <=? v) && (v <? n / 2)) values in
  if fits 256 then (1, 1) else if fits 65536 then (2, 2) else (4, 4).

(** The offsets of fields with the given sizes and alignments, one behind the other from
    [off] on, and the end of the last one. *)
Fixpoint place_fields (off : Z) (fields : list (Z * Z)) : list Z * Z :=
  match fields with
  | [] => ([], off)
  | (size, align) :: fields =>
      let o := align_up off align in
      let '(os, e) := place_fields (o + size) fields in (o :: os, e)
  end.

Definition max_align (fields : list (Z * Z)) : Z := foldr (fun f a => Z.max f.2 a) 1 fields.
Definition max_size (fields : list (Z * Z)) : Z := foldr (fun f s => Z.max f.1 s) 0 fields.

Definition struct_layout (fields : list (Z * Z)) : Z * Z :=
  (align_up (place_fields 0 fields).2 (max_align fields), max_align fields).
Definition union_layout (fields : list (Z * Z)) : Z * Z :=
  (align_up (max_size fields) (max_align fields), max_align fields).

(** Packed structures have no padding. *)
Definition unalign (packed : bool) (l : Z * Z) : Z * Z := if packed then (l.1, 1) else l.

Section Layout.
Variable types : list (string * decl).

Definition lookup_type (n : string) : option decl := snd <$> find (fun d => bool_decide (d.1 = n)) types.

(** The size and alignment of a type; [None] for an incomplete one.  The fuel bounds the
    depth of names. *)
Fixpoint layout (fuel : nat) (t : ctype) : option (Z * Z) :=
  match fuel with
  | O => None
  | S fuel =>
      match t with
      | Void => None
      | Bool | Char => Some (1, 1)
      | Integer _ n => Some (n, n)
      | Double => Some (8, 8)
      | Pointer _ => Some (4, 4)
      | Const t => layout fuel t
      | Named n =>
          d ← lookup_type n;
          match d with
          | Typedef t => layout fuel t
          | Structure packed fields =>
              ls ← mapM (fun f : string * ctype => unalign packed <$> layout fuel f.2) fields;
              Some (struct_layout ls)
          | UnionOf packed fields =>
              ls ← mapM (fun f : string * ctype => unalign packed <$> layout fuel f.2) fields;
              Some (union_layout ls)
          | Enumeration values => Some (enum_layout values)
          | FunctionPointer => Some (4, 4)
          | BitFields n => Some (n, 1)
          | Array t n => l ← layout fuel t; Some (l.1 * n, l.2)
          | Incomplete => None
          end
      end
  end.

Definition layout_fuel : nat := 16.
Definition sizeof (t : ctype) : option Z := fst <$> layout layout_fuel t.

(** A structure or union, which is passed and returned in its own way. *)
Fixpoint is_composite (fuel : nat) (t : ctype) : bool :=
  match fuel, t with
  | S fuel, Const t => is_composite fuel t
  | S fuel, Named n =>
      match lookup_type n with
      | Some (Typedef t) => is_composite fuel t
      | Some (Structure _ _) | Some (UnionOf _ _) => true
      | _ => false
      end
  | _, _ => false
  end.

(** ** Well-formed declarations *)

(** Every name in a type is declared. *)
Fixpoint declared (t : ctype) : bool :=
  match t with
  | Named n => bool_decide (is_Some (lookup_type n))
  | Pointer t | Const t => declared t
  | _ => true
  end.

Definition complete (t : ctype) : bool := bool_decide (is_Some (sizeof t)).

Definition field_ok (f : string * ctype) : bool := declared f.2 && complete f.2.

(** The parts of a declared type are declared and complete, and so is the type itself
    unless it is declared to be incomplete. *)
Definition decl_ok (d : string * decl) : bool :=
  match d.2 with
  | Incomplete => true
  | Typedef t => declared t && complete t
  | Structure _ fields | UnionOf _ fields => forallb field_ok fields && complete (Named d.1)
  | Array t _ => declared t && complete (Named d.1)
  | Enumeration values => bool_decide (values <> [])
  | FunctionPointer | BitFields _ => true
  end.

Definition prototype_ok (p : prototype) : bool :=
  declared (p_result p) && (bool_decide (p_result p = Void) || complete (p_result p)) &&
  forallb field_ok (p_params p).

(** ** Passing arguments *)

(** A word of an argument: a core register, or an offset from the stack pointer of the
    call. *)
Inductive place := Reg (n : Z) | Stack (off : Z).

(** The next core register number and the next stacked argument address. *)
Definition arg_state : Type := Z * Z.

(** Words [n] of an argument, in registers as long as there are any. *)
Fixpoint place_words (n : nat) (st : arg_state) : list place * arg_state :=
  match n with
  | O => ([], st)
  | S n =>
      let '(p, st) := if st.1 <? 4 then (Reg st.1, (st.1 + 1, st.2)) else (Stack st.2, (4, st.2 + 4)) in
      let '(ps, st) := place_words n st in (p :: ps, st)
  end.

(** An argument of a size and alignment: rules C.3 to C.8.  One that needs 8-byte alignment
    starts at an even register or at a multiple of 8; one that does not fit in the
    remaining registers is split only when nothing is on the stack yet. *)
Definition place_arg (size align : Z) (st : arg_state) : list place * arg_state :=
  let words := Z.to_nat ((size + 3) / 4) in
  let ncrn := if (align =? 8) && (st.1 <? 4) then align_up st.1 2 else st.1 in
  let st := (ncrn, st.2) in
  let st := if (4 <? st.1 + Z.of_nat words) && negb (st.2 =? 0) then (4, st.2) else st in
  let st := if (4 <=? st.1) && (align =? 8) then (st.1, align_up st.2 8) else st in
  place_words words st.

Fixpoint place_args (params : list (string * ctype)) (st : arg_state) : option (list (string * list place)) :=
  match params with
  | [] => Some []
  | (n, t) :: params =>
      l ← layout layout_fuel t;
      let '(ps, st) := place_arg l.1 l.2 st in
      rest ← place_args params st;
      Some ((n, ps) :: rest)
  end.

(** A composite result of more than a word goes to memory, whose address is passed in r0. *)
Definition result_in_memory (p : prototype) : bool :=
  match sizeof (p_result p) with
  | Some s => is_composite layout_fuel (p_result p) && (4 <? s)
  | None => false
  end.

Definition places (p : prototype) : option (list (string * list place)) :=
  place_args (p_params p) (if result_in_memory p then 1 else 0, 0).

Definition place_of (p : prototype) (param : string) : option (list place) :=
  ps ← places p; snd <$> find (fun a => bool_decide (a.1 = param)) ps.
End Layout.
