(* ===== verification/SdkDecls.v ===== *)
(** * Declarations of the types of the SDK (runtime/pebble.h)

    The types of [SdkTypes] as the compiler sees them, for their layout in memory: one
    declaration per type of the header, in its order.  A nested structure, union or array
    [f] of a structure [S] is the declaration [S.f], neighbouring bit-fields are [S.bits]. *)

From stdpp Require Import strings gmap.
From S2P Require Import Prelude SdkEnums Abi.

Definition enumeration (A : Type) `{CEnum A} : decl := Enumeration (enum_value <$> enum_all (A := A)).

Definition ButtonId_decl : list (string * decl) := [("ButtonId", enumeration ButtonId)].
Definition WatchInfoModel_decl : list (string * decl) :=
  [("WatchInfoModel", enumeration WatchInfoModel)].
Definition WatchInfoColor_decl : list (string * decl) :=
  [("WatchInfoColor", enumeration WatchInfoColor)].
Definition WatchInfoVersion_decl : list (string * decl) :=
  [("WatchInfoVersion", Structure false [("major", uint8_t); ("minor", uint8_t);
     ("patch", uint8_t)])].
Definition WeekDay_decl : list (string * decl) := [("WeekDay", enumeration WeekDay)].
Definition ConnectionHandler_decl : list (string * decl) :=
  [("ConnectionHandler", FunctionPointer)].
Definition ConnectionHandlers_decl : list (string * decl) :=
  [("ConnectionHandlers", Structure false
     [("pebble_app_connection_handler", Named "ConnectionHandler");
     ("pebblekit_connection_handler", Named "ConnectionHandler")])].
Definition BluetoothConnectionHandler_decl : list (string * decl) :=
  [("BluetoothConnectionHandler", Typedef (Named "ConnectionHandler"))].
Definition AppFocusHandler_decl : list (string * decl) := [("AppFocusHandler", FunctionPointer)].
Definition AppFocusHandlers_decl : list (string * decl) :=
  [("AppFocusHandlers", Structure false [("will_focus", Named "AppFocusHandler");
     ("did_focus", Named "AppFocusHandler")])].
Definition BatteryChargeState_decl : list (string * decl) :=
  [("BatteryChargeState", Structure false [("charge_percent", uint8_t); ("is_charging", Bool);
     ("is_plugged", Bool)])].
Definition BatteryStateHandler_decl : list (string * decl) :=
  [("BatteryStateHandler", FunctionPointer)].
Definition AccelData_decl : list (string * decl) :=
  [("AccelData", Structure true [("x", int16_t); ("y", int16_t); ("z", int16_t);
     ("did_vibrate", Bool); ("timestamp", uint64_t)])].
Definition AccelRawData_decl : list (string * decl) :=
  [("AccelRawData", Structure true [("x", int16_t); ("y", int16_t); ("z", int16_t)])].
Definition AccelAxisType_decl : list (string * decl) :=
  [("AccelAxisType", enumeration AccelAxisType)].
Definition AccelDataHandler_decl : list (string * decl) :=
  [("AccelDataHandler", FunctionPointer)].
Definition AccelRawDataHandler_decl : list (string * decl) :=
  [("AccelRawDataHandler", FunctionPointer)].
Definition AccelTapHandler_decl : list (string * decl) := [("AccelTapHandler", FunctionPointer)].
Definition AccelSamplingRate_decl : list (string * decl) :=
  [("AccelSamplingRate", enumeration AccelSamplingRate)].
Definition CompassStatus_decl : list (string * decl) :=
  [("CompassStatus", enumeration CompassStatus)].
Definition CompassHeading_decl : list (string * decl) := [("CompassHeading", Typedef int32_t)].
Definition CompassHeadingData_decl : list (string * decl) :=
  [("CompassHeadingData", Structure false [("magnetic_heading", Named "CompassHeading");
     ("true_heading", Named "CompassHeading"); ("compass_status", Named "CompassStatus");
     ("is_declination_valid", Bool)])].
Definition CompassHeadingHandler_decl : list (string * decl) :=
  [("CompassHeadingHandler", FunctionPointer)].
Definition TimeUnits_decl : list (string * decl) := [("TimeUnits", enumeration TimeUnits)].
Definition TickHandler_decl : list (string * decl) := [("TickHandler", FunctionPointer)].
Definition HealthMetric_decl : list (string * decl) :=
  [("HealthMetric", enumeration HealthMetric)].
Definition HealthValue_decl : list (string * decl) := [("HealthValue", Typedef int32_t)].
Definition HealthServiceTimeScope_decl : list (string * decl) :=
  [("HealthServiceTimeScope", enumeration HealthServiceTimeScope)].
Definition HealthActivityMask_decl : list (string * decl) :=
  [("HealthActivityMask", Typedef uint32_t)].
Definition HealthActivity_decl : list (string * decl) :=
  [("HealthActivity", enumeration HealthActivity)].
Definition HealthActivityIteratorCB_decl : list (string * decl) :=
  [("HealthActivityIteratorCB", FunctionPointer)].
Definition HealthIterationDirection_decl : list (string * decl) :=
  [("HealthIterationDirection", enumeration HealthIterationDirection)].
Definition HealthServiceAccessibilityMask_decl : list (string * decl) :=
  [("HealthServiceAccessibilityMask", enumeration HealthServiceAccessibilityMask)].
Definition HealthEventType_decl : list (string * decl) :=
  [("HealthEventType", enumeration HealthEventType)].
Definition HealthEventHandler_decl : list (string * decl) :=
  [("HealthEventHandler", FunctionPointer)].
Definition AmbientLightLevel_decl : list (string * decl) :=
  [("AmbientLightLevel", enumeration AmbientLightLevel)].
Definition HealthMinuteData_decl : list (string * decl) :=
  [("HealthMinuteData.bits", BitFields 1);
   ("HealthMinuteData.reserved", Array uint8_t 7);
   ("HealthMinuteData", Structure false [("steps", uint8_t); ("orientation", uint8_t);
     ("vmc", uint16_t); ("bits", Named "HealthMinuteData.bits");
     ("reserved", Named "HealthMinuteData.reserved")])].
Definition MeasurementSystem_decl : list (string * decl) :=
  [("MeasurementSystem", enumeration MeasurementSystem)].
Definition DataLoggingSessionRef_decl : list (string * decl) :=
  [("DataLoggingSessionRef", Typedef (Pointer Void))].
Definition DataLoggingItemType_decl : list (string * decl) :=
  [("DataLoggingItemType", enumeration DataLoggingItemType)].
Definition DataLoggingResult_decl : list (string * decl) :=
  [("DataLoggingResult", enumeration DataLoggingResult)].
Definition Uuid_decl : list (string * decl) :=
  [("Uuid", Structure true [("byte0", uint8_t); ("byte1", uint8_t); ("byte2", uint8_t);
     ("byte3", uint8_t); ("byte4", uint8_t); ("byte5", uint8_t); ("byte6", uint8_t);
     ("byte7", uint8_t); ("byte8", uint8_t); ("byte9", uint8_t); ("byte10", uint8_t);
     ("byte11", uint8_t); ("byte12", uint8_t); ("byte13", uint8_t); ("byte14", uint8_t);
     ("byte15", uint8_t)])].
Definition AppLogLevel_decl : list (string * decl) := [("AppLogLevel", enumeration AppLogLevel)].
Definition DictionaryResult_decl : list (string * decl) :=
  [("DictionaryResult", enumeration DictionaryResult)].
Definition TupleType_decl : list (string * decl) := [("TupleType", enumeration TupleType)].
Definition Tuple_decl : list (string * decl) :=
  [("Tuple.bits", BitFields 1);
   ("Tuple.value.data", Array uint8_t 0);
   ("Tuple.value.cstring", Array Char 0);
   ("Tuple.value", UnionOf false [("data", Named "Tuple.value.data");
     ("cstring", Named "Tuple.value.cstring"); ("uint8", uint8_t); ("uint16", uint16_t);
     ("uint32", uint32_t); ("int8", int8_t); ("int16", int16_t); ("int32", int32_t)]);
   ("Tuple.value[]", Array (Named "Tuple.value") 0);
   ("Tuple", Structure true [("key", uint32_t); ("bits", Named "Tuple.bits");
     ("length", uint16_t); ("value", Named "Tuple.value[]")])].
Definition Dictionary_decl : list (string * decl) := [("Dictionary", Incomplete)].
Definition DictionaryIterator_decl : list (string * decl) :=
  [("DictionaryIterator", Structure false [("dictionary", Pointer (Named "Dictionary"));
     ("end", Pointer (Const Void)); ("cursor", Pointer (Named "Tuple"))])].
Definition Tuplet_decl : list (string * decl) :=
  [("Tuplet.u.bytes", Structure false [("data", Pointer (Const uint8_t));
     ("length", Const uint16_t)]);
   ("Tuplet.u.cstring", Structure false [("data", Pointer (Const Char));
     ("length", Const uint16_t)]);
   ("Tuplet.u.integer", Structure false [("storage", uint32_t); ("width", Const uint16_t)]);
   ("Tuplet.u", UnionOf false [("bytes", Named "Tuplet.u.bytes");
     ("cstring", Named "Tuplet.u.cstring"); ("integer", Named "Tuplet.u.integer")]);
   ("Tuplet", Structure false [("type", Named "TupleType"); ("key", uint32_t);
     ("u", Named "Tuplet.u")])].
Definition DictionarySerializeCallback_decl : list (string * decl) :=
  [("DictionarySerializeCallback", FunctionPointer)].
Definition DictionaryKeyUpdatedCallback_decl : list (string * decl) :=
  [("DictionaryKeyUpdatedCallback", FunctionPointer)].
Definition DictationSession_decl : list (string * decl) := [("DictationSession", Incomplete)].
Definition DictationSessionStatus_decl : list (string * decl) :=
  [("DictationSessionStatus", enumeration DictationSessionStatus)].
Definition DictationSessionStatusCallback_decl : list (string * decl) :=
  [("DictationSessionStatusCallback", FunctionPointer)].
Definition AppMessageResult_decl : list (string * decl) :=
  [("AppMessageResult", enumeration AppMessageResult)].
Definition AppMessageInboxReceived_decl : list (string * decl) :=
  [("AppMessageInboxReceived", FunctionPointer)].
Definition AppMessageInboxDropped_decl : list (string * decl) :=
  [("AppMessageInboxDropped", FunctionPointer)].
Definition AppMessageOutboxSent_decl : list (string * decl) :=
  [("AppMessageOutboxSent", FunctionPointer)].
Definition AppMessageOutboxFailed_decl : list (string * decl) :=
  [("AppMessageOutboxFailed", FunctionPointer)].
Definition AppSyncTupleChangedCallback_decl : list (string * decl) :=
  [("AppSyncTupleChangedCallback", FunctionPointer)].
Definition AppSyncErrorCallback_decl : list (string * decl) :=
  [("AppSyncErrorCallback", FunctionPointer)].
Definition AppSync_decl : list (string * decl) :=
  [("AppSync.u", UnionOf false [("current", Pointer (Named "Dictionary"));
     ("buffer", Pointer uint8_t)]);
   ("AppSync.callback", Structure false [("value_changed", Named "AppSyncTupleChangedCallback");
     ("error", Named "AppSyncErrorCallback"); ("context", Pointer Void)]);
   ("AppSync", Structure false [("current_iter", Named "DictionaryIterator");
     ("u", Named "AppSync.u"); ("buffer_size", uint16_t);
     ("callback", Named "AppSync.callback")])].
Definition ResHandle_decl : list (string * decl) := [("ResHandle", Typedef (Pointer Void))].
Definition AppWorkerResult_decl : list (string * decl) :=
  [("AppWorkerResult", enumeration AppWorkerResult)].
Definition AppWorkerMessage_decl : list (string * decl) :=
  [("AppWorkerMessage", Structure false [("data0", uint16_t); ("data1", uint16_t);
     ("data2", uint16_t)])].
Definition AppWorkerMessageHandler_decl : list (string * decl) :=
  [("AppWorkerMessageHandler", FunctionPointer)].
Definition SniffInterval_decl : list (string * decl) :=
  [("SniffInterval", enumeration SniffInterval)].
Definition AppTimer_decl : list (string * decl) := [("AppTimer", Incomplete)].
Definition AppTimerCallback_decl : list (string * decl) :=
  [("AppTimerCallback", FunctionPointer)].
Definition StatusCode_decl : list (string * decl) := [("StatusCode", enumeration StatusCode)].
Definition status_t_decl : list (string * decl) := [("status_t", Typedef int32_t)].
Definition WakeupId_decl : list (string * decl) := [("WakeupId", Typedef int32_t)].
Definition WakeupHandler_decl : list (string * decl) := [("WakeupHandler", FunctionPointer)].
Definition AppLaunchReason_decl : list (string * decl) :=
  [("AppLaunchReason", enumeration AppLaunchReason)].
Definition GColor8_decl : list (string * decl) :=
  [("GColor8.u.bits", BitFields 1);
   ("GColor8.u", Structure false [("bits", Named "GColor8.u.bits")]);
   ("GColor8", UnionOf false [("argb", uint8_t); ("u", Named "GColor8.u")])].
Definition GColor_decl : list (string * decl) := [("GColor", Typedef (Named "GColor8"))].
Definition GPoint_decl : list (string * decl) :=
  [("GPoint", Structure false [("x", int16_t); ("y", int16_t)])].
Definition GSize_decl : list (string * decl) :=
  [("GSize", Structure false [("w", int16_t); ("h", int16_t)])].
Definition GRect_decl : list (string * decl) :=
  [("GRect", Structure false [("origin", Named "GPoint"); ("size", Named "GSize")])].
Definition GBitmapFormat_decl : list (string * decl) :=
  [("GBitmapFormat", enumeration GBitmapFormat)].
Definition GBitmap_decl : list (string * decl) := [("GBitmap", Incomplete)].
Definition GBitmapSequence_decl : list (string * decl) := [("GBitmapSequence", Incomplete)].
Definition GBitmapDataRowInfo_decl : list (string * decl) :=
  [("GBitmapDataRowInfo", Structure false [("data", Pointer uint8_t); ("min_x", int16_t);
     ("max_x", int16_t)])].
Definition GAlign_decl : list (string * decl) := [("GAlign", enumeration GAlign)].
Definition GCompOp_decl : list (string * decl) := [("GCompOp", enumeration GCompOp)].
Definition GContext_decl : list (string * decl) := [("GContext", Incomplete)].
Definition GEdgeInsets_decl : list (string * decl) :=
  [("GEdgeInsets", Structure false [("top", int16_t); ("right", int16_t); ("bottom", int16_t);
     ("left", int16_t)])].
Definition GCornerMask_decl : list (string * decl) := [("GCornerMask", enumeration GCornerMask)].
Definition GOvalScaleMode_decl : list (string * decl) :=
  [("GOvalScaleMode", enumeration GOvalScaleMode)].
Definition GDrawCommand_decl : list (string * decl) := [("GDrawCommand", Incomplete)].
Definition GDrawCommandFrame_decl : list (string * decl) := [("GDrawCommandFrame", Incomplete)].
Definition GDrawCommandImage_decl : list (string * decl) := [("GDrawCommandImage", Incomplete)].
Definition GDrawCommandList_decl : list (string * decl) := [("GDrawCommandList", Incomplete)].
Definition GDrawCommandListIteratorCb_decl : list (string * decl) :=
  [("GDrawCommandListIteratorCb", FunctionPointer)].
Definition GDrawCommandSequence_decl : list (string * decl) :=
  [("GDrawCommandSequence", Incomplete)].
Definition GDrawCommandType_decl : list (string * decl) :=
  [("GDrawCommandType", enumeration GDrawCommandType)].
Definition GPathInfo_decl : list (string * decl) :=
  [("GPathInfo", Structure false [("num_points", uint32_t); ("points", Pointer (Named "GPoint"))])].
Definition GPath_decl : list (string * decl) :=
  [("GPath", Structure false [("num_points", uint32_t); ("points", Pointer (Named "GPoint"));
     ("rotation", int32_t); ("offset", Named "GPoint")])].
Definition FontInfo_decl : list (string * decl) := [("FontInfo", Incomplete)].
Definition GFont_decl : list (string * decl) := [("GFont", Typedef (Pointer (Named "FontInfo")))].
Definition GTextOverflowMode_decl : list (string * decl) :=
  [("GTextOverflowMode", enumeration GTextOverflowMode)].
Definition GTextAlignment_decl : list (string * decl) :=
  [("GTextAlignment", enumeration GTextAlignment)].
Definition GTextAttributes_decl : list (string * decl) := [("GTextAttributes", Incomplete)].
Definition SmartstrapResult_decl : list (string * decl) :=
  [("SmartstrapResult", enumeration SmartstrapResult)].
Definition SmartstrapServiceId_decl : list (string * decl) :=
  [("SmartstrapServiceId", Typedef uint16_t)].
Definition SmartstrapAttributeId_decl : list (string * decl) :=
  [("SmartstrapAttributeId", Typedef uint16_t)].
Definition SmartstrapAttribute_decl : list (string * decl) :=
  [("SmartstrapAttribute", Incomplete)].
Definition SmartstrapServiceAvailabilityHandler_decl : list (string * decl) :=
  [("SmartstrapServiceAvailabilityHandler", FunctionPointer)].
Definition SmartstrapReadHandler_decl : list (string * decl) :=
  [("SmartstrapReadHandler", FunctionPointer)].
Definition SmartstrapWriteHandler_decl : list (string * decl) :=
  [("SmartstrapWriteHandler", FunctionPointer)].
Definition SmartstrapNotifyHandler_decl : list (string * decl) :=
  [("SmartstrapNotifyHandler", FunctionPointer)].
Definition SmartstrapHandlers_decl : list (string * decl) :=
  [("SmartstrapHandlers", Structure false
     [("availability_did_change", Named "SmartstrapServiceAvailabilityHandler");
     ("did_read", Named "SmartstrapReadHandler"); ("did_write", Named "SmartstrapWriteHandler");
     ("notified", Named "SmartstrapNotifyHandler")])].
Definition ClickRecognizerRef_decl : list (string * decl) :=
  [("ClickRecognizerRef", Typedef (Pointer Void))].
Definition ClickHandler_decl : list (string * decl) := [("ClickHandler", FunctionPointer)].
Definition ClickConfigProvider_decl : list (string * decl) :=
  [("ClickConfigProvider", FunctionPointer)].
Definition Layer_decl : list (string * decl) := [("Layer", Incomplete)].
Definition LayerUpdateProc_decl : list (string * decl) := [("LayerUpdateProc", FunctionPointer)].
Definition Window_decl : list (string * decl) := [("Window", Incomplete)].
Definition WindowHandler_decl : list (string * decl) := [("WindowHandler", FunctionPointer)].
Definition WindowHandlers_decl : list (string * decl) :=
  [("WindowHandlers", Structure false [("load", Named "WindowHandler");
     ("appear", Named "WindowHandler"); ("disappear", Named "WindowHandler");
     ("unload", Named "WindowHandler")])].
Definition Animation_decl : list (string * decl) := [("Animation", Incomplete)].
Definition AnimationProgress_decl : list (string * decl) :=
  [("AnimationProgress", Typedef int32_t)].
Definition AnimationCurve_decl : list (string * decl) :=
  [("AnimationCurve", enumeration AnimationCurve)].
Definition AnimationCurveFunction_decl : list (string * decl) :=
  [("AnimationCurveFunction", FunctionPointer)].
Definition AnimationStartedHandler_decl : list (string * decl) :=
  [("AnimationStartedHandler", FunctionPointer)].
Definition AnimationStoppedHandler_decl : list (string * decl) :=
  [("AnimationStoppedHandler", FunctionPointer)].
Definition AnimationHandlers_decl : list (string * decl) :=
  [("AnimationHandlers", Structure false [("started", Named "AnimationStartedHandler");
     ("stopped", Named "AnimationStoppedHandler")])].
Definition AnimationSetupImplementation_decl : list (string * decl) :=
  [("AnimationSetupImplementation", FunctionPointer)].
Definition AnimationUpdateImplementation_decl : list (string * decl) :=
  [("AnimationUpdateImplementation", FunctionPointer)].
Definition AnimationTeardownImplementation_decl : list (string * decl) :=
  [("AnimationTeardownImplementation", FunctionPointer)].
Definition AnimationImplementation_decl : list (string * decl) :=
  [("AnimationImplementation", Structure false [("setup", Named "AnimationSetupImplementation");
     ("update", Named "AnimationUpdateImplementation");
     ("teardown", Named "AnimationTeardownImplementation")])].
Definition PropertyAnimation_decl : list (string * decl) := [("PropertyAnimation", Incomplete)].
Definition GPointReturn_decl : list (string * decl) :=
  [("GPointReturn", Typedef (Named "GPoint"))].
Definition GRectReturn_decl : list (string * decl) := [("GRectReturn", Typedef (Named "GRect"))].
Definition Int16Setter_decl : list (string * decl) := [("Int16Setter", FunctionPointer)].
Definition Int16Getter_decl : list (string * decl) := [("Int16Getter", FunctionPointer)].
Definition UInt32Setter_decl : list (string * decl) := [("UInt32Setter", FunctionPointer)].
Definition UInt32Getter_decl : list (string * decl) := [("UInt32Getter", FunctionPointer)].
Definition GPointSetter_decl : list (string * decl) := [("GPointSetter", FunctionPointer)].
Definition GPointGetter_decl : list (string * decl) := [("GPointGetter", FunctionPointer)].
Definition GRectSetter_decl : list (string * decl) := [("GRectSetter", FunctionPointer)].
Definition GRectGetter_decl : list (string * decl) := [("GRectGetter", FunctionPointer)].
Definition GColor8Setter_decl : list (string * decl) := [("GColor8Setter", FunctionPointer)].
Definition GColor8Getter_decl : list (string * decl) := [("GColor8Getter", FunctionPointer)].
Definition PropertyAnimationAccessors_decl : list (string * decl) :=
  [("PropertyAnimationAccessors.setter", UnionOf false [("int16", Named "Int16Setter");
     ("gpoint", Named "GPointSetter"); ("grect", Named "GRectSetter");
     ("gcolor8", Named "GColor8Setter"); ("uint32", Named "UInt32Setter")]);
   ("PropertyAnimationAccessors.getter", UnionOf false [("int16", Named "Int16Getter");
     ("gpoint", Named "GPointGetter"); ("grect", Named "GRectGetter");
     ("gcolor8", Named "GColor8Getter"); ("uint32", Named "UInt32Getter")]);
   ("PropertyAnimationAccessors", Structure false
     [("setter", Named "PropertyAnimationAccessors.setter");
     ("getter", Named "PropertyAnimationAccessors.getter")])].
Definition PropertyAnimationImplementation_decl : list (string * decl) :=
  [("PropertyAnimationImplementation", Structure false [("base", Named "AnimationImplementation");
     ("accessors", Named "PropertyAnimationAccessors")])].
Definition TextLayer_decl : list (string * decl) := [("TextLayer", Incomplete)].
Definition ScrollLayer_decl : list (string * decl) := [("ScrollLayer", Incomplete)].
Definition ScrollLayerCallback_decl : list (string * decl) :=
  [("ScrollLayerCallback", FunctionPointer)].
Definition ScrollLayerCallbacks_decl : list (string * decl) :=
  [("ScrollLayerCallbacks", Structure false
     [("click_config_provider", Named "ClickConfigProvider");
     ("content_offset_changed_handler", Named "ScrollLayerCallback")])].
Definition ContentIndicator_decl : list (string * decl) := [("ContentIndicator", Incomplete)].
Definition ContentIndicatorDirection_decl : list (string * decl) :=
  [("ContentIndicatorDirection", enumeration ContentIndicatorDirection)].
Definition ContentIndicatorConfig_decl : list (string * decl) :=
  [("ContentIndicatorConfig.colors", Structure false [("foreground", Named "GColor");
     ("background", Named "GColor")]);
   ("ContentIndicatorConfig", Structure false [("layer", Pointer (Named "Layer"));
     ("times_out", Bool); ("alignment", Named "GAlign");
     ("colors", Named "ContentIndicatorConfig.colors")])].
Definition MenuIndex_decl : list (string * decl) :=
  [("MenuIndex", Structure false [("section", uint16_t); ("row", uint16_t)])].
Definition MenuCellSpan_decl : list (string * decl) :=
  [("MenuCellSpan", Structure false [("y", int16_t); ("h", int16_t); ("sep", int16_t);
     ("index", Named "MenuIndex")])].
Definition MenuLayer_decl : list (string * decl) := [("MenuLayer", Incomplete)].
Definition MenuLayerGetNumberOfSectionsCallback_decl : list (string * decl) :=
  [("MenuLayerGetNumberOfSectionsCallback", FunctionPointer)].
Definition MenuLayerGetNumberOfRowsInSectionsCallback_decl : list (string * decl) :=
  [("MenuLayerGetNumberOfRowsInSectionsCallback", FunctionPointer)].
Definition MenuLayerGetCellHeightCallback_decl : list (string * decl) :=
  [("MenuLayerGetCellHeightCallback", FunctionPointer)].
Definition MenuLayerGetHeaderHeightCallback_decl : list (string * decl) :=
  [("MenuLayerGetHeaderHeightCallback", FunctionPointer)].
Definition MenuLayerGetSeparatorHeightCallback_decl : list (string * decl) :=
  [("MenuLayerGetSeparatorHeightCallback", FunctionPointer)].
Definition MenuLayerDrawRowCallback_decl : list (string * decl) :=
  [("MenuLayerDrawRowCallback", FunctionPointer)].
Definition MenuLayerDrawHeaderCallback_decl : list (string * decl) :=
  [("MenuLayerDrawHeaderCallback", FunctionPointer)].
Definition MenuLayerDrawSeparatorCallback_decl : list (string * decl) :=
  [("MenuLayerDrawSeparatorCallback", FunctionPointer)].
Definition MenuLayerSelectCallback_decl : list (string * decl) :=
  [("MenuLayerSelectCallback", FunctionPointer)].
Definition MenuLayerSelectionChangedCallback_decl : list (string * decl) :=
  [("MenuLayerSelectionChangedCallback", FunctionPointer)].
Definition MenuLayerSelectionWillChangeCallback_decl : list (string * decl) :=
  [("MenuLayerSelectionWillChangeCallback", FunctionPointer)].
Definition MenuLayerDrawBackgroundCallback_decl : list (string * decl) :=
  [("MenuLayerDrawBackgroundCallback", FunctionPointer)].
Definition MenuLayerCallbacks_decl : list (string * decl) :=
  [("MenuLayerCallbacks", Structure false
     [("get_num_sections", Named "MenuLayerGetNumberOfSectionsCallback");
     ("get_num_rows", Named "MenuLayerGetNumberOfRowsInSectionsCallback");
     ("get_cell_height", Named "MenuLayerGetCellHeightCallback");
     ("get_header_height", Named "MenuLayerGetHeaderHeightCallback");
     ("draw_row", Named "MenuLayerDrawRowCallback");
     ("draw_header", Named "MenuLayerDrawHeaderCallback");
     ("select_click", Named "MenuLayerSelectCallback");
     ("select_long_click", Named "MenuLayerSelectCallback");
     ("selection_changed", Named "MenuLayerSelectionChangedCallback");
     ("get_separator_height", Named "MenuLayerGetSeparatorHeightCallback");
     ("draw_separator", Named "MenuLayerDrawSeparatorCallback");
     ("selection_will_change", Named "MenuLayerSelectionWillChangeCallback");
     ("draw_background", Named "MenuLayerDrawBackgroundCallback")])].
Definition MenuRowAlign_decl : list (string * decl) :=
  [("MenuRowAlign", enumeration MenuRowAlign)].
Definition SimpleMenuLayer_decl : list (string * decl) := [("SimpleMenuLayer", Incomplete)].
Definition SimpleMenuLayerSelectCallback_decl : list (string * decl) :=
  [("SimpleMenuLayerSelectCallback", FunctionPointer)].
Definition SimpleMenuItem_decl : list (string * decl) :=
  [("SimpleMenuItem", Structure false [("title", Pointer (Const Char));
     ("subtitle", Pointer (Const Char)); ("icon", Pointer (Named "GBitmap"));
     ("callback", Named "SimpleMenuLayerSelectCallback")])].
Definition SimpleMenuSection_decl : list (string * decl) :=
  [("SimpleMenuSection", Structure false [("title", Pointer (Const Char));
     ("items", Pointer (Const (Named "SimpleMenuItem"))); ("num_items", uint32_t)])].
Definition ActionBarLayerIconPressAnimation_decl : list (string * decl) :=
  [("ActionBarLayerIconPressAnimation", enumeration ActionBarLayerIconPressAnimation)].
Definition ActionBarLayer_decl : list (string * decl) := [("ActionBarLayer", Incomplete)].
Definition StatusBarLayer_decl : list (string * decl) := [("StatusBarLayer", Incomplete)].
Definition StatusBarLayerSeparatorMode_decl : list (string * decl) :=
  [("StatusBarLayerSeparatorMode", enumeration StatusBarLayerSeparatorMode)].
Definition BitmapLayer_decl : list (string * decl) := [("BitmapLayer", Incomplete)].
Definition RotBitmapLayer_decl : list (string * decl) := [("RotBitmapLayer", Incomplete)].
Definition NumberWindow_decl : list (string * decl) := [("NumberWindow", Incomplete)].
Definition NumberWindowCallback_decl : list (string * decl) :=
  [("NumberWindowCallback", FunctionPointer)].
Definition NumberWindowCallbacks_decl : list (string * decl) :=
  [("NumberWindowCallbacks", Structure false [("incremented", Named "NumberWindowCallback");
     ("decremented", Named "NumberWindowCallback"); ("selected", Named "NumberWindowCallback")])].
Definition ActionMenuItem_decl : list (string * decl) := [("ActionMenuItem", Incomplete)].
Definition ActionMenuLevel_decl : list (string * decl) := [("ActionMenuLevel", Incomplete)].
Definition ActionMenuAlign_decl : list (string * decl) :=
  [("ActionMenuAlign", enumeration ActionMenuAlign)].
Definition ActionMenu_decl : list (string * decl) := [("ActionMenu", Incomplete)].
Definition ActionMenuDidCloseCb_decl : list (string * decl) :=
  [("ActionMenuDidCloseCb", FunctionPointer)].
Definition ActionMenuLevelDisplayMode_decl : list (string * decl) :=
  [("ActionMenuLevelDisplayMode", enumeration ActionMenuLevelDisplayMode)].
Definition ActionMenuPerformActionCb_decl : list (string * decl) :=
  [("ActionMenuPerformActionCb", FunctionPointer)].
Definition ActionMenuEachItemCb_decl : list (string * decl) :=
  [("ActionMenuEachItemCb", FunctionPointer)].
Definition ActionMenuConfig_decl : list (string * decl) :=
  [("ActionMenuConfig.colors", Structure false [("background", Named "GColor");
     ("foreground", Named "GColor")]);
   ("ActionMenuConfig", Structure false
     [("root_level", Pointer (Const (Named "ActionMenuLevel"))); ("context", Pointer Void);
     ("colors", Named "ActionMenuConfig.colors"); ("will_close", Named "ActionMenuDidCloseCb");
     ("did_close", Named "ActionMenuDidCloseCb"); ("align", Named "ActionMenuAlign")])].
Definition VibePattern_decl : list (string * decl) :=
  [("VibePattern", Structure false [("durations", Pointer (Const uint32_t));
     ("num_segments", uint32_t)])].
Definition tm_decl : list (string * decl) :=
  [("tm.tm_zone", Array Char 6);
   ("tm", Structure false [("tm_sec", int); ("tm_min", int); ("tm_hour", int); ("tm_mday", int);
     ("tm_mon", int); ("tm_year", int); ("tm_wday", int); ("tm_yday", int); ("tm_isdst", int);
     ("tm_gmtoff", int); ("tm_zone", Named "tm.tm_zone")])].

(** The table of all types. *)
Definition pebble_types : list (string * decl) :=
  concat
    [ButtonId_decl; WatchInfoModel_decl; WatchInfoColor_decl; WatchInfoVersion_decl;
     WeekDay_decl; ConnectionHandler_decl; ConnectionHandlers_decl;
     BluetoothConnectionHandler_decl; AppFocusHandler_decl; AppFocusHandlers_decl;
     BatteryChargeState_decl; BatteryStateHandler_decl; AccelData_decl; AccelRawData_decl;
     AccelAxisType_decl; AccelDataHandler_decl; AccelRawDataHandler_decl; AccelTapHandler_decl;
     AccelSamplingRate_decl; CompassStatus_decl; CompassHeading_decl; CompassHeadingData_decl;
     CompassHeadingHandler_decl; TimeUnits_decl; TickHandler_decl; HealthMetric_decl;
     HealthValue_decl; HealthServiceTimeScope_decl; HealthActivityMask_decl;
     HealthActivity_decl; HealthActivityIteratorCB_decl; HealthIterationDirection_decl;
     HealthServiceAccessibilityMask_decl; HealthEventType_decl; HealthEventHandler_decl;
     AmbientLightLevel_decl; HealthMinuteData_decl; MeasurementSystem_decl;
     DataLoggingSessionRef_decl; DataLoggingItemType_decl; DataLoggingResult_decl; Uuid_decl;
     AppLogLevel_decl; DictionaryResult_decl; TupleType_decl; Tuple_decl; Dictionary_decl;
     DictionaryIterator_decl; Tuplet_decl; DictionarySerializeCallback_decl;
     DictionaryKeyUpdatedCallback_decl; DictationSession_decl; DictationSessionStatus_decl;
     DictationSessionStatusCallback_decl; AppMessageResult_decl; AppMessageInboxReceived_decl;
     AppMessageInboxDropped_decl; AppMessageOutboxSent_decl; AppMessageOutboxFailed_decl;
     AppSyncTupleChangedCallback_decl; AppSyncErrorCallback_decl; AppSync_decl; ResHandle_decl;
     AppWorkerResult_decl; AppWorkerMessage_decl; AppWorkerMessageHandler_decl;
     SniffInterval_decl; AppTimer_decl; AppTimerCallback_decl; StatusCode_decl; status_t_decl;
     WakeupId_decl; WakeupHandler_decl; AppLaunchReason_decl; GColor8_decl; GColor_decl;
     GPoint_decl; GSize_decl; GRect_decl; GBitmapFormat_decl; GBitmap_decl;
     GBitmapSequence_decl; GBitmapDataRowInfo_decl; GAlign_decl; GCompOp_decl; GContext_decl;
     GEdgeInsets_decl; GCornerMask_decl; GOvalScaleMode_decl; GDrawCommand_decl;
     GDrawCommandFrame_decl; GDrawCommandImage_decl; GDrawCommandList_decl;
     GDrawCommandListIteratorCb_decl; GDrawCommandSequence_decl; GDrawCommandType_decl;
     GPathInfo_decl; GPath_decl; FontInfo_decl; GFont_decl; GTextOverflowMode_decl;
     GTextAlignment_decl; GTextAttributes_decl; SmartstrapResult_decl; SmartstrapServiceId_decl;
     SmartstrapAttributeId_decl; SmartstrapAttribute_decl;
     SmartstrapServiceAvailabilityHandler_decl; SmartstrapReadHandler_decl;
     SmartstrapWriteHandler_decl; SmartstrapNotifyHandler_decl; SmartstrapHandlers_decl;
     ClickRecognizerRef_decl; ClickHandler_decl; ClickConfigProvider_decl; Layer_decl;
     LayerUpdateProc_decl; Window_decl; WindowHandler_decl; WindowHandlers_decl; Animation_decl;
     AnimationProgress_decl; AnimationCurve_decl; AnimationCurveFunction_decl;
     AnimationStartedHandler_decl; AnimationStoppedHandler_decl; AnimationHandlers_decl;
     AnimationSetupImplementation_decl; AnimationUpdateImplementation_decl;
     AnimationTeardownImplementation_decl; AnimationImplementation_decl; PropertyAnimation_decl;
     GPointReturn_decl; GRectReturn_decl; Int16Setter_decl; Int16Getter_decl; UInt32Setter_decl;
     UInt32Getter_decl; GPointSetter_decl; GPointGetter_decl; GRectSetter_decl;
     GRectGetter_decl; GColor8Setter_decl; GColor8Getter_decl; PropertyAnimationAccessors_decl;
     PropertyAnimationImplementation_decl; TextLayer_decl; ScrollLayer_decl;
     ScrollLayerCallback_decl; ScrollLayerCallbacks_decl; ContentIndicator_decl;
     ContentIndicatorDirection_decl; ContentIndicatorConfig_decl; MenuIndex_decl;
     MenuCellSpan_decl; MenuLayer_decl; MenuLayerGetNumberOfSectionsCallback_decl;
     MenuLayerGetNumberOfRowsInSectionsCallback_decl; MenuLayerGetCellHeightCallback_decl;
     MenuLayerGetHeaderHeightCallback_decl; MenuLayerGetSeparatorHeightCallback_decl;
     MenuLayerDrawRowCallback_decl; MenuLayerDrawHeaderCallback_decl;
     MenuLayerDrawSeparatorCallback_decl; MenuLayerSelectCallback_decl;
     MenuLayerSelectionChangedCallback_decl; MenuLayerSelectionWillChangeCallback_decl;
     MenuLayerDrawBackgroundCallback_decl; MenuLayerCallbacks_decl; MenuRowAlign_decl;
     SimpleMenuLayer_decl; SimpleMenuLayerSelectCallback_decl; SimpleMenuItem_decl;
     SimpleMenuSection_decl; ActionBarLayerIconPressAnimation_decl; ActionBarLayer_decl;
     StatusBarLayer_decl; StatusBarLayerSeparatorMode_decl; BitmapLayer_decl;
     RotBitmapLayer_decl; NumberWindow_decl; NumberWindowCallback_decl;
     NumberWindowCallbacks_decl; ActionMenuItem_decl; ActionMenuLevel_decl;
     ActionMenuAlign_decl; ActionMenu_decl; ActionMenuDidCloseCb_decl;
     ActionMenuLevelDisplayMode_decl; ActionMenuPerformActionCb_decl; ActionMenuEachItemCb_decl;
     ActionMenuConfig_decl; VibePattern_decl; tm_decl].
