(* ===== verification/SdkApi.v ===== *)
(** * Functions of the SDK (runtime/pebble.h)

    The declarations of the functions that the firmware exports to applications, by the
    groups of the header: name, result, parameters, and whether more arguments may follow.
    The hooks of the firmware are entered where such a function was called, so these are
    the calls whose arguments they find in registers and on the stack. *)

From stdpp Require Import strings gmap.
From S2P Require Import Prelude Abi.

(** ** Internationalization *)

Definition i18n_get_system_locale : prototype :=
  mk_prototype "i18n_get_system_locale" (Pointer (Const Char)) [] false.

(** ** Watch Info *)

Definition watch_info_get_model : prototype :=
  mk_prototype "watch_info_get_model" (Named "WatchInfoModel") [] false.
Definition watch_info_get_firmware_version : prototype :=
  mk_prototype "watch_info_get_firmware_version" (Named "WatchInfoVersion") [] false.
Definition watch_info_get_color : prototype :=
  mk_prototype "watch_info_get_color" (Named "WatchInfoColor") [] false.

(** ** Math *)

Definition sin_lookup : prototype := mk_prototype "sin_lookup" int32_t [("angle", int32_t)] false.
Definition cos_lookup : prototype := mk_prototype "cos_lookup" int32_t [("angle", int32_t)] false.
Definition atan2_lookup : prototype :=
  mk_prototype "atan2_lookup" int32_t [("y", int16_t); ("x", int16_t)] false.

(** ** Wall Time *)

Definition clock_copy_time_string : prototype :=
  mk_prototype "clock_copy_time_string" Void [("buffer", Pointer Char); ("size", uint8_t)]
    false.
Definition clock_is_24h_style : prototype := mk_prototype "clock_is_24h_style" Bool [] false.
Definition clock_to_timestamp : prototype :=
  mk_prototype "clock_to_timestamp" time_t [("day", Named "WeekDay"); ("hour", int);
    ("minute", int)] false.
Definition clock_is_timezone_set : prototype :=
  mk_prototype "clock_is_timezone_set" Bool [] false.
Definition clock_get_timezone : prototype :=
  mk_prototype "clock_get_timezone" Void [("timezone", Pointer Char);
    ("buffer_size", Const size_t)] false.

(** ** Connection Service *)

Definition connection_service_peek_pebble_app_connection : prototype :=
  mk_prototype "connection_service_peek_pebble_app_connection" Bool [] false.
Definition connection_service_peek_pebblekit_connection : prototype :=
  mk_prototype "connection_service_peek_pebblekit_connection" Bool [] false.
Definition connection_service_subscribe : prototype :=
  mk_prototype "connection_service_subscribe" Void
    [("conn_handlers", Named "ConnectionHandlers")] false.
Definition connection_service_unsubscribe : prototype :=
  mk_prototype "connection_service_unsubscribe" Void [] false.
Definition bluetooth_connection_service_peek : prototype :=
  mk_prototype "bluetooth_connection_service_peek" Bool [] false.
Definition bluetooth_connection_service_subscribe : prototype :=
  mk_prototype "bluetooth_connection_service_subscribe" Void
    [("handler", Named "ConnectionHandler")] false.
Definition bluetooth_connection_service_unsubscribe : prototype :=
  mk_prototype "bluetooth_connection_service_unsubscribe" Void [] false.

(** ** App Focus Service *)

Definition app_focus_service_subscribe_handlers : prototype :=
  mk_prototype "app_focus_service_subscribe_handlers" Void
    [("handlers", Named "AppFocusHandlers")] false.
Definition app_focus_service_subscribe : prototype :=
  mk_prototype "app_focus_service_subscribe" Void [("handler", Named "AppFocusHandler")] false.
Definition app_focus_service_unsubscribe : prototype :=
  mk_prototype "app_focus_service_unsubscribe" Void [] false.

(** ** Battery State Service *)

Definition battery_state_service_subscribe : prototype :=
  mk_prototype "battery_state_service_subscribe" Void [("handler", Named "BatteryStateHandler")]
    false.
Definition battery_state_service_unsubscribe : prototype :=
  mk_prototype "battery_state_service_unsubscribe" Void [] false.
Definition battery_state_service_peek : prototype :=
  mk_prototype "battery_state_service_peek" (Named "BatteryChargeState") [] false.

(** ** Accelerometer Service *)

Definition accel_service_peek : prototype :=
  mk_prototype "accel_service_peek" int [("data", Pointer (Named "AccelData"))] false.
Definition accel_service_set_sampling_rate : prototype :=
  mk_prototype "accel_service_set_sampling_rate" int [("rate", Named "AccelSamplingRate")]
    false.
Definition accel_service_set_samples_per_update : prototype :=
  mk_prototype "accel_service_set_samples_per_update" int [("num_samples", uint32_t)] false.
Definition accel_data_service_subscribe : prototype :=
  mk_prototype "accel_data_service_subscribe" Void [("samples_per_update", uint32_t);
    ("handler", Named "AccelDataHandler")] false.
Definition accel_data_service_unsubscribe : prototype :=
  mk_prototype "accel_data_service_unsubscribe" Void [] false.
Definition accel_tap_service_subscribe : prototype :=
  mk_prototype "accel_tap_service_subscribe" Void [("handler", Named "AccelTapHandler")] false.
Definition accel_tap_service_unsubscribe : prototype :=
  mk_prototype "accel_tap_service_unsubscribe" Void [] false.
Definition accel_raw_data_service_subscribe : prototype :=
  mk_prototype "accel_raw_data_service_subscribe" Void [("samples_per_update", uint32_t);
    ("handler", Named "AccelRawDataHandler")] false.

(** ** Compass Service *)

Definition compass_service_set_heading_filter : prototype :=
  mk_prototype "compass_service_set_heading_filter" int [("filter", Named "CompassHeading")]
    false.
Definition compass_service_subscribe : prototype :=
  mk_prototype "compass_service_subscribe" Void [("handler", Named "CompassHeadingHandler")]
    false.
Definition compass_service_unsubscribe : prototype :=
  mk_prototype "compass_service_unsubscribe" Void [] false.
Definition compass_service_peek : prototype :=
  mk_prototype "compass_service_peek" int [("data", Pointer (Named "CompassHeadingData"))]
    false.

(** ** Tick Timer Service *)

Definition tick_timer_service_subscribe : prototype :=
  mk_prototype "tick_timer_service_subscribe" Void [("tick_units", Named "TimeUnits");
    ("handler", Named "TickHandler")] false.
Definition tick_timer_service_unsubscribe : prototype :=
  mk_prototype "tick_timer_service_unsubscribe" Void [] false.

(** ** Health Service *)

Definition health_service_sum : prototype :=
  mk_prototype "health_service_sum" (Named "HealthValue") [("metric", Named "HealthMetric");
    ("time_start", time_t); ("time_end", time_t)] false.
Definition health_service_sum_today : prototype :=
  mk_prototype "health_service_sum_today" (Named "HealthValue")
    [("metric", Named "HealthMetric")] false.
Definition health_service_sum_averaged : prototype :=
  mk_prototype "health_service_sum_averaged" (Named "HealthValue")
    [("metric", Named "HealthMetric"); ("time_start", time_t); ("time_end", time_t);
    ("scope", Named "HealthServiceTimeScope")] false.
Definition health_service_peek_current_activities : prototype :=
  mk_prototype "health_service_peek_current_activities" (Named "HealthActivityMask") [] false.
Definition health_service_activities_iterate : prototype :=
  mk_prototype "health_service_activities_iterate" Void
    [("activity_mask", Named "HealthActivityMask"); ("time_start", time_t);
    ("time_end", time_t); ("direction", Named "HealthIterationDirection");
    ("callback", Named "HealthActivityIteratorCB"); ("context", Pointer Void)] false.
Definition health_service_metric_accessible : prototype :=
  mk_prototype "health_service_metric_accessible" (Named "HealthServiceAccessibilityMask")
    [("metric", Named "HealthMetric"); ("time_start", time_t); ("time_end", time_t)] false.
Definition health_service_metric_averaged_accessible : prototype :=
  mk_prototype "health_service_metric_averaged_accessible" (Named
    "HealthServiceAccessibilityMask") [("metric", Named "HealthMetric"); ("time_start", time_t);
    ("time_end", time_t); ("scope", Named "HealthServiceTimeScope")] false.
Definition health_service_any_activity_accessible : prototype :=
  mk_prototype "health_service_any_activity_accessible" (Named "HealthServiceAccessibilityMask")
    [("activity_mask", Named "HealthActivityMask"); ("time_start", time_t);
    ("time_end", time_t)] false.
Definition health_service_events_subscribe : prototype :=
  mk_prototype "health_service_events_subscribe" Bool [("handler", Named "HealthEventHandler");
    ("context", Pointer Void)] false.
Definition health_service_events_unsubscribe : prototype :=
  mk_prototype "health_service_events_unsubscribe" Bool [] false.
Definition health_service_get_minute_history : prototype :=
  mk_prototype "health_service_get_minute_history" uint32_t
    [("minute_data", Pointer (Named "HealthMinuteData")); ("max_records", uint32_t);
    ("time_start", Pointer time_t); ("time_end", Pointer time_t)] false.
Definition health_service_get_measurement_system_for_display : prototype :=
  mk_prototype "health_service_get_measurement_system_for_display" (Named "MeasurementSystem")
    [("metric", Named "HealthMetric")] false.

(** ** Data Logging *)

Definition data_logging_create : prototype :=
  mk_prototype "data_logging_create" (Named "DataLoggingSessionRef") [("tag", uint32_t);
    ("item_type", Named "DataLoggingItemType"); ("item_length", uint16_t); ("resume", Bool)]
    false.
Definition data_logging_finish : prototype :=
  mk_prototype "data_logging_finish" Void [("logging_session", Named "DataLoggingSessionRef")]
    false.
Definition data_logging_log : prototype :=
  mk_prototype "data_logging_log" (Named "DataLoggingResult")
    [("logging_session", Named "DataLoggingSessionRef"); ("data", Pointer (Const Void));
    ("num_items", uint32_t)] false.

(** ** UUID *)

Definition uuid_equal : prototype :=
  mk_prototype "uuid_equal" Bool [("uu1", Pointer (Const (Named "Uuid")));
    ("uu2", Pointer (Const (Named "Uuid")))] false.
Definition uuid_to_string : prototype :=
  mk_prototype "uuid_to_string" Void [("uuid", Pointer (Const (Named "Uuid")));
    ("buffer", Pointer Char)] false.

(** ** Logging *)

Definition app_log : prototype :=
  mk_prototype "app_log" Void [("log_level", uint8_t); ("src_filename", Pointer (Const Char));
    ("src_line_number", int); ("fmt", Pointer (Const Char))] true.

(** ** Dictionary *)

Definition dict_calc_buffer_size : prototype :=
  mk_prototype "dict_calc_buffer_size" uint32_t [("tuple_count", Const uint8_t)] true.
Definition dict_size : prototype :=
  mk_prototype "dict_size" uint32_t [("iter", Pointer (Named "DictionaryIterator"))] false.
Definition dict_write_begin : prototype :=
  mk_prototype "dict_write_begin" (Named "DictionaryResult")
    [("iter", Pointer (Named "DictionaryIterator")); ("buffer", Const (Pointer uint8_t));
    ("size", Const uint16_t)] false.
Definition dict_write_data : prototype :=
  mk_prototype "dict_write_data" (Named "DictionaryResult")
    [("iter", Pointer (Named "DictionaryIterator")); ("key", Const uint32_t);
    ("data", Const (Pointer (Const uint8_t))); ("size", Const uint16_t)] false.
Definition dict_write_cstring : prototype :=
  mk_prototype "dict_write_cstring" (Named "DictionaryResult")
    [("iter", Pointer (Named "DictionaryIterator")); ("key", Const uint32_t);
    ("cstring", Const (Pointer (Const Char)))] false.
Definition dict_write_int : prototype :=
  mk_prototype "dict_write_int" (Named "DictionaryResult")
    [("iter", Pointer (Named "DictionaryIterator")); ("key", Const uint32_t);
    ("integer", Pointer (Const Void)); ("width_bytes", Const uint8_t);
    ("is_signed", Const Bool)] false.
Definition dict_write_uint8 : prototype :=
  mk_prototype "dict_write_uint8" (Named "DictionaryResult")
    [("iter", Pointer (Named "DictionaryIterator")); ("key", Const uint32_t);
    ("value", Const uint8_t)] false.
Definition dict_write_uint16 : prototype :=
  mk_prototype "dict_write_uint16" (Named "DictionaryResult")
    [("iter", Pointer (Named "DictionaryIterator")); ("key", Const uint32_t);
    ("value", Const uint16_t)] false.
Definition dict_write_uint32 : prototype :=
  mk_prototype "dict_write_uint32" (Named "DictionaryResult")
    [("iter", Pointer (Named "DictionaryIterator")); ("key", Const uint32_t);
    ("value", Const uint32_t)] false.
Definition dict_write_int8 : prototype :=
  mk_prototype "dict_write_int8" (Named "DictionaryResult")
    [("iter", Pointer (Named "DictionaryIterator")); ("key", Const uint32_t);
    ("value", Const int8_t)] false.
Definition dict_write_int16 : prototype :=
  mk_prototype "dict_write_int16" (Named "DictionaryResult")
    [("iter", Pointer (Named "DictionaryIterator")); ("key", Const uint32_t);
    ("value", Const int16_t)] false.
Definition dict_write_int32 : prototype :=
  mk_prototype "dict_write_int32" (Named "DictionaryResult")
    [("iter", Pointer (Named "DictionaryIterator")); ("key", Const uint32_t);
    ("value", Const int32_t)] false.
Definition dict_write_end : prototype :=
  mk_prototype "dict_write_end" uint32_t [("iter", Pointer (Named "DictionaryIterator"))] false.
Definition dict_read_begin_from_buffer : prototype :=
  mk_prototype "dict_read_begin_from_buffer" (Pointer (Named "Tuple"))
    [("iter", Pointer (Named "DictionaryIterator"));
    ("buffer", Const (Pointer (Const uint8_t))); ("size", Const uint16_t)] false.
Definition dict_read_next : prototype :=
  mk_prototype "dict_read_next" (Pointer (Named "Tuple"))
    [("iter", Pointer (Named "DictionaryIterator"))] false.
Definition dict_read_first : prototype :=
  mk_prototype "dict_read_first" (Pointer (Named "Tuple"))
    [("iter", Pointer (Named "DictionaryIterator"))] false.
Definition dict_serialize_tuplets : prototype :=
  mk_prototype "dict_serialize_tuplets" (Named "DictionaryResult")
    [("callback", Named "DictionarySerializeCallback"); ("context", Pointer Void); ("tuplets",
    Const (Pointer (Const (Named "Tuplet")))); ("tuplets_count", Const uint8_t)] false.
Definition dict_serialize_tuplets_to_buffer : prototype :=
  mk_prototype "dict_serialize_tuplets_to_buffer" (Named "DictionaryResult") [("tuplets", Const
    (Pointer (Const (Named "Tuplet")))); ("tuplets_count", Const uint8_t);
    ("buffer", Pointer uint8_t); ("size_in_out", Pointer uint32_t)] false.
Definition dict_serialize_tuplets_to_buffer_with_iter : prototype :=
  mk_prototype "dict_serialize_tuplets_to_buffer_with_iter" (Named "DictionaryResult")
    [("iter", Pointer (Named "DictionaryIterator")); ("tuplets", Const (Pointer (Const (Named
    "Tuplet")))); ("tuplets_count", Const uint8_t); ("buffer", Pointer uint8_t);
    ("size_in_out", Pointer uint32_t)] false.
Definition dict_write_tuplet : prototype :=
  mk_prototype "dict_write_tuplet" (Named "DictionaryResult")
    [("iter", Pointer (Named "DictionaryIterator")); ("tuplet", Const (Pointer (Const (Named
    "Tuplet"))))] false.
Definition dict_calc_buffer_size_from_tuplets : prototype :=
  mk_prototype "dict_calc_buffer_size_from_tuplets" uint32_t [("tuplets", Const (Pointer (Const
    (Named "Tuplet")))); ("tuplets_count", Const uint8_t)] false.
Definition dict_merge : prototype :=
  mk_prototype "dict_merge" (Named "DictionaryResult")
    [("dest", Pointer (Named "DictionaryIterator")); ("dest_max_size_in_out", Pointer uint32_t);
    ("source", Pointer (Named "DictionaryIterator")); ("update_existing_keys_only", Const Bool);
    ("key_callback", Const (Named "DictionaryKeyUpdatedCallback")); ("context", Pointer Void)]
    false.
Definition dict_find : prototype :=
  mk_prototype "dict_find" (Pointer (Named "Tuple"))
    [("iter", Pointer (Const (Named "DictionaryIterator"))); ("key", Const uint32_t)] false.

(** ** Dictation *)

Definition dictation_session_create : prototype :=
  mk_prototype "dictation_session_create" (Pointer (Named "DictationSession"))
    [("buffer_size", uint32_t); ("callback", Named "DictationSessionStatusCallback");
    ("callback_context", Pointer Void)] false.
Definition dictation_session_destroy : prototype :=
  mk_prototype "dictation_session_destroy" Void
    [("session", Pointer (Named "DictationSession"))] false.
Definition dictation_session_start : prototype :=
  mk_prototype "dictation_session_start" (Named "DictationSessionStatus")
    [("session", Pointer (Named "DictationSession"))] false.
Definition dictation_session_stop : prototype :=
  mk_prototype "dictation_session_stop" (Named "DictationSessionStatus")
    [("session", Pointer (Named "DictationSession"))] false.
Definition dictation_session_enable_confirmation : prototype :=
  mk_prototype "dictation_session_enable_confirmation" Void
    [("session", Pointer (Named "DictationSession")); ("is_enabled", Bool)] false.
Definition dictation_session_enable_error_dialogs : prototype :=
  mk_prototype "dictation_session_enable_error_dialogs" Void
    [("session", Pointer (Named "DictationSession")); ("is_enabled", Bool)] false.

(** ** App Message *)

Definition app_message_open : prototype :=
  mk_prototype "app_message_open" (Named "AppMessageResult") [("size_inbound", Const uint32_t);
    ("size_outbound", Const uint32_t)] false.
Definition app_message_deregister_callbacks : prototype :=
  mk_prototype "app_message_deregister_callbacks" Void [] false.
Definition app_message_get_context : prototype :=
  mk_prototype "app_message_get_context" (Pointer Void) [] false.
Definition app_message_set_context : prototype :=
  mk_prototype "app_message_set_context" (Pointer Void) [("context", Pointer Void)] false.
Definition app_message_register_inbox_received : prototype :=
  mk_prototype "app_message_register_inbox_received" (Named "AppMessageInboxReceived")
    [("received_callback", Named "AppMessageInboxReceived")] false.
Definition app_message_register_inbox_dropped : prototype :=
  mk_prototype "app_message_register_inbox_dropped" (Named "AppMessageInboxDropped")
    [("dropped_callback", Named "AppMessageInboxDropped")] false.
Definition app_message_register_outbox_sent : prototype :=
  mk_prototype "app_message_register_outbox_sent" (Named "AppMessageOutboxSent")
    [("sent_callback", Named "AppMessageOutboxSent")] false.
Definition app_message_register_outbox_failed : prototype :=
  mk_prototype "app_message_register_outbox_failed" (Named "AppMessageOutboxFailed")
    [("failed_callback", Named "AppMessageOutboxFailed")] false.
Definition app_message_inbox_size_maximum : prototype :=
  mk_prototype "app_message_inbox_size_maximum" uint32_t [] false.
Definition app_message_outbox_size_maximum : prototype :=
  mk_prototype "app_message_outbox_size_maximum" uint32_t [] false.
Definition app_message_outbox_begin : prototype :=
  mk_prototype "app_message_outbox_begin" (Named "AppMessageResult")
    [("iterator", Pointer (Pointer (Named "DictionaryIterator")))] false.
Definition app_message_outbox_send : prototype :=
  mk_prototype "app_message_outbox_send" (Named "AppMessageResult") [] false.

(** ** App Sync *)

Definition app_sync_init : prototype :=
  mk_prototype "app_sync_init" Void [("s", Pointer (Named "AppSync"));
    ("buffer", Pointer uint8_t); ("buffer_size", Const uint16_t); ("keys_and_initial_values",
    Const (Pointer (Const (Named "Tuplet")))); ("count", Const uint8_t);
    ("tuple_changed_callback", Named "AppSyncTupleChangedCallback");
    ("error_callback", Named "AppSyncErrorCallback"); ("context", Pointer Void)] false.
Definition app_sync_deinit : prototype :=
  mk_prototype "app_sync_deinit" Void [("s", Pointer (Named "AppSync"))] false.
Definition app_sync_set : prototype :=
  mk_prototype "app_sync_set" (Named "AppMessageResult") [("s", Pointer (Named "AppSync"));
    ("keys_and_values_to_update", Const (Pointer (Const (Named "Tuplet"))));
    ("count", Const uint8_t)] false.
Definition app_sync_get : prototype :=
  mk_prototype "app_sync_get" (Pointer (Const (Named "Tuple")))
    [("s", Pointer (Const (Named "AppSync"))); ("key", Const uint32_t)] false.

(** ** PBI File Format *)

Definition resource_get_handle : prototype :=
  mk_prototype "resource_get_handle" (Named "ResHandle") [("resource_id", uint32_t)] false.
Definition resource_size : prototype :=
  mk_prototype "resource_size" size_t [("h", Named "ResHandle")] false.
Definition resource_load : prototype :=
  mk_prototype "resource_load" size_t [("h", Named "ResHandle"); ("buffer", Pointer uint8_t);
    ("max_length", size_t)] false.
Definition resource_load_byte_range : prototype :=
  mk_prototype "resource_load_byte_range" size_t [("h", Named "ResHandle");
    ("start_offset", uint32_t); ("buffer", Pointer uint8_t); ("num_bytes", size_t)] false.

(** ** App *)

Definition app_event_loop : prototype := mk_prototype "app_event_loop" Void [] false.

(** ** App Worker *)

Definition app_worker_is_running : prototype :=
  mk_prototype "app_worker_is_running" Bool [] false.
Definition app_worker_launch : prototype :=
  mk_prototype "app_worker_launch" (Named "AppWorkerResult") [] false.
Definition app_worker_kill : prototype :=
  mk_prototype "app_worker_kill" (Named "AppWorkerResult") [] false.
Definition app_worker_message_subscribe : prototype :=
  mk_prototype "app_worker_message_subscribe" Bool
    [("handler", Named "AppWorkerMessageHandler")] false.
Definition app_worker_message_unsubscribe : prototype :=
  mk_prototype "app_worker_message_unsubscribe" Bool [] false.
Definition app_worker_send_message : prototype :=
  mk_prototype "app_worker_send_message" Void [("type", uint8_t);
    ("data", Pointer (Named "AppWorkerMessage"))] false.

(** ** App Communication *)

Definition app_comm_set_sniff_interval : prototype :=
  mk_prototype "app_comm_set_sniff_interval" Void [("interval", Const (Named "SniffInterval"))]
    false.
Definition app_comm_get_sniff_interval : prototype :=
  mk_prototype "app_comm_get_sniff_interval" (Named "SniffInterval") [] false.

(** ** Timer *)

Definition psleep : prototype := mk_prototype "psleep" Void [("millis", int)] false.
Definition app_timer_register : prototype :=
  mk_prototype "app_timer_register" (Pointer (Named "AppTimer")) [("timeout_ms", uint32_t);
    ("callback", Named "AppTimerCallback"); ("callback_data", Pointer Void)] false.
Definition app_timer_reschedule : prototype :=
  mk_prototype "app_timer_reschedule" Bool [("timer_handle", Pointer (Named "AppTimer"));
    ("new_timeout_ms", uint32_t)] false.
Definition app_timer_cancel : prototype :=
  mk_prototype "app_timer_cancel" Void [("timer_handle", Pointer (Named "AppTimer"))] false.

(** ** Memory Management *)

Definition heap_bytes_free : prototype := mk_prototype "heap_bytes_free" size_t [] false.
Definition heap_bytes_used : prototype := mk_prototype "heap_bytes_used" size_t [] false.

(** ** Storage *)

Definition persist_exists : prototype :=
  mk_prototype "persist_exists" Bool [("key", Const uint32_t)] false.
Definition persist_get_size : prototype :=
  mk_prototype "persist_get_size" int [("key", Const uint32_t)] false.
Definition persist_read_bool : prototype :=
  mk_prototype "persist_read_bool" Bool [("key", Const uint32_t)] false.
Definition persist_read_int : prototype :=
  mk_prototype "persist_read_int" int32_t [("key", Const uint32_t)] false.
Definition persist_read_data : prototype :=
  mk_prototype "persist_read_data" int [("key", Const uint32_t); ("buffer", Pointer Void);
    ("buffer_size", Const size_t)] false.
Definition persist_read_string : prototype :=
  mk_prototype "persist_read_string" int [("key", Const uint32_t); ("buffer", Pointer Char);
    ("buffer_size", Const size_t)] false.
Definition persist_write_bool : prototype :=
  mk_prototype "persist_write_bool" (Named "status_t") [("key", Const uint32_t);
    ("value", Const Bool)] false.
Definition persist_write_int : prototype :=
  mk_prototype "persist_write_int" (Named "status_t") [("key", Const uint32_t);
    ("value", Const int32_t)] false.
Definition persist_write_data : prototype :=
  mk_prototype "persist_write_data" int [("key", Const uint32_t);
    ("data", Pointer (Const Void)); ("size", Const size_t)] false.
Definition persist_write_string : prototype :=
  mk_prototype "persist_write_string" int [("key", Const uint32_t);
    ("cstring", Pointer (Const Char))] false.
Definition persist_delete : prototype :=
  mk_prototype "persist_delete" (Named "status_t") [("key", Const uint32_t)] false.

(** ** Wakeup *)

Definition wakeup_service_subscribe : prototype :=
  mk_prototype "wakeup_service_subscribe" Void [("handler", Named "WakeupHandler")] false.
Definition wakeup_schedule : prototype :=
  mk_prototype "wakeup_schedule" (Named "WakeupId") [("timestamp", time_t); ("cookie", int32_t);
    ("notify_if_missed", Bool)] false.
Definition wakeup_cancel : prototype :=
  mk_prototype "wakeup_cancel" Void [("wakeup_id", Named "WakeupId")] false.
Definition wakeup_cancel_all : prototype := mk_prototype "wakeup_cancel_all" Void [] false.
Definition wakeup_get_launch_event : prototype :=
  mk_prototype "wakeup_get_launch_event" Bool [("wakeup_id", Pointer (Named "WakeupId"));
    ("cookie", Pointer int32_t)] false.
Definition wakeup_query : prototype :=
  mk_prototype "wakeup_query" Bool [("wakeup_id", Named "WakeupId");
    ("timestamp", Pointer time_t)] false.

(** ** Launch Reason *)

Definition launch_reason : prototype :=
  mk_prototype "launch_reason" (Named "AppLaunchReason") [] false.
Definition launch_get_args : prototype := mk_prototype "launch_get_args" uint32_t [] false.

(** ** Graphics Types *)

Definition gcolor_equal : prototype :=
  mk_prototype "gcolor_equal" Bool [("x", Named "GColor8"); ("y", Named "GColor8")] false.
Definition gcolor_legible_over : prototype :=
  mk_prototype "gcolor_legible_over" (Named "GColor8") [("background_color", Named "GColor8")]
    false.
Definition gpoint_equal : prototype :=
  mk_prototype "gpoint_equal" Bool [("point_a", Const (Pointer (Const (Named "GPoint"))));
    ("point_b", Const (Pointer (Const (Named "GPoint"))))] false.
Definition gsize_equal : prototype :=
  mk_prototype "gsize_equal" Bool [("size_a", Pointer (Const (Named "GSize")));
    ("size_b", Pointer (Const (Named "GSize")))] false.
Definition grect_equal : prototype :=
  mk_prototype "grect_equal" Bool [("rect_a", Const (Pointer (Const (Named "GRect"))));
    ("rect_b", Const (Pointer (Const (Named "GRect"))))] false.
Definition grect_is_empty : prototype :=
  mk_prototype "grect_is_empty" Bool [("rect", Const (Pointer (Const (Named "GRect"))))] false.
Definition grect_standardize : prototype :=
  mk_prototype "grect_standardize" Void [("rect", Pointer (Named "GRect"))] false.
Definition grect_clip : prototype :=
  mk_prototype "grect_clip" Void [("rect_to_clip", Const (Pointer (Named "GRect")));
    ("rect_clipper", Const (Pointer (Const (Named "GRect"))))] false.
Definition grect_contains_point : prototype :=
  mk_prototype "grect_contains_point" Bool [("rect", Pointer (Const (Named "GRect")));
    ("point", Pointer (Const (Named "GPoint")))] false.
Definition grect_center_point : prototype :=
  mk_prototype "grect_center_point" (Named "GPoint") [("rect", Pointer (Const (Named "GRect")))]
    false.
Definition grect_crop : prototype :=
  mk_prototype "grect_crop" (Named "GRect") [("rect", Named "GRect");
    ("crop_size_px", Const int32_t)] false.
Definition gbitmap_get_bytes_per_row : prototype :=
  mk_prototype "gbitmap_get_bytes_per_row" uint16_t
    [("bitmap", Pointer (Const (Named "GBitmap")))] false.
Definition gbitmap_get_format : prototype :=
  mk_prototype "gbitmap_get_format" (Named "GBitmapFormat")
    [("bitmap", Pointer (Const (Named "GBitmap")))] false.
Definition gbitmap_get_data : prototype :=
  mk_prototype "gbitmap_get_data" (Pointer uint8_t)
    [("bitmap", Pointer (Const (Named "GBitmap")))] false.
Definition gbitmap_set_data : prototype :=
  mk_prototype "gbitmap_set_data" Void [("bitmap", Pointer (Named "GBitmap"));
    ("data", Pointer uint8_t); ("format", Named "GBitmapFormat"); ("row_size_bytes", uint16_t);
    ("free_on_destroy", Bool)] false.
Definition gbitmap_get_bounds : prototype :=
  mk_prototype "gbitmap_get_bounds" (Named "GRect")
    [("bitmap", Pointer (Const (Named "GBitmap")))] false.
Definition gbitmap_set_bounds : prototype :=
  mk_prototype "gbitmap_set_bounds" Void [("bitmap", Pointer (Named "GBitmap"));
    ("bounds", Named "GRect")] false.
Definition gbitmap_get_palette : prototype :=
  mk_prototype "gbitmap_get_palette" (Pointer (Named "GColor"))
    [("bitmap", Pointer (Const (Named "GBitmap")))] false.
Definition gbitmap_set_palette : prototype :=
  mk_prototype "gbitmap_set_palette" Void [("bitmap", Pointer (Named "GBitmap"));
    ("palette", Pointer (Named "GColor")); ("free_on_destroy", Bool)] false.
Definition gbitmap_create_with_resource : prototype :=
  mk_prototype "gbitmap_create_with_resource" (Pointer (Named "GBitmap"))
    [("resource_id", uint32_t)] false.
Definition gbitmap_create_with_data : prototype :=
  mk_prototype "gbitmap_create_with_data" (Pointer (Named "GBitmap"))
    [("data", Pointer (Const uint8_t))] false.
Definition gbitmap_create_as_sub_bitmap : prototype :=
  mk_prototype "gbitmap_create_as_sub_bitmap" (Pointer (Named "GBitmap"))
    [("base_bitmap", Pointer (Const (Named "GBitmap"))); ("sub_rect", Named "GRect")] false.
Definition gbitmap_create_from_png_data : prototype :=
  mk_prototype "gbitmap_create_from_png_data" (Pointer (Named "GBitmap"))
    [("png_data", Pointer (Const uint8_t)); ("png_data_size", size_t)] false.
Definition gbitmap_create_blank : prototype :=
  mk_prototype "gbitmap_create_blank" (Pointer (Named "GBitmap")) [("size", Named "GSize");
    ("format", Named "GBitmapFormat")] false.
Definition gbitmap_create_blank_with_palette : prototype :=
  mk_prototype "gbitmap_create_blank_with_palette" (Pointer (Named "GBitmap"))
    [("size", Named "GSize"); ("format", Named "GBitmapFormat");
    ("palette", Pointer (Named "GColor")); ("free_on_destroy", Bool)] false.
Definition gbitmap_create_palettized_from_1bit : prototype :=
  mk_prototype "gbitmap_create_palettized_from_1bit" (Pointer (Named "GBitmap"))
    [("src_bitmap", Pointer (Const (Named "GBitmap")))] false.
Definition gbitmap_destroy : prototype :=
  mk_prototype "gbitmap_destroy" Void [("bitmap", Pointer (Named "GBitmap"))] false.
Definition gbitmap_sequence_create_with_resource : prototype :=
  mk_prototype "gbitmap_sequence_create_with_resource" (Pointer (Named "GBitmapSequence"))
    [("resource_id", uint32_t)] false.
Definition gbitmap_sequence_update_bitmap_next_frame : prototype :=
  mk_prototype "gbitmap_sequence_update_bitmap_next_frame" Bool
    [("bitmap_sequence", Pointer (Named "GBitmapSequence"));
    ("bitmap", Pointer (Named "GBitmap")); ("delay_ms", Pointer uint32_t)] false.
Definition gbitmap_sequence_update_bitmap_by_elapsed : prototype :=
  mk_prototype "gbitmap_sequence_update_bitmap_by_elapsed" Bool
    [("bitmap_sequence", Pointer (Named "GBitmapSequence"));
    ("bitmap", Pointer (Named "GBitmap")); ("elapsed_ms", uint32_t)] false.
Definition gbitmap_sequence_destroy : prototype :=
  mk_prototype "gbitmap_sequence_destroy" Void
    [("bitmap_sequence", Pointer (Named "GBitmapSequence"))] false.
Definition gbitmap_sequence_restart : prototype :=
  mk_prototype "gbitmap_sequence_restart" Bool
    [("bitmap_sequence", Pointer (Named "GBitmapSequence"))] false.
Definition gbitmap_sequence_get_current_frame_idx : prototype :=
  mk_prototype "gbitmap_sequence_get_current_frame_idx" int32_t
    [("bitmap_sequence", Pointer (Named "GBitmapSequence"))] false.
Definition gbitmap_sequence_get_total_num_frames : prototype :=
  mk_prototype "gbitmap_sequence_get_total_num_frames" uint32_t
    [("bitmap_sequence", Pointer (Named "GBitmapSequence"))] false.
Definition gbitmap_sequence_get_play_count : prototype :=
  mk_prototype "gbitmap_sequence_get_play_count" uint32_t
    [("bitmap_sequence", Pointer (Named "GBitmapSequence"))] false.
Definition gbitmap_sequence_set_play_count : prototype :=
  mk_prototype "gbitmap_sequence_set_play_count" Void
    [("bitmap_sequence", Pointer (Named "GBitmapSequence")); ("play_count", uint32_t)] false.
Definition gbitmap_sequence_get_bitmap_size : prototype :=
  mk_prototype "gbitmap_sequence_get_bitmap_size" (Named "GSize")
    [("bitmap_sequence", Pointer (Named "GBitmapSequence"))] false.
Definition gbitmap_get_data_row_info : prototype :=
  mk_prototype "gbitmap_get_data_row_info" (Named "GBitmapDataRowInfo")
    [("bitmap", Pointer (Const (Named "GBitmap"))); ("y", uint16_t)] false.
Definition grect_align : prototype :=
  mk_prototype "grect_align" Void [("rect", Pointer (Named "GRect"));
    ("inside_rect", Pointer (Const (Named "GRect"))); ("alignment", Const (Named "GAlign"));
    ("clip", Const Bool)] false.
Definition grect_inset : prototype :=
  mk_prototype "grect_inset" (Named "GRect") [("rect", Named "GRect");
    ("insets", Named "GEdgeInsets")] false.

(** ** Graphics Context *)

Definition graphics_context_set_stroke_color : prototype :=
  mk_prototype "graphics_context_set_stroke_color" Void [("ctx", Pointer (Named "GContext"));
    ("color", Named "GColor")] false.
Definition graphics_context_set_fill_color : prototype :=
  mk_prototype "graphics_context_set_fill_color" Void [("ctx", Pointer (Named "GContext"));
    ("color", Named "GColor")] false.
Definition graphics_context_set_text_color : prototype :=
  mk_prototype "graphics_context_set_text_color" Void [("ctx", Pointer (Named "GContext"));
    ("color", Named "GColor")] false.
Definition graphics_context_set_compositing_mode : prototype :=
  mk_prototype "graphics_context_set_compositing_mode" Void
    [("ctx", Pointer (Named "GContext")); ("mode", Named "GCompOp")] false.
Definition graphics_context_set_antialiased : prototype :=
  mk_prototype "graphics_context_set_antialiased" Void [("ctx", Pointer (Named "GContext"));
    ("enable", Bool)] false.
Definition graphics_context_set_stroke_width : prototype :=
  mk_prototype "graphics_context_set_stroke_width" Void [("ctx", Pointer (Named "GContext"));
    ("stroke_width", uint8_t)] false.

(** ** Drawing Primitives *)

Definition graphics_draw_pixel : prototype :=
  mk_prototype "graphics_draw_pixel" Void [("ctx", Pointer (Named "GContext"));
    ("point", Named "GPoint")] false.
Definition graphics_draw_line : prototype :=
  mk_prototype "graphics_draw_line" Void [("ctx", Pointer (Named "GContext"));
    ("p0", Named "GPoint"); ("p1", Named "GPoint")] false.
Definition graphics_draw_rect : prototype :=
  mk_prototype "graphics_draw_rect" Void [("ctx", Pointer (Named "GContext"));
    ("rect", Named "GRect")] false.
Definition graphics_fill_rect : prototype :=
  mk_prototype "graphics_fill_rect" Void [("ctx", Pointer (Named "GContext"));
    ("rect", Named "GRect"); ("corner_radius", uint16_t); ("corner_mask", Named "GCornerMask")]
    false.
Definition graphics_draw_circle : prototype :=
  mk_prototype "graphics_draw_circle" Void [("ctx", Pointer (Named "GContext"));
    ("p", Named "GPoint"); ("radius", uint16_t)] false.
Definition graphics_fill_circle : prototype :=
  mk_prototype "graphics_fill_circle" Void [("ctx", Pointer (Named "GContext"));
    ("p", Named "GPoint"); ("radius", uint16_t)] false.
Definition graphics_draw_round_rect : prototype :=
  mk_prototype "graphics_draw_round_rect" Void [("ctx", Pointer (Named "GContext"));
    ("rect", Named "GRect"); ("radius", uint16_t)] false.
Definition graphics_draw_bitmap_in_rect : prototype :=
  mk_prototype "graphics_draw_bitmap_in_rect" Void [("ctx", Pointer (Named "GContext"));
    ("bitmap", Pointer (Const (Named "GBitmap"))); ("rect", Named "GRect")] false.
Definition graphics_capture_frame_buffer : prototype :=
  mk_prototype "graphics_capture_frame_buffer" (Pointer (Named "GBitmap"))
    [("ctx", Pointer (Named "GContext"))] false.
Definition graphics_capture_frame_buffer_format : prototype :=
  mk_prototype "graphics_capture_frame_buffer_format" (Pointer (Named "GBitmap"))
    [("ctx", Pointer (Named "GContext")); ("format", Named "GBitmapFormat")] false.
Definition graphics_release_frame_buffer : prototype :=
  mk_prototype "graphics_release_frame_buffer" Bool [("ctx", Pointer (Named "GContext"));
    ("buffer", Pointer (Named "GBitmap"))] false.
Definition graphics_frame_buffer_is_captured : prototype :=
  mk_prototype "graphics_frame_buffer_is_captured" Bool [("ctx", Pointer (Named "GContext"))]
    false.
Definition graphics_draw_rotated_bitmap : prototype :=
  mk_prototype "graphics_draw_rotated_bitmap" Void [("ctx", Pointer (Named "GContext"));
    ("src", Pointer (Named "GBitmap")); ("src_ic", Named "GPoint"); ("rotation", int);
    ("dest_ic", Named "GPoint")] false.
Definition graphics_draw_arc : prototype :=
  mk_prototype "graphics_draw_arc" Void [("ctx", Pointer (Named "GContext"));
    ("rect", Named "GRect"); ("scale_mode", Named "GOvalScaleMode"); ("angle_start", int32_t);
    ("angle_end", int32_t)] false.
Definition graphics_fill_radial : prototype :=
  mk_prototype "graphics_fill_radial" Void [("ctx", Pointer (Named "GContext"));
    ("rect", Named "GRect"); ("scale_mode", Named "GOvalScaleMode");
    ("inset_thickness", uint16_t); ("angle_start", int32_t); ("angle_end", int32_t)] false.
Definition gpoint_from_polar : prototype :=
  mk_prototype "gpoint_from_polar" (Named "GPoint") [("rect", Named "GRect");
    ("scale_mode", Named "GOvalScaleMode"); ("angle", int32_t)] false.
Definition grect_centered_from_polar : prototype :=
  mk_prototype "grect_centered_from_polar" (Named "GRect") [("rect", Named "GRect");
    ("scale_mode", Named "GOvalScaleMode"); ("angle", int32_t); ("size", Named "GSize")] false.

(** ** Draw Commands *)

Definition gdraw_command_draw : prototype :=
  mk_prototype "gdraw_command_draw" Void [("ctx", Pointer (Named "GContext"));
    ("command", Pointer (Named "GDrawCommand"))] false.
Definition gdraw_command_get_type : prototype :=
  mk_prototype "gdraw_command_get_type" (Named "GDrawCommandType")
    [("command", Pointer (Named "GDrawCommand"))] false.
Definition gdraw_command_set_fill_color : prototype :=
  mk_prototype "gdraw_command_set_fill_color" Void [("command", Pointer (Named "GDrawCommand"));
    ("fill_color", Named "GColor")] false.
Definition gdraw_command_get_fill_color : prototype :=
  mk_prototype "gdraw_command_get_fill_color" (Named "GColor")
    [("command", Pointer (Named "GDrawCommand"))] false.
Definition gdraw_command_set_stroke_color : prototype :=
  mk_prototype "gdraw_command_set_stroke_color" Void
    [("command", Pointer (Named "GDrawCommand")); ("stroke_color", Named "GColor")] false.
Definition gdraw_command_get_stroke_color : prototype :=
  mk_prototype "gdraw_command_get_stroke_color" (Named "GColor")
    [("command", Pointer (Named "GDrawCommand"))] false.
Definition gdraw_command_set_stroke_width : prototype :=
  mk_prototype "gdraw_command_set_stroke_width" Void
    [("command", Pointer (Named "GDrawCommand")); ("stroke_width", uint8_t)] false.
Definition gdraw_command_get_stroke_width : prototype :=
  mk_prototype "gdraw_command_get_stroke_width" uint8_t
    [("command", Pointer (Named "GDrawCommand"))] false.
Definition gdraw_command_get_num_points : prototype :=
  mk_prototype "gdraw_command_get_num_points" uint16_t
    [("command", Pointer (Named "GDrawCommand"))] false.
Definition gdraw_command_set_point : prototype :=
  mk_prototype "gdraw_command_set_point" Void [("command", Pointer (Named "GDrawCommand"));
    ("point_idx", uint16_t); ("point", Named "GPoint")] false.
Definition gdraw_command_get_point : prototype :=
  mk_prototype "gdraw_command_get_point" (Named "GPoint")
    [("command", Pointer (Named "GDrawCommand")); ("point_idx", uint16_t)] false.
Definition gdraw_command_set_radius : prototype :=
  mk_prototype "gdraw_command_set_radius" Void [("command", Pointer (Named "GDrawCommand"));
    ("radius", uint16_t)] false.
Definition gdraw_command_get_radius : prototype :=
  mk_prototype "gdraw_command_get_radius" uint16_t [("command", Pointer (Named "GDrawCommand"))]
    false.
Definition gdraw_command_set_path_open : prototype :=
  mk_prototype "gdraw_command_set_path_open" Void [("command", Pointer (Named "GDrawCommand"));
    ("path_open", Bool)] false.
Definition gdraw_command_get_path_open : prototype :=
  mk_prototype "gdraw_command_get_path_open" Bool [("command", Pointer (Named "GDrawCommand"))]
    false.
Definition gdraw_command_set_hidden : prototype :=
  mk_prototype "gdraw_command_set_hidden" Void [("command", Pointer (Named "GDrawCommand"));
    ("hidden", Bool)] false.
Definition gdraw_command_get_hidden : prototype :=
  mk_prototype "gdraw_command_get_hidden" Bool [("command", Pointer (Named "GDrawCommand"))]
    false.
Definition gdraw_command_frame_draw : prototype :=
  mk_prototype "gdraw_command_frame_draw" Void [("ctx", Pointer (Named "GContext"));
    ("sequence", Pointer (Named "GDrawCommandSequence"));
    ("frame", Pointer (Named "GDrawCommandFrame")); ("offset", Named "GPoint")] false.
Definition gdraw_command_frame_set_duration : prototype :=
  mk_prototype "gdraw_command_frame_set_duration" Void
    [("frame", Pointer (Named "GDrawCommandFrame")); ("duration", uint32_t)] false.
Definition gdraw_command_frame_get_duration : prototype :=
  mk_prototype "gdraw_command_frame_get_duration" uint32_t
    [("frame", Pointer (Named "GDrawCommandFrame"))] false.
Definition gdraw_command_image_create_with_resource : prototype :=
  mk_prototype "gdraw_command_image_create_with_resource" (Pointer (Named "GDrawCommandImage"))
    [("resource_id", uint32_t)] false.
Definition gdraw_command_image_clone : prototype :=
  mk_prototype "gdraw_command_image_clone" (Pointer (Named "GDrawCommandImage"))
    [("image", Pointer (Named "GDrawCommandImage"))] false.
Definition gdraw_command_image_destroy : prototype :=
  mk_prototype "gdraw_command_image_destroy" Void
    [("image", Pointer (Named "GDrawCommandImage"))] false.
Definition gdraw_command_image_draw : prototype :=
  mk_prototype "gdraw_command_image_draw" Void [("ctx", Pointer (Named "GContext"));
    ("image", Pointer (Named "GDrawCommandImage")); ("offset", Named "GPoint")] false.
Definition gdraw_command_image_get_bounds_size : prototype :=
  mk_prototype "gdraw_command_image_get_bounds_size" (Named "GSize")
    [("image", Pointer (Named "GDrawCommandImage"))] false.
Definition gdraw_command_image_set_bounds_size : prototype :=
  mk_prototype "gdraw_command_image_set_bounds_size" Void
    [("image", Pointer (Named "GDrawCommandImage")); ("size", Named "GSize")] false.
Definition gdraw_command_image_get_command_list : prototype :=
  mk_prototype "gdraw_command_image_get_command_list" (Pointer (Named "GDrawCommandList"))
    [("image", Pointer (Named "GDrawCommandImage"))] false.
Definition gdraw_command_list_iterate : prototype :=
  mk_prototype "gdraw_command_list_iterate" Void
    [("command_list", Pointer (Named "GDrawCommandList"));
    ("handle_command", Named "GDrawCommandListIteratorCb"); ("callback_context", Pointer Void)]
    false.
Definition gdraw_command_list_draw : prototype :=
  mk_prototype "gdraw_command_list_draw" Void [("ctx", Pointer (Named "GContext"));
    ("command_list", Pointer (Named "GDrawCommandList"))] false.
Definition gdraw_command_list_get_command : prototype :=
  mk_prototype "gdraw_command_list_get_command" (Pointer (Named "GDrawCommand"))
    [("command_list", Pointer (Named "GDrawCommandList")); ("command_idx", uint16_t)] false.
Definition gdraw_command_list_get_num_commands : prototype :=
  mk_prototype "gdraw_command_list_get_num_commands" uint32_t
    [("command_list", Pointer (Named "GDrawCommandList"))] false.
Definition gdraw_command_sequence_create_with_resource : prototype :=
  mk_prototype "gdraw_command_sequence_create_with_resource" (Pointer (Named
    "GDrawCommandSequence")) [("resource_id", uint32_t)] false.
Definition gdraw_command_sequence_clone : prototype :=
  mk_prototype "gdraw_command_sequence_clone" (Pointer (Named "GDrawCommandSequence"))
    [("sequence", Pointer (Named "GDrawCommandSequence"))] false.
Definition gdraw_command_sequence_destroy : prototype :=
  mk_prototype "gdraw_command_sequence_destroy" Void
    [("sequence", Pointer (Named "GDrawCommandSequence"))] false.
Definition gdraw_command_sequence_get_frame_by_elapsed : prototype :=
  mk_prototype "gdraw_command_sequence_get_frame_by_elapsed" (Pointer (Named
    "GDrawCommandFrame")) [("sequence", Pointer (Named "GDrawCommandSequence"));
    ("elapsed_ms", uint32_t)] false.
Definition gdraw_command_sequence_get_frame_by_index : prototype :=
  mk_prototype "gdraw_command_sequence_get_frame_by_index" (Pointer (Named "GDrawCommandFrame"))
    [("sequence", Pointer (Named "GDrawCommandSequence")); ("index", uint32_t)] false.
Definition gdraw_command_sequence_get_bounds_size : prototype :=
  mk_prototype "gdraw_command_sequence_get_bounds_size" (Named "GSize")
    [("sequence", Pointer (Named "GDrawCommandSequence"))] false.
Definition gdraw_command_sequence_set_bounds_size : prototype :=
  mk_prototype "gdraw_command_sequence_set_bounds_size" Void
    [("sequence", Pointer (Named "GDrawCommandSequence")); ("size", Named "GSize")] false.
Definition gdraw_command_sequence_get_play_count : prototype :=
  mk_prototype "gdraw_command_sequence_get_play_count" uint32_t
    [("sequence", Pointer (Named "GDrawCommandSequence"))] false.
Definition gdraw_command_sequence_set_play_count : prototype :=
  mk_prototype "gdraw_command_sequence_set_play_count" Void
    [("sequence", Pointer (Named "GDrawCommandSequence")); ("play_count", uint32_t)] false.
Definition gdraw_command_sequence_get_total_duration : prototype :=
  mk_prototype "gdraw_command_sequence_get_total_duration" uint32_t
    [("sequence", Pointer (Named "GDrawCommandSequence"))] false.
Definition gdraw_command_sequence_get_num_frames : prototype :=
  mk_prototype "gdraw_command_sequence_get_num_frames" uint32_t
    [("sequence", Pointer (Named "GDrawCommandSequence"))] false.
Definition gdraw_command_frame_get_command_list : prototype :=
  mk_prototype "gdraw_command_frame_get_command_list" (Pointer (Named "GDrawCommandList"))
    [("frame", Pointer (Named "GDrawCommandFrame"))] false.

(** ** Drawing Paths *)

Definition gpath_create : prototype :=
  mk_prototype "gpath_create" (Pointer (Named "GPath"))
    [("init", Pointer (Const (Named "GPathInfo")))] false.
Definition gpath_destroy : prototype :=
  mk_prototype "gpath_destroy" Void [("gpath", Pointer (Named "GPath"))] false.
Definition gpath_draw_filled : prototype :=
  mk_prototype "gpath_draw_filled" Void [("ctx", Pointer (Named "GContext"));
    ("path", Pointer (Named "GPath"))] false.
Definition gpath_draw_outline : prototype :=
  mk_prototype "gpath_draw_outline" Void [("ctx", Pointer (Named "GContext"));
    ("path", Pointer (Named "GPath"))] false.
Definition gpath_rotate_to : prototype :=
  mk_prototype "gpath_rotate_to" Void [("path", Pointer (Named "GPath")); ("angle", int32_t)]
    false.
Definition gpath_move_to : prototype :=
  mk_prototype "gpath_move_to" Void [("path", Pointer (Named "GPath"));
    ("point", Named "GPoint")] false.
Definition gpath_draw_outline_open : prototype :=
  mk_prototype "gpath_draw_outline_open" Void [("ctx", Pointer (Named "GContext"));
    ("path", Pointer (Named "GPath"))] false.

(** ** Fonts *)

Definition fonts_get_system_font : prototype :=
  mk_prototype "fonts_get_system_font" (Named "GFont") [("font_key", Pointer (Const Char))]
    false.
Definition fonts_load_custom_font : prototype :=
  mk_prototype "fonts_load_custom_font" (Named "GFont") [("handle", Named "ResHandle")] false.
Definition fonts_unload_custom_font : prototype :=
  mk_prototype "fonts_unload_custom_font" Void [("font", Named "GFont")] false.

(** ** Drawing Text *)

Definition graphics_text_attributes_create : prototype :=
  mk_prototype "graphics_text_attributes_create" (Pointer (Named "GTextAttributes")) [] false.
Definition graphics_text_attributes_destroy : prototype :=
  mk_prototype "graphics_text_attributes_destroy" Void
    [("text_attributes", Pointer (Named "GTextAttributes"))] false.
Definition graphics_text_attributes_restore_default_text_flow : prototype :=
  mk_prototype "graphics_text_attributes_restore_default_text_flow" Void
    [("text_attributes", Pointer (Named "GTextAttributes"))] false.
Definition graphics_text_attributes_enable_screen_text_flow : prototype :=
  mk_prototype "graphics_text_attributes_enable_screen_text_flow" Void
    [("text_attributes", Pointer (Named "GTextAttributes")); ("inset", uint8_t)] false.
Definition graphics_text_attributes_restore_default_paging : prototype :=
  mk_prototype "graphics_text_attributes_restore_default_paging" Void
    [("text_attributes", Pointer (Named "GTextAttributes"))] false.
Definition graphics_text_attributes_enable_paging : prototype :=
  mk_prototype "graphics_text_attributes_enable_paging" Void
    [("text_attributes", Pointer (Named "GTextAttributes"));
    ("content_origin_on_screen", Named "GPoint"); ("paging_on_screen", Named "GRect")] false.
Definition graphics_draw_text : prototype :=
  mk_prototype "graphics_draw_text" Void [("ctx", Pointer (Named "GContext"));
    ("text", Pointer (Const Char)); ("font", Const (Named "GFont"));
    ("box", Const (Named "GRect")); ("overflow_mode", Const (Named "GTextOverflowMode"));
    ("alignment", Const (Named "GTextAlignment"));
    ("text_attributes", Pointer (Named "GTextAttributes"))] false.
Definition graphics_text_layout_get_content_size : prototype :=
  mk_prototype "graphics_text_layout_get_content_size" (Named "GSize")
    [("text", Pointer (Const Char)); ("font", Const (Named "GFont"));
    ("box", Const (Named "GRect")); ("overflow_mode", Const (Named "GTextOverflowMode"));
    ("alignment", Const (Named "GTextAlignment"))] false.
Definition graphics_text_layout_get_content_size_with_attributes : prototype :=
  mk_prototype "graphics_text_layout_get_content_size_with_attributes" (Named "GSize")
    [("text", Pointer (Const Char)); ("font", Const (Named "GFont"));
    ("box", Const (Named "GRect")); ("overflow_mode", Const (Named "GTextOverflowMode"));
    ("alignment", Const (Named "GTextAlignment"));
    ("text_attributes", Pointer (Named "GTextAttributes"))] false.

(** ** Smartstrap *)

Definition smartstrap_subscribe : prototype :=
  mk_prototype "smartstrap_subscribe" (Named "SmartstrapResult")
    [("handlers", Named "SmartstrapHandlers")] false.
Definition smartstrap_unsubscribe : prototype :=
  mk_prototype "smartstrap_unsubscribe" Void [] false.
Definition smartstrap_set_timeout : prototype :=
  mk_prototype "smartstrap_set_timeout" Void [("timeout_ms", uint16_t)] false.
Definition smartstrap_attribute_create : prototype :=
  mk_prototype "smartstrap_attribute_create" (Pointer (Named "SmartstrapAttribute"))
    [("service_id", Named "SmartstrapServiceId");
    ("attribute_id", Named "SmartstrapAttributeId"); ("buffer_length", size_t)] false.
Definition smartstrap_attribute_destroy : prototype :=
  mk_prototype "smartstrap_attribute_destroy" Void
    [("attribute", Pointer (Named "SmartstrapAttribute"))] false.
Definition smartstrap_service_is_available : prototype :=
  mk_prototype "smartstrap_service_is_available" Bool
    [("service_id", Named "SmartstrapServiceId")] false.
Definition smartstrap_attribute_get_service_id : prototype :=
  mk_prototype "smartstrap_attribute_get_service_id" (Named "SmartstrapServiceId")
    [("attribute", Pointer (Named "SmartstrapAttribute"))] false.
Definition smartstrap_attribute_get_attribute_id : prototype :=
  mk_prototype "smartstrap_attribute_get_attribute_id" (Named "SmartstrapAttributeId")
    [("attribute", Pointer (Named "SmartstrapAttribute"))] false.
Definition smartstrap_attribute_read : prototype :=
  mk_prototype "smartstrap_attribute_read" (Named "SmartstrapResult")
    [("attribute", Pointer (Named "SmartstrapAttribute"))] false.
Definition smartstrap_attribute_begin_write : prototype :=
  mk_prototype "smartstrap_attribute_begin_write" (Named "SmartstrapResult")
    [("attribute", Pointer (Named "SmartstrapAttribute"));
    ("buffer", Pointer (Pointer uint8_t)); ("buffer_length", Pointer size_t)] false.
Definition smartstrap_attribute_end_write : prototype :=
  mk_prototype "smartstrap_attribute_end_write" (Named "SmartstrapResult")
    [("attribute", Pointer (Named "SmartstrapAttribute")); ("write_length", size_t);
    ("request_read", Bool)] false.

(** ** Clicks *)

Definition click_number_of_clicks_counted : prototype :=
  mk_prototype "click_number_of_clicks_counted" uint8_t
    [("recognizer", Named "ClickRecognizerRef")] false.
Definition click_recognizer_get_button_id : prototype :=
  mk_prototype "click_recognizer_get_button_id" (Named "ButtonId")
    [("recognizer", Named "ClickRecognizerRef")] false.
Definition click_recognizer_is_repeating : prototype :=
  mk_prototype "click_recognizer_is_repeating" Bool [("recognizer", Named "ClickRecognizerRef")]
    false.

(** ** Layers *)

Definition layer_create : prototype :=
  mk_prototype "layer_create" (Pointer (Named "Layer")) [("frame", Named "GRect")] false.
Definition layer_create_with_data : prototype :=
  mk_prototype "layer_create_with_data" (Pointer (Named "Layer")) [("frame", Named "GRect");
    ("data_size", size_t)] false.
Definition layer_destroy : prototype :=
  mk_prototype "layer_destroy" Void [("layer", Pointer (Named "Layer"))] false.
Definition layer_mark_dirty : prototype :=
  mk_prototype "layer_mark_dirty" Void [("layer", Pointer (Named "Layer"))] false.
Definition layer_set_update_proc : prototype :=
  mk_prototype "layer_set_update_proc" Void [("layer", Pointer (Named "Layer"));
    ("update_proc", Named "LayerUpdateProc")] false.
Definition layer_set_frame : prototype :=
  mk_prototype "layer_set_frame" Void [("layer", Pointer (Named "Layer"));
    ("frame", Named "GRect")] false.
Definition layer_get_frame : prototype :=
  mk_prototype "layer_get_frame" (Named "GRect") [("layer", Pointer (Const (Named "Layer")))]
    false.
Definition layer_set_bounds : prototype :=
  mk_prototype "layer_set_bounds" Void [("layer", Pointer (Named "Layer"));
    ("bounds", Named "GRect")] false.
Definition layer_get_bounds : prototype :=
  mk_prototype "layer_get_bounds" (Named "GRect") [("layer", Pointer (Const (Named "Layer")))]
    false.
Definition layer_convert_point_to_screen : prototype :=
  mk_prototype "layer_convert_point_to_screen" (Named "GPoint")
    [("layer", Pointer (Const (Named "Layer"))); ("point", Named "GPoint")] false.
Definition layer_convert_rect_to_screen : prototype :=
  mk_prototype "layer_convert_rect_to_screen" (Named "GRect")
    [("layer", Pointer (Const (Named "Layer"))); ("rect", Named "GRect")] false.
Definition layer_get_window : prototype :=
  mk_prototype "layer_get_window" (Pointer (Named "Window"))
    [("layer", Pointer (Const (Named "Layer")))] false.
Definition layer_remove_from_parent : prototype :=
  mk_prototype "layer_remove_from_parent" Void [("child", Pointer (Named "Layer"))] false.
Definition layer_remove_child_layers : prototype :=
  mk_prototype "layer_remove_child_layers" Void [("parent", Pointer (Named "Layer"))] false.
Definition layer_add_child : prototype :=
  mk_prototype "layer_add_child" Void [("parent", Pointer (Named "Layer"));
    ("child", Pointer (Named "Layer"))] false.
Definition layer_insert_below_sibling : prototype :=
  mk_prototype "layer_insert_below_sibling" Void [("layer_to_insert", Pointer (Named "Layer"));
    ("below_sibling_layer", Pointer (Named "Layer"))] false.
Definition layer_insert_above_sibling : prototype :=
  mk_prototype "layer_insert_above_sibling" Void [("layer_to_insert", Pointer (Named "Layer"));
    ("above_sibling_layer", Pointer (Named "Layer"))] false.
Definition layer_set_hidden : prototype :=
  mk_prototype "layer_set_hidden" Void [("layer", Pointer (Named "Layer")); ("hidden", Bool)]
    false.
Definition layer_get_hidden : prototype :=
  mk_prototype "layer_get_hidden" Bool [("layer", Pointer (Const (Named "Layer")))] false.
Definition layer_set_clips : prototype :=
  mk_prototype "layer_set_clips" Void [("layer", Pointer (Named "Layer")); ("clips", Bool)]
    false.
Definition layer_get_clips : prototype :=
  mk_prototype "layer_get_clips" Bool [("layer", Pointer (Const (Named "Layer")))] false.
Definition layer_get_data : prototype :=
  mk_prototype "layer_get_data" (Pointer Void) [("layer", Pointer (Const (Named "Layer")))]
    false.

(** ** Window *)

Definition window_create : prototype :=
  mk_prototype "window_create" (Pointer (Named "Window")) [] false.
Definition window_destroy : prototype :=
  mk_prototype "window_destroy" Void [("window", Pointer (Named "Window"))] false.
Definition window_set_click_config_provider : prototype :=
  mk_prototype "window_set_click_config_provider" Void [("window", Pointer (Named "Window"));
    ("click_config_provider", Named "ClickConfigProvider")] false.
Definition window_set_click_config_provider_with_context : prototype :=
  mk_prototype "window_set_click_config_provider_with_context" Void
    [("window", Pointer (Named "Window"));
    ("click_config_provider", Named "ClickConfigProvider"); ("context", Pointer Void)] false.
Definition window_get_click_config_provider : prototype :=
  mk_prototype "window_get_click_config_provider" (Named "ClickConfigProvider")
    [("window", Pointer (Const (Named "Window")))] false.
Definition window_get_click_config_context : prototype :=
  mk_prototype "window_get_click_config_context" (Pointer Void)
    [("window", Pointer (Named "Window"))] false.
Definition window_set_window_handlers : prototype :=
  mk_prototype "window_set_window_handlers" Void [("window", Pointer (Named "Window"));
    ("handlers", Named "WindowHandlers")] false.
Definition window_get_root_layer : prototype :=
  mk_prototype "window_get_root_layer" (Pointer (Named "Layer"))
    [("window", Pointer (Const (Named "Window")))] false.
Definition window_set_background_color : prototype :=
  mk_prototype "window_set_background_color" Void [("window", Pointer (Named "Window"));
    ("background_color", Named "GColor")] false.
Definition window_is_loaded : prototype :=
  mk_prototype "window_is_loaded" Bool [("window", Pointer (Named "Window"))] false.
Definition window_set_user_data : prototype :=
  mk_prototype "window_set_user_data" Void [("window", Pointer (Named "Window"));
    ("data", Pointer Void)] false.
Definition window_get_user_data : prototype :=
  mk_prototype "window_get_user_data" (Pointer Void)
    [("window", Pointer (Const (Named "Window")))] false.
Definition window_single_click_subscribe : prototype :=
  mk_prototype "window_single_click_subscribe" Void [("button_id", Named "ButtonId");
    ("handler", Named "ClickHandler")] false.
Definition window_single_repeating_click_subscribe : prototype :=
  mk_prototype "window_single_repeating_click_subscribe" Void [("button_id", Named "ButtonId");
    ("repeat_interval_ms", uint16_t); ("handler", Named "ClickHandler")] false.
Definition window_multi_click_subscribe : prototype :=
  mk_prototype "window_multi_click_subscribe" Void [("button_id", Named "ButtonId");
    ("min_clicks", uint8_t); ("max_clicks", uint8_t); ("timeout", uint16_t);
    ("last_click_only", Bool); ("handler", Named "ClickHandler")] false.
Definition window_long_click_subscribe : prototype :=
  mk_prototype "window_long_click_subscribe" Void [("button_id", Named "ButtonId");
    ("delay_ms", uint16_t); ("down_handler", Named "ClickHandler");
    ("up_handler", Named "ClickHandler")] false.
Definition window_raw_click_subscribe : prototype :=
  mk_prototype "window_raw_click_subscribe" Void [("button_id", Named "ButtonId");
    ("down_handler", Named "ClickHandler"); ("up_handler", Named "ClickHandler");
    ("context", Pointer Void)] false.
Definition window_set_click_context : prototype :=
  mk_prototype "window_set_click_context" Void [("button_id", Named "ButtonId");
    ("context", Pointer Void)] false.

(** ** Window Stack *)

Definition window_stack_push : prototype :=
  mk_prototype "window_stack_push" Void [("window", Pointer (Named "Window"));
    ("animated", Bool)] false.
Definition window_stack_pop : prototype :=
  mk_prototype "window_stack_pop" (Pointer (Named "Window")) [("animated", Bool)] false.
Definition window_stack_pop_all : prototype :=
  mk_prototype "window_stack_pop_all" Void [("animated", Const Bool)] false.
Definition window_stack_remove : prototype :=
  mk_prototype "window_stack_remove" Bool [("window", Pointer (Named "Window"));
    ("animated", Bool)] false.
Definition window_stack_get_top_window : prototype :=
  mk_prototype "window_stack_get_top_window" (Pointer (Named "Window")) [] false.
Definition window_stack_contains_window : prototype :=
  mk_prototype "window_stack_contains_window" Bool [("window", Pointer (Named "Window"))] false.

(** ** Animation *)

Definition animation_create : prototype :=
  mk_prototype "animation_create" (Pointer (Named "Animation")) [] false.
Definition animation_destroy : prototype :=
  mk_prototype "animation_destroy" Bool [("animation", Pointer (Named "Animation"))] false.
Definition animation_clone : prototype :=
  mk_prototype "animation_clone" (Pointer (Named "Animation"))
    [("from", Pointer (Named "Animation"))] false.
Definition animation_sequence_create : prototype :=
  mk_prototype "animation_sequence_create" (Pointer (Named "Animation"))
    [("animation_a", Pointer (Named "Animation")); ("animation_b", Pointer (Named "Animation"));
    ("animation_c", Pointer (Named "Animation"))] true.
Definition animation_sequence_create_from_array : prototype :=
  mk_prototype "animation_sequence_create_from_array" (Pointer (Named "Animation"))
    [("animation_array", Pointer (Pointer (Named "Animation"))); ("array_len", uint32_t)] false.
Definition animation_spawn_create : prototype :=
  mk_prototype "animation_spawn_create" (Pointer (Named "Animation"))
    [("animation_a", Pointer (Named "Animation")); ("animation_b", Pointer (Named "Animation"));
    ("animation_c", Pointer (Named "Animation"))] true.
Definition animation_spawn_create_from_array : prototype :=
  mk_prototype "animation_spawn_create_from_array" (Pointer (Named "Animation"))
    [("animation_array", Pointer (Pointer (Named "Animation"))); ("array_len", uint32_t)] false.
Definition animation_set_elapsed : prototype :=
  mk_prototype "animation_set_elapsed" Bool [("animation", Pointer (Named "Animation"));
    ("elapsed_ms", uint32_t)] false.
Definition animation_get_elapsed : prototype :=
  mk_prototype "animation_get_elapsed" Bool [("animation", Pointer (Named "Animation"));
    ("elapsed_ms", Pointer int32_t)] false.
Definition animation_set_reverse : prototype :=
  mk_prototype "animation_set_reverse" Bool [("animation", Pointer (Named "Animation"));
    ("reverse", Bool)] false.
Definition animation_get_reverse : prototype :=
  mk_prototype "animation_get_reverse" Bool [("animation", Pointer (Named "Animation"))] false.
Definition animation_set_play_count : prototype :=
  mk_prototype "animation_set_play_count" Bool [("animation", Pointer (Named "Animation"));
    ("play_count", uint32_t)] false.
Definition animation_get_play_count : prototype :=
  mk_prototype "animation_get_play_count" uint32_t [("animation", Pointer (Named "Animation"))]
    false.
Definition animation_set_duration : prototype :=
  mk_prototype "animation_set_duration" Bool [("animation", Pointer (Named "Animation"));
    ("duration_ms", uint32_t)] false.
Definition animation_get_duration : prototype :=
  mk_prototype "animation_get_duration" uint32_t [("animation", Pointer (Named "Animation"));
    ("include_delay", Bool); ("include_play_count", Bool)] false.
Definition animation_set_delay : prototype :=
  mk_prototype "animation_set_delay" Bool [("animation", Pointer (Named "Animation"));
    ("delay_ms", uint32_t)] false.
Definition animation_get_delay : prototype :=
  mk_prototype "animation_get_delay" uint32_t [("animation", Pointer (Named "Animation"))]
    false.
Definition animation_set_curve : prototype :=
  mk_prototype "animation_set_curve" Bool [("animation", Pointer (Named "Animation"));
    ("curve", Named "AnimationCurve")] false.
Definition animation_get_curve : prototype :=
  mk_prototype "animation_get_curve" (Named "AnimationCurve")
    [("animation", Pointer (Named "Animation"))] false.
Definition animation_set_custom_curve : prototype :=
  mk_prototype "animation_set_custom_curve" Bool [("animation", Pointer (Named "Animation"));
    ("curve_function", Named "AnimationCurveFunction")] false.
Definition animation_get_custom_curve : prototype :=
  mk_prototype "animation_get_custom_curve" (Named "AnimationCurveFunction")
    [("animation", Pointer (Named "Animation"))] false.
Definition animation_set_handlers : prototype :=
  mk_prototype "animation_set_handlers" Bool [("animation", Pointer (Named "Animation"));
    ("callbacks", Named "AnimationHandlers"); ("context", Pointer Void)] false.
Definition animation_get_context : prototype :=
  mk_prototype "animation_get_context" (Pointer Void)
    [("animation", Pointer (Named "Animation"))] false.
Definition animation_schedule : prototype :=
  mk_prototype "animation_schedule" Bool [("animation", Pointer (Named "Animation"))] false.
Definition animation_unschedule : prototype :=
  mk_prototype "animation_unschedule" Bool [("animation", Pointer (Named "Animation"))] false.
Definition animation_unschedule_all : prototype :=
  mk_prototype "animation_unschedule_all" Void [] false.
Definition animation_is_scheduled : prototype :=
  mk_prototype "animation_is_scheduled" Bool [("animation", Pointer (Named "Animation"))] false.
Definition animation_set_implementation : prototype :=
  mk_prototype "animation_set_implementation" Bool [("animation", Pointer (Named "Animation"));
    ("implementation", Pointer (Const (Named "AnimationImplementation")))] false.
Definition animation_get_implementation : prototype :=
  mk_prototype "animation_get_implementation" (Pointer (Const (Named
    "AnimationImplementation"))) [("animation", Pointer (Named "Animation"))] false.

(** ** Property Animation *)

Definition property_animation_create_layer_frame : prototype :=
  mk_prototype "property_animation_create_layer_frame" (Pointer (Named "PropertyAnimation"))
    [("layer", Pointer (Named "Layer")); ("from_frame", Pointer (Named "GRect"));
    ("to_frame", Pointer (Named "GRect"))] false.
Definition property_animation_create_bounds_origin : prototype :=
  mk_prototype "property_animation_create_bounds_origin" (Pointer (Named "PropertyAnimation"))
    [("layer", Pointer (Named "Layer")); ("from", Pointer (Named "GPoint"));
    ("to", Pointer (Named "GPoint"))] false.
Definition property_animation_create : prototype :=
  mk_prototype "property_animation_create" (Pointer (Named "PropertyAnimation"))
    [("implementation", Pointer (Const (Named "PropertyAnimationImplementation")));
    ("subject", Pointer Void); ("from_value", Pointer Void); ("to_value", Pointer Void)] false.
Definition property_animation_destroy : prototype :=
  mk_prototype "property_animation_destroy" Void
    [("property_animation", Pointer (Named "PropertyAnimation"))] false.
Definition property_animation_update_int16 : prototype :=
  mk_prototype "property_animation_update_int16" Void
    [("property_animation", Pointer (Named "PropertyAnimation"));
    ("distance_normalized", Const uint32_t)] false.
Definition property_animation_update_uint32 : prototype :=
  mk_prototype "property_animation_update_uint32" Void
    [("property_animation", Pointer (Named "PropertyAnimation"));
    ("distance_normalized", Const uint32_t)] false.
Definition property_animation_update_gpoint : prototype :=
  mk_prototype "property_animation_update_gpoint" Void
    [("property_animation", Pointer (Named "PropertyAnimation"));
    ("distance_normalized", Const uint32_t)] false.
Definition property_animation_update_grect : prototype :=
  mk_prototype "property_animation_update_grect" Void
    [("property_animation", Pointer (Named "PropertyAnimation"));
    ("distance_normalized", Const uint32_t)] false.
Definition property_animation_update_gcolor8 : prototype :=
  mk_prototype "property_animation_update_gcolor8" Void
    [("property_animation", Pointer (Named "PropertyAnimation"));
    ("distance_normalized", Const uint32_t)] false.
Definition property_animation_get_animation : prototype :=
  mk_prototype "property_animation_get_animation" (Pointer (Named "Animation"))
    [("property_animation", Pointer (Named "PropertyAnimation"))] false.
Definition property_animation_subject : prototype :=
  mk_prototype "property_animation_subject" Bool
    [("property_animation", Pointer (Named "PropertyAnimation"));
    ("subject", Pointer (Pointer Void)); ("set", Bool)] false.
Definition property_animation_from : prototype :=
  mk_prototype "property_animation_from" Bool
    [("property_animation", Pointer (Named "PropertyAnimation")); ("from", Pointer Void);
    ("size", size_t); ("set", Bool)] false.
Definition property_animation_to : prototype :=
  mk_prototype "property_animation_to" Bool
    [("property_animation", Pointer (Named "PropertyAnimation")); ("to", Pointer Void);
    ("size", size_t); ("set", Bool)] false.

(** ** Text Layer *)

Definition text_layer_create : prototype :=
  mk_prototype "text_layer_create" (Pointer (Named "TextLayer")) [("frame", Named "GRect")]
    false.
Definition text_layer_destroy : prototype :=
  mk_prototype "text_layer_destroy" Void [("text_layer", Pointer (Named "TextLayer"))] false.
Definition text_layer_get_layer : prototype :=
  mk_prototype "text_layer_get_layer" (Pointer (Named "Layer"))
    [("text_layer", Pointer (Named "TextLayer"))] false.
Definition text_layer_set_text : prototype :=
  mk_prototype "text_layer_set_text" Void [("text_layer", Pointer (Named "TextLayer"));
    ("text", Pointer (Const Char))] false.
Definition text_layer_get_text : prototype :=
  mk_prototype "text_layer_get_text" (Pointer (Const Char))
    [("text_layer", Pointer (Named "TextLayer"))] false.
Definition text_layer_set_background_color : prototype :=
  mk_prototype "text_layer_set_background_color" Void
    [("text_layer", Pointer (Named "TextLayer")); ("color", Named "GColor")] false.
Definition text_layer_set_text_color : prototype :=
  mk_prototype "text_layer_set_text_color" Void [("text_layer", Pointer (Named "TextLayer"));
    ("color", Named "GColor")] false.
Definition text_layer_set_overflow_mode : prototype :=
  mk_prototype "text_layer_set_overflow_mode" Void [("text_layer", Pointer (Named "TextLayer"));
    ("line_mode", Named "GTextOverflowMode")] false.
Definition text_layer_set_font : prototype :=
  mk_prototype "text_layer_set_font" Void [("text_layer", Pointer (Named "TextLayer"));
    ("font", Named "GFont")] false.
Definition text_layer_set_text_alignment : prototype :=
  mk_prototype "text_layer_set_text_alignment" Void
    [("text_layer", Pointer (Named "TextLayer")); ("text_alignment", Named "GTextAlignment")]
    false.
Definition text_layer_enable_screen_text_flow_and_paging : prototype :=
  mk_prototype "text_layer_enable_screen_text_flow_and_paging" Void
    [("text_layer", Pointer (Named "TextLayer")); ("inset", uint8_t)] false.
Definition text_layer_restore_default_text_flow_and_paging : prototype :=
  mk_prototype "text_layer_restore_default_text_flow_and_paging" Void
    [("text_layer", Pointer (Named "TextLayer"))] false.
Definition text_layer_get_content_size : prototype :=
  mk_prototype "text_layer_get_content_size" (Named "GSize")
    [("text_layer", Pointer (Named "TextLayer"))] false.
Definition text_layer_set_size : prototype :=
  mk_prototype "text_layer_set_size" Void [("text_layer", Pointer (Named "TextLayer"));
    ("max_size", Const (Named "GSize"))] false.

(** ** Scroll Layer *)

Definition scroll_layer_create : prototype :=
  mk_prototype "scroll_layer_create" (Pointer (Named "ScrollLayer")) [("frame", Named "GRect")]
    false.
Definition scroll_layer_destroy : prototype :=
  mk_prototype "scroll_layer_destroy" Void [("scroll_layer", Pointer (Named "ScrollLayer"))]
    false.
Definition scroll_layer_get_layer : prototype :=
  mk_prototype "scroll_layer_get_layer" (Pointer (Named "Layer"))
    [("scroll_layer", Pointer (Const (Named "ScrollLayer")))] false.
Definition scroll_layer_add_child : prototype :=
  mk_prototype "scroll_layer_add_child" Void [("scroll_layer", Pointer (Named "ScrollLayer"));
    ("child", Pointer (Named "Layer"))] false.
Definition scroll_layer_set_click_config_onto_window : prototype :=
  mk_prototype "scroll_layer_set_click_config_onto_window" Void
    [("scroll_layer", Pointer (Named "ScrollLayer")); ("window", Pointer (Named "Window"))]
    false.
Definition scroll_layer_set_callbacks : prototype :=
  mk_prototype "scroll_layer_set_callbacks" Void
    [("scroll_layer", Pointer (Named "ScrollLayer"));
    ("callbacks", Named "ScrollLayerCallbacks")] false.
Definition scroll_layer_set_context : prototype :=
  mk_prototype "scroll_layer_set_context" Void [("scroll_layer", Pointer (Named "ScrollLayer"));
    ("context", Pointer Void)] false.
Definition scroll_layer_set_content_offset : prototype :=
  mk_prototype "scroll_layer_set_content_offset" Void
    [("scroll_layer", Pointer (Named "ScrollLayer")); ("offset", Named "GPoint");
    ("animated", Bool)] false.
Definition scroll_layer_get_content_offset : prototype :=
  mk_prototype "scroll_layer_get_content_offset" (Named "GPoint")
    [("scroll_layer", Pointer (Named "ScrollLayer"))] false.
Definition scroll_layer_set_content_size : prototype :=
  mk_prototype "scroll_layer_set_content_size" Void
    [("scroll_layer", Pointer (Named "ScrollLayer")); ("size", Named "GSize")] false.
Definition scroll_layer_get_content_size : prototype :=
  mk_prototype "scroll_layer_get_content_size" (Named "GSize")
    [("scroll_layer", Pointer (Const (Named "ScrollLayer")))] false.
Definition scroll_layer_set_frame : prototype :=
  mk_prototype "scroll_layer_set_frame" Void [("scroll_layer", Pointer (Named "ScrollLayer"));
    ("frame", Named "GRect")] false.
Definition scroll_layer_scroll_up_click_handler : prototype :=
  mk_prototype "scroll_layer_scroll_up_click_handler" Void
    [("recognizer", Named "ClickRecognizerRef"); ("context", Pointer Void)] false.
Definition scroll_layer_scroll_down_click_handler : prototype :=
  mk_prototype "scroll_layer_scroll_down_click_handler" Void
    [("recognizer", Named "ClickRecognizerRef"); ("context", Pointer Void)] false.
Definition scroll_layer_set_shadow_hidden : prototype :=
  mk_prototype "scroll_layer_set_shadow_hidden" Void
    [("scroll_layer", Pointer (Named "ScrollLayer")); ("hidden", Bool)] false.
Definition scroll_layer_get_shadow_hidden : prototype :=
  mk_prototype "scroll_layer_get_shadow_hidden" Bool
    [("scroll_layer", Pointer (Const (Named "ScrollLayer")))] false.
Definition scroll_layer_set_paging : prototype :=
  mk_prototype "scroll_layer_set_paging" Void [("scroll_layer", Pointer (Named "ScrollLayer"));
    ("paging_enabled", Bool)] false.
Definition scroll_layer_get_paging : prototype :=
  mk_prototype "scroll_layer_get_paging" Bool [("scroll_layer", Pointer (Named "ScrollLayer"))]
    false.
Definition scroll_layer_get_content_indicator : prototype :=
  mk_prototype "scroll_layer_get_content_indicator" (Pointer (Named "ContentIndicator"))
    [("scroll_layer", Pointer (Named "ScrollLayer"))] false.
Definition content_indicator_create : prototype :=
  mk_prototype "content_indicator_create" (Pointer (Named "ContentIndicator")) [] false.
Definition content_indicator_destroy : prototype :=
  mk_prototype "content_indicator_destroy" Void
    [("content_indicator", Pointer (Named "ContentIndicator"))] false.
Definition content_indicator_configure_direction : prototype :=
  mk_prototype "content_indicator_configure_direction" Bool
    [("content_indicator", Pointer (Named "ContentIndicator"));
    ("direction", Named "ContentIndicatorDirection");
    ("config", Pointer (Const (Named "ContentIndicatorConfig")))] false.
Definition content_indicator_get_content_available : prototype :=
  mk_prototype "content_indicator_get_content_available" Bool
    [("content_indicator", Pointer (Named "ContentIndicator"));
    ("direction", Named "ContentIndicatorDirection")] false.
Definition content_indicator_set_content_available : prototype :=
  mk_prototype "content_indicator_set_content_available" Void
    [("content_indicator", Pointer (Named "ContentIndicator"));
    ("direction", Named "ContentIndicatorDirection"); ("available", Bool)] false.

(** ** Menu Layer *)

Definition menu_cell_basic_draw : prototype :=
  mk_prototype "menu_cell_basic_draw" Void [("ctx", Pointer (Named "GContext"));
    ("cell_layer", Pointer (Const (Named "Layer"))); ("title", Pointer (Const Char));
    ("subtitle", Pointer (Const Char)); ("icon", Pointer (Named "GBitmap"))] false.
Definition menu_cell_title_draw : prototype :=
  mk_prototype "menu_cell_title_draw" Void [("ctx", Pointer (Named "GContext"));
    ("cell_layer", Pointer (Const (Named "Layer"))); ("title", Pointer (Const Char))] false.
Definition menu_cell_basic_header_draw : prototype :=
  mk_prototype "menu_cell_basic_header_draw" Void [("ctx", Pointer (Named "GContext"));
    ("cell_layer", Pointer (Const (Named "Layer"))); ("title", Pointer (Const Char))] false.
Definition menu_index_compare : prototype :=
  mk_prototype "menu_index_compare" int16_t [("a", Pointer (Const (Named "MenuIndex")));
    ("b", Pointer (Const (Named "MenuIndex")))] false.
Definition menu_layer_create : prototype :=
  mk_prototype "menu_layer_create" (Pointer (Named "MenuLayer")) [("frame", Named "GRect")]
    false.
Definition menu_layer_destroy : prototype :=
  mk_prototype "menu_layer_destroy" Void [("menu_layer", Pointer (Named "MenuLayer"))] false.
Definition menu_layer_get_layer : prototype :=
  mk_prototype "menu_layer_get_layer" (Pointer (Named "Layer"))
    [("menu_layer", Pointer (Const (Named "MenuLayer")))] false.
Definition menu_layer_get_scroll_layer : prototype :=
  mk_prototype "menu_layer_get_scroll_layer" (Pointer (Named "ScrollLayer"))
    [("menu_layer", Pointer (Const (Named "MenuLayer")))] false.
Definition menu_layer_set_callbacks : prototype :=
  mk_prototype "menu_layer_set_callbacks" Void [("menu_layer", Pointer (Named "MenuLayer"));
    ("callback_context", Pointer Void); ("callbacks", Named "MenuLayerCallbacks")] false.
Definition menu_layer_set_click_config_onto_window : prototype :=
  mk_prototype "menu_layer_set_click_config_onto_window" Void
    [("menu_layer", Pointer (Named "MenuLayer")); ("window", Pointer (Named "Window"))] false.
Definition menu_layer_set_selected_next : prototype :=
  mk_prototype "menu_layer_set_selected_next" Void [("menu_layer", Pointer (Named "MenuLayer"));
    ("up", Bool); ("scroll_align", Named "MenuRowAlign"); ("animated", Bool)] false.
Definition menu_layer_set_selected_index : prototype :=
  mk_prototype "menu_layer_set_selected_index" Void
    [("menu_layer", Pointer (Named "MenuLayer")); ("index", Named "MenuIndex");
    ("scroll_align", Named "MenuRowAlign"); ("animated", Bool)] false.
Definition menu_layer_get_selected_index : prototype :=
  mk_prototype "menu_layer_get_selected_index" (Named "MenuIndex")
    [("menu_layer", Pointer (Const (Named "MenuLayer")))] false.
Definition menu_layer_reload_data : prototype :=
  mk_prototype "menu_layer_reload_data" Void [("menu_layer", Pointer (Named "MenuLayer"))]
    false.
Definition menu_cell_layer_is_highlighted : prototype :=
  mk_prototype "menu_cell_layer_is_highlighted" Bool
    [("cell_layer", Pointer (Const (Named "Layer")))] false.
Definition menu_layer_set_normal_colors : prototype :=
  mk_prototype "menu_layer_set_normal_colors" Void [("menu_layer", Pointer (Named "MenuLayer"));
    ("background", Named "GColor"); ("foreground", Named "GColor")] false.
Definition menu_layer_set_highlight_colors : prototype :=
  mk_prototype "menu_layer_set_highlight_colors" Void
    [("menu_layer", Pointer (Named "MenuLayer")); ("background", Named "GColor");
    ("foreground", Named "GColor")] false.
Definition menu_layer_pad_bottom_enable : prototype :=
  mk_prototype "menu_layer_pad_bottom_enable" Void [("menu_layer", Pointer (Named "MenuLayer"));
    ("enable", Bool)] false.
Definition menu_layer_get_center_focused : prototype :=
  mk_prototype "menu_layer_get_center_focused" Bool
    [("menu_layer", Pointer (Named "MenuLayer"))] false.
Definition menu_layer_set_center_focused : prototype :=
  mk_prototype "menu_layer_set_center_focused" Void
    [("menu_layer", Pointer (Named "MenuLayer")); ("center_focused", Bool)] false.
Definition menu_layer_is_index_selected : prototype :=
  mk_prototype "menu_layer_is_index_selected" Bool
    [("menu_layer", Pointer (Const (Named "MenuLayer")));
    ("index", Pointer (Named "MenuIndex"))] false.

(** ** Simple Menu Layer *)

Definition simple_menu_layer_create : prototype :=
  mk_prototype "simple_menu_layer_create" (Pointer (Named "SimpleMenuLayer"))
    [("frame", Named "GRect"); ("window", Pointer (Named "Window"));
    ("sections", Pointer (Const (Named "SimpleMenuSection"))); ("num_sections", int32_t);
    ("callback_context", Pointer Void)] false.
Definition simple_menu_layer_destroy : prototype :=
  mk_prototype "simple_menu_layer_destroy" Void
    [("menu_layer", Pointer (Named "SimpleMenuLayer"))] false.
Definition simple_menu_layer_get_layer : prototype :=
  mk_prototype "simple_menu_layer_get_layer" (Pointer (Named "Layer"))
    [("simple_menu", Pointer (Const (Named "SimpleMenuLayer")))] false.
Definition simple_menu_layer_get_selected_index : prototype :=
  mk_prototype "simple_menu_layer_get_selected_index" int
    [("simple_menu", Pointer (Const (Named "SimpleMenuLayer")))] false.
Definition simple_menu_layer_set_selected_index : prototype :=
  mk_prototype "simple_menu_layer_set_selected_index" Void
    [("simple_menu", Pointer (Named "SimpleMenuLayer")); ("index", int32_t); ("animated", Bool)]
    false.
Definition simple_menu_layer_get_menu_layer : prototype :=
  mk_prototype "simple_menu_layer_get_menu_layer" (Pointer (Named "MenuLayer"))
    [("simple_menu", Pointer (Named "SimpleMenuLayer"))] false.

(** ** Action Bar Layer *)

Definition action_bar_layer_create : prototype :=
  mk_prototype "action_bar_layer_create" (Pointer (Named "ActionBarLayer")) [] false.
Definition action_bar_layer_destroy : prototype :=
  mk_prototype "action_bar_layer_destroy" Void
    [("action_bar_layer", Pointer (Named "ActionBarLayer"))] false.
Definition action_bar_layer_get_layer : prototype :=
  mk_prototype "action_bar_layer_get_layer" (Pointer (Named "Layer"))
    [("action_bar_layer", Pointer (Named "ActionBarLayer"))] false.
Definition action_bar_layer_set_context : prototype :=
  mk_prototype "action_bar_layer_set_context" Void
    [("action_bar", Pointer (Named "ActionBarLayer")); ("context", Pointer Void)] false.
Definition action_bar_layer_set_click_config_provider : prototype :=
  mk_prototype "action_bar_layer_set_click_config_provider" Void
    [("action_bar", Pointer (Named "ActionBarLayer"));
    ("click_config_provider", Named "ClickConfigProvider")] false.
Definition action_bar_layer_set_icon : prototype :=
  mk_prototype "action_bar_layer_set_icon" Void
    [("action_bar", Pointer (Named "ActionBarLayer")); ("button_id", Named "ButtonId");
    ("icon", Pointer (Const (Named "GBitmap")))] false.
Definition action_bar_layer_clear_icon : prototype :=
  mk_prototype "action_bar_layer_clear_icon" Void
    [("action_bar", Pointer (Named "ActionBarLayer")); ("button_id", Named "ButtonId")] false.
Definition action_bar_layer_add_to_window : prototype :=
  mk_prototype "action_bar_layer_add_to_window" Void
    [("action_bar", Pointer (Named "ActionBarLayer")); ("window", Pointer (Named "Window"))]
    false.
Definition action_bar_layer_remove_from_window : prototype :=
  mk_prototype "action_bar_layer_remove_from_window" Void
    [("action_bar", Pointer (Named "ActionBarLayer"))] false.
Definition action_bar_layer_set_background_color : prototype :=
  mk_prototype "action_bar_layer_set_background_color" Void
    [("action_bar", Pointer (Named "ActionBarLayer")); ("background_color", Named "GColor")]
    false.
Definition action_bar_layer_set_icon_animated : prototype :=
  mk_prototype "action_bar_layer_set_icon_animated" Void
    [("action_bar", Pointer (Named "ActionBarLayer")); ("button_id", Named "ButtonId");
    ("icon", Pointer (Const (Named "GBitmap"))); ("animated", Bool)] false.
Definition action_bar_layer_set_icon_press_animation : prototype :=
  mk_prototype "action_bar_layer_set_icon_press_animation" Void
    [("action_bar", Pointer (Named "ActionBarLayer")); ("button_id", Named "ButtonId");
    ("animation", Named "ActionBarLayerIconPressAnimation")] false.

(** ** Status Bar Layer *)

Definition status_bar_layer_create : prototype :=
  mk_prototype "status_bar_layer_create" (Pointer (Named "StatusBarLayer")) [] false.
Definition status_bar_layer_destroy : prototype :=
  mk_prototype "status_bar_layer_destroy" Void
    [("status_bar_layer", Pointer (Named "StatusBarLayer"))] false.
Definition status_bar_layer_get_layer : prototype :=
  mk_prototype "status_bar_layer_get_layer" (Pointer (Named "Layer"))
    [("status_bar_layer", Pointer (Named "StatusBarLayer"))] false.
Definition status_bar_layer_get_background_color : prototype :=
  mk_prototype "status_bar_layer_get_background_color" (Named "GColor")
    [("status_bar_layer", Pointer (Const (Named "StatusBarLayer")))] false.
Definition status_bar_layer_get_foreground_color : prototype :=
  mk_prototype "status_bar_layer_get_foreground_color" (Named "GColor")
    [("status_bar_layer", Pointer (Const (Named "StatusBarLayer")))] false.
Definition status_bar_layer_set_colors : prototype :=
  mk_prototype "status_bar_layer_set_colors" Void
    [("status_bar_layer", Pointer (Named "StatusBarLayer")); ("background", Named "GColor");
    ("foreground", Named "GColor")] false.
Definition status_bar_layer_set_separator_mode : prototype :=
  mk_prototype "status_bar_layer_set_separator_mode" Void
    [("status_bar_layer", Pointer (Named "StatusBarLayer"));
    ("mode", Named "StatusBarLayerSeparatorMode")] false.

(** ** Bitmap Layer *)

Definition bitmap_layer_create : prototype :=
  mk_prototype "bitmap_layer_create" (Pointer (Named "BitmapLayer")) [("frame", Named "GRect")]
    false.
Definition bitmap_layer_destroy : prototype :=
  mk_prototype "bitmap_layer_destroy" Void [("bitmap_layer", Pointer (Named "BitmapLayer"))]
    false.
Definition bitmap_layer_get_layer : prototype :=
  mk_prototype "bitmap_layer_get_layer" (Pointer (Named "Layer"))
    [("bitmap_layer", Pointer (Const (Named "BitmapLayer")))] false.
Definition bitmap_layer_get_bitmap : prototype :=
  mk_prototype "bitmap_layer_get_bitmap" (Pointer (Const (Named "GBitmap")))
    [("bitmap_layer", Pointer (Named "BitmapLayer"))] false.
Definition bitmap_layer_set_bitmap : prototype :=
  mk_prototype "bitmap_layer_set_bitmap" Void [("bitmap_layer", Pointer (Named "BitmapLayer"));
    ("bitmap", Pointer (Const (Named "GBitmap")))] false.
Definition bitmap_layer_set_alignment : prototype :=
  mk_prototype "bitmap_layer_set_alignment" Void
    [("bitmap_layer", Pointer (Named "BitmapLayer")); ("alignment", Named "GAlign")] false.
Definition bitmap_layer_set_background_color : prototype :=
  mk_prototype "bitmap_layer_set_background_color" Void
    [("bitmap_layer", Pointer (Named "BitmapLayer")); ("color", Named "GColor")] false.
Definition bitmap_layer_set_compositing_mode : prototype :=
  mk_prototype "bitmap_layer_set_compositing_mode" Void
    [("bitmap_layer", Pointer (Named "BitmapLayer")); ("mode", Named "GCompOp")] false.

(** ** Rot Bitmap Layer *)

Definition rot_bitmap_layer_create : prototype :=
  mk_prototype "rot_bitmap_layer_create" (Pointer (Named "RotBitmapLayer"))
    [("bitmap", Pointer (Named "GBitmap"))] false.
Definition rot_bitmap_layer_destroy : prototype :=
  mk_prototype "rot_bitmap_layer_destroy" Void [("bitmap", Pointer (Named "RotBitmapLayer"))]
    false.
Definition rot_bitmap_layer_set_corner_clip_color : prototype :=
  mk_prototype "rot_bitmap_layer_set_corner_clip_color" Void
    [("bitmap", Pointer (Named "RotBitmapLayer")); ("color", Named "GColor")] false.
Definition rot_bitmap_layer_set_angle : prototype :=
  mk_prototype "rot_bitmap_layer_set_angle" Void [("bitmap", Pointer (Named "RotBitmapLayer"));
    ("angle", int32_t)] false.
Definition rot_bitmap_layer_increment_angle : prototype :=
  mk_prototype "rot_bitmap_layer_increment_angle" Void
    [("bitmap", Pointer (Named "RotBitmapLayer")); ("angle_change", int32_t)] false.
Definition rot_bitmap_set_src_ic : prototype :=
  mk_prototype "rot_bitmap_set_src_ic" Void [("bitmap", Pointer (Named "RotBitmapLayer"));
    ("ic", Named "GPoint")] false.
Definition rot_bitmap_set_compositing_mode : prototype :=
  mk_prototype "rot_bitmap_set_compositing_mode" Void
    [("bitmap", Pointer (Named "RotBitmapLayer")); ("mode", Named "GCompOp")] false.

(** ** Number Window *)

Definition number_window_create : prototype :=
  mk_prototype "number_window_create" (Pointer (Named "NumberWindow"))
    [("label", Pointer (Const Char)); ("callbacks", Named "NumberWindowCallbacks");
    ("callback_context", Pointer Void)] false.
Definition number_window_destroy : prototype :=
  mk_prototype "number_window_destroy" Void [("number_window", Pointer (Named "NumberWindow"))]
    false.
Definition number_window_set_label : prototype :=
  mk_prototype "number_window_set_label" Void [("numberwindow", Pointer (Named "NumberWindow"));
    ("label", Pointer (Const Char))] false.
Definition number_window_set_max : prototype :=
  mk_prototype "number_window_set_max" Void [("numberwindow", Pointer (Named "NumberWindow"));
    ("max", int32_t)] false.
Definition number_window_set_min : prototype :=
  mk_prototype "number_window_set_min" Void [("numberwindow", Pointer (Named "NumberWindow"));
    ("min", int32_t)] false.
Definition number_window_set_value : prototype :=
  mk_prototype "number_window_set_value" Void [("numberwindow", Pointer (Named "NumberWindow"));
    ("value", int32_t)] false.
Definition number_window_set_step_size : prototype :=
  mk_prototype "number_window_set_step_size" Void
    [("numberwindow", Pointer (Named "NumberWindow")); ("step", int32_t)] false.
Definition number_window_get_value : prototype :=
  mk_prototype "number_window_get_value" int32_t
    [("numberwindow", Pointer (Const (Named "NumberWindow")))] false.
Definition number_window_get_window : prototype :=
  mk_prototype "number_window_get_window" (Pointer (Named "Window"))
    [("numberwindow", Pointer (Named "NumberWindow"))] false.

(** ** Action Menu *)

Definition action_menu_item_get_label : prototype :=
  mk_prototype "action_menu_item_get_label" (Pointer Char)
    [("item", Pointer (Const (Named "ActionMenuItem")))] false.
Definition action_menu_item_get_action_data : prototype :=
  mk_prototype "action_menu_item_get_action_data" (Pointer Void)
    [("item", Pointer (Const (Named "ActionMenuItem")))] false.
Definition action_menu_level_create : prototype :=
  mk_prototype "action_menu_level_create" (Pointer (Named "ActionMenuLevel"))
    [("max_items", uint16_t)] false.
Definition action_menu_level_set_display_mode : prototype :=
  mk_prototype "action_menu_level_set_display_mode" Void
    [("level", Pointer (Named "ActionMenuLevel"));
    ("display_mode", Named "ActionMenuLevelDisplayMode")] false.
Definition action_menu_level_add_action : prototype :=
  mk_prototype "action_menu_level_add_action" (Pointer (Named "ActionMenuItem"))
    [("level", Pointer (Named "ActionMenuLevel")); ("label", Pointer (Const Char));
    ("cb", Named "ActionMenuPerformActionCb"); ("action_data", Pointer Void)] false.
Definition action_menu_level_add_child : prototype :=
  mk_prototype "action_menu_level_add_child" (Pointer (Named "ActionMenuItem"))
    [("level", Pointer (Named "ActionMenuLevel")); ("child", Pointer (Named "ActionMenuLevel"));
    ("label", Pointer (Const Char))] false.
Definition action_menu_hierarchy_destroy : prototype :=
  mk_prototype "action_menu_hierarchy_destroy" Void
    [("root", Pointer (Const (Named "ActionMenuLevel")));
    ("each_cb", Named "ActionMenuEachItemCb"); ("context", Pointer Void)] false.
Definition action_menu_get_context : prototype :=
  mk_prototype "action_menu_get_context" (Pointer Void)
    [("action_menu", Pointer (Named "ActionMenu"))] false.
Definition action_menu_get_root_level : prototype :=
  mk_prototype "action_menu_get_root_level" (Pointer (Named "ActionMenuLevel"))
    [("action_menu", Pointer (Named "ActionMenu"))] false.
Definition action_menu_open : prototype :=
  mk_prototype "action_menu_open" (Pointer (Named "ActionMenu"))
    [("config", Pointer (Named "ActionMenuConfig"))] false.
Definition action_menu_freeze : prototype :=
  mk_prototype "action_menu_freeze" Void [("action_menu", Pointer (Named "ActionMenu"))] false.
Definition action_menu_unfreeze : prototype :=
  mk_prototype "action_menu_unfreeze" Void [("action_menu", Pointer (Named "ActionMenu"))]
    false.
Definition action_menu_set_result_window : prototype :=
  mk_prototype "action_menu_set_result_window" Void
    [("action_menu", Pointer (Named "ActionMenu")); ("result_window", Pointer (Named "Window"))]
    false.
Definition action_menu_close : prototype :=
  mk_prototype "action_menu_close" Void [("action_menu", Pointer (Named "ActionMenu"));
    ("animated", Bool)] false.

(** ** Vibes *)

Definition vibes_cancel : prototype := mk_prototype "vibes_cancel" Void [] false.
Definition vibes_short_pulse : prototype := mk_prototype "vibes_short_pulse" Void [] false.
Definition vibes_long_pulse : prototype := mk_prototype "vibes_long_pulse" Void [] false.
Definition vibes_double_pulse : prototype := mk_prototype "vibes_double_pulse" Void [] false.
Definition vibes_enqueue_custom_pattern : prototype :=
  mk_prototype "vibes_enqueue_custom_pattern" Void [("pattern", Named "VibePattern")] false.

(** ** Light *)

Definition light_enable_interaction : prototype :=
  mk_prototype "light_enable_interaction" Void [] false.
Definition light_enable : prototype := mk_prototype "light_enable" Void [("enable", Bool)] false.

(** ** Time *)

Definition strftime : prototype :=
  mk_prototype "strftime" int [("s", Pointer Char); ("maxsize", size_t);
    ("format", Pointer (Const Char)); ("tm_p", Pointer (Const (Named "tm")))] false.
Definition localtime : prototype :=
  mk_prototype "localtime" (Pointer (Named "tm")) [("timep", Pointer (Const time_t))] false.
Definition gmtime : prototype :=
  mk_prototype "gmtime" (Pointer (Named "tm")) [("timep", Pointer (Const time_t))] false.
Definition mktime : prototype :=
  mk_prototype "mktime" time_t [("tb", Pointer (Named "tm"))] false.
Definition time : prototype := mk_prototype "time" time_t [("tloc", Pointer time_t)] false.
Definition difftime : prototype :=
  mk_prototype "difftime" Double [("end", time_t); ("beginning", time_t)] false.
Definition time_ms : prototype :=
  mk_prototype "time_ms" uint16_t [("t_utc", Pointer time_t); ("out_ms", Pointer uint16_t)]
    false.
Definition time_start_of_today : prototype := mk_prototype "time_start_of_today" time_t [] false.

(** All of them. *)
Definition pebble_functions : list prototype :=
  [i18n_get_system_locale; watch_info_get_model; watch_info_get_firmware_version;
   watch_info_get_color; sin_lookup; cos_lookup; atan2_lookup; clock_copy_time_string;
   clock_is_24h_style; clock_to_timestamp; clock_is_timezone_set; clock_get_timezone;
   connection_service_peek_pebble_app_connection; connection_service_peek_pebblekit_connection;
   connection_service_subscribe; connection_service_unsubscribe;
   bluetooth_connection_service_peek; bluetooth_connection_service_subscribe;
   bluetooth_connection_service_unsubscribe; app_focus_service_subscribe_handlers;
   app_focus_service_subscribe; app_focus_service_unsubscribe; battery_state_service_subscribe;
   battery_state_service_unsubscribe; battery_state_service_peek; accel_service_peek;
   accel_service_set_sampling_rate; accel_service_set_samples_per_update;
   accel_data_service_subscribe; accel_data_service_unsubscribe; accel_tap_service_subscribe;
   accel_tap_service_unsubscribe; accel_raw_data_service_subscribe;
   compass_service_set_heading_filter; compass_service_subscribe; compass_service_unsubscribe;
   compass_service_peek; tick_timer_service_subscribe; tick_timer_service_unsubscribe;
   health_service_sum; health_service_sum_today; health_service_sum_averaged;
   health_service_peek_current_activities; health_service_activities_iterate;
   health_service_metric_accessible; health_service_metric_averaged_accessible;
   health_service_any_activity_accessible; health_service_events_subscribe;
   health_service_events_unsubscribe; health_service_get_minute_history;
   health_service_get_measurement_system_for_display; data_logging_create; data_logging_finish;
   data_logging_log; uuid_equal; uuid_to_string; app_log; dict_calc_buffer_size; dict_size;
   dict_write_begin; dict_write_data; dict_write_cstring; dict_write_int; dict_write_uint8;
   dict_write_uint16; dict_write_uint32; dict_write_int8; dict_write_int16; dict_write_int32;
   dict_write_end; dict_read_begin_from_buffer; dict_read_next; dict_read_first;
   dict_serialize_tuplets; dict_serialize_tuplets_to_buffer;
   dict_serialize_tuplets_to_buffer_with_iter; dict_write_tuplet;
   dict_calc_buffer_size_from_tuplets; dict_merge; dict_find; dictation_session_create;
   dictation_session_destroy; dictation_session_start; dictation_session_stop;
   dictation_session_enable_confirmation; dictation_session_enable_error_dialogs;
   app_message_open; app_message_deregister_callbacks; app_message_get_context;
   app_message_set_context; app_message_register_inbox_received;
   app_message_register_inbox_dropped; app_message_register_outbox_sent;
   app_message_register_outbox_failed; app_message_inbox_size_maximum;
   app_message_outbox_size_maximum; app_message_outbox_begin; app_message_outbox_send;
   app_sync_init; app_sync_deinit; app_sync_set; app_sync_get; resource_get_handle;
   resource_size; resource_load; resource_load_byte_range; app_event_loop;
   app_worker_is_running; app_worker_launch; app_worker_kill; app_worker_message_subscribe;
   app_worker_message_unsubscribe; app_worker_send_message; app_comm_set_sniff_interval;
   app_comm_get_sniff_interval; psleep; app_timer_register; app_timer_reschedule;
   app_timer_cancel; heap_bytes_free; heap_bytes_used; persist_exists; persist_get_size;
   persist_read_bool; persist_read_int; persist_read_data; persist_read_string;
   persist_write_bool; persist_write_int; persist_write_data; persist_write_string;
   persist_delete; wakeup_service_subscribe; wakeup_schedule; wakeup_cancel; wakeup_cancel_all;
   wakeup_get_launch_event; wakeup_query; launch_reason; launch_get_args; gcolor_equal;
   gcolor_legible_over; gpoint_equal; gsize_equal; grect_equal; grect_is_empty;
   grect_standardize; grect_clip; grect_contains_point; grect_center_point; grect_crop;
   gbitmap_get_bytes_per_row; gbitmap_get_format; gbitmap_get_data; gbitmap_set_data;
   gbitmap_get_bounds; gbitmap_set_bounds; gbitmap_get_palette; gbitmap_set_palette;
   gbitmap_create_with_resource; gbitmap_create_with_data; gbitmap_create_as_sub_bitmap;
   gbitmap_create_from_png_data; gbitmap_create_blank; gbitmap_create_blank_with_palette;
   gbitmap_create_palettized_from_1bit; gbitmap_destroy; gbitmap_sequence_create_with_resource;
   gbitmap_sequence_update_bitmap_next_frame; gbitmap_sequence_update_bitmap_by_elapsed;
   gbitmap_sequence_destroy; gbitmap_sequence_restart; gbitmap_sequence_get_current_frame_idx;
   gbitmap_sequence_get_total_num_frames; gbitmap_sequence_get_play_count;
   gbitmap_sequence_set_play_count; gbitmap_sequence_get_bitmap_size; gbitmap_get_data_row_info;
   grect_align; grect_inset; graphics_context_set_stroke_color; graphics_context_set_fill_color;
   graphics_context_set_text_color; graphics_context_set_compositing_mode;
   graphics_context_set_antialiased; graphics_context_set_stroke_width; graphics_draw_pixel;
   graphics_draw_line; graphics_draw_rect; graphics_fill_rect; graphics_draw_circle;
   graphics_fill_circle; graphics_draw_round_rect; graphics_draw_bitmap_in_rect;
   graphics_capture_frame_buffer; graphics_capture_frame_buffer_format;
   graphics_release_frame_buffer; graphics_frame_buffer_is_captured;
   graphics_draw_rotated_bitmap; graphics_draw_arc; graphics_fill_radial; gpoint_from_polar;
   grect_centered_from_polar; gdraw_command_draw; gdraw_command_get_type;
   gdraw_command_set_fill_color; gdraw_command_get_fill_color; gdraw_command_set_stroke_color;
   gdraw_command_get_stroke_color; gdraw_command_set_stroke_width;
   gdraw_command_get_stroke_width; gdraw_command_get_num_points; gdraw_command_set_point;
   gdraw_command_get_point; gdraw_command_set_radius; gdraw_command_get_radius;
   gdraw_command_set_path_open; gdraw_command_get_path_open; gdraw_command_set_hidden;
   gdraw_command_get_hidden; gdraw_command_frame_draw; gdraw_command_frame_set_duration;
   gdraw_command_frame_get_duration; gdraw_command_image_create_with_resource;
   gdraw_command_image_clone; gdraw_command_image_destroy; gdraw_command_image_draw;
   gdraw_command_image_get_bounds_size; gdraw_command_image_set_bounds_size;
   gdraw_command_image_get_command_list; gdraw_command_list_iterate; gdraw_command_list_draw;
   gdraw_command_list_get_command; gdraw_command_list_get_num_commands;
   gdraw_command_sequence_create_with_resource; gdraw_command_sequence_clone;
   gdraw_command_sequence_destroy; gdraw_command_sequence_get_frame_by_elapsed;
   gdraw_command_sequence_get_frame_by_index; gdraw_command_sequence_get_bounds_size;
   gdraw_command_sequence_set_bounds_size; gdraw_command_sequence_get_play_count;
   gdraw_command_sequence_set_play_count; gdraw_command_sequence_get_total_duration;
   gdraw_command_sequence_get_num_frames; gdraw_command_frame_get_command_list; gpath_create;
   gpath_destroy; gpath_draw_filled; gpath_draw_outline; gpath_rotate_to; gpath_move_to;
   gpath_draw_outline_open; fonts_get_system_font; fonts_load_custom_font;
   fonts_unload_custom_font; graphics_text_attributes_create; graphics_text_attributes_destroy;
   graphics_text_attributes_restore_default_text_flow;
   graphics_text_attributes_enable_screen_text_flow;
   graphics_text_attributes_restore_default_paging; graphics_text_attributes_enable_paging;
   graphics_draw_text; graphics_text_layout_get_content_size;
   graphics_text_layout_get_content_size_with_attributes; smartstrap_subscribe;
   smartstrap_unsubscribe; smartstrap_set_timeout; smartstrap_attribute_create;
   smartstrap_attribute_destroy; smartstrap_service_is_available;
   smartstrap_attribute_get_service_id; smartstrap_attribute_get_attribute_id;
   smartstrap_attribute_read; smartstrap_attribute_begin_write; smartstrap_attribute_end_write;
   click_number_of_clicks_counted; click_recognizer_get_button_id;
   click_recognizer_is_repeating; layer_create; layer_create_with_data; layer_destroy;
   layer_mark_dirty; layer_set_update_proc; layer_set_frame; layer_get_frame; layer_set_bounds;
   layer_get_bounds; layer_convert_point_to_screen; layer_convert_rect_to_screen;
   layer_get_window; layer_remove_from_parent; layer_remove_child_layers; layer_add_child;
   layer_insert_below_sibling; layer_insert_above_sibling; layer_set_hidden; layer_get_hidden;
   layer_set_clips; layer_get_clips; layer_get_data; window_create; window_destroy;
   window_set_click_config_provider; window_set_click_config_provider_with_context;
   window_get_click_config_provider; window_get_click_config_context;
   window_set_window_handlers; window_get_root_layer; window_set_background_color;
   window_is_loaded; window_set_user_data; window_get_user_data; window_single_click_subscribe;
   window_single_repeating_click_subscribe; window_multi_click_subscribe;
   window_long_click_subscribe; window_raw_click_subscribe; window_set_click_context;
   window_stack_push; window_stack_pop; window_stack_pop_all; window_stack_remove;
   window_stack_get_top_window; window_stack_contains_window; animation_create;
   animation_destroy; animation_clone; animation_sequence_create;
   animation_sequence_create_from_array; animation_spawn_create;
   animation_spawn_create_from_array; animation_set_elapsed; animation_get_elapsed;
   animation_set_reverse; animation_get_reverse; animation_set_play_count;
   animation_get_play_count; animation_set_duration; animation_get_duration;
   animation_set_delay; animation_get_delay; animation_set_curve; animation_get_curve;
   animation_set_custom_curve; animation_get_custom_curve; animation_set_handlers;
   animation_get_context; animation_schedule; animation_unschedule; animation_unschedule_all;
   animation_is_scheduled; animation_set_implementation; animation_get_implementation;
   property_animation_create_layer_frame; property_animation_create_bounds_origin;
   property_animation_create; property_animation_destroy; property_animation_update_int16;
   property_animation_update_uint32; property_animation_update_gpoint;
   property_animation_update_grect; property_animation_update_gcolor8;
   property_animation_get_animation; property_animation_subject; property_animation_from;
   property_animation_to; text_layer_create; text_layer_destroy; text_layer_get_layer;
   text_layer_set_text; text_layer_get_text; text_layer_set_background_color;
   text_layer_set_text_color; text_layer_set_overflow_mode; text_layer_set_font;
   text_layer_set_text_alignment; text_layer_enable_screen_text_flow_and_paging;
   text_layer_restore_default_text_flow_and_paging; text_layer_get_content_size;
   text_layer_set_size; scroll_layer_create; scroll_layer_destroy; scroll_layer_get_layer;
   scroll_layer_add_child; scroll_layer_set_click_config_onto_window;
   scroll_layer_set_callbacks; scroll_layer_set_context; scroll_layer_set_content_offset;
   scroll_layer_get_content_offset; scroll_layer_set_content_size;
   scroll_layer_get_content_size; scroll_layer_set_frame; scroll_layer_scroll_up_click_handler;
   scroll_layer_scroll_down_click_handler; scroll_layer_set_shadow_hidden;
   scroll_layer_get_shadow_hidden; scroll_layer_set_paging; scroll_layer_get_paging;
   scroll_layer_get_content_indicator; content_indicator_create; content_indicator_destroy;
   content_indicator_configure_direction; content_indicator_get_content_available;
   content_indicator_set_content_available; menu_cell_basic_draw; menu_cell_title_draw;
   menu_cell_basic_header_draw; menu_index_compare; menu_layer_create; menu_layer_destroy;
   menu_layer_get_layer; menu_layer_get_scroll_layer; menu_layer_set_callbacks;
   menu_layer_set_click_config_onto_window; menu_layer_set_selected_next;
   menu_layer_set_selected_index; menu_layer_get_selected_index; menu_layer_reload_data;
   menu_cell_layer_is_highlighted; menu_layer_set_normal_colors;
   menu_layer_set_highlight_colors; menu_layer_pad_bottom_enable; menu_layer_get_center_focused;
   menu_layer_set_center_focused; menu_layer_is_index_selected; simple_menu_layer_create;
   simple_menu_layer_destroy; simple_menu_layer_get_layer; simple_menu_layer_get_selected_index;
   simple_menu_layer_set_selected_index; simple_menu_layer_get_menu_layer;
   action_bar_layer_create; action_bar_layer_destroy; action_bar_layer_get_layer;
   action_bar_layer_set_context; action_bar_layer_set_click_config_provider;
   action_bar_layer_set_icon; action_bar_layer_clear_icon; action_bar_layer_add_to_window;
   action_bar_layer_remove_from_window; action_bar_layer_set_background_color;
   action_bar_layer_set_icon_animated; action_bar_layer_set_icon_press_animation;
   status_bar_layer_create; status_bar_layer_destroy; status_bar_layer_get_layer;
   status_bar_layer_get_background_color; status_bar_layer_get_foreground_color;
   status_bar_layer_set_colors; status_bar_layer_set_separator_mode; bitmap_layer_create;
   bitmap_layer_destroy; bitmap_layer_get_layer; bitmap_layer_get_bitmap;
   bitmap_layer_set_bitmap; bitmap_layer_set_alignment; bitmap_layer_set_background_color;
   bitmap_layer_set_compositing_mode; rot_bitmap_layer_create; rot_bitmap_layer_destroy;
   rot_bitmap_layer_set_corner_clip_color; rot_bitmap_layer_set_angle;
   rot_bitmap_layer_increment_angle; rot_bitmap_set_src_ic; rot_bitmap_set_compositing_mode;
   number_window_create; number_window_destroy; number_window_set_label; number_window_set_max;
   number_window_set_min; number_window_set_value; number_window_set_step_size;
   number_window_get_value; number_window_get_window; action_menu_item_get_label;
   action_menu_item_get_action_data; action_menu_level_create;
   action_menu_level_set_display_mode; action_menu_level_add_action;
   action_menu_level_add_child; action_menu_hierarchy_destroy; action_menu_get_context;
   action_menu_get_root_level; action_menu_open; action_menu_freeze; action_menu_unfreeze;
   action_menu_set_result_window; action_menu_close; vibes_cancel; vibes_short_pulse;
   vibes_long_pulse; vibes_double_pulse; vibes_enqueue_custom_pattern; light_enable_interaction;
   light_enable; strftime; localtime; gmtime; mktime; time; difftime; time_ms;
   time_start_of_today].
