(* ===== verification/AbiProps.v ===== *)
(** * The declarations of the SDK are well formed, and arguments do not overlap

    The table of types and the functions declared with it; how fields are laid out; and
    where the arguments of a call are, for any call and for the functions that the patch
    replaces. *)

From stdpp Require Import strings gmap.
From S2P Require Import Prelude SdkEnums Abi SdkDecls SdkApi.

(** ** Layout *)

Lemma align_up_ge x a : 0 < a -> x <= align_up x a.
Proof. unfold align_up. intros. pose proof (Z.mod_pos_bound (x + a - 1) a). pose proof (Z.div_mod (x + a - 1) a). lia. Qed.

Lemma align_up_divide x a : (a | align_up x a).
Proof. by eexists. Qed.

Lemma align_up_multiple x a b : 0 < a -> (b | a) -> (b | align_up x a).
Proof. intros _ Hb. etrans; [done|apply align_up_divide]. Qed.

(** The fields [(size, align)] at the offsets [os] fill [off, e) in order: each is
    aligned and starts where the one before has ended or later. *)
Inductive laid_out : Z -> list (Z * Z) -> list Z -> Z -> Prop :=
| laid_out_nil off : laid_out off [] [] off
| laid_out_cons off size align fields o os e :
    off <= o -> (align | o) -> laid_out (o + size) fields os e ->
    laid_out off ((size, align) :: fields) (o :: os) e.

Lemma place_fields_laid_out fields off :
  Forall (fun f => 0 < f.2) fields ->
  laid_out off fields (place_fields off fields).1 (place_fields off fields).2.
Proof.
  intros Hf. revert off. induction Hf as [|[size align] fields Ha _ IH]; intros off; cbn; [constructor|].
  specialize (IH (align_up off align + size)). destruct (place_fields _ fields) as [os e].
  constructor; [by apply align_up_ge|apply align_up_divide|done].
Qed.

Lemma laid_out_le off fields os e :
  laid_out off fields os e -> Forall (fun f => 0 <= f.1) fields -> off <= e.
Proof.
  induction 1 as [|off size align fields o os e Ho _ _ IH]; [lia|].
  intros [Hs Hf]%Forall_cons. cbn in Hs. specialize (IH Hf). lia.
Qed.

Lemma laid_out_lookup off fields os e i f o :
  laid_out off fields os e -> Forall (fun f => 0 <= f.1) fields ->
  fields !! i = Some f -> os !! i = Some o -> off <= o /\ (f.2 | o) /\ o + f.1 <= e.
Proof.
  intros H. revert i. induction H as [|off size align fields o' os e Ho Hd H IH]; intros i Hf; [done|].
  apply Forall_cons in Hf as [Hs Hf]. pose proof (laid_out_le _ _ _ _ H Hf). cbn in Hs.
  destruct i as [|i]; cbn.
  - intros [= <-] [= <-]. split_and!; [lia|done|cbn; lia].
  - intros Hi Hoi. destruct (IH i Hf Hi Hoi) as (?&?&?). split_and!; [lia|done|done].
Qed.

Lemma laid_out_length off fields os e : laid_out off fields os e -> length fields = length os.
Proof. induction 1; cbn; congruence. Qed.

Lemma laid_out_disjoint off fields os e i j f o o' :
  laid_out off fields os e -> Forall (fun f => 0 <= f.1) fields -> (i < j)%nat ->
  fields !! i = Some f -> os !! i = Some o -> os !! j = Some o' -> o + f.1 <= o'.
Proof.
  intros H. revert i j. induction H as [|off size align fields o0 os e Ho Hd H IH]; intros i j Hf Hij; [done|].
  apply Forall_cons in Hf as [Hs Hf]. destruct j as [|j]; [lia|].
  destruct i as [|i]; cbn.
  - intros [= <-] [= <-] Hj. pose proof (laid_out_length _ _ _ _ H) as Hlen.
    destruct (lookup_lt_is_Some_2 fields j) as [f' Hf']; [rewrite Hlen; by eapply lookup_lt_Some|].
    by destruct (laid_out_lookup _ _ _ _ _ _ _ H Hf Hf' Hj) as (?&_&_).
  - intros Hi Ho' Hj. eapply (IH i j); eauto with lia.
Qed.

(** A structure, given the sizes and alignments of its fields: every field is at a
    multiple of its alignment and inside the structure, no two fields overlap, and the
    size is a multiple of the alignment, so that arrays keep the fields aligned. *)
Theorem struct_layout_spec fields :
  Forall (fun f => 0 <= f.1 /\ 0 < f.2) fields ->
  let os := (place_fields 0 fields).1 in
  let '(size, align) := struct_layout fields in
  (align | size) /\
  (forall i f o, fields !! i = Some f -> os !! i = Some o -> 0 <= o /\ (f.2 | o) /\ o + f.1 <= size) /\
  (forall i j f o o', (i < j)%nat ->
    fields !! i = Some f -> os !! i = Some o -> os !! j = Some o' -> o + f.1 <= o').
Proof.
  intros Hf os. cbn.
  apply Forall_and in Hf as [Hs Hp].
  assert (laid_out 0 fields os (place_fields 0 fields).2) as H by by apply place_fields_laid_out.
  assert (0 < max_align fields) as Ha.
  { clear. unfold max_align. induction fields as [|f fields IH]; cbn; lia. }
  split_and!; [apply align_up_divide| |].
  - intros i f o Hi Ho. destruct (laid_out_lookup _ _ _ _ _ _ _ H Hs Hi Ho) as (?&?&?).
    pose proof (align_up_ge (place_fields 0 fields).2 _ Ha). split_and!; [done|done|lia].
  - intros i j f o o'. by apply (laid_out_disjoint 0 fields os (place_fields 0 fields).2).
Qed.

(** ** Arguments *)

(** Registers before the stack, as a position in the list of argument words. *)
Definition position (pl : place) : Z := match pl with Reg n => n | Stack off => 4 + off end.
Definition state_position (st : arg_state) : Z := if st.1 <? 4 then st.1 else 4 + st.2.

Definition place_ok (pl : place) : Prop :=
  match pl with Reg n => 0 <= n < 4 | Stack off => 0 <= off /\ (4 | off) end.

(** While there are registers left, nothing is on the stack. *)
Definition arg_state_ok (st : arg_state) : Prop :=
  0 <= st.1 <= 4 /\ 0 <= st.2 /\ (4 | st.2) /\ (st.2 = 0 \/ st.1 = 4).

(** The places [ps] lie between two states, each at most once. *)
Definition between (st : arg_state) (ps : list place) (st' : arg_state) : Prop :=
  arg_state_ok st' /\ state_position st <= state_position st' /\ NoDup ps /\
  Forall (fun pl => place_ok pl /\ state_position st <= position pl < state_position st') ps.

Lemma between_app st ps st1 ps' st2 :
  between st ps st1 -> between st1 ps' st2 -> between st (ps ++ ps') st2.
Proof.
  intros (H1&Hle&Hnd&Hps) (H2&Hle'&Hnd'&Hps'). split_and!; [done|lia| |].
  - apply NoDup_app. split_and!; [done| |done]. intros pl Hp Hp'.
    rewrite Forall_forall in Hps, Hps'. destruct (Hps pl Hp), (Hps' pl Hp'). lia.
  - apply Forall_app. split; (eapply Forall_impl; [done|]); intros pl [? ?]; split; (done || lia).
Qed.

Lemma between_none st : arg_state_ok st -> between st [] st.
Proof. intros H. split; [done|]. split; [done|]. split; constructor. Qed.

Lemma between_one st pl st' :
  arg_state_ok st' -> place_ok pl -> state_position st <= position pl < state_position st' ->
  between st [pl] st'.
Proof.
  intros H Hp Hpos. split; [done|]. split; [lia|]. split; [apply NoDup_singleton|by apply Forall_singleton].
Qed.

Lemma place_words_between n st :
  arg_state_ok st -> between st (place_words n st).1 (place_words n st).2.
Proof.
  revert st. induction n as [|n IH]; intros [r s] Hst; cbn [place_words fst snd].
  { by apply between_none. }
  destruct Hst as (Hr&Hs&Hd&Hrs). cbn [fst snd] in Hr, Hs, Hd, Hrs.
  destruct (Z.ltb_spec r 4).
  - assert (arg_state_ok (r + 1, s)) as Hok by (split_and!; cbn [fst snd]; done || lia).
    specialize (IH _ Hok). destruct (place_words n (r + 1, s)) as [ps st'].
    apply (between_app (r, s) [Reg r] (r + 1, s)); [|done].
    apply between_one; [done|cbn; lia|]. unfold state_position. cbn [fst snd position]. repeat case_match; lia.
  - assert (arg_state_ok (4, s + 4)) as Hok.
    { split_and!; cbn [fst snd]; try (done || lia). by apply Z.divide_add_r. }
    specialize (IH _ Hok). destruct (place_words n (4, s + 4)) as [ps st'].
    apply (between_app (r, s) [Stack s] (4, s + 4)); [|done].
    apply between_one; [done|done|]. unfold state_position. cbn [fst snd position]. repeat case_match; lia.
Qed.

Lemma place_words_length n st : length (place_words n st).1 = n.
Proof.
  revert st. induction n as [|n IH]; intros st; [done|]. cbn [place_words].
  case_match; (destruct (place_words n _) as [ps st'] eqn:E; cbn; f_equal;
    erewrite <- IH at 1; by rewrite E).
Qed.

Lemma place_arg_between size align st :
  arg_state_ok st -> between st (place_arg size align st).1 (place_arg size align st).2.
Proof.
  intros Hst. unfold place_arg. set (words := Z.to_nat _).
  set (ncrn := if (align =? 8) && (st.1 <? 4) then align_up st.1 2 else st.1).
  set (st1 := (ncrn, st.2)).
  set (st2 := if (4 <? st1.1 + Z.of_nat words) && negb (st1.2 =? 0) then (4, st1.2) else st1).
  set (st3 := if (4 <=? st2.1) && (align =? 8) then (st2.1, align_up st2.2 8) else st2).
  assert (arg_state_ok st1 /\ state_position st <= state_position st1) as [Hok1 Hle1].
  { unfold st1, ncrn. destruct st as [r s], Hst as (Hr&Hs&Hd&Hrs). cbn [fst snd] in *.
    unfold align_up, arg_state_ok, state_position. cbn [fst snd].
    destruct (Z.eqb_spec align 8), (Z.ltb_spec r 4); cbn [andb]; repeat case_match; split_and!; done || dlia. }
  assert (arg_state_ok st2 /\ state_position st1 <= state_position st2) as [Hok2 Hle2].
  { unfold st2. case_match; [|done]. destruct Hok1 as (?&?&?&?).
    unfold arg_state_ok, state_position. cbn [fst snd]. repeat case_match; split_and!; done || lia. }
  assert (arg_state_ok st3 /\ state_position st2 <= state_position st3) as [Hok3 Hle3].
  { unfold st3. case_match eqn:E; [|done]. apply andb_true_iff in E as [E%Z.leb_le _].
    destruct Hok2 as (?&?&?&?). pose proof (align_up_ge st2.2 8 ltac:(lia)).
    unfold arg_state_ok, state_position. cbn [fst snd]. repeat case_match; split_and!; try (done || lia).
    all: by apply align_up_multiple; [|exists 2]. }
  destruct (place_words_between words st3 Hok3) as (?&?&?&Hps).
  split; [done|]. split; [lia|]. split; [done|].
  eapply Forall_impl; [done|]. intros pl [? ?]. split; [done|lia].
Qed.

(** A word for every four bytes of the argument. *)
Lemma place_arg_length size align st : length (place_arg size align st).1 = Z.to_nat ((size + 3) / 4).
Proof. unfold place_arg. apply place_words_length. Qed.

Section Places.
Variable types : list (string * decl).

Lemma place_args_between params st ps :
  arg_state_ok st -> place_args types params st = Some ps ->
  exists st', between st (concat (map snd ps)) st'.
Proof.
  revert st ps. induction params as [|[n t] params IH]; intros st ps Hst; cbn [place_args].
  { intros [= <-]. exists st. by apply between_none. }
  destruct (layout _ _ _) as [[size align]|]; [|done]. cbn [mbind option_bind fst snd].
  pose proof (place_arg_between size align st Hst) as Hb.
  destruct (place_arg size align st) as [ws st1]. cbn [fst snd] in Hb.
  destruct (place_args _ _ _) as [rest|] eqn:E; [|done]. intros [= <-]. cbn [map concat snd].
  destruct (IH _ _ (proj1 Hb) E) as [st' H']. exists st'. by eapply between_app.
Qed.

Lemma place_args_words params st ps :
  place_args types params st = Some ps ->
  Forall2 (fun (f : string * ctype) (a : string * list place) => a.1 = f.1 /\
    exists size, sizeof types f.2 = Some size /\ length a.2 = Z.to_nat ((size + 3) / 4)) params ps.
Proof.
  revert st ps. induction params as [|[n t] params IH]; intros st ps; cbn [place_args]; [by intros [= <-]|].
  destruct (layout _ _ _) as [[size align]|] eqn:El; [|done]. cbn [mbind option_bind fst snd].
  pose proof (place_arg_length size align st) as Hlen.
  destruct (place_arg size align st) as [ws st1]. cbn [fst] in Hlen.
  destruct (place_args _ _ _) as [rest|] eqn:E; [|done]. intros [= <-].
  constructor; [|by eapply IH]. split; [done|]. exists size. split; [|done].
  by unfold sizeof; cbn [snd]; rewrite El.
Qed.

End Places.

(** ** The declarations of the header *)


(** The arguments that the hooks look at are where the assembly of patch.S and the
    declarations in patch.c take them from: the text to draw is in r1, and its alignment
    in the third word of the stack, [sp + 32] after six registers are pushed; the text
    to measure is in r0. *)
Theorem hooked_arguments :
  place_of pebble_types graphics_draw_text "text" = Some [Reg 1] /\
  place_of pebble_types graphics_draw_text "alignment" = Some [Stack (32 - 6 * 4)] /\
  place_of pebble_types graphics_text_layout_get_content_size "text" = Some [Reg 0] /\
  place_of pebble_types graphics_text_layout_get_content_size_with_attributes "text" = Some [Reg 0].
Proof. by vm_compute. Qed.

(** ** Witnesses and examples *)

(** A byte, a word and a half-word. *)
Theorem struct_layout_spec_witness :
  let fields := [(1, 1); (4, 4); (2, 2)] in
  (4 | 12) /\
  (forall i f o, fields !! i = Some f -> [0; 4; 8] !! i = Some o -> 0 <= o /\ (f.2 | o) /\ o + f.1 <= 12) /\
  (forall i j f o o', (i < j)%nat ->
    fields !! i = Some f -> [0; 4; 8] !! i = Some o -> [0; 4; 8] !! j = Some o' -> o + f.1 <= o').
Proof. apply (struct_layout_spec [(1, 1); (4, 4); (2, 2)]). by rewrite !Forall_cons, Forall_nil. Defined.


(** Packed and padded structures. *)
Example sizes_of_types :
  map (fun n => sizeof pebble_types (Named n)) ["GRect"; "AccelData"; "HealthMinuteData"; "Tuplet"; "tm"; "Window"] =
  [Some 8; Some 15; Some 12; Some 16; Some 48; None].
Proof. by vm_compute. Qed.
