(* ===== verification/Patch.v ===== *)
(** * The hooks in the firmware (runtime/patch.c, runtime/patch.S)

    The patch replaces three functions of the firmware: drawing a text, and the two
    that measure one; and it wraps the call that renders a line.  The firmware's own
    functions, which the hooks call, are parameters.  The overflow mode is the value of a
    [GTextOverflowMode] or any other integer, as the diagnostics app passes one. *)

From S2P Require Import Prelude Memory Utf8 Ranges Reverse Rtl RtlProps Shaper ShaperSpec.
From S2P Require Import ShaperRefine ShaperProps Unshape SdkEnums SdkTypes.

(** ** Alignment *)

Definition gdt_alignment_body `{ShaperRange} (ptr : Z) : M (Z + bool) :=
  b ← load8 ptr;
  if b =? 0 then mret (inr false)
  else
    '(codept, ptr) ← read_utf8 ptr;
    if is_neutral codept || is_weak_ltr codept then mret (inl ptr)
    else if is_rtl codept then mret (inr true)
    else mret (inr false).

(** The loop answers whether it reached [return GTextAlignmentRight]. *)
Definition gdt_alignment_step `{ShaperRange} (text : Z) (alignment : GTextAlignment)
    : M GTextAlignment := fun m =>
  (if decide (alignment = GTextAlignmentLeft) then
     right ← loop (text_fuel m) gdt_alignment_body text;
     mret (if right : bool then GTextAlignmentRight else alignment)
   else mret alignment) m.

(** ** Laying out a line before and after it is rendered *)

(** runtime/platform.h *)
Definition SRAM_BASE : Z := 0x10000000.

(** The macro that patch.py defines for the platform: where the end of the line is
    found from the stack pointer of the call site. *)
Inductive LineEnd := LINEEND_INDIRECT_SP_OFF (off : Z) | LINEEND_SP_OFF (off : Z).

(** [line_end_1] and [line_end_2]. *)
Definition line_ends (cfg : LineEnd) (callsite_sp : Z) : M (Z * Z) :=
  match cfg with
  | LINEEND_INDIRECT_SP_OFF off =>
      base1 ← load32 (callsite_sp + off);
      line_end_1 ← load32 (base1 + 2 * 4);
      base2 ← load32 (callsite_sp + off);
      line_end_2 ← load32 (base2 + 3 * 4);
      mret (line_end_1, line_end_2)
  | LINEEND_SP_OFF off =>
      line_end_1 ← load32 (callsite_sp + off);
      line_end_2 ← load32 (callsite_sp + off + 4);
      mret (line_end_1, line_end_2)
  end.

(** One iteration of the loop that leaves out trailing spaces. *)
Definition trim_body (line_start line_end : Z) : M (Z + Z) :=
  if line_end >? line_start then
    b ← load8 (line_end - 1);
    mret (if b =? 32 then inl (line_end - 1) else inr line_end)
  else mret (inr line_end).

Definition trim_spaces (line_start line_end : Z) : M Z :=
  loop (S (Z.to_nat (line_end - line_start))) (trim_body line_start) line_end.

Definition render_rtl_step `{ShaperRange} (cfg : LineEnd) (line_start : Z) (more_text : bool)
    (callsite_sp : Z) : M unit :=
  go ← (if line_start >=? SRAM_BASE then b ← load8 line_start; mret (negb (b =? 0))
        else mret false);
  if go : bool then
    '(line_end_1, line_end_2) ← line_ends cfg callsite_sp;
    line_end ← trim_spaces line_start (if more_text then line_end_1 else line_end_2);
    rtl_apply line_start line_end;;
    mret tt
  else mret tt.

(** patch.py, [render_wrap_asm]: the wrapped call of the render handler, with [text]
    the word that the layout register points to. *)
Definition render_wrap `{ShaperRange} (cfg : LineEnd) (handler : M unit) (layout : Z)
    (more_text : bool) (sp : Z) : M unit :=
  text ← load32 layout;
  render_rtl_step cfg text more_text sp;;
  handler;;
  text ← load32 layout;
  render_rtl_step cfg text more_text sp.

(** ** Measuring *)

Section Measure.
Context `{ShaperTables} `{ShaperRange}.

(** The firmware's [graphics_text_layout_get_content_size_with_attributes]. *)
Variable PASSTHRU :
  Z -> GFont -> GRect -> Z -> GTextAlignment -> ptr -> M GSize.

(** With [TEXT_UNSHAPE] (patch.c). *)
Definition graphics_text_layout_get_content_size_with_attributes_patch (oob uninit : Z)
    (text : Z) (font : GFont) (box : GRect) (overflow_mode : Z)
    (alignment : GTextAlignment) (text_attributes : ptr) : M GSize :=
  shape_text oob uninit text;;
  res ← PASSTHRU text font box overflow_mode alignment text_attributes;
  (if negb (overflow_mode =? 0xE5) then unshape_text text else mret tt);;
  mret res.

Definition graphics_text_layout_get_content_size_patch (oob uninit : Z)
    (text : Z) (font : GFont) (box : GRect) (overflow_mode : Z)
    (alignment : GTextAlignment) : M GSize :=
  graphics_text_layout_get_content_size_with_attributes_patch oob uninit text font box
    overflow_mode alignment NULL.

(** Without [TEXT_UNSHAPE] (patch.S). *)
Definition content_size_with_attributes_patch_S (oob uninit : Z)
    (text : Z) (font : GFont) (box : GRect) (overflow_mode : Z)
    (alignment : GTextAlignment) (text_attributes : ptr) : M GSize :=
  shape_text oob uninit text;;
  PASSTHRU text font box overflow_mode alignment text_attributes.
End Measure.

(** ** Drawing *)

Section Draw.
Context `{ShaperTables} `{ShaperRange}.

(** The firmware's [graphics_draw_text]. *)
Variable graphics_draw_text :
  Z -> Z -> GFont -> GRect -> Z -> GTextAlignment -> ptr -> M unit.

(** patch.S: shapes the text, fixes the alignment, and goes on in the firmware. *)
Definition graphics_draw_text_patch (oob uninit : Z) (ctx text : Z) (font : GFont) (box : GRect)
    (overflow_mode : Z) (alignment : GTextAlignment)
    (text_attributes : ptr) : M unit :=
  shape_text oob uninit text;;
  alignment ← gdt_alignment_step text alignment;
  graphics_draw_text ctx text font box overflow_mode alignment text_attributes.

(** patch.py, [unshape_asm]: with [TEXT_UNSHAPE] the end of the firmware's function
    runs into [unshape_text]. *)
Definition graphics_draw_text_unshape (oob uninit : Z) (ctx text : Z) (font : GFont) (box : GRect)
    (overflow_mode : Z) (alignment : GTextAlignment)
    (text_attributes : ptr) : M unit :=
  graphics_draw_text_patch oob uninit ctx text font box overflow_mode alignment text_attributes;;
  unshape_text text.
End Draw.
