(* ===== verification/PatchProps.v ===== *)
(** * What the hooks do with a text

    Alignment by the first strong rune, before and after shaping; measuring and
    drawing a text; laying out the line that is rendered. *)

From S2P Require Import Prelude Memory Utf8 Ranges Reverse Rtl RtlProps Shaper ShaperSpec.
From S2P Require Import ShaperRefine ShaperProps Unshape SdkEnums SdkTypes Patch.

(** ** The specification of the alignment *)

Section Alignment.
Context `{ShaperRange}.

(** The direction of a rune: none, left to right or right to left ([true]). *)
Definition direction (c : Z) : option bool :=
  if is_neutral (u16 c) || is_weak_ltr (u16 c) then None else Some (is_rtl (u16 c)).

(** The direction of the first rune that has one. *)
Definition text_direction (cps : list Z) : option bool := head (omap direction cps).

Definition aligned (cps : list Z) (alignment : GTextAlignment) : GTextAlignment :=
  match alignment, text_direction cps with
  | GTextAlignmentLeft, Some true => GTextAlignmentRight
  | _, _ => alignment
  end.

Lemma text_direction_cons c cps :
  text_direction (c :: cps) = match direction c with Some d => Some d | None => text_direction cps end.
Proof. unfold text_direction. cbn. by destruct (direction c). Qed.

Lemma gdt_alignment_loop_ok p A cps tail m fuel :
  Forall is_codept cps -> (length cps < fuel)%nat ->
  let m0 := put p (encode (A ++ cps) ++ 0 :: tail) m in
  loop fuel gdt_alignment_body (p + len (encode A)) m0 =
  Ok (bool_decide (text_direction cps = Some true)) m0.
Proof.
  intros Hcps. revert A fuel. induction Hcps as [|c cps Hc _ IH]; intros A fuel Hf m0;
    (destruct fuel as [|fuel]; [cbn in Hf; lia|]); cbn [length] in Hf; unfold m0; clear m0.
  - apply loop_exit. unfold gdt_alignment_body. rewrite app_nil_r.
    by rewrite (bind_ok _ _ _ _ _ (load8_mid p (encode A) 0 tail m _ eq_refl)).
  - rewrite text_direction_cons.
    assert (gdt_alignment_body (p + len (encode A)) (put p (encode (A ++ c :: cps) ++ 0 :: tail) m) =
      Ok (match direction c with
          | None => inl (p + len (encode (A ++ [c])))
          | Some d => inr d
          end) (put p (encode (A ++ c :: cps) ++ 0 :: tail) m)) as Hbody.
    { unfold gdt_alignment_body. rewrite encode_app, encode_cons, <- !app_assoc.
      destruct (load8_rune p (encode A) c (encode cps ++ 0 :: tail) m _ Hc eq_refl)
        as (b & Hb%Z.eqb_neq & Hload).
      rewrite (bind_ok _ _ _ _ _ Hload), Hb.
      rewrite (bind_ok _ _ _ _ _ (read_utf8_mid p (encode A) c _ m _ Hc eq_refl)).
      rewrite encode_snoc_length. unfold direction. rewrite <- Z.add_assoc.
      by destruct (is_neutral _ || is_weak_ltr _), (is_rtl (u16 c)). }
    destruct (direction c) as [d|].
    + rewrite (loop_exit _ _ _ _ _ _ Hbody). by destruct d.
    + rewrite (loop_next _ _ _ _ _ _ Hbody), (cons_middle c A cps), app_assoc. apply IH. lia.
Qed.

Lemma gdt_alignment_ok p cps alignment tail m :
  Forall is_codept cps ->
  gdt_alignment_step p alignment (put p (encode cps ++ 0 :: tail) m) =
  Ok (aligned cps alignment) (put p (encode cps ++ 0 :: tail) m).
Proof.
  intros Hcps. unfold gdt_alignment_step, aligned. destruct (decide (alignment = _)) as [->|Hne].
  - pose proof (text_fuel_enough p cps tail m Hcps) as Hf.
    assert (length cps < text_fuel (put p (encode cps ++ 0%Z :: tail) m))%nat as Hf' by lia.
    pose proof (gdt_alignment_loop_ok p [] cps tail m _ Hcps Hf') as Hloop.
    cbn in Hloop. rewrite Z.add_0_r in Hloop. rewrite (bind_ok _ _ _ _ _ Hloop).
    by destruct (text_direction cps) as [[]|].
  - by destruct alignment.
Qed.

Lemma gdt_alignment_body_decreases q m q' m' :
  gdt_alignment_body q m = Ok (inl q') m' -> (mapped_from q' m' < mapped_from q m)%nat.
Proof.
  unfold gdt_alignment_body, load8. intros (b & m1 & Hb & Hr)%bind_inv. cbv beta in Hb.
  destruct (m !! q) eqn:Hq; [|done]. injection Hb as <- <-. case_match; [done|].
  apply bind_inv in Hr as ([codept q1] & m2 & [Hlt ->]%read_utf8_advances & Hr).
  repeat case_match; apply ret_inv in Hr as [? ->]; simplify_eq.
  apply mapped_from_lt; [by rewrite Hq|done].
Qed.

Lemma gdt_alignment_no_fuel p alignment m : gdt_alignment_step p alignment m <> OutOfFuel.
Proof.
  unfold gdt_alignment_step. case_match; [|done]. apply bind_no_fuel; [|done].
  apply (loop_ends_mem mapped_from).
  - intros q m1. unfold gdt_alignment_body. apply bind_no_fuel; [auto with fuel|intros b m2].
    case_match; [done|]. apply bind_no_fuel; [auto with fuel|intros [] m3]. by repeat case_match.
  - apply gdt_alignment_body_decreases.
  - unfold text_fuel. pose proof (mapped_from_fuel p m). lia.
Qed.
End Alignment.

(** ** Shaping keeps the direction *)

(** Letters are right-to-left runes. *)
Class LettersRtl `{ShaperTables} `{ShaperRange} : Prop := {
  letters_rtl : Forall (fun e => direction (true_codept e) = Some true) (shaper_lut ARABIC_SHAPER_LUT)
}.

Section Direction.
Context `{ShaperTables} `{!ShaperTablesOk} `{ShaperRange} `{!ShaperRangeOk}
  `{!UnshapeTablesOk} `{!LettersRtl}.

Lemma u16_u16 c : u16 (u16 c) = u16 c.
Proof. apply u16_small, u16_range. Qed.

Lemma direction_letter c : is_Some (letter c) -> direction c = Some true.
Proof.
  intros [e [He Hc]%letter_entry]. pose proof letters_rtl as HF.
  eapply Forall_forall in HF; [|exact He]. rewrite Hc in HF.
  unfold direction in *. by rewrite u16_u16 in HF.
Qed.

Lemma direction_scratch c : ARABIC_SHAPER_RANGE (u16 c) = true -> direction c = Some true.
Proof.
  intros Hr. pose proof (shaper_range_scratch _ Hr) as Hb. unfold direction.
  assert (is_rtl (u16 c) = true) as -> by (unfold is_rtl; rewrite Hr; by rewrite !orb_true_r).
  assert (is_neutral (u16 c) = false) as ->.
  { unfold is_neutral, is_zero_width, in_ranges, ZERO_WIDTH_CODEPOINT_RANGES. cbn [existsb fst snd].
    rewrite !orb_false_iff, !RANGE_false. repeat split; lia. }
  assert (is_weak_ltr (u16 c) = false) as ->; [|done].
  unfold is_weak_ltr. rewrite orb_false_iff, !RANGE_false. lia.
Qed.

Lemma direction_shaped c v : shaped c v -> direction v = direction c.
Proof.
  intros [[_ ->]|[_ (e & He & Hf)]]; [done|]. rewrite (direction_letter c) by eauto.
  apply direction_scratch. by destruct (form_facts _ _ _ He Hf) as (_ & ? & _).
Qed.

Lemma text_direction_ligate c rest :
  text_direction (ligate_from c rest) =
  match direction c with Some d => Some d | None => text_direction rest end.
Proof.
  revert c. induction rest as [|c2 rest IH]; intros c; cbn [ligate_from];
    [apply text_direction_cons|]. destruct (Z.eqb_spec (lig c c2) 0) as [|Hlig].
  - by rewrite !text_direction_cons, IH.
  - rewrite text_direction_cons, IH.
    replace (direction ZERO_WIDTH_CODEPT) with (@None bool) by (by unfold direction; vm_compute).
    destruct (lig_letters _ _ Hlig) as (_ & e & He & _).
    rewrite (direction_letter (lig c c2)) by eauto.
    rewrite lig_eq in Hlig. apply lig_of_letters in Hlig as (Ha & _).
    by rewrite (direction_letter c).
Qed.

Lemma text_direction_shape cps : text_direction (shape_runes cps) = text_direction cps.
Proof.
  transitivity (text_direction (ligate cps)).
  - unfold shape_runes. pose proof (shape_go_shaped STATE_INITIAL (ligate cps)) as Hs.
    induction Hs as [|c v cs vs Hv _ IH]; [done|].
    by rewrite !text_direction_cons, IH, (direction_shaped c v).
  - destruct cps as [|c rest]; [done|]. cbn [ligate].
    by rewrite text_direction_ligate, text_direction_cons.
Qed.

Lemma aligned_shape cps alignment : aligned (shape_runes cps) alignment = aligned cps alignment.
Proof. unfold aligned. by rewrite text_direction_shape. Qed.
End Direction.

(** ** Trailing spaces *)

Lemma trim_body_no_fuel p q m : trim_body p q m <> OutOfFuel.
Proof. unfold trim_body. no_fuel. Qed.

Lemma trim_spaces_no_fuel p q m : trim_spaces p q m <> OutOfFuel.
Proof.
  unfold trim_spaces. apply (loop_ends (fun q => Z.to_nat (q - p)));
    [apply trim_body_no_fuel| |lia].
  intros q1 m1 q2 m2. unfold trim_body. destruct (Z.gtb_spec q1 p); [|done].
  intros (b & m3 & _ & Hr)%bind_inv. apply ret_inv in Hr as [Hr _].
  destruct (b =? 32); [|done]. simplify_eq. lia.
Qed.

Lemma trim_spaces_ok p X k m :
  holds m p (X ++ replicate k 32) -> last X <> Some 32 ->
  trim_spaces p (p + len X + Z.of_nat k) m = Ok (p + len X) m.
Proof.
  intros Hm HX. unfold trim_spaces.
  assert (exists n, S (Z.to_nat (p + len X + Z.of_nat k - p)) = (S k + n)%nat) as [n ->]
    by (exists (length X); lia).
  revert Hm. induction k as [|k IH]; intros Hm; cbn [Nat.add].
  - apply loop_exit. rewrite Z.add_0_r. unfold trim_body.
    destruct (Z.gtb_spec (p + len X) p); [|done].
    destruct (last X) as [b|] eqn:E; [|apply last_None in E; subst; cbn in *; lia].
    apply last_Some in E as [X' ->]. rewrite app_nil_r in Hm.
    assert (m !! (p + len (X' ++ [b]) - 1) = Some b) as Hb.
    { rewrite holds_lookup in Hm. rewrite length_app. cbn [length].
      replace (p + Z.of_nat (length X' + 1) - 1) with (p + len X') by lia. apply Hm.
      by apply list_lookup_middle. }
    rewrite (bind_ok _ _ _ _ _ (load8_ok _ _ _ Hb)).
    destruct (Z.eqb_spec b 32); [congruence|done].
  - erewrite loop_next; [apply IH|].
    + rewrite replicate_S_end, app_assoc in Hm. by apply holds_app_l in Hm.
    + unfold trim_body. destruct (Z.gtb_spec (p + len X + Z.of_nat (S k)) p); [|lia].
      assert (m !! (p + len X + Z.of_nat (S k) - 1) = Some 32) as Hb.
      { rewrite holds_lookup in Hm.
        replace (p + len X + Z.of_nat (S k) - 1) with (p + Z.of_nat (length X + k)) by lia.
        apply Hm. rewrite lookup_app_r by lia. apply lookup_replicate_2. lia. }
      rewrite (bind_ok _ _ _ _ _ (load8_ok _ _ _ Hb)). cbn [Z.eqb Pos.eqb].
      unfold mret, M_ret. do 2 f_equal. lia.
Qed.

(** The last byte of an encoding is a space when the last rune is one. *)
Lemma last_encode cps :
  Forall is_codept cps -> last cps <> Some 32 -> last (encode cps) <> Some 32.
Proof.
  intros Hcps. destruct cps as [|c cps _] using rev_ind; [done|].
  rewrite last_snoc, encode_app, encode_one. intros Hne.
  apply Forall_app in Hcps as [_ [Hc _]%Forall_cons].
  rewrite last_app. destruct (utf8_cases c Hc) as [[? ->]|[[? ->]|[[? ->]|[? ->]]]]; cbn [last];
    intros [= E]; [congruence|dlia..].
Qed.

(** ** Rendering a line *)

Section Render.
Context `{ShaperRange} `{!ShaperRangeOk}.

(** The line [cps] at [p], with [k] spaces behind it up to [line_end]. *)
Definition padded_line (m : mem) (p : Z) (cps : list Z) (k : nat) : Prop :=
  SRAM_BASE <= p /\ line_ok cps /\ cps <> [] /\ last cps <> Some 32 /\
  holds m p (encode cps ++ replicate k 32).

Lemma padded_line_at m p cps k : padded_line m p cps k -> line_at m p cps (p + len (encode cps)).
Proof.
  intros (Hp & Hok & Hne & _ & Hm). split; [unfold SRAM_BASE in Hp; lia|].
  split; [done|]. split; [done|].
  exists (replicate k 32). split; [done|]. by left.
Qed.

Lemma render_rtl_step_ok cfg m p cps k (more_text : bool) sp e1 e2 :
  padded_line m p cps k -> line_ends cfg sp m = Ok (e1, e2) m ->
  (if more_text then e1 else e2) = p + len (encode cps) + Z.of_nat k ->
  render_rtl_step cfg p more_text sp m = Ok tt (put p (encode (rtl_runes cps).2) m).
Proof.
  intros Hl Hends He. pose proof (padded_line_at _ _ _ _ Hl) as Hl'.
  destruct Hl as (Hp & Hok & Hne & Hlast & Hm).
  unfold render_rtl_step.
  assert ((p >=? SRAM_BASE) = true) as -> by (apply Z.geb_le; lia).
  assert (exists b, m !! p = Some b /\ b <> 0) as (b & Hb & Hb0%Z.eqb_neq).
  { destruct cps as [|c cps]; [done|]. apply Forall_cons in Hok as [[Hc _] _].
    destruct (utf8_bytes_cons c Hc) as (b & bs & E & _ & Hb0). exists b. split; [|done].
    rewrite encode_cons, E in Hm. rewrite holds_lookup in Hm.
    rewrite <- (Z.add_0_r p). by apply (Hm 0%nat). }
  rewrite bind_assoc, (bind_ok _ _ _ _ _ (load8_ok _ _ _ Hb)), !bind_ret, Hb0. cbn [negb].
  rewrite (bind_ok _ _ _ _ _ Hends), He.
  rewrite (bind_ok _ _ _ _ _ (trim_spaces_ok p (encode cps) k m Hm
    (last_encode _ (line_ok_codept _ Hok) Hlast))).
  by rewrite (bind_ok _ _ _ _ _ (rtl_apply_line _ _ _ _ Hl')).
Qed.
End Render.

(** ** Properties of the alignment *)

Section AlignmentProperties.
Context `{ShaperRange}.

(** the alignment of a text is switched from left to right exactly when it was left
    and the first rune that is neither neutral nor a digit is right-to-left; the text
    is only read. *)
Theorem gdt_alignment_step_first_strong p cps alignment tail m :
  Forall is_codept cps ->
  gdt_alignment_step p alignment (put p (encode cps ++ 0 :: tail) m) =
  Ok (match alignment, text_direction cps with
      | GTextAlignmentLeft, Some true => GTextAlignmentRight
      | _, _ => alignment
      end) (put p (encode cps ++ 0 :: tail) m).
Proof. apply gdt_alignment_ok. Qed.
End AlignmentProperties.

(** ** Properties of drawing and measuring *)

Section Drawing.
Context `{ShaperTables} `{!ShaperTablesOk} `{ShaperRange} `{!ShaperRangeOk}
  `{!UnshapeTablesOk} `{!LettersRtl}.

Lemma restores p cps tail m :
  Forall shapeable cps -> Forall (fun c => ARABIC_SHAPER_RANGE (u16 c) = false) cps ->
  holds m p (encode (shape_runes cps) ++ 0 :: tail) ->
  unshape_text p m = Ok tt (put p (encode cps ++ 0 :: tail) m).
Proof.
  intros Hcps Hr Hm. rewrite <- Hm at 1. pose proof (shape_runes_replaces cps Hcps) as Hrep.
  rewrite (unshape_text_ok p (shape_runes cps) cps tail m).
  - done.
  - apply shape_runes_unshaped. by apply Forall_and.
  - done.
  - by apply replaces_encode.
  - by rewrite (Forall2_length _ _ _ Hrep).
Qed.

(** drawing calls the firmware with the text shaped in place and with the alignment
    that the original text asks for: shaping first does not change which way the
    first strong rune goes, because shapes and ligatures are right-to-left and the
    rune put in front of a ligature is neutral. *)
Theorem graphics_draw_text_patch_calls firmware oob uninit ctx p font box mode alignment attrs
    cps tail m :
  0 < p -> Forall shapeable cps ->
  graphics_draw_text_patch firmware oob uninit ctx p font box mode alignment attrs
    (put p (encode cps ++ 0 :: tail) m) =
  firmware ctx p font box mode (aligned cps alignment) attrs
    (put p (encode (shape_runes cps) ++ 0 :: tail) m).
Proof.
  intros Hp Hcps. unfold graphics_draw_text_patch.
  rewrite (bind_ok _ _ _ _ _ (shape_text_runes oob uninit p cps tail m Hp Hcps)).
  rewrite (bind_ok _ _ _ _ _ (gdt_alignment_ok p _ alignment tail m (shape_runes_codepts cps Hcps))).
  by rewrite aligned_shape.
Qed.


(** measuring gives the size of the shaped text, and the text back as it was unless
    the overflow mode is the cookie 0xE5 of the diagnostics app, which finds the
    shaped text in its buffer. *)
Theorem content_size_measures_shaped firmware oob uninit p font box mode alignment attrs size
    cps tail m :
  0 < p -> Forall shapeable cps -> Forall (fun c => ARABIC_SHAPER_RANGE (u16 c) = false) cps ->
  let shaped_m := put p (encode (shape_runes cps) ++ 0 :: tail) m in
  firmware p font box mode alignment attrs shaped_m = Ok size shaped_m ->
  graphics_text_layout_get_content_size_with_attributes_patch firmware oob uninit p font box mode
    alignment attrs (put p (encode cps ++ 0 :: tail) m) =
  Ok size (if mode =? 0xE5 then shaped_m else put p (encode cps ++ 0 :: tail) m).
Proof.
  intros Hp Hcps Hr shaped_m Hfw. unfold graphics_text_layout_get_content_size_with_attributes_patch.
  rewrite (bind_ok _ _ _ _ _ (shape_text_runes oob uninit p cps tail m Hp Hcps)).
  rewrite (bind_ok _ _ _ _ _ Hfw). destruct (mode =? 0xE5); [done|]. cbn [negb].
  assert (holds shaped_m p (encode (shape_runes cps) ++ 0 :: tail)) as Hm by apply holds_put.
  rewrite (bind_ok _ _ _ _ _ (restores p cps tail shaped_m Hcps Hr Hm)).
  unfold mret, M_ret, shaped_m. f_equal. apply put_put.
  by rewrite !length_app, (replaces_encode _ _ (shape_runes_replaces cps Hcps)).
Qed.
End Drawing.

(** ** Properties of rendering a line *)

Section Rendering.
Context `{ShaperRange} `{!ShaperRangeOk}.

(** before a line is rendered it is laid out up to its last rune that is not a space:
    with any number of spaces between that rune and the end of the line that the
    firmware's stack frame gives, the runes are those of the specification
    [rtl_runes] and the spaces stay behind them. *)
Theorem render_rtl_step_keeps_trailing_spaces cfg m p cps k (more_text : bool) sp e1 e2 :
  SRAM_BASE <= p -> line_ok cps -> cps <> [] -> last cps <> Some 32 ->
  holds m p (encode cps ++ replicate k 32) ->
  line_ends cfg sp m = Ok (e1, e2) m ->
  (if more_text then e1 else e2) = p + len (encode cps) + Z.of_nat k ->
  exists m', render_rtl_step cfg p more_text sp m = Ok tt m' /\
    holds m' p (encode (rtl_runes cps).2 ++ replicate k 32) /\
    (forall a, a < p \/ p + len (encode cps) <= a -> m' !! a = m !! a).
Proof.
  intros Hp Hok Hne Hlast Hm Hends He.
  assert (length (encode (rtl_runes cps).2) = length (encode cps)) as Hlen
    by apply rtl_runes_length, line_ok_codept, Hok.
  eexists. split; [apply (render_rtl_step_ok cfg m p cps k more_text sp e1 e2); [|done..]; by split_and!|].
  split.
  - rewrite <- (put_prefix p (encode cps) _ (replicate k 32) m) by done. apply holds_put.
  - intros a Ha. apply put_lookup_out. lia.
Qed.

(** A line that is not in RAM, or that is empty, is neither read nor written any
    further, and its stack frame is not looked at. *)
Theorem render_rtl_step_guard cfg p more_text sp m :
  p < SRAM_BASE \/ m !! p = Some 0 -> render_rtl_step cfg p more_text sp m = Ok tt m.
Proof.
  intros Hp. unfold render_rtl_step. destruct (Z.geb_spec p SRAM_BASE); [|done].
  destruct Hp as [?|Hp]; [lia|]. by rewrite bind_assoc, (bind_ok _ _ _ _ _ (load8_ok _ _ _ Hp)).
Qed.

Lemma load32_no_fuel a m : load32 a m <> OutOfFuel.
Proof. unfold load32. no_fuel. Qed.

Lemma line_ends_no_fuel cfg sp m : line_ends cfg sp m <> OutOfFuel.
Proof.
  destruct cfg; cbn [line_ends]; repeat (apply bind_no_fuel; [apply load32_no_fuel|intros ? ?]); done.
Qed.

(** Whatever the text, the line ends in the stack frame and the memory,
    [render_rtl_step] ends. *)
Theorem render_rtl_step_terminates cfg p more_text sp m :
  render_rtl_step cfg p more_text sp m <> OutOfFuel.
Proof.
  unfold render_rtl_step. apply bind_no_fuel; [no_fuel|intros go m1].
  case_match; [|done]. apply bind_no_fuel; [apply line_ends_no_fuel|intros [e1 e2] m2].
  apply bind_no_fuel; [apply trim_spaces_no_fuel|intros e m3].
  apply bind_no_fuel; [apply rtl_apply_no_fuel|done].
Qed.

(** C15: the wrapped render call shows the handler a right-to-left sentence in visual
    order, reversed and with its brackets exchanged, and gives the caller the text back
    in logical order, on top of whatever the handler did elsewhere. *)
Theorem render_wrap_shows_visual_order cfg handler layout (more_text : bool) sp m m2 p cps k e1 e2 e1' e2' :
  SRAM_BASE <= p -> line_ok cps -> rtl_sentence cps ->
  holds m p (encode cps ++ replicate k 32) ->
  load32 layout m = Ok p m -> line_ends cfg sp m = Ok (e1, e2) m ->
  (if more_text then e1 else e2) = p + len (encode cps) + Z.of_nat k ->
  handler (put p (encode (rev (map mirror cps))) m) = Ok tt m2 ->
  holds m2 p (encode (rev (map mirror cps)) ++ replicate k 32) ->
  load32 layout m2 = Ok p m2 -> line_ends cfg sp m2 = Ok (e1', e2') m2 ->
  (if more_text then e1' else e2') = p + len (encode cps) + Z.of_nat k ->
  render_wrap cfg handler layout more_text sp m = Ok tt (put p (encode cps) m2).
Proof.
  intros Hp Hok Hs Hm Hload Hends He Hh Hm2 Hload2 Hends2 He2.
  assert (forall cps, rtl_sentence cps -> cps <> [] /\ last cps <> Some 32) as Hsent.
  { intros l (Hlen & _ & _ & (c & Hc & Hr)). split; [by intros ->; cbn in Hlen; lia|].
    rewrite Hc. intros [= ->]. apply is_rtl_bounds in Hr. change (u16 32) with 32 in Hr. lia. }
  unfold render_wrap. rewrite (bind_ok _ _ _ _ _ Hload).
  destruct (Hsent cps Hs) as [Hne Hlast].
  destruct (Hsent _ (rtl_sentence_rev cps Hs)) as [Hne' Hlast'].
  rewrite (bind_ok _ _ _ _ _ (render_rtl_step_ok cfg m p cps k more_text sp e1 e2
    ltac:(by split_and!) Hends He)), rtl_runes_sentence by done. cbn [snd].
  rewrite (bind_ok _ _ _ _ _ Hh), (bind_ok _ _ _ _ _ Hload2).
  rewrite (render_rtl_step_ok cfg m2 p (rev (map mirror cps)) k more_text sp e1' e2').
  - rewrite rtl_runes_sentence by by apply rtl_sentence_rev. cbn [snd]. by rewrite rev_mirror_involutive.
  - split_and!; [done|by apply line_ok_rev_mirror|done..].
  - done.
  - by rewrite encode_length_rev_mirror.
Qed.
End Rendering.

(** ** Witnesses *)

#[export] Instance example_letters_rtl : LettersRtl.
Proof. split. by apply (bool_decide_unpack _); vm_compute. Qed.

(** The text "1 (beh": a digit, a space and a bracket before the first letter. *)
Theorem gdt_alignment_step_first_strong_witness :
  gdt_alignment_step 100 GTextAlignmentLeft (put 100 (encode [49; 32; 40; 0x628] ++ 0 :: []) ∅) =
  Ok GTextAlignmentRight (put 100 (encode [49; 32; 40; 0x628] ++ 0 :: []) ∅).
Proof. apply (gdt_alignment_step_first_strong 100 [49; 32; 40; 0x628] GTextAlignmentLeft). decide_by_running. Defined.

Definition no_box : GRect := mk_GRect (mk_GPoint 0 0) (mk_GSize 144 168).

(** A firmware that draws by setting one byte of the frame buffer, at address 50. *)
Definition example_draw (ctx text font : Z) (box : GRect) (mode : Z) (alignment : GTextAlignment)
    (attrs : Z) : M unit := store8 50 (if decide (alignment = GTextAlignmentRight) then 2 else 1).

(** A firmware that measures a text by its first byte. *)
Definition example_measure (text font : Z) (box : GRect) (mode : Z) (alignment : GTextAlignment)
    (attrs : Z) : M GSize := b ← load8 text; mret (mk_GSize b 1).

Theorem graphics_draw_text_patch_calls_witness :
  graphics_draw_text_patch example_draw 0 0 1 100 2 no_box 0 GTextAlignmentLeft 0
    (put 100 (encode [0x644; 0x627] ++ 0 :: []) (put 50 [0] ∅)) =
  example_draw 1 100 2 no_box 0 GTextAlignmentRight 0
    (put 100 (encode [0x591; 0x70B] ++ 0 :: []) (put 50 [0] ∅)).
Proof.
  rewrite (graphics_draw_text_patch_calls example_draw 0 0 1 100 2 no_box 0 GTextAlignmentLeft 0
    [0x644; 0x627] [] (put 50 [0] ∅)); [by vm_compute|done|decide_by_running].
Defined.


Theorem content_size_measures_shaped_witness :
  graphics_text_layout_get_content_size_with_attributes_patch example_measure 0 0 100 2 no_box 0
    GTextAlignmentLeft 0 (put 100 (encode [0x628] ++ 0 :: []) ∅) =
  Ok (mk_GSize 220 1) (put 100 (encode [0x628] ++ 0 :: []) ∅).
Proof.
  apply (content_size_measures_shaped example_measure 0 0 100 2 no_box 0 GTextAlignmentLeft 0
    (mk_GSize 220 1) [0x628] [] ∅); [done|decide_by_running|decide_by_running|by vm_compute].
Defined.

(** A line at 0x10000100 and the stack frame at 0x10001000 that points to its end, with
    the layout structure at 0x10002000. *)
Definition example_line (cps : list Z) (k : nat) : mem :=
  let word v := [v mod 256; (v / 256) mod 256; (v / 65536) mod 256; (v / 16777216) mod 256] in
  let e := 0x10000100 + len (encode cps) + Z.of_nat k in
  put 0x10000100 (encode cps ++ replicate k 32)
    (put (0x10001000 + 124) (word e ++ word e) (put 0x10002000 (word 0x10000100) ∅)).

Definition example_end (cps : list Z) (k : nat) : Z := 0x10000100 + len (encode cps) + Z.of_nat k.

(** The line "אב " with two spaces behind it. *)
Theorem render_rtl_step_keeps_trailing_spaces_witness :
  let m := example_line [0x5D0; 0x5D1] 2 in
  exists m', render_rtl_step (LINEEND_SP_OFF 124) 0x10000100 true 0x10001000 m = Ok tt m' /\
    holds m' 0x10000100 (encode (rtl_runes [0x5D0; 0x5D1]).2 ++ replicate 2 32) /\
    (forall a, a < 0x10000100 \/ 0x10000100 + len (encode [0x5D0; 0x5D1]) <= a -> m' !! a = m !! a).
Proof.
  apply (render_rtl_step_keeps_trailing_spaces (LINEEND_SP_OFF 124) _ 0x10000100 [0x5D0; 0x5D1] 2 true
    0x10001000 (example_end [0x5D0; 0x5D1] 2) (example_end [0x5D0; 0x5D1] 2));
    [done|unfold line_ok; decide_by_running|done|done|apply holds_put|by vm_compute|done].
Defined.

Theorem render_rtl_step_guard_witness :
  render_rtl_step (LINEEND_SP_OFF 124) 0x8000100 true 0x10001000 ∅ = Ok tt ∅.
Proof. apply (render_rtl_step_guard (LINEEND_SP_OFF 124) 0x8000100 true 0x10001000 ∅). by left. Defined.

(** The line "אב (ג) ד" and a space. *)
Theorem render_wrap_shows_visual_order_witness :
  let cps := [0x5D0; 0x5D1; 32; 40; 0x5D2; 41; 32; 0x5D3] in
  let m := example_line cps 1 in
  render_wrap (LINEEND_SP_OFF 124) (mret tt) 0x10002000 true 0x10001000 m =
  Ok tt (put 0x10000100 (encode cps) (put 0x10000100 (encode (rev (map mirror cps))) m)).
Proof.
  intros cps m.
  apply (render_wrap_shows_visual_order (LINEEND_SP_OFF 124) (mret tt) 0x10002000 true 0x10001000 m
    (put 0x10000100 (encode (rev (map mirror cps))) m) 0x10000100 cps 1
    (example_end cps 1) (example_end cps 1) (example_end cps 1) (example_end cps 1));
    [done|unfold line_ok; decide_by_running|concrete_sentence|apply holds_put|..];
    try (unfold holds; by vm_compute). 
Defined.
