(* ===== verification/Frame.v ===== *)
(** * Code uses only the memory that it is given

    A computation that succeeds on a memory behaves the same when there is more memory
    around it, and leaves that alone: the frame property of separation logic, for the
    functions of the runtime.  Stack frames and saved registers can therefore be put
    next to the memory that a theorem on the C code talks about. *)

From S2P Require Import Prelude Memory Utf8 Ranges Reverse Rtl Shaper SdkEnums SdkTypes Patch.

(** ** The frame property *)

Definition local {A} (c : M A) : Prop := forall m F a m',
  c m = Ok a m' -> m ##ₘ F -> m' ##ₘ F /\ c (m ∪ F) = Ok a (m' ∪ F).

Create HintDb frame discriminated.

Lemma local_ret {A} (a : A) : local (mret a).
Proof. by intros m F a' m' [= <- <-] ?. Qed.

Lemma local_fault {A} p : local (@fault A p).
Proof. done. Qed.

Lemma local_bind {A B} (c : M A) (f : A -> M B) :
  local c -> (forall a, local (f a)) -> local (c ≫= f).
Proof.
  intros Hc Hf m F b m' (a & m1 & H1 & H2)%bind_inv Hd.
  destruct (Hc _ _ _ _ H1 Hd) as [Hd1 H1']. destruct (Hf _ _ _ _ _ H2 Hd1) as [Hd2 H2'].
  split; [done|]. by rewrite (bind_ok _ _ _ _ _ H1').
Qed.

Lemma local_load8 p : local (load8 p).
Proof.
  intros m F b m'. unfold load8. destruct (m !! p) as [b'|] eqn:E; [|done]. intros [= <- <-] Hd.
  split; [done|]. by rewrite (lookup_union_Some_l _ _ _ _ E).
Qed.

Lemma local_store8 p v : local (store8 p v).
Proof.
  intros m F u m'. unfold store8. destruct (m !! p) as [b'|] eqn:E; [|done]. intros [= <- <-] Hd.
  rewrite (lookup_union_Some_l _ _ _ _ E), insert_union_l. split; [|done].
  apply map_disjoint_insert_l_2; [|done]. by apply (map_disjoint_Some_l m F p b').
Qed.

Lemma local_if {A} (b : bool) (c1 c2 : M A) : local c1 -> local c2 -> local (if b then c1 else c2).
Proof. by destruct b. Qed.

Lemma local_loop {S R} (body : S -> M (S + R)) fuel s :
  (forall s, local (body s)) -> local (loop fuel body s).
Proof.
  intros Hb. revert s. induction fuel as [|fuel IH]; intros s; [done|].
  intros m F r m'. rewrite !loop_S. revert m F r m'. change (local (r ← body s;
    match r with inl s' => loop fuel body s' | inr r => mret r end)).
  apply local_bind; [done|]. intros []; [done|apply local_ret].
Qed.

Lemma text_fuel_union m F : m ##ₘ F -> (text_fuel m <= text_fuel (m ∪ F))%nat.
Proof.
  intros Hd. unfold text_fuel. rewrite dom_union_L.
  pose proof (subseteq_size (dom m) (dom m ∪ dom F)). specialize (H ltac:(set_solver)). lia.
Qed.

(** A loop over a text has more fuel in a larger memory. *)
Lemma local_text_loop {S R} (body : S -> M (S + R)) s :
  (forall s, local (body s)) -> local (fun m => loop (text_fuel m) body s m).
Proof.
  intros Hb m F r m' H Hd. destruct (local_loop body (text_fuel m) s Hb _ _ _ _ H Hd) as [Hd' H'].
  split; [done|]. by apply (loop_mono _ (text_fuel m)); [apply text_fuel_union|].
Qed.

#[export] Hint Resolve local_ret local_fault local_load8 local_store8 local_loop local_text_loop : frame.

(** Straight-line code: through the binds and the case distinctions. *)
Ltac frame :=
  repeat first
    [ solve [auto with frame nocore] | done
    | apply local_bind; [|intros ?]
    | progress case_match ].

(** ** The runtime *)

Lemma local_load32 p : local (load32 p).
Proof. unfold load32. frame. Qed.
#[export] Hint Resolve local_load32 : frame.

Lemma local_read_continuation ct codept q : local (read_continuation ct codept q).
Proof. revert codept q. induction ct as [|ct IH]; intros codept q; cbn [read_continuation]; frame. Qed.
#[export] Hint Resolve local_read_continuation : frame.

Lemma local_read_utf8 q : local (read_utf8 q).
Proof. unfold read_utf8. frame. Qed.

Lemma local_write_utf8 q c : local (write_utf8 q c).
Proof. unfold write_utf8. frame. Qed.

Lemma local_SWAP a b : local (SWAP a b).
Proof. unfold SWAP. frame. Qed.
#[export] Hint Resolve local_read_utf8 local_write_utf8 local_SWAP : frame.

Lemma local_reverse_bytes_body it : local (reverse_bytes_body it).
Proof. unfold reverse_bytes_body. frame. Qed.

Lemma local_rotate_runes_body start it : local (rotate_runes_body start it).
Proof. unfold rotate_runes_body. frame. Qed.
#[export] Hint Resolve local_reverse_bytes_body local_rotate_runes_body : frame.

Lemma local_reverse_span start end_ : local (reverse_span start end_).
Proof. unfold reverse_span. frame. Qed.
#[export] Hint Resolve local_reverse_span : frame.

Section Frame.
Context `{ShaperTables} `{ShaperRange}.

Lemma local_apply_swaps_from n i ch val : local (apply_swaps_from n i ch val).
Proof. revert i. induction n as [|n IH]; intros i; cbn [apply_swaps_from]; frame. Qed.
#[local] Hint Resolve local_apply_swaps_from : frame.

Lemma local_rtl_body line_end l : local (rtl_body line_end l).
Proof. unfold rtl_body, rtl_read_next, rtl_weak_step, rtl_span_step, apply_swaps. frame. Qed.
#[local] Hint Resolve local_rtl_body : frame.

Lemma local_rtl_apply line_start line_end : local (rtl_apply line_start line_end).
Proof. unfold rtl_apply. frame. Qed.

Lemma local_shape_body oob l : local (shape_body oob l).
Proof. unfold shape_body, shape_read, shape_this, late_finalize. frame. Qed.
#[local] Hint Resolve local_shape_body : frame.

Lemma local_shape_text oob uninit text : local (shape_text oob uninit text).
Proof. unfold shape_text. frame. Qed.

Lemma local_write_pattern n ws start p : local (write_pattern n ws start p).
Proof. revert start p. induction n as [|n IH]; intros start p; cbn [write_pattern]; frame. Qed.
#[local] Hint Resolve local_write_pattern : frame.

Lemma local_expand_from ws codept p n i lps : local (expand_from ws codept p n i lps).
Proof. revert i lps. induction n as [|n IH]; intros i lps; cbn [expand_from]; frame. Qed.
#[local] Hint Resolve local_expand_from : frame.

Lemma local_unshape_body iter : local (unshape_body iter).
Proof. unfold unshape_body, expand_ligature. frame. Qed.
#[local] Hint Resolve local_unshape_body : frame.

Lemma local_unshape_text text : local (unshape_text text).
Proof. unfold unshape_text. frame. Qed.

Lemma local_gdt_alignment_body q : local (gdt_alignment_body q).
Proof. unfold gdt_alignment_body. frame. Qed.
#[local] Hint Resolve local_gdt_alignment_body : frame.

Lemma local_gdt_alignment_step text alignment : local (gdt_alignment_step text alignment).
Proof.
  unfold gdt_alignment_step. destruct (decide _); [|apply local_ret].
  change (local (right ← ((fun m => loop (text_fuel m) gdt_alignment_body text m) : M bool);
    (mret (if right : bool then GTextAlignmentRight else alignment) : M GTextAlignment))). frame.
Qed.

Lemma local_line_ends cfg sp : local (line_ends cfg sp).
Proof. unfold line_ends. frame. Qed.

Lemma local_trim_body line_start line_end : local (trim_body line_start line_end).
Proof. unfold trim_body. frame. Qed.
#[local] Hint Resolve local_rtl_apply local_line_ends local_trim_body : frame.

Lemma local_render_rtl_step cfg line_start more_text sp : local (render_rtl_step cfg line_start more_text sp).
Proof. unfold render_rtl_step, trim_spaces. frame. Qed.
End Frame.

#[export] Hint Resolve local_shape_text local_unshape_text local_gdt_alignment_step
  local_render_rtl_step local_rtl_apply : frame.
