(* ===== verification/Asm.v ===== *)
(** * The assembly of the hooks (runtime/patch.S, patch.py)

    The few Thumb instructions that the assembly uses, on the registers and the memory of
    the watch, and the blocks of patch.S and of the code that patch.py injects.  Calls go to
    the C code of the runtime, and follow the procedure call standard: a callee keeps r4 to
    r11 and the stack pointer, may change the other registers in any way, and may use the
    memory below the stack pointer. *)

From stdpp Require Import strings functions.
From S2P Require Import Prelude Memory Utf8 Ranges Reverse Rtl Shaper SdkEnums SdkTypes Patch Abi.

(** ** The machine *)

(** The values of the registers, by number. *)
Abbreviation regs := (Z -> Z).

Definition IP : Z := 12.
Definition SP : Z := 13.
Definition LR : Z := 14.
Definition PC : Z := 15.

Inductive instr :=
| PUSH (rs : list Z)
| POP (rs : list Z)
| MOV (d s : Z)
| ADD (d s imm : Z)
| LDR (d base off : Z)
| STR (s base off : Z)
| BL (f : string)
| BLX (r : Z)
| BYTES (bs : list Z).

(** Instructions and the label that the last branch goes to; without one the block returns
    to the address that it has popped into the program counter. *)
Record block := mk_block { code : list instr; target : option string }.

(** The bytes of a word, and storing and loading words. *)
Definition word (v : Z) : list Z := [u8 v; u8 (v / 256); u8 (v / 65536); u8 (v / 16777216)].

Definition is_word (v : Z) : Prop := 0 <= v < 4294967296.

Definition store32 (p v : Z) : M unit :=
  store8 p v;; store8 (p + 1) (v / 256);; store8 (p + 2) (v / 65536);; store8 (p + 3) (v / 16777216).

Fixpoint store_words (p : Z) (vs : list Z) : M unit :=
  match vs with
  | [] => mret tt
  | v :: vs => store32 p v;; store_words (p + 4) vs
  end.

Fixpoint load_words (p : Z) (n : nat) : M (list Z) :=
  match n with
  | O => mret []
  | S n => v ← load32 p; vs ← load_words (p + 4) n; mret (v :: vs)
  end.

Fixpoint set_regs (rs : list Z) (vs : list Z) (r : regs) : regs :=
  match rs, vs with
  | n :: rs, v :: vs => <[n := v]> (set_regs rs vs r)
  | _, _ => r
  end.

(** A C function, as a computation on the arguments in the registers and in memory; a
    [void] function has no result. *)
Definition c_function : Type := regs -> M (option Z).

(** What is around the blocks. *)
Class Machine := {
  (** the C functions by name *)
  callee : string -> c_function;
  (** and by address *)
  pointer : Z -> c_function;
  (** the instructions of the firmware that were overwritten *)
  overwritten : list Z -> regs -> M regs;
  (** what a call leaves in the registers that it need not keep *)
  clobber : regs -> mem -> Z -> Z;
  (** what a call leaves below the stack pointer *)
  scratch : regs -> mem -> mem;
}.

Definition callee_saved (n : Z) : bool := ((4 <=? n) && (n <=? 11)) || (n =? SP).

Section Machine.
Context `{Machine}.

Definition after_call (rs : regs) (r : option Z) (m : mem) : regs := fun n =>
  if callee_saved n then rs n
  else match r with
       | Some v => if n =? 0 then v else clobber rs m n
       | None => clobber rs m n
       end.

Definition c_call (f : c_function) (rs : regs) : M regs :=
  r ← f rs; ((fun m => Ok (after_call rs r m) (scratch rs m)) : M regs).

Definition exec (i : instr) (rs : regs) : M regs :=
  match i with
  | PUSH l =>
      let p := rs SP - 4 * len l in
      store_words p (rs <$> l);; mret (<[SP := p]> rs)
  | POP l =>
      vs ← load_words (rs SP) (length l);
      mret (<[SP := rs SP + 4 * len l]> (set_regs l vs rs))
  | MOV d s => mret (<[d := rs s]> rs)
  | ADD d s imm => mret (<[d := (rs s + imm) mod 4294967296]> rs)
  | LDR d base off => v ← load32 (rs base + off); mret (<[d := v]> rs)
  | STR s base off => store32 (rs base + off) (rs s);; mret rs
  | BL f => c_call (callee f) rs
  | BLX r => c_call (pointer (rs r)) rs
  | BYTES bs => overwritten bs rs
  end.

Fixpoint run (is_ : list instr) (rs : regs) : M regs :=
  match is_ with
  | [] => mret rs
  | i :: is_ => rs ← exec i rs; run is_ rs
  end.
End Machine.

(** The words of an argument of a call, as the procedure call standard places them. *)
Definition argument (types : list (string * decl)) (p : prototype) (name : string) (rs : regs)
    : M (list Z) :=
  match place_of types p name with
  | None => fault 0
  | Some pls => mapM (fun pl => match pl with Reg n => mret (rs n) | Stack off => load32 (rs SP + off) end) pls
  end.

(** ** The C functions that the blocks call *)

(** The arguments of a C function have the values of its types: a [bool] is 0 or 1. *)
Definition bool_of (v : Z) : option bool :=
  if v =? 0 then Some false else if v =? 1 then Some true else None.

(** An alignment that is none of the enumeration is not left, and given back as it is. *)
Definition gdt_alignment_step_word `{ShaperRange} (text alignment : Z) : M Z :=
  match enum_of alignment with
  | Some a => r ← gdt_alignment_step text a; mret (enum_value (A := GTextAlignment) r)
  | None => mret alignment
  end.

Definition runtime `{ShaperTables} `{ShaperRange} (oob uninit : Z) (cfg : LineEnd) (f : string)
    : c_function := fun rs =>
  if bool_decide (f = "shape_text") then shape_text oob uninit (rs 0);; mret None
  else if bool_decide (f = "unshape_text") then unshape_text (rs 0);; mret None
  else if bool_decide (f = "gdt_alignment_step") then
    r ← gdt_alignment_step_word (rs 0) (rs 1); mret (Some r)
  else if bool_decide (f = "render_rtl_step") then
    match bool_of (rs 1) with
    | Some more_text => render_rtl_step cfg (rs 0) more_text (rs 2);; mret None
    | None => fault 0
    end
  else fault 0.

(** ** patch.S *)

(** [{r0-r3, ip, lr}] *)
Definition args_ip_lr : list Z := [0; 1; 2; 3; IP; LR].

Definition graphics_text_layout_get_content_size_with_attributes_patch_block : block :=
  mk_block
    [PUSH args_ip_lr;
     BL "shape_text";
     POP args_ip_lr]
    (Some "graphics_text_layout_get_content_size_with_attributes_patch__passthru").

Definition graphics_draw_text_patch_block : block :=
  mk_block
    [PUSH args_ip_lr;
     MOV 0 1;
     BL "shape_text";
     POP args_ip_lr;
     PUSH args_ip_lr;
     MOV 0 1;
     LDR 1 SP 32;
     BL "gdt_alignment_step";
     STR 0 SP 32;
     POP args_ip_lr]
    (Some "graphics_draw_text_patch__passthru").

(** ** Injected by patch.py *)

(** [unshape_asm], with the offset of the text in the stack frame and the code at the end of
    the firmware's function. *)
Definition unshape_asm (text_struct_sp_off : Z) (gdt_return_overwrote_mcode : list Z) : block :=
  mk_block
    [LDR 0 SP text_struct_sp_off;
     BYTES (take 8 gdt_return_overwrote_mcode);
     PUSH [IP; LR];
     BL "unshape_text";
     POP [IP; PC]]
    None.

(** [render_wrap_asm], with the registers of the layout, of the flag and of the handler. *)
Definition render_wrap_asm (layout_reg more_text_reg arg3_sp_off hdlr_reg : Z) : block :=
  mk_block
    [PUSH [0; 1; 2; 3];
     LDR 0 layout_reg 0;
     MOV 1 more_text_reg;
     ADD 2 SP 16;
     BL "render_rtl_step";
     POP [0; 1; 2; 3];
     LDR 2 SP arg3_sp_off;
     BLX hdlr_reg;
     LDR 0 layout_reg 0;
     MOV 1 more_text_reg;
     MOV 2 SP;
     BL "render_rtl_step"]
    (Some "render_wrap__return").
