(* ===== verification/AsmProps.v ===== *)
(** * The assembly of the hooks implements them

    Each block runs the C functions of the hook on the arguments of the call that it has
    intercepted, and goes on with all registers and the stack as the firmware left them. *)

From stdpp Require Import strings functions.
From S2P Require Import Prelude Memory Utf8 Ranges Reverse Rtl Shaper SdkEnums SdkTypes Patch.
From S2P Require Import ShaperProps Abi SdkDecls SdkApi Frame Asm.

(** ** Words in memory *)

Lemma put_comm p l q l' m :
  p + len l <= q \/ q + len l' <= p -> put p l (put q l' m) = put q l' (put p l m).
Proof.
  intros H. apply map_eq. intros a. rewrite !put_lookup.
  destruct (Z.leb_spec p a), (Z.ltb_spec a (p + len l)), (Z.leb_spec q a), (Z.ltb_spec a (q + len l'));
    cbn; try done; lia.
Qed.

Lemma flat_map_word_length vs : len (flat_map word vs) = 4 * len vs.
Proof. induction vs as [|v vs IH]; [done|]. cbn [flat_map]. rewrite length_app. cbn [length word]. lia. Qed.

Lemma store32_ok p v F :
  (forall a, p <= a < p + 4 -> is_Some (F !! a)) -> store32 p v F = Ok tt (put p (word v) F).
Proof.
  intros HF. unfold store32.
  destruct (HF p ltac:(lia)) as [b0 H0]. destruct (HF (p + 1) ltac:(lia)) as [b1 H1].
  destruct (HF (p + 2) ltac:(lia)) as [b2 H2]. destruct (HF (p + 3) ltac:(lia)) as [b3 H3].
  rewrite (bind_ok _ _ _ _ _ (store8_ok p b0 v F H0)).
  rewrite (bind_ok _ _ _ tt (<[p + 1 := u8 (v / 256)]> (<[p := u8 v]> F)))
    by (eapply store8_ok; by rewrite lookup_insert_ne by lia).
  rewrite (bind_ok _ _ _ tt (<[p + 2 := u8 (v / 65536)]> (<[p + 1 := u8 (v / 256)]> (<[p := u8 v]> F))))
    by (eapply store8_ok; by rewrite !lookup_insert_ne by lia).
  erewrite store8_ok by by rewrite !lookup_insert_ne by lia.
  f_equal. cbn [put word]. replace (p + 1 + 1) with (p + 2) by lia. replace (p + 2 + 1) with (p + 3) by lia.
  apply map_eq. intros a. rewrite !lookup_insert. repeat case_decide; done || lia.
Qed.

Lemma store_words_ok p vs F :
  (forall a, p <= a < p + 4 * len vs -> is_Some (F !! a)) ->
  store_words p vs F = Ok tt (put p (flat_map word vs) F).
Proof.
  revert p F. induction vs as [|v vs IH]; intros p F HF; [done|]. cbn [store_words flat_map length] in *.
  rewrite (bind_ok _ _ _ _ _ (store32_ok p v F ltac:(intros; apply HF; lia))).
  rewrite IH; [|intros a Ha; rewrite put_lookup_out by (cbn [length word]; lia); apply HF; lia].
  rewrite put_app. f_equal. symmetry. apply put_comm. cbn [length word]. lia.
Qed.

Lemma load32_ok p v F : is_word v -> holds F p (word v) -> load32 p F = Ok v F.
Proof.
  intros Hv HF. rewrite holds_lookup in HF. unfold load32.
  rewrite (bind_ok _ _ _ _ _ (load8_ok p _ F ltac:(specialize (HF 0%nat _ eq_refl); by rewrite Z.add_0_r in HF))).
  rewrite (bind_ok _ _ _ _ _ (load8_ok (p + 1) _ F (HF 1%nat _ eq_refl))).
  rewrite (bind_ok _ _ _ _ _ (load8_ok (p + 2) _ F (HF 2%nat _ eq_refl))).
  rewrite (bind_ok _ _ _ _ _ (load8_ok (p + 3) _ F (HF 3%nat _ eq_refl))).
  unfold mret, M_ret. f_equal. unfold u8, is_word in *. dlia.
Qed.

Lemma load_words_ok p vs F :
  Forall is_word vs -> holds F p (flat_map word vs) -> load_words p (length vs) F = Ok vs F.
Proof.
  intros Hvs. revert p. induction Hvs as [|v vs Hv _ IH]; intros p HF; [done|].
  cbn [load_words flat_map length] in *.
  rewrite (bind_ok _ _ _ _ _ (load32_ok p v F Hv (holds_app_l _ _ _ _ HF))).
  apply holds_app_r in HF. cbn [word length] in HF. by rewrite (bind_ok _ _ _ _ _ (IH _ HF)).
Qed.

Lemma local_store32 p v : local (store32 p v).
Proof. unfold store32. frame. Qed.

Lemma local_store_words p vs : local (store_words p vs).
Proof. revert p. induction vs as [|v vs IH]; intros p; cbn [store_words]; [apply local_ret|].
  apply local_bind; [apply local_store32|done].
Qed.

Lemma local_load_words p n : local (load_words p n).
Proof. revert p. induction n as [|n IH]; intros p; cbn [load_words]; frame. Qed.
#[export] Hint Resolve local_store32 local_store_words local_load_words : frame.

(** The frame property, with the memory of the computation on the right. *)
Lemma local_r {A} (c : M A) m F a F' :
  local c -> c F = Ok a F' -> m ##ₘ F -> m ##ₘ F' /\ c (m ∪ F) = Ok a (m ∪ F').
Proof.
  intros Hc H Hd. destruct (Hc F m a F' H (symmetry Hd)) as [Hd' H'].
  rewrite (map_union_comm m F), (map_union_comm m F') by done. by split.
Qed.

(** ** The stack *)

(** The bytes of the stack between two addresses. *)
Definition stack (lo hi : Z) (F : mem) : Prop := forall a, is_Some (F !! a) <-> lo <= a < hi.

Lemma stack_put lo hi F p l : stack lo hi F -> lo <= p -> p + len l <= hi -> stack lo hi (put p l F).
Proof.
  intros HF Hlo Hhi a. rewrite put_lookup. destruct (Z.leb_spec p a), (Z.ltb_spec a (p + len l)); cbn.
  2-4: apply HF.
  split; [lia|]. intros _. apply lookup_lt_is_Some. lia.
Qed.

Lemma set_regs_fmap l (f : Z -> Z) rs n :
  set_regs l (f <$> l) rs n = if decide (n ∈ l) then f n else rs n.
Proof.
  induction l as [|k l IH]; cbn [set_regs fmap list_fmap]; [done|].
  destruct (decide (n = k)) as [->|Hne].
  - by rewrite fn_lookup_insert, decide_True by by left.
  - rewrite fn_lookup_insert_ne by done. etrans; [exact IH|].
    apply decide_ext. rewrite elem_of_cons. tauto.
Qed.

(** What a callee may do to the memory, [lo] being the end of the stack. *)
Class CallingConvention (lo : Z) `{Machine} : Prop := {
  scratch_outside rs m a : a < lo \/ rs SP <= a -> scratch rs m !! a = m !! a;
  scratch_dom rs m : dom (scratch rs m) = dom m;
}.

Section Blocks.
Context `{Machine} (lo : Z) `{!CallingConvention lo}.

(** A call of a C function next to the stack: it works on its own memory, keeps the stack
    at and above the stack pointer, and the registers that a callee saves. *)
Lemma c_call_ok f rs m F hi r m' :
  local (f rs) -> f rs m = Ok r m' -> m ##ₘ F -> stack lo hi F -> rs SP <= hi ->
  exists rs' F', c_call f rs (m ∪ F) = Ok rs' (m' ∪ F') /\
    m' ##ₘ F' /\ stack lo hi F' /\ (forall a, rs SP <= a -> F' !! a = F !! a) /\
    (forall n, callee_saved n = true -> rs' n = rs n) /\ (forall v, r = Some v -> rs' 0 = v).
Proof.
  intros Hl Hf Hd HF Hhi. destruct (Hl _ _ _ _ Hf Hd) as [Hd' Hf'].
  set (m1 := scratch rs (m' ∪ F)).
  set (F' := filter (fun kv : Z * Z => lo <= kv.1 < hi) m1).
  assert (forall a, lo <= a < hi -> m' !! a = None) as Hm'.
  { intros a Ha. apply HF in Ha as [b Hb]. by eapply map_disjoint_Some_r. }
  assert (forall a, F' !! a = if decide (lo <= a < hi) then m1 !! a else None) as HF'.
  { intros a. apply option_eq. intros b. unfold F'. rewrite map_lookup_filter_Some. cbn.
    case_decide; intuition congruence. }
  assert (forall a, a < lo \/ rs SP <= a -> m1 !! a = (m' ∪ F) !! a) as Hout by apply scratch_outside.
  assert (m1 = m' ∪ F') as Hm1.
  { apply map_eq. intros a. destruct (decide (lo <= a < hi)) as [Ha|Ha].
    - rewrite lookup_union_r by auto. rewrite HF'. by rewrite decide_True.
    - rewrite Hout by lia. rewrite !lookup_union, HF', decide_False by done.
      destruct (F !! a) eqn:E; [|done]. exfalso. apply Ha, HF. by rewrite E. }
  eexists (after_call rs r (m' ∪ F)), F'. split_and!.
  - unfold c_call. rewrite (bind_ok _ _ _ _ _ Hf'). unfold m1 in Hm1. by rewrite Hm1.
  - apply map_disjoint_spec. intros a x y Hx Hy. rewrite HF' in Hy. case_decide; [|done].
    by rewrite Hm' in Hx.
  - intros a. rewrite HF'. case_decide as Ha; [|split; [by intros []|done]].
    split; [done|]. intros _. rewrite <- elem_of_dom. unfold m1. rewrite scratch_dom.
    apply elem_of_dom. apply HF in Ha as [b Hb]. exists b. by apply lookup_union_Some_r.
  - intros a Ha. rewrite HF'. case_decide as Hr.
    + rewrite Hout by lia. by apply lookup_union_r, Hm'.
    + symmetry. apply eq_None_not_Some. by intros ?%HF.
  - intros n Hn. unfold after_call. by rewrite Hn.
  - intros v ->. done.
Qed.

(** [PUSH] and [POP] in the stack. *)
Lemma exec_push l rs m F hi :
  m ##ₘ F -> stack lo hi F -> lo <= rs SP - 4 * len l -> rs SP <= hi ->
  let p := rs SP - 4 * len l in
  let F' := put p (flat_map word (rs <$> l)) F in
  exec (PUSH l) rs (m ∪ F) = Ok (<[SP := p]> rs) (m ∪ F') /\ m ##ₘ F' /\ stack lo hi F'.
Proof.
  intros Hd HF Hlo Hhi p F'. cbn [exec]. fold p.
  assert (store_words p (rs <$> l) F = Ok tt F') as Hs.
  { apply store_words_ok. rewrite length_fmap. intros a Ha. apply HF. lia. }
  destruct (local_r _ m F tt F' (local_store_words _ _) Hs Hd) as [Hd' Hs'].
  split_and!; [by rewrite (bind_ok _ _ _ _ _ Hs')|done|].
  apply stack_put; [done|done|]. rewrite flat_map_word_length, length_fmap. lia.
Qed.

Lemma exec_pop l (f : regs) rs m F :
  m ##ₘ F -> Forall (fun n => is_word (f n)) l -> holds F (rs SP) (flat_map word (f <$> l)) ->
  exec (POP l) rs (m ∪ F) = Ok (<[SP := rs SP + 4 * len l]> (set_regs l (f <$> l) rs)) (m ∪ F).
Proof.
  intros Hd Hf HF. cbn [exec].
  assert (load_words (rs SP) (length l) F = Ok (f <$> l) F) as Hs.
  { rewrite <- (length_fmap f l). apply load_words_ok; [by apply Forall_fmap|done]. }
  destruct (local_r _ m F _ F (local_load_words _ _) Hs Hd) as [_ Hs'].
  by rewrite (bind_ok _ _ _ _ _ Hs').
Qed.

Lemma run_cons i is_ rs rs' m m' : exec i rs m = Ok rs' m' -> run (i :: is_) rs m = run is_ rs' m'.
Proof. intros He. cbn [run]. by rewrite (bind_ok _ _ _ _ _ He). Qed.
End Blocks.

Lemma load32_mapped p F v F' : load32 p F = Ok v F' -> forall a, p <= a < p + 4 -> is_Some (F !! a).
Proof.
  intros (b0 & m0 & H0 & (b1 & m1 & H1 & (b2 & m2 & H2 & (b3 & m3 & H3 & _)%bind_inv)%bind_inv)%bind_inv)%bind_inv a Ha.
  unfold load8 in *. repeat case_match; simplify_eq.
  assert (a = p \/ a = p + 1 \/ a = p + 2 \/ a = p + 3) as [->|[->|[->| ->]]] by lia; eauto.
Qed.

Lemma load32_same p F v F' : load32 p F = Ok v F' -> F' = F.
Proof.
  intros (b0 & m0 & H0 & (b1 & m1 & H1 & (b2 & m2 & H2 & (b3 & m3 & H3 & Hr)%bind_inv)%bind_inv)%bind_inv)%bind_inv.
  apply ret_inv in Hr as [_ ->]. unfold load8 in *. repeat case_match; by simplify_eq.
Qed.

Lemma load32_put_out q p l F v F' :
  load32 q F = Ok v F' -> q + 4 <= p \/ p + len l <= q -> load32 q (put p l F) = Ok v (put p l F).
Proof.
  intros Hl Hq. pose proof (load32_mapped _ _ _ _ Hl) as Hm.
  destruct (Hm q ltac:(lia)) as [b0 H0]. destruct (Hm (q + 1) ltac:(lia)) as [b1 H1].
  destruct (Hm (q + 2) ltac:(lia)) as [b2 H2]. destruct (Hm (q + 3) ltac:(lia)) as [b3 H3].
  assert (forall G, G !! q = Some b0 -> G !! (q + 1) = Some b1 -> G !! (q + 2) = Some b2 ->
    G !! (q + 3) = Some b3 -> load32 q G = Ok (b0 + 256 * b1 + 65536 * b2 + 16777216 * b3) G) as Hall.
  { intros G ? ? ? ?. unfold load32.
    by do 4 (erewrite bind_ok by by apply load8_ok). }
  rewrite (Hall F) in Hl by done. injection Hl as <- <-.
  apply Hall; rewrite put_lookup_out by lia; done.
Qed.

(** ** Arguments *)

Lemma argument_reg types p name n rs m :
  place_of types p name = Some [Reg n] -> argument types p name rs m = Ok [rs n] m.
Proof. intros Hp. unfold argument. by rewrite Hp. Qed.

Lemma argument_stack types p name off rs m ws m' :
  place_of types p name = Some [Stack off] ->
  (argument types p name rs m = Ok ws m' <-> exists w, ws = [w] /\ load32 (rs SP + off) m = Ok w m').
Proof.
  intros Hp. unfold argument. rewrite Hp. cbn [mapM]. split.
  - intros (w & m1 & Hl & Hr)%bind_inv. exists w. cbn in Hr. by injection Hr as <- <-.
  - intros (w & -> & Hl). by rewrite (bind_ok _ _ _ _ _ Hl).
Qed.

(** ** The hooks *)

Section Hooks.
Context `{ShaperTables} `{ShaperRange} `{Machine} (lo : Z) `{!CallingConvention lo}.
Context (oob uninit : Z) (cfg : LineEnd).
Hypothesis callee_runtime : forall f, callee f = runtime oob uninit cfg f.

Lemma local_runtime f rs : local (runtime oob uninit cfg f rs).
Proof. unfold runtime, gdt_alignment_step_word. frame. Qed.

Lemma runtime_shape_text rs text m m' :
  shape_text oob uninit text m = Ok tt m' -> rs 0 = text ->
  runtime oob uninit cfg "shape_text" rs m = Ok None m'.
Proof.
  intros Hs Ht. change ((shape_text oob uninit (rs 0);; mret None : M (option Z)) m = Ok None m').
  by rewrite Ht, (bind_ok _ _ _ _ _ Hs).
Qed.

Lemma runtime_unshape_text rs text m m' :
  unshape_text text m = Ok tt m' -> rs 0 = text ->
  runtime oob uninit cfg "unshape_text" rs m = Ok None m'.
Proof.
  intros Hs Ht. change ((unshape_text (rs 0);; mret None : M (option Z)) m = Ok None m').
  by rewrite Ht, (bind_ok _ _ _ _ _ Hs).
Qed.

Lemma runtime_gdt_alignment_step rs text alignment m alignment' m' :
  gdt_alignment_step text alignment m = Ok alignment' m' ->
  rs 0 = text -> rs 1 = enum_value alignment ->
  runtime oob uninit cfg "gdt_alignment_step" rs m = Ok (Some (enum_value alignment')) m'.
Proof.
  intros Hs Ht Ha.
  change ((r ← gdt_alignment_step_word (rs 0) (rs 1); mret (Some r) : M (option Z)) m =
    Ok (Some (enum_value alignment')) m').
  unfold gdt_alignment_step_word. by rewrite Ht, Ha, enum_of_value, bind_assoc, (bind_ok _ _ _ _ _ Hs).
Qed.

Lemma runtime_render_rtl_step rs line_start (more_text : bool) sp m m' :
  render_rtl_step cfg line_start more_text sp m = Ok tt m' ->
  rs 0 = line_start -> rs 1 = Z.b2z more_text -> rs 2 = sp ->
  runtime oob uninit cfg "render_rtl_step" rs m = Ok None m'.
Proof.
  intros Hs Ht Hm Hsp.
  change (match bool_of (rs 1) with
    | Some more_text => render_rtl_step cfg (rs 0) more_text (rs 2);; mret None
    | None => @fault (option Z) 0
    end m = Ok None m').
  assert (bool_of (Z.b2z more_text) = Some more_text) as Hb by by destruct more_text.
  rewrite Ht, Hm, Hsp, Hb. cbv iota. by rewrite (bind_ok _ _ _ _ _ Hs).
Qed.

(** Calling a function of the runtime, next to the stack. *)
Lemma exec_BL f rs m F hi r m' :
  runtime oob uninit cfg f rs m = Ok r m' -> m ##ₘ F -> stack lo hi F -> rs SP <= hi ->
  exists rs' F', exec (BL f) rs (m ∪ F) = Ok rs' (m' ∪ F') /\
    m' ##ₘ F' /\ stack lo hi F' /\ (forall a, rs SP <= a -> F' !! a = F !! a) /\
    (forall n, callee_saved n = true -> rs' n = rs n) /\ (forall v, r = Some v -> rs' 0 = v).
Proof.
  intros Hf. cbn [exec]. rewrite callee_runtime.
  apply (c_call_ok lo); [apply local_runtime|done].
Qed.

(** Saving the arguments, and restoring them when the stack at and above the stack pointer
    is as it was left. *)
Lemma exec_save rs m F hi :
  m ##ₘ F -> stack lo hi F -> lo <= rs SP - 24 -> rs SP <= hi ->
  exists F', exec (PUSH args_ip_lr) rs (m ∪ F) = Ok (<[SP := rs SP - 24]> rs) (m ∪ F') /\
    m ##ₘ F' /\ stack lo hi F' /\ holds F' (rs SP - 24) (flat_map word (rs <$> args_ip_lr)).
Proof.
  intros Hd HF Hlo Hhi. destruct (exec_push lo args_ip_lr rs m F hi Hd HF) as (He & Hd' & HF').
  1,2: cbn [args_ip_lr length]; lia.
  eexists. split; [exact He|]. split; [done|]. split; [done|]. apply holds_put.
Qed.

Lemma exec_restore_list l rs0 rs m F F' :
  Forall (fun n => is_word (rs0 n)) l -> m ##ₘ F' ->
  holds F (rs0 SP - 4 * len l) (flat_map word (rs0 <$> l)) ->
  (forall a, rs0 SP - 4 * len l <= a -> F' !! a = F !! a) ->
  rs SP = rs0 SP - 4 * len l -> (forall n, callee_saved n = true -> n <> SP -> rs n = rs0 n) ->
  exists rs', exec (POP l) rs (m ∪ F') = Ok rs' (m ∪ F') /\
    (forall n, n ∈ l \/ callee_saved n = true -> rs' n = rs0 n).
Proof.
  intros Hw Hd HF Hsame Hsp Hsaved. eexists. split.
  - apply exec_pop; [done|done|]. rewrite Hsp. rewrite holds_lookup in *.
    intros i b Hi. rewrite Hsame by lia. by apply HF.
  - intros n Hn. destruct (decide (n = SP)) as [->|Hsp'].
    { rewrite fn_lookup_insert, Hsp. lia. }
    rewrite fn_lookup_insert_ne, set_regs_fmap by done.
    case_decide as Hin; [done|]. apply Hsaved; [by destruct Hn|done].
Qed.

Lemma exec_restore rs0 rs m F F' :
  (forall n, 0 <= n <= 14 -> is_word (rs0 n)) -> m ##ₘ F' ->
  holds F (rs0 SP - 24) (flat_map word (rs0 <$> args_ip_lr)) ->
  (forall a, rs0 SP - 24 <= a -> F' !! a = F !! a) ->
  rs SP = rs0 SP - 24 -> (forall n, callee_saved n = true -> n <> SP -> rs n = rs0 n) ->
  exists rs', exec (POP args_ip_lr) rs (m ∪ F') = Ok rs' (m ∪ F') /\
    (forall n, 0 <= n <= 14 -> rs' n = rs0 n).
Proof.
  intros Hw Hd HF Hsame Hsp Hsaved.
  destruct (exec_restore_list args_ip_lr rs0 rs m F F') as (rs' & He & Hrs'); [|done..|].
  { rewrite Forall_forall. intros n Hn. apply (Hw n). unfold args_ip_lr, IP, LR in Hn.
    rewrite !elem_of_cons, elem_of_nil in Hn. lia. }
  exists rs'. split; [done|]. intros n Hn. apply Hrs'.
  unfold callee_saved, args_ip_lr, IP, LR, SP. rewrite !elem_of_cons.
  destruct (Z.leb_spec 4 n), (Z.leb_spec n 11), (Z.eqb_spec n 13); cbn; (by right) || (left; lia).
Qed.

(** A saved call with a register moved or an argument loaded before it: after the call the
    stack still has the saved registers. *)
Lemma exec_saved_call f rs1 rs0 m F m' r :
  runtime oob uninit cfg f rs1 m = Ok r m' -> rs1 SP = rs0 SP - 24 ->
  m ##ₘ F -> stack lo (rs0 SP) F ->
  (forall n, callee_saved n = true -> n <> SP -> rs1 n = rs0 n) ->
  exists rs2 F', exec (BL f) rs1 (m ∪ F) = Ok rs2 (m' ∪ F') /\ m' ##ₘ F' /\ stack lo (rs0 SP) F' /\
    (forall a, rs0 SP - 24 <= a -> F' !! a = F !! a) /\ rs2 SP = rs0 SP - 24 /\
    (forall n, callee_saved n = true -> n <> SP -> rs2 n = rs0 n) /\ (forall v, r = Some v -> rs2 0 = v).
Proof.
  intros Hf Hsp Hd HF Hrs.
  destruct (exec_BL f rs1 m F (rs0 SP) r m' Hf Hd HF ltac:(lia))
    as (rs2 & F' & He & Hd' & HF' & Hsame & Hcs & Hr).
  exists rs2, F'. rewrite Hsp in Hsame. split_and!; try done.
  - by rewrite Hcs.
  - intros n Hn Hne. rewrite Hcs by done. by apply Hrs.
Qed.

(** The first part of both blocks: the text, which is in r0 or is moved there, is shaped, and
    the registers are restored. *)
Lemma run_shape (move : bool) rs m F m' :
  (forall n, 0 <= n <= 14 -> is_word (rs n)) -> m ##ₘ F -> stack lo (rs SP) F -> lo <= rs SP - 24 ->
  shape_text oob uninit (if move then rs 1 else rs 0) m = Ok tt m' ->
  exists rs' F',
    (forall is_, run (PUSH args_ip_lr :: (if move then [MOV 0 1] else []) ++
       BL "shape_text" :: POP args_ip_lr :: is_) rs (m ∪ F) = run is_ rs' (m' ∪ F')) /\
    (forall n, 0 <= n <= 14 -> rs' n = rs n) /\ m' ##ₘ F' /\ stack lo (rs SP) F'.
Proof.
  intros Hw Hd HF Hlo Hs.
  destruct (exec_save rs m F (rs SP) Hd HF Hlo ltac:(lia)) as (F1 & He1 & Hd1 & HF1 & Hsave).
  set (rs1 := <[SP := rs SP - 24]> rs) in *.
  set (rs1' := if move then <[0 := rs1 1]> rs1 else rs1).
  assert (forall n, n <> 0 -> rs1' n = rs1 n) as Hrs1'.
  { intros n Hn. unfold rs1'. destruct move; [|done]. by apply fn_lookup_insert_ne. }
  assert (rs1' 0 = if move then rs 1 else rs 0) as Htext.
  { unfold rs1'. destruct move; [rewrite fn_lookup_insert|]; by apply fn_lookup_insert_ne. }
  destruct (exec_saved_call "shape_text" rs1' rs m F1 m' None) as (rs2 & F2 & He2 & Hd2 & HF2 & Hsame & Hsp & Hcs & _);
    [by eapply runtime_shape_text| |done|done| |].
  { rewrite Hrs1' by done. apply fn_lookup_insert. }
  { intros n Hn Hne. rewrite Hrs1' by by intros ->. by apply fn_lookup_insert_ne. }
  destruct (exec_restore rs rs2 m' F1 F2 Hw Hd2 Hsave Hsame Hsp Hcs) as (rs3 & He3 & Hrs3).
  exists rs3, F2. split; [|done]. intros is_. rewrite (run_cons _ _ _ _ _ _ He1). fold rs1.
  assert (forall is_, run ((if move then [MOV 0 1] else []) ++ is_) rs1 (m ∪ F1) = run is_ rs1' (m ∪ F1)) as Hmove
    by by destruct move.
  by rewrite Hmove, (run_cons _ _ _ _ _ _ He2), (run_cons _ _ _ _ _ _ He3).
Qed.

(** C1: The block in front of the firmware's function that measures a text does what
    [content_size_with_attributes_patch_S] does before it calls that function, and reaches it
    with the registers and the stack of the call: only the text and the memory below the
    stack pointer are different.  The stack has six words of room, apart from the memory of the program,
    and shaping the text ends, as it does for every text that is shapeable. *)
Theorem content_size_block_refines rs m F text m' :
  (forall n, 0 <= n <= 14 -> is_word (rs n)) -> m ##ₘ F -> stack lo (rs SP) F -> lo <= rs SP - 24 ->
  argument pebble_types graphics_text_layout_get_content_size_with_attributes "text" rs m = Ok [text] m ->
  shape_text oob uninit text m = Ok tt m' ->
  (forall firmware font box mode alignment attrs,
    content_size_with_attributes_patch_S firmware oob uninit text font box mode alignment attrs m =
    firmware text font box mode alignment attrs m') /\
  exists rs' F',
    run (code graphics_text_layout_get_content_size_with_attributes_patch_block) rs (m ∪ F) =
      Ok rs' (m' ∪ F') /\
    (forall n, 0 <= n <= 14 -> rs' n = rs n) /\ m' ##ₘ F' /\ stack lo (rs SP) F'.
Proof.
  intros Hw Hd HF Hlo Harg Hs. split.
  { intros. unfold content_size_with_attributes_patch_S. by rewrite (bind_ok _ _ _ _ _ Hs). }
  rewrite (argument_reg _ _ _ 0) in Harg by (by vm_compute). injection Harg as <-.
  destruct (run_shape false rs m F m' Hw Hd HF Hlo Hs) as (rs' & F' & Hrun & Hrs & Hd' & HF').
  exists rs', F'. split; [|done]. exact (Hrun []).
Qed.

Lemma draw_text_places :
  place_of pebble_types graphics_draw_text "text" = Some [Reg 1] /\
  place_of pebble_types graphics_draw_text "alignment" = Some [Stack 8].
Proof. split; by vm_compute. Qed.

Lemma enum_value_word (a : GTextAlignment) : is_word (enum_value a).
Proof. unfold is_word. by destruct a. Qed.

(** Only the word of the alignment differs in the arguments of the call that goes on. *)
Lemma other_arguments name rs rs' A v ws :
  (forall n, 0 <= n <= 14 -> rs' n = rs n) ->
  name ∈ ["ctx"; "text"; "font"; "box"; "overflow_mode"; "text_attributes"] ->
  argument pebble_types graphics_draw_text name rs A = Ok ws A ->
  argument pebble_types graphics_draw_text name rs' (put (rs SP + 8) (word v) A) =
    Ok ws (put (rs SP + 8) (word v) A).
Proof.
  intros Hrs Hn.
  assert (exists pls, place_of pebble_types graphics_draw_text name = Some pls /\
    Forall (fun pl => match pl with Reg n => 0 <= n <= 14 | Stack off => off + 4 <= 8 \/ 12 <= off end) pls)
    as (pls & Hpls & Hoff).
  { rewrite !elem_of_cons, elem_of_nil in Hn.
    destruct Hn as [->|[->|[->|[->|[->|[->|[]]]]]]]; (eexists; split; [by vm_compute|]);
      rewrite ?Forall_cons, Forall_nil; lia. }
  unfold argument. rewrite Hpls. clear Hpls Hn. revert ws.
  induction Hoff as [|pl pls Hpl _ IH]; intros ws; cbn [mapM]; [by intros [= <-]|].
  intros (w & A1 & Hl & (ws' & A2 & Hws & Hret)%bind_inv)%bind_inv. apply ret_inv in Hret as [-> <-].
  assert (A1 = A) as ->.
  { destruct pl as [n|off]; [by injection Hl|]. by apply load32_same in Hl. }
  assert ((match pl with Reg n => mret (rs' n) | Stack off => load32 (rs' SP + off) end : M Z)
    (put (rs SP + 8) (word v) A) = Ok w (put (rs SP + 8) (word v) A)) as Hl'.
  { destruct pl as [n|off].
    - injection Hl as <-. by rewrite Hrs.
    - rewrite Hrs by (unfold SP; lia). apply (load32_put_out _ _ _ A w A); [done|]. cbn [word length]. lia. }
  rewrite (bind_ok _ _ _ _ _ Hl'). by rewrite (bind_ok _ _ _ _ _ (IH _ Hws)).
Qed.

(** The second part of the block that draws: the alignment, an argument on the stack, is
    replaced. *)
Lemma run_align rs m A F m' alignment alignment' :
  (forall n, 0 <= n <= 14 -> is_word (rs n)) -> m ##ₘ A -> m ∪ A ##ₘ F -> stack lo (rs SP) F ->
  lo <= rs SP - 24 -> load32 (rs SP + 8) A = Ok (enum_value alignment) A ->
  m' ##ₘ A -> gdt_alignment_step (rs 1) alignment (m ∪ A) = Ok alignment' (m' ∪ A) ->
  exists rs' F',
    run [PUSH args_ip_lr; MOV 0 1; LDR 1 SP 32; BL "gdt_alignment_step"; STR 0 SP 32; POP args_ip_lr]
      rs (m ∪ A ∪ F) = Ok rs' (m' ∪ put (rs SP + 8) (word (enum_value alignment')) A ∪ F') /\
    (forall n, 0 <= n <= 14 -> rs' n = rs n) /\ stack lo (rs SP) F'.
Proof.
  intros Hw HmA Hd HF Hlo Hal HmA' Hg.
  destruct (exec_save rs (m ∪ A) F (rs SP) Hd HF Hlo ltac:(lia)) as (F1 & He1 & Hd1 & HF1 & Hsave).
  set (rs1 := <[SP := rs SP - 24]> rs) in *.
  set (rs2 := <[0 := rs1 1]> rs1). set (rs3 := <[1 := enum_value alignment]> rs2).
  assert (forall n, n <> 0 -> n <> 1 -> n <> SP -> rs3 n = rs n) as Hrs3.
  { intros n ? ? ?. unfold rs3, rs2, rs1. by rewrite !fn_lookup_insert_ne. }
  assert (rs2 SP = rs SP - 24) as Hsp2 by done.
  assert (exec (LDR 1 SP 32) rs2 (m ∪ A ∪ F1) = Ok rs3 (m ∪ A ∪ F1)) as He3.
  { cbn [exec]. rewrite Hsp2. replace (rs SP - 24 + 32) with (rs SP + 8) by lia.
    destruct (local_r _ m A _ A (local_load32 _) Hal HmA) as [_ Hal1].
    destruct (local_load32 _ _ _ _ _ Hal1 Hd1) as [_ Hal2]. by rewrite (bind_ok _ _ _ _ _ Hal2). }
  destruct (exec_saved_call "gdt_alignment_step" rs3 rs (m ∪ A) F1 (m' ∪ A) (Some (enum_value alignment')))
    as (rs4 & F2 & He4 & Hd4 & HF4 & Hsame & Hsp4 & Hcs & Hr4);
    [by eapply runtime_gdt_alignment_step|done|done|done| |].
  { intros n Hn Hne. apply Hrs3; [by intros ->|by intros ->|done]. }
  set (A' := put _ _ A).
  assert (store32 (rs SP + 8) (enum_value alignment') A = Ok tt A') as Hst
    by (apply store32_ok; by eapply load32_mapped).
  destruct (local_r _ m' A tt A' (local_store32 _ _) Hst HmA') as [HmA2 Hst1].
  destruct (local_store32 _ _ _ _ _ _ Hst1 Hd4) as [Hd5 Hst2].
  assert (exec (STR 0 SP 32) rs4 (m' ∪ A ∪ F2) = Ok rs4 (m' ∪ A' ∪ F2)) as He5.
  { cbn [exec]. rewrite Hsp4, (Hr4 _ eq_refl). replace (rs SP - 24 + 32) with (rs SP + 8) by lia.
    by rewrite (bind_ok _ _ _ _ _ Hst2). }
  destruct (exec_restore rs rs4 (m' ∪ A') F1 F2 Hw Hd5 Hsave Hsame Hsp4 Hcs) as (rs5 & He6 & Hrs5).
  exists rs5, F2. split; [|done].
  rewrite (run_cons _ _ _ _ _ _ He1), (run_cons (MOV 0 1) _ rs1 rs2 _ _ eq_refl).
  by rewrite (run_cons _ _ _ _ _ _ He3), (run_cons _ _ _ _ _ _ He4), (run_cons _ _ _ _ _ _ He5),
    (run_cons _ _ _ _ _ _ He6).
Qed.

(** C7: The block in front of the firmware's function that draws a text does what
    [graphics_draw_text_patch] does before it calls that function: it reaches the function
    with the text shaped, with the word of the alignment on the stack ([A], the arguments that
    the caller has stacked) replaced, with every other argument as it was, and with the
    registers and the stack of the call. *)
Theorem draw_text_block_refines rs m A F text alignment m1 alignment' m2 :
  (forall n, 0 <= n <= 14 -> is_word (rs n)) -> m ##ₘ A -> m ∪ A ##ₘ F -> stack lo (rs SP) F -> lo <= rs SP - 24 ->
  argument pebble_types graphics_draw_text "text" rs A = Ok [text] A ->
  argument pebble_types graphics_draw_text "alignment" rs A = Ok [enum_value alignment] A ->
  shape_text oob uninit text m = Ok tt m1 ->
  gdt_alignment_step text alignment m1 = Ok alignment' m2 ->
  (forall firmware ctx font box mode attrs,
    graphics_draw_text_patch firmware oob uninit ctx text font box mode alignment attrs m =
    firmware ctx text font box mode alignment' attrs m2) /\
  exists rs' A' F',
    run (code graphics_draw_text_patch_block) rs (m ∪ A ∪ F) = Ok rs' (m2 ∪ A' ∪ F') /\
    (forall n, 0 <= n <= 14 -> rs' n = rs n) /\ stack lo (rs SP) F' /\
    argument pebble_types graphics_draw_text "alignment" rs' A' = Ok [enum_value alignment'] A' /\
    (forall name ws, name ∈ ["ctx"; "text"; "font"; "box"; "overflow_mode"; "text_attributes"] ->
      argument pebble_types graphics_draw_text name rs A = Ok ws A ->
      argument pebble_types graphics_draw_text name rs' A' = Ok ws A').
Proof.
  intros Hw HmA Hd HF Hlo Htext Hal Hs Hg. split.
  { intros. unfold graphics_draw_text_patch. by rewrite (bind_ok _ _ _ _ _ Hs), (bind_ok _ _ _ _ _ Hg). }
  rewrite (argument_reg _ _ _ 1) in Htext by apply draw_text_places. injection Htext as <-.
  apply (argument_stack _ _ _ 8) in Hal as (w & [= <-] & Hal); [|apply draw_text_places].
  destruct (local_shape_text _ _ _ _ _ _ _ Hs HmA) as [HmA1 Hs'].
  destruct (local_gdt_alignment_step _ _ _ _ _ _ Hg HmA1) as [HmA2 Hg'].
  destruct (run_shape true rs (m ∪ A) F (m1 ∪ A) Hw Hd HF Hlo Hs') as (rs1 & F1 & Hrun1 & Hrs1 & Hd1 & HF1).
  assert (rs1 SP = rs SP) as Hsp1 by (apply Hrs1; unfold SP; lia).
  assert (Hw1 : forall n, 0 <= n <= 14 -> is_word (rs1 n)) by (intros n Hn; rewrite Hrs1 by done; auto).
  set (A' := put (rs SP + 8) (word (enum_value alignment')) A).
  destruct (run_align rs1 m1 A F1 m2 alignment alignment') as (rs2 & F2 & Hrun2 & Hrs2 & HF2);
    rewrite ?Hsp1, ?(Hrs1 1) by lia; try done.
  rewrite Hsp1 in Hrun2, HF2. exists rs2, A', F2.
  assert (forall n, 0 <= n <= 14 -> rs2 n = rs n) as Hrs by (intros n Hn; by rewrite Hrs2, Hrs1).
  split; [|split; [done|split; [done|split]]].
  - exact (eq_trans (Hrun1 _) Hrun2).
  - apply (argument_stack _ _ _ 8); [apply draw_text_places|]. eexists. split; [done|].
    rewrite Hrs by (unfold SP; lia). apply load32_ok; [apply enum_value_word|apply holds_put].
  - intros name ws. by apply other_arguments.
Qed.

Lemma exec_LDR d b off rs m F v m' :
  load32 (rs b + off) m = Ok v m' -> m ##ₘ F ->
  exec (LDR d b off) rs (m ∪ F) = Ok (<[d := v]> rs) (m ∪ F).
Proof.
  intros Hl Hd. pose proof (load32_same _ _ _ _ Hl) as ->. cbn [exec].
  destruct (local_load32 _ _ _ _ _ Hl Hd) as [_ Hl']. by rewrite (bind_ok _ _ _ _ _ Hl').
Qed.

(** Laying out the line: [render_rtl_step] is called with the text that the layout register
    points to, the register of the flag, and the stack pointer of the call site, which is [d]
    above the current one. *)
Lemma run_render L T (add : bool) rs m F hi text more_text sp m' :
  callee_saved L = true -> callee_saved T = true -> L <> SP -> T <> SP ->
  rs T = Z.b2z more_text -> is_word sp -> rs SP = (if add then sp - 16 else sp) -> rs SP <= hi ->
  load32 (rs L) m = Ok text m -> render_rtl_step cfg text more_text sp m = Ok tt m' ->
  m ##ₘ F -> stack lo hi F ->
  exists rs' F',
    (forall is_, run (LDR 0 L 0 :: MOV 1 T :: (if add then ADD 2 SP 16 else MOV 2 SP) ::
       BL "render_rtl_step" :: is_) rs (m ∪ F) = run is_ rs' (m' ∪ F')) /\
    (forall n, callee_saved n = true -> rs' n = rs n) /\
    m' ##ₘ F' /\ stack lo hi F' /\ (forall a, rs SP <= a -> F' !! a = F !! a).
Proof.
  intros HL HT HL' HT' Hmore Hspw Hsp Hhi Hload Hstep Hd HF.
  set (rs1 := <[0 := text]> rs). set (rs2 := <[1 := rs1 T]> rs1). set (rs3 := <[2 := sp]> rs2).
  assert (forall n, callee_saved n = true -> rs3 n = rs n /\ rs2 n = rs n /\ rs1 n = rs n) as Hrs.
  { intros n Hn. assert (n <> 0 /\ n <> 1 /\ n <> 2) as (?&?&?) by (by split_and!; intros ->).
    unfold rs3, rs2, rs1. by rewrite !fn_lookup_insert_ne. }
  assert (exec (LDR 0 L 0) rs (m ∪ F) = Ok rs1 (m ∪ F)) as He1
    by (eapply exec_LDR; [rewrite Z.add_0_r|]; done).
  assert (exec (if add then ADD 2 SP 16 else MOV 2 SP) rs2 (m ∪ F) = Ok rs3 (m ∪ F)) as He3.
  { destruct (Hrs SP eq_refl) as (_ & H2 & _). unfold rs3. destruct add; cbn [exec]; rewrite H2, Hsp; [|done].
    by rewrite Z.sub_add, Z.mod_small. }
  destruct (exec_BL "render_rtl_step" rs3 m F hi None m') as (rs4 & F' & He4 & Hd' & HF' & Hsame & Hcs & _).
  { eapply runtime_render_rtl_step; [done|done| |done]. destruct (Hrs T HT) as (_ & _ & HT1).
    change (rs3 1) with (rs1 T). by rewrite HT1. }
  1-2: done.
  { by destruct (Hrs SP eq_refl) as (-> & _ & _). }
  exists rs4, F'. split_and!; try done.
  - intros is_. rewrite (run_cons _ _ _ _ _ _ He1), (run_cons (MOV 1 T) _ rs1 rs2 _ _ eq_refl).
    by rewrite (run_cons _ _ _ _ _ _ He3), (run_cons _ _ _ _ _ _ He4).
  - intros n Hn. rewrite Hcs by done. by destruct (Hrs n Hn) as (-> & _ & _).
Qed.

(** The first time, the arguments of the handler are saved around the call. *)
Lemma run_render_saved L T rs m F text more_text m' :
  callee_saved L = true -> callee_saved T = true -> L <> SP -> T <> SP ->
  (forall n, 0 <= n <= 14 -> is_word (rs n)) -> m ##ₘ F -> stack lo (rs SP) F -> lo <= rs SP - 16 ->
  rs T = Z.b2z more_text ->
  load32 (rs L) m = Ok text m -> render_rtl_step cfg text more_text (rs SP) m = Ok tt m' ->
  exists rs' F',
    (forall is_, run (PUSH [0; 1; 2; 3] :: LDR 0 L 0 :: MOV 1 T :: ADD 2 SP 16 ::
       BL "render_rtl_step" :: POP [0; 1; 2; 3] :: is_) rs (m ∪ F) = run is_ rs' (m' ∪ F')) /\
    (forall n, n ∈ [0; 1; 2; 3] \/ callee_saved n = true -> rs' n = rs n) /\
    m' ##ₘ F' /\ stack lo (rs SP) F'.
Proof.
  intros HL HT HL' HT' Hw Hd HF Hlo Hmore Hload Hstep.
  assert (is_word (rs SP)) as Hspw by (apply Hw; unfold SP; lia).
  destruct (exec_push lo [0; 1; 2; 3] rs m F (rs SP) Hd HF ltac:(cbn; lia) ltac:(lia)) as (He1 & Hd1 & HF1).
  set (F1 := put _ _ F) in *. set (rs1 := <[SP := rs SP - 16]> rs).
  change (rs SP - 4 * len [0; 1; 2; 3]) with (rs SP - 16) in *. fold rs1 in He1.
  assert (forall n, n <> SP -> rs1 n = rs n) as Hrs1 by (intros n ?; by apply fn_lookup_insert_ne).
  destruct (run_render L T true rs1 m F1 (rs SP) text more_text (rs SP) m')
    as (rs2 & F2 & Hrun2 & Hrs2 & Hd2 & HF2 & Hsame2); rewrite ?Hrs1 by done; try done.
  { unfold rs1. rewrite fn_lookup_insert. lia. }
  change (rs1 SP) with (rs SP - 16) in Hsame2.
  destruct (exec_restore_list [0; 1; 2; 3] rs rs2 m' F1 F2) as (rs3 & He3 & Hrs3); try done.
  { rewrite !Forall_cons. split_and!; try apply Hw; lia || done. }
  { apply holds_put. }
  { by rewrite Hrs2. }
  { intros n Hn Hne. rewrite Hrs2, Hrs1 by done. done. }
  exists rs3, F2. split_and!; try done. intros is_.
  by rewrite (run_cons _ _ _ _ _ _ He1), Hrun2, (run_cons _ _ _ _ _ _ He3).
Qed.

(** C8: The code that patch.py injects around the call of the render handler does what
    [render_wrap] does: the handler is called with its own arguments, of which the third is
    loaded from the stack, and before and after it the line is laid out.  The layout and the
    flag have to be in registers that the calls keep, and the handler must not be in a
    register that is overwritten before it is called. *)
Theorem render_wrap_block_refines rs m F layout_reg more_text_reg arg3_sp_off hdlr_reg
    (handler : Z -> Z -> Z -> M unit) (more_text : bool) m' :
  callee_saved layout_reg = true -> layout_reg <> SP ->
  callee_saved more_text_reg = true -> more_text_reg <> SP ->
  0 <= hdlr_reg <= 11 -> hdlr_reg <> 2 ->
  (forall n, 0 <= n <= 14 -> is_word (rs n)) -> m ##ₘ F -> stack lo (rs SP) F -> lo <= rs SP - 16 ->
  rs more_text_reg = Z.b2z more_text ->
  (forall r, pointer (rs hdlr_reg) r = (handler (r 0) (r 1) (r 2);; mret None)) ->
  (forall x y z, local (handler x y z)) ->
  render_wrap cfg (arg3 ← load32 (rs SP + arg3_sp_off); handler (rs 0) (rs 1) arg3)
    (rs layout_reg) more_text (rs SP) m = Ok tt m' ->
  exists rs' F',
    run (code (render_wrap_asm layout_reg more_text_reg arg3_sp_off hdlr_reg)) rs (m ∪ F) =
      Ok rs' (m' ∪ F') /\
    (forall n, callee_saved n = true -> rs' n = rs n) /\ m' ##ₘ F' /\ stack lo (rs SP) F'.
Proof.
  intros HL HL' HT HT' Hh Hh2 Hw Hd HF Hlo Hmore Hptr Hlocal.
  intros (text & m0 & Hload & ([] & m1 & Hstep & ([] & m2 & (arg3 & m1' & Harg & Hhd)%bind_inv
    & (text2 & m2' & Hload2 & Hstep2)%bind_inv)%bind_inv)%bind_inv)%bind_inv.
  pose proof (load32_same _ _ _ _ Hload) as ->. pose proof (load32_same _ _ _ _ Harg) as ->.
  pose proof (load32_same _ _ _ _ Hload2) as ->.
  assert (is_word (rs SP)) as Hspw by (apply Hw; unfold SP; lia).
  destruct (run_render_saved layout_reg more_text_reg rs m F text more_text m1)
    as (rs3 & F2 & Hrun3 & Hrs3 & Hd2 & HF2); try done.
  assert (forall n, callee_saved n = true -> rs3 n = rs n) as Hcs3 by auto.
  assert (exec (LDR 2 SP arg3_sp_off) rs3 (m1 ∪ F2) = Ok (<[2 := arg3]> rs3) (m1 ∪ F2)) as He4
    by (eapply exec_LDR; [by rewrite Hcs3|done]).
  set (rs4 := <[2 := arg3]> rs3) in *.
  assert (forall n, n <> 2 -> rs4 n = rs3 n) as Hrs4 by (intros n ?; by apply fn_lookup_insert_ne).
  assert (forall n, callee_saved n = true -> rs4 n = rs n) as Hcs4.
  { intros n Hn. rewrite Hrs4 by by intros ->. auto. }
  assert (rs4 hdlr_reg = rs hdlr_reg) as Hhr.
  { rewrite Hrs4 by done. apply Hrs3. rewrite !elem_of_cons. unfold callee_saved.
    destruct (Z.leb_spec 4 hdlr_reg), (Z.leb_spec hdlr_reg 11); cbn; try (by right); left; lia. }
  destruct (c_call_ok lo (pointer (rs hdlr_reg)) rs4 m1 F2 (rs SP) None m2)
    as (rs5 & F3 & He5 & Hd3 & HF3 & _ & Hcs5 & _); try done.
  { rewrite Hptr. apply local_bind; [done|]. intros ?. apply local_ret. }
  { rewrite Hptr, (Hrs4 0), (Hrs4 1), !Hrs3 by (done || (left; rewrite !elem_of_cons; tauto)).
    change (rs4 2) with arg3. by rewrite (bind_ok _ _ _ _ _ Hhd). }
  { by rewrite Hcs4. }
  rewrite <- Hhr in He5.
  destruct (run_render layout_reg more_text_reg false rs5 m2 F3 (rs SP) text2 more_text (rs SP) m')
    as (rs6 & F4 & Hrun6 & Hrs6 & Hd6 & HF6 & _); rewrite ?Hcs5, ?Hcs4 by done; try done.
  exists rs6, F4. split_and!; [|intros n Hn; by rewrite Hrs6, Hcs5, Hcs4|done|done].
  cbn [code render_wrap_asm]. rewrite Hrun3, (run_cons _ _ _ _ _ _ He4), (run_cons (BLX hdlr_reg) _ _ _ _ _ He5). exact (Hrun6 []).
Qed.
(** C31: The code that patch.py injects at the end of the firmware's function that draws: the text
    is loaded from the stack frame of the function, the overwritten instructions drop the
    frame, restoring the registers [rs1], and the text is unshaped before the block returns
    to the caller.  The frame has room for the two registers that it saves. *)
Theorem unshape_block_refines rs rs1 m F off mcode text m' :
  (forall n, 0 <= n <= 14 -> is_word (rs1 n)) -> m ##ₘ F -> stack lo (rs1 SP) F -> lo <= rs1 SP - 8 ->
  load32 (rs SP + off) F = Ok text F ->
  local (overwritten (take 8 mcode) (<[0 := text]> rs)) ->
  overwritten (take 8 mcode) (<[0 := text]> rs) F = Ok rs1 F -> rs1 0 = text ->
  unshape_text text m = Ok tt m' ->
  exists rs' F',
    run (code (unshape_asm off mcode)) rs (m ∪ F) = Ok rs' (m' ∪ F') /\
    (forall n, callee_saved n = true -> rs' n = rs1 n) /\ rs' PC = rs1 LR /\
    m' ##ₘ F' /\ stack lo (rs1 SP) F'.
Proof.
  intros Hw Hd HF Hlo Hload Hlocal Hover Htext Hs.
  destruct (local_r _ m F _ F (local_load32 _) Hload Hd) as [_ Hload'].
  assert (exec (LDR 0 SP off) rs (m ∪ F) = Ok (<[0 := text]> rs) (m ∪ F)) as He0
    by by cbn [exec]; rewrite (bind_ok _ _ _ _ _ Hload').
  destruct (local_r _ m F _ F Hlocal Hover Hd) as [_ He1].
  destruct (exec_push lo [IP; LR] rs1 m F (rs1 SP) Hd HF ltac:(cbn; lia) ltac:(lia)) as (He2 & Hd2 & HF2).
  set (F2 := put _ _ F) in *. set (rs2 := <[SP := rs1 SP - 8]> rs1).
  change (rs1 SP - 4 * len [IP; LR]) with (rs1 SP - 8) in *. fold rs2 in He2.
  assert (forall n, n <> SP -> rs2 n = rs1 n) as Hrs2 by (intros n ?; by apply fn_lookup_insert_ne).
  destruct (exec_BL "unshape_text" rs2 m F2 (rs1 SP) None m') as (rs3 & F3 & He3 & Hd3 & HF3 & Hsame & Hcs & _).
  { by apply (runtime_unshape_text _ text); [|rewrite Hrs2]. }
  1-2: done.
  { unfold rs2. rewrite fn_lookup_insert. lia. }
  change (rs2 SP) with (rs1 SP - 8) in Hsame.
  assert (rs3 SP = rs1 SP - 8) as Hsp3 by by rewrite Hcs.
  set (f := <[PC := rs1 LR]> rs1).
  assert (exec (POP [IP; PC]) rs3 (m' ∪ F3) =
    Ok (<[SP := rs3 SP + 4 * len [IP; PC]]> (set_regs [IP; PC] (f <$> [IP; PC]) rs3)) (m' ∪ F3)) as He4.
  { apply exec_pop; [done| |].
    - rewrite !Forall_cons. split_and!; [apply (Hw IP)|apply (Hw LR)|done]; unfold IP, LR; lia.
    - rewrite Hsp3. pose proof (holds_put (rs1 SP - 8) (flat_map word (rs1 <$> [IP; LR])) F) as HF4.
      rewrite holds_lookup in *. intros i b Hi. rewrite Hsame by lia. by apply HF4. }
  eexists _, F3. split; [|split; [|split; [|done]]].
  - cbn [code unshape_asm]. rewrite (run_cons _ _ _ _ _ _ He0), (run_cons (BYTES _) _ _ _ _ _ He1).
    rewrite (run_cons _ _ _ _ _ _ He2), (run_cons _ _ _ _ _ _ He3). exact (run_cons _ [] _ _ _ _ He4).
  - intros n Hn. destruct (decide (n = SP)) as [->|Hne].
    { rewrite fn_lookup_insert, Hsp3. cbn [length]. lia. }
    rewrite fn_lookup_insert_ne, set_regs_fmap by done. case_decide as Hin.
    { rewrite !elem_of_cons, elem_of_nil in Hin. destruct Hin as [->|[->|[]]]; done. }
    by rewrite Hcs, Hrs2.
  - done.
Qed.
End Hooks.

(** ** Witnesses *)

(** A machine with the runtime, one handler, at address 77, that sets a pixel, overwritten
    code that drops a frame of eight words, and calls that leave 9 below the stack pointer
    and 7 in the registers. *)
#[export] Instance example_machine `{ShaperTables} `{ShaperRange} : Machine := {|
  callee := runtime 0 0 (LINEEND_SP_OFF 124);
  pointer a := fun r => if a =? 77 then store8 (r 0) (r 2);; mret None else fault a;
  overwritten bs r := mret (<[SP := r SP + 32]> r);
  clobber _ _ _ := 7;
  scratch r m := if 0x10000F00 <=? r SP - 1 then alter (fun _ => 9) (r SP - 1) m else m;
|}.

#[export] Instance example_convention `{ShaperTables} `{ShaperRange} : CallingConvention 0x10000F00.
Proof.
  split; intros; cbn; destruct (Z.leb_spec 0x10000F00 (rs SP - 1)); try done.
  - apply lookup_alter_ne. lia.
  - apply dom_alter_L.
Qed.

Definition example_stack : mem := put 0x10000F00 (replicate 256 0) ∅.

Lemma example_stack_ok : stack 0x10000F00 0x10001000 example_stack.
Proof.
  intros a. unfold example_stack. rewrite put_lookup, length_replicate.
  destruct (Z.leb_spec 0x10000F00 a), (Z.ltb_spec a (0x10000F00 + Z.of_nat 256)); cbn [andb].
  - split; [lia|intros _]. apply lookup_lt_is_Some. rewrite length_replicate. lia.
  - rewrite lookup_empty. split; [by intros []|lia].
  - rewrite lookup_empty. split; [by intros []|lia].
  - lia.
Qed.

(** A call with the stack at 0x10001000. *)
Definition example_regs (l : list Z) : regs := fun n => if n =? SP then 0x10001000 else nth (Z.to_nat n) l 5.

Lemma example_regs_word l n : Forall is_word l -> is_word (example_regs l n).
Proof.
  intros Hl. unfold example_regs. destruct (n =? SP); [done|].
  destruct (nth_in_or_default (Z.to_nat n) l 5) as [Hin| ->]; [|done].
  rewrite Forall_forall in Hl. by apply Hl, list_elem_of_In.
Qed.

(** The text "beh" at 100 is measured. *)
Theorem content_size_block_refines_witness :
  let m := put 100 (encode [0x628] ++ 0 :: []) ∅ in
  let m' := put 100 (encode [0x703] ++ 0 :: []) ∅ in
  exists rs' F',
    run (code graphics_text_layout_get_content_size_with_attributes_patch_block)
      (example_regs [100]) (m ∪ example_stack) = Ok rs' (m' ∪ F') /\
    (forall n, 0 <= n <= 14 -> rs' n = example_regs [100] n).
Proof.
  intros m m'.
  destruct (content_size_block_refines 0x10000F00 0 0 (LINEEND_SP_OFF 124) ltac:(done) (example_regs [100])
    m example_stack 100 m') as (_ & rs' & F' & Hrun & Hrs & _).
  - intros n _. apply example_regs_word. by repeat constructor.
  - by apply (bool_decide_unpack _); vm_compute.
  - apply example_stack_ok.
  - done.
  - apply (argument_reg _ _ _ 0). by vm_compute.
  - by vm_compute.
  - exists rs', F'. exact (conj Hrun Hrs).
Defined.

(** "beh" at 100 is drawn; the caller has stacked its arguments at 0x10001000, and the
    alignment, left, becomes right. *)
Theorem draw_text_block_refines_witness :
  let m := put 100 (encode [0x628] ++ 0 :: []) ∅ in
  let m' := put 100 (encode [0x703] ++ 0 :: []) ∅ in
  let A := put 0x10001000 (flat_map word [0x00A80090; 0; 0; 0]) ∅ in
  let rs := example_regs [1; 100; 2] in
  exists rs' A' F',
    run (code graphics_draw_text_patch_block) rs (m ∪ A ∪ example_stack) = Ok rs' (m' ∪ A' ∪ F') /\
    argument pebble_types graphics_draw_text "alignment" rs' A' = Ok [2] A'.
Proof.
  intros m m' A rs.
  destruct (draw_text_block_refines 0x10000F00 0 0 (LINEEND_SP_OFF 124) ltac:(done) rs
    m A example_stack 100 GTextAlignmentLeft m' GTextAlignmentRight m')
    as (_ & rs' & A' & F' & Hrun & _ & _ & Hal & _).
  - intros n _. apply example_regs_word. by repeat constructor.
  - by apply (bool_decide_unpack _); vm_compute.
  - by apply (bool_decide_unpack _); vm_compute.
  - apply example_stack_ok.
  - done.
  - apply (argument_reg _ _ _ 1). by vm_compute.
  - apply (argument_stack _ _ _ 8); [by vm_compute|]. exists 0. by vm_compute.
  - by vm_compute.
  - by vm_compute.
  - exists rs', A', F'. exact (conj Hrun Hal).
Defined.

(** The handler at 77, in r3, draws while the line "אב" is laid out; the layout is in r5 and
    the flag in r6. *)
Theorem render_wrap_block_refines_witness :
  let line e := word e ++ word e in
  let m := put 0x10000100 (encode [0x5D0; 0x5D1]) (put (0x10001000 + 124) (line 0x10000104)
    (put 0x10001040 (word 3) (put 0x10002000 (word 0x10000100) (put 50 [0] ∅)))) in
  let m' := <[50 := 3]> m in
  exists rs' F',
    run (code (render_wrap_asm 5 6 64 3)) (example_regs [50; 0; 0; 77; 0; 0x10002000; 1]) (m ∪ example_stack) =
      Ok rs' (m' ∪ F').
Proof.
  intros line m m'.
  destruct (render_wrap_block_refines 0x10000F00 0 0 (LINEEND_SP_OFF 124) ltac:(done)
    (example_regs [50; 0; 0; 77; 0; 0x10002000; 1]) m example_stack 5 6 64 3
    (fun x _ z => store8 x z) true m' eq_refl ltac:(done) eq_refl ltac:(done) ltac:(lia) ltac:(lia))
    as (rs' & F' & Hrun & _).
  - intros n _. apply example_regs_word. by repeat constructor.
  - by apply (bool_decide_unpack _); vm_compute.
  - apply example_stack_ok.
  - by vm_compute.
  - reflexivity.
  - reflexivity.
  - intros. apply local_store8.
  - by vm_compute.
  - exists rs', F'. exact Hrun.
Defined.

(** The frame at 0x10000FE0 has the text, a final beh at 100, in its second word. *)
Theorem unshape_block_refines_witness :
  let m := put 100 (encode [0x704] ++ 0 :: []) ∅ in
  let m' := put 100 (encode [0x628] ++ 0 :: []) ∅ in
  let F := put 0x10000FE4 (word 100) example_stack in
  let rs := <[SP := 0x10000FE0]> (example_regs []) in
  exists rs' F',
    run (code (unshape_asm 4 (replicate 8 0))) rs (m ∪ F) = Ok rs' (m' ∪ F') /\ rs' PC = 5.
Proof.
  intros m m' F rs. set (rs1 := <[SP := 0x10001000]> (<[0 := 100]> rs)).
  assert (forall n, is_word (rs1 n)) as Hw.
  { intros n. unfold rs1. destruct (decide (n = SP)) as [->|]; [by rewrite fn_lookup_insert|].
    rewrite fn_lookup_insert_ne by done. destruct (decide (n = 0)) as [->|]; [by rewrite fn_lookup_insert|].
    unfold rs. rewrite !fn_lookup_insert_ne by done. by apply example_regs_word. }
  destruct (unshape_block_refines 0x10000F00 0 0 (LINEEND_SP_OFF 124) ltac:(done) rs rs1 m F 4
    (replicate 8 0) 100 m') as (rs' & F' & Hrun & _ & Hpc & _).
  - intros n _. apply Hw.
  - by apply (bool_decide_unpack _); vm_compute.
  - change (rs1 SP) with 0x10001000. apply stack_put; [apply example_stack_ok|lia|cbn [word length]; lia].
  - by vm_compute.
  - by vm_compute.
  - intros. apply local_ret.
  - reflexivity.
  - reflexivity.
  - by vm_compute.
  - exists rs', F'. exact (conj Hrun Hpc).
Defined.

(** patch.py also lets the flag be in r3, which the handler need not keep: the line is not
    laid out back with the flag, but with whatever the handler has left there. *)
Example render_wrap_flag_in_r3 :
  let line e := word e ++ word e in
  let m := put 0x10000100 (encode [0x5D0; 0x5D1]) (put (0x10001000 + 124) (line 0x10000104)
    (put 0x10001040 (word 3) (put 0x10002000 (word 0x10000100) (put 50 [0] ∅)))) in
  let rs := example_regs [50; 0; 0; 1; 77; 0x10002000] in
  (exists m', render_wrap (LINEEND_SP_OFF 124) (arg3 ← load32 (0x10001000 + 64); store8 50 arg3)
     (rs 5) true 0x10001000 m = Ok tt m') /\
  run (code (render_wrap_asm 5 3 64 4)) rs (m ∪ example_stack) = Fault 0.
Proof. split; [eexists|]; by vm_compute. Qed.
