(* ===== verification/LutGenProps.v ===== *)
(** * The generated tables are what the shaper needs

    The interfaces that the theorems about the shaper assume ([ShaperTablesOk],
    [ShaperFormsOk], [ShaperRangeOk], [LettersRtl] and [UnshapeTablesOk]) hold of the
    tables that [pack_lut] packs. *)

From stdpp Require Import sorting.
From S2P Require Import Prelude Memory Utf8 Ranges Rtl RtlProps Shaper ShaperSpec.
From S2P Require Import ShaperRefine ShaperProps Unshape Patch PatchProps LutGen.

(** ** Packed tables read back *)

Definition word_bytes (w : Z) : list Z := [w mod 256; w / 256].
Definition int8_byte (d : Z) : Z := d mod 256.
Definition entry_bytes (e : ShaperLUTEntry) : list Z :=
  word_bytes (true_codept e) ++ word_bytes (isolated_codept e) ++
  [int8_byte (initial_codept_delta e); int8_byte (medial_codept_delta e);
   int8_byte (final_codept_delta e)].

Definition is_word (w : Z) : Prop := 0 <= w < 65536.
Definition is_int8 (d : Z) : Prop := -128 <= d < 128.
Definition entry_range (e : ShaperLUTEntry) : Prop :=
  is_word (true_codept e) /\ is_word (isolated_codept e) /\ is_int8 (initial_codept_delta e) /\
  is_int8 (medial_codept_delta e) /\ is_int8 (final_codept_delta e).

Lemma int8_round d : is_int8 d -> (if int8_byte d <? 128 then int8_byte d else int8_byte d - 256) = d.
Proof. unfold is_int8, int8_byte. intros. destruct (Z.ltb_spec (d mod 256) 128); dlia. Qed.

Lemma word_round w : w mod 256 + 256 * (w / 256) = w.
Proof. dlia. Qed.

Lemma lut_entry_head e bs : entry_range e -> lut_entry (entry_bytes e ++ bs) 0 = e.
Proof.
  intros (_ & _ & H1 & H2 & H3). destruct e as [t i d1 d2 d3].
  unfold lut_entry, get_uint16, get_int8. cbn [Nat.mul Nat.add nth app entry_bytes word_bytes
    true_codept isolated_codept initial_codept_delta medial_codept_delta final_codept_delta] in *.
  cbv zeta. by rewrite !word_round, !int8_round.
Qed.

Lemma lut_entry_tail e bs i : lut_entry (entry_bytes e ++ bs) (S i) = lut_entry bs i.
Proof.
  unfold lut_entry, get_uint16, get_int8, sizeof_entry.
  assert (forall k, nth (S i * 7 + k) (entry_bytes e ++ bs) 0 = nth (i * 7 + k) bs 0) as E.
  { intros k. rewrite app_nth2 by (unfold entry_bytes, word_bytes; cbn [app length]; lia). f_equal.
    unfold entry_bytes, word_bytes. cbn [app length]. lia. }
  pose proof (E 0%nat) as E0. rewrite !Nat.add_0_r in E0. cbv zeta.
  rewrite <- !Nat.add_assoc. rewrite !E, E0. done.
Qed.

Lemma shaper_lut_pack es : Forall entry_range es -> shaper_lut (flat_map entry_bytes es) = es.
Proof.
  induction 1 as [|e es He _ IH]; [done|]. unfold shaper_lut in *. cbn [flat_map].
  rewrite length_app. change (length (entry_bytes e)) with sizeof_entry.
  replace ((sizeof_entry + length (flat_map entry_bytes es)) / sizeof_entry)%nat
    with (S (length (flat_map entry_bytes es) / sizeof_entry)).
  - cbn [seq]. rewrite fmap_cons, lut_entry_head by done. f_equal.
    rewrite <- seq_shift, <- list_fmap_compose. etransitivity; [|exact IH].
    apply list_fmap_ext. intros _ i _. apply lut_entry_tail.
  - symmetry. by apply (Nat.div_add_l 1 sizeof_entry).
Qed.

Lemma ligature_lut_pack ws : Forall is_word ws -> ligature_lut (flat_map word_bytes ws) = ws.
Proof.
  induction 1 as [|w ws _ _ IH]; [done|]. unfold ligature_lut in *. cbn [flat_map].
  rewrite length_app. change (length (word_bytes w)) with 2%nat.
  replace ((2 + length (flat_map word_bytes ws)) / 2)%nat
    with (S (length (flat_map word_bytes ws) / 2)).
  - cbn [seq]. rewrite fmap_cons. f_equal.
    + unfold get_uint16. cbn [Nat.mul Nat.add nth app word_bytes]. apply word_round.
    + rewrite <- seq_shift, <- list_fmap_compose. etransitivity; [|exact IH].
      apply list_fmap_ext. intros _ i _. unfold get_uint16, word_bytes. cbn [compose Nat.mul app].
      by replace (S (S (i * 2)) + 1)%nat with (S (S (i * 2 + 1))) by lia.
  - symmetry. by apply (Nat.div_add_l 1 2).
Qed.

Lemma pack_H_Some w bs : pack_H w = Some bs -> is_word w /\ bs = word_bytes w.
Proof.
  unfold pack_H, is_word. destruct (Z.leb_spec 0 w), (Z.ltb_spec w 65536); try done.
  by intros [= <-].
Qed.

Lemma pack_b_Some d bs : pack_b d = Some bs -> is_int8 d /\ bs = [int8_byte d].
Proof.
  unfold pack_b, is_int8. destruct (Z.leb_spec (-128) d), (Z.ltb_spec d 128); try done.
  by intros [= <-].
Qed.

(** The packed line is an entry whose shapes are the code points it was made of. *)
Lemma pack_line_Some t cs bs :
  pack_line (t :: deltas cs) = Some bs ->
  exists e, entry_range e /\ bs = entry_bytes e /\ true_codept e = t /\ forms e = cs.
Proof.
  destruct cs as [|c0 [|c1 [|c2 [|c3 [|]]]]]; try done. cbn [deltas pack_line fmap list_fmap].
  intros (bt & [Ht ->]%pack_H_Some & H)%bind_Some.
  apply bind_Some in H as (bi & [Hi ->]%pack_H_Some & H).
  apply bind_Some in H as (b1 & [H1 ->]%pack_b_Some & H).
  apply bind_Some in H as (b2 & [H2 ->]%pack_b_Some & H).
  apply bind_Some in H as (b3 & [H3 ->]%pack_b_Some & [= <-]).
  exists (mk_entry t c0 (c1 - c0) (c2 - c0) (c3 - c0)). split; [by split_and!|].
  split; [done|]. split; [done|]. unfold forms, iso, ini, med, fin. cbn.
  repeat f_equal; lia.
Qed.

(** ** Allocation of code points *)

(** All code points in use, those of ligatures and those of glyphs. *)
Definition codes (st : pack_state) (ligs : list (Z * Z * Z)) : list Z :=
  (snd <$> ligs) ++ (snd <$> map_to_list (selected_glyphs st)).

Record alloc_ok (st : pack_state) (ligs : list (Z * Z * Z)) : Prop := {
  alloc_split : dirtied_codepts st ++ available_codepts st = scratch_codepoints;
  alloc_perm : dirtied_codepts st ≡ₚ codes st ligs;
}.

(** The tables grow, and no glyph changes its code point. *)
Definition same_tables (st st' : pack_state) : Prop :=
  lut_data st' = lut_data st /\ lig_data st' = lig_data st.

Lemma scratch_bounds c : c ∈ scratch_codepoints -> 0x700 <= c < 0x750 \/ 0x780 <= c < 0x800.
Proof.
  unfold scratch_codepoints, scratch_codepoint_ranges. cbn [flat_map fst snd].
  rewrite !elem_of_app, !elem_of_seqZ, elem_of_nil. lia.
Qed.

Lemma scratch_NoDup : NoDup scratch_codepoints.
Proof. by apply (bool_decide_unpack _); vm_compute. Qed.

Lemma scratch_two_byte c : c ∈ scratch_codepoints -> two_byte c.
Proof. intros Hc%scratch_bounds. unfold two_byte. lia. Qed.

Lemma alloc_scratch st ligs c : alloc_ok st ligs -> c ∈ codes st ligs -> c ∈ scratch_codepoints.
Proof. intros [<- <-] Hc. set_solver. Qed.

Lemma alloc_NoDup st ligs : alloc_ok st ligs -> NoDup (codes st ligs).
Proof.
  intros [Hs <-]. pose proof scratch_NoDup as Hn. rewrite <- Hs in Hn.
  by apply NoDup_app in Hn as [? _].
Qed.

Lemma next_codept_ok st c st' :
  dirtied_codepts st ++ available_codepts st = scratch_codepoints ->
  next_codept st = Some (c, st') ->
  dirtied_codepts st' ++ available_codepts st' = scratch_codepoints /\
  dirtied_codepts st' = dirtied_codepts st ++ [c] /\
  selected_glyphs st' = selected_glyphs st /\ same_tables st st'.
Proof.
  unfold next_codept. intros Hs. destruct (available_codepts st) as [|c' cs]; [done|].
  intros [= <- <-]. cbn. by rewrite <- app_assoc.
Qed.

Lemma select_glyph_ok st ligs g c st' :
  alloc_ok st ligs -> select_glyph st g = Some (c, st') ->
  alloc_ok st' ligs /\ selected_glyphs st ⊆ selected_glyphs st' /\
  selected_glyphs st' !! g = Some c /\ same_tables st st'.
Proof.
  unfold select_glyph. intros [Hs Hp]. destruct (selected_glyphs st !! g) as [c'|] eqn:Hg.
  - by intros [= <- <-].
  - intros ([c' st1] & Hn & [= <- <-])%bind_Some.
    destruct (next_codept_ok _ _ _ Hs Hn) as (Hs' & Hd & Hsel & Ht). cbn. rewrite Hsel.
    split; [split; [done|]|].
    + cbn. unfold codes. cbn. rewrite map_to_list_insert, fmap_cons, Hd, Hp by done. cbn.
      unfold codes. by rewrite <- app_assoc, <- Permutation_cons_append.
    + split; [by apply insert_subseteq|]. split; [by rewrite lookup_insert_eq|done].
Qed.

Lemma select_glyphs_ok gs st ligs cs st' :
  alloc_ok st ligs -> select_glyphs st gs = Some (cs, st') ->
  alloc_ok st' ligs /\ selected_glyphs st ⊆ selected_glyphs st' /\
  Forall2 (fun g c => selected_glyphs st' !! g = Some c) gs cs /\ same_tables st st'.
Proof.
  revert st cs. induction gs as [|g gs IH]; intros st cs Ha; cbn [select_glyphs].
  - by intros [= <- <-].
  - intros ([c st1] & Hg & H)%bind_Some. apply bind_Some in H as ([cs' st2] & Hgs & [= <- <-]).
    destruct (select_glyph_ok _ _ _ _ _ Ha Hg) as (Ha1 & Hsub & Hc & [Ht1 Ht2]).
    destruct (IH _ _ Ha1 Hgs) as (Ha2 & Hsub' & Hcs & [Ht1' Ht2']).
    split; [done|]. split; [by etrans|]. split.
    + constructor; [|done]. by eapply lookup_weaken.
    + split; congruence.
Qed.

(** The ligatures of a key: none for a letter. *)
Definition key_ligature (ch : list Z) (t : Z) : list (Z * Z * Z) :=
  match ch with [a; b] => [(a, b, t)] | _ => [] end.

Definition key_codept (ch : list Z) (t : Z) : Prop :=
  match ch with [c] => t = c | [_; _] => True | _ => False end.

Lemma true_codept_ok st ligs ch t st' :
  alloc_ok st ligs -> ch <> [] -> true_codept_of st ch = Some (t, st') ->
  alloc_ok st' (ligs ++ key_ligature ch t) /\ selected_glyphs st' = selected_glyphs st /\
  lut_data st' = lut_data st /\
  lig_data st' = lig_data st ++ flat_map word_bytes (flat_map lig_words (key_ligature ch t)) /\
  Forall is_word (flat_map lig_words (key_ligature ch t)) /\ key_codept ch t.
Proof.
  intros Ha Hne. destruct ch as [|a [|b [|]]]; [done|..|done].
  - intros [= <- <-]. cbn. by rewrite !app_nil_r.
  - unfold true_codept_of. cbn [length Nat.leb]. intros ([r st1] & Hn & H)%bind_Some.
    apply bind_Some in H as (ls & Hls & H). apply bind_Some in H as (lr & Hlr & [= <- <-]).
    destruct Ha as [Hs Hp].
    destruct (next_codept_ok _ _ _ Hs Hn) as (Hs' & Hd & Hsel & [Ht1 Ht2]).
    assert (r ∈ scratch_codepoints) as Hr%scratch_bounds by (rewrite <- Hs', Hd; set_solver).
    assert (Z.lor r (Z.shiftl 1 15) = r + 32768) as Elor
      by (rewrite Z.lor_comm, lor_shiftl_add by lia; lia).
    rewrite Elor in Hlr. apply pack_H_Some in Hlr as [Hw ->].
    cbn [mapM option_bind] in Hls. destruct (pack_H a) as [ba|] eqn:Hba; [|done].
    destruct (pack_H b) as [bb|] eqn:Hbb; [|done]. injection Hls as <-.
    apply pack_H_Some in Hba as [Hwa ->], Hbb as [Hwb ->]. cbn [key_ligature].
    split; [split; [done|]|].
    + cbn. unfold codes. cbn. rewrite Hsel, Hd, Hp. unfold codes. rewrite fmap_app. cbn.
      rewrite <- !app_assoc. by rewrite (Permutation_app_comm _ [r]).
    + cbn. rewrite Ht1, Ht2, Hsel. split_and!; try done. by rewrite !Forall_cons, Forall_nil.
Qed.

(** ** The tables as they grow *)

(** The entry [e] was packed for the key and the glyphs [x]. *)
Definition made (sel : gmap Z Z) (ligs : list (Z * Z * Z)) (x : list Z * list Z) (e : ShaperLUTEntry)
    : Prop :=
  Forall2 (fun g f => sel !! g = Some f) x.2 (forms e) /\ key_codept x.1 (true_codept e) /\
  key_ligature x.1 (true_codept e) ⊆ ligs.

Record packed (st : pack_state) (done_ : list (list Z * list Z)) (ligs : list (Z * Z * Z))
    (es : list ShaperLUTEntry) : Prop := {
  packed_alloc : alloc_ok st ligs;
  packed_lut : lut_data st = flat_map entry_bytes es;
  packed_range : Forall entry_range es;
  packed_lig : lig_data st = flat_map word_bytes (flat_map lig_words ligs);
  packed_words : Forall is_word (flat_map lig_words ligs);
  packed_made : Forall2 (made (selected_glyphs st) ligs) done_ es;
  packed_ligs l : l ∈ ligs ->
    exists i gs e, done_ !! i = Some ([l.1.1; l.1.2], gs) /\ es !! i = Some e /\ true_codept e = l.2;
}.

Lemma made_mono sel sel' ligs ligs' x e :
  sel ⊆ sel' -> ligs ⊆ ligs' -> made sel ligs x e -> made sel' ligs' x e.
Proof.
  intros Hsel Hl (Hf & Hk & Hs). split; [|split; [done|set_solver]].
  eapply Forall2_impl; [exact Hf|]. intros g f Hgf. exact (lookup_weaken _ _ _ _ Hgf Hsel).
Qed.

Lemma pack_entry_ok st done_ ligs es x st' :
  packed st done_ ligs es -> x.1 <> [] -> pack_entry st x = Some st' ->
  exists ligs' e, packed st' (done_ ++ [x]) (ligs ++ ligs') (es ++ [e]).
Proof.
  intros [Ha Hlut Hr Hlig Hw Hm Hls] Hne H. unfold pack_entry in H.
  apply bind_Some in H as ([t st1] & Ht & H). apply bind_Some in H as ([cs st2] & Hg & H).
  apply bind_Some in H as (line & (e & Her & -> & Het & Hef)%pack_line_Some & [= <-]).
  destruct (true_codept_ok _ _ _ _ _ Ha Hne Ht) as (Ha1 & Hs1 & Hlut1 & Hlig1 & Hw1 & Hk).
  destruct (select_glyphs_ok _ _ _ _ _ Ha1 Hg) as (Ha2 & Hsub & Hcs & [Hlut2 Hlig2]).
  assert (length done_ = length es) as Hlen by by eapply Forall2_length.
  exists (key_ligature x.1 t), e.
  split; cbn [available_codepts selected_glyphs dirtied_codepts lut_data lig_data].
  - destruct Ha2. by split.
  - rewrite flat_map_app, Hlut2, Hlut1, Hlut. cbn [flat_map]. by rewrite app_nil_r.
  - apply Forall_app_2; [done|by apply Forall_cons_2].
  - by rewrite Hlig2, Hlig1, Hlig, !flat_map_app.
  - rewrite flat_map_app. by apply Forall_app_2.
  - apply Forall2_app; [|constructor; [|constructor]].
    + eapply Forall2_impl; [exact Hm|]. intros x' e'. apply made_mono; [by rewrite <- Hs1|set_solver].
    + split; [by rewrite Hef|]. rewrite Het. split; [done|set_solver].
  - intros l [Hl|Hl]%elem_of_app.
    + destruct (Hls l Hl) as (i & gs & e' & Hi & He' & El). exists i, gs, e'.
      split_and!; [by apply lookup_app_l_Some..|done].
    + exists (length done_), x.2, e. rewrite Hlen at 2. rewrite !list_lookup_middle by done.
      split_and!; [|done|].
      * destruct x as [[|a [|b [|]]] gs]; cbn in Hl; try by apply elem_of_nil in Hl.
        by apply list_elem_of_singleton in Hl as ->.
      * destruct x as [[|a [|b [|]]] gs]; cbn in Hl; try by apply elem_of_nil in Hl.
        by apply list_elem_of_singleton in Hl as ->.
Qed.

Lemma pack_entries_ok fs st done_ ligs es st' :
  packed st done_ ligs es -> Forall (fun x => x.1 <> []) fs -> pack_entries st fs = Some st' ->
  exists ligs' es', packed st' (done_ ++ fs) ligs' es'.
Proof.
  revert st done_ ligs es. induction fs as [|x fs IH]; intros st done_ ligs es Hp Hne;
    cbn [pack_entries].
  - intros [= <-]. rewrite app_nil_r. eauto.
  - apply Forall_cons in Hne as [Hx Hne]. intros (st1 & Hx1 & H)%bind_Some.
    destruct (pack_entry_ok _ _ _ _ _ _ Hp Hx Hx1) as (ligs1 & e & Hp1).
    rewrite (cons_middle x done_ fs), app_assoc. by eapply IH.
Qed.

Lemma packed_start : packed (mk_pack scratch_codepoints ∅ [] [] []) [] [] [].
Proof. split; try done. intros l Hl. by apply elem_of_nil in Hl. Qed.

(** ** Ranges *)

Lemma contiguous_from_spec vals first last cp :
  first <= last -> Sorted Z.le (last :: vals) ->
  in_ranges (write_range <$> contiguous_from first last vals) cp = true <->
  first <= cp <= last \/ cp ∈ vals.
Proof.
  revert first last. induction vals as [|v vals IH]; intros first last Hfl Hs; cbn [contiguous_from].
  - cbn. rewrite orb_false_r, RANGE_spec, elem_of_nil. cbn. lia.
  - apply Sorted_inv in Hs as [Hs Hle]. apply HdRel_inv in Hle.
    destruct (Z.eqb_spec (last + 1) v) as [<-|Hne].
    + rewrite IH by (done || lia). rewrite elem_of_cons.
      assert (first <= cp <= last + 1 <-> first <= cp <= last \/ cp = last + 1) as -> by lia. tauto.
    + cbn. rewrite orb_true_iff, RANGE_spec. fold (in_ranges (write_range <$> contiguous_from v v vals) cp).
      rewrite IH by (done || lia). cbn. rewrite elem_of_cons.
      assert (v <= cp <= v <-> cp = v) as -> by lia.
      assert (first <= cp < last + 1 <-> first <= cp <= last) as -> by lia. done.
Qed.

Lemma contiguous_ranges_spec vals rs cp :
  contiguous_ranges vals = Some rs -> in_ranges (write_range <$> rs) cp = true <-> cp ∈ vals.
Proof.
  unfold contiguous_ranges. pose proof (Sorted_merge_sort Z.le vals) as Hs.
  rewrite <- (merge_sort_Permutation Z.le vals) at 2.
  destruct (merge_sort Z.le vals) as [|v vs]; [done|]. intros [= <-].
  rewrite contiguous_from_spec by (done || lia). rewrite elem_of_cons.
  assert (v <= cp <= v <-> cp = v) as -> by lia. done.
Qed.

(** ** The alphabet *)

(** A letter of the alphabets of text_shaper.py: a right-to-left code point of the
    Arabic block that is not a mark, a digit or punctuation. *)
Definition letter_key (c : Z) : bool :=
  (RANGE c 0x60E 0x660 || RANGE c 0x66D 0x700) && negb (is_neutral c) && negb (is_weak_ltr c).

(** The keys of [forms]: letters, and ligatures of two letters that are keys. *)
Definition key_ok (keys : list (list Z)) (ch : list Z) : Prop :=
  match ch with
  | [c] => letter_key c = true
  | [a; b] => [a] ∈ keys /\ [b] ∈ keys
  | _ => False
  end.

Definition alphabet_ok (fs : list (list Z * list Z)) : Prop :=
  NoDup fs.*1 /\ Forall (key_ok fs.*1) fs.*1.

(** No glyph stands for two letters. *)
Definition unshared (fs : list (list Z * list Z)) : Prop :=
  forall x x' g, x ∈ fs -> x' ∈ fs -> g ∈ x.2 -> g ∈ x'.2 -> x = x'.

Lemma letter_key_bounds c : letter_key c = true -> 0x60E <= c < 0x700.
Proof.
  unfold letter_key. rewrite !andb_true_iff, orb_true_iff, !RANGE_spec. lia.
Qed.

Lemma letter_key_zw c : letter_key c = true -> is_zero_width c = false.
Proof.
  unfold letter_key. rewrite !andb_true_iff, !negb_true_iff. intros [[_ Hn] _].
  unfold is_neutral in Hn. by apply orb_false_iff in Hn as [_ ?].
Qed.

Lemma scratch_not_zw c : c ∈ scratch_codepoints -> is_zero_width c = false.
Proof.
  intros Hc%scratch_bounds. unfold is_zero_width, in_ranges, ZERO_WIDTH_CODEPOINT_RANGES.
  cbn [existsb fst snd]. rewrite !orb_false_iff, !RANGE_false. repeat split; lia.
Qed.

Section Generated.
Context (fs : list (list Z * list Z)) (st : pack_state) (ligs : list (Z * Z * Z))
  (es : list ShaperLUTEntry) (rs : list (Z * Z)).
Hypothesis Hpacked : packed st fs ligs es.
Hypothesis Hfs : alphabet_ok fs.
Hypothesis Hrs : contiguous_ranges (dirtied_codepts st) = Some rs.

#[local] Instance generated_tables : ShaperTables :=
  {| ARABIC_SHAPER_LUT := lut_data st; ARABIC_LIGATURE_LUT := lig_data st |}.
#[local] Instance generated_range : ShaperRange := write_range <$> rs.

Lemma generated_lut : shaper_lut ARABIC_SHAPER_LUT = es.
Proof. destruct Hpacked. cbn. rewrite packed_lut0. by apply shaper_lut_pack. Qed.

Lemma generated_ligature_lut : ligature_lut ARABIC_LIGATURE_LUT = flat_map lig_words ligs.
Proof. destruct Hpacked. cbn. rewrite packed_lig0. by apply ligature_lut_pack. Qed.

(** Where an entry comes from. *)
Lemma entry_key e :
  e ∈ es -> exists x, x ∈ fs /\ key_ok fs.*1 x.1 /\ made (selected_glyphs st) ligs x e.
Proof.
  intros [i Hi]%list_elem_of_lookup. destruct Hpacked, Hfs as [_ Hk].
  destruct (Forall2_lookup_r _ _ _ _ _ packed_made0 Hi) as (x & Hx & Hm).
  exists x. apply list_elem_of_lookup_2 in Hx. split; [done|]. split; [|done].
  rewrite Forall_forall in Hk. apply Hk. by apply list_elem_of_fmap_2.
Qed.

Lemma form_code e f : e ∈ es -> f ∈ forms e -> f ∈ (map_to_list (selected_glyphs st)).*2.
Proof.
  intros (x & _ & _ & Hf & _)%entry_key [i Hi]%list_elem_of_lookup.
  destruct (Forall2_lookup_r _ _ _ _ _ Hf Hi) as (g & _ & Hg).
  apply list_elem_of_fmap. exists (g, f). split; [done|]. by apply elem_of_map_to_list.
Qed.

Lemma form_scratch e f : e ∈ es -> f ∈ forms e -> f ∈ scratch_codepoints.
Proof.
  intros He Hf. destruct Hpacked. eapply alloc_scratch; [done|]. unfold codes.
  apply elem_of_app. right. by eapply form_code.
Qed.

Lemma lig_scratch l : l ∈ ligs -> l.2 ∈ scratch_codepoints.
Proof.
  intros Hl. destruct Hpacked. eapply alloc_scratch; [done|]. unfold codes.
  apply elem_of_app. left. by apply list_elem_of_fmap_2.
Qed.

(** A true code point is a letter of the alphabet or the code point of a ligature. *)
Lemma true_codept_cases e x :
  key_ok fs.*1 x.1 -> made (selected_glyphs st) ligs x e ->
  (x.1 = [true_codept e] /\ letter_key (true_codept e) = true) \/
  exists a b, x.1 = [a; b] /\ (a, b, true_codept e) ∈ ligs.
Proof.
  destruct x as [[|a [|b [|]]] gs]; cbn; [done|..|done].
  - intros Hk (_ & Ht & _). cbn in Ht. subst. by left.
  - intros _ (_ & _ & Hs). right. exists a, b. split; [done|]. apply Hs. cbn. set_solver.
Qed.

Lemma scratch_not_letter c : c ∈ scratch_codepoints -> letter_key c = false.
Proof.
  intros Hc%scratch_bounds. destruct (letter_key c) eqn:E; [|done]. apply letter_key_bounds in E. lia.
Qed.

(** Entries with the same true code point are the same. *)
Lemma entry_unique e e' : e ∈ es -> e' ∈ es -> true_codept e = true_codept e' -> e = e'.
Proof.
  intros [i Hi]%list_elem_of_lookup [j Hj]%list_elem_of_lookup Heq.
  pose proof (alloc_NoDup _ _ (packed_alloc _ _ _ _ Hpacked)) as Hnd.
  apply NoDup_app in Hnd as [Hnd _].
  pose proof (packed_made _ _ _ _ Hpacked) as Hm. destruct Hfs as [Hkeys Hks].
  destruct (Forall2_lookup_r _ _ _ _ _ Hm Hi) as (x & Hx & Hmx).
  destruct (Forall2_lookup_r _ _ _ _ _ Hm Hj) as (y & Hy & Hmy).
  rewrite Forall_forall in Hks.
  assert (key_ok fs.*1 x.1) as Hkx by (apply Hks; eapply list_elem_of_fmap_2, list_elem_of_lookup_2, Hx).
  assert (key_ok fs.*1 y.1) as Hky by (apply Hks; eapply list_elem_of_fmap_2, list_elem_of_lookup_2, Hy).
  assert (x.1 = y.1) as Hxy.
  { destruct (true_codept_cases e x Hkx Hmx) as [[Ex Lx]|(a & b & Ex & Lx)],
      (true_codept_cases e' y Hky Hmy) as [[Ey Ly]|(a' & b' & Ey & Ly)].
    - congruence.
    - apply lig_scratch, scratch_not_letter in Ly. cbn in Ly. congruence.
    - apply lig_scratch, scratch_not_letter in Lx. cbn in Lx. congruence.
    - apply list_elem_of_lookup in Lx as [k Lx], Ly as [k' Ly].
      assert (k = k') as ->.
      { eapply NoDup_lookup; [exact Hnd|..]; rewrite list_lookup_fmap; [by rewrite Lx|].
        rewrite Ly. cbn. by rewrite Heq. }
      congruence. }
  assert (i = j) as ->; [|congruence].
  eapply NoDup_lookup; [exact Hkeys|..]; rewrite list_lookup_fmap; [by rewrite Hx|].
  rewrite Hy. cbn. by rewrite Hxy.
Qed.

Lemma find_entry_complete (lut : list ShaperLUTEntry) e :
  e ∈ lut -> exists e', find_entry lut (true_codept e) = Some e' /\ e' ∈ lut /\ true_codept e' = true_codept e.
Proof.
  induction lut as [|e0 lut IH]; [by intros ?%elem_of_nil|]. cbn [find_entry].
  destruct (Z.eqb_spec (true_codept e0) (true_codept e)) as [E|E].
  - intros _. exists e0. split_and!; [done|by left|done].
  - intros [->|Hin]%elem_of_cons; [done|]. destruct (IH Hin) as (e' & ? & ? & ?).
    exists e'. split_and!; [done|by right|done].
Qed.

Lemma find_generated e : e ∈ es -> find_lut_entry_by_codept (true_codept e) = Some e.
Proof.
  intros He. rewrite find_lut_entry_eq, generated_lut.
  destruct (find_entry_complete es e He) as (e' & -> & He' & E). f_equal. by apply entry_unique.
Qed.

(** A letter of the alphabet has an entry. *)
Lemma find_letter c : [c] ∈ fs.*1 -> is_Some (find_lut_entry_by_codept c).
Proof.
  intros (x & Ex & [i Hi]%list_elem_of_lookup)%list_elem_of_fmap.
  pose proof (packed_made _ _ _ _ Hpacked) as Hm.
  destruct (Forall2_lookup_l _ _ _ _ _ Hm Hi) as (e & He & _ & Hk & _).
  rewrite <- Ex in Hk. cbn in Hk. exists e. rewrite <- Hk.
  apply find_generated. by eapply list_elem_of_lookup_2.
Qed.

(** ** The interfaces *)

(** Both letters of a ligature, and its own entry. *)
Lemma generated_ligature l :
  l ∈ ligs -> [l.1.1] ∈ fs.*1 /\ [l.1.2] ∈ fs.*1 /\ is_Some (find_lut_entry_by_codept l.2).
Proof.
  intros Hl. destruct Hfs as [_ Hks]. rewrite Forall_forall in Hks.
  destruct (packed_ligs _ _ _ _ Hpacked l Hl) as (i & gs & e & Hi & He & <-).
  assert (key_ok fs.*1 [l.1.1; l.1.2]) as [Ha Hb].
  { apply Hks, list_elem_of_fmap. eexists. split; [|by eapply list_elem_of_lookup_2]. done. }
  split_and!; [done..|]. exists e. apply find_generated. by eapply list_elem_of_lookup_2.
Qed.

Lemma letter_key_of c : [c] ∈ fs.*1 -> letter_key c = true.
Proof. intros Hc. destruct Hfs as [_ Hks]. rewrite Forall_forall in Hks. apply (Hks _ Hc). Qed.

Lemma true_codept_facts e :
  e ∈ es -> two_byte (true_codept e) /\ is_zero_width (true_codept e) = false.
Proof.
  intros (x & _ & Hk & Hm)%entry_key.
  destruct (true_codept_cases e x Hk Hm) as [[_ Hl]|(a & b & _ & Hl)].
  - split; [|by apply letter_key_zw]. apply letter_key_bounds in Hl. unfold two_byte. lia.
  - apply lig_scratch in Hl. split; [by apply scratch_two_byte|by apply scratch_not_zw].
Qed.

#[local] Instance generated_tables_ok : ShaperTablesOk.
Proof.
  refine {| ligatures := ligs |}.
  - apply generated_ligature_lut.
  - rewrite generated_lut, Forall_forall. intros e He. split; [by apply true_codept_facts|].
    rewrite Forall_forall. intros f Hf. by eapply scratch_two_byte, form_scratch.
  - rewrite Forall_forall. intros [[a b] r] Hl.
    destruct (generated_ligature _ Hl) as (Ha & Hb & Hr).
    split_and!; [by apply find_letter..|done|]. apply lig_scratch in Hl. by apply scratch_not_zw.
Defined.

Lemma generated_form_not_letter e f :
  e ∈ es -> f ∈ forms e -> find_lut_entry_by_codept f = None.
Proof.
  intros He Hf. destruct (find_lut_entry_by_codept f) as [e'|] eqn:E; [|done]. exfalso.
  rewrite find_lut_entry_eq, generated_lut in E. apply find_entry_Some in E as [He' E].
  pose proof (form_scratch _ _ He Hf) as Hs. pose proof (form_code _ _ He Hf) as Hcode.
  destruct (entry_key _ He') as (x & _ & Hk & Hm).
  destruct (true_codept_cases e' x Hk Hm) as [[_ Hl]|(a & b & _ & Hl)].
  - apply scratch_not_letter in Hs. congruence.
  - pose proof (alloc_NoDup _ _ (packed_alloc _ _ _ _ Hpacked)) as Hnd.
    apply NoDup_app in Hnd as (_ & Hdis & _). apply (Hdis f); [|done].
    rewrite <- E. apply (list_elem_of_fmap_2 snd _ (a, b, true_codept e')). done.
Qed.

Lemma generated_forms_ok : ShaperFormsOk.
Proof.
  split; rewrite generated_lut, Forall_forall; intros e He.
  - rewrite Forall_forall. intros f. by apply generated_form_not_letter.
  - by apply true_codept_facts.
Qed.

Lemma generated_range_spec c : ARABIC_SHAPER_RANGE c = true <-> c ∈ codes st ligs.
Proof.
  unfold ARABIC_SHAPER_RANGE, shapable_ranges, generated_range.
  rewrite (contiguous_ranges_spec _ _ _ Hrs).
  by rewrite (alloc_perm _ _ (packed_alloc _ _ _ _ Hpacked)).
Qed.

#[local] Instance generated_range_ok : ShaperRangeOk.
Proof.
  split. intros c Hc%generated_range_spec. apply scratch_bounds.
  by apply (alloc_scratch _ _ _ (packed_alloc _ _ _ _ Hpacked)).
Qed.

Lemma direction_letter_key c : letter_key c = true -> direction c = Some true.
Proof.
  intros Hl. pose proof (letter_key_bounds c Hl) as Hb. revert Hl. unfold letter_key, direction.
  rewrite u16_small by lia. rewrite !andb_true_iff, !negb_true_iff. intros [[Hr ->] ->].
  cbn [orb]. f_equal. unfold is_rtl. apply orb_true_iff in Hr.
  rewrite !RANGE_spec in Hr. rewrite !orb_true_iff, !RANGE_spec. tauto.
Qed.

Lemma generated_letters_rtl : LettersRtl.
Proof.
  split. rewrite generated_lut, Forall_forall. intros e He.
  destruct (entry_key _ He) as (x & _ & Hk & Hm).
  destruct (true_codept_cases e x Hk Hm) as [[_ Hl]|(a & b & _ & Hl)].
  - by apply direction_letter_key.
  - apply direction_scratch. apply generated_range_spec. pose proof (lig_scratch _ Hl) as Hs.
    cbn in Hs. apply scratch_bounds in Hs. rewrite u16_small by lia.
    unfold codes. apply elem_of_app. left. by apply (list_elem_of_fmap_2 snd) in Hl.
Qed.

(** Distinct glyphs have distinct code points. *)
Lemma glyph_unique g g' c :
  selected_glyphs st !! g = Some c -> selected_glyphs st !! g' = Some c -> g = g'.
Proof.
  pose proof (alloc_NoDup _ _ (packed_alloc _ _ _ _ Hpacked)) as Hnd.
  apply NoDup_app in Hnd as (_ & _ & Hnd). rewrite <- !elem_of_map_to_list.
  intros [n Hn]%list_elem_of_lookup [n' Hn']%list_elem_of_lookup.
  assert (n = n') as <-; [|congruence].
  eapply NoDup_lookup; [exact Hnd|..]; rewrite list_lookup_fmap; [by rewrite Hn|by rewrite Hn'].
Qed.

(** Without shared glyphs a shape belongs to one letter. *)
Lemma form_unique e e' f :
  unshared fs -> e ∈ es -> e' ∈ es -> f ∈ forms e -> f ∈ forms e' -> e = e'.
Proof.
  intros Hun [i Hi]%list_elem_of_lookup [j Hj]%list_elem_of_lookup
    [k Hk]%list_elem_of_lookup [k' Hk']%list_elem_of_lookup.
  pose proof (packed_made _ _ _ _ Hpacked) as Hm.
  destruct (Forall2_lookup_r _ _ _ _ _ Hm Hi) as (x & Hx & Hfx & _).
  destruct (Forall2_lookup_r _ _ _ _ _ Hm Hj) as (y & Hy & Hfy & _).
  destruct (Forall2_lookup_r _ _ _ _ _ Hfx Hk) as (g & Hg & Hsel).
  destruct (Forall2_lookup_r _ _ _ _ _ Hfy Hk') as (g' & Hg' & Hsel').
  assert (g = g') as <- by exact (glyph_unique _ _ _ Hsel Hsel').
  assert (x = y) as <- by (apply (Hun x y g); by eapply list_elem_of_lookup_2).
  assert (i = j) as <-; [|congruence]. destruct Hfs as [Hkeys _].
  eapply NoDup_lookup; [exact Hkeys|..]; rewrite list_lookup_fmap; [by rewrite Hx|by rewrite Hy].
Qed.

Lemma find_base_test e f :
  (isolated_codept e =? f) || (isolated_codept e + initial_codept_delta e =? f) ||
  (isolated_codept e + medial_codept_delta e =? f) ||
  (isolated_codept e + final_codept_delta e =? f) = true <-> f ∈ forms e.
Proof.
  unfold forms, iso, ini, med, fin. rewrite !orb_true_iff, !Z.eqb_eq, !elem_of_cons, elem_of_nil.
  intuition congruence.
Qed.

Lemma find_base_unique lut e f :
  e ∈ lut -> f ∈ forms e -> (forall e', e' ∈ lut -> f ∈ forms e' -> e' = e) ->
  find_base lut f = true_codept e.
Proof.
  intros He Hf. induction lut as [|e0 lut IH]; [by apply elem_of_nil in He|].
  intros Huniq. cbn [find_base]. destruct (_ || _) eqn:E.
  - apply find_base_test in E. by rewrite (Huniq e0) by (done || left).
  - apply IH; [|intros; apply Huniq; [by right|done]].
    apply elem_of_cons in He as [->|]; [|done]. apply find_base_test in Hf. congruence.
Qed.

(** Without shared glyphs a shape leads back to its letter. *)
Lemma generated_base e f :
  unshared fs -> e ∈ es -> f ∈ forms e -> find_base_codept_by_shaped f = true_codept e.
Proof.
  intros Hun He Hf. unfold find_base_codept_by_shaped. rewrite generated_lut.
  apply find_base_unique; [done..|]. intros e' He' Hf'. by eapply form_unique.
Qed.

Lemma generated_unshape_ok : unshared fs -> UnshapeTablesOk.
Proof.
  intros Hun. pose proof (alloc_NoDup _ _ (packed_alloc _ _ _ _ Hpacked)) as Hnd.
  apply NoDup_app in Hnd as (Hnd & _ & _). split.
  - rewrite generated_lut, Forall_forall. intros e He. rewrite Forall_forall. intros f Hf.
    apply generated_range_spec. unfold codes. apply elem_of_app. right. by eapply form_code.
  - rewrite generated_lut, Forall_forall. intros e He. rewrite Forall_forall. intros f Hf.
    by apply generated_base.
  - done.
  - rewrite Forall_forall. intros r Hr. apply generated_range_spec. apply elem_of_app. by left.
  - rewrite Forall_forall. intros l Hl. rewrite Forall_forall. intros l' Hl' E.
    destruct (generated_ligature _ Hl') as (Ha%letter_key_of & _ & _).
    apply lig_scratch, scratch_not_letter in Hl. congruence.
Qed.
End Generated.

(** ** The theorems *)

Lemma alphabet_ok_perm fs fs' : fs ≡ₚ fs' -> alphabet_ok fs -> alphabet_ok fs'.
Proof.
  intros Hp [Hnd Hk]. assert (fs.*1 ≡ₚ fs'.*1) as Hp1 by by rewrite Hp.
  split; [by rewrite <- Hp1|]. rewrite Forall_forall in Hk |- *. intros ch Hch.
  rewrite <- Hp1 in Hch. specialize (Hk ch Hch). revert Hk.
  destruct ch as [|a [|b [|]]]; cbn; try done. by rewrite Hp1.
Qed.

Lemma unshared_perm fs fs' : fs ≡ₚ fs' -> unshared fs -> unshared fs'.
Proof. intros Hp Hu x x' g. rewrite <- !Hp. apply Hu. Qed.

Lemma key_not_empty keys ch : key_ok keys ch -> ch <> [].
Proof. by destruct ch. Qed.

Lemma pack_lut_packed fs st :
  alphabet_ok fs -> pack_lut fs = Some st ->
  exists fs' ligs es, fs' ≡ₚ fs /\ packed st fs' ligs es.
Proof.
  intros Hfs Hst. unfold pack_lut in Hst.
  pose proof (merge_sort_Permutation (fun a b => Is_true (str_le a.1 b.1)) fs) as Hp.
  symmetry in Hp.
  pose proof (alphabet_ok_perm _ _ Hp Hfs) as [_ Hk].
  rewrite Forall_fmap in Hk.
  destruct (pack_entries_ok _ _ _ _ _ _ packed_start
    (Forall_impl _ _ _ Hk (fun x Hx => key_not_empty _ _ Hx)) Hst) as (ligs & es & Hpk).
  eexists _, ligs, es. split; [symmetry; exact Hp|exact Hpk].
Qed.

(** C5: the tables that [pack_lut] packs for an alphabet of right-to-left letters and
    two-letter ligatures of them fulfil every assumption that the theorems about the
    shaper make: lookups find each letter, shapes are two-byte runes of the scratch
    blocks that are no letters themselves, and [ARABIC_SHAPER_RANGE] covers exactly
    them; if no two letters share a glyph, shaping can be undone. *)
Theorem pack_lut_fulfils_interface fs st rs :
  alphabet_ok fs -> pack_lut fs = Some st -> contiguous_ranges (dirtied_codepts st) = Some rs ->
  let tables := {| ARABIC_SHAPER_LUT := lut_data st; ARABIC_LIGATURE_LUT := lig_data st |} in
  let range : ShaperRange := write_range <$> rs in
  exists ok : @ShaperTablesOk tables,
    @ShaperFormsOk tables /\ @ShaperRangeOk range /\ @LettersRtl tables range /\
    (unshared fs -> @UnshapeTablesOk tables ok range).
Proof.
  intros Hfs Hst Hrs tables range.
  destruct (pack_lut_packed fs st Hfs Hst) as (fs' & ligs & es & Hp & Hpk). symmetry in Hp.
  pose proof (alphabet_ok_perm _ _ Hp Hfs) as Hfs'.
  exists (generated_tables_ok fs' st ligs es rs Hpk Hfs' Hrs).
  split; [by eapply generated_forms_ok|]. split; [by eapply generated_range_ok|].
  split; [by eapply generated_letters_rtl|]. intros Hun. apply generated_unshape_ok.
  by apply (unshared_perm fs).
Qed.

(** C4: with generated tables in which no two letters share a glyph, shaping and then
    undoing it gives back every text of 16-bit code points outside of the scratch
    blocks: the generator and the runtime agree end to end. *)
Theorem generated_tables_round_trip fs st rs oob uninit p cps tail m :
  alphabet_ok fs -> unshared fs -> pack_lut fs = Some st ->
  contiguous_ranges (dirtied_codepts st) = Some rs ->
  0 < p -> Forall (fun c => 1 <= c < 65536 /\ c ∉ scratch_codepoints) cps ->
  holds m p (encode cps ++ 0 :: tail) ->
  let tables := {| ARABIC_SHAPER_LUT := lut_data st; ARABIC_LIGATURE_LUT := lig_data st |} in
  (@shape_text tables oob uninit p;; @unshape_text tables (write_range <$> rs) p) m = Ok tt m.
Proof.
  intros Hfs Hun Hst Hrs Hp Hcps Hm tables.
  destruct (pack_lut_packed fs st Hfs Hst) as (fs' & ligs & es & Hperm & Hpk). symmetry in Hperm.
  pose proof (alphabet_ok_perm _ _ Hperm Hfs) as Hfs'.
  apply (unshared_perm fs fs' Hperm) in Hun.
  set (ok := generated_tables_ok fs' st ligs es rs Hpk Hfs' Hrs).
  pose proof (generated_range_ok fs' st ligs es rs Hpk Hrs) as Hrange.
  pose proof (generated_unshape_ok fs' st ligs es rs Hpk Hfs' Hrs Hun) as Hunshape.
  assert (Forall (@shapeable tables) cps) as Hsh.
  { eapply Forall_impl; [exact Hcps|]. intros c [Hc _]. unfold shapeable, is_codept.
    rewrite u16_small by lia. lia. }
  assert (Forall (fun c => @ARABIC_SHAPER_RANGE (write_range <$> rs) (u16 c) = false) cps) as Hout.
  { eapply Forall_impl; [exact Hcps|]. intros c [Hc Hs]. cbn beta. rewrite u16_small by lia.
    destruct (@ARABIC_SHAPER_RANGE _ c) eqn:E; [|done]. exfalso. apply Hs.
    eapply alloc_scratch; [exact (packed_alloc _ _ _ _ Hpk)|].
    by eapply generated_range_spec. }
  rewrite <- Hm. rewrite (bind_ok _ _ _ _ _ (shape_text_runes oob uninit p cps tail m Hp Hsh)).
  rewrite (restores p cps tail _ Hsh Hout (holds_put _ _ _)). f_equal. apply put_put.
  by rewrite !length_app, (replaces_encode _ _ (shape_runes_replaces cps Hsh)).
Qed.

(** ** A concrete alphabet *)

(** beh, alef, lam, tatweel and lam-alef, with glyph numbers. *)
Definition example_forms : list (list Z * list Z) :=
  [([0x644; 0x627], [30; 30; 31; 31]); ([0x628], [1; 2; 3; 4]); ([0x627], [5; 5; 6; 6]);
   ([0x644], [7; 8; 9; 10]); ([0x640], [11; 11; 11; 11])].

Definition example_packed : pack_state :=
  default (mk_pack [] ∅ [] [] []) (pack_lut example_forms).

Lemma example_alphabet_ok : alphabet_ok example_forms.
Proof.
  split; [by apply (bool_decide_unpack _); vm_compute|].
  repeat (apply Forall_cons_2; [cbn; try (by vm_compute); set_solver|]). apply Forall_nil_2.
Qed.

Lemma example_unshared : unshared example_forms.
Proof.
  intros x x' g Hx Hx' Hg Hg'. unfold example_forms in *.
  rewrite !elem_of_cons, elem_of_nil in Hx, Hx'. destruct_or! Hx; destruct_or! Hx'; subst; try done;
    cbn in Hg, Hg'; rewrite !elem_of_cons, elem_of_nil in Hg, Hg'; lia.
Qed.

Theorem pack_lut_fulfils_interface_witness :
  let tables := {| ARABIC_SHAPER_LUT := lut_data example_packed;
                   ARABIC_LIGATURE_LUT := lig_data example_packed |} in
  let range : ShaperRange := write_range <$> [(0x700, 0x70D)] in
  exists ok : @ShaperTablesOk tables,
    @ShaperFormsOk tables /\ @ShaperRangeOk range /\ @LettersRtl tables range /\
    (unshared example_forms -> @UnshapeTablesOk tables ok range).
Proof.
  apply (pack_lut_fulfils_interface example_forms example_packed [(0x700, 0x70D)]);
    [apply example_alphabet_ok|by vm_compute|by vm_compute].
Defined.

Theorem generated_tables_round_trip_witness :
  let tables := {| ARABIC_SHAPER_LUT := lut_data example_packed;
                   ARABIC_LIGATURE_LUT := lig_data example_packed |} in
  let m := put 100 (encode [0x628; 0x644; 0x627; 32; 0x1F00] ++ 0 :: []) ∅ in
  (@shape_text tables 0 0 100;; @unshape_text tables (write_range <$> [(0x700, 0x70D)]) 100) m =
  Ok tt m.
Proof.
  apply (generated_tables_round_trip example_forms example_packed [(0x700, 0x70D)] 0 0 100
    [0x628; 0x644; 0x627; 32; 0x1F00] []);
    [apply example_alphabet_ok|apply example_unshared|by vm_compute|by vm_compute|done|
     by apply (bool_decide_unpack _); vm_compute|apply holds_put].
Defined.
