(* ===== verification/PackLutProps.v ===== *)
(** * When the tables can be packed

    [pack_lut] raises an exception exactly when the scratch blocks have too few code points, if
    no two letters share a glyph: the differences of the shapes always fit their bytes. *)

From stdpp Require Import sorting gmap.
From S2P Require Import Prelude Memory Utf8 Ranges Shaper ShaperSpec LutGen LutGenProps.

(** ** Glyphs that have no code point yet *)

Fixpoint fresh (known : gset Z) (gs : list Z) : nat :=
  match gs with
  | [] => 0
  | g :: gs => if decide (g ∈ known) then fresh known gs else S (fresh ({[g]} ∪ known) gs)
  end.

Lemma fresh_size known gs : fresh known gs = size (list_to_set gs ∖ known).
Proof.
  revert known. induction gs as [|g gs IH]; intros known; cbn [fresh list_to_set].
  { assert ((∅ : gset Z) ∖ known = ∅) as -> by set_solver. by rewrite size_empty. }
  case_decide as Hg; rewrite IH.
  - f_equal. set_solver.
  - replace (({[g]} ∪ list_to_set gs) ∖ known) with ({[g]} ∪ (list_to_set gs ∖ ({[g]} ∪ known)))
      by (apply set_eq; intros x; destruct (decide (x = g)); set_solver).
    rewrite (size_union {[g]}), size_singleton; [done|set_solver].
Qed.

(** A code point for every fresh glyph, or too few of them. *)
Lemma select_glyphs_fresh st gs :
  match select_glyphs st gs with
  | Some (cs, st') => available_codepts st' = drop (fresh (dom (selected_glyphs st)) gs) (available_codepts st) /\
      dom (selected_glyphs st') = list_to_set gs ∪ dom (selected_glyphs st) /\
      (fresh (dom (selected_glyphs st)) gs <= length (available_codepts st))%nat /\ length cs = length gs
  | None => (length (available_codepts st) < fresh (dom (selected_glyphs st)) gs)%nat
  end.
Proof.
  revert st. induction gs as [|g gs IH]; intros st; cbn [select_glyphs fresh].
  { split_and!; [done|set_solver|lia|done]. }
  unfold select_glyph. destruct (selected_glyphs st !! g) as [c|] eqn:Eg; cbn [mbind option_bind].
  - assert (g ∈ dom (selected_glyphs st)) as Hg by (apply elem_of_dom; by eexists). rewrite decide_True by done.
    specialize (IH st). destruct (select_glyphs st gs) as [[cs st']|]; cbn [mbind option_bind]; [|done].
    destruct IH as (-> & -> & ? & Hl). split_and!; [done|set_solver|done|cbn; by rewrite Hl].
  - assert (g ∉ dom (selected_glyphs st)) as Hg by by apply not_elem_of_dom. rewrite decide_False by done.
    unfold next_codept. destruct (available_codepts st) as [|c av] eqn:Ea; cbn [mbind option_bind length]; [lia|].
    specialize (IH (mk_pack av (<[g := c]> (selected_glyphs st)) (dirtied_codepts st ++ [c]) (lut_data st) (lig_data st))).
    cbn [available_codepts selected_glyphs dirtied_codepts lut_data lig_data] in *. rewrite dom_insert_L in IH.
    destruct (select_glyphs _ gs) as [[cs st']|]; cbn [mbind option_bind]; [|lia].
    destruct IH as (-> & -> & ? & Hl). split_and!; [done|set_solver|lia|cbn; by rewrite Hl].
Qed.

(** New code points come from the next available ones. *)
Lemma select_glyphs_window (W : list Z) st gs cs st' : select_glyphs st gs = Some (cs, st') ->
  (forall g c, g ∈ gs -> selected_glyphs st !! g = Some c -> c ∈ W) ->
  (forall c, c ∈ take (length gs) (available_codepts st) -> c ∈ W) -> Forall (fun c => c ∈ W) cs.
Proof.
  revert st cs. induction gs as [|g gs IH]; intros st cs; cbn [select_glyphs]; [by intros [= <- <-]|].
  intros ([c st1] & Hg & ([cs' st2] & Hgs & [= <- <-])%bind_Some)%bind_Some Hold Hnew.
  unfold select_glyph in Hg. destruct (selected_glyphs st !! g) as [c'|] eqn:Eg.
  - injection Hg as -> ->. constructor; [by eapply (Hold g); [left|]|]. apply (IH _ _ Hgs).
    + intros g' c0 Hg'. apply Hold. by right.
    + intros c0 Hc0. apply Hnew. cbn [length]. destruct (available_codepts st1) as [|a av]; [by destruct (length gs)|].
      apply list_elem_of_lookup in Hc0 as [i Hi].
      apply lookup_take_Some in Hi as [Hi Hlt]. apply (list_elem_of_lookup_2 _ i). apply lookup_take_Some. split; [done|lia].
  - unfold next_codept in Hg. destruct (available_codepts st) as [|a av] eqn:Ea; [done|]. injection Hg as <- <-.
    cbn [length take] in Hnew. assert (a ∈ W) as Ha by (apply Hnew; left). constructor; [done|]. apply (IH _ _ Hgs); cbn.
    + intros g' c0 Hg' [[_ <-]|[_ Hs]]%lookup_insert_Some; [done|]. apply (Hold g'); [by right|done].
    + intros c0 Hc0. apply Hnew. by right.
Qed.

(** ** One entry *)

(** How many code points a letter or ligature takes. *)
Definition ligature_need (ch : list Z) : nat := if (length ch =? 2)%nat then 1 else 0.
Definition need (x : list Z * list Z) : nat := (size (list_to_set x.2 : gset Z) + ligature_need x.1)%nat.

(** Code points that are next to each other in the scratch blocks are not far apart. *)
Lemma scratch_window k : Forall (fun c => 0 <= c - default 0 (head (drop k scratch_codepoints)) <= 51 /\ is_word c)
  (take 4 (drop k scratch_codepoints)).
Proof.
  destruct (decide (k < 208)%nat) as [Hk|Hk].
  - assert (Forall (fun k => Forall (fun c => 0 <= c - default 0 (head (drop k scratch_codepoints)) <= 51 /\ 0 <= c < 65536)
      (take 4 (drop k scratch_codepoints))) (seq 0 208)) as H by (apply (bool_decide_unpack _); vm_compute; exact I).
    rewrite Forall_forall in H. apply H. apply elem_of_seq. lia.
  - rewrite drop_ge; [constructor|]. change (length scratch_codepoints) with 208%nat. lia.
Qed.

Lemma pack_H_ok w : is_word w -> pack_H w = Some (word_bytes w).
Proof. unfold is_word, pack_H. intros H. destruct (Z.leb_spec 0 w), (Z.ltb_spec w 65536); try lia. done. Qed.

Lemma pack_b_ok d : is_int8 d -> pack_b d = Some [int8_byte d].
Proof. unfold is_int8, pack_b. intros H. destruct (Z.leb_spec (-128) d), (Z.ltb_spec d 128); try lia. done. Qed.

Lemma pack_line_ok t a cs : is_word t -> length cs = 4%nat -> Forall (fun c => 0 <= c - a <= 51 /\ is_word c) cs ->
  is_Some (pack_line (t :: deltas cs)).
Proof.
  intros Ht Hl H. destruct cs as [|c0 [|c1 [|c2 [|c3 [|]]]]]; try done.
  rewrite !Forall_cons in H. destruct H as ([H0 Hw] & [H1 _] & [H2 _] & [H3 _] & _).
  cbn. rewrite !pack_H_ok by done. cbn. rewrite !pack_b_ok by (unfold is_int8; lia).
  by eexists.
Qed.

(** A key whose letters are words. *)
Definition key_words (ch : list Z) : Prop := (length ch = 1 \/ length ch = 2)%nat /\ Forall is_word ch.

Lemma true_codept_need st ch : dirtied_codepts st ++ available_codepts st = scratch_codepoints -> key_words ch ->
  match true_codept_of st ch with
  | Some (t, st1) => available_codepts st1 = drop (ligature_need ch) (available_codepts st) /\
      (ligature_need ch <= length (available_codepts st))%nat /\ selected_glyphs st1 = selected_glyphs st /\ is_word t
  | None => (length (available_codepts st) < ligature_need ch)%nat
  end.
Proof.
  intros Hs [[Hl|Hl] Hw]; unfold ligature_need; rewrite Hl; destruct ch as [|a [|b [|]]]; try done; cbn [Nat.eqb drop].
  { cbn [true_codept_of]. apply Forall_cons in Hw as [Hw _]. split_and!; [done|lia|done|done]. }
  unfold true_codept_of. cbn [length Nat.leb]. unfold next_codept.
  destruct (available_codepts st) as [|c av] eqn:Ea; cbn [mbind option_bind length]; [lia|].
  apply Forall_cons in Hw as [Ha Hw]. apply Forall_cons in Hw as [Hb _].
  cbn [mapM]. rewrite (pack_H_ok a), (pack_H_ok b) by done. cbn [mbind option_bind mret option_ret].
  assert (c ∈ scratch_codepoints) as Hc%scratch_bounds by (rewrite <- Hs; apply elem_of_app; right; left).
  assert (Z.lor c (Z.shiftl 1 15) = c + 32768) as ->.
  { rewrite Z.lor_comm, lor_shiftl_add by lia. lia. }
  rewrite pack_H_ok by (unfold is_word; lia). cbn. split_and!; [done|lia|done|unfold is_word; lia].
Qed.

Lemma pack_entry_need st x : dirtied_codepts st ++ available_codepts st = scratch_codepoints ->
  key_words x.1 -> length x.2 = 4%nat -> (forall g, g ∈ x.2 -> selected_glyphs st !! g = None) ->
  match pack_entry st x with
  | Some st' => length (available_codepts st') = (length (available_codepts st) - need x)%nat /\
      (need x <= length (available_codepts st))%nat /\ dom (selected_glyphs st') = list_to_set x.2 ∪ dom (selected_glyphs st)
  | None => (length (available_codepts st) < need x)%nat
  end.
Proof.
  intros Hs Hk Hl Hnew. unfold pack_entry, need. pose proof (true_codept_need st x.1 Hs Hk) as Ht.
  destruct (true_codept_of st x.1) as [[t st1]|]; cbn [mbind option_bind]; [|lia]. destruct Ht as (Ha1 & Hle & Hsel & Hword).
  pose proof (select_glyphs_fresh st1 x.2) as Hg. rewrite Hsel, Ha1, length_drop in Hg.
  assert (fresh (dom (selected_glyphs st)) x.2 = size (list_to_set x.2 : gset Z)) as Hf.
  { rewrite fresh_size. f_equal. apply set_eq. intros g. rewrite elem_of_difference, elem_of_list_to_set, elem_of_dom.
    split; [by intros []|]. intros Hg'. split; [done|]. rewrite (Hnew g Hg'). by intros []. }
  rewrite Hf in Hg. destruct (select_glyphs st1 x.2) as [[cs st2]|] eqn:E; cbn [mbind option_bind]; [|lia].
  destruct Hg as (Ha2 & Hdom & Hle2 & Hcs).
  assert (available_codepts st1 = drop (length (dirtied_codepts st) + ligature_need x.1) scratch_codepoints) as Hdrop.
  { rewrite Ha1, <- Hs. by rewrite <- drop_drop, drop_app_length. }
  pose proof (scratch_window (length (dirtied_codepts st) + ligature_need x.1)) as Hwin. rewrite <- Hdrop in Hwin.
  assert (Forall (fun c => c ∈ take 4 (available_codepts st1)) cs) as HW.
  { apply (select_glyphs_window _ _ _ _ _ E).
    - intros g c Hg. rewrite Hsel, (Hnew g Hg). done.
    - by rewrite Hl. }
  assert (is_Some (pack_line (t :: deltas cs))) as [line ->].
  { eapply pack_line_ok; [done|by rewrite Hcs|]. eapply Forall_impl; [exact HW|]. intros c Hc.
    rewrite Forall_forall in Hwin. by apply Hwin. }
  cbn. rewrite Ha2, !length_drop. split_and!; [lia|lia|done].
Qed.

(** ** All entries *)

Definition total_need (fs : list (list Z * list Z)) : nat := sum_list_with need fs.

Lemma pack_entries_need fs st done_ ligs es : packed st done_ ligs es ->
  dom (selected_glyphs st) = list_to_set (concat done_.*2) -> NoDup (done_ ++ fs) -> unshared (done_ ++ fs) ->
  Forall (fun x => key_words x.1 /\ length x.2 = 4%nat) fs ->
  match pack_entries st fs with
  | Some _ => (total_need fs <= length (available_codepts st))%nat
  | None => (length (available_codepts st) < total_need fs)%nat
  end.
Proof.
  revert st done_ ligs es. induction fs as [|x fs IH]; intros st done_ ligs es Hp Hdom Hnd Hun HF; cbn [pack_entries].
  { cbn. lia. }
  apply Forall_cons in HF as [[Hk Hl] HF]. assert (x.1 <> []) as Hne by (destruct Hk as [[Hk|Hk] _]; by destruct x.1).
  pose proof (alloc_split _ _ (packed_alloc _ _ _ _ Hp)) as Hs.
  assert (forall g, g ∈ x.2 -> selected_glyphs st !! g = None) as Hnew.
  { intros g Hg. apply not_elem_of_dom. rewrite Hdom, elem_of_list_to_set. intros Hin.
    apply list_elem_of_In, in_concat in Hin as (gs & Hgs%list_elem_of_In & Hin%list_elem_of_In).
    apply list_elem_of_fmap in Hgs as (y & -> & Hy).
    assert (x = y) as -> by (apply (Hun x y g); [apply elem_of_app; right; left|apply elem_of_app; by left|done..]).
    apply NoDup_app in Hnd as (_ & Hd & _). apply (Hd y Hy). left. }
  pose proof (pack_entry_need st x Hs Hk Hl Hnew) as Hx. unfold total_need in *. cbn [sum_list_with].
  destruct (pack_entry st x) as [st1|] eqn:E; cbn [mbind option_bind]; [|lia]. destruct Hx as (Ha & Hle & Hd).
  destruct (pack_entry_ok _ _ _ _ _ _ Hp Hne E) as (ligs1 & e & Hp1).
  rewrite (cons_middle x done_ fs), app_assoc in Hnd, Hun.
  assert (dom (selected_glyphs st1) = list_to_set (concat (done_ ++ [x]).*2)) as Hdom1.
  { rewrite Hd, Hdom, fmap_app, concat_app, list_to_set_app_L. cbn. rewrite app_nil_r. set_solver. }
  specialize (IH st1 _ _ _ Hp1 Hdom1 Hnd Hun HF). rewrite Ha in IH. destruct (pack_entries st1 fs); lia.
Qed.

Lemma alphabet_words fs : alphabet_ok fs -> forall x, x ∈ fs -> key_words x.1.
Proof.
  intros [_ Hk] x Hx%(list_elem_of_fmap_2 fst). rewrite Forall_forall in Hk.
  assert (forall c, [c] ∈ fs.*1 -> is_word c) as Hw.
  { intros c Hc%Hk. cbn in Hc. apply letter_key_bounds in Hc. unfold is_word. lia. }
  specialize (Hk _ Hx). unfold key_words. destruct x.1 as [|a [|b [|]]] eqn:E; cbn in Hk; try done.
  - split; [by left|]. rewrite Forall_singleton. by apply Hw.
  - destruct Hk as [Ha Hb]. split; [by right|]. by repeat constructor; apply Hw.
Qed.

(** C21: When every letter and ligature of an alphabet has four forms and no two of them share a glyph, the
    tables cannot be packed exactly when they need more than the 208 code points of the scratch
    blocks: one for each glyph and one for each ligature.  In particular the differences
    between the shapes of a letter always fit a signed byte. *)
Theorem pack_lut_fails fs : alphabet_ok fs -> unshared fs -> Forall (fun x => length x.2 = 4%nat) fs ->
  pack_lut fs = None <-> (208 < total_need fs)%nat.
Proof.
  intros Hok Hun Hl. unfold pack_lut.
  set (fs' := merge_sort (fun a b => Is_true (str_le a.1 b.1)) fs).
  assert (fs' ≡ₚ fs) as Hp by apply merge_sort_Permutation.
  assert (total_need fs' = total_need fs) as <-.
  { unfold total_need. clear -Hp. induction Hp; cbn; lia. }
  pose proof (pack_entries_need fs' (mk_pack scratch_codepoints ∅ [] [] []) [] [] [] packed_start) as H.
  cbn [app fmap list_fmap concat available_codepts selected_glyphs] in H.
  change (length scratch_codepoints) with 208%nat in H.
  assert (NoDup fs') as Hnd.
  { rewrite Hp. destruct Hok as [Hnd _]. by eapply NoDup_fmap_1. }
  specialize (H dom_empty_L Hnd (unshared_perm fs fs' ltac:(by symmetry) Hun)).
  assert (Forall (fun x => key_words x.1 /\ length x.2 = 4%nat) fs') as HF.
  { rewrite Hp, Forall_forall. rewrite Forall_forall in Hl. intros x Hx. split; [by apply (alphabet_words fs)|by apply Hl]. }
  specialize (H HF). destruct (pack_entries _ fs') as [st|]; split; intros; try done; lia.
Qed.

Lemma pack_lut_fails_witness : is_Some (pack_lut example_forms) /\
  pack_lut ((fun c => ([c], [4 * c; 4 * c + 1; 4 * c + 2; 4 * c + 3])) <$> seqZ 0x671 60) = None.
Proof.
  split.
  - destruct (pack_lut example_forms) eqn:E; [by eexists|]. exfalso.
    apply (pack_lut_fails example_forms example_alphabet_ok example_unshared) in E; [vm_compute in E; lia|].
    repeat constructor.
  - vm_compute. reflexivity.
Defined.

(** A glyph that two letters share may be too far away from the other shapes of the second one: the
    difference does not fit, although there are enough code points. *)
Definition far_forms : list (list Z * list Z) :=
  ((fun c => ([c], [4 * c; 4 * c + 1; 4 * c + 2; 4 * c + 3])) <$> seqZ 0x671 40) ++ [([0x6cc], [1; 2; 3; 4 * 0x671])].

Example shared_glyph_too_far : pack_lut far_forms = None /\
  (size (list_to_set (concat far_forms.*2) : gset Z) <= 208)%nat.
Proof. split; [vm_compute; reflexivity|]. apply Nat.leb_le. vm_compute. reflexivity. Qed.
