(* ===== verification/ShaperScriptProps.v ===== *)
(** * What text_shaper.py writes: theorems

    The alphabets of the platforms are such alphabets as the theorems about the tables ask
    for, and the map for the fonts leads from the shapes in the tables to the glyphs
    that hb-shape gave for them. *)

From stdpp Require Import sorting strings.
From S2P Require Import Prelude Memory Utf8 Ranges Shaper ShaperSpec ShaperRefine ShaperProps Unshape LutGen LutGenProps.

(** ** The forms of an alphabet *)

Section Forms.
Context (hb_shape : list Z -> list Z) (missing_glyph : option Z) (kashida_glyph : Z).

#[local] Abbreviation ch_forms := (ch_forms hb_shape missing_glyph kashida_glyph).

Lemma set_forms_new forms ch gs : ch ∉ forms.*1 -> set_forms forms ch gs = forms ++ [(ch, gs)].
Proof.
  induction forms as [|[ch' gs'] forms IH]; [done|]. cbn. rewrite not_elem_of_cons. intros [Hne Hn].
  rewrite decide_False by congruence. by rewrite IH.
Qed.

(** Every key has its forms, in the order of the alphabet. *)
Lemma generate_forms_from_spec chs forms fs : NoDup (forms.*1 ++ chs) ->
  generate_forms_from hb_shape missing_glyph kashida_glyph forms chs = Some fs ->
  exists new, fs = forms ++ new /\ Forall2 (fun ch x => x.1 = ch /\ ch_forms ch = Some x.2) chs new.
Proof.
  revert forms. induction chs as [|ch chs IH]; intros forms Hnd; cbn [generate_forms_from].
  { intros [= <-]. exists []. by rewrite app_nil_r. }
  intros (gs & Hg & H)%bind_Some. rewrite set_forms_new in H.
  2:{ apply NoDup_app in Hnd as (_ & Hd & _). intros Hin%Hd. apply Hin. left. }
  apply IH in H as (new & -> & Hnew).
  - exists ((ch, gs) :: new). split; [by rewrite <- app_assoc|]. by constructor.
  - by rewrite fmap_app, <- app_assoc.
Qed.

Lemma forms_keys chs (fs : list (list Z * list Z)) :
  Forall2 (fun ch x => x.1 = ch /\ ch_forms ch = Some x.2) chs fs -> fs.*1 = chs.
Proof. induction 1 as [|ch x chs fs [<- _] _ IH]; [done|]. by rewrite fmap_cons, IH. Qed.

(** ** The alphabets *)

#[local] Instance key_ok_dec keys ch : Decision (key_ok keys ch).
Proof. destruct ch as [|a [|b [|]]]; cbn; apply _. Defined.

(** The keys of the forms of an alphabet. *)
Definition alphabet_keys (alphabet : list Z) : list (list Z) := ((fun c => [c]) <$> alphabet) ++ shaped_ligatures.

Lemma subset_keys_ok subset_key alphabet : subsets subset_key = Some alphabet ->
  NoDup (alphabet_keys alphabet) /\ Forall (key_ok (alphabet_keys alphabet)) (alphabet_keys alphabet).
Proof.
  unfold subsets. do 2 (case_decide; [intros [= <-]; split; apply (bool_decide_unpack _); vm_compute; exact I|]). done.
Qed.

Lemma generate_forms_spec subset_key alphabet fs : subsets subset_key = Some alphabet ->
  generate_forms hb_shape missing_glyph kashida_glyph alphabet shaped_ligatures = Some fs ->
  Forall2 (fun ch x => x.1 = ch /\ ch_forms ch = Some x.2) (alphabet_keys alphabet) fs /\ alphabet_ok fs.
Proof.
  intros [Hnd Hk]%subset_keys_ok H. apply generate_forms_from_spec in H as (new & -> & H); [|exact Hnd].
  split; [exact H|]. unfold alphabet_ok. cbn [app]. by rewrite (forms_keys _ _ H).
Qed.
End Forms.

(** ** The map for the fonts *)

Definition injective (m : gmap Z Z) : Prop := forall g g' c, m !! g = Some c -> m !! g' = Some c -> g = g'.

Lemma selected_codepts_spec m g c : injective m -> selected_codepts m !! c = Some g <-> m !! g = Some c.
Proof.
  intros Hi. unfold selected_codepts.
  assert (NoDup ((fun item : Z * Z => (item.2, item.1)) <$> map_to_list m).*1) as Hnd.
  { rewrite <- list_fmap_compose. apply NoDup_fmap_2_strong; [|apply NoDup_map_to_list].
    intros [k v] [k' v'] Hk%elem_of_map_to_list Hk'%elem_of_map_to_list E. cbn in E. subst v'.
    by rewrite (Hi _ _ _ Hk Hk'). }
  rewrite <- elem_of_list_to_map by done. rewrite list_elem_of_fmap. split.
  - intros ([k v] & [= -> ->] & H). by apply elem_of_map_to_list.
  - intros H. exists (g, c). split; [done|]. by apply elem_of_map_to_list.
Qed.

Section Supplement.
Context (hb_shape : list Z -> list Z) (missing_glyph : option Z).

(** The glyph of a code point that is not shaped. *)
Definition own_glyph (ch : Z) : option Z := head (hb_shape [ch]).

Lemma font_shape_text_Some txt glyphs : font_shape_text hb_shape missing_glyph txt = Some glyphs -> glyphs = hb_shape txt.
Proof. unfold font_shape_text. case_match; [done|]. by intros [= <-]. Qed.

Lemma supplement_step ch alphabet sel sel' :
  supplement_selected_glyphs hb_shape missing_glyph sel (ch :: alphabet) = Some sel' ->
  exists glyph, own_glyph ch = Some glyph /\
    supplement_selected_glyphs hb_shape missing_glyph (<[glyph := ch]> sel) alphabet = Some sel'.
Proof.
  cbn. intros (glyphs & ->%font_shape_text_Some & (glyph & Hg & H)%bind_Some)%bind_Some. by exists glyph.
Qed.

Lemma supplement_old alphabet sel sel' g c : supplement_selected_glyphs hb_shape missing_glyph sel alphabet = Some sel' ->
  sel !! g = Some c -> (forall ch, ch ∈ alphabet -> own_glyph ch <> Some g) -> sel' !! g = Some c.
Proof.
  revert sel. induction alphabet as [|ch alphabet IH]; intros sel; [by intros [= <-]|].
  intros (glyph & Hg & H)%supplement_step Hc Hn. apply (IH _ H).
  - rewrite lookup_insert_ne; [done|]. intros ->. apply (Hn ch); [left|done].
  - intros ch' Hin. apply Hn. by right.
Qed.

Lemma supplement_new alphabet sel sel' ch : supplement_selected_glyphs hb_shape missing_glyph sel alphabet = Some sel' ->
  ch ∈ alphabet -> NoDup (own_glyph <$> alphabet) -> exists g, own_glyph ch = Some g /\ sel' !! g = Some ch.
Proof.
  revert sel. induction alphabet as [|ch' alphabet IH]; intros sel; [by intros _ ?%elem_of_nil|].
  intros (glyph & Hg & H)%supplement_step Hin [Hn Hnd]%NoDup_cons. apply elem_of_cons in Hin as [->|Hin]; [|by apply (IH _ H)].
  exists glyph. split; [done|]. eapply supplement_old; [exact H|apply lookup_insert_eq|].
  intros ch Hin E. apply Hn. rewrite Hg, <- E. by apply list_elem_of_fmap_2.
Qed.

Lemma supplement_elem alphabet sel sel' g c : supplement_selected_glyphs hb_shape missing_glyph sel alphabet = Some sel' ->
  sel' !! g = Some c -> sel !! g = Some c \/ c ∈ alphabet.
Proof.
  revert sel. induction alphabet as [|ch alphabet IH]; intros sel; [intros [= <-]; by left|].
  intros (glyph & _ & H)%supplement_step Hc. destruct (IH _ H Hc) as [[[_ <-]|[_ Hs]]%lookup_insert_Some|Hin].
  - right. left.
  - by left.
  - right. by right.
Qed.

Lemma supplement_injective alphabet sel sel' : supplement_selected_glyphs hb_shape missing_glyph sel alphabet = Some sel' ->
  injective sel -> NoDup alphabet -> (forall g c, sel !! g = Some c -> c ∉ alphabet) -> injective sel'.
Proof.
  revert sel. induction alphabet as [|ch alphabet IH]; intros sel; [by intros [= <-]|].
  intros (glyph & _ & H)%supplement_step Hi [Hn Hnd]%NoDup_cons Hd. apply (IH _ H); [|done|].
  - intros g g' c [[<- <-]|[Hg1 Hg]]%lookup_insert_Some [[<- E]|[Hg1' Hg']]%lookup_insert_Some; try done.
    + by apply Hd in Hg' as Hx; destruct Hx; left.
    + subst c. by apply Hd in Hg as Hx; destruct Hx; left.
    + by apply (Hi _ _ c).
  - intros g c [[_ <-]|[_ Hg]]%lookup_insert_Some; [done|]. intros Hin. apply (Hd g c Hg). by right.
Qed.
End Supplement.

(** ** The map and the tables *)

(** The glyphs that hb-shape gives for the forms of a letter or ligature. *)
Definition letter_forms (hb_shape : list Z -> list Z) (ch : list Z) : option (list Z) :=
  missing_glyph ← head (hb_shape missing_text);
  kashida_glyph ← head (hb_shape [kashida]);
  ch_forms hb_shape (Some missing_glyph) kashida_glyph ch.

(** No code point that is not shaped takes the glyph of a form away. *)
Definition supplements_apart (hb_shape : list Z -> list Z) (alphabet : list Z) : Prop :=
  forall ch key gs g, ch ∈ supplemental_alphabet -> key ∈ alphabet_keys alphabet ->
    letter_forms hb_shape key = Some gs -> g ∈ gs -> own_glyph hb_shape ch <> Some g.

Definition output_tables (out : shaper_output) : ShaperTables :=
  {| ARABIC_SHAPER_LUT := out_lut out; ARABIC_LIGATURE_LUT := out_lig out |}.

Section Output.
Context (hb_shape : list Z -> list Z) (subset_key : string) (out : shaper_output).

#[local] Instance the_tables : ShaperTables := output_tables out.

(** The steps of the script. *)
Record written (alphabet : list Z) (fs : list (list Z * list Z)) (st : pack_state) (ligs : list (Z * Z * Z))
    (es : list ShaperLUTEntry) (rs : list (Z * Z)) (sel : gmap Z Z) : Prop := {
  written_subset : subsets subset_key = Some alphabet;
  written_keys : fs.*1 ≡ₚ alphabet_keys alphabet;
  written_forms x : x ∈ fs -> letter_forms hb_shape x.1 = Some x.2;
  written_alphabet : alphabet_ok fs;
  written_packed : packed st fs ligs es;
  written_ranges : contiguous_ranges (dirtied_codepts st) = Some rs;
  written_glyphs : exists missing_glyph,
    supplement_selected_glyphs hb_shape missing_glyph (selected_glyphs st) supplemental_alphabet = Some sel;
  written_out : out = mk_shaper_output (lut_data st) (lig_data st) (write_range <$> rs) (selected_codepts sel);
}.

Lemma text_shaper_written : text_shaper hb_shape subset_key = Some out ->
  exists alphabet fs st ligs es rs sel, written alphabet fs st ligs es rs sel.
Proof.
  unfold text_shaper. intros (alphabet & Ha & H)%bind_Some. destruct (forallb _ _); [|done].
  apply bind_Some in H as (missing & ->%font_shape_text_Some & (missing_glyph & Hm & H)%bind_Some).
  apply bind_Some in H as (ks & ->%font_shape_text_Some & (kashida_glyph & Hk & H)%bind_Some).
  apply bind_Some in H as (fs0 & Hfs & (st & Hst & (rs & Hrs & (sel & Hsel & [= <-])%bind_Some)%bind_Some)%bind_Some).
  destruct (generate_forms_spec _ _ _ _ _ _ Ha Hfs) as [HF Hok].
  destruct (pack_lut_packed fs0 st Hok Hst) as (fs & ligs & es & Hp & Hpk). symmetry in Hp.
  exists alphabet, fs, st, ligs, es, rs, sel. split; [done| | |by apply (alphabet_ok_perm fs0)|done|done|by eexists|done].
  - rewrite <- Hp. by rewrite (forms_keys _ _ _ _ _ HF).
  - intros x Hx. rewrite <- Hp in Hx. apply list_elem_of_lookup in Hx as [i Hi].
    destruct (Forall2_lookup_r _ _ _ _ _ HF Hi) as (ch & _ & -> & Hg).
    unfold letter_forms. by rewrite Hm, Hk.
Qed.

Section Written.
Context (alphabet : list Z) (fs : list (list Z * list Z)) (st : pack_state) (ligs : list (Z * Z * Z))
  (es : list ShaperLUTEntry) (rs : list (Z * Z)) (sel : gmap Z Z).
Hypothesis Hw : written alphabet fs st ligs es rs sel.

Lemma output_lut : shaper_lut (out_lut out) = es.
Proof using Hw. destruct Hw as [_ _ _ _ Hp _ _ ->]. exact (generated_lut fs st ligs es Hp). Qed.

Lemma output_ok : exists ok : ShaperTablesOk, ShaperFormsOk.
Proof using Hw.
  destruct Hw as [_ _ _ Ha Hp Hr _ Ho]. unfold the_tables. rewrite Ho. exists (generated_tables_ok fs st ligs es rs Hp Ha Hr).
  by eapply generated_forms_ok.
Qed.

Lemma selected_injective : injective sel.
Proof using Hw.
  destruct Hw as [_ _ _ Ha Hp _ [m Hs] _]. apply (supplement_injective _ _ _ _ _ Hs).
  - intros g g' c. exact (glyph_unique fs st ligs es Hp g g' c).
  - apply (bool_decide_unpack _). vm_compute. exact I.
  - intros g c Hg. assert (c ∈ scratch_codepoints) as Hc%scratch_bounds.
    { eapply alloc_scratch; [exact (packed_alloc _ _ _ _ Hp)|]. unfold codes. apply elem_of_app. right.
      apply list_elem_of_fmap. exists (g, c). split; [done|]. by apply elem_of_map_to_list. }
    unfold supplemental_alphabet. rewrite !not_elem_of_cons, elem_of_nil. lia.
Qed.

Lemma output_map_sel g c : out_map out !! c = Some g <-> sel !! g = Some c.
Proof using Hw. pose proof selected_injective as Hi. destruct Hw as [_ _ _ _ _ _ _ ->]. by apply selected_codepts_spec. Qed.

(** The map has the scratch code points that are used, and what is not shaped. *)
Lemma output_map_keys c g : out_map out !! c = Some g -> c ∈ scratch_codepoints \/ c ∈ supplemental_alphabet.
Proof using Hw.
  rewrite output_map_sel. destruct Hw as [_ _ _ _ Hp _ [m Hs] _].
  intros [Hg|Hin]%(supplement_elem _ _ _ _ _ _ _ Hs); [|by right]. left.
  eapply alloc_scratch; [exact (packed_alloc _ _ _ _ Hp)|]. unfold codes. apply elem_of_app. right.
  apply list_elem_of_fmap. exists (g, c). split; [done|]. by apply elem_of_map_to_list.
Qed.

(** The shapes of an entry have the glyphs that it was made of. *)
Lemma made_shown x e : supplements_apart hb_shape alphabet -> x ∈ fs -> made (selected_glyphs st) ligs x e ->
  x.1 ∈ alphabet_keys alphabet /\ letter_forms hb_shape x.1 = Some x.2 /\
  Forall2 (fun f g => out_map out !! f = Some g) (forms e) x.2.
Proof using Hw.
  intros Hapart Hx (Hf & _). pose proof Hw as [_ Hkeys Hforms _ _ _ [m Hs] _].
  assert (x.1 ∈ alphabet_keys alphabet) as Hch by (rewrite <- Hkeys; by apply list_elem_of_fmap_2).
  specialize (Hforms _ Hx). split; [done|]. split; [done|].
  assert (forall g, g ∈ x.2 -> forall c, c ∈ supplemental_alphabet -> own_glyph hb_shape c <> Some g) as Hg.
  { intros g Hg c Hc. by apply (Hapart c x.1 x.2 g). }
  clear -Hw Hf Hs Hg. induction Hf as [|g f gs fl Hgf _ IH]; [constructor|]. constructor.
  - apply output_map_sel. apply (supplement_old _ _ _ _ _ _ _ Hs Hgf). apply Hg. left.
  - apply IH. intros g' Hg'. apply Hg. by right.
Qed.

(** The entry of a letter or ligature. *)
Lemma letter_shown c : supplements_apart hb_shape alphabet -> c ∈ alphabet ->
  exists e gs, find_lut_entry_by_codept c = Some e /\ letter_forms hb_shape [c] = Some gs /\
    Forall2 (fun f g => out_map out !! f = Some g) (forms e) gs.
Proof using Hw.
  intros Hapart Hc. pose proof Hw as [_ Hkeys _ Ha Hp Hr _ Ho].
  assert ([c] ∈ fs.*1) as Hch.
  { rewrite Hkeys. apply elem_of_app. left. by apply (list_elem_of_fmap_2 (fun c => [c])). }
  apply list_elem_of_fmap in Hch as (x & Ex & Hx). pose proof Hx as [i Hi]%list_elem_of_lookup.
  destruct (Forall2_lookup_l _ _ _ _ _ (packed_made _ _ _ _ Hp) Hi) as (e & He & Hm).
  destruct (made_shown x e Hapart Hx Hm) as (_ & Hf & Hs). rewrite <- Ex in Hf. exists e, x.2. split_and!; [|done..].
  destruct Hm as (_ & Hk & _). rewrite <- Ex in Hk. cbn in Hk. rewrite <- Hk. unfold the_tables. rewrite Ho.
  eapply find_generated; [done|done|done|]. by eapply list_elem_of_lookup_2.
Qed.

(** What is not shaped has its own glyph, if no two of them have the same. *)
Lemma supplement_shown ch : NoDup (own_glyph hb_shape <$> supplemental_alphabet) -> ch ∈ supplemental_alphabet ->
  exists g, own_glyph hb_shape ch = Some g /\ out_map out !! ch = Some g.
Proof using Hw.
  intros Hnd Hin. pose proof Hw as [_ _ _ _ _ _ [m Hs] _].
  destruct (supplement_new _ _ _ _ _ ch Hs Hin Hnd) as (g & Hg & Hsel). exists g. split; [done|]. by apply output_map_sel.
Qed.
End Written.
End Output.

(** ** A font *)

(** A font whose letters have glyphs of their own: four for each letter, by the kashidas next to
    it, and four for lam-alef. *)
Definition example_hb_shape (txt : list Z) : list Z :=
  if bool_decide (txt = missing_text) then [0]
  else match txt with
       | [c] => if c =? kashida then [1] else [4 * c]
       | [a; b] => if a =? kashida then [1; 4 * b + 3] else if b =? kashida then [4 * a + 1; 1] else [40000]
       | [a; b; c] =>
           if a =? kashida then if c =? kashida then [1; 4 * b + 2; 1] else [1; 40003] else [40001; 1]
       | _ => [1; 40002; 1]
       end.

Definition example_output : shaper_output :=
  default (mk_shaper_output [] [] [] ∅) (text_shaper example_hb_shape "arabic").

Lemma example_text_shaper : text_shaper example_hb_shape "arabic" = Some example_output.
Proof. vm_compute. reflexivity. Qed.

Lemma supplements_apart_check hb_shape alphabet :
  forallb (fun key => match letter_forms hb_shape key with
    | Some gs => forallb (fun ch => bool_decide (Forall (fun g => own_glyph hb_shape ch <> Some g) gs)) supplemental_alphabet
    | None => true
    end) (alphabet_keys alphabet) = true -> supplements_apart hb_shape alphabet.
Proof.
  intros H ch key gs g Hch Hkey Hf Hg. rewrite forallb_forall in H. apply list_elem_of_In in Hkey. specialize (H _ Hkey).
  rewrite Hf, forallb_forall in H. apply list_elem_of_In in Hch. specialize (H _ Hch). apply bool_decide_eq_true in H.
  rewrite Forall_forall in H. by apply H.
Qed.

Lemma example_apart : supplements_apart example_hb_shape subset_arabic.
Proof. apply supplements_apart_check. vm_compute. reflexivity. Qed.
