(* ===== verification/ScriptText.v ===== *)
(** * The glyphs of a shaped text (fonts/text_shaper.py and runtime/text_shaper.c)

    A text is spelled with letters and ligatures of an alphabet, marks and other code points ([spell]),
    which have forms in a font ([letter_forms]).  [shaped_glyphs]: with the tables of the script, the
    shaper leaves for every letter and ligature the code point under which the script's map
    has the glyph of the form that its place in the word asks for, and all else as it was.  Neither
    the spelling nor the form speaks of the tables. *)

From stdpp Require Import sorting strings.
From S2P Require Import Prelude Memory Utf8 Ranges Shaper ShaperSpec ShaperRefine ShaperProps ShaperForms Unshape.
From S2P Require Import LutGen LutGenProps ShaperScriptProps.

(** ** Spelling *)

(** The letters, ligatures and other code points of a text; the first letter of a ligature leaves a mark. *)
Fixpoint spell (cps : list Z) : list (list Z) :=
  match cps with
  | [] => []
  | a :: rest =>
      match rest with
      | b :: rest' =>
          if bool_decide ([a; b] ∈ shaped_ligatures) then [ZERO_WIDTH_CODEPT] :: [a; b] :: spell rest'
          else [a] :: spell rest
      | [] => [[a]]
      end
  end.

Section Units.
Context (hb_shape : list Z -> list Z) (alphabet : list Z).

(** A letter or ligature with a kashida on the sides where it is joined. *)
Definition with_kashidas (form : bool * bool) (u : list Z) : list Z :=
  (if form.1 then [kashida] else []) ++ u ++ (if form.2 then [kashida] else []).

(** The glyph that the font has for it, beside those of the kashidas. *)
Definition joined_glyph (form : bool * bool) (u : list Z) : option Z :=
  kashida_glyph ← head (hb_shape [kashida]);
  if decide (u = [kashida]) then Some kashida_glyph
  else match filter (fun g => g <> kashida_glyph) (hb_shape (with_kashidas form u)) with [g] => Some g | _ => None end.

(** A letter whose medial and final glyphs are the same, and not the isolated one, joins only to the
    letter before. *)
Definition joins_right_only (u : list Z) : bool :=
  bool_decide (joined_glyph (true, true) u = joined_glyph (true, false) u /\
    joined_glyph (true, false) u <> joined_glyph (false, false) u).

Definition unit_kind (u : list Z) : kind :=
  if match u with [c] => is_zero_width c | _ => false end then Mark
  else if bool_decide (u ∈ alphabet_keys alphabet) then Letter (joins_right_only u)
  else Other.

(** The glyph of the letter at a place of a text. *)
Definition letter_glyph (us : list (list Z)) (i : nat) (u : list Z) : option Z := joined_glyph (form_at (unit_kind <$> us) i) u.

(** The forms of the script are those. *)
Lemma letter_forms_joined u gs : letter_forms hb_shape u = Some gs -> exists g0 g1 g2 g3, gs = [g0; g1; g2; g3] /\
  joined_glyph (false, false) u = Some g0 /\ joined_glyph (false, true) u = Some g1 /\
  joined_glyph (true, true) u = Some g2 /\ joined_glyph (true, false) u = Some g3.
Proof.
  intros (missing & _ & (k & Hk & H)%bind_Some)%bind_Some. unfold ch_forms, ch_comps in H.
  assert (forall form comp g, comp = with_kashidas form u -> target_glyph hb_shape (Some missing) k u comp = Some g ->
    joined_glyph form u = Some g) as Hg.
  { intros form comp g -> Hg. unfold target_glyph in Hg. unfold joined_glyph. rewrite Hk. cbn [mbind option_bind].
    case_decide; [done|]. by apply bind_Some in Hg as (gl & ->%font_shape_text_Some & Hg). }
  apply mapM_Some in H. apply Forall2_cons_inv_l in H as (g0 & ? & H0 & (g1 & ? & H1 & (g2 & ? & H2 & (g3 & ? & H3 &
    ->%Forall2_nil_inv_l & ->)%Forall2_cons_inv_l & ->)%Forall2_cons_inv_l & ->)%Forall2_cons_inv_l & ->).
  exists g0, g1, g2, g3. split; [done|].
  split_and!; eapply Hg; try done; unfold with_kashidas; cbn [fst snd]; by rewrite ?app_nil_r.
Qed.
End Units.

(** ** The tables of the script *)

Lemma lig_of_elem ligs a b r : Forall (fun l => l.2 <> 0) ligs -> (a, b, r) ∈ ligs ->
  (a, b, lig_of ligs a b) ∈ ligs /\ lig_of ligs a b <> 0.
Proof.
  induction 1 as [|[[a' b'] r'] ligs Hr _ IH]; [by intros ?%elem_of_nil|]. cbn [lig_of].
  destruct (Z.eqb_spec a' a) as [->|Ha], (Z.eqb_spec b' b) as [->|Hb]; cbn [andb]; [by split; [left|]|..];
    (intros [E|Hin]%elem_of_cons; [by simplify_eq|]; destruct (IH Hin); split; [by right|done]).
Qed.

Lemma lig_of_found ligs a b : lig_of ligs a b <> 0 -> (a, b, lig_of ligs a b) ∈ ligs.
Proof.
  induction ligs as [|[[a' b'] r'] ligs IH]; [done|]. cbn [lig_of].
  destruct (Z.eqb_spec a' a) as [->|Ha], (Z.eqb_spec b' b) as [->|Hb]; cbn [andb]; [by left|..]; intros H; right; by apply IH.
Qed.

Lemma ligate_from_alone `{ShaperTables} c rest : (forall b, lig c b = 0) -> ligate_from c rest = c :: ligate rest.
Proof. intros Hn. destruct rest as [|b rest]; [done|]. cbn [ligate_from ligate]. by rewrite Hn. Qed.

Section Tables.
Context (hb_shape : list Z -> list Z) (subset_key : string) (out : shaper_output).
Context (alphabet : list Z) (fs : list (list Z * list Z)) (st : pack_state) (ligs : list (Z * Z * Z))
  (es : list ShaperLUTEntry) (rs : list (Z * Z)) (sel : gmap Z Z).
Hypothesis Hw : written hb_shape subset_key out alphabet fs st ligs es rs sel.
Hypothesis Hapart : supplements_apart hb_shape alphabet.

#[local] Instance tables : ShaperTables := output_tables out.

(** A code point of a text: none of those that the tables use. *)
Definition plain (c : Z) : Prop := 1 <= c < 65536 /\ c ∉ scratch_codepoints.

Lemma lig_tables a b : 0 <= a < 65536 -> 0 <= b < 65536 -> lig a b = lig_of ligs a b.
Proof using Hw.
  intros Ha Hb. destruct Hw as [_ _ _ Hok Hp Hr _ Ho]. unfold tables. rewrite Ho.
  refine (eq_trans (@lig_eq _ (generated_tables_ok fs st ligs es rs Hp Hok Hr) a b) _). by rewrite !u16_small.
Qed.

Lemma ligs_keys a b r : (a, b, r) ∈ ligs -> [a; b] ∈ shaped_ligatures /\ r ∈ scratch_codepoints /\
  exists e gs, letter r = Some e /\ letter_forms hb_shape [a; b] = Some gs /\
    Forall2 (fun f g => out_map out !! f = Some g) (forms e) gs.
Proof using Hw Hapart.
  intros Hl. pose proof Hw as [_ Hkeys _ Hok Hp Hr _ Ho].
  pose proof (lig_scratch fs st ligs es Hp _ Hl) as Hs. cbn in Hs.
  destruct (packed_ligs _ _ _ _ Hp _ Hl) as (i & gs & e & Hi & He & Ht). cbn in Hi, Ht.
  destruct (Forall2_lookup_l _ _ _ _ _ (packed_made _ _ _ _ Hp) Hi) as (e' & He' & Hm).
  rewrite He in He'. injection He' as <-.
  destruct (made_shown _ _ _ _ _ _ _ _ _ _ Hw _ e Hapart (list_elem_of_lookup_2 _ _ _ Hi) Hm) as (Hk & Hf & Hg).
  split; [|split; [done|]].
  - apply elem_of_app in Hk as [(c & E & _)%list_elem_of_fmap|Hk]; [done|exact Hk].
  - exists e, gs. split_and!; [|done..]. unfold letter. apply scratch_bounds in Hs. rewrite u16_small by lia. rewrite <- Ht.
    unfold tables. rewrite Ho. eapply find_generated; [done|done|done|]. by eapply list_elem_of_lookup_2.
Qed.

(** Two letters are a ligature in the table if they are one in the font. *)
Lemma lig_spelled a b : 0 <= a < 65536 -> 0 <= b < 65536 -> lig a b <> 0 <-> [a; b] ∈ shaped_ligatures.
Proof using Hw Hapart.
  intros Ha Hb. rewrite lig_tables by done. split; [by intros (? & _)%lig_of_found%ligs_keys|].
  intros Hl. pose proof Hw as [_ Hkeys _ Hok Hp _ _ _].
  assert ([a; b] ∈ fs.*1) as ((k & gs) & Ek & [i Hi]%list_elem_of_lookup)%list_elem_of_fmap
    by (rewrite Hkeys; apply elem_of_app; by right). cbn in Ek. subst k.
  destruct (Forall2_lookup_l _ _ _ _ _ (packed_made _ _ _ _ Hp) Hi) as (e & _ & _ & _ & Hs).
  cbn in Hs. apply (lig_of_elem _ _ _ (true_codept e)); [|apply Hs; left].
  apply Forall_forall. intros [[a' b'] r] (_ & Hr%scratch_bounds & _)%ligs_keys. cbn. lia.
Qed.

(** ** Units and code points *)

Inductive unit_code : list Z -> Z -> Prop :=
| unit_one c : plain c -> unit_code [c] c
| unit_ligature a b r : (a, b, r) ∈ ligs -> unit_code [a; b] r.

Lemma zero_width_plain : plain ZERO_WIDTH_CODEPT.
Proof. split; [vm_compute; split; congruence|]. intros H%scratch_bounds. revert H. vm_compute. intros [[H _]|[H _]]; by apply H. Qed.

Lemma ligature_starts_none a b r x : (a, b, r) ∈ ligs -> 0 <= x < 65536 -> lig r x = 0.
Proof using Hw Hapart.
  intros (_ & Hr%scratch_bounds & _)%ligs_keys Hx. destruct (Z.eqb_spec (lig r x) 0) as [|Hne]; [done|].
  apply lig_spelled in Hne; [|lia|done]. apply list_elem_of_singleton in Hne. injection Hne as -> _. lia.
Qed.

Lemma ligate_units cps : Forall plain cps -> Forall2 unit_code (spell cps) (ligate cps).
Proof using Hw Hapart.
  remember (length cps) as n eqn:Hn. revert cps Hn. induction (Nat.lt_wf_0 n) as [n _ IH]. intros cps -> Hcps.
  destruct Hcps as [|a rest Ha Hcps]; [constructor|]. destruct Hcps as [|b rest Hb Hcps]; [constructor; [by apply unit_one|constructor]|].
  cbn [spell ligate ligate_from]. pose proof (lig_spelled a b ltac:(destruct Ha; lia) ltac:(destruct Hb; lia)) as Hl.
  destruct (Z.eqb_spec (lig a b) 0) as [E|Hne].
  - rewrite bool_decide_false by (rewrite <- Hl; by intros []). constructor; [by apply unit_one|].
    change (Forall2 unit_code (spell (b :: rest)) (ligate (b :: rest))).
    apply (IH (length (b :: rest)) ltac:(cbn; lia)); [done|]. by constructor.
  - rewrite bool_decide_true by by apply Hl. constructor; [apply unit_one, zero_width_plain|].
    rewrite lig_tables in Hne |- * by (destruct Ha, Hb; lia). apply lig_of_found in Hne as Hin.
    assert (ligate_from (lig_of ligs a b) rest = lig_of ligs a b :: ligate rest) as ->.
    { destruct Hcps as [|x rest [Hx _] _]; [done|]. cbn [ligate_from]. by rewrite (ligature_starts_none a b) by (done || lia). }
    constructor; [by apply unit_ligature|]. apply (IH (length rest) ltac:(cbn; lia)); done.
Qed.

(** What a unit is in the font, its code point is in the tables. *)
Lemma unit_letter u c : unit_code u c ->
  match letter c with
  | Some e => u ∈ alphabet_keys alphabet /\ exists gs, letter_forms hb_shape u = Some gs /\
      Forall2 (fun f g => out_map out !! f = Some g) (forms e) gs
  | None => u ∉ alphabet_keys alphabet
  end.
Proof using Hw Hapart.
  pose proof Hw as [_ _ _ Hok Hp Hr _ Ho]. intros [c' [Hc Hs]|a b r Hl].
  - destruct (letter c') as [e|] eqn:E.
    + apply letter_entry in E as [He Ht]. rewrite u16_small in Ht by lia.
      change (e ∈ shaper_lut (out_lut out)) in He. rewrite (output_lut _ _ _ _ _ _ _ _ _ _ Hw) in He.
      destruct (entry_key fs st ligs es Hp Hok e He) as (x & Hx & Hk & Hm).
      destruct (made_shown _ _ _ _ _ _ _ _ _ _ Hw x e Hapart Hx Hm) as (Hin & Hf & Hg).
      destruct (true_codept_cases fs st ligs es rs Hp Hok Hr e x Hk Hm) as [[Ex _]|(a & b & _ & Hl)].
      * rewrite Ht in Ex. rewrite Ex in Hin, Hf. split; [done|]. by exists x.2.
      * apply ligs_keys in Hl as (_ & Hl & _). by rewrite Ht in Hl.
    + intros [(c1 & [= <-] & Hin)%list_elem_of_fmap|Hin%list_elem_of_singleton]%elem_of_app; [|done].
      destruct (letter_shown _ _ _ _ _ _ _ _ _ _ Hw c' Hapart Hin) as (e & _ & He & _).
      unfold letter in E. rewrite u16_small in E by lia. change (find_lut_entry_by_codept c' = Some e) in He. congruence.
  - destruct (ligs_keys _ _ _ Hl) as (Hk & _ & e & gs & -> & Hf & Hg). split; [apply elem_of_app; by right|]. by exists gs.
Qed.

Lemma unit_mark u c : unit_code u c -> zw c = match u with [c'] => is_zero_width c' | _ => false end.
Proof using Hw Hapart.
  intros [c' [Hc _]|a b r (_ & Hr & _)%ligs_keys]; unfold zw.
  - by rewrite u16_small by lia.
  - pose proof (scratch_bounds _ Hr). rewrite u16_small by lia. by apply scratch_not_zw.
Qed.

(** The shapes of an entry have the glyphs of its letter. *)
Lemma joined_shape_glyph e u gs form : letter_forms hb_shape u = Some gs ->
  Forall2 (fun f g => out_map out !! f = Some g) (forms e) gs ->
  exists g, joined_glyph hb_shape form u = Some g /\ out_map out !! joined_shape form e = Some g.
Proof using.
  intros (g0 & g1 & g2 & g3 & -> & H0 & H1 & H2 & H3)%letter_forms_joined Hf. unfold forms in Hf.
  apply Forall2_cons in Hf as [F0 [F1 [F2 [F3 _]%Forall2_cons]%Forall2_cons]%Forall2_cons].
  destruct form as [[] []]; eauto.
Qed.

(** The glyphs say whether a letter joins on both sides. *)
Lemma right_only_glyphs e u gs : letter_forms hb_shape u = Some gs ->
  Forall2 (fun f g => out_map out !! f = Some g) (forms e) gs -> right_joining e = joins_right_only hb_shape u.
Proof using Hw.
  intros Hu H. assert (forall form form', joined_shape form e = joined_shape form' e <->
    joined_glyph hb_shape form u = joined_glyph hb_shape form' u) as Hinj.
  { intros form form'. destruct (joined_shape_glyph e u gs form Hu H) as (g & -> & Hg).
    destruct (joined_shape_glyph e u gs form' Hu H) as (g' & -> & Hg'). split; [intros E; congruence|intros [= ->]].
    apply (output_map_sel _ _ _ _ _ _ _ _ _ _ Hw) in Hg, Hg'. congruence. }
  unfold right_joining, joins_right_only. apply eq_bool_prop_intro.
  rewrite andb_True, negb_True, bool_decide_spec, !Is_true_true, !Z.eqb_eq, <- !Hinj. unfold joined_shape, med, fin, iso. lia.
Qed.

Lemma unit_code_kind u c : unit_code u c -> unit_kind hb_shape alphabet u = code_kind c.
Proof using Hw Hapart.
  intros Hu. unfold unit_kind, code_kind. rewrite (unit_mark u c Hu).
  destruct (match u with [c'] => is_zero_width c' | _ => false end); [done|]. pose proof (unit_letter u c Hu) as Hl.
  destruct (letter c) as [e|].
  - destruct Hl as (Hin & gs & Hf & Hg). rewrite bool_decide_true by done. by rewrite (right_only_glyphs e u gs Hf Hg).
  - by rewrite bool_decide_false.
Qed.

(** ** The shaped text *)

Lemma shaped_units cps i u c : Forall plain cps -> spell cps !! i = Some u -> shape_runes cps !! i = Some c ->
  match unit_kind hb_shape alphabet u with
  | Letter _ => exists g, letter_glyph hb_shape alphabet (spell cps) i u = Some g /\ out_map out !! c = Some g
  | _ => u = [c]
  end.
Proof using Hw Hapart.
  intros Hcps Hu Hc. pose proof (ligate_units cps Hcps) as Hunits.
  destruct (Forall2_lookup_l _ _ _ _ _ Hunits Hu) as (c0 & Hc0 & Huc). rewrite (shape_runes_form cps i c0 Hc0) in Hc.
  injection Hc as <-. pose proof (unit_code_kind u c0 Huc) as Hk. rewrite Hk. unfold code_kind at 1.
  assert (unit_kind hb_shape alphabet <$> spell cps = code_kind <$> ligate cps) as Ekinds.
  { clear -Hunits Hw Hapart. induction Hunits as [|u c us cs Huc _ IH]; [done|].
    rewrite !fmap_cons, IH. f_equal. by apply unit_code_kind. }
  pose proof (unit_letter u c0 Huc) as Hl. pose proof (unit_mark u c0 Huc) as Hz. destruct (zw c0) eqn:Ez.
  { inversion Huc; subst; [done|]. done. }
  destruct (letter c0) as [e|] eqn:El.
  - destruct Hl as (_ & gs & Hf & Hg). unfold letter_glyph. rewrite Ekinds. by eapply joined_shape_glyph.
  - inversion Huc; subst; [done|]. exfalso. apply Hl. destruct (ligs_keys a b c0) as (_ & _ & e & _ & E & _); [done|]. congruence.
Qed.
End Tables.

(** The script, the shaper and the map for the fonts together: in place of the letters and ligatures
    that a text is spelled with, shaping leaves code points for which the map has the glyphs of the forms
    that they take at their places; marks and all other code points are kept. *)
Theorem shaped_glyphs hb_shape subset_key out alphabet oob uninit p cps tail m :
  text_shaper hb_shape subset_key = Some out -> subsets subset_key = Some alphabet ->
  supplements_apart hb_shape alphabet -> 0 < p -> Forall plain cps -> holds m p (encode cps ++ 0 :: tail) ->
  exists runes, @shape_text (output_tables out) oob uninit p m = Ok tt (put p (encode runes ++ 0 :: tail) m) /\
    length runes = length (spell cps) /\
    forall i u c, spell cps !! i = Some u -> runes !! i = Some c ->
      match unit_kind hb_shape alphabet u with
      | Letter _ => exists g, letter_glyph hb_shape alphabet (spell cps) i u = Some g /\ out_map out !! c = Some g
      | _ => u = [c]
      end.
Proof.
  intros Hout Ha Hapart Hp Hcps Hm. destruct (text_shaper_written _ _ _ Hout) as (alphabet' & fs & st & ligs & es & rs & sel & Hw).
  assert (alphabet' = alphabet) as -> by (destruct Hw; congruence).
  destruct (output_ok _ _ _ _ _ _ _ _ _ _ Hw) as [ok _]. exists (@shape_runes (output_tables out) cps). split_and!.
  - rewrite <- Hm at 1. apply (@shape_text_runes (output_tables out) ok); [done|].
    eapply Forall_impl; [exact Hcps|]. intros c [Hc _]. unfold shapeable, is_codept. rewrite (u16_small c) by lia.
    split_and!; [lia..|]. intros _. lia.
  - rewrite (Forall2_length _ _ _ (ligate_units _ _ _ _ _ _ _ _ _ _ Hw Hapart cps Hcps)).
    exact (eq_sym (Forall2_length _ _ _ (shape_go_shaped STATE_INITIAL (ligate cps)))).
  - intros i u c. by eapply shaped_units.
Qed.

(** Beh, lam and alef: an initial beh, and a final lam-alef that is joined to it over the mark. *)
Example spelled_beh_lam_alef : let us := spell [0x628; 0x644; 0x627] in
  us = [[0x628]; [ZERO_WIDTH_CODEPT]; [0x644; 0x627]] /\
  letter_glyph example_hb_shape subset_arabic us 0 [0x628] = joined_glyph example_hb_shape (false, true) [0x628] /\
  letter_glyph example_hb_shape subset_arabic us 2 [0x644; 0x627] = Some 40003.
Proof. vm_compute. by split_and!. Qed.
