(* ===== verification/Bytes.v ===== *)
(** * Byte strings of the build scripts

    The Python scripts that build the firmware work on strings of bytes: a [list Z] of
    bytes.  This file has what they use of Python: slices, with clipped and negative
    indices, and the little-endian integers of [struct], where a value that does not fit
    is an error ([None]). *)

From stdpp Require Import strings pretty.
From S2P Require Import Prelude.

Definition bytes_ok (l : list Z) : Prop := Forall is_byte l.

(** ** Slices *)

(** An index of a slice: negative indices count from the end, all are clipped. *)
Definition slice_index (i n : Z) : Z := if i <? 0 then Z.max 0 (i + n) else Z.min i n.

(** [s[a:b]] *)
Definition slice {A} (a b : Z) (s : list A) : list A :=
  let a := slice_index a (len s) in
  take (Z.to_nat (slice_index b (len s) - a)) (drop (Z.to_nat a) s).

(** [s[:b]] and [s[a:]] *)
Definition slice_to {A} (b : Z) (s : list A) : list A := slice 0 b s.
Definition slice_from {A} (a : Z) (s : list A) : list A := slice a (len s) s.

(** ** Searching *)

(** [s.index(sub)]: the first position, an error when there is none. *)
Fixpoint index (sub s : list Z) : option Z :=
  if decide (take (length sub) s = sub) then Some 0
  else match s with
       | [] => None
       | _ :: s => i ← index sub s; Some (i + 1)
       end.

(** The bytes of an ASCII string. *)
Definition ascii_bytes (s : string) : list Z :=
  (fun c => Z.of_nat (Ascii.nat_of_ascii c)) <$> String.list_ascii_of_string s.

Lemma ascii_bytes_app s t : ascii_bytes (s +:+ t) = ascii_bytes s ++ ascii_bytes t.
Proof.
  unfold ascii_bytes. rewrite <- fmap_app. f_equal. induction s as [|c s IH]; [done|].
  change (String.list_ascii_of_string (String c s +:+ t)) with (c :: String.list_ascii_of_string (s +:+ t)). by rewrite IH.
Qed.

(** Decimal digits. *)
Abbreviation decimal := (Forall (fun c => 48 <= c <= 57)).

Lemma pretty_N_go_digits x s : decimal (ascii_bytes s) -> decimal (ascii_bytes (pretty_N_go x s)).
Proof.
  revert s. induction (N.lt_wf_0 x) as [x _ IH]; intros s Hs. destruct (decide (0 < x)%N) as [Hx|Hx].
  - rewrite pretty_N_go_step by done. apply IH; [by apply N.div_lt|].
    constructor; [|exact Hs]. unfold pretty_N_char. repeat case_match; (split; vm_compute; discriminate).
  - replace x with 0%N by lia. by rewrite pretty_N_go_0.
Qed.

Lemma pretty_digits x : 0 <= x -> decimal (ascii_bytes (pretty x)).
Proof.
  intros Hx. destruct x as [|p|p]; [|apply (pretty_N_go_digits (N.pos p) ""); constructor|lia].
  repeat constructor; vm_compute; discriminate.
Qed.

(** ** [struct] *)

Fixpoint le_bytes (n : nat) (v : Z) : list Z :=
  match n with
  | O => []
  | S n => v mod 256 :: le_bytes n (v / 256)
  end.

Fixpoint le_value (l : list Z) : Z :=
  match l with
  | [] => 0
  | b :: l => b + 256 * le_value l
  end.

(** An unsigned field of [n] bytes: [B], [H] and [I] are 1, 2 and 4. *)
Definition pack_u (n : nat) (v : Z) : option (list Z) :=
  if (0 <=? v) && (v <? 256 ^ Z.of_nat n) then Some (le_bytes n v) else None.

(** A format with several unsigned fields. *)
Fixpoint pack_us (fields : list (nat * Z)) : option (list Z) :=
  match fields with
  | [] => Some []
  | (n, v) :: fields => b ← pack_u n v; bs ← pack_us fields; Some (b ++ bs)
  end.

(** [struct.unpack] on a string: an error unless it has the size of the format. *)
Fixpoint unpack_fields (fmt : list nat) (s : list Z) : list Z :=
  match fmt with
  | [] => []
  | n :: fmt => le_value (take n s) :: unpack_fields fmt (drop n s)
  end.

Definition unpack_us (fmt : list nat) (s : list Z) : option (list Z) :=
  if (length s =? sum_list fmt)%nat then Some (unpack_fields fmt s) else None.

(** ** Lemmas on slices *)

Lemma slice_index_in i n : 0 <= i <= n -> slice_index i n = i.
Proof. unfold slice_index. destruct (Z.ltb_spec i 0); lia. Qed.

Lemma slice_in {A} a b (s : list A) :
  0 <= a <= b -> b <= len s -> slice a b s = take (Z.to_nat (b - a)) (drop (Z.to_nat a) s).
Proof. intros. unfold slice. by rewrite !slice_index_in by lia. Qed.

Lemma slice_nonneg {A} a b (s : list A) :
  0 <= a <= b -> slice a b s = take (Z.to_nat (b - a)) (drop (Z.to_nat a) s).
Proof.
  intros. unfold slice, slice_index.
  destruct (Z.ltb_spec a 0), (Z.ltb_spec b 0); try lia.
  destruct (Z.le_ge_cases a (len s)).
  - rewrite (Z.min_l a) by lia. destruct (Z.le_ge_cases b (len s)).
    + by rewrite Z.min_l by lia.
    + rewrite Z.min_r by lia.
      rewrite !(take_ge (drop (Z.to_nat a) s)) by (rewrite length_drop; lia). done.
  - rewrite !(drop_ge s) by lia. by rewrite !take_nil.
Qed.

Lemma slice_to_take {A} b (s : list A) : 0 <= b -> slice_to b s = take (Z.to_nat b) s.
Proof. intros. unfold slice_to. rewrite slice_nonneg by lia. by rewrite Z.sub_0_r. Qed.

Lemma slice_from_drop {A} a (s : list A) : 0 <= a -> slice_from a s = drop (Z.to_nat a) s.
Proof.
  intros. unfold slice_from. destruct (Z.le_ge_cases a (len s)).
  - rewrite slice_nonneg by lia. apply take_ge. rewrite length_drop. lia.
  - unfold slice, slice_index. destruct (Z.ltb_spec a 0); [lia|].
    rewrite !drop_ge by lia. by rewrite take_nil.
Qed.

Lemma slice_app_l {A} a b (s t : list A) :
  0 <= a <= b -> b <= len s -> slice a b (s ++ t) = slice a b s.
Proof.
  intros. rewrite !slice_nonneg by lia. rewrite drop_app_le by lia.
  rewrite take_app_le; [done|]. rewrite length_drop. lia.
Qed.

Lemma slice_app_r {A} a b (s t : list A) :
  len s <= a <= b -> slice a b (s ++ t) = slice (a - len s) (b - len s) t.
Proof.
  intros. rewrite !slice_nonneg by lia. rewrite drop_app_ge by lia.
  f_equal; [lia|]. f_equal. lia.
Qed.

(** The slice of the middle part of a string. *)
Lemma slice_middle {A} a b (pre s post : list A) :
  a = len pre -> b = len pre + len s -> slice a b (pre ++ s ++ post) = s.
Proof.
  intros -> ->. rewrite slice_app_r by lia. rewrite slice_app_l by lia.
  rewrite slice_nonneg by lia.
  replace (Z.to_nat (len pre - len pre)) with 0%nat by lia. rewrite drop_0.
  apply take_ge. lia.
Qed.

Lemma length_slice {A} a b (s : list A) :
  0 <= a <= b -> b <= len s -> len (slice a b s) = b - a.
Proof. intros. rewrite slice_in by lia. rewrite length_take, length_drop. lia. Qed.

Lemma slice_lookup {A} a b (s : list A) i :
  0 <= a <= b -> (Z.of_nat i < b - a) -> slice a b s !! i = s !! (Z.to_nat a + i)%nat.
Proof.
  intros. rewrite slice_nonneg by lia. rewrite lookup_take_lt by lia. by rewrite lookup_drop.
Qed.

(** ** Lemmas on little-endian integers *)

Lemma length_le_bytes n v : length (le_bytes n v) = n.
Proof. revert v. induction n; simpl; auto. Qed.

Lemma le_bytes_ok n v : bytes_ok (le_bytes n v).
Proof.
  revert v. induction n as [|n IH]; intros v; simpl; [by constructor|].
  constructor; [|apply IH]. unfold is_byte. pose proof (Z.mod_pos_bound v 256). lia.
Qed.

Lemma le_value_bytes n v : le_value (le_bytes n v) = v mod 256 ^ Z.of_nat n.
Proof.
  revert v. induction n as [|n IH]; intros v; cbn [le_bytes le_value].
  { by rewrite Z.mod_1_r. }
  rewrite IH, Nat2Z.inj_succ, Z.pow_succ_r by lia.
  rewrite Z.rem_mul_r by lia. done.
Qed.

Lemma le_value_bound l : bytes_ok l -> 0 <= le_value l < 256 ^ len l.
Proof.
  induction 1 as [|b l Hb Hl IH]; cbn [le_value length]; [lia|].
  rewrite Nat2Z.inj_succ, Z.pow_succ_r by lia. unfold is_byte in Hb. lia.
Qed.

Lemma le_bytes_value l : bytes_ok l -> le_bytes (length l) (le_value l) = l.
Proof.
  induction 1 as [|b l Hb Hl IH]; cbn [le_value length le_bytes]; [done|].
  unfold is_byte in Hb. rewrite (Z.mul_comm 256), Z.mod_add, Z.div_add by lia.
  rewrite Z.mod_small, Z.div_small by lia. by rewrite Z.add_0_l, IH.
Qed.

Lemma le_value_inj l1 l2 :
  bytes_ok l1 -> bytes_ok l2 -> length l1 = length l2 -> le_value l1 = le_value l2 -> l1 = l2.
Proof.
  intros H1 H2 Hl E. rewrite <- (le_bytes_value l1), <- (le_bytes_value l2) by done.
  by rewrite Hl, E.
Qed.

Lemma pack_u_Some n v bs :
  pack_u n v = Some bs <-> 0 <= v < 256 ^ Z.of_nat n /\ bs = le_bytes n v.
Proof.
  unfold pack_u. destruct (Z.leb_spec 0 v), (Z.ltb_spec v (256 ^ Z.of_nat n)); cbn [andb];
    (split; [intros [= <-] || done|intros [? ->]]); (done || lia).
Qed.

Lemma pack_us_length fields bs : pack_us fields = Some bs -> length bs = sum_list fields.*1.
Proof.
  revert bs. induction fields as [|[n v] fields IH]; intros bs; cbn [pack_us fmap list_fmap].
  { by intros [= <-]. }
  intros (b & [_ ->]%pack_u_Some & (bs' & Hbs & [= <-])%bind_Some)%bind_Some.
  rewrite length_app, length_le_bytes, (IH _ Hbs). done.
Qed.

(** Unpacking gives back what was packed. *)
Lemma unpack_pack_us fields bs :
  pack_us fields = Some bs -> unpack_us fields.*1 bs = Some fields.*2.
Proof.
  intros H. unfold unpack_us. rewrite (proj2 (Nat.eqb_eq _ _) (pack_us_length _ _ H)). f_equal.
  revert bs H. induction fields as [|[n v] fields IH]; intros bs;
    cbn [pack_us fmap list_fmap unpack_fields fst snd].
  { done. }
  intros (b & [Hv ->]%pack_u_Some & (bs' & Hbs & [= <-])%bind_Some)%bind_Some.
  rewrite take_app_length', drop_app_length' by (by rewrite length_le_bytes).
  rewrite le_value_bytes, Z.mod_small by done. f_equal. by apply IH.
Qed.

(** ** Lemmas on searching *)

(** [sub] occurs in [s] at position [i]. *)
Definition occurs_at (sub s : list Z) (i : Z) : Prop :=
  exists pre post, s = pre ++ sub ++ post /\ len pre = i.

Lemma occurs_at_cons sub x s i : 0 <= i -> occurs_at sub (x :: s) (i + 1) <-> occurs_at sub s i.
Proof.
  intros Hi. split.
  - intros ([|y pre] & post & E & Hl); [cbn in *; lia|]. injection E as -> ->.
    exists pre, post. cbn in *. split; [done|lia].
  - intros (pre & post & -> & Hl). exists (x :: pre), post. cbn. split; [done|lia].
Qed.

Lemma occurs_at_0 sub s : occurs_at sub s 0 <-> take (length sub) s = sub.
Proof.
  split.
  - intros ([|] & post & -> & Hl); [|by cbn in Hl]. by rewrite app_nil_l, take_app_length.
  - intros H. exists [], (drop (length sub) s). by rewrite <- H at 1; rewrite app_nil_l, take_drop.
Qed.

(** [index] finds the first occurrence. *)
Lemma index_Some sub s i :
  index sub s = Some i <-> 0 <= i /\ occurs_at sub s i /\ forall j, 0 <= j < i -> ~ occurs_at sub s j.
Proof.
  revert i. induction s as [|x s IH]; intros i; cbn [index]; case_decide as Hd;
    rewrite <- occurs_at_0 in Hd.
  1,3: split; [intros [= <-]; by repeat split; [..|lia]|intros (Hi & _ & Hno)];
    destruct (decide (i = 0)) as [->|]; [done|]; destruct (Hno 0); [lia|done].
  - split; [done|]. intros (Hi & (pre & post & [-> E]%symmetry%app_nil & Hl) & _). cbn in Hl. subst i.
    destruct Hd. apply app_nil in E as [-> ->]. by exists [], [].
  - split.
    + intros (j & Hj & [= <-])%bind_Some. apply IH in Hj as (Hj & Ho & Hno). split; [lia|].
      split; [by apply occurs_at_cons|]. intros k Hk. destruct (decide (k = 0)) as [->|]; [done|].
      replace k with (k - 1 + 1) by lia. rewrite occurs_at_cons by lia. apply Hno. lia.
    + intros (Hi & Ho & Hno). destruct (decide (i = 0)) as [->|]; [done|].
      replace i with (i - 1 + 1) in Ho by lia. apply occurs_at_cons in Ho; [|lia].
      apply bind_Some. exists (i - 1). split; [|f_equal; lia]. apply IH. split; [lia|]. split; [done|].
      intros j Hj. rewrite <- (occurs_at_cons sub x) by lia. apply Hno. lia.
Qed.

Lemma index_None sub s : index sub s = None <-> forall i, ~ occurs_at sub s i.
Proof.
  split.
  - intros H i Ho. assert (0 <= i) as Hi by (destruct Ho as (? & ? & _ & <-); lia).
    revert i Hi Ho H. induction s as [|x s IH]; intros i Hi Ho; cbn [index]; case_decide as Hd; try done;
      rewrite <- occurs_at_0 in Hd.
    + destruct Ho as (pre & post & [-> E]%symmetry%app_nil & <-). apply app_nil in E as [-> ->].
      destruct Hd. by exists [], [].
    + destruct (decide (i = 0)) as [->|]; [done|]. replace i with (i - 1 + 1) in Ho by lia.
      apply occurs_at_cons in Ho; [|lia]. specialize (IH (i - 1) ltac:(lia) Ho).
      destruct (index sub s); [done|]. done.
  - intros H. destruct (index sub s) as [i|] eqn:E; [|done]. apply index_Some in E as (_ & Ho & _).
    by apply H in Ho.
Qed.

Create HintDb bytes discriminated.
#[export] Hint Resolve le_bytes_ok : bytes.
