(* ===== verification/Crc.v ===== *)
(** * The checksum of firmware and resources (pebblesdk/stm32_crc.py)

    [process_buffer] is the CRC unit of the STM32: words of four bytes, most significant
    bit first, polynomial [CRC_POLY].  A string that is not a multiple of four bytes is
    padded after its last bytes are reversed.  The specification is division of
    polynomials over GF(2): an integer stands for the polynomial of its bits. *)

From S2P Require Import Prelude Bytes.

Definition CRC_POLY : Z := 0x04C11DB7.

(** The string that is read as words. *)
Definition pad_buffer (buf : list Z) : list Z :=
  let word_count := len buf / 4 in
  if negb (len buf mod 4 =? 0) then
    slice_to (word_count * 4) buf ++ rev (slice_from (word_count * 4) buf)
      ++ replicate (Z.to_nat (4 - len buf mod 4)) 0
  else buf.

(** [array.array('I', buf)] on a little-endian host. *)
Fixpoint words_of (n : nat) (buf : list Z) : list Z :=
  match n with
  | O => []
  | S n => le_value (take 4 buf) :: words_of n (drop 4 buf)
  end.

(** One bit; the value is not cut to 32 bits here. *)
Definition crc_bit (crc : Z) : Z :=
  if negb (Z.land crc 0x80000000 =? 0) then Z.lxor (Z.shiftl crc 1) CRC_POLY
  else Z.shiftl crc 1.

Definition crc_word (crc word : Z) : Z :=
  Z.land (Nat.iter 32 crc_bit (Z.lxor crc word)) 0xffffffff.

Definition process_buffer (buf : list Z) (c : Z) : Z :=
  let buf := pad_buffer buf in
  fold_left crc_word (words_of (length buf / 4) buf) c.

Definition crc32 (data : list Z) : Z := process_buffer data 0xffffffff.

(** ** Specification: polynomials over GF(2) *)

(** x^32 + ... + x + 1 *)
Definition crc_poly : Z := 2 ^ 32 + CRC_POLY.

(** The multiples of the polynomial: the ideal that it generates. *)
Inductive crc_multiple : Z -> Prop :=
| multiple_0 : crc_multiple 0
| multiple_poly : crc_multiple crc_poly
| multiple_x a : crc_multiple a -> crc_multiple (Z.shiftl a 1)
| multiple_add a b : crc_multiple a -> crc_multiple b -> crc_multiple (Z.lxor a b).

(** The polynomial whose remainder is the checksum of [ws] from the value [c]:
    c x^(32 n) + w1 x^(32 n) + ... + wn x^32. *)
Definition crc_dividend (c : Z) (ws : list Z) : Z :=
  fold_left (fun acc w => Z.shiftl (Z.lxor acc w) 32) ws c.

Definition is_word (w : Z) : Prop := 0 <= w < 2 ^ 32.

(** [r] is the remainder of [a]. *)
Definition crc_remainder (a r : Z) : Prop := is_word r /\ crc_multiple (Z.lxor a r).

(** ** The register: 32 bits that are cut at every step *)

Definition crc_step (x : Z) : Z :=
  if Z.testbit x 31 then Z.lxor (2 * x) crc_poly else 2 * x.

Lemma land_bit31 x : negb (Z.land x 0x80000000 =? 0) = Z.testbit x 31.
Proof.
  change 0x80000000 with (2 ^ 31). destruct (Z.testbit x 31) eqn:E.
  - apply negb_true_iff, Z.eqb_neq. intros H.
    assert (Z.testbit (Z.land x (2 ^ 31)) 31 = true) as H1.
    { by rewrite Z.land_spec, E, Z.pow2_bits_true by lia. }
    by rewrite H, Z.bits_0 in H1.
  - apply negb_false_iff, Z.eqb_eq, Z.bits_inj'. intros i Hi.
    rewrite Z.land_spec, Z.bits_0, Z.pow2_bits_eqb by lia.
    destruct (Z.eqb_spec 31 i) as [<-|]; [by rewrite E|by rewrite andb_false_r].
Qed.

Lemma is_word_bits x : 0 <= x -> is_word x <-> forall i, 32 <= i -> Z.testbit x i = false.
Proof.
  intros Hx. split.
  - intros [_ H] i Hi. rewrite <- (Z.mod_small x (2 ^ 32)) by lia.
    apply Z.mod_pow2_bits_high. lia.
  - intros H. split; [done|]. destruct (Z.eq_dec x 0) as [->|]; [lia|].
    apply Z.log2_lt_pow2; [lia|]. apply Z.lt_nge. intros Hl.
    specialize (H _ Hl). rewrite Z.bit_log2 in H by lia. done.
Qed.

Lemma word_bit_high x i : is_word x -> 32 <= i -> Z.testbit x i = false.
Proof. intros Hx. apply is_word_bits; [apply Hx|done]. Qed.

Lemma lxor_word x y : is_word x -> is_word y -> is_word (Z.lxor x y).
Proof.
  intros Hx Hy. assert (0 <= Z.lxor x y) as Hn by (apply Z.lxor_nonneg; unfold is_word in *; lia).
  apply is_word_bits; [done|]. intros i Hi. rewrite Z.lxor_spec.
  by rewrite !word_bit_high.
Qed.

Lemma crc_step_word x : is_word x -> is_word (crc_step x).
Proof.
  intros Hx. unfold crc_step. destruct (Z.testbit x 31) eqn:E.
  - assert (0 <= Z.lxor (2 * x) crc_poly) as Hn.
    { apply Z.lxor_nonneg. unfold is_word in Hx. split; intros _; [done|lia]. }
    apply is_word_bits; [done|]. intros i Hi. rewrite Z.lxor_spec.
    destruct (Z.eq_dec i 32) as [->|].
    + change 32 with (Z.succ 31) at 1. by rewrite Z.double_bits_succ, E.
    + replace i with (Z.succ (i - 1)) at 1 by lia.
      rewrite Z.double_bits_succ, word_bit_high by (done || lia).
      rewrite Z.bits_above_log2; [done|done|]. change (Z.log2 crc_poly) with 32. lia.
  - unfold is_word in *. split; [lia|].
    destruct (Z.lt_ge_cases x (2 ^ 31)) as [|Hge]; [lia|].
    exfalso. assert (Z.testbit x 31 = true); [|congruence].
    apply Z.testbit_true; [lia|]. by replace (x / 2 ^ 31) with 1 by dlia.
Qed.

(** Equalities of exclusive ors, bit by bit. *)
Ltac lxor_solve :=
  apply Z.bits_inj'; intros; rewrite ?Z.lxor_spec, ?Z.bits_0;
  repeat match goal with |- context [Z.testbit ?a ?i] => destruct (Z.testbit a i) end;
  reflexivity.

(** The step is linear. *)
Lemma crc_step_lxor x y : crc_step (Z.lxor x y) = Z.lxor (crc_step x) (crc_step y).
Proof.
  assert (2 * Z.lxor x y = Z.lxor (2 * x) (2 * y)) as E.
  { rewrite !(Z.mul_comm 2), <- !(Z.shiftl_mul_pow2 _ 1) by lia. apply Z.shiftl_lxor. }
  unfold crc_step. rewrite Z.lxor_spec, E.
  destruct (Z.testbit x 31), (Z.testbit y 31); cbn [xorb]; lxor_solve.
Qed.

(** Only zero is taken to zero, because the polynomial has a constant term. *)
Lemma crc_step_0 x : is_word x -> crc_step x = 0 -> x = 0.
Proof.
  intros Hx. unfold crc_step, is_word in *. destruct (Z.testbit x 31); [|lia].
  intros H. assert (Z.testbit (Z.lxor (2 * x) crc_poly) 0 = true); [|by rewrite H in *].
  by rewrite Z.lxor_spec, Z.testbit_even_0.
Qed.

(** ** The code's loop on unbounded integers is the register *)

Lemma testbit_low x i n : 0 <= i < n -> Z.testbit (x mod 2 ^ n) i = Z.testbit x i.
Proof. intros. apply Z.mod_pow2_bits_low. lia. Qed.

Lemma poly_bit_low i : 0 <= i < 32 -> Z.testbit CRC_POLY i = Z.testbit crc_poly i.
Proof. intros. rewrite <- (testbit_low crc_poly i 32) by done. by vm_compute (crc_poly mod _). Qed.

Lemma crc_bit_mod x : crc_bit x mod 2 ^ 32 = crc_step (x mod 2 ^ 32).
Proof.
  assert (is_word (x mod 2 ^ 32)) as Hw by (unfold is_word; apply Z.mod_pos_bound; lia).
  apply Z.bits_inj'. intros i Hi. destruct (Z.le_gt_cases 32 i) as [Hi'|Hi'].
  { rewrite Z.mod_pow2_bits_high by lia. symmetry. apply word_bit_high; [by apply crc_step_word|done]. }
  rewrite testbit_low by lia. unfold crc_bit, crc_step.
  rewrite land_bit31, testbit_low by lia.
  assert (Z.testbit (Z.shiftl x 1) i = Z.testbit (2 * (x mod 2 ^ 32)) i) as Hd.
  { rewrite <- (testbit_low (Z.shiftl x 1) i 32), <- (testbit_low (2 * _) i 32) by lia.
    rewrite Z.shiftl_mul_pow2, Z.mul_comm, Z.mul_mod_idemp_r by lia. done. }
  destruct (Z.testbit x 31); [|done]. by rewrite !Z.lxor_spec, Hd, <- poly_bit_low by lia.
Qed.

Lemma crc_bits_mod n x : Nat.iter n crc_bit x mod 2 ^ 32 = Nat.iter n crc_step (x mod 2 ^ 32).
Proof. induction n as [|n IH]; simpl; [done|]. by rewrite crc_bit_mod, IH. Qed.

Lemma crc_word_step c w :
  is_word c -> is_word w -> crc_word c w = Nat.iter 32 crc_step (Z.lxor c w).
Proof.
  intros Hc Hw. unfold crc_word. change 0xffffffff with (Z.ones 32).
  rewrite Z.land_ones, crc_bits_mod by lia.
  by rewrite (Z.mod_small (Z.lxor c w)) by (apply lxor_word; done).
Qed.

Lemma crc_word_range c w : 0 <= crc_word c w < 2 ^ 32.
Proof.
  unfold crc_word. change 0xffffffff with (Z.ones 32). rewrite Z.land_ones by lia.
  apply Z.mod_pos_bound. lia.
Qed.

#[local] Opaque crc_word.

Lemma crc_steps_word n x : is_word x -> is_word (Nat.iter n crc_step x).
Proof. intros. induction n; simpl; [done|]. by apply crc_step_word. Qed.

Lemma crc_steps_lxor n x y :
  Nat.iter n crc_step (Z.lxor x y) = Z.lxor (Nat.iter n crc_step x) (Nat.iter n crc_step y).
Proof. induction n as [|n IH]; simpl; [done|]. by rewrite IH, crc_step_lxor. Qed.

Lemma crc_steps_0 n x : is_word x -> Nat.iter n crc_step x = 0 -> x = 0.
Proof.
  induction n as [|n IH]; simpl; [done|]. intros Hx H. apply IH; [done|].
  apply crc_step_0; [by apply crc_steps_word|done].
Qed.

Lemma crc_word_is_word c w : is_word c -> is_word w -> is_word (crc_word c w).
Proof. intros. rewrite crc_word_step by done. by apply crc_steps_word, lxor_word. Qed.

(** ** Remainders *)

(** The remainder of a polynomial, a coefficient at a time. *)
Fixpoint reduce_pos (p : positive) : Z :=
  match p with
  | xH => 1
  | xO p => crc_step (reduce_pos p)
  | xI p => Z.lxor (crc_step (reduce_pos p)) 1
  end.

Definition reduce (a : N) : Z := match a with N0 => 0 | Npos p => reduce_pos p end.

Lemma reduce_double a : reduce (Pos.Ndouble a) = crc_step (reduce a).
Proof. by destruct a. Qed.

Lemma reduce_succ_double a : reduce (Pos.Nsucc_double a) = Z.lxor (crc_step (reduce a)) 1.
Proof. by destruct a. Qed.

(** Reduction is additive. *)
Lemma reduce_lxor a b : reduce (N.lxor a b) = Z.lxor (reduce a) (reduce b).
Proof.
  destruct a as [|p]; [done|]. revert b.
  enough (forall q, reduce (Pos.lxor p q) = Z.lxor (reduce_pos p) (reduce_pos q)) as H.
  { intros [|q]; [|apply H]. simpl. by rewrite Z.lxor_0_r. }
  induction p as [p IH|p IH|]; intros [q|q|]; cbn [reduce_pos];
    unfold Pos.lxor; fold Pos.lxor; rewrite ?reduce_double, ?reduce_succ_double, ?IH, ?crc_step_lxor;
    cbn [reduce reduce_pos]; lxor_solve.
Qed.

(** The remainder of a polynomial that is given as an integer. *)
Definition reduceZ (a : Z) : Z := reduce (Z.to_N a).

Lemma reduceZ_lxor a b : 0 <= a -> 0 <= b -> reduceZ (Z.lxor a b) = Z.lxor (reduceZ a) (reduceZ b).
Proof.
  unfold reduceZ. intros Ha Hb. rewrite <- reduce_lxor. f_equal.
  destruct a as [|p|p], b as [|q|q]; try done.
  change (Z.to_N (Z.of_N (Pos.lxor p q)) = Pos.lxor p q). apply N2Z.id.
Qed.

Lemma reduceZ_x a : 0 <= a -> reduceZ (Z.shiftl a 1) = crc_step (reduceZ a).
Proof. by destruct a. Qed.

Lemma crc_step_small x : 0 <= x < 2 ^ 31 -> crc_step x = 2 * x.
Proof.
  intros Hx. unfold crc_step. rewrite <- (Z.mod_small x (2 ^ 31)) at 1 by done.
  by rewrite Z.mod_pow2_bits_high.
Qed.

Lemma reduceZ_word x : is_word x -> reduceZ x = x.
Proof.
  destruct x as [|p|p]; [done| |by intros []].
  intros [_ H]. unfold reduceZ. cbn [Z.to_N reduce].
  induction p as [p IH|p IH|]; cbn [reduce_pos]; [..|done];
    rewrite IH by lia; rewrite crc_step_small by lia; done.
Qed.

(** The multiples of the polynomial reduce to zero. *)
Lemma crc_multiple_reduce a : crc_multiple a -> 0 <= a /\ reduceZ a = 0.
Proof.
  induction 1 as [| |a ? [? IH]|a b ? [? IHa] ? [? IHb]].
  - done.
  - by vm_compute.
  - split; [by apply Z.shiftl_nonneg|]. by rewrite reduceZ_x, IH.
  - split; [by apply Z.lxor_nonneg|]. by rewrite reduceZ_lxor, IHa, IHb.
Qed.

Lemma crc_remainder_unique a r r' : crc_remainder a r -> crc_remainder a r' -> r = r'.
Proof.
  intros [Hr H] [Hr' H']. apply Z.lxor_eq.
  rewrite <- (reduceZ_word (Z.lxor r r')) by (by apply lxor_word).
  apply crc_multiple_reduce.
  replace (Z.lxor r r') with (Z.lxor (Z.lxor a r) (Z.lxor a r')) by lxor_solve.
  by apply multiple_add.
Qed.

(** ** The register computes remainders *)

Lemma multiple_shiftl a n : crc_multiple a -> crc_multiple (Z.shiftl a (Z.of_nat n)).
Proof.
  intros H. induction n as [|n IH]; [by rewrite Z.shiftl_0_r|].
  rewrite Nat2Z.inj_succ, <- Z.add_1_r, <- Z.shiftl_shiftl by lia. by apply multiple_x.
Qed.

Lemma crc_step_multiple x : crc_multiple (Z.lxor (Z.shiftl x 1) (crc_step x)).
Proof.
  unfold crc_step. rewrite Z.shiftl_mul_pow2, (Z.mul_comm x) by lia. destruct (Z.testbit x 31).
  - rewrite <- Z.lxor_assoc, Z.lxor_nilpotent, Z.lxor_0_l. apply multiple_poly.
  - rewrite Z.lxor_nilpotent. apply multiple_0.
Qed.

Lemma crc_steps_multiple n x :
  crc_multiple (Z.lxor (Z.shiftl x (Z.of_nat n)) (Nat.iter n crc_step x)).
Proof.
  induction n as [|n IH]; [rewrite Z.shiftl_0_r; simpl; rewrite Z.lxor_nilpotent; apply multiple_0|].
  rewrite Nat2Z.inj_succ, <- Z.add_1_r, <- Z.shiftl_shiftl by lia.
  change (Nat.iter (S n) crc_step x) with (crc_step (Nat.iter n crc_step x)).
  pose proof (multiple_add _ _ (multiple_x _ IH) (crc_step_multiple (Nat.iter n crc_step x))) as H.
  rewrite Z.shiftl_lxor in H. revert H. match goal with |- ?P -> ?Q => replace P with Q; [done|] end.
  f_equal. lxor_solve.
Qed.

(** The invariant of a round: the value so far is congruent to the dividend so far. *)
Lemma crc_round n a c w s :
  crc_multiple (Z.lxor a c) -> crc_multiple (Z.lxor (Z.shiftl (Z.lxor c w) (Z.of_nat n)) s) ->
  crc_multiple (Z.lxor (Z.shiftl (Z.lxor a w) (Z.of_nat n)) s).
Proof.
  intros Ha Hs. pose proof (multiple_add _ _ (multiple_shiftl _ n Ha) Hs) as H.
  rewrite !Z.shiftl_lxor in *.
  eassert (Z.lxor _ s = _) as ->; [|apply H]. lxor_solve.
Qed.

Lemma fold_left_cons {A B} (f : A -> B -> A) x l a :
  fold_left f (x :: l) a = fold_left f l (f a x).
Proof. reflexivity. Qed.

Lemma crc_dividend_cons a w ws :
  crc_dividend a (w :: ws) = crc_dividend (Z.shiftl (Z.lxor a w) 32) ws.
Proof. reflexivity. Qed.

Lemma crc_word_round a c w :
  is_word c -> is_word w -> crc_multiple (Z.lxor a c) ->
  crc_multiple (Z.lxor (Z.shiftl (Z.lxor a w) 32) (crc_word c w)).
Proof.
  intros Hc Hw Ha. rewrite crc_word_step by done.
  pose proof (crc_round 32 a c w _ Ha (crc_steps_multiple 32 (Z.lxor c w))) as H. exact H.
Qed.

Lemma crc_words_remainder ws a c :
  is_word c -> Forall is_word ws -> crc_multiple (Z.lxor a c) ->
  crc_remainder (crc_dividend a ws) (fold_left crc_word ws c).
Proof.
  intros Hc Hws. revert a c Hc. induction Hws as [|w ws Hw Hws IH]; intros a c Hc Ha.
  { by split. }
  rewrite crc_dividend_cons, fold_left_cons.
  apply IH; [by apply crc_word_is_word|by apply crc_word_round].
Qed.

(** ** Strings *)

(** The words that the checksum of a string runs over. *)
Definition buffer_words (buf : list Z) : list Z :=
  words_of (length (pad_buffer buf) / 4) (pad_buffer buf).

Lemma process_buffer_words buf c : process_buffer buf c = fold_left crc_word (buffer_words buf) c.
Proof. reflexivity. Qed.

(** The string in terms of its last, incomplete word. *)
Lemma pad_buffer_app b1 b2 : (length b1 mod 4 = 0)%nat -> pad_buffer (b1 ++ b2) = b1 ++ pad_buffer b2.
Proof.
  intros H. assert (exists k, length b1 = 4 * k)%nat as [k Hk].
  { exists (length b1 / 4)%nat. pose proof (Nat.div_mod_eq (length b1) 4). lia. }
  unfold pad_buffer. rewrite length_app, Hk.
  replace (Z.of_nat (4 * k + length b2)) with (len b2 + Z.of_nat k * 4) by lia.
  rewrite Z.mod_add, Z.div_add by lia.
  destruct (negb (len b2 mod 4 =? 0)); [|done].
  assert (0 <= len b2 / 4) by (apply Z.div_pos; lia).
  rewrite !slice_to_take, !slice_from_drop by lia.
  replace (Z.to_nat ((len b2 / 4 + Z.of_nat k) * 4)) with
    (length b1 + Z.to_nat (len b2 / 4 * 4))%nat by lia.
  by rewrite take_app_add, drop_app_add, <- app_assoc.
Qed.

Lemma pad_buffer_short b :
  (0 < length b < 4)%nat -> pad_buffer b = rev b ++ replicate (4 - length b) 0.
Proof. by destruct b as [|? [|? [|? [|]]]]; cbn [length]; try lia. Qed.

(** A string is whole words and at most three more bytes. *)
Lemma buffer_split (buf : list Z) :
  exists b1 b2, buf = b1 ++ b2 /\ (length b1 mod 4 = 0)%nat /\ (length b2 < 4)%nat.
Proof.
  exists (take (4 * (length buf / 4)) buf), (drop (4 * (length buf / 4)) buf).
  pose proof (Nat.div_mod_eq (length buf) 4). pose proof (Nat.mod_upper_bound (length buf) 4).
  rewrite take_drop, length_drop, length_take, Nat.min_l by lia.
  split; [done|]. split; [|lia]. by rewrite Nat.mul_comm, Nat.Div0.mod_mul.
Qed.

Lemma pad_buffer_length buf : (length (pad_buffer buf) mod 4 = 0)%nat.
Proof.
  destruct (buffer_split buf) as (b1 & b2 & -> & H1 & H2).
  rewrite pad_buffer_app, length_app by done. rewrite Nat.Div0.add_mod, H1.
  destruct b2 as [|? [|? [|? [|]]]]; cbn [length] in H2; [done..|lia].
Qed.

Lemma pad_buffer_ok buf : bytes_ok buf -> bytes_ok (pad_buffer buf).
Proof.
  unfold bytes_ok. destruct (buffer_split buf) as (b1 & b2 & -> & H1 & H2).
  rewrite pad_buffer_app, !Forall_app by done. intros [? Hb]. split; [done|].
  destruct b2 as [|x b2]; [done|]. rewrite pad_buffer_short by (cbn [length] in *; lia).
  rewrite Forall_app. split; [by apply Forall_rev|]. apply Forall_replicate. unfold is_byte. lia.
Qed.

Lemma words_of_ok n buf : bytes_ok buf -> Forall is_word (words_of n buf).
Proof.
  unfold bytes_ok. revert buf. induction n as [|n IH]; intros buf H; cbn [words_of]; constructor.
  - pose proof (le_value_bound (take 4 buf) (Forall_take _ _ _ H)) as Hb. unfold is_word.
    assert (256 ^ len (take 4 buf) <= 256 ^ 4); [|lia].
    apply Z.pow_le_mono_r; [lia|]. rewrite length_take. lia.
  - apply IH. by apply Forall_drop.
Qed.

Lemma words_of_app k n b1 b2 :
  length b1 = (4 * k)%nat -> words_of (k + n) (b1 ++ b2) = words_of k b1 ++ words_of n b2.
Proof.
  revert b1. induction k as [|k IH]; intros b1 Hl.
  { by apply length_zero_iff_nil in Hl as ->. }
  cbn [words_of Nat.add app]. rewrite take_app_le, drop_app_le by lia. f_equal.
  apply IH. rewrite length_drop. lia.
Qed.

Lemma buffer_words_app b1 b2 :
  (length b1 mod 4 = 0)%nat -> buffer_words (b1 ++ b2) = buffer_words b1 ++ buffer_words b2.
Proof.
  intros H1. pose proof (Nat.div_mod_eq (length b1) 4) as Hk.
  assert (pad_buffer b1 = b1) as E1.
  { rewrite <- (app_nil_r b1) at 1. rewrite pad_buffer_app by done. apply app_nil_r. }
  unfold buffer_words. rewrite E1, pad_buffer_app, length_app by done.
  rewrite <- words_of_app by lia. f_equal.
  rewrite Hk at 1. rewrite H1, Nat.add_0_r, Nat.mul_comm, Nat.add_comm, Nat.div_add by lia. lia.
Qed.

Lemma buffer_words_ok buf : bytes_ok buf -> Forall is_word (buffer_words buf).
Proof. intros. by apply words_of_ok, pad_buffer_ok. Qed.

Lemma process_words_word ws c : is_word c -> Forall is_word ws -> is_word (fold_left crc_word ws c).
Proof.
  intros Hc Hws. revert c Hc. induction Hws; intros c Hc; [done|].
  rewrite fold_left_cons. apply IHHws. by apply crc_word_is_word.
Qed.

(** ** The theorems *)

(** C17: [process_buffer] computes the remainder of the words of the string, read as a
    polynomial over GF(2) and shifted by 32, by the polynomial of the checksum, and
    nothing else is a remainder of it. *)
Theorem process_buffer_remainder buf c r :
  bytes_ok buf -> is_word c ->
  crc_remainder (crc_dividend c (buffer_words buf)) r <-> r = process_buffer buf c.
Proof.
  intros Hb Hc. assert (crc_remainder (crc_dividend c (buffer_words buf)) (process_buffer buf c)) as H.
  { rewrite process_buffer_words. apply crc_words_remainder; [done|by apply buffer_words_ok|].
    rewrite Z.lxor_nilpotent. apply multiple_0. }
  split; [|by intros ->]. intros Hr. by apply (crc_remainder_unique _ _ _ Hr).
Qed.

(** A string can be summed up in parts of whole words. *)
Lemma process_buffer_app b1 b2 c :
  (length b1 mod 4 = 0)%nat ->
  process_buffer (b1 ++ b2) c = process_buffer b2 (process_buffer b1 c).
Proof. intros. by rewrite !process_buffer_words, buffer_words_app, fold_left_app. Qed.

Lemma crc_word_inj c w c' w' :
  is_word c -> is_word w -> is_word c' -> is_word w' ->
  crc_word c w = crc_word c' w' -> Z.lxor c w = Z.lxor c' w'.
Proof.
  intros ????. rewrite !crc_word_step by done. intros E. apply Z.lxor_eq, (crc_steps_0 32).
  - by repeat apply lxor_word.
  - rewrite crc_steps_lxor, E. apply Z.lxor_nilpotent.
Qed.

Lemma lxor_cancel_r a b c : Z.lxor a c = Z.lxor b c -> a = b.
Proof.
  intros H. apply (f_equal (fun x => Z.lxor x c)) in H.
  by rewrite !Z.lxor_assoc, Z.lxor_nilpotent, !Z.lxor_0_r in H.
Qed.

Lemma process_words_inj ws c c' :
  is_word c -> is_word c' -> Forall is_word ws ->
  fold_left crc_word ws c = fold_left crc_word ws c' -> c = c'.
Proof.
  intros Hc Hc' Hws. revert c c' Hc Hc'.
  induction Hws as [|w ws Hw Hws IH]; intros c c' Hc Hc' H; [done|].
  rewrite !fold_left_cons in H. apply IH in H; [|by apply crc_word_is_word..].
  apply (lxor_cancel_r _ _ w). by apply crc_word_inj.
Qed.

Lemma buffer_words_one x : (0 < length x <= 4)%nat -> buffer_words x = [le_value (pad_buffer x)].
Proof. by destruct x as [|? [|? [|? [|? [|]]]]]; cbn [length]; try lia. Qed.

Lemma pad_buffer_inj x y :
  (0 < length x <= 4)%nat -> length y = length x -> pad_buffer x = pad_buffer y -> x = y.
Proof.
  intros Hx Hl. destruct (decide (length x = 4)%nat) as [H4|].
  - by destruct x as [|? [|? [|? [|? [|]]]]], y as [|? [|? [|? [|? [|]]]]].
  - rewrite !pad_buffer_short, Hl by lia. intros [E _]%app_inj_1; [|by rewrite !length_rev].
    by rewrite <- (rev_involutive x), E, rev_involutive.
Qed.

(** A change of one word changes the checksum of a list of words. *)
Lemma process_words_change pre w w' post c :
  is_word c -> is_word w -> is_word w' -> Forall is_word pre -> Forall is_word post ->
  fold_left crc_word (pre ++ w :: post) c = fold_left crc_word (pre ++ w' :: post) c -> w = w'.
Proof.
  intros Hc Hw Hw' Hpre Hpost. rewrite !fold_left_app, !fold_left_cons.
  pose proof (process_words_word pre c Hc Hpre) as Hs.
  generalize dependent (fold_left crc_word pre c). intros s Hs H.
  apply (process_words_inj post) in H; [|by apply crc_word_is_word..|done].
  apply crc_word_inj in H; [|done..]. rewrite !(Z.lxor_comm s) in H. by apply lxor_cancel_r in H.
Qed.

Lemma buffer_words_word x :
  bytes_ok x -> (0 < length x <= 4)%nat -> is_word (le_value (pad_buffer x)).
Proof.
  intros Hx Hl. pose proof (buffer_words_ok x Hx) as F.
  rewrite buffer_words_one in F by done. by inversion F.
Qed.

(** A change of any bytes of one word of a string, or of its last incomplete word, changes
    the checksum. *)
Theorem crc32_detects_word_change pre x y post :
  bytes_ok (pre ++ x ++ post) -> bytes_ok y -> (length pre mod 4 = 0)%nat ->
  length y = length x -> length x = 4%nat \/ (length x < 4)%nat /\ post = [] -> x <> y ->
  crc32 (pre ++ x ++ post) <> crc32 (pre ++ y ++ post).
Proof.
  unfold bytes_ok. rewrite !Forall_app. intros (Hpre & Hx & Hpost) Hy Hp Hl Hcase Hne.
  assert (0 < length x <= 4)%nat as Hlx.
  { destruct x; [destruct y; [done|discriminate]|]. cbn [length] in *. lia. }
  assert (forall z, length z = length x -> buffer_words (pre ++ z ++ post) =
    buffer_words pre ++ le_value (pad_buffer z) :: buffer_words post) as Hw.
  { intros z Hz. rewrite buffer_words_app by done. f_equal. destruct Hcase as [H4|[_ ->]].
    - rewrite buffer_words_app by (by rewrite Hz, H4). rewrite buffer_words_one by lia. done.
    - rewrite app_nil_r. apply buffer_words_one. lia. }
  unfold crc32. rewrite !process_buffer_words, !Hw by done. intros H.
  apply process_words_change in H;
    [|done|apply buffer_words_word; [done|lia]..|by apply buffer_words_ok|by apply buffer_words_ok].
  apply Hne, pad_buffer_inj; [done..|].
  apply le_value_inj; [by apply pad_buffer_ok|by apply pad_buffer_ok| |done].
  destruct Hcase as [H4|[H4 _]].
  - by destruct x as [|? [|? [|? [|? [|]]]]], y as [|? [|? [|? [|? [|]]]]].
  - rewrite !pad_buffer_short, !length_app, !length_rev, !length_replicate by lia. lia.
Qed.

Lemma process_buffer_remainder_witness :
  crc_remainder (crc_dividend 0xffffffff (buffer_words [1; 2; 3; 4; 5; 6])) (crc32 [1; 2; 3; 4; 5; 6]).
Proof. apply process_buffer_remainder; [repeat constructor; lia|split; lia|reflexivity]. Defined.

Lemma crc32_detects_word_change_witness :
  crc32 ([1; 2; 3; 4] ++ [5; 6; 7; 8] ++ [9]) <> crc32 ([1; 2; 3; 4] ++ [5; 7; 6; 8] ++ [9]).
Proof.
  apply crc32_detects_word_change; try done; [repeat constructor; lia..|by left].
Defined.

(** The value that the reference manual of the chip's family gives for the word zero. *)
Example crc32_word_0 : crc32 [0; 0; 0; 0] = 0xC704DD7B.
Proof. vm_compute. reflexivity. Qed.

(** Padding is not marked: a string and its padded form have the same checksum. *)
Example crc32_padding : crc32 [1; 2] = crc32 [2; 1; 0; 0].
Proof. vm_compute. reflexivity. Qed.
