(* ===== verification/Thumb.v ===== *)
(** * Wide branches of the Thumb instruction set (patch_tools.py, [finalize])

    The scripts enter the patch from the firmware with a 32-bit branch that they encode
    themselves.  [encode_branch] is their encoder; [decode_branch] is the meaning of the
    instructions B (encoding T4) and BL (encoding T1) in the architecture manual. *)

From S2P Require Import Prelude.

(** [instr |= 1 << 14] for a branch with link. *)
Definition encode_branch (offset : Z) (link : bool) : Z :=
  (* 0b11110000000000001001000000000000 *)
  let instr := 0xF0009000 in
  let s := if offset >? 0 then 0 else 1 in
  let i1 := Z.land (Z.shiftr offset 23) 1 in
  let j1 := if negb (Z.lxor s i1 =? 0) then 0 else 1 in
  let i2 := Z.land (Z.shiftr offset 22) 1 in
  let j2 := if negb (Z.lxor s i2 =? 0) then 0 else 1 in
  (* 0b1111111111 and 0b11111111111 *)
  let imm10 := Z.land (Z.shiftr offset 11) 0x3FF in
  let imm11 := Z.land offset 0x7FF in
  let instr := Z.lor instr
    (Z.lor (Z.lor (Z.lor (Z.lor (Z.shiftl s 26) (Z.shiftl imm10 16)) (Z.shiftl j1 13))
       (Z.shiftl j2 11)) imm11) in
  if link then Z.lor instr (Z.shiftl 1 14) else instr.

(** The two half-words of the instruction, as they are packed. *)
Definition branch_halfwords (instr : Z) : Z * Z := (Z.shiftr instr 16, Z.land instr 0xFFFF).

(** Bit [i] of [x] as a number. *)
Definition bit (x i : Z) : Z := Z.b2z (Z.testbit x i).

(** The architecture: [imm32] is the sign extension of [S:I1:I2:imm10:imm11:0], with
    [I1 = NOT (J1 XOR S)] and [I2 = NOT (J2 XOR S)]; the result is whether the branch
    links and the distance from the address of the instruction plus 4. *)
Definition decode_branch (hw1 hw2 : Z) : option (bool * Z) :=
  if (Z.shiftr hw1 11 =? 0x1E) && Z.testbit hw2 15 && Z.testbit hw2 12 then
    let s := Z.testbit hw1 10 in
    let i1 := negb (xorb (Z.testbit hw2 13) s) in
    let i2 := negb (xorb (Z.testbit hw2 11) s) in
    let imm10 := hw1 mod 2 ^ 10 in
    let imm11 := hw2 mod 2 ^ 11 in
    Some (Z.testbit hw2 14,
          2 * (- Z.b2z s * 2 ^ 23 + Z.b2z i1 * 2 ^ 22 + Z.b2z i2 * 2 ^ 21 + imm10 * 2 ^ 11 + imm11))
  else None.

(** ** Half-words of a branch *)

Lemma lor_add a b n : 0 <= n -> a mod 2 ^ n = 0 -> 0 <= b < 2 ^ n -> Z.lor a b = a + b.
Proof.
  intros Hn Ha Hb. rewrite (Z.div_mod a (2 ^ n)), Ha, Z.add_0_r, (Z.mul_comm (2 ^ n)) by lia.
  rewrite <- (Z.shiftl_mul_pow2 _ n) at 1 by done. by apply lor_shiftl_add.
Qed.

Lemma land_shift_bit x i : 0 <= i -> Z.land (Z.shiftr x i) 1 = bit x i.
Proof.
  intros. unfold bit. change 1 with (Z.ones 1). rewrite Z.land_ones by lia.
  change (2 ^ 1) with 2. rewrite <- Z.bit0_mod, Z.shiftr_spec by lia. by rewrite Z.add_0_l.
Qed.

Lemma bit_high x i :
  - 2 ^ 21 <= x < 2 ^ 21 -> 21 <= i -> bit x i = if x <? 0 then 1 else 0.
Proof.
  intros Hx Hi. unfold bit. destruct (Z.ltb_spec x 0).
  - assert (Z.testbit x i = true) as ->; [|done].
    rewrite <- (Z.lnot_involutive x), Z.lnot_spec by lia. apply negb_true_iff.
    rewrite <- (Z.mod_small (Z.lnot x) (2 ^ i)); [apply Z.mod_pow2_bits_high; lia|].
    assert (2 ^ 21 <= 2 ^ i) by (apply Z.pow_le_mono_r; lia). unfold Z.lnot. lia.
  - assert (Z.testbit x i = false) as ->; [|done].
    rewrite <- (Z.mod_small x (2 ^ i)); [apply Z.mod_pow2_bits_high; lia|].
    assert (2 ^ 21 <= 2 ^ i) by (apply Z.pow_le_mono_r; lia). lia.
Qed.

(** Equalities of disjunctions, bit by bit. *)
Ltac lor_solve :=
  apply Z.bits_inj'; intros; rewrite ?Z.lor_spec;
  repeat match goal with |- context [Z.testbit ?a ?i] => destruct (Z.testbit a i) end;
  reflexivity.

(** The fields of the instruction that the encoder puts together, with both J bits set. *)
Lemma branch_fields hi imm10 imm11 :
  hi mod 2 ^ 26 = 0 -> 0 <= imm10 < 2 ^ 10 -> 0 <= imm11 < 2 ^ 11 ->
  Z.lor 0xF0009000
    (Z.lor (Z.lor (Z.lor (Z.lor hi (Z.shiftl imm10 16)) (Z.shiftl 1 13)) (Z.shiftl 1 11)) imm11)
  = Z.lor 0xF0000000 hi + imm10 * 2 ^ 16 + (0xB800 + imm11).
Proof.
  intros Hhi H10 H11. change 0xF0009000 with (Z.lor 0xF0000000 0x9000).
  transitivity (Z.lor (Z.lor (Z.lor 0xF0000000 hi) (Z.shiftl imm10 16))
    (Z.lor (Z.lor (Z.lor 0x9000 (Z.shiftl 1 13)) (Z.shiftl 1 11)) imm11)).
  { generalize 0xF0000000, 0x9000, (Z.shiftl 1 13), (Z.shiftl 1 11). intros. lor_solve. }
  change (Z.lor (Z.lor 0x9000 (Z.shiftl 1 13)) (Z.shiftl 1 11)) with 0xB800.
  rewrite (lor_add 0xB800 imm11 11) by (done || lia).
  assert (Z.lor 0xF0000000 hi mod 2 ^ 26 = 0) as Hm.
  { rewrite <- Z.land_ones, Z.land_lor_distr_l, !Z.land_ones, Hhi by lia. done. }
  rewrite Z.shiftl_mul_pow2 by lia. rewrite (lor_add _ (imm10 * _) 26) by (done || lia).
  apply (lor_add _ _ 16); [lia| |lia].
  revert Hm. generalize (Z.lor 0xF0000000 hi). intros k Hm.
  rewrite Z.mod_add by lia. rewrite (Z.div_mod k (2 ^ 26)), Hm, Z.add_0_r by lia.
  by replace (2 ^ 26 * (k / 2 ^ 26)) with (2 ^ 10 * (k / 2 ^ 26) * 2 ^ 16) by lia; rewrite Z.mod_mul by lia.
Qed.

(** For offsets of 21 bits and a sign the encoder sets both J bits. *)
Lemma encode_branch_halfwords offset link :
  - 2 ^ 21 <= offset < 2 ^ 21 -> offset <> 0 ->
  branch_halfwords (encode_branch offset link) =
  (0xF000 + (if offset <? 0 then 0x400 else 0) + (offset / 2 ^ 11) mod 2 ^ 10,
   0xB800 + (if link then 0x4000 else 0) + offset mod 2 ^ 11).
Proof.
  intros Ho Hz. unfold encode_branch. rewrite !land_shift_bit, !bit_high by lia.
  change 0x3FF with (Z.ones 10). change 0x7FF with (Z.ones 11).
  rewrite !Z.land_ones, Z.shiftr_div_pow2 by lia.
  pose proof (Z.mod_pos_bound (offset / 2 ^ 11) (2 ^ 10) ltac:(lia)) as H10.
  pose proof (Z.mod_pos_bound offset (2 ^ 11) ltac:(lia)) as H11.
  set (imm10 := (offset / 2 ^ 11) mod 2 ^ 10) in *. set (imm11 := offset mod 2 ^ 11) in *.
  assert (forall k l, k mod 2 ^ 26 = 0 ->
    branch_halfwords (if l : bool then Z.lor (k + imm10 * 2 ^ 16 + (0xB800 + imm11)) (Z.shiftl 1 14)
                      else k + imm10 * 2 ^ 16 + (0xB800 + imm11))
    = (k / 2 ^ 16 + imm10, 0xB800 + (if l then 0x4000 else 0) + imm11)) as Hsplit.
  { intros k l Hk. assert (Z.lor (k + imm10 * 2 ^ 16 + (0xB800 + imm11)) (Z.shiftl 1 14)
      = k + imm10 * 2 ^ 16 + (0xF800 + imm11)) as Hlink.
    { replace (k + imm10 * 2 ^ 16 + (0xB800 + imm11)) with
        ((k / 2 ^ 15 + imm10 * 2 + 1) * 2 ^ 15 + (0x3800 + imm11)) by dlia.
      set (a := k / 2 ^ 15 + imm10 * 2 + 1). change (Z.shiftl 1 14) with 0x4000.
      rewrite <- (lor_add (a * 2 ^ 15) (0x3800 + imm11) 15), <- Z.lor_assoc, (Z.lor_comm _ 0x4000)
        by (lia || (apply Z.mod_mul; lia)).
      rewrite (lor_add 0x4000 _ 14), (lor_add _ _ 15) by (lia || done || (apply Z.mod_mul; lia)).
      unfold a. dlia. }
    unfold branch_halfwords. change 0xFFFF with (Z.ones 16).
    destruct l; rewrite ?Hlink, Z.shiftr_div_pow2, Z.land_ones by lia; f_equal; dlia. }
  destruct (Z.ltb_spec offset 0), (Z.gtb_spec offset 0); try lia;
    change (negb (Z.lxor _ _ =? 0)) with false; cbv iota;
    rewrite branch_fields by (done || lia); apply Hsplit; done.
Qed.

(** The J bits are set and the I bits repeat the sign. *)
Lemma decode_branch_fields s link imm10 imm11 :
  0 <= imm10 < 2 ^ 10 -> 0 <= imm11 < 2 ^ 11 ->
  decode_branch (0xF000 + (if s : bool then 0x400 else 0) + imm10)
                (0xB800 + (if link : bool then 0x4000 else 0) + imm11)
  = Some (link, 2 * ((if s then - 2 ^ 21 else 0) + imm10 * 2 ^ 11 + imm11)).
Proof.
  intros H10 H11. set (hw1 := 0xF000 + _ + imm10). set (hw2 := 0xB800 + _ + imm11).
  assert (hw1 / 2 ^ 10 = 0x3C + (if s then 1 else 0)) as E1 by (unfold hw1; destruct s; dlia).
  assert (hw2 / 2 ^ 11 = 0x17 + (if link then 8 else 0)) as E2 by (unfold hw2; destruct link; dlia).
  assert (Z.shiftr hw1 11 = 0x1E) as Eop.
  { rewrite Z.shiftr_div_pow2 by lia. change (2 ^ 11) with (2 ^ 10 * 2).
    rewrite <- Z.div_div, E1 by lia. by destruct s. }
  assert (forall i, 0 <= i -> Z.testbit hw2 (i + 11) = Z.testbit (hw2 / 2 ^ 11) i) as Hbit.
  { intros. by rewrite Z.div_pow2_bits by lia. }
  assert (Z.testbit hw1 10 = s) as Hs.
  { change 10 with (0 + 10). rewrite <- Z.div_pow2_bits, E1 by lia. by destruct s. }
  unfold decode_branch. rewrite Eop, Hs.
  rewrite (Hbit 4 ltac:(lia) : Z.testbit hw2 15 = _), (Hbit 3 ltac:(lia) : Z.testbit hw2 14 = _),
    (Hbit 2 ltac:(lia) : Z.testbit hw2 13 = _), (Hbit 1 ltac:(lia) : Z.testbit hw2 12 = _),
    (Hbit 0 ltac:(lia) : Z.testbit hw2 11 = _), E2.
  replace (hw1 mod 2 ^ 10) with imm10 by (unfold hw1; destruct s; dlia).
  replace (hw2 mod 2 ^ 11) with imm11 by (unfold hw2; destruct link; dlia).
  destruct s, link; reflexivity.
Qed.

(** ** Any distance gives an instruction of 32 bits *)

Lemma lor_range n a b : 0 <= n -> 0 <= a < 2 ^ n -> 0 <= b < 2 ^ n -> 0 <= Z.lor a b < 2 ^ n.
Proof.
  intros Hn Ha Hb. assert (0 <= Z.lor a b) by (apply Z.lor_nonneg; lia). split; [done|].
  destruct (Z.eq_dec (Z.lor a b) 0) as [->|]; [lia|]. apply Z.log2_lt_pow2; [lia|].
  rewrite Z.log2_lor by lia. apply Z.max_lub_lt.
  - destruct (Z.eq_dec a 0) as [->|]; [|apply Z.log2_lt_pow2; lia]. change (Z.log2 0) with 0.
    destruct (Z.eq_dec n 0) as [->|]; [|lia]. change (2 ^ 0) with 1 in *.
    exfalso. assert (b = 0) by lia. by subst b.
  - destruct (Z.eq_dec b 0) as [->|]; [|apply Z.log2_lt_pow2; lia]. change (Z.log2 0) with 0.
    destruct (Z.eq_dec n 0) as [->|]; [|lia]. change (2 ^ 0) with 1 in *.
    exfalso. assert (a = 0) by lia. by subst a.
Qed.

Lemma encode_branch_range offset link : 0 <= encode_branch offset link < 2 ^ 32.
Proof.
  assert (forall b : bool, 0 <= (if b then 0 else 1) < 2) as Hb by (intros []; lia).
  unfold encode_branch. set (s := if offset >? 0 then 0 else 1).
  set (j1 := if negb _ then 0 else 1). set (j2 := if negb _ then 0 else 1).
  assert (0 <= s < 2) by apply Hb. assert (0 <= j1 < 2) by apply Hb. assert (0 <= j2 < 2) by apply Hb.
  change 0x3FF with (Z.ones 10). change 0x7FF with (Z.ones 11). rewrite !Z.land_ones by lia.
  pose proof (Z.mod_pos_bound (Z.shiftr offset 11) (2 ^ 10) ltac:(lia)).
  pose proof (Z.mod_pos_bound offset (2 ^ 11) ltac:(lia)).
  rewrite !Z.shiftl_mul_pow2 by lia.
  destruct link; repeat (apply lor_range; [lia| |]); lia.
Qed.

Lemma branch_halfwords_range offset link hw1 hw2 :
  branch_halfwords (encode_branch offset link) = (hw1, hw2) -> 0 <= hw1 < 2 ^ 16 /\ 0 <= hw2 < 2 ^ 16.
Proof.
  pose proof (encode_branch_range offset link). unfold branch_halfwords. intros [= <- <-].
  change 0xFFFF with (Z.ones 16). rewrite Z.land_ones, Z.shiftr_div_pow2 by lia. split; dlia.
Qed.

(** ** The encoder is right within 4 MB *)

(** A branch by [offset] half-words that is not zero and fits in 21 bits and a sign is
    encoded as the instruction that branches that far, with link if asked for. *)
Theorem encode_branch_decodes offset link :
  - 2 ^ 21 <= offset < 2 ^ 21 -> offset <> 0 ->
  let '(hw1, hw2) := branch_halfwords (encode_branch offset link) in
  0 <= hw1 < 2 ^ 16 /\ 0 <= hw2 < 2 ^ 16 /\ decode_branch hw1 hw2 = Some (link, 2 * offset).
Proof.
  intros Ho Hz. rewrite encode_branch_halfwords by done.
  pose proof (Z.mod_pos_bound (offset / 2 ^ 11) (2 ^ 10) ltac:(lia)) as H10.
  pose proof (Z.mod_pos_bound offset (2 ^ 11) ltac:(lia)) as H11.
  split; [destruct (offset <? 0); lia|]. split; [destruct link; lia|].
  rewrite decode_branch_fields by done. do 2 f_equal.
  destruct (Z.ltb_spec offset 0); dlia.
Qed.

Lemma encode_branch_decodes_witness :
  decode_branch 0xF7FF 0xBFFE = Some (false, 2 * -2).
Proof. exact (proj2 (proj2 (encode_branch_decodes (-2) false ltac:(lia) ltac:(lia)))). Defined.

(** Further away the I bits are taken from the wrong bits of the offset, and a distance
    of zero gets the sign of a negative one. *)
Theorem encode_branch_far :
  let '(hw1, hw2) := branch_halfwords (encode_branch (2 ^ 21) false) in
  decode_branch hw1 hw2 = Some (false, 2 * 0) /\
  let '(hw1, hw2) := branch_halfwords (encode_branch 0 false) in
  decode_branch hw1 hw2 = Some (false, 2 * - 2 ^ 23).
Proof. vm_compute. split; reflexivity. Qed.
