(* ===== verification/Loops.v ===== *)
(** * Loops and sorting of the build scripts

    A loop of Python whose body may raise an exception is [foldM]; [sorted_by] is
    [sorted] with a key, of which the scripts use that it is stable. *)

From Stdlib Require Import Sorted.
From S2P Require Import Prelude.

(** ** Loops *)

(** A loop that may raise an exception. *)
Fixpoint foldM {A S} (f : S -> A -> option S) (s : S) (l : list A) : option S :=
  match l with
  | [] => Some s
  | x :: l => s ← f s x; foldM f s l
  end.

(** [sorted(l, key=key)], by insertion: elements with the same key keep their order. *)
Fixpoint insert_by {A} (key : A -> Z) (x : A) (l : list A) : list A :=
  match l with
  | [] => [x]
  | y :: l => if key x <=? key y then x :: y :: l else y :: insert_by key x l
  end.

Definition sorted_by {A} (key : A -> Z) (l : list A) : list A := foldr (insert_by key) [] l.

Lemma foldM_app {A S} (f : S -> A -> option S) s l1 l2 :
  foldM f s (l1 ++ l2) = (s ← foldM f s l1; foldM f s l2).
Proof. revert s. induction l1 as [|x l1 IH]; intros s; [done|]. cbn. destruct (f s x); [apply IH|done]. Qed.

(** An invariant of a loop that knows what it has seen and what is left. *)
Lemma foldM_inv {A S} (f : S -> A -> option S) (I : list A -> S -> Prop) l s s' :
  (forall P x Q s s', l = P ++ x :: Q -> I P s -> f s x = Some s' -> I (P ++ [x]) s') ->
  I [] s -> foldM f s l = Some s' -> I l s'.
Proof.
  intros Hstep. assert (forall P Q s, l = P ++ Q -> I P s -> foldM f s Q = Some s' -> I l s') as H.
  { intros P Q. revert P. induction Q as [|x Q IH]; intros P s0 ->.
    - rewrite app_nil_r. cbn. by intros ? [= <-].
    - intros HI (s1 & Hs1 & Hs')%bind_Some. apply (IH (P ++ [x]) s1); [by rewrite <- app_assoc| |done].
      by eapply Hstep. }
  apply (H []); done.
Qed.

(** The same for a loop that always goes on. *)
Lemma foldM_total {A S} (f : S -> A -> option S) (I : list A -> S -> Prop) l s :
  (forall P x Q s, l = P ++ x :: Q -> I P s -> exists s', f s x = Some s' /\ I (P ++ [x]) s') ->
  I [] s -> exists s', foldM f s l = Some s' /\ I l s'.
Proof.
  intros Hstep. assert (forall P Q s, l = P ++ Q -> I P s -> exists s', foldM f s Q = Some s' /\ I l s') as H.
  { intros P Q. revert P. induction Q as [|x Q IH]; intros P s0 ->.
    - rewrite app_nil_r. cbn. eauto.
    - intros HI. destruct (Hstep P x Q s0 eq_refl HI) as (s1 & Hs1 & HI1). cbn [foldM]. rewrite Hs1.
      apply (IH (P ++ [x])); [by rewrite <- app_assoc|done]. }
  intros HI. by apply (H [] l).
Qed.

Lemma fold_left_inv {A S} (f : S -> A -> S) (I : list A -> S -> Prop) l s :
  (forall P x Q s, l = P ++ x :: Q -> I P s -> I (P ++ [x]) (f s x)) -> I [] s -> I l (fold_left f l s).
Proof.
  intros Hstep HI. assert (foldM (fun s x => Some (f s x)) s l = Some (fold_left f l s)) as E.
  { clear. revert s. induction l as [|x l IH]; intros s; [done|]. apply IH. }
  destruct (foldM_total (fun s x => Some (f s x)) I l s) as (s' & Es & HI'); [|done|by congruence].
  intros P x Q s0 Hl H0. eauto.
Qed.

(** A loop over indices is a loop over what is found there. *)
Lemma foldM_index {A S} (f : S -> Z -> option S) (g : S -> A -> option S) (l : list A) (a : Z) s :
  (forall i x s, l !! i = Some x -> f s (a + Z.of_nat i) = g s x) ->
  foldM f s (seqZ a (len l)) = foldM g s l.
Proof.
  revert a s. induction l as [|x l IH]; intros a s H; [done|].
  cbn [length]. rewrite Nat2Z.inj_succ, seqZ_cons, Z.pred_succ by lia. cbn [foldM].
  pose proof (H 0%nat x s eq_refl) as H0. rewrite Z.add_0_r in H0. rewrite H0.
  destruct (g s x); [|done]. apply IH. intros i y s' Hi. rewrite <- (H (Datatypes.S i) y s' Hi). f_equal. lia.
Qed.

Lemma foldM_bind {A B S} (f : S -> A -> option S) (g : S -> B -> option S) (h : A -> list B) l s :
  (forall x s, x ∈ l -> f s x = foldM g s (h x)) -> foldM f s l = foldM g s (l ≫= h).
Proof.
  revert s. induction l as [|x l IH]; intros s H; [done|]. cbn. rewrite foldM_app, (H x) by by left.
  destruct (foldM g s (h x)); [|done]. apply IH. intros. apply H. by right.
Qed.

(** ** Parts of lists *)

Lemma filter_sublist {A} (P : A -> Prop) `{!forall x, Decision (P x)} (l : list A) : filter P l `sublist_of` l.
Proof.
  induction l as [|x l IH]; [done|]. rewrite filter_cons. case_decide; [by apply sublist_skip|by apply sublist_cons].
Qed.

Lemma NoDup_filter_fst {A B} (P : A * B -> Prop) `{!forall x, Decision (P x)} (l : list (A * B)) :
  NoDup l.*1 -> NoDup (filter P l).*1.
Proof. intros Hnd. eapply sublist_NoDup; [exact Hnd|]. apply fmap_sublist, filter_sublist. Qed.

(** ** Sorting *)

Section Sorted.
Context {A : Type} (key : A -> Z).

Lemma insert_by_perm x l : insert_by key x l ≡ₚ x :: l.
Proof. induction l as [|y l IH]; cbn; [done|]. case_match; [done|]. rewrite IH. apply Permutation_swap. Qed.

Lemma sorted_by_perm l : sorted_by key l ≡ₚ l.
Proof. induction l as [|x l IH]; cbn; [done|]. by rewrite insert_by_perm, IH. Qed.

Lemma insert_by_sorted x l : StronglySorted (fun a b => key a <= key b) l ->
  StronglySorted (fun a b => key a <= key b) (insert_by key x l).
Proof.
  induction 1 as [|y l Hl IH Hy]; cbn; [by repeat constructor|]. destruct (Z.leb_spec (key x) (key y)).
  - constructor; [by constructor|]. constructor; [done|]. eapply Forall_impl; [exact Hy|]. cbn. lia.
  - constructor; [done|]. rewrite insert_by_perm. constructor; [lia|done].
Qed.

Lemma sorted_by_sorted l : StronglySorted (fun a b => key a <= key b) (sorted_by key l).
Proof. induction l as [|x l IH]; cbn; [constructor|by apply insert_by_sorted]. Qed.

(** Elements with the same key stay in their order. *)
Lemma sorted_by_stable l k : filter (fun x => key x = k) (sorted_by key l) = filter (fun x => key x = k) l.
Proof.
  assert (forall x l, filter (fun x => key x = k) (insert_by key x l) = filter (fun x => key x = k) (x :: l)) as H.
  { intros x l'. induction l' as [|y l' IH]; [done|]. cbn [insert_by]. destruct (Z.leb_spec (key x) (key y)); [done|].
    rewrite filter_cons, IH, !filter_cons. repeat case_decide; (done || lia). }
  induction l as [|x l IH]; [done|]. cbn [sorted_by foldr]. rewrite H, !filter_cons.
  unfold sorted_by in IH. by rewrite IH.
Qed.
End Sorted.
