(* ===== verification/Regex.v ===== *)
(** * Regular expressions of the build scripts

    The part of Python's [re] that the scripts use, on strings of bytes and with the flag
    MULTILINE.  [matches_from] lists the matches at a position in the order in which the
    backtracking matcher tries them: the first one is the result.  [parse_seq] reads a
    pattern.  An error of the pattern is [None]. *)

From stdpp Require Import gmap strings.
From S2P Require Import Prelude Bytes.

(** ** Syntax *)

Inductive cls :=
| CLit (c : Z)
| CDot
| CDigit
| CSpace
| CWord
| CSet (negated : bool) (ranges : list (Z * Z)).

Definition in_cls (c : cls) (x : Z) : bool :=
  match c with
  | CLit c => x =? c
  | CDot => negb (x =? 10)
  | CDigit => (48 <=? x) && (x <=? 57)
  | CSpace => (x =? 32) || ((9 <=? x) && (x <=? 13))
  | CWord => ((48 <=? x) && (x <=? 57)) || ((65 <=? x) && (x <=? 90)) || ((97 <=? x) && (x <=? 122)) || (x =? 95)
  | CSet negated ranges => xorb negated (existsb (fun r => (r.1 <=? x) && (x <=? r.2)) ranges)
  end.

(** Repetition is of single characters only, which is greedy in all patterns. *)
Inductive regex :=
| Eps
| Cls (c : cls)
| Star (c : cls)
| Seq (r1 r2 : regex)
| Alt (r1 r2 : regex)
| Group (name : string) (r : regex)
| Bol
| Eol.

Definition Plus (c : cls) : regex := Seq (Cls c) (Star c).
Definition Opt (r : regex) : regex := Alt r Eps.

(** ** Matching *)

(** A position in a string: the character before it and the string from it on, with the
    groups that have been captured. *)
Record pos := mk_pos { prev : option Z; rest : list Z; caps : gmap string (list Z) }.

Definition at_start (s : list Z) : pos := mk_pos None s ∅.

(** The positions after repetitions of a class, the longest first. *)
Fixpoint repeat_from (c : cls) (prev : option Z) (rest : list Z) : list (option Z * list Z) :=
  match rest with
  | x :: rest' =>
      if in_cls c x then repeat_from c (Some x) rest' ++ [(prev, rest)] else [(prev, rest)]
  | [] => [(prev, [])]
  end.

(** The text between two positions. *)
Definition between (p p' : pos) : list Z := take (length (rest p) - length (rest p')) (rest p).

Definition is_bol (p : pos) : bool :=
  match prev p with None => true | Some x => x =? 10 end.
Definition is_eol (p : pos) : bool :=
  match rest p with [] => true | x :: _ => x =? 10 end.

Fixpoint matches_from (r : regex) (p : pos) : list pos :=
  match r with
  | Eps => [p]
  | Cls c =>
      match rest p with
      | x :: rest => if in_cls c x then [mk_pos (Some x) rest (caps p)] else []
      | [] => []
      end
  | Star c => (fun pr => mk_pos pr.1 pr.2 (caps p)) <$> repeat_from c (prev p) (rest p)
  | Seq r1 r2 => matches_from r1 p ≫= matches_from r2
  | Alt r1 r2 => matches_from r1 p ++ matches_from r2 p
  | Group name r =>
      (fun p' => mk_pos (prev p') (rest p') (<[name := between p p']> (caps p'))) <$> matches_from r p
  | Bol => if is_bol p then [p] else []
  | Eol => if is_eol p then [p] else []
  end.

(** A match: where it starts and where it ends, with its groups. *)
Definition match_object : Type := pos * pos.

(** [re.search]: the first position at which there is a match. *)
Fixpoint search_from (r : regex) (prev : option Z) (rest : list Z) : option match_object :=
  let p := mk_pos prev rest ∅ in
  match matches_from r p with
  | p' :: _ => Some (p, p')
  | [] => match rest with [] => None | x :: rest => search_from r (Some x) rest end
  end.

(** [re.finditer]: the search goes on at the end of a match, or behind the next character
    when the match is empty. *)
Fixpoint finditer_from (fuel : nat) (r : regex) (prev : option Z) (rest : list Z) : list match_object :=
  match fuel with
  | O => []
  | S fuel =>
      match search_from r prev rest with
      | None => []
      | Some (p, p') =>
          (p, p') ::
          if decide (length (Regex.rest p) = length (Regex.rest p')) then
            match Regex.rest p' with
            | [] => []
            | x :: rest => finditer_from fuel r (Some x) rest
            end
          else finditer_from fuel r (Regex.prev p') (Regex.rest p')
      end
  end.

Definition finditer (r : regex) (s : list Z) : list match_object := finditer_from (S (length s)) r None s.

(** [m.start()] and [m.group(name)]: an error when the group is not in the pattern; all groups
    of the patterns take part in every match. *)
Definition match_pos (s : list Z) (m : match_object) : Z := len s - len (rest m.1).
Definition group (m : match_object) (name : string) : option (list Z) := caps m.2 !! name.

(** ** Patterns *)

(** A character or an escape of one. *)
Definition escape (c : Z) : cls :=
  if c =? 100 then CDigit else if c =? 115 then CSpace else if c =? 119 then CWord
  else if c =? 110 then CLit 10 else CLit c.

(** The ranges of a set up to its bracket. *)
Fixpoint parse_set (s : list Z) : option (list (Z * Z) * list Z) :=
  match s with
  | 93 :: s => Some ([], s)
  | a :: 45 :: b :: s => '(ranges, s) ← parse_set s; Some ((a, b) :: ranges, s)
  | a :: s => '(ranges, s) ← parse_set s; Some ((a, a) :: ranges, s)
  | [] => None
  end.

(** The name of a group up to its bracket. *)
Fixpoint parse_name (s : list Z) : option (string * list Z) :=
  match s with
  | 62 :: s => Some (EmptyString, s)
  | c :: s => '(name, s) ← parse_name s; Some (String (Ascii.ascii_of_nat (Z.to_nat c)) name, s)
  | [] => None
  end.

Inductive atom := ACls (c : cls) | ARegex (r : regex).

Fixpoint times (n : nat) (c : cls) : regex :=
  match n with O => Eps | S n => Seq (Cls c) (times n c) end.

(** [+], [*], [?] or [{n}] of one digit after an atom. *)
Definition postfix (a : atom) (s : list Z) : option (regex * list Z) :=
  match a, s with
  | ACls c, 43 :: s => Some (Plus c, s)
  | ACls c, 42 :: s => Some (Star c, s)
  | ACls c, 63 :: s => Some (Opt (Cls c), s)
  | ACls c, 123 :: n :: 125 :: s => Some (times (Z.to_nat (n - 48)) c, s)
  | ACls c, _ => Some (Cls c, s)
  | ARegex r, 63 :: s => Some (Opt r, s)
  | ARegex r, 43 :: _ | ARegex r, 42 :: _ | ARegex r, 123 :: _ => None
  | ARegex r, _ => Some (r, s)
  end.

Fixpoint parse_alt (fuel : nat) (s : list Z) : option (regex * list Z) :=
  match fuel with
  | O => None
  | S fuel =>
      '(r, s) ← parse_seq_fuel fuel s;
      match s with
      | 124 :: s => '(r', s) ← parse_alt fuel s; Some (Alt r r', s)
      | _ => Some (r, s)
      end
  end
with parse_seq_fuel (fuel : nat) (s : list Z) : option (regex * list Z) :=
  match fuel with
  | O => None
  | S fuel =>
      match s with
      | [] | 124 :: _ | 41 :: _ => Some (Eps, s)
      | _ =>
          '(a, s) ← parse_atom fuel s;
          '(r, s) ← postfix a s;
          '(r', s) ← parse_seq_fuel fuel s;
          Some (Seq r r', s)
      end
  end
with parse_atom (fuel : nat) (s : list Z) : option (atom * list Z) :=
  match fuel with
  | O => None
  | S fuel =>
      match s with
      | 46 :: s => Some (ACls CDot, s)
      | 94 :: s => Some (ARegex Bol, s)
      | 36 :: s => Some (ARegex Eol, s)
      | 92 :: c :: s => Some (ACls (escape c), s)
      | 91 :: 94 :: s => '(ranges, s) ← parse_set s; Some (ACls (CSet true ranges), s)
      | 91 :: s => '(ranges, s) ← parse_set s; Some (ACls (CSet false ranges), s)
      | 40 :: 63 :: 80 :: 60 :: s =>
          '(name, s) ← parse_name s;
          '(r, s) ← parse_alt fuel s;
          match s with 41 :: s => Some (ARegex (Group name r), s) | _ => None end
      | 40 :: 63 :: 58 :: s | 40 :: s =>
          '(r, s) ← parse_alt fuel s;
          match s with 41 :: s => Some (ARegex r, s) | _ => None end
      | c :: s => Some (ACls (CLit c), s)
      | [] => None
      end
  end.

(** A pattern without an alternative at its top, which can be put behind another one. *)
Definition parse_seq (pattern : list Z) : option regex :=
  '(r, s) ← parse_seq_fuel (3 * length pattern + 3) pattern;
  if decide (s = []) then Some r else None.

(** The names of the groups, of which [re.compile] refuses two that are the same. *)
Fixpoint names (r : regex) : list string :=
  match r with
  | Seq r1 r2 | Alt r1 r2 => names r1 ++ names r2
  | Group name r => name :: names r
  | _ => []
  end.
Definition checked (r : regex) : option regex := if decide (NoDup (names r)) then Some r else None.

(** [re.compile] of a pattern that is written in a script. *)
Definition compile (pattern : string) : option regex := r ← parse_seq (ascii_bytes pattern); checked r.

(** ** Other functions on strings *)

(** [s.replace(old, new)] *)
Fixpoint replace_fuel (fuel : nat) (old new s : list Z) : list Z :=
  match fuel with
  | O => s
  | S fuel =>
      if decide (take (length old) s = old) then new ++ replace_fuel fuel old new (drop (length old) s)
      else match s with [] => [] | x :: s => x :: replace_fuel fuel old new s end
  end.
Definition replace (old new : string) (s : list Z) : list Z :=
  replace_fuel (length s) (ascii_bytes old) (ascii_bytes new) s.

(** [int(s, base)] of digits *)
Definition digit_value (c : Z) : option Z :=
  if (48 <=? c) && (c <=? 57) then Some (c - 48)
  else if (97 <=? c) && (c <=? 102) then Some (c - 87) else None.

Fixpoint int_from (base acc : Z) (s : list Z) : option Z :=
  match s with
  | [] => Some acc
  | c :: s => d ← digit_value c; if d <? base then int_from base (acc * base + d) s else None
  end.
Definition int_of (base : Z) (s : list Z) : option Z := if decide (s = []) then None else int_from base 0 s.
