(* ===== verification/RegexProps.v ===== *)
(** * What the matcher of regular expressions computes

    [matches] says when a regular expression matches between two positions, without an
    order.  [matches_from] lists exactly these ends, [search_from] finds the first
    position with a match, and [finditer] covers all of them with matches that do not
    overlap. *)

From Stdlib Require Import Sorted.
From stdpp Require Import gmap strings.
From S2P Require Import Prelude Bytes Regex.

(** ** The language of an expression *)

Inductive matches : regex -> pos -> pos -> Prop :=
| matches_eps p : matches Eps p p
| matches_cls c v x s k : in_cls c x = true -> matches (Cls c) (mk_pos v (x :: s) k) (mk_pos (Some x) s k)
| matches_star_end c p : matches (Star c) p p
| matches_star_step c v x s k p :
    in_cls c x = true -> matches (Star c) (mk_pos (Some x) s k) p -> matches (Star c) (mk_pos v (x :: s) k) p
| matches_seq r1 r2 p q p' : matches r1 p q -> matches r2 q p' -> matches (Seq r1 r2) p p'
| matches_alt_l r1 r2 p p' : matches r1 p p' -> matches (Alt r1 r2) p p'
| matches_alt_r r1 r2 p p' : matches r2 p p' -> matches (Alt r1 r2) p p'
| matches_group name r p p' :
    matches r p p' -> matches (Group name r) p (mk_pos (prev p') (rest p') (<[name := between p p']> (caps p')))
| matches_bol p : is_bol p = true -> matches Bol p p
| matches_eol p : is_eol p = true -> matches Eol p p.

Lemma repeat_from_matches c v s k w t :
  (w, t) ∈ repeat_from c v s <-> matches (Star c) (mk_pos v s k) (mk_pos w t k).
Proof.
  revert v. induction s as [|x s IH]; intros v; cbn [repeat_from].
  - rewrite list_elem_of_singleton. split; [intros [= -> ->]; constructor|]. by inversion 1.
  - destruct (in_cls c x) eqn:E.
    + rewrite elem_of_app, list_elem_of_singleton, IH. split.
      * intros [H|[= -> ->]]; by constructor.
      * inversion 1; subst; auto.
    + rewrite list_elem_of_singleton. split; [intros [= -> ->]; constructor|]. inversion 1; subst; [done|congruence].
Qed.

Lemma matches_star_caps c p p' : matches (Star c) p p' -> caps p' = caps p.
Proof. remember (Star c) as r eqn:E. induction 1; try done; injection E as ->; auto. Qed.

(** The matcher finds all matches, and only them. *)
Theorem matches_from_spec r p p' : p' ∈ matches_from r p <-> matches r p p'.
Proof.
  revert p p'. induction r as [|c|c|r1 IH1 r2 IH2|r1 IH1 r2 IH2|name r IH| |]; intros [v s k] p'; cbn [matches_from].
  - rewrite list_elem_of_singleton. split; [intros ->; constructor|by inversion 1].
  - destruct s as [|x s]; cbn [rest]; [split; [by intros ?%elem_of_nil|by inversion 1]|].
    destruct (in_cls c x) eqn:E.
    + rewrite list_elem_of_singleton. split; [intros ->; by constructor|by inversion 1].
    + split; [by intros ?%elem_of_nil|inversion 1; congruence].
  - rewrite list_elem_of_fmap. split.
    + intros ([w t] & -> & H). by apply repeat_from_matches.
    + destruct p' as [w t k']. intros H. pose proof (matches_star_caps _ _ _ H) as E. cbn in E. subst k'.
      exists (w, t). split; [done|]. by apply (repeat_from_matches c v s k).
  - rewrite list_elem_of_bind. setoid_rewrite IH1. setoid_rewrite IH2. split.
    + intros (q & H2 & H1). by econstructor.
    + inversion 1; subst. eauto.
  - rewrite elem_of_app, IH1, IH2. split; [intros [?|?]; by constructor|]. inversion 1; subst; auto.
  - rewrite list_elem_of_fmap. setoid_rewrite IH. split; [intros (q & -> & H); by constructor|].
    inversion 1; subst. eauto.
  - destruct (is_bol _) eqn:E; [rewrite list_elem_of_singleton|].
    + split; [intros ->; by constructor|by inversion 1].
    + split; [by intros ?%elem_of_nil|]. inversion 1; congruence.
  - destruct (is_eol _) eqn:E; [rewrite list_elem_of_singleton|].
    + split; [intros ->; by constructor|by inversion 1].
    + split; [by intros ?%elem_of_nil|]. inversion 1; congruence.
Qed.

(** ** Positions *)

(** The character before what follows [w]. *)
Definition last_of (v : option Z) (w : list Z) : option Z := match last w with Some x => Some x | None => v end.

Lemma last_of_app v w1 w2 : last_of v (w1 ++ w2) = last_of (last_of v w1) w2.
Proof. unfold last_of. rewrite last_app. by destruct (last w2). Qed.

Lemma last_of_cons v x w : last_of v (x :: w) = last_of (Some x) w.
Proof. apply (last_of_app v [x] w). Qed.

(** [p'] is [w] further on than [p]. *)
Definition advances (p : pos) (w : list Z) (p' : pos) : Prop :=
  rest p = w ++ rest p' /\ prev p' = last_of (prev p) w.

Lemma advances_refl p : advances p [] p.
Proof. done. Qed.

Lemma advances_trans p w q w' p' : advances p w q -> advances q w' p' -> advances p (w ++ w') p'.
Proof. intros [H1 H2] [H3 H4]. split; [by rewrite H1, H3, app_assoc|by rewrite last_of_app, H4, H2]. Qed.

Lemma advances_cons v x s k w p' : advances (mk_pos (Some x) s k) w p' -> advances (mk_pos v (x :: s) k) (x :: w) p'.
Proof. apply (advances_trans (mk_pos v (x :: s) k) [x] (mk_pos (Some x) s k)). done. Qed.

Lemma matches_advances r p p' : matches r p p' -> exists w, advances p w p' /\ between p p' = w.
Proof.
  assert (forall p w p', advances p w p' -> between p p' = w) as Hb.
  { intros q w q' [H _]. unfold between. rewrite H, length_app.
    replace (length w + length (rest q') - length (rest q'))%nat with (length w) by lia. apply take_app_length. }
  intros H. assert (exists w, advances p w p') as [w Hw]; [|eauto].
  induction H as [| | |c v x s k p' _ _ [w IH]|r1 r2 p q p' _ [w1 IH1] _ [w2 IH2]|r1 r2 p p' _ [w IH]
    |r1 r2 p p' _ [w IH]|name r p p' _ [w IH]| |]; eauto using advances_refl, advances_cons, advances_trans.
Qed.

(** ** Groups and repetitions *)

(** What a match captures does not depend on what has been captured before. *)
Lemma matches_rebase r p p' : matches r p p' -> exists k0,
  caps p' = k0 ∪ caps p /\ dom k0 ⊆ list_to_set (C := gset string) (names r) /\
  forall k, matches r (mk_pos (prev p) (rest p) k) (mk_pos (prev p') (rest p') (k0 ∪ k)).
Proof.
  induction 1 as [p|c v x s k E|c p|c v x s k p E H IH|r1 r2 p q p' H1 IH1 H2 IH2|r1 r2 p p' H IH|r1 r2 p p' H IH
    |name r p p' H IH|p E|p E]; cbn [prev rest caps names].
  1-3, 9-10: exists ∅; split; [by rewrite left_id_L by apply _|split; [set_solver|]];
    intros k'; rewrite left_id_L by apply _; by constructor.
  - destruct IH as (k0 & E0 & D & IH). exists k0. split_and!; [done|done|]. intros k'. constructor; [done|apply IH].
  - destruct IH1 as (k1 & E1 & D1 & IH1), IH2 as (k2 & E2 & D2 & IH2). exists (k2 ∪ k1). split_and!.
    + by rewrite E2, E1, assoc_L by apply _.
    + rewrite dom_union_L. set_solver.
    + intros k'. eapply matches_seq; [apply IH1|]. rewrite <- (assoc_L (∪) k2) by apply _. apply (IH2 (k1 ∪ k')).
  - destruct IH as (k0 & E0 & D & IH). exists k0. split_and!; [done|set_solver|]. intros k'. apply matches_alt_l, IH.
  - destruct IH as (k0 & E0 & D & IH). exists k0. split_and!; [done|set_solver|]. intros k'. apply matches_alt_r, IH.
  - destruct IH as (k0 & E0 & D & IH). exists (<[name := between p p']> k0). split_and!.
    + by rewrite E0, insert_union_l.
    + rewrite dom_insert_L. set_solver.
    + intros k'. rewrite <- insert_union_l. exact (matches_group name r _ _ (IH k')).
Qed.

(** A group that is not in the expression keeps what it has captured. *)
Lemma matches_keeps r p p' name : matches r p p' -> name ∉ names r -> caps p' !! name = caps p !! name.
Proof.
  intros (k0 & -> & D & _)%matches_rebase H. rewrite lookup_union_r; [done|]. apply not_elem_of_dom. set_solver.
Qed.

Definition all_in (c : cls) (w : list Z) : Prop := Forall (fun x => in_cls c x = true) w.

Lemma matches_star_inv c p p' : matches (Star c) p p' -> exists w, all_in c w /\ advances p w p' /\ caps p' = caps p.
Proof.
  remember (Star c) as r eqn:E. induction 1 as [| |c' p|c' v x s k p Hx _ IH| | | | | |]; try done; injection E as ->.
  - exists []. by split; [constructor|].
  - destruct IH as (w & Hw & Ha & Hk); [done|]. exists (x :: w). split; [by constructor|]. split; [|done].
    by apply advances_cons.
Qed.

Lemma matches_plus_inv c p p' : matches (Plus c) p p' ->
  exists w, w <> [] /\ all_in c w /\ advances p w p' /\ caps p' = caps p.
Proof.
  inversion 1 as [| | | |r1 r2 ? q ? H1 H2| | | | |]; subst. inversion H1; subst.
  apply matches_star_inv in H2 as (w & Hw & Ha & Hk). eexists (_ :: w). split; [done|]. split; [by constructor|].
  split; [|done]. by apply advances_cons.
Qed.

Lemma matches_lit_inv c p p' : matches (Cls (CLit c)) p p' -> advances p [c] p' /\ caps p' = caps p.
Proof. inversion 1 as [|? v x s k E| | | | | | | |]; subst. by apply Z.eqb_eq in E as ->. Qed.

(** ** Searching *)

(** The result of a match at a position: the first one that the matcher tries. *)
Definition match_at (r : regex) (p p' : pos) : Prop := head (matches_from r p) = Some p'.

Lemma match_at_matches r p p' : match_at r p p' -> matches r p p'.
Proof.
  unfold match_at. intros H. apply matches_from_spec. destruct (matches_from r p); [done|]. injection H as ->. by left.
Qed.

(** Nothing matches at the positions before [w] is over. *)
Definition no_match (r : regex) (v : option Z) (s w : list Z) : Prop :=
  forall w1 x w2, w = w1 ++ x :: w2 -> matches_from r (mk_pos (last_of v w1) (drop (length w1) s) ∅) = [].

Lemma search_from_spec r v s :
  match search_from r v s with
  | Some (p, p') => exists w, advances (mk_pos v s ∅) w p /\ caps p = ∅ /\ match_at r p p' /\ no_match r v s w
  | None => forall w p, advances (mk_pos v s ∅) w p -> caps p = ∅ -> matches_from r p = []
  end.
Proof.
  revert v. induction s as [|x s IH]; intros v; cbn [search_from].
  - destruct (matches_from _ _) as [|p' l] eqn:E.
    + intros w [v' s' k] [H1 H2] Hk. cbn in *. symmetry in H1. apply app_nil in H1 as [-> ->]. by subst.
    + exists []. split_and!; [done|done|by unfold match_at; rewrite E|by intros [|] ? ?].
  - destruct (matches_from _ _) as [|p' l] eqn:E.
    + specialize (IH (Some x)). destruct (search_from r (Some x) s) as [[p p']|].
      * destruct IH as (w & Hw & Hk & Hm & Hno). exists (x :: w). split_and!; [by apply advances_cons|done|done|].
        intros [|y w1] z w2 [= <- ->]; [exact E|].
        rewrite last_of_cons. by eapply Hno.
      * intros [|y w] [v' s' k] [H1 H2] Hk; cbn in *; [subst; exact E|]. injection H1 as -> ->.
        apply (IH w); [|done]. split; [done|]. cbn. by rewrite H2, last_of_cons.
    + exists []. split_and!; [done|done|by unfold match_at; rewrite E|by intros [|] ? ?].
Qed.

(** ** All matches *)

Lemma advances_length p w p' : advances p w p' -> length (rest p) = (length w + length (rest p'))%nat.
Proof. intros [H _]. by rewrite H, length_app. Qed.

(** Of two positions behind one, the further one is behind the other. *)
Lemma advances_split a w p w' q :
  advances a w p -> advances a w' q -> (length (rest q) <= length (rest p))%nat -> exists u, w' = w ++ u /\ advances p u q.
Proof.
  intros Hp Hq Hle. pose proof (advances_length _ _ _ Hp). pose proof (advances_length _ _ _ Hq).
  destruct Hp as [H1 H2], Hq as [H3 H4]. rewrite H1 in H3.
  assert (w' = w ++ drop (length w) w') as E.
  { rewrite <- (take_drop (length w) w') at 1. f_equal.
    apply (f_equal (take (length w))) in H3. rewrite take_app_length, take_app_le in H3 by lia. done. }
  exists (drop (length w) w'). split; [done|]. split.
  - rewrite E, <- app_assoc in H3. by apply app_inv_head in H3.
  - by rewrite H4, E, last_of_app, <- H2, <- E.
Qed.

Lemma advances_nil p q : advances p [] q -> caps p = caps q -> p = q.
Proof. destruct p, q. intros [H1 H2] H. cbn in *. unfold last_of in H2. cbn in H2. by subst. Qed.

(** [p] is a position of the string [s] behind [v]. *)
Definition position (v : option Z) (s : list Z) (p : pos) : Prop :=
  caps p = ∅ /\ exists w, advances (mk_pos v s ∅) w p.

(** A match comes before another one. *)
Definition match_before (m1 m2 : match_object) : Prop :=
  (length (rest m2.1) <= length (rest m1.2))%nat /\ (length (rest m2.1) < length (rest m1.1))%nat.

(** The position is where the match starts, or inside of it. *)
Definition covers (m : match_object) (q : pos) : Prop :=
  q = m.1 \/ (length (rest m.2) < length (rest q) < length (rest m.1))%nat.

Record found (r : regex) (v : option Z) (s : list Z) (ms : list match_object) : Prop := {
  found_match m : m ∈ ms -> position v s m.1 /\ match_at r m.1 m.2;
  found_order : StronglySorted match_before ms;
  found_all q : position v s q -> matches_from r q <> [] -> exists m, m ∈ ms /\ covers m q;
}.

Lemma found_nil r v s : (forall q, position v s q -> matches_from r q = []) -> found r v s [].
Proof. intros H. split; [by intros m ?%elem_of_nil|constructor|]. intros q Hq Hm. by destruct Hm; apply H. Qed.

Lemma position_before r v s w p q : advances (mk_pos v s ∅) w p -> no_match r v s w -> position v s q ->
  matches_from r q <> [] -> (length (rest q) <= length (rest p))%nat.
Proof.
  intros Hw Hno [Hk [w' Hq]] Hm. destruct (le_lt_dec (length (rest q)) (length (rest p))) as [|Hlt]; [done|].
  destruct (advances_split _ _ _ _ _ Hq Hw) as ([|x u] & -> & Hu); [lia| |].
  - apply advances_length in Hu. cbn in Hu. lia.
  - destruct Hm. rewrite <- (Hno w' x u eq_refl). f_equal. destruct Hq as [H1 H2]. destruct q as [v' s' k]. cbn in *. subst.
    by rewrite drop_app_length.
Qed.

(** A first match, and those in the rest [t] of the string. *)
Lemma found_cons r v s w p p' w' v' t ms :
  advances (mk_pos v s ∅) w p -> caps p = ∅ -> match_at r p p' -> no_match r v s w ->
  advances (mk_pos v s ∅) w' (mk_pos v' t ∅) ->
  (length t <= length (rest p'))%nat -> (length t < length (rest p))%nat ->
  (forall q, position v s q -> (length (rest q) < length (rest p))%nat -> (length (rest q) <= length (rest p'))%nat ->
     (length (rest q) <= length t)%nat) ->
  found r v' t ms -> found r v s ((p, p') :: ms).
Proof.
  intros Hw Hk Hm Hno Ht Hle Hlt Hrest [Fm Fo Fa]. split.
  - intros m [->|H]%elem_of_cons; [split; [split; eauto|done]|]. destruct (Fm m H) as [[Hmk [u Hu]] ?].
    split; [|done]. split; [done|]. eexists. eapply advances_trans; [exact Ht|]. exact Hu.
  - constructor; [done|]. apply Forall_forall. intros m H. destruct (Fm m H) as [[_ [u Hu]] _].
    apply advances_length in Hu. cbn in Hu. unfold match_before. cbn. lia.
  - intros q Hq Hmq. pose proof (position_before r v s w p q Hw Hno Hq Hmq) as Hqp.
    destruct Hq as [Hkq [wq Hwq]]. destruct (decide (length (rest q) = length (rest p))) as [E|Hne].
    + exists (p, p'). split; [by left|]. left. cbn [fst].
      destruct (advances_split _ _ _ _ _ Hw Hwq) as ([|x u] & _ & Hu); [lia| |].
      * symmetry. apply advances_nil; [done|congruence].
      * apply advances_length in Hu. cbn in Hu. lia.
    + destruct (le_lt_dec (length (rest q)) (length (rest p'))) as [Hq'|Hq'].
      * assert (length (rest q) <= length t)%nat as Hqt by (apply Hrest; [split; eauto|lia|done]).
        destruct (Fa q) as (m & Hin & Hc); [split; [done|]|done|exists m; split; [by right|done]].
        destruct (advances_split _ _ _ _ _ Ht Hwq Hqt) as (u & _ & Hu). eauto.
      * exists (p, p'). split; [by left|]. right. cbn. lia.
Qed.

(** A match at the end of the string is the last one. *)
Lemma found_last r v s w p p' :
  advances (mk_pos v s ∅) w p -> caps p = ∅ -> match_at r p p' -> no_match r v s w -> rest p = [] ->
  found r v s [(p, p')].
Proof.
  intros Hw Hk Hm Hno E. split.
  - intros m ->%list_elem_of_singleton. split; [split; eauto|done].
  - by repeat constructor.
  - intros q Hq Hmq. pose proof (position_before r v s w p q Hw Hno Hq Hmq) as Hqp. rewrite E in Hqp. cbn in Hqp.
    destruct Hq as [Hkq [wq Hwq]]. exists (p, p'). split; [by left|]. left. cbn.
    destruct (advances_split _ _ _ _ _ Hw Hwq) as ([|x u] & _ & Hu); [rewrite E; cbn; lia| |].
    + symmetry. apply advances_nil; [done|congruence].
    + apply advances_length in Hu. rewrite E in Hu. cbn in Hu. lia.
Qed.

Lemma finditer_from_found r v s fuel : (length s < fuel)%nat -> found r v s (finditer_from fuel r v s).
Proof.
  revert v s. induction fuel as [|fuel IH]; intros v s Hf; [lia|]. cbn [finditer_from].
  pose proof (search_from_spec r v s) as H. destruct (search_from r v s) as [[p p']|].
  2:{ apply found_nil. intros q [Hk [w Hw]]. by eapply H. }
  destruct H as (w & Hw & Hk & Hm & Hno).
  destruct (matches_advances r p p' (match_at_matches _ _ _ Hm)) as (u & Hu & _).
  pose proof (advances_length _ _ _ Hw) as Lw. pose proof (advances_length _ _ _ Hu) as Lu. cbn [rest] in Lw.
  assert (advances (mk_pos v s ∅) (w ++ u) (mk_pos (prev p') (rest p') ∅)) as Hwu
    by (eapply advances_trans; [exact Hw|exact Hu]).
  case_decide as Hd.
  - destruct (rest p') as [|x t] eqn:E.
    + apply (found_last r v s w); try done. by apply length_zero_iff_nil.
    + cbn [length] in *. eapply found_cons with (v' := Some x) (t := t); try done; try lia.
      * eapply (advances_trans _ _ _ [x]); [exact Hwu|done].
      * rewrite E. cbn. lia.
      * apply IH. lia.
  - eapply found_cons with (t := rest p'); try done; try lia.
    apply IH. lia.
Qed.

