(* ===== verification/Disasm.v ===== *)
(** * Reading disassemblies (patch_tools.py)

    The text that objdump prints is searched with regular expressions: for the addresses of
    the instructions of the firmware, and for the functions of the SDK's library. *)

From Stdlib Require Import Ascii.
From stdpp Require Import gmap strings.
From S2P Require Import Prelude Bytes Loops Regex.

(** A string of Python as one of Rocq. *)
Definition string_of (s : list Z) : string :=
  String.string_of_list_ascii ((fun c => Ascii.ascii_of_nat (Z.to_nat c)) <$> s).

(** [target_deasm.replace("\t", " ").replace("fp", "r11").replace("sl", "r10")] *)
Definition normalise (deasm : list Z) : list Z :=
  replace "sl" "r10" (replace "fp" "r11" (replace (String "009"%char EmptyString) " " deasm)).

Definition hex_digits : cls := CSet false [(97, 102); (48, 57)].

(** ["$\s+([a-f0-9]+):"], with the group by its number *)
Definition address_regex : regex :=
  Seq Eol (Seq (Plus CSpace) (Seq (Group "1" (Plus hex_digits)) (Cls (CLit 58)))).

(** Where the line of an instruction starts, by its address. *)
Definition target_deasm_index_of (deasm : list Z) : option (gmap Z Z) :=
  foldM (fun index addr_match =>
    digits ← group addr_match "1";
    addr ← int_of 16 digits;
    Some (<[addr := match_pos deasm addr_match]> index)) ∅ (finditer address_regex deasm).

Definition sdk_func_pattern : string :=
  "b\.w.+<(?P<func_name>[^>]+)>.*\n.+\.word\s+(?P<idx>0x[a-f0-9]{8})".

(** The offsets of the functions of the SDK in the jump table, from the disassembly of the
    library.  The index has the prefix 0x. *)
Definition func_offset_map_of (libpebble_deasm : list Z) : option (gmap string Z) :=
  re ← compile sdk_func_pattern;
  foldM (fun func_offset_map sdk_func =>
    func_name ← group sdk_func "func_name";
    idx ← group sdk_func "idx";
    offset ← int_of 16 (drop 2 idx);
    Some (<[string_of func_name := offset]> func_offset_map)) ∅ (finditer re libpebble_deasm).
