(* ===== verification/Patcher.v ===== *)
(** * Linking the patch into the firmware (patch_tools.py)

    A [Patcher] finds functions of the firmware, queues changes to it, compiles the patch
    and writes the patched image.  An exception is [None], or an [exn] where the scripts
    tell them apart.  The disassemblies and the results of the compiler and linker come
    from external tools: they are parameters. *)

From Stdlib Require Import Ascii.
From stdpp Require Import gmap sorting strings pretty.
From S2P Require Import Prelude Bytes Thumb Regex Disasm.

(** ** Text *)

Definition nl : string := String "010"%char EmptyString.
Definition tab : string := String "009"%char EmptyString.

Definition hex_digit (d : Z) : ascii :=
  Ascii.ascii_of_nat (Z.to_nat (if d <? 10 then 48 + d else 87 + d)).

(** ["%x" % v] *)
Fixpoint hex_pos (fuel : nat) (v : Z) (acc : string) : string :=
  match fuel with
  | O => acc
  | S fuel =>
      let acc := String (hex_digit (v mod 16)) acc in
      if v <? 16 then acc else hex_pos fuel (v / 16) acc
  end.
Definition hex (v : Z) : string :=
  if v <? 0 then String "-"%char (hex_pos (S (Z.to_nat (Z.log2 (- v)))) (- v) EmptyString)
  else hex_pos (S (Z.to_nat (Z.log2 v))) v EmptyString.

(** [s.replace("\n", "\n\t")] *)
Fixpoint indent (s : string) : string :=
  match s with
  | EmptyString => EmptyString
  | String c s => if decide (c = "010"%char) then String c (tab +:+ indent s) else String c (indent s)
  end.

(** [s.upper()] on ASCII *)
Definition upper_char (c : ascii) : ascii :=
  let n := Ascii.nat_of_ascii c in
  if decide (97 <= n <= 122)%nat then Ascii.ascii_of_nat (n - 32) else c.
Fixpoint upper (s : string) : string :=
  match s with EmptyString => EmptyString | String c s => String (upper_char c) (upper s) end.

(** ** Data *)

Inductive op :=
| PatchOverwrite (address : Z) (content : list Z)
| PatchBranchOffset (address : Z) (symbol : string) (link : bool)
| PatchAppendAsm (symbol content return_type : string)
| PatchDefineSymbol (name : string) (address : Z)
| PatchDefineMacro (name value : string).

Record MatchResult := mk_MatchResult {
  match_start : Z;
  match_end : option Z;
  markers : gmap string Z;
  groups : gmap string string;
}.

Record Patcher := mk_Patcher {
  platform : string;
  target_bin : list Z;
  target_deasm : list Z;
  target_deasm_index : gmap Z Z;
  BOOTLOADER_SIZE : Z;
  trailing_bin_content : list Z;
  MAX_IMAGE_SIZE : Z;
  symtab : gmap string Z;
  op_queue : list op;
}.

(** [self.MICROCODE_OFFSET]: where the image is in the address space. *)
Definition MICROCODE_OFFSET_at (bootloader_size : Z) : Z := 0x8000000 + bootloader_size.
Definition MICROCODE_OFFSET (p : Patcher) : Z := MICROCODE_OFFSET_at (BOOTLOADER_SIZE p).

(** ** The symbol table of the firmware *)

(** What the pattern of the jump table has at a position. *)
Inductive pattern_byte := AnyByte | TheByte (b : Z).

Definition matches_byte (p : pattern_byte) (b : Z) : bool :=
  match p with AnyByte => true | TheByte b' => b =? b' end.

Fixpoint matches (pattern : list pattern_byte) (s : list Z) : bool :=
  match pattern, s with
  | [], _ => true
  | p :: pattern, b :: s => matches_byte p b && matches pattern s
  | _ :: _, [] => false
  end.

(** [next(re.finditer(pattern, s)).start()]: the first match. *)
Fixpoint find_match (pattern : list pattern_byte) (s : list Z) : option Z :=
  if matches pattern s then Some 0
  else match s with
       | [] => None
       | _ :: s => i ← find_match pattern s; Some (i + 1)
       end.

(** Obsolete functions are zero in the table, and the others point into flash. *)
Fixpoint jump_table_pattern (last_idx : Z) (idxs : list Z) : list pattern_byte :=
  match idxs with
  | [] => []
  | idx :: idxs =>
      replicate (Z.to_nat (Z.max (idx - last_idx - 4) 0)) (TheByte 0)
        ++ [AnyByte; AnyByte; AnyByte; TheByte 8] ++ jump_table_pattern idx idxs
  end.

(** The address of a function in the image, from its entry in the table. *)
Definition symbol_address (bin : list Z) (microcode_offset base offset : Z) : option Z :=
  let ptr_offset := base + offset in
  words ← unpack_us [4%nat] (slice ptr_offset (ptr_offset + 4) bin);
  match words with
  | [abs_addr] =>
      if negb (Z.land abs_addr 1 =? 0) then
        Some (Z.land abs_addr (Z.lnot 1) - microcode_offset)
      else None
  | _ => None
  end.

Definition sorted_values (m : gmap string Z) : list Z := merge_sort Z.le (map_to_list m).*2.

(** [func_offset_map] is what the disassembly of the SDK's library says. *)
Definition build_symbol_table (bin : list Z) (microcode_offset : Z) (func_offset_map : gmap string Z)
    : option (gmap string Z) :=
  base ← find_match (jump_table_pattern 0 (sorted_values func_offset_map)) bin;
  entries ← mapM (fun f : string * Z => a ← symbol_address bin microcode_offset base f.2; Some (f.1, a))
              (map_to_list func_offset_map);
  Some (list_to_map entries).

(** ** Construction *)

Definition max_image_size (platform : string) (bootloader_size : Z) : option Z :=
  if decide (platform = "aplite"%string) then Some (1024 * 512 - bootloader_size)
  else if decide (platform ∈ ["basalt"; "chalk"; "diorite"]%string) then
    Some (1024 * 1024 - bootloader_size)
  else None.

(** [deasm] and [libpebble_deasm] are what objdump prints for the image and the library. *)
Definition make_patcher (platform target_bin_path : string) (bin deasm libpebble_deasm : list Z)
    : option Patcher :=
  let deasm := normalise deasm in
  deasm_index ← target_deasm_index_of deasm;
  let emulator := bool_decide (is_Some (index (ascii_bytes "qemu"%string) (ascii_bytes target_bin_path))) in
  let bootloader_size := if emulator then 0 else 0x4000 in
  let trailing := if emulator then [] else slice_from (-47) bin in
  max_size ← max_image_size platform bootloader_size;
  func_offset_map ← func_offset_map_of libpebble_deasm;
  symtab ← build_symbol_table bin (MICROCODE_OFFSET_at bootloader_size) func_offset_map;
  Some (mk_Patcher platform bin deasm deasm_index bootloader_size trailing max_size symtab []).

(** ** Addresses of instructions *)

(** The loops end only at an address of an instruction: [None] when the fuel is not
    enough to get there. *)
Fixpoint addr_step (fuel : nat) (p : Patcher) (addr step : Z) : option Z :=
  match fuel with
  | O => None
  | S fuel =>
      let addr := addr + step in
      if decide (is_Some (target_deasm_index p !! addr)) then Some addr
      else addr_step fuel p addr step
  end.

(** An exception of [assert] or another one, or a loop that has not ended. *)
Inductive exn := AssertionError | OtherError | NoFuel.

Abbreviation outcome A := (exn + A)%type.

#[export] Instance outcome_ret : MRet (sum exn) := fun A a => inr a.
#[export] Instance outcome_bind : MBind (sum exn) := fun A B f c =>
  match c with inl e => inl e | inr a => f a end.

(** An exception that is not from [assert]. *)
Definition raises {A} (o : option A) : outcome A :=
  match o with Some a => inr a | None => inl OtherError end.

Fixpoint deasm_index (fuel : nat) (p : Patcher) (addr : Z) (forward : option bool) : outcome Z :=
  match target_deasm_index p !! addr with
  | Some i => inr i
  | None =>
      match fuel, forward with
      | _, None => inl AssertionError
      | O, _ => inl NoFuel
      | S fuel, Some f => deasm_index fuel p (addr + (if f then 1 else -1)) forward
      end
  end.

(** [" %x:" % addr in self.target_deasm] *)
Definition in_deasm (p : Patcher) (addr : Z) : bool :=
  bool_decide (is_Some (index (ascii_bytes (String " "%char (hex addr +:+ ":"))) (target_deasm p))).

Definition match_symbol (p : Patcher) (symbol : string) : option MatchResult :=
  addr ← symtab p !! symbol;
  let ms : gmap string Z := {[ "TARGET"%string := addr; "JUMP"%string := addr ]} in
  let ms := if negb (in_deasm p (addr + 4)) then <["END"%string := addr + 6]> ms else ms in
  Some (mk_MatchResult addr None ms ∅).

(** ** Searching the disassembly *)

(** [s.strip()] *)
Fixpoint lstrip (s : list Z) : list Z :=
  match s with x :: s' => if in_cls CSpace x then lstrip s' else s | [] => [] end.
Definition strip (s : list Z) : list Z := rev (lstrip (rev (lstrip s))).

(** [s.split("\n")] *)
Fixpoint split_lines (line s : list Z) : list (list Z) :=
  match s with
  | [] => [line]
  | x :: s => if x =? 10 then line :: split_lines [] s else split_lines (line ++ [x]) s
  end.

(** Lines that start with a capital letter name the place of the next line. *)
Fixpoint filter_markers (lines : list (list Z)) (marker_indices : list (string * nat)) (filtered : list (list Z))
    : list (string * nat) * list (list Z) :=
  match lines with
  | [] => (marker_indices, filtered)
  | line :: lines =>
      match strip line with
      | [] => filter_markers lines marker_indices filtered
      | c :: s =>
          if (65 <=? c) && (c <=? 90) then
            filter_markers lines (marker_indices ++ [(string_of (c :: s), length filtered)]) filtered
          else filter_markers lines marker_indices (filtered ++ [c :: s])
      end
  end.

Definition addr_group (idx : nat) : string := "addr_" +:+ pretty idx.

(** A line of the disassembly: the address, the code in one or two half-words, and the
    instruction, which the pattern is about. *)
Definition line_regex (idx : nat) (pattern : regex) : regex :=
  Seq Bol (Seq (Star CSpace) (Seq (Group (addr_group idx) (Plus hex_digits)) (Seq (Cls (CLit 58))
    (Seq (Star CSpace) (Seq (Plus hex_digits) (Seq (Opt (Seq (Cls (CLit 32)) (Plus hex_digits)))
      (Seq (Star CSpace) (Seq pattern Eol)))))))).

Fixpoint lines_regex (idx : nat) (patterns : list regex) : regex :=
  match patterns with
  | [] => Eps
  | [pattern] => line_regex idx pattern
  | pattern :: patterns => Seq (line_regex idx pattern) (Seq (Cls (CLit 10)) (lines_regex (S idx) patterns))
  end.

(** An argument of [None] or 0 is false. *)
Definition truthy (addr : option Z) : option Z :=
  match addr with Some a => if a =? 0 then None else Some a | None => None end.

(** Which of the matches is taken. *)
Definition nth_match (ms : list match_object) (n : option Z) : outcome match_object :=
  match ms, n with
  | [], _ => inl AssertionError
  | [m], None => inr m
  | _, None => inl AssertionError
  | _, Some n => raises (if 0 <=? n then ms !! Z.to_nat n else if 0 <=? len ms + n then ms !! Z.to_nat (len ms + n) else None)
  end.

(** The address that a group has captured. *)
Definition group_addr (m : match_object) (idx : nat) : option Z := d ← group m (addr_group idx); int_of 16 d.

Definition match_result (m : match_object) (marker_indices : list (string * nat)) (n_lines : nat) : option MatchResult :=
  match_start ← group_addr m 0;
  match_end ← group_addr m (n_lines - 1);
  markers ← mapM (fun kv : string * nat => a ← group_addr m kv.2; Some (kv.1, a)) marker_indices;
  Some (mk_MatchResult match_start (Some match_end) (list_to_map (rev markers))
    (string_of <$> filter (fun kv : string * list Z => String.prefix "addr_" kv.1 = false) (caps m.2))).

Definition patcher_match (fuel : nat) (p : Patcher) (pattern : string) (start end_ n : option Z)
    : outcome MatchResult :=
  let '(marker_indices, filtered_pattern_lines) := filter_markers (split_lines [] (ascii_bytes pattern)) [] [] in
  patterns ← raises (mapM parse_seq filtered_pattern_lines);
  match_exp ← raises (checked (lines_regex 0 patterns));
  start_idx ← match truthy start with Some a => deasm_index fuel p a (Some false) | None => inr 0 end;
  end_idx ← match truthy end_ with Some a => deasm_index fuel p a (Some true) | None => inr (len (target_deasm p)) end;
  m ← nth_match (finditer match_exp (slice start_idx end_idx (target_deasm p))) n;
  raises (match_result m marker_indices (length filtered_pattern_lines)).

(** ** Queueing changes *)

Definition q (p : Patcher) (o : op) : Patcher :=
  mk_Patcher (platform p) (target_bin p) (target_deasm p) (target_deasm_index p) (BOOTLOADER_SIZE p)
    (trailing_bin_content p) (MAX_IMAGE_SIZE p) (symtab p) (op_queue p ++ [o]).

Definition inject (p : Patcher) (dest_symbol : string) (dest_match : MatchResult) (asm : option string)
    : option Patcher :=
  jmp_insert_addr ← markers dest_match !! "JUMP"%string;
  let end_patch_addr := jmp_insert_addr + 4 in
  let p := q p (PatchBranchOffset jmp_insert_addr (dest_symbol +:+ "__proxy") false) in
  let proxy_asm := default EmptyString asm in
  let p := q p (PatchDefineSymbol (dest_symbol +:+ "__return") (MICROCODE_OFFSET p + end_patch_addr)) in
  Some (if decide (proxy_asm = EmptyString) then p
        else q p (PatchAppendAsm (dest_symbol +:+ "__proxy") proxy_asm "void")).

(** A [.byte] directive for every byte. *)
Fixpoint byte_lines (mcode : list Z) : string :=
  match mcode with
  | [] => EmptyString
  | b :: mcode => ".byte 0x" +:+ hex b +:+ nl +:+ byte_lines mcode
  end.

Definition wrap (p : Patcher) (dest_symbol : string) (dest_match : MatchResult) (return_type : string)
    (passthru : bool) : option Patcher :=
  jmp_insert_addr ← markers dest_match !! "JUMP"%string;
  let end_patch_addr := default (jmp_insert_addr + 4) (markers dest_match !! "END"%string) in
  let p := q p (PatchBranchOffset jmp_insert_addr dest_symbol false) in
  let overwrote_mcode :=
    slice jmp_insert_addr (jmp_insert_addr + (end_patch_addr - jmp_insert_addr)) (target_bin p) in
  let passthru_asm := byte_lines overwrote_mcode +:+ "B " +:+ dest_symbol +:+ "__return" +:+ nl in
  let p := q p (PatchDefineSymbol (dest_symbol +:+ "__return") (MICROCODE_OFFSET p + end_patch_addr)) in
  Some (if passthru then q p (PatchAppendAsm (dest_symbol +:+ "__passthru") passthru_asm return_type)
        else p).

Definition define_function (p : Patcher) (dest_symbol : string) (target_addr : Z) : Patcher :=
  q p (PatchDefineSymbol dest_symbol target_addr).

Definition define_macro (p : Patcher) (name value : string) : Patcher :=
  q p (PatchDefineMacro (upper name) value).

(** ** Writing the image *)

Definition append_asm_h (o : op) : string :=
  match o with
  | PatchAppendAsm symbol _ return_type => return_type +:+ " " +:+ symbol +:+ " ();" +:+ nl
  | _ => EmptyString
  end.

Definition append_asm_s (o : op) : string :=
  match o with
  | PatchAppendAsm symbol content _ =>
      ".thumb_func" +:+ nl +:+ ".global " +:+ symbol +:+ nl +:+ symbol +:+ ":" +:+ nl +:+ tab
        +:+ indent content +:+ nl
  | _ => EmptyString
  end.

Definition define_symbol_s (o : op) : string :=
  match o with
  | PatchDefineSymbol name address =>
      ".global " +:+ name +:+ nl +:+ ".thumb_set " +:+ name +:+ ", 0x" +:+ hex address +:+ nl
  | _ => EmptyString
  end.

Definition define_macro_h (o : op) : string :=
  match o with
  | PatchDefineMacro name value => "#define " +:+ name +:+ " " +:+ value +:+ nl
  | _ => EmptyString
  end.

Definition concat_map (f : op -> string) (ops : list op) : string :=
  foldr (fun o s => f o +:+ s) EmptyString ops.

(** patch.auto.h and patch.comp.s *)
Definition patch_h_composed (p : Patcher) : string :=
  "// THIS FILE IS AUTOMATICALLY GENERATED" +:+ nl +:+ "#define CALLSITE_SP" +:+ nl
    +:+ "#define PASSTHRU(name, ...) name ## __passthru(__VA_ARGS__)" +:+ nl
    +:+ "#define REGISTER_MATCH(reg)" +:+ nl
    +:+ concat_map append_asm_h (op_queue p) +:+ concat_map define_macro_h (op_queue p).

Definition patch_s_composed (p : Patcher) : string :=
  ".syntax unified" +:+ nl +:+ ".thumb" +:+ nl
    +:+ concat_map append_asm_s (op_queue p) +:+ concat_map define_symbol_s (op_queue p).

(** [bin[:address] + content + bin[address + len(content):]] *)
Definition overwrite (bin : list Z) (address : Z) (content : list Z) : list Z :=
  slice_to address bin ++ content ++ slice_from (address + len content) bin.

Definition apply_overwrite (bin : list Z) (o : op) : list Z :=
  match o with PatchOverwrite address content => overwrite bin address content | _ => bin end.

(** The branch to a symbol of the linked patch, as the bytes of two half-words. *)
Definition branch_bytes (microcode_offset : Z) (linked : gmap string Z) (address : Z) (symbol : string)
    (link : bool) : option (list Z) :=
  sym ← linked !! symbol;
  let final_addr := sym - microcode_offset in
  let offset := Z.shiftr (final_addr - address - 4) 1 in
  let '(hw1, hw2) := branch_halfwords (encode_branch offset link) in
  pack_us [(2%nat, hw1); (2%nat, hw2)].

Definition apply_branch (microcode_offset : Z) (linked : gmap string Z) (bin : list Z) (o : op)
    : option (list Z) :=
  match o with
  | PatchBranchOffset address symbol link =>
      bs ← branch_bytes microcode_offset linked address symbol link;
      Some (overwrite bin address bs)
  | _ => Some bin
  end.

Fixpoint apply_branches (microcode_offset : Z) (linked : gmap string Z) (bin : list Z) (ops : list op)
    : option (list Z) :=
  match ops with
  | [] => Some bin
  | o :: ops =>
      bin ← apply_branch microcode_offset linked bin o;
      apply_branches microcode_offset linked bin ops
  end.

(** [if len(self.target_bin) % 2 == 1: self.target_bin += "\0"] *)
Definition align (bin : list Z) : list Z := if len bin mod 2 =? 1 then bin ++ [0] else bin.

Section Finalize.
(** The compiler and the linker: from the generated header and assembly, with the patch's
    code placed from an address on, to the addresses of its symbols and its code. *)
Variable build : string -> string -> Z -> option (gmap string Z * list Z).

(** The address that replaces [@TARGET_END@] in patch.ld. *)
Definition target_end (p : Patcher) : Z := len (target_bin p) + MICROCODE_OFFSET p.

Definition finalize (p : Patcher) : option (list Z) :=
  '(linked, code) ← build (patch_h_composed p) (patch_s_composed p) (target_end p);
  let bin := fold_left apply_overwrite (op_queue p) (target_bin p) in
  bin ← apply_branches (MICROCODE_OFFSET p) linked bin (op_queue p);
  let bin := align bin ++ code ++ trailing_bin_content p in
  let remaining_space := MAX_IMAGE_SIZE p - len bin in
  if 0 <=? remaining_space then Some bin else None.
End Finalize.
