(* ===== verification/PatcherProps.v ===== *)
(** * Linking the patch into the firmware: theorems

    The image that [finalize] writes is the firmware with the queued changes, the code
    of the patch and the footer; every branch it inserts goes to its symbol.  [wrap]
    keeps the instructions that its branch overwrites, [match_symbol] covers whole
    instructions, and the symbol table holds what the jump table of the firmware says. *)

From Stdlib Require Import Ascii.
From stdpp Require Import gmap sorting strings.
From S2P Require Import Prelude Bytes Thumb Disasm Patcher.

(** ** Overwriting bytes *)

Lemma overwrite_in bin address content :
  0 <= address -> overwrite bin address content =
  take (Z.to_nat address) bin ++ content ++ drop (Z.to_nat address + length content) bin.
Proof.
  intros. unfold overwrite. rewrite slice_to_take, slice_from_drop by lia. do 3 f_equal. lia.
Qed.

Lemma overwrite_length bin address content :
  0 <= address -> address + len content <= len bin -> length (overwrite bin address content) = length bin.
Proof. intros. rewrite overwrite_in by done. rewrite !length_app, length_take, length_drop. lia. Qed.

Lemma overwrite_slice bin address content :
  0 <= address -> address + len content <= len bin ->
  slice address (address + len content) (overwrite bin address content) = content.
Proof. intros. rewrite overwrite_in by done. apply slice_middle; rewrite length_take; lia. Qed.

Lemma overwrite_lookup_out bin address content i :
  0 <= address -> address + len content <= len bin ->
  Z.of_nat i < address \/ address + len content <= Z.of_nat i ->
  overwrite bin address content !! i = bin !! i.
Proof.
  intros Ha Hl [Hi|Hi]; rewrite overwrite_in by done.
  - rewrite lookup_app_l by (rewrite length_take; lia). by rewrite lookup_take_lt by lia.
  - rewrite lookup_app_r, lookup_app_r by (rewrite ?length_take; lia).
    rewrite lookup_drop, length_take. f_equal. lia.
Qed.

(** Bytes that two images have in common. *)
Lemma slice_ext {A} a b (s t : list A) :
  0 <= a <= b -> length s = length t ->
  (forall i, a <= Z.of_nat i < b -> s !! i = t !! i) -> slice a b s = slice a b t.
Proof.
  intros Hab Hl H. apply list_eq. intros i. destruct (Z.lt_ge_cases (Z.of_nat i) (b - a)).
  - rewrite !slice_lookup by lia. apply H. lia.
  - rewrite !lookup_ge_None_2; [done|rewrite slice_nonneg, length_take by lia; lia..].
Qed.

(** ** The queued changes *)

(** The bytes of the image that a change writes: where and how many. *)
Definition region (o : op) : option (Z * Z) :=
  match o with
  | PatchOverwrite address content => Some (address, len content)
  | PatchBranchOffset address _ _ => Some (address, 4)
  | _ => None
  end.

Definition in_image (n : Z) (o : op) : Prop :=
  match region o with Some (a, k) => 0 <= a /\ a + k <= n | None => True end.

Definition writes (o : op) (i : nat) : Prop :=
  match region o with Some (a, k) => a <= Z.of_nat i < a + k | None => False end.

Lemma apply_overwrites_keeps bin ops :
  Forall (in_image (len bin)) ops ->
  length (fold_left apply_overwrite ops bin) = length bin /\
  forall i, Forall (fun o => ~ writes o i) ops -> fold_left apply_overwrite ops bin !! i = bin !! i.
Proof.
  intros HF. remember (len bin) as n eqn:Hn. revert bin Hn.
  induction HF as [|o ops Ho HF IH]; intros bin Hn; [done|]. cbn [fold_left].
  assert (length (apply_overwrite bin o) = length bin) as Hl.
  { destruct o; try done. cbn in *. apply overwrite_length; lia. }
  destruct (IH (apply_overwrite bin o)) as [IH1 IH2]; [by rewrite Hl|]. split; [congruence|].
  intros i [Hi Hr]%Forall_cons. rewrite IH2 by done. destruct o; try done. cbn in *.
  apply overwrite_lookup_out; unfold writes in Hi; cbn in Hi; lia.
Qed.

Lemma branch_bytes_length mo linked a s l bs : branch_bytes mo linked a s l = Some bs -> length bs = 4%nat.
Proof.
  unfold branch_bytes. intros (sym & _ & H)%bind_Some. destruct (branch_halfwords _) as [hw1 hw2].
  by rewrite (pack_us_length _ _ H).
Qed.

(** Only the branches change the image. *)
Lemma apply_branches_keeps mo linked bin ops bin' :
  Forall (in_image (len bin)) ops -> apply_branches mo linked bin ops = Some bin' ->
  length bin' = length bin /\
  forall i, (forall a s l, PatchBranchOffset a s l ∈ ops -> ~ (a <= Z.of_nat i < a + 4)) ->
    bin' !! i = bin !! i.
Proof.
  intros HF. remember (len bin) as n eqn:Hn. revert bin Hn.
  induction HF as [|o ops Ho HF IH]; intros bin Hn; cbn [apply_branches]; [by intros [= <-]|].
  intros (bin1 & H1 & H2)%bind_Some.
  assert (length bin1 = length bin /\ forall i,
    (forall a s l, o = PatchBranchOffset a s l -> ~ (a <= Z.of_nat i < a + 4)) -> bin1 !! i = bin !! i)
    as [Hl1 Hk1].
  { destruct o as [|a s l| | |]; cbn [apply_branch] in H1; try (by injection H1 as <-).
    apply bind_Some in H1 as (bs & Hbs & [= <-]). pose proof (branch_bytes_length _ _ _ _ _ _ Hbs) as H4.
    cbn in Ho. split; [apply overwrite_length; lia|]. intros i Hi. specialize (Hi a s l eq_refl).
    apply overwrite_lookup_out; lia. }
  destruct (IH bin1) as [IH1 IH2]; [by rewrite Hl1|done|]. split; [congruence|].
  intros i Hi. rewrite IH2, Hk1; [done|..]; intros a s l Ho'; apply (Hi a s l).
  - subst o. apply list_elem_of_here.
  - by apply list_elem_of_further.
Qed.

(** The bytes of a branch that no later branch overwrites. *)
Lemma apply_branches_writes mo linked bin pre a s l post bin' :
  Forall (in_image (len bin)) (pre ++ PatchBranchOffset a s l :: post) ->
  (forall a' s' l', PatchBranchOffset a' s' l' ∈ post -> a' + 4 <= a \/ a + 4 <= a') ->
  apply_branches mo linked bin (pre ++ PatchBranchOffset a s l :: post) = Some bin' ->
  branch_bytes mo linked a s l = Some (slice a (a + 4) bin').
Proof.
  revert bin. induction pre as [|o pre IH]; intros bin HF Hpost; cbn [app apply_branches].
  - intros (bin1 & (bs & Hbs & [= <-])%bind_Some & H2)%bind_Some.
    pose proof (branch_bytes_length _ _ _ _ _ _ Hbs) as H4. apply Forall_cons in HF as [Ho HF].
    cbn in Ho. assert (length (overwrite bin a bs) = length bin) as Hl by (apply overwrite_length; lia).
    destruct (apply_branches_keeps mo linked (overwrite bin a bs) post bin') as [Hl' Hk'];
      [by rewrite Hl|done|].
    rewrite Hbs. f_equal. replace 4 with (len bs) by (rewrite H4; done).
    rewrite <- (overwrite_slice bin a bs) at 1 by lia. symmetry. apply slice_ext; [lia|done|].
    intros i Hi. apply Hk'. intros a' s' l' Hin. apply Hpost in Hin. lia.
  - intros (bin1 & H1 & H2)%bind_Some. apply Forall_cons in HF as [Ho HF].
    apply (IH bin1); [|done|done].
    assert (length bin1 = length bin) as ->; [|done].
    by destruct (apply_branches_keeps mo linked bin [o] bin1) as [? _]; [constructor|cbn; rewrite H1|].
Qed.

(** ** The image *)

(** The branch instruction at an offset of an image: whether it links, and its target. *)
Definition branch_at (img : list Z) (a : Z) : option (bool * Z) :=
  hws ← unpack_us [2%nat; 2%nat] (slice a (a + 4) img);
  match hws with
  | [hw1; hw2] => '(link, dist) ← decode_branch hw1 hw2; Some (link, a + 4 + dist)
  | _ => None
  end.

Lemma branch_bytes_decode mo linked a s l v img :
  branch_bytes mo linked a s l = Some (slice a (a + 4) img) -> linked !! s = Some v ->
  (v - mo - a) mod 2 = 0 -> - 2 ^ 22 <= v - mo - a - 4 < 2 ^ 22 -> v - mo - a - 4 <> 0 ->
  branch_at img a = Some (l, v - mo).
Proof.
  intros Hbs Hv Heven Hr Hz. unfold branch_bytes in Hbs. rewrite Hv in Hbs. cbn [mbind option_bind] in Hbs.
  rewrite Z.shiftr_div_pow2 in Hbs by lia. change (2 ^ 1) with 2 in Hbs.
  set (offset := (v - mo - a - 4) / 2) in *. assert (2 * offset = v - mo - a - 4) as Ho by (unfold offset; dlia).
  pose proof (encode_branch_decodes offset l ltac:(lia) ltac:(lia)) as Hd.
  destruct (branch_halfwords (encode_branch offset l)) as [hw1 hw2]. destruct Hd as (_ & _ & Hd).
  unfold branch_at. rewrite (unpack_pack_us _ _ Hbs : unpack_us [2%nat; 2%nat] _ = _).
  cbn [mbind option_bind fmap list_fmap snd]. rewrite Hd. cbn [mbind option_bind]. do 2 f_equal. lia.
Qed.

(** The states that [make_patcher] builds. *)
Record patcher_ok (p : Patcher) : Prop := {
  bootloader_even : BOOTLOADER_SIZE p mod 2 = 0;
  max_size : MAX_IMAGE_SIZE p <= 2 ^ 20;
}.

Lemma make_patcher_ok platform path bin deasm libpebble p :
  make_patcher platform path bin deasm libpebble = Some p -> patcher_ok p /\ op_queue p = [].
Proof.
  unfold make_patcher, max_image_size.
  intros (ix & _ & (m & Hm & (fom & _ & (st & _ & [= <-])%bind_Some)%bind_Some)%bind_Some)%bind_Some.
  split; [|done]. split; cbn; [by destruct (bool_decide _)|].
  revert Hm. destruct (bool_decide _); do 2 (case_decide; [intros [= <-]; lia|]); done.
Qed.

Lemma make_patcher_bin platform path bin deasm libpebble p :
  make_patcher platform path bin deasm libpebble = Some p -> target_bin p = bin.
Proof.
  unfold make_patcher. by intros (ix & _ & (m & _ & (fom & _ & (st & _ & [= <-])%bind_Some)%bind_Some)%bind_Some)%bind_Some.
Qed.

Lemma q_ok p o : patcher_ok p -> patcher_ok (q p o).
Proof. by intros []. Qed.

Lemma align_replicate bin : align bin = bin ++ replicate (Z.to_nat (len bin mod 2)) 0.
Proof.
  unfold align. assert (0 <= len bin mod 2 < 2) by (apply Z.mod_pos_bound; lia).
  destruct (Z.eqb_spec (len bin mod 2) 1) as [->|]; [done|].
  replace (len bin mod 2) with 0 by lia. by rewrite app_nil_r.
Qed.

Lemma align_even bin : len (align bin) = len bin + len bin mod 2.
Proof.
  rewrite align_replicate, length_app, length_replicate.
  assert (0 <= len bin mod 2 < 2) by (apply Z.mod_pos_bound; lia). lia.
Qed.

Section Finalize.
Variable build : string -> string -> Z -> option (gmap string Z * list Z).

(** The parts of the image that [finalize] writes. *)
Record written (p : Patcher) (linked : gmap string Z) (code patched img : list Z) : Prop := {
  written_build : build (patch_h_composed p) (patch_s_composed p) (target_end p) = Some (linked, code);
  written_branches : apply_branches (MICROCODE_OFFSET p) linked
    (fold_left apply_overwrite (op_queue p) (target_bin p)) (op_queue p) = Some patched;
  written_length : length patched = length (target_bin p);
  written_img : img = align patched ++ code ++ trailing_bin_content p;
  written_fits : len img <= MAX_IMAGE_SIZE p;
}.

Lemma finalize_written p img :
  finalize build p = Some img -> Forall (in_image (len (target_bin p))) (op_queue p) ->
  exists linked code patched, written p linked code patched img.
Proof.
  unfold finalize. intros ([linked code] & Hb & (patched & Hp & H)%bind_Some)%bind_Some HF.
  destruct (apply_overwrites_keeps _ _ HF) as [Hl _].
  destruct (apply_branches_keeps _ _ _ _ _ ltac:(by rewrite Hl) Hp) as [Hl2 _].
  exists linked, code, patched.
  destruct (Z.leb_spec 0 (MAX_IMAGE_SIZE p - len (align patched ++ code ++ trailing_bin_content p)));
    [|done]. injection H as <-. split; [done|done|congruence|done|lia].
Qed.

(** The image is the firmware, where only the bytes of the queued changes differ, padded
    to an even length, the code of the patch, and the footer; and it fits in flash. *)
Theorem finalize_layout p img :
  finalize build p = Some img -> Forall (in_image (len (target_bin p))) (op_queue p) ->
  exists linked code patched,
    build (patch_h_composed p) (patch_s_composed p) (target_end p) = Some (linked, code) /\
    img = patched ++ replicate (Z.to_nat (len (target_bin p) mod 2)) 0 ++ code ++ trailing_bin_content p /\
    length patched = length (target_bin p) /\
    (forall i, Forall (fun o => ~ writes o i) (op_queue p) -> patched !! i = target_bin p !! i) /\
    len img <= MAX_IMAGE_SIZE p.
Proof.
  intros Hf HF. destruct (finalize_written _ _ Hf HF) as (linked & code & patched & [Hb Hp Hl -> Hfit]).
  exists linked, code, patched. split; [done|]. split; [by rewrite align_replicate, Hl, <- app_assoc|].
  split; [done|]. split; [|done]. intros i Hi. destruct (apply_overwrites_keeps _ _ HF) as [Hl1 Hk].
  destruct (apply_branches_keeps _ _ _ _ _ ltac:(by rewrite Hl1) Hp) as [_ Hk2].
  rewrite Hk2, Hk; [done..|]. intros a s l Hin. rewrite Forall_forall in Hi. apply (Hi _ Hin).
Qed.

(** Branches of the queue that stand at even offsets before the end of the firmware and do
    not overlap. *)
Fixpoint disjoint_branches (ops : list op) : Prop :=
  match ops with
  | [] => True
  | PatchBranchOffset a _ _ :: ops =>
      Forall (fun o => match o with
        | PatchBranchOffset a' _ _ => a' + 4 <= a \/ a + 4 <= a'
        | _ => True
        end) ops /\ disjoint_branches ops
  | _ :: ops => disjoint_branches ops
  end.

Lemma disjoint_branches_split pre a s l post a' s' l' :
  disjoint_branches (pre ++ PatchBranchOffset a s l :: post) ->
  PatchBranchOffset a' s' l' ∈ post -> a' + 4 <= a \/ a + 4 <= a'.
Proof.
  induction pre as [|o pre IH]; cbn [app disjoint_branches].
  - intros [HF _] Hin. rewrite Forall_forall in HF. exact (HF _ Hin).
  - destruct o; try exact IH. intros [_ H]. by apply IH.
Qed.

Definition branch_ok (n : Z) (o : op) : Prop :=
  match o with PatchBranchOffset a _ _ => a mod 2 = 0 /\ a + 4 < n | _ => True end.

(** What the linker promises: code is placed at even addresses from the end of the
    firmware on, and symbols are in it. *)
Definition links_symbols (p : Patcher) (linked : gmap string Z) (code : list Z) : Prop :=
  forall a s l, PatchBranchOffset a s l ∈ op_queue p -> exists v, linked !! s = Some v /\
    v mod 2 = 0 /\ target_end p <= v < target_end p + len (target_bin p) mod 2 + len code.

(** These conditions can be decided. *)
#[export] Instance in_image_dec n o : Decision (in_image n o).
Proof. unfold in_image. destruct (region o) as [[a k]|]; apply _. Defined.

#[export] Instance branch_ok_dec n o : Decision (branch_ok n o).
Proof. destruct o; apply _. Defined.

#[export] Instance disjoint_branches_dec ops : Decision (disjoint_branches ops).
Proof.
  induction ops as [|[] ops IH]; cbn [disjoint_branches]; try apply _.
  apply and_dec; [apply Forall_dec; intros []; apply _|exact IH].
Defined.

Definition links_branch (p : Patcher) (linked : gmap string Z) (code : list Z) (o : op) : Prop :=
  match o with
  | PatchBranchOffset _ s _ =>
      match linked !! s with
      | Some v => v mod 2 = 0 /\ target_end p <= v < target_end p + len (target_bin p) mod 2 + len code
      | None => False
      end
  | _ => True
  end.

#[export] Instance links_branch_dec p linked code o : Decision (links_branch p linked code o).
Proof. destruct o; cbn; try apply _. destruct (linked !! symbol); apply _. Defined.

Lemma links_symbols_branches p linked code : Forall (links_branch p linked code) (op_queue p) -> links_symbols p linked code.
Proof.
  rewrite Forall_forall. intros H a s l Hin. specialize (H _ Hin). cbn in H. destruct (linked !! s) as [v|]; [|done]. eauto.
Qed.

(** A linker that keeps its promise for one patch. *)
Lemma build_links p :
  match build (patch_h_composed p) (patch_s_composed p) (target_end p) with
  | Some (linked, code) => bool_decide (Forall (links_branch p linked code) (op_queue p))
  | None => true
  end = true ->
  forall linked code, build (patch_h_composed p) (patch_s_composed p) (target_end p) = Some (linked, code) ->
  links_symbols p linked code.
Proof. intros H linked code Hb. rewrite Hb in H. apply links_symbols_branches. by apply bool_decide_eq_true_1 in H. Qed.

(** In the image that [finalize] writes, every queued branch goes to the code of its
    symbol. *)
Theorem finalize_branches p img :
  patcher_ok p -> finalize build p = Some img ->
  Forall (in_image (len (target_bin p))) (op_queue p) ->
  Forall (branch_ok (len (target_bin p))) (op_queue p) -> disjoint_branches (op_queue p) ->
  (forall linked code, build (patch_h_composed p) (patch_s_composed p) (target_end p) = Some (linked, code) ->
    links_symbols p linked code) ->
  exists linked code,
    build (patch_h_composed p) (patch_s_composed p) (target_end p) = Some (linked, code) /\
    forall a s l, PatchBranchOffset a s l ∈ op_queue p -> exists v, linked !! s = Some v /\
      branch_at img a = Some (l, v - MICROCODE_OFFSET p) /\
      img !! Z.to_nat (v - MICROCODE_OFFSET p)
      = code !! Z.to_nat (v - (target_end p + len (target_bin p) mod 2)).
Proof.
  intros [Hboot Hmax] Hf HF HB Hdis Hlink.
  destruct (finalize_written _ _ Hf HF) as (linked & code & patched & [Hb Hp Hl Himg Hfit]).
  exists linked, code. split; [done|]. intros a s l Hin.
  destruct (Hlink _ _ Hb a s l Hin) as (v & Hv & Heven & Hrange). exists v. split; [done|].
  assert (MICROCODE_OFFSET p mod 2 = 0) as Hmo.
  { unfold MICROCODE_OFFSET, MICROCODE_OFFSET_at. dlia. }
  pose proof (proj1 (Forall_forall _ _) HB _ Hin) as [Ha Han]. cbn in Ha, Han.
  pose proof (proj1 (Forall_forall _ _) HF _ Hin) as [Ha0 _]. cbn in Ha0.
  unfold target_end in *. set (mo := MICROCODE_OFFSET p) in *.
  assert (len img = len (target_bin p) + len (target_bin p) mod 2 + len code
    + len (trailing_bin_content p)) as Hlimg.
  { rewrite Himg, !length_app, !Nat2Z.inj_add, align_even, Hl. lia. }
  split.
  - apply (branch_bytes_decode mo linked a s l); [|done|dlia|dlia|dlia].
    apply list_elem_of_split in Hin as (pre & post & Hq).
    destruct (apply_overwrites_keeps _ _ HF) as [Hl1 _].
    rewrite Himg, align_replicate, <- app_assoc, slice_app_l by lia.
    apply (apply_branches_writes mo linked (fold_left apply_overwrite (op_queue p) (target_bin p)) pre a s l post).
    + rewrite Hl1. by rewrite <- Hq.
    + intros a' s' l'. apply (disjoint_branches_split pre _ s l). by rewrite <- Hq.
    + by rewrite <- Hq.
  - rewrite Himg, lookup_app_r, lookup_app_l by (pose proof (align_even patched); dlia).
    f_equal. pose proof (align_even patched). rewrite Hl in *. lia.
Qed.
(** *** Errors *)

Lemma branch_bytes_total mo linked a s l :
  is_Some (linked !! s) -> is_Some (branch_bytes mo linked a s l).
Proof.
  intros [v Hv]. unfold branch_bytes. rewrite Hv. cbn [mbind option_bind].
  destruct (branch_halfwords _) as [hw1 hw2] eqn:E. apply branch_halfwords_range in E as [H1 H2].
  cbn [pack_us]. rewrite (proj2 (pack_u_Some 2 hw1 _) (conj H1 eq_refl)).
  by rewrite (proj2 (pack_u_Some 2 hw2 _) (conj H2 eq_refl)).
Qed.

Lemma apply_branches_total mo linked bin ops :
  is_Some (apply_branches mo linked bin ops) <->
  forall a s l, PatchBranchOffset a s l ∈ ops -> is_Some (linked !! s).
Proof.
  revert bin. induction ops as [|o ops IH]; intros bin; cbn [apply_branches].
  { split; [by intros _ ??? ?%elem_of_nil|by eexists]. }
  assert (is_Some (apply_branch mo linked bin o) <-> forall a s l, o = PatchBranchOffset a s l -> is_Some (linked !! s)) as Ho.
  { destruct o as [|a s l| | |]; cbn [apply_branch]; try (split; [done|by eexists]). split.
    - intros [? (bs & (v & Hv & _)%bind_Some & _)%bind_Some] ??? [= <- <- <-]. by exists v.
    - intros H. destruct (branch_bytes_total mo linked a s l) as [bs Hbs]; [by eapply H|].
      rewrite Hbs. by eexists. }
  split.
  - intros [? (b & Hb & H)%bind_Some] a s l [<-|Hin]%elem_of_cons.
    + by apply (proj1 Ho (mk_is_Some _ _ Hb) a s l).
    + by eapply (proj1 (IH b) (mk_is_Some _ _ H)).
  - intros H. destruct (proj2 Ho) as [b Hb].
    { intros a s l ->. eapply H. apply list_elem_of_here. }
    rewrite Hb. apply IH. intros a s l Hin. eapply H. by apply list_elem_of_further.
Qed.

Definition unresolved (linked : gmap string Z) (o : op) : bool :=
  match o with PatchBranchOffset _ s _ => bool_decide (linked !! s = None) | _ => false end.

(** C34: Once the patch is compiled, writing the image fails exactly when a branch goes to a
    symbol that the patch does not have, or when the image does not fit in flash. *)
Theorem finalize_error p linked code :
  build (patch_h_composed p) (patch_s_composed p) (target_end p) = Some (linked, code) ->
  Forall (in_image (len (target_bin p))) (op_queue p) ->
  finalize build p = None <->
  (exists a s l, PatchBranchOffset a s l ∈ op_queue p /\ linked !! s = None) \/
  MAX_IMAGE_SIZE p < len (target_bin p) + len (target_bin p) mod 2 + len code + len (trailing_bin_content p).
Proof.
  intros Hb HF. unfold finalize. rewrite Hb. cbn [mbind option_bind].
  destruct (apply_overwrites_keeps _ _ HF) as [Hl _].
  set (bin := fold_left apply_overwrite (op_queue p) (target_bin p)) in *.
  destruct (apply_branches (MICROCODE_OFFSET p) linked bin (op_queue p)) as [patched|] eqn:E.
  - destruct (apply_branches_keeps _ _ _ _ _ ltac:(by rewrite Hl) E) as [Hl2 _]. cbn [mbind option_bind].
    rewrite !length_app, !Nat2Z.inj_add, align_even, Hl2, Hl.
    destruct (Z.leb_spec 0 (MAX_IMAGE_SIZE p - (len (target_bin p) + len (target_bin p) mod 2
      + (len code + len (trailing_bin_content p))))).
    + split; [done|]. intros [(a & s & l & Hin & Hn)|]; [|lia].
      destruct (proj1 (apply_branches_total _ _ _ _) (mk_is_Some _ _ E) a s l Hin). congruence.
    + split; [intros _; right; lia|done].
  - split; [intros _; left|done].
    destruct (existsb (unresolved linked) (op_queue p)) eqn:Hex.
    { apply existsb_exists in Hex as (o & Hin%list_elem_of_In & Ho). destruct o as [|a s l| | |]; try done.
      exists a, s, l. split; [done|]. by apply bool_decide_eq_true in Ho. }
    apply existsb_false_iff in Hex. rewrite Forall_forall in Hex.
    assert (is_Some (apply_branches (MICROCODE_OFFSET p) linked bin (op_queue p))) as [? Hs]; [|congruence].
    apply apply_branches_total. intros a s l Hin. specialize (Hex _ Hin). cbn in Hex.
    apply not_eq_None_Some. by apply bool_decide_eq_false in Hex.
Qed.
End Finalize.

(** ** Wrapping a function *)

(** The value of a string of hexadecimal digits, up to the end of the line. *)
Definition hex_digit_value (c : ascii) : option Z :=
  let n := Z.of_nat (Ascii.nat_of_ascii c) in
  if (48 <=? n) && (n <=? 57) then Some (n - 48)
  else if (97 <=? n) && (n <=? 102) then Some (n - 87) else None.

Fixpoint read_hex (acc : Z) (s : string) : option (Z * string) :=
  match s with
  | EmptyString => None
  | String c s =>
      if decide (c = "010"%char) then Some (acc, s)
      else d ← hex_digit_value c; read_hex (16 * acc + d) s
  end.

Fixpoint strip (prefix s : string) : option string :=
  match prefix, s with
  | EmptyString, _ => Some s
  | String a prefix, String b s => if decide (a = b) then strip prefix s else None
  | String _ _, EmptyString => None
  end.

(** The assembler: the bytes of the leading [.byte] directives, and the other lines. *)
Fixpoint read_bytes (fuel : nat) (s : string) : list Z * string :=
  match fuel with
  | O => ([], s)
  | S fuel =>
      match (rest ← strip ".byte 0x" s; read_hex 0 rest) with
      | Some (b, rest) => let '(bs, rest) := read_bytes fuel rest in (b :: bs, rest)
      | None => ([], s)
      end
  end.

Lemma strip_app prefix s : strip prefix (prefix +:+ s) = Some s.
Proof. induction prefix as [|c prefix IH]; [done|]. change (String c prefix +:+ s) with (String c (prefix +:+ s)). cbn [strip].
  destruct (decide (c = c)); [exact IH|done]. Qed.

Lemma read_hex_byte b rest : is_byte b -> read_hex 0 (hex b +:+ nl +:+ rest) = Some (b, rest).
Proof.
  intros Hb. assert (Forall (fun b => read_hex 0 (hex b +:+ nl +:+ rest) = Some (b, rest)) all_bytes) as H.
  { unfold all_bytes. cbn -[hex read_hex String.append]. repeat (constructor; [reflexivity|]). constructor. }
  rewrite Forall_forall in H. apply H, elem_of_seqZ. unfold is_byte in Hb. lia.
Qed.

Lemma string_app_assoc (a b c : string) : (a +:+ b) +:+ c = a +:+ b +:+ c.
Proof.
  induction a as [|x a IH]; [done|].
  change (String x ((a +:+ b) +:+ c) = String x (a +:+ b +:+ c)). by rewrite IH.
Qed.

Lemma read_byte_lines l rest :
  bytes_ok l -> strip ".byte 0x" rest = None ->
  read_bytes (S (length l)) (byte_lines l +:+ rest) = (l, rest).
Proof.
  intros Hl Hrest. induction Hl as [|b l Hb Hl IH]; [cbn [read_bytes byte_lines length]|].
  { change (EmptyString +:+ rest) with rest. by rewrite Hrest. }
  cbn [length byte_lines]. rewrite !string_app_assoc.
  change (read_bytes (S (S (length l))) ?s) with
    (match (r ← strip ".byte 0x" s; read_hex 0 r) with
     | Some (b, r) => let '(bs, r) := read_bytes (S (length l)) r in (b :: bs, r)
     | None => ([], s) end).
  rewrite strip_app. cbn [mbind option_bind]. rewrite read_hex_byte by done. by rewrite IH.
Qed.

(** [wrap] queues a branch at the start of the function; the function that the hook calls
    to go on is assembled to the bytes of the firmware from there up to [END], followed by
    a branch to the address of [END]. *)
Theorem wrap_passthru p dest_symbol m return_type p' j :
  bytes_ok (target_bin p) -> markers m !! "JUMP"%string = Some j ->
  let e := default (j + 4) (markers m !! "END"%string) in
  wrap p dest_symbol m return_type true = Some p' ->
  exists asm,
    op_queue p' = op_queue p ++
      [PatchBranchOffset j dest_symbol false;
       PatchDefineSymbol (dest_symbol +:+ "__return") (MICROCODE_OFFSET p + e);
       PatchAppendAsm (dest_symbol +:+ "__passthru") asm return_type] /\
    read_bytes (S (length (slice j e (target_bin p)))) asm
    = (slice j e (target_bin p), "B " +:+ dest_symbol +:+ "__return" +:+ nl).
Proof.
  intros Hb Hj e. unfold wrap. rewrite Hj. cbn [mbind option_bind]. intros [= <-]. fold e.
  eexists. split; [cbn; by rewrite <- !app_assoc|].
  cbn [q target_bin]. replace (j + (e - j)) with e by lia. apply read_byte_lines; [|done].
  unfold bytes_ok, slice. by apply Forall_take, Forall_drop.
Qed.

(** ** Whole instructions *)

Section Disassembly.
Variable p : Patcher.
(** Where instructions of the firmware start: the disassembly has a line for them. *)
Variable instruction_at : Z -> Prop.
Hypothesis disassembled : forall a, in_deasm p a = true <-> instruction_at a.
(** What a hook on a function overwrites and moves, from [JUMP] up to [END] or 4 bytes, is
    whole instructions and as long as the branch at least: instructions have one or two
    half-words. *)
Theorem match_symbol_whole_instructions symbol addr :
  symtab p !! symbol = Some addr -> instruction_at addr ->
  (forall a, addr <= a < addr + 4 -> instruction_at a -> instruction_at (a + 2) \/ instruction_at (a + 4)) ->
  exists m, match_symbol p symbol = Some m /\
    markers m !! "JUMP"%string = Some addr /\
    let e := default (addr + 4) (markers m !! "END"%string) in
    instruction_at e /\ addr + 4 <= e <= addr + 6.
Proof.
  intros Hs Ha instruction_size. unfold match_symbol. rewrite Hs. cbn [mbind option_bind]. eexists. split; [done|].
  cbn [markers]. destruct (in_deasm p (addr + 4)) eqn:E; cbn [negb].
  - rewrite (lookup_insert_ne _ "TARGET" "END"), lookup_singleton_ne by done.
    split; [done|]. split; [by apply disassembled|cbn; lia].
  - split; [done|]. rewrite lookup_insert_eq. cbn. split; [|lia].
    assert (~ instruction_at (addr + 4)) as Hno by (rewrite <- disassembled; congruence).
    destruct (instruction_size addr ltac:(lia) Ha) as [H2|]; [|done].
    destruct (instruction_size (addr + 2) ltac:(lia) H2) as [H4|H6].
    + by replace (addr + 2 + 2) with (addr + 4) in H4 by lia.
    + by replace (addr + 2 + 4) with (addr + 6) in H6 by lia.
Qed.
End Disassembly.

(** ** Stepping through the disassembly *)

(** C36: [addr_step] ends exactly when an instruction is some steps away, with the address of
    the nearest one; otherwise it runs for ever. *)
Theorem addr_step_finds p addr step r :
  (exists fuel, addr_step fuel p addr step = Some r) <->
  exists k, 1 <= k /\ r = addr + k * step /\ is_Some (target_deasm_index p !! r) /\
    forall j, 1 <= j < k -> target_deasm_index p !! (addr + j * step) = None.
Proof.
  split.
  - intros [fuel H]. revert addr H. induction fuel as [|fuel IH]; intros addr; cbn [addr_step]; [done|].
    case_decide as Hd; [intros [= <-]; exists 1; split; [lia|]; split; [lia|]; split; [done|intros; lia]|].
    intros H. destruct (IH _ H) as (k & Hk & -> & Hs & Hno). exists (k + 1). split; [lia|]. split; [lia|].
    split; [done|]. intros j Hj. destruct (decide (j = 1)) as [->|].
    + rewrite Z.mul_1_l. by apply eq_None_not_Some.
    + replace (addr + j * step) with (addr + step + (j - 1) * step) by lia. apply Hno. lia.
  - intros (k & Hk & -> & Hs & Hno). exists (Z.to_nat k). remember (Z.to_nat k) as n eqn:Hn.
    revert addr k Hk Hs Hno Hn. induction n as [|n IH]; intros addr k Hk Hs Hno Hn; [lia|].
    cbn [addr_step]. destruct (decide (k = 1)) as [->|].
    + rewrite Z.mul_1_l in *. by rewrite decide_True.
    + rewrite decide_False.
      2: { apply eq_None_not_Some. rewrite <- (Z.mul_1_l step). apply Hno. lia. }
      replace (addr + k * step) with (addr + step + (k - 1) * step) in * by lia.
      apply IH; [lia|done| |lia]. intros j Hj.
      replace (addr + step + j * step) with (addr + (j + 1) * step) by lia. apply Hno. lia.
Qed.

(** ** The symbol table *)

Lemma find_match_Some pattern s i :
  find_match pattern s = Some i -> 0 <= i /\ matches pattern (drop (Z.to_nat i) s) = true.
Proof.
  revert i. induction s as [|b s IH]; intros i; cbn [find_match]; destruct (matches pattern _) eqn:E;
    try (intros [= <-]; split; [lia|exact E]); [done|].
  intros (j & Hj & [= <-])%bind_Some. destruct (IH _ Hj) as [? Hm]. split; [lia|].
  replace (Z.to_nat (j + 1)) with (S (Z.to_nat j)) by lia. exact Hm.
Qed.

Lemma matches_app p1 p2 s :
  matches (p1 ++ p2) s = true -> matches p2 (drop (length p1) s) = true /\ (length p1 <= length s)%nat.
Proof.
  revert s. induction p1 as [|p p1 IH]; intros s; cbn [app]; [split; [done|cbn; lia]|].
  destruct s as [|b s]; cbn [matches]; [done|]. intros [_ H]%andb_true_iff.
  destruct (IH _ H) as [? ?]. cbn. split; [done|lia].
Qed.

(** The fourth byte of the entries of a jump table, counted from behind [last_idx]. *)
Lemma jump_table_matches last_idx idxs s :
  StronglySorted (fun a b => a + 4 <= b) (last_idx :: idxs) ->
  matches (jump_table_pattern last_idx idxs) s = true ->
  Forall (fun idx => s !! Z.to_nat (idx - last_idx - 1) = Some 8) idxs.
Proof.
  revert last_idx s. induction idxs as [|idx idxs IH]; intros last_idx s Hs Hm; [done|].
  apply StronglySorted_inv in Hs as [Hs Hlast]. apply Forall_cons in Hlast as [Hidx Hlast].
  cbn [jump_table_pattern] in Hm. set (k := Z.to_nat (Z.max (idx - last_idx - 4) 0)) in *.
  apply matches_app in Hm as [Hm Hk]. rewrite length_replicate in Hm, Hk.
  set (t := drop k s) in *.
  assert (exists b0 b1 b2 t', t = b0 :: b1 :: b2 :: 8 :: t' /\
    matches (jump_table_pattern idx idxs) t' = true) as (b0 & b1 & b2 & t' & Et & Hm').
  { destruct t as [|b0 [|b1 [|b2 [|b3 t']]]]; cbn in Hm; try done.
    apply andb_true_iff in Hm as [->%Z.eqb_eq Hm]. by exists b0, b1, b2, t'. }
  constructor.
  - replace (Z.to_nat (idx - last_idx - 1)) with (k + 3)%nat by lia.
    rewrite <- lookup_drop. fold t. by rewrite Et.
  - specialize (IH idx t' Hs Hm'). apply StronglySorted_inv in Hs as [_ Hs].
    rewrite Forall_forall in *. intros j Hj. specialize (Hs j Hj).
    replace (Z.to_nat (j - last_idx - 1)) with (k + (4 + Z.to_nat (j - idx - 1)))%nat by lia.
    rewrite <- lookup_drop. fold t. rewrite Et. by apply IH.
Qed.

Lemma sorted_steps (l : list Z) :
  StronglySorted Z.le l -> NoDup l -> Forall (fun x => x mod 4 = 0) l ->
  StronglySorted (fun a b => a + 4 <= b) l.
Proof.
  induction 1 as [|x l Hl IH Hx]; intros Hnd H4; constructor; apply NoDup_cons in Hnd as [Hnin Hnd];
    apply Forall_cons in H4 as [Hx4 H4]; [by apply IH|].
  rewrite Forall_forall in *. intros y Hy. specialize (Hx y Hy). specialize (H4 y Hy). cbn in H4.
  assert (x <> y) by (by intros ->). dlia.
Qed.

Lemma sorted_values_elem m v : v ∈ sorted_values m <-> exists f, m !! f = Some v.
Proof.
  unfold sorted_values. rewrite (merge_sort_Permutation _ _), list_elem_of_fmap. split.
  - intros ([f v'] & -> & H%elem_of_map_to_list). by exists f.
  - intros [f H]. exists (f, v). split; [done|]. by apply elem_of_map_to_list.
Qed.

Lemma land_lnot_1 x : Z.land x (Z.lnot 1) = x - x mod 2.
Proof.
  rewrite <- Z.ldiff_land. change 1 with (Z.ones 1). rewrite Z.ldiff_ones_r by lia.
  rewrite Z.shiftl_mul_pow2, Z.shiftr_div_pow2 by lia. change (2 ^ 1) with 2. dlia.
Qed.

Lemma land_1 x : Z.land x 1 = x mod 2.
Proof. change 1 with (Z.ones 1). by rewrite Z.land_ones by lia. Qed.

(** The offsets of the SDK's functions in the jump table: different multiples of 4, with a
    function at 0. *)
Record jump_table_ok (func_offset_map : gmap string Z) : Prop := {
  offset_multiple f o : func_offset_map !! f = Some o -> 0 <= o /\ o mod 4 = 0;
  offset_inj f g o : func_offset_map !! f = Some o -> func_offset_map !! g = Some o -> f = g;
  offset_first : exists f, func_offset_map !! f = Some 0;
}.

Lemma sorted_values_steps m :
  jump_table_ok m -> exists rest, sorted_values m = 0 :: rest /\
    StronglySorted (fun a b => a + 4 <= b) (0 :: rest).
Proof.
  intros [Hm Hi [f0 H0]]. pose proof (proj2 (sorted_values_elem m 0) (ex_intro _ f0 H0)) as Hin.
  assert (StronglySorted (fun a b => a + 4 <= b) (sorted_values m)) as Hs.
  { apply sorted_steps.
    - apply StronglySorted_merge_sort; [intros ???; lia|intros ??; lia].
    - unfold sorted_values. rewrite (merge_sort_Permutation _ _). apply NoDup_fmap_2_strong; [|apply NoDup_map_to_list].
      intros [f a] [g b] Ha%elem_of_map_to_list Hb%elem_of_map_to_list Hab. cbn in Hab. subst b.
      by rewrite (Hi f g a).
    - apply Forall_forall. intros v [f Hv]%sorted_values_elem. exact (proj2 (Hm _ _ Hv)). }
  destruct (sorted_values m) as [|v rest] eqn:E; [by apply not_elem_of_nil in Hin|].
  assert (v = 0) as ->; [|by exists rest].
  assert (exists f, m !! f = Some v) as [f Hv].
  { apply sorted_values_elem. rewrite E. apply list_elem_of_here. }
  apply Hm in Hv. apply elem_of_cons in Hin as [|Hin]; [done|].
  apply StronglySorted_inv in Hs as [_ Hs]. rewrite Forall_forall in Hs. specialize (Hs 0 Hin). cbn in Hs. lia.
Qed.

Lemma jump_table_top_byte bin base m f o :
  jump_table_ok m -> 0 <= base ->
  matches (jump_table_pattern 0 (sorted_values m)) (drop (Z.to_nat base) bin) = true ->
  m !! f = Some o -> bin !! (Z.to_nat (base + o) + 3)%nat = Some 8.
Proof.
  intros Hok Hbase Hm Hf. destruct (offset_multiple _ Hok _ _ Hf) as [Ho Ho4].
  destruct (sorted_values_steps _ Hok) as (rest & Hv & Hs). rewrite Hv in Hm.
  replace (Z.to_nat (base + o) + 3)%nat with (Z.to_nat base + (Z.to_nat (o + 3)))%nat by lia.
  rewrite <- lookup_drop. set (t := drop (Z.to_nat base) bin) in *.
  cbn [jump_table_pattern] in Hm. change (Z.to_nat (Z.max (0 - 0 - 4) 0)) with 0%nat in Hm.
  cbn [replicate app] in Hm. destruct t as [|b0 [|b1 [|b2 [|b3 t']]]]; try done.
  cbn [matches matches_byte andb] in Hm. apply andb_true_iff in Hm as [->%Z.eqb_eq Hm].
  destruct (decide (o = 0)) as [->|]; [done|].
  pose proof (jump_table_matches 0 rest t' Hs Hm) as HF. rewrite Forall_forall in HF.
  assert (o ∈ rest) as Hin.
  { assert (o ∈ sorted_values m) as Hin by (apply sorted_values_elem; by exists f).
    rewrite Hv in Hin. by apply elem_of_cons in Hin as [|]. }
  specialize (HF o Hin). replace (Z.to_nat (o + 3)) with (4 + Z.to_nat (o - 0 - 1))%nat by dlia.
  exact HF.
Qed.

(** C1: The symbol table holds the functions of the jump table of the firmware.  Let the offsets that the SDK's
    library has for its functions be multiples of four, each of one function, and 0 among them, and let
    the search for the table succeed.  Then there is a place in the image where every entry of the SDK's
    functions is the address of Thumb code in the first 16 MB of flash, and the symbols are these
    addresses as offsets of the image. *)
Theorem build_symbol_table_spec bin microcode_offset func_offset_map st :
  bytes_ok bin -> jump_table_ok func_offset_map ->
  build_symbol_table bin microcode_offset func_offset_map = Some st ->
  exists base, 0 <= base /\ forall f o, func_offset_map !! f = Some o -> exists abs_addr,
    unpack_us [4%nat] (slice (base + o) (base + o + 4) bin) = Some [abs_addr] /\
    abs_addr mod 2 = 1 /\ 0x8000000 <= abs_addr < 0x9000000 /\
    st !! f = Some (abs_addr - 1 - microcode_offset).
Proof.
  intros Hb Hok. unfold build_symbol_table.
  intros (base & [Hbase Hm]%find_match_Some & (entries & He & [= <-])%bind_Some)%bind_Some.
  exists base. split; [done|]. intros f o Hf. destruct (offset_multiple _ Hok _ _ Hf) as [Ho _].
  apply mapM_Some in He.
  assert (entries.*1 = (map_to_list func_offset_map).*1) as Hkeys.
  { clear -He. induction He as [|[g x] e l es (a & _ & [= <-])%bind_Some _ IH]; [done|]. cbn. by f_equal. }
  destruct (proj1 (list_elem_of_lookup _ _) (proj2 (elem_of_map_to_list _ _ _) Hf)) as [i Hi].
  destruct (Forall2_lookup_l _ _ _ _ _ He Hi) as (e & Hei & (a & Ha & [= <-])%bind_Some).
  cbn [fst snd] in *. unfold symbol_address in Ha. apply bind_Some in Ha as (words & Hw & Ha).
  destruct words as [|abs_addr [|]]; try done. rewrite land_1, land_lnot_1 in Ha.
  destruct (Z.eqb_spec (abs_addr mod 2) 0) as [|Hodd]; [done|]. cbn [negb] in Ha. injection Ha as <-.
  pose proof (Z.mod_pos_bound abs_addr 2 ltac:(lia)). exists abs_addr.
  split; [done|]. split; [lia|]. split.
  - assert (slice (base + o) (base + o + 4) bin !! 3%nat = Some 8) as H8.
    { rewrite slice_lookup by lia. by eapply jump_table_top_byte. }
    revert Hw H8. unfold unpack_us. destruct (Nat.eqb_spec (length (slice (base + o) (base + o + 4) bin))
      (sum_list [4%nat])) as [Hl|]; [|done].
    assert (bytes_ok (slice (base + o) (base + o + 4) bin)) as Hbs.
    { unfold bytes_ok, slice. by apply Forall_take, Forall_drop. }
    destruct (slice (base + o) (base + o + 4) bin) as [|b0 [|b1 [|b2 [|b3 [|]]]]]; try done.
    intros [= <-] [= ->]. unfold bytes_ok in Hbs. rewrite !Forall_cons in Hbs.
    destruct Hbs as (B0 & B1 & B2 & B3 & _). unfold is_byte in *. lia.
  - rewrite (elem_of_list_to_map_1 _ _ (abs_addr - abs_addr mod 2 - microcode_offset)).
    + f_equal. lia.
    + rewrite Hkeys. apply NoDup_fst_map_to_list.
    + by apply list_elem_of_lookup_2 in Hei.
Qed.

(** ** Examples *)

(** A firmware of 80 bytes with a jump table of two functions and an obsolete one. *)
Definition example_bin : list Z :=
  [0xB5; 0xB5; 0x00; 0xF0; 0x01; 0xF8; 0x70; 0x47] ++ replicate 8 0
  ++ [0x01; 0x40; 0; 8] ++ [0; 0; 0; 0] ++ [0x09; 0x40; 0; 8] ++ replicate 51 7.

Definition example_offsets : gmap string Z := {[ "f"%string := 0; "g"%string := 8 ]}.

(** Instructions at 0, 2, 6 and 8. *)
Definition example_deasm : list Z := ascii_bytes (String.concat nl
  [""; "   0:	b5b5 	push"; "   2:	f000 f801 	bl"; "   6:	4770 	bx"; "   8:	0000 	.word"]).

(** The library has the functions with these offsets. *)
Definition example_libpebble : list Z := ascii_bytes (String.concat nl
  ["00000000 <f>:"; "   8:	b.w	0 <f>"; "   c:	00000000 	.word	0x00000000";
   "00000000 <g>:"; "   8:	b.w	0 <g>"; "   c:	00000008 	.word	0x00000008"]).

Lemma example_func_offset_map : func_offset_map_of example_libpebble = Some example_offsets.
Proof. vm_compute. reflexivity. Qed.

Definition example_patcher : Patcher :=
  default (mk_Patcher "" [] [] ∅ 0 [] 0 ∅ [])
    (make_patcher "basalt" "tintin_fw.bin" example_bin example_deasm example_libpebble).

Definition example_wrapped : Patcher :=
  default example_patcher
    (m ← match_symbol example_patcher "f"; wrap example_patcher "f_patch" m "void" true).

(** A linker that places four bytes of code, with the hook at their start. *)
Definition example_build (h s : string) (target_end : Z) : option (gmap string Z * list Z) :=
  Some ({[ "f_patch"%string := target_end + target_end mod 2 ]}, [0x00; 0xBF; 0x70; 0x47]).

Lemma build_symbol_table_spec_witness :
  jump_table_ok example_offsets /\ exists st,
    build_symbol_table example_bin 0x8004000 example_offsets = Some st /\
    exists base, 0 <= base /\ forall f o, example_offsets !! f = Some o -> exists abs_addr,
      unpack_us [4%nat] (slice (base + o) (base + o + 4) example_bin) = Some [abs_addr] /\
      abs_addr mod 2 = 1 /\ 0x8000000 <= abs_addr < 0x9000000 /\
      st !! f = Some (abs_addr - 1 - 0x8004000).
Proof.
  assert (jump_table_ok example_offsets) as Hok.
  { unfold example_offsets. split.
    - intros f o [[<- <-]|[_ [<- <-]%lookup_singleton_Some]]%lookup_insert_Some; split; done || lia.
    - intros f g o [[<- <-]|[_ [<- <-]%lookup_singleton_Some]]%lookup_insert_Some
        [[<- H]|[_ [<- H]%lookup_singleton_Some]]%lookup_insert_Some; done || lia.
    - by exists "f"%string. }
  split; [exact Hok|]. eexists. split; [vm_compute; reflexivity|].
  apply build_symbol_table_spec; [|exact Hok|vm_compute; reflexivity].
  unfold example_bin, bytes_ok. repeat (constructor; [unfold is_byte; lia|]). constructor.
Defined.

Lemma wrap_passthru_witness :
  exists asm,
    op_queue example_wrapped =
      [PatchBranchOffset 0 "f_patch" false; PatchDefineSymbol "f_patch__return" 0x8004006;
       PatchAppendAsm "f_patch__passthru" asm "void"] /\
    read_bytes 7 asm = ([0xB5; 0xB5; 0x00; 0xF0; 0x01; 0xF8], "B f_patch__return" +:+ nl).
Proof.
  assert (bytes_ok (target_bin example_patcher)) as Hb.
  { vm_compute. repeat (constructor; [split; [discriminate|reflexivity]|]). constructor. }
  exact (wrap_passthru example_patcher "f_patch" (mk_MatchResult 0 None
    {[ "TARGET"%string := 0; "JUMP"%string := 0; "END"%string := 6 ]} ∅) "void" example_wrapped 0
    Hb eq_refl eq_refl).
Defined.

Lemma match_symbol_whole_instructions_witness :
  exists m, match_symbol example_patcher "f" = Some m /\
    markers m !! "JUMP"%string = Some 0 /\
    let e := default (0 + 4) (markers m !! "END"%string) in
    in_deasm example_patcher e = true /\ 0 + 4 <= e <= 0 + 6.
Proof.
  apply (match_symbol_whole_instructions example_patcher (fun a => in_deasm example_patcher a = true)).
  - reflexivity.
  - vm_compute. reflexivity.
  - vm_compute. reflexivity.
  - intros a Ha. assert (a = 0 \/ a = 1 \/ a = 2 \/ a = 3) as [-> | [-> | [-> | ->]]] by lia;
      vm_compute; (discriminate || (intros _; left; reflexivity) || (intros _; right; reflexivity)).
Defined.

Lemma example_in_image :
  Forall (in_image (len (target_bin example_wrapped))) (op_queue example_wrapped).
Proof. vm_compute. repeat constructor; discriminate. Qed.

Definition example_image : list Z := default [] (finalize example_build example_wrapped).

Lemma finalize_layout_witness :
  exists code patched,
    example_image = patched ++ [0] ++ code ++ replicate 47 7 /\ length patched = 79%nat /\
    (forall i, Forall (fun o => ~ writes o i) (op_queue example_wrapped) ->
      patched !! i = target_bin example_wrapped !! i) /\ length code = 4%nat.
Proof.
  assert (finalize example_build example_wrapped = Some example_image) as Hf by (vm_compute; reflexivity).
  destruct (finalize_layout example_build example_wrapped example_image Hf example_in_image)
    as (linked & code & patched & Hb & Himg & Hl & Hk & _).
  exists code, patched. split; [exact Himg|]. split; [exact Hl|]. split; [exact Hk|].
  injection Hb as _ <-. reflexivity.
Defined.

Lemma finalize_branches_witness :
  branch_at example_image 0 = Some (false, 80) /\ example_image !! 80%nat = Some 0.
Proof.
  destruct (finalize_branches example_build example_wrapped example_image) as (linked & code & Hb & H).
  - by vm_compute.
  - vm_compute. reflexivity.
  - exact example_in_image.
  - vm_compute. repeat constructor.
  - vm_compute. repeat constructor.
  - intros linked' code' [= <- <-] a s l Hin. vm_compute in Hin.
    assert (PatchBranchOffset a s l = PatchBranchOffset 0 "f_patch" false) as [= -> -> ->].
    { repeat (apply elem_of_cons in Hin as [|Hin]; [done|]). by apply not_elem_of_nil in Hin. }
    eexists. split; [vm_compute; reflexivity|]. vm_compute. split; [reflexivity|]. split; [discriminate|reflexivity].
  - injection Hb as <- <-. destruct (H 0 "f_patch"%string false) as (v & Hv & Ht & Hc).
    { apply list_elem_of_here. }
    vm_compute in Hv. injection Hv as <-. split; [exact Ht|]. vm_compute in Hc. vm_compute. exact Hc.
Defined.

(** Two bytes less of flash than the image needs. *)
Definition example_small (p : Patcher) : Patcher :=
  mk_Patcher (platform p) (target_bin p) (target_deasm p) (target_deasm_index p) (BOOTLOADER_SIZE p)
    (trailing_bin_content p) 130 (symtab p) (op_queue p).

Lemma finalize_error_witness : finalize example_build (example_small example_wrapped) = None.
Proof.
  eapply finalize_error; [reflexivity|exact example_in_image|right; vm_compute; reflexivity].
Defined.
