(* ===== verification/SearchProps.v ===== *)
(** * What the searches in a disassembly find

    A result of [patcher_match] comes from consecutive lines of the disassembly, in the
    range that was asked for, and it is the match that was asked for among all that there
    are.  A search fails with an assertion exactly when there is none, or more than one. *)

From Stdlib Require Import Sorted.
From stdpp Require Import gmap sorting strings pretty.
From S2P Require Import Prelude Bytes Loops Disasm Patcher PatcherProps Regex RegexProps.

(** ** Lines of the disassembly *)

(** The code of an instruction: one half-word, or two with a blank between them. *)
Definition code_text (w : list Z) : Prop :=
  w <> [] /\ all_in hex_digits w \/
  exists w1 w2, w = w1 ++ 32 :: w2 /\ w1 <> [] /\ w2 <> [] /\ all_in hex_digits w1 /\ all_in hex_digits w2.

(** A line between two positions, with the digits of its address, and an instruction that
    matches a pattern with the groups [k]. *)
Inductive line_at (pattern : regex) (p : pos) (digits : list Z) (k : gmap string (list Z)) (p' : pos) : Prop :=
| line_at_intro blanks1 blanks2 code blanks3 q :
    is_bol p = true -> all_in CSpace blanks1 -> digits <> [] -> all_in hex_digits digits ->
    all_in CSpace blanks2 -> code_text code -> all_in CSpace blanks3 ->
    advances p (blanks1 ++ digits ++ [58] ++ blanks2 ++ code ++ blanks3) q ->
    matches pattern (mk_pos (prev q) (rest q) ∅) (mk_pos (prev p') (rest p') k) ->
    is_eol p' = true ->
    line_at pattern p digits k p'.

(** Consecutive lines, one for each pattern. *)
Inductive listing : list regex -> pos -> list (list Z) -> gmap string (list Z) -> pos -> Prop :=
| listing_one pattern p digits k p' :
    line_at pattern p digits k p' -> listing [pattern] p [digits] k p'
| listing_cons pattern patterns p digits k q s ds k' p' :
    line_at pattern p digits k q -> rest q = 10 :: s -> listing patterns (mk_pos (Some 10) s ∅) ds k' p' ->
    listing (pattern :: patterns) p (digits :: ds) (k' ∪ k) p'.

Lemma seq_inv r1 r2 p p' : matches (Seq r1 r2) p p' ->
  exists q, matches r1 p q /\ matches r2 q p'.
Proof. inversion 1; subst. eauto. Qed.

Lemma code_inv p p' : 
  (exists q, matches (Plus hex_digits) p q /\
     matches (Opt (Seq (Cls (CLit 32)) (Plus hex_digits))) q p') ->
  exists w, code_text w /\ advances p w p' /\ caps p' = caps p.
Proof.
  intros (q & (w1 & N1 & A1 & V1 & K1)%matches_plus_inv & H).
  inversion H as [| | | | |? ? ? ? H1|? ? ? ? H1| | |]; subst.
  - apply seq_inv in H1 as (q2 & [V2 K2]%matches_lit_inv & (w2 & N2 & A2 & V3 & K3)%matches_plus_inv).
    exists (w1 ++ 32 :: w2). split; [right; by eauto 10|]. split; [|congruence].
    eapply advances_trans; [done|]. by apply (advances_trans _ [32] q2).
  - inversion H1; subst. exists w1. split; [by left|]. by split.
Qed.

Lemma line_regex_inv idx pattern p p' : matches (line_regex idx pattern) p p' ->
  exists digits k, line_at pattern p digits k p' /\ dom k ⊆ list_to_set (C := gset string) (names pattern) /\
    caps p' = k ∪ <[addr_group idx := digits]> (caps p).
Proof.
  unfold line_regex.
  intros (q0 & H0 & (q1 & (b1 & A1 & V1 & K1)%matches_star_inv & (q2 & H2 & (q3 & [V3 K3]%matches_lit_inv &
    (q4 & (b2 & A4 & V4 & K4)%matches_star_inv & (q5 & H5 & (q6 & H6 & (q7 & (b3 & A7 & V7 & K7)%matches_star_inv
    & (q8 & H8 & H9)%seq_inv)%seq_inv)%seq_inv)%seq_inv)%seq_inv)%seq_inv)%seq_inv)%seq_inv)%seq_inv.
  inversion H0; subst q0. inversion H9; subst q8.
  inversion H2 as [| | | | | | |name r ? q2' H2'| |]; subst. clear H2.
  pose proof (matches_advances _ _ _ H2') as (d' & Vd & Bd).
  apply matches_plus_inv in H2' as (d & Nd & Ad & Vd2 & Kd).
  assert (d' = d) as ->. { destruct Vd as [E _], Vd2 as [E' _]. rewrite E in E'. by apply app_inv_tail in E'. }
  rewrite Bd in *. cbn [prev rest caps] in *.
  destruct (code_inv q4 q6) as (c & Ac & Vc & Kc); [eauto|].
  pose proof (matches_rebase _ _ _ H8) as (k & Ek & Dk & Hk). exists d, k. split; [|split; [done|]].
  - apply line_at_intro with b1 b2 c b3 q7; try done.
    + eapply advances_trans; [exact V1|]. eapply advances_trans; [exact Vd|].
      eapply advances_trans; [exact V3|]. eapply advances_trans; [exact V4|].
      eapply advances_trans; [exact Vc|]. exact V7.
    + specialize (Hk ∅). by rewrite (right_id_L ∅ (∪)) in Hk by apply _.
  - by rewrite Ek, K7, Kc, K4, K3, Kd, K1.
Qed.

(** Captures before a listing do not matter. *)
Lemma line_at_caps pattern p d k p' m : line_at pattern p d k p' -> line_at pattern (mk_pos (prev p) (rest p) m) d k p'.
Proof. intros [b1 b2 code b3 q]. by apply (line_at_intro _ _ _ _ _ b1 b2 code b3 q). Qed.

Lemma listing_caps patterns p ds k p' m : listing patterns p ds k p' -> listing patterns (mk_pos (prev p) (rest p) m) ds k p'.
Proof.
  intros [? ? ? ? ? H|? ? ? ? ? ? ? ? ? ? H E Hs].
  - by apply listing_one, line_at_caps.
  - exact (listing_cons _ _ _ _ _ _ _ _ _ _ (line_at_caps _ _ _ _ _ _ H) E Hs).
Qed.

Definition is_addr (name : string) : bool := String.prefix "addr_" name.

Lemma addr_group_ne idx name : is_addr name = false -> addr_group idx <> name.
Proof. unfold is_addr, addr_group. intros Hn <-. by destruct (pretty idx). Qed.

Lemma line_names idx pattern : names (line_regex idx pattern) = addr_group idx :: names pattern.
Proof. cbn. by rewrite app_nil_r. Qed.

Lemma lines_regex_cons idx pattern patterns : patterns <> [] -> lines_regex idx (pattern :: patterns) =
  Seq (line_regex idx pattern) (Seq (Cls (CLit 10)) (lines_regex (S idx) patterns)).
Proof. by destruct patterns. Qed.

(** The groups of a match: the address of every line, and what the patterns capture. *)
Lemma lines_regex_inv idx patterns p p' : patterns <> [] -> NoDup (names (lines_regex idx patterns)) ->
  matches (lines_regex idx patterns) p p' -> exists ds k, listing patterns p ds k p' /\ length ds = length patterns /\
    (forall i d, ds !! i = Some d -> caps p' !! addr_group (idx + i) = Some d) /\
    (forall name, is_addr name = false -> caps p' !! name = (k ∪ caps p) !! name).
Proof.
  revert idx p. induction patterns as [|pattern patterns IH]; intros idx p Hne Hnd H; [done|].
  destruct (decide (patterns = [])) as [->|Hps].
  - apply line_regex_inv in H as (d & k & Hl & Dk & Hk). exists [d], k. split_and!; [by constructor|done| |].
    + intros [|i] d' Hd; [|by destruct i]. injection Hd as ->. rewrite Nat.add_0_r, Hk.
      cbn [lines_regex] in Hnd. rewrite line_names in Hnd. apply NoDup_cons in Hnd as [Hnd _].
      rewrite lookup_union_r, lookup_insert_eq; [done|]. apply not_elem_of_dom. set_solver.
    + intros name Hn. by rewrite Hk, !lookup_union, lookup_insert_ne by by apply addr_group_ne.
  - rewrite lines_regex_cons in H, Hnd by done. cbn [names] in Hnd. rewrite line_names in Hnd.
    apply NoDup_cons in Hnd as [Hd0 Hnd]. apply NoDup_app in Hnd as (_ & _ & Hnd). cbn [app] in Hnd.
    apply seq_inv in H as (q & (d & k & Hl & Dk & Hk)%line_regex_inv & (q' & [[Er Ev] Kq]%matches_lit_inv & Hrest)%seq_inv).
    destruct (IH (S idx) q' Hps Hnd Hrest) as (ds & k' & Hls & Hlen & Hds & Hcaps).
    destruct q' as [v s kq]. cbn in Er, Ev, Kq. subst v kq.
    exists (d :: ds), (k' ∪ k). split_and!.
    + econstructor; [exact Hl|exact Er|]. exact (listing_caps _ _ _ _ _ ∅ Hls).
    + cbn. by rewrite Hlen.
    + intros [|i] d' Hd; cbn in Hd.
      * injection Hd as ->. rewrite Nat.add_0_r, (matches_keeps _ _ _ _ Hrest); [|set_solver].
        cbn [caps]. rewrite Hk, lookup_union_r, lookup_insert_eq; [done|]. apply not_elem_of_dom. set_solver.
      * rewrite Nat.add_succ_r. by apply Hds.
    + intros name Hn. rewrite Hcaps by done. cbn [caps]. rewrite Hk, !lookup_union, lookup_insert_ne by by apply addr_group_ne.
      by destruct (k' !! name), (k !! name), (caps p !! name).
Qed.

(** ** Numbers *)

Lemma digit_value_hex x : in_cls hex_digits x = true -> exists d, digit_value x = Some d /\ 0 <= d < 16.
Proof.
  unfold hex_digits, digit_value. cbn. intros H.
  destruct ((48 <=? x) && (x <=? 57)) eqn:E1; [exists (x - 48); split; [done|]; lia|].
  destruct ((97 <=? x) && (x <=? 102)) eqn:E2; [exists (x - 87); split; [done|]; lia|]. lia.
Qed.

Lemma int_of_hex w : w <> [] -> all_in hex_digits w -> exists a, int_of 16 w = Some a.
Proof.
  unfold int_of. intros Hw H. rewrite decide_False by done. generalize 0. clear Hw.
  induction H as [|x w Hx _ IH]; intros acc; cbn [int_from]; [by eexists|].
  destruct (digit_value_hex x Hx) as (d & -> & Hd). cbn. replace (d <? 16) with true by lia. apply IH.
Qed.

Lemma listing_addrs patterns p ds k p' : listing patterns p ds k p' -> exists addrs, mapM (int_of 16) ds = Some addrs.
Proof.
  assert (forall pattern p d k p', line_at pattern p d k p' -> exists a, int_of 16 d = Some a) as Hl
    by (intros ? ? ? ? ? []; by apply int_of_hex).
  induction 1 as [? ? ? ? ? H|? ? ? ? ? ? ? ? ? ? H _ _ [as_ IH]]; apply Hl in H as [a Ha].
  - exists [a]. cbn. by rewrite Ha.
  - exists (a :: as_). cbn. by rewrite Ha, IH.
Qed.

(** ** The range of a search *)

(** [b] is the address of an instruction, the nearest one to [a] in a direction. *)
Definition nearest (p : Patcher) (forward : bool) (a b : Z) : Prop :=
  is_Some (target_deasm_index p !! b) /\
  (if forward then a <= b /\ forall c, a <= c < b -> target_deasm_index p !! c = None
   else b <= a /\ forall c, b < c <= a -> target_deasm_index p !! c = None).

Lemma nearest_here p f a : is_Some (target_deasm_index p !! a) -> nearest p f a a.
Proof. intros H. split; [done|]. destruct f; (split; [lia|intros c ?; lia]). Qed.

Lemma nearest_next p (f : bool) a b : target_deasm_index p !! a = None ->
  nearest p f a b <-> nearest p f (a + (if f then 1 else -1)) b.
Proof.
  intros Ha. unfold nearest. destruct f; (split; intros [[i Hi] [Hle Hb]]; (split; [by exists i|]));
    (assert (b <> a) by (intros ->; rewrite Ha in Hi; done || (specialize (Hb a ltac:(lia)); congruence)) || idtac);
    (split; [lia|]); intros c Hc; (destruct (decide (c = a)) as [->|]; [done|apply Hb; lia]) || idtac.
Qed.

(** The search ends at the nearest instruction, when the fuel reaches it. *)
Lemma deasm_index_spec fuel p a f i : deasm_index fuel p a (Some f) = inr i <->
  exists b, nearest p f a b /\ target_deasm_index p !! b = Some i /\ Z.abs (b - a) <= Z.of_nat fuel.
Proof.
  assert (forall a, target_deasm_index p !! a = Some i -> exists b,
    nearest p f a b /\ target_deasm_index p !! b = Some i /\ Z.abs (b - a) <= Z.of_nat fuel) as Hhere.
  { intros a' H. exists a'. split; [apply nearest_here; by eexists|]. split; [done|lia]. }
  revert a Hhere. induction fuel as [|fuel IH]; intros a Hhere; cbn [deasm_index];
    destruct (target_deasm_index p !! a) as [i'|] eqn:E.
  1, 3: split; [intros [= ->]; by apply Hhere|]; intros (b & [Hb Hn] & Hi & _);
    destruct f, Hn as [Hle Hn]; (destruct (decide (a = b)) as [->|]; [congruence|]); rewrite Hn in E by lia; done.
  - split; [done|]. intros (b & _ & Hi & Hd). assert (b = a) as -> by lia. congruence.
  - rewrite IH.
    + setoid_rewrite (nearest_next p f a); [|done]. split; intros (b & Hn & Hi & Hd); exists b; (split; [done|]);
        (split; [done|]); destruct Hn as [_ Hn]; destruct f, Hn as [Hle _]; lia.
    + intros a' Ha'. exists a'. split; [apply nearest_here; by eexists|]. split; [done|lia].
Qed.

Lemma deasm_index_not_assertion fuel p a f : deasm_index fuel p a (Some f) <> inl AssertionError.
Proof.
  revert a. induction fuel as [|fuel IH]; intros a; cbn [deasm_index]; destruct (_ !! a); done.
Qed.

(** An end of the range: the place of the line of the nearest instruction, or the end of the text. *)
Definition bound (fuel : nat) (p : Patcher) (forward : bool) (addr : option Z) (default i : Z) : Prop :=
  match truthy addr with
  | None => i = default
  | Some a => exists b, nearest p forward a b /\ target_deasm_index p !! b = Some i /\ Z.abs (b - a) <= Z.of_nat fuel
  end.

Definition bound_index (fuel : nat) (p : Patcher) (forward : bool) (addr : option Z) (default : Z) : outcome Z :=
  match truthy addr with Some a => deasm_index fuel p a (Some forward) | None => inr default end.

Lemma bound_spec fuel p f addr d i : bound_index fuel p f addr d = inr i <-> bound fuel p f addr d i.
Proof.
  unfold bound_index, bound. destruct (truthy addr); [apply deasm_index_spec|]. split; [by intros [= ->]|by intros ->].
Qed.

Lemma bound_not_assertion fuel p f addr d : bound_index fuel p f addr d <> inl AssertionError.
Proof. unfold bound_index. destruct (truthy addr); [apply deasm_index_not_assertion|done]. Qed.

(** ** The search *)

(** The markers and the lines of a pattern. *)
Definition marker_lines (pattern : string) : list (string * nat) * list (list Z) :=
  filter_markers (split_lines [] (ascii_bytes pattern)) [] [].

(** The expressions of the lines, which together are a valid one. *)
Definition line_patterns (pattern : string) (patterns : list regex) : Prop :=
  mapM parse_seq (marker_lines pattern).2 = Some patterns /\ NoDup (names (lines_regex 0 patterns)).

Lemma outcome_bind_inr {A B} (f : A -> outcome B) (o : outcome A) b :
  (o ≫= f) = inr b <-> exists a, o = inr a /\ f a = inr b.
Proof. destruct o as [e|a]; (split; [|]). - done. - by intros (? & ? & ?). - eauto. - by intros (? & [= ->] & ?). Qed.

Lemma raises_inr {A} (o : option A) a : raises o = inr a <-> o = Some a.
Proof. destruct o; cbn; (split; [congruence|]); congruence. Qed.

Lemma checked_Some r r' : checked r = Some r' <-> r' = r /\ NoDup (names r).
Proof. unfold checked. case_decide; (split; [|]). - by intros [= ->]. - by intros [-> _]. - done. - by intros []. Qed.

(** What the search does, by its parts. *)
Lemma patcher_match_inr fuel p pattern start end_ n res : patcher_match fuel p pattern start end_ n = inr res <->
  exists patterns i j m, line_patterns pattern patterns /\ bound fuel p false start 0 i /\
    bound fuel p true end_ (len (target_deasm p)) j /\
    nth_match (finditer (lines_regex 0 patterns) (slice i j (target_deasm p))) n = inr m /\
    match_result m (marker_lines pattern).1 (length patterns) = Some res.
Proof.
  unfold patcher_match, line_patterns, marker_lines. destruct (filter_markers _ _ _) as [mi ls]. cbn [fst snd].
  fold (bound_index fuel p false start 0). fold (bound_index fuel p true end_ (len (target_deasm p))).
  setoid_rewrite <- bound_spec. split.
  - intros (ps & Hps%raises_inr & (re & (-> & Hnd)%raises_inr%checked_Some & (i & Hi & (j & Hj & (m & Hm & Hr%raises_inr)
      %outcome_bind_inr)%outcome_bind_inr)%outcome_bind_inr)%outcome_bind_inr)%outcome_bind_inr.
    rewrite (length_mapM _ _ _ Hps) in Hr. exists ps, i, j, m. done.
  - intros (ps & i & j & m & [Hps Hnd] & Hi & Hj & Hm & Hr). rewrite (length_mapM _ _ _ Hps), Hps. cbn [mbind outcome_bind raises].
    rewrite (proj2 (checked_Some _ _) (conj eq_refl Hnd)). cbn [mbind outcome_bind raises].
    rewrite Hi. cbn [mbind outcome_bind]. rewrite Hj. cbn [mbind outcome_bind]. rewrite Hm. cbn [mbind outcome_bind].
    by rewrite Hr.
Qed.

Lemma markers_lookup (g : nat -> option Z) mi l name :
  mapM (fun kv : string * nat => a ← g kv.2; Some (kv.1, a)) mi = Some l ->
  (list_to_map (rev l) : gmap string Z) !! name = (list_to_map (rev mi) : gmap string nat) !! name ≫= g.
Proof.
  intros H%mapM_Some. assert (Forall2 (fun (kv : string * nat) ka => kv.1 = ka.1 /\ g kv.2 = Some ka.2) mi l) as Hl.
  { eapply Forall2_impl; [exact H|]. intros [k v] [k' a] (a' & Ha & [= <- <-])%bind_Some. done. }
  clear H. assert (Forall2 (fun (kv : string * nat) ka => kv.1 = ka.1 /\ g kv.2 = Some ka.2) (rev mi) (rev l)) as Hr.
  { clear -Hl. induction Hl; cbn; [constructor|]. apply Forall2_app; [done|]. constructor; [done|constructor]. }
  induction Hr as [|[k v] [k' a] ? ? [Hk Ha] _ IH]; cbn in *; [done|]. subst k'.
  destruct (decide (k = name)) as [->|]; [by rewrite !lookup_insert_eq|]. by rewrite !lookup_insert_ne.
Qed.

Lemma nth_match_elem ms n m : nth_match ms n = inr m -> m ∈ ms.
Proof.
  unfold nth_match. destruct ms as [|m0 [|m1 ms]], n as [n|]; try done.
  1: by intros H%raises_inr; case_match; [by eapply list_elem_of_lookup_2|case_match; [by eapply list_elem_of_lookup_2|done]].
  - intros [= ->]. by left.
  - intros H%raises_inr. case_match; [by eapply list_elem_of_lookup_2|case_match; [by eapply list_elem_of_lookup_2|done]].
Qed.

(** What a search says about the text that it has found: the lines have the addresses
    [addrs], and the instructions the groups [k]. *)
Definition describes (res : MatchResult) (marker_indices : list (string * nat)) (addrs : list Z)
    (k : gmap string (list Z)) : Prop :=
  head addrs = Some (match_start res) /\ last addrs = match_end res /\
  (forall name i, (list_to_map (rev marker_indices) : gmap string nat) !! name = Some i -> (i < length addrs)%nat ->
     markers res !! name = addrs !! i) /\
  (forall name, is_addr name = false -> groups res !! name = string_of <$> k !! name).

Lemma match_result_describes patterns p q mi res : NoDup (names (lines_regex 0 patterns)) ->
  matches (lines_regex 0 patterns) p q -> caps p = ∅ -> match_result (p, q) mi (length patterns) = Some res ->
  exists ds addrs k, listing patterns p ds k q /\ mapM (int_of 16) ds = Some addrs /\ describes res mi addrs k.
Proof.
  intros Hnd Hm Hp Hres. destruct (decide (patterns = [])) as [->|Hne].
  { inversion Hm; subst. exfalso. revert Hres. unfold match_result, group_addr, group. cbn. by rewrite Hp, lookup_empty. }
  destruct (lines_regex_inv 0 patterns p q Hne Hnd Hm) as (ds & k & Hl & Hlen & Hds & Hk).
  destruct (listing_addrs _ _ _ _ _ Hl) as [addrs Ha]. exists ds, addrs, k. split; [done|]. split; [done|].
  assert (length addrs = length patterns) as Hla by (rewrite <- Hlen; symmetry; by apply (length_mapM (int_of 16))).
  assert (forall i, (i < length patterns)%nat -> group_addr (p, q) i = addrs !! i) as Hg.
  { intros i Hi. unfold group_addr, group. cbn [snd]. destruct (lookup_lt_is_Some_2 ds i) as [d Hd]; [lia|].
    rewrite (Hds i d Hd : caps q !! addr_group i = _). cbn. apply mapM_Some in Ha.
    destruct (Forall2_lookup_l _ _ _ _ _ Ha Hd) as (a & -> & Had). exact Had. }
  assert (0 < length patterns)%nat by (destruct patterns; [done|cbn; lia]).
  revert Hres. unfold match_result. rewrite !Hg by lia. rewrite <- Hla, <- head_lookup, Nat.sub_1_r, <- last_lookup.
  intros (s & Hs & (e & He & (ms & Hms & [= <-])%bind_Some)%bind_Some)%bind_Some. split_and!; [done|done| |].
  - intros name i Hi Hlt. cbn [markers]. rewrite (markers_lookup _ _ _ name Hms), Hi. apply Hg. lia.
  - intros name Hn. cbn [groups]. rewrite lookup_fmap, map_lookup_filter. specialize (Hk name Hn). cbn [snd].
    rewrite Hk, Hp, (right_id_L ∅ (∪)) by apply _. destruct (k !! name); [|done]. cbn. by rewrite option_guard_True.
Qed.

(** The match that is asked for: the first, the last, or the only one. *)
Record chosen (n : option Z) (r : regex) (text : list Z) (m : match_object) : Prop := {
  chosen_match : position None text m.1 /\ match_at r m.1 m.2;
  chosen_first q : n = Some 0 -> position None text q -> matches_from r q <> [] ->
    (length (rest q) <= length (rest m.1))%nat;
  chosen_last q : n = Some (-1) -> position None text q -> matches_from r q <> [] ->
    covers m q \/ (length (rest m.1) < length (rest q))%nat;
  chosen_only q : n = None -> position None text q -> matches_from r q <> [] -> covers m q;
}.

Lemma covers_after m q : covers m q -> (length (rest q) <= length (rest m.1))%nat.
Proof. intros [->|]; lia. Qed.

Lemma nth_match_Some m0 ms n :
  nth_match (m0 :: ms) (Some n) = raises (if 0 <=? n then (m0 :: ms) !! Z.to_nat n
    else if 0 <=? len (m0 :: ms) + n then (m0 :: ms) !! Z.to_nat (len (m0 :: ms) + n) else None).
Proof. by destruct ms. Qed.

Lemma nth_match_first ms m : nth_match ms (Some 0) = inr m -> head ms = Some m.
Proof. destruct ms; [done|]. rewrite nth_match_Some. by intros [= ->]. Qed.

Lemma nth_match_last ms m : nth_match ms (Some (-1)) = inr m -> last ms = Some m.
Proof.
  destruct ms; [done|]. rewrite nth_match_Some. cbn [Z.leb Z.compare]. case_match; [|done].
  intros Hl%raises_inr. rewrite last_lookup, <- Hl. f_equal. cbn [length]. lia.
Qed.

Lemma nth_match_only ms m : nth_match ms None = inr m -> ms = [m].
Proof. destruct ms as [|? [|]]; cbn; try done. by intros [= ->]. Qed.

Lemma nth_match_chosen r text n m : nth_match (finditer r text) n = inr m -> chosen n r text m.
Proof.
  pose proof (finditer_from_found r None text (S (length text)) ltac:(lia) : found _ _ _ (finditer r text)) as [Fm Fo Fa]. intros H. split; [by apply Fm, (nth_match_elem _ _ _ H)|..];
    intros q -> Hq Hr; destruct (Fa q Hq Hr) as (m' & Hm' & Hc).
  - apply nth_match_first in H. destruct (finditer r text) as [|m0 ms]; [done|]. injection H as ->.
    apply covers_after in Hc. apply elem_of_cons in Hm' as [->|Hm']; [done|].
    apply StronglySorted_inv in Fo as [_ Fo]. rewrite Forall_forall in Fo. apply Fo in Hm' as [_ Hb]. lia.
  - apply nth_match_last, last_Some in H as [l H]. rewrite H in Hm', Fo.
    apply elem_of_app in Hm' as [Hm'| ->%list_elem_of_singleton]; [right|by left].
    assert (m ∈ [m]) as Hm by by left.
    destruct (StronglySorted_app_1_elem_of _ _ _ _ _ Fo Hm' Hm) as [Hb1 Hb2]. destruct Hc as [->|Hc]; lia.
  - apply nth_match_only in H. rewrite H in Hm'. by apply list_elem_of_singleton in Hm' as ->.
Qed.

(** C10: Searching the disassembly finds lines of it: a result comes from consecutive lines in
    the range between the instructions nearest to the given addresses, each with an
    instruction that matches its pattern; it is the first, the last or the only match when
    that one is asked for; and its start, end, markers and groups are the addresses of the
    first, the last and the marked lines and what the patterns capture. *)
Theorem patcher_match_spec fuel p pattern start end_ n res :
  patcher_match fuel p pattern start end_ n = inr res ->
  exists patterns i j q q' ds addrs k,
    line_patterns pattern patterns /\
    bound fuel p false start 0 i /\ bound fuel p true end_ (len (target_deasm p)) j /\
    chosen n (lines_regex 0 patterns) (slice i j (target_deasm p)) (q, q') /\
    listing patterns q ds k q' /\ mapM (int_of 16) ds = Some addrs /\
    describes res (marker_lines pattern).1 addrs k.
Proof.
  intros (patterns & i & j & [q q'] & Hp & Hi & Hj & Hm & Hr)%patcher_match_inr. apply nth_match_chosen in Hm.
  destruct (chosen_match _ _ _ _ Hm) as [[Hk _] Hq].
  destruct (match_result_describes patterns q q' (marker_lines pattern).1 res) as (ds & addrs & k & Hl & Ha & Hd);
    [apply Hp|by apply match_at_matches|done|done|].
  by exists patterns, i, j, q, q', ds, addrs, k.
Qed.

(** A search fails with an assertion exactly when the pattern matches nowhere in the range, or
    no match is asked for by its number and there are several. *)
Theorem patcher_match_assertion fuel p pattern start end_ n patterns i j :
  line_patterns pattern patterns -> bound fuel p false start 0 i -> bound fuel p true end_ (len (target_deasm p)) j ->
  let r := lines_regex 0 patterns in
  let text := slice i j (target_deasm p) in
  patcher_match fuel p pattern start end_ n = inl AssertionError <->
  (forall q, position None text q -> matches_from r q = []) \/ n = None /\ (1 < length (finditer r text))%nat.
Proof.
  intros [Hps Hnd] Hi%bound_spec Hj%bound_spec r text. subst r text.
  unfold patcher_match, marker_lines in *. destruct (filter_markers _ _ _) as [mi ls]. cbn [fst snd] in *.
  rewrite Hps. cbn [mbind outcome_bind raises]. rewrite (proj2 (checked_Some _ _) (conj eq_refl Hnd)).
  cbn [mbind outcome_bind raises].
  fold (bound_index fuel p false start 0). fold (bound_index fuel p true end_ (len (target_deasm p))).
  rewrite Hi. cbn [mbind outcome_bind]. rewrite Hj. cbn [mbind outcome_bind].
  set (r := lines_regex 0 patterns). set (text := slice i j (target_deasm p)).
  pose proof (finditer_from_found r None text (S (length text)) ltac:(lia) : found _ _ _ (finditer r text)) as [Fm Fo Fa].
  assert (finditer r text = [] <-> forall q, position None text q -> matches_from r q = []) as <-.
  { split.
    - intros E q Hq. destruct (decide (matches_from r q = [])) as [|H]; [done|]. destruct (Fa q Hq H) as (m & Hm & _).
      rewrite E in Hm. by apply not_elem_of_nil in Hm.
    - intros H. destruct (finditer r text) as [|m ms]; [done|]. destruct (Fm m) as [Hm Ha]; [by left|].
      unfold match_at in Ha. by rewrite H in Ha. }
  clear Fm Fo Fa. destruct (finditer r text) as [|m0 [|m1 ms]]; [by split; [left|]| |].
  - split; [|intros [|[_ H]]; [done|cbn in H; lia]].
    destruct n; [rewrite nth_match_Some; destruct (if _ : bool then _ else _)|]; cbn [mbind outcome_bind raises nth_match];
      try done; by destruct (match_result _ _ _).
  - destruct n as [n|]; [|split; [intros _; right; split; [done|cbn; lia]|done]].
    split; [|by intros [|[]]]. rewrite nth_match_Some. destruct (if _ : bool then _ else _); [|done].
    cbn [mbind outcome_bind raises]. by destruct (match_result _ _ _).
Qed.

(** ** Examples *)

Definition example_pattern : string := String.concat nl ["push"; "JUMP"; "bl"]%string.

(** The two instructions are at 0 and 2. *)
Lemma patcher_match_spec_witness : exists res, patcher_match 9 example_patcher example_pattern None None None = inr res /\
  match_start res = 0 /\ match_end res = Some 2 /\ markers res !! "JUMP"%string = Some 2 /\
  exists patterns i j q q' ds addrs k,
    line_patterns example_pattern patterns /\
    bound 9 example_patcher false None 0 i /\ bound 9 example_patcher true None (len (target_deasm example_patcher)) j /\
    chosen None (lines_regex 0 patterns) (slice i j (target_deasm example_patcher)) (q, q') /\
    listing patterns q ds k q' /\ mapM (int_of 16) ds = Some addrs /\
    describes res (marker_lines example_pattern).1 addrs k.
Proof.
  eexists. split; [vm_compute; reflexivity|]. split; [reflexivity|]. split; [reflexivity|]. split; [reflexivity|].
  apply (patcher_match_spec 9 example_patcher example_pattern None None None). vm_compute. reflexivity.
Defined.

(** There is no [nop]. *)
Lemma patcher_match_assertion_witness : exists patterns, line_patterns "nop" patterns /\
  patcher_match 9 example_patcher "nop" None None (Some 0) = inl AssertionError /\
  forall q, position None (target_deasm example_patcher) q -> matches_from (lines_regex 0 patterns) q = [].
Proof.
  eexists. assert (line_patterns "nop" ltac:(let x := eval vm_compute in (mapM parse_seq (marker_lines "nop").2) in
    match x with Some ?ps => exact ps end)) as Hp.
  { split; [vm_compute; reflexivity|]. apply (bool_decide_unpack _). vm_compute. exact I. }
  split; [exact Hp|]. split; [vm_compute; reflexivity|]. intros q Hq.
  destruct (proj1 (patcher_match_assertion 9 example_patcher "nop" None None (Some 0) _ 0
    (len (target_deasm example_patcher)) Hp eq_refl eq_refl)) as [H|[H _]].
  - vm_compute. reflexivity.
  - apply H. revert Hq. vm_compute. exact id.
  - discriminate.
Defined.

(** Replacing "sl" to rename the register changes the name of an instruction. *)
Example normalise_lsl : normalise (ascii_bytes "lsl	r0, r1") = ascii_bytes "lr10 r0, r1".
Proof. reflexivity. Qed.

(** The digits of the code may give back their last ones to a pattern that starts with such a
    letter: the last line of the render handler's call matches instructions that are no branch. *)
Example branch_pattern_matches_code :
  finditer (line_regex 0 (default Eps (compile "b.+"))) (ascii_bytes "  2e:	4b02 	ldr	r3, [pc, #8]") <> [].
Proof. vm_compute. discriminate. Qed.
