(* ===== verification/PatchScript.v ===== *)
(** * The patch of a firmware (patch.py)

    [patch] searches the disassembly of the firmware for the places that the hooks need, and
    queues the changes: branches to the hooks, and the assembly that is injected, with the
    registers and offsets that it has found. *)

From stdpp Require Import gmap strings pretty.
From S2P Require Import Prelude Bytes Regex Disasm Patcher.

(** [PLATFORM_UNSHAPE_MAP.get(platform, True)] *)
Definition TEXT_UNSHAPE (platform : string) : bool := negb (bool_decide (platform = "aplite")).

(** A string over several lines. *)
Definition lines (ls : list string) : string := String.concat nl ls.

Definition gdt_end_pattern : string :=
  lines ["JUMP"; "add sp, .+"; "ldmia.w sp!.+"; ".+"; "bx\s+lr"].

Definition layout_driver_end_pattern : string :=
  lines [""; "    add sp, #(?P<sz1>\d+).*"; "    ldm.+\{(?P<popregs>.+)\}"; "    "].

Definition render_handler_call_pattern : string :=
  lines [""; "    mov r0, (?P<gctx_reg>r\d+)"; "    mov r1, (?P<layout_reg>r\d+)"; "    JUMP";
         "    ldr r2, \[sp, #(?P<arg3_sp_off>\d+)\].*"; "    blx (?P<hdlr_reg>r\d+)"; "    b.+"; ""].

Definition more_text_pattern : string := "c(mp|bnz).+(?P<reg>r\d+).*".

(** [int(s)], and [int(s.strip("r"))] of a register *)
Definition int (s : string) : option Z := int_of 10 (ascii_bytes s).

Fixpoint lstrip_r (s : list Z) : list Z :=
  match s with x :: s' => if x =? 114 then lstrip_r s' else s | [] => [] end.
Definition register_number (s : string) : option Z :=
  int_of 10 (rev (lstrip_r (rev (lstrip_r (ascii_bytes s))))).

(** ** The injected assembly *)

(** A [.byte] directive for every byte; the first one is indented like the lines around it. *)
Definition byte_directives (mcode : list Z) : list string :=
  match (fun b => ".byte 0x" +:+ hex b) <$> mcode with
  | [] => ["    "]
  | l :: ls => ("    " +:+ l) :: ls
  end.

Definition unshape_asm (text_struct_sp_off : Z) (gdt_return_overwrote_mcode : list Z) : list string :=
  [""; "    LDR r0, [sp, #" +:+ pretty text_struct_sp_off +:+ "]"]
  ++ byte_directives (slice_to 8 gdt_return_overwrote_mcode)
  ++ ["    @ At this point, we're back to immediately after the BL...";
      "    @ Run the un-shaper...";
      "    PUSH {ip, lr}";
      "    BL unshape_text";
      "    @ Done!";
      "    POP {ip, pc}";
      "    "].

Definition render_wrap_asm (layout_reg more_text_reg arg3_sp_off hdlr_reg : string) : list string :=
  ["";
   "    @ At this point, we have the render handler args 1 (gcontext) and 2 (layout) in r0/r1, and were about to load the 3rd (??) from wherever.";
   "    @ The handler itself is in r3, probably";
   "    @ render_rtl_step wants *text, more_text, and callsite SP";
   "    @ So, first back up the render handler args";
   "    PUSH {r0-r3}";
   "    LDR r0, [" +:+ layout_reg +:+ "]";
   "    MOV r1, " +:+ more_text_reg;
   "    ADD r2, sp, #16";
   "    @ We don't need to preserve LR!";
   "    BL render_rtl_step";
   "    POP {r0-r3}";
   "    @ Load the final handler argument";
   "    LDR r2, [sp, #" +:+ arg3_sp_off +:+ "]";
   "    @ Run render handler";
   "    BLX " +:+ hdlr_reg;
   "    @ Run the RTL routine again";
   "    @ This time we need not preserve r0-r3";
   "    LDR r0, [" +:+ layout_reg +:+ "]";
   "    MOV r1, " +:+ more_text_reg;
   "    MOV r2, sp";
   "    BL render_rtl_step";
   "    # Return to original site";
   "    B render_wrap__return";
   ""].

Section Script.
(** The fuel of the searches for an address. *)
Variable fuel : nat.

(** [m.groups[name]], and as a number *)
Definition group_of (m : MatchResult) (name : string) : outcome string := raises (groups m !! name).
Definition int_group (m : MatchResult) (name : string) : outcome Z :=
  s ← group_of m name; raises (int s).
(** [m.end] of a match in the disassembly *)
Definition end_of (m : MatchResult) : outcome Z := raises (match_end m).

(** ** Undoing the shaping *)

(** The offset of the text in the stack frame: stored there directly, or in a structure that
    the first call takes. *)
Definition text_struct_sp_off (p : Patcher) (gdt_match gdt_end_match : MatchResult) : outcome Z :=
  r1_stash ← patcher_match fuel p "mov (?P<reg>r\d+), r1" (Some (match_start gdt_match)) None (Some 0);
  r1_stash_reg ← group_of r1_stash "reg";
  gdt_end ← end_of gdt_end_match;
  match patcher_match fuel p ("str " +:+ r1_stash_reg +:+ ", \[sp, #(?P<off>\d+)\]")
          (Some (match_start gdt_match)) (Some gdt_end) (Some 0) with
  | inr m => int_group m "off"
  | inl AssertionError =>
      first_call_match ← patcher_match fuel p "bl .+" (Some (match_start gdt_match))
        (Some (match_start gdt_end_match)) (Some 0);
      first_call_r0_match ← patcher_match fuel p "mov r0, (?P<reg>r\d+)" (Some (match_start gdt_match))
        (Some (match_start first_call_match)) (Some (-1));
      reg ← group_of first_call_r0_match "reg";
      m ← patcher_match fuel p ("add " +:+ reg +:+ ", sp, #(?P<off>\d+)") (Some (match_start gdt_match))
        (Some (match_start first_call_r0_match)) (Some (-1));
      int_group m "off"
  | inl e => inl e
  end.

Definition patch_unshape (p : Patcher) (gdt_match gdt_end_match : MatchResult) : outcome Patcher :=
  gdt_end ← end_of gdt_end_match;
  return_end ← match addr_step fuel p gdt_end 2 with Some a => inr a | None => inl NoFuel end;
  let gdt_return_overwrote_mcode := slice (match_start gdt_end_match) return_end (target_bin p) in
  off ← text_struct_sp_off p gdt_match gdt_end_match;
  _ ← patcher_match fuel p "mov r1, (?P<reg>r\d+)" None (Some (match_start gdt_end_match)) (Some (-1));
  raises (inject p "graphics_draw_text_unshape" gdt_end_match
    (Some (lines (unshape_asm off gdt_return_overwrote_mcode)))).

(** ** Rendering *)

(** Where the end of the line is in the stack frame of the layout function. *)
Definition patch_line_end (p : Patcher) (layout_driver_addr : Z) : outcome Patcher :=
  if decide (platform p = "aplite") then
    setup_end ← patcher_match fuel p "b(?:ne|eq).+" (Some layout_driver_addr) None (Some 2);
    last_call ← patcher_match fuel p "bl.+" (Some layout_driver_addr) (Some (match_start setup_end)) (Some (-1));
    m ← patcher_match fuel p "add r1, sp, #(?P<off>\d+).*" (Some layout_driver_addr)
      (Some (match_start last_call)) (Some (-1));
    off ← int_group m "off";
    mret (define_macro p "LINEEND_SP_OFF" (pretty off))
  else if decide (platform p = "diorite") then mret (define_macro p "LINEEND_INDIRECT_SP_OFF" "56")
  else mret (define_macro p "LINEEND_SP_OFF" "124").

(** The register of the flag: one that survives the call of the handler. *)
Definition more_text_register (p : Patcher) (layout_driver_addr : Z) (call_match end_match : MatchResult)
    : outcome string :=
  m ← patcher_match fuel p more_text_pattern (Some layout_driver_addr) (Some (match_start call_match)) (Some (-1));
  reg ← group_of m "reg";
  n ← raises (register_number reg);
  reg ← if n <? 4 then
          m ← patcher_match fuel p more_text_pattern (Some layout_driver_addr) (Some (match_start end_match)) (Some (-3));
          group_of m "reg"
        else mret reg;
  n ← raises (register_number reg);
  if n >? 2 then mret reg else inl AssertionError.

Definition patch_render (p : Patcher) (gdt_match gdt_end_match : MatchResult) : outcome Patcher :=
  gdt_end ← end_of gdt_end_match;
  layout_driver_match ← patcher_match fuel p "bl\s+0x(?P<fnc>[0-9a-f]+)$" (Some (match_start gdt_match))
    (Some gdt_end) (Some (-1));
  fnc ← group_of layout_driver_match "fnc";
  layout_driver_addr ← raises (int_of 16 (ascii_bytes fnc));
  layout_driver_end_match ← patcher_match fuel p layout_driver_end_pattern (Some layout_driver_addr) None (Some 0);
  _ ← int_group layout_driver_end_match "sz1";
  p ← patch_line_end p layout_driver_addr;
  render_handler_call_match ← patcher_match fuel p render_handler_call_pattern (Some layout_driver_addr) None (Some 0);
  more_text_reg ← more_text_register p layout_driver_addr render_handler_call_match layout_driver_end_match;
  layout_reg ← group_of render_handler_call_match "layout_reg";
  hdlr_reg ← group_of render_handler_call_match "hdlr_reg";
  arg3_sp_off ← group_of render_handler_call_match "arg3_sp_off";
  let p := define_macro p "RENDERHDLR_ARG3_SP_OFF" arg3_sp_off in
  raises (inject p "render_wrap" render_handler_call_match
    (Some (lines (render_wrap_asm layout_reg more_text_reg arg3_sp_off hdlr_reg)))).

(** ** The script *)

Definition wrap_symbol (p : Patcher) (dest_symbol symbol return_type : string) (passthru : bool) : outcome Patcher :=
  m ← raises (match_symbol p symbol);
  raises (wrap p dest_symbol m return_type passthru).

Definition patch (p : Patcher) : outcome Patcher :=
  gdt_match ← raises (match_symbol p "graphics_draw_text");
  gdt_end_match ← patcher_match fuel p gdt_end_pattern (Some (match_start gdt_match)) None (Some 0);
  p ← if TEXT_UNSHAPE (platform p) then patch_unshape p gdt_match gdt_end_match else mret p;
  p ← raises (wrap p "graphics_draw_text_patch" gdt_match "void" true);
  p ← wrap_symbol p "graphics_text_layout_get_content_size_patch" "graphics_text_layout_get_content_size" "GSize" false;
  p ← wrap_symbol p "graphics_text_layout_get_content_size_with_attributes_patch"
        "graphics_text_layout_get_content_size_with_attributes" "GSize" true;
  patch_render p gdt_match gdt_end_match.
End Script.
