(* ===== verification/PatchScriptProps.v ===== *)
(** * What patch.py does to a firmware

    When the script succeeds it has queued a branch for each hook, with the code that it has
    assembled from what it found in the disassembly ([patch_queues]); the injected assembly is
    that of the blocks whose behaviour is proved in AsmProps; and the written image has the
    branches to the hooks. *)

From Stdlib Require Import Ascii.
From stdpp Require Import gmap strings pretty.
From S2P Require Import Prelude Bytes Asm Thumb Regex Disasm Patcher PatcherProps SearchProps PatchScript.

(** ** Queues *)

Definition queue (p : Patcher) (ops : list op) : Patcher := fold_left q ops p.

Lemma queue_app p ops1 ops2 : queue (queue p ops1) ops2 = queue p (ops1 ++ ops2).
Proof. unfold queue. by rewrite fold_left_app. Qed.

Lemma queue_spec p ops : queue p ops = mk_Patcher (platform p) (target_bin p) (target_deasm p) (target_deasm_index p)
  (BOOTLOADER_SIZE p) (trailing_bin_content p) (MAX_IMAGE_SIZE p) (symtab p) (op_queue p ++ ops).
Proof.
  revert p. induction ops as [|o ops IH]; intros p; cbn; [rewrite app_nil_r; by destruct p|].
  change (fold_left q ops (q p o)) with (queue (q p o) ops). rewrite IH. cbn. by rewrite <- app_assoc.
Qed.

Lemma symtab_queue p ops : symtab (queue p ops) = symtab p.
Proof. by rewrite queue_spec. Qed.

(** What [inject] and [wrap] queue, [jump] being where the branch goes. *)
Definition inject_ops (p : Patcher) (dest : string) (jump : Z) (asm : list string) : list op :=
  [PatchBranchOffset jump (dest +:+ "__proxy") false;
   PatchDefineSymbol (dest +:+ "__return") (MICROCODE_OFFSET p + (jump + 4));
   PatchAppendAsm (dest +:+ "__proxy") (lines asm) "void"].

(** The end of the instructions that a branch at [jump] overwrites. *)
Definition whole_end (p : Patcher) (jump : Z) : Z := if in_deasm p (jump + 4) then jump + 4 else jump + 6.

Definition wrap_ops (p : Patcher) (dest : string) (jump : Z) (return_type : string) (passthru : bool) : list op :=
  let e := whole_end p jump in
  [PatchBranchOffset jump dest false;
   PatchDefineSymbol (dest +:+ "__return") (MICROCODE_OFFSET p + e)]
  ++ if passthru then
       [PatchAppendAsm (dest +:+ "__passthru")
          (byte_lines (slice jump e (target_bin p)) +:+ "B " +:+ dest +:+ "__return" +:+ nl) return_type]
     else [].

Lemma inject_queue p dest m a asm p' : lines (a :: asm) <> ""%string ->
  inject p dest m (Some (lines (a :: asm))) = Some p' <->
  exists jump, markers m !! "JUMP"%string = Some jump /\ p' = queue p (inject_ops p dest jump (a :: asm)).
Proof.
  intros Hne. unfold inject. destruct (markers m !! "JUMP"%string) as [j|]; cbn [mbind option_bind default from_option].
  1: rewrite decide_False by done.
  - split; [intros [= <-]; by exists j|by intros (? & [= <-] & ->)].
  - split; [done|by intros (? & ? & _)].
Qed.

Lemma match_symbol_queue p ops symbol : match_symbol (queue p ops) symbol = match_symbol p symbol.
Proof. by rewrite queue_spec. Qed.

Lemma wrap_match p dest symbol m ret passthru : match_symbol p symbol = Some m ->
  symtab p !! symbol = Some (match_start m) /\ wrap p dest m ret passthru = Some (queue p (wrap_ops p dest (match_start m) ret passthru)).
Proof.
  unfold match_symbol, wrap. intros (jump & Hs & [= <-])%bind_Some. cbn [markers match_start]. split; [done|].
  set (ms := if negb (in_deasm p (jump + 4)) then _ else _).
  assert (ms !! "JUMP"%string = Some jump /\ default (jump + 4) (ms !! "END"%string) = whole_end p jump) as [Hj He].
  { subst ms. unfold whole_end. destruct (in_deasm p (jump + 4)); cbn [negb]; split;
      rewrite ?(lookup_insert_ne _ "END" "JUMP"), ?(lookup_insert_ne _ "TARGET" "JUMP"), ?lookup_singleton_eq,
        ?lookup_insert_eq, ?lookup_insert_ne, ?lookup_singleton_ne by done; done. }
  rewrite Hj. cbn [mbind option_bind]. unfold MICROCODE_OFFSET. cbn [q target_bin BOOTLOADER_SIZE]. rewrite He.
  replace (jump + (whole_end p jump - jump)) with (whole_end p jump) by lia. by destruct passthru.
Qed.

(** ** The script *)

(** What the script finds in the firmware: the functions, the ends and calls in them, and
    the registers and offsets there. *)
Record sites := mk_sites {
  gdt : Z;
  gdt_end : MatchResult;
  unshape_jump : Z;
  text_off : Z;
  return_code : list Z;
  measure : Z;
  measure_attributes : Z;
  layout_driver : Z;
  layout_end : MatchResult;
  line_end : op;
  render_call : MatchResult;
  render_jump : Z;
  layout_reg : string;
  more_text_reg : string;
  arg3_sp_off : string;
  hdlr_reg : string;
}.

(** The changes that the script queues. *)
Definition patch_ops (p : Patcher) (s : sites) : list op :=
  (if TEXT_UNSHAPE (platform p) then
     inject_ops p "graphics_draw_text_unshape" (unshape_jump s) (PatchScript.unshape_asm (text_off s) (return_code s))
   else [])
  ++ wrap_ops p "graphics_draw_text_patch" (gdt s) "void" true
  ++ wrap_ops p "graphics_text_layout_get_content_size_patch" (measure s) "GSize" false
  ++ wrap_ops p "graphics_text_layout_get_content_size_with_attributes_patch" (measure_attributes s) "GSize" true
  ++ [line_end s; PatchDefineMacro "RENDERHDLR_ARG3_SP_OFF" (arg3_sp_off s)]
  ++ inject_ops p "render_wrap" (render_jump s)
       (PatchScript.render_wrap_asm (layout_reg s) (more_text_reg s) (arg3_sp_off s) (hdlr_reg s)).

Section Found.
Context (fuel : nat) (p : Patcher).

(** The [n]-th match of a pattern from [start] to [stop]; a negative [n] counts from the last. *)
Definition finds (pattern : string) (start : Z) (stop : option Z) (n : Z) (m : MatchResult) : Prop :=
  patcher_match fuel p pattern (Some start) stop (Some n) = inr m.

Definition group_is (m : MatchResult) (name value : string) : Prop := groups m !! name = Some value.
Definition number_is (m : MatchResult) (name : string) (v : Z) : Prop := exists s, group_is m name s /\ int s = Some v.
Definition register_is (m : MatchResult) (name reg : string) (n : Z) : Prop :=
  group_is m name reg /\ register_number reg = Some n.

(** Where the stack frame of the drawing function has the text: the register that takes it from r1 is
    stored there; or if it is not stored, the first call takes in r0 the address of a structure there. *)
Inductive text_found (gdt gdt_last ret : Z) (off : Z) : Prop :=
| text_stored stash reg m :
    finds "mov (?P<reg>r\d+), r1" gdt None 0 stash -> group_is stash "reg" reg ->
    finds ("str " +:+ reg +:+ ", \[sp, #(?P<off>\d+)\]") gdt (Some ret) 0 m -> number_is m "off" off ->
    text_found gdt gdt_last ret off
| text_in_struct stash stash_reg call mov reg m :
    finds "mov (?P<reg>r\d+), r1" gdt None 0 stash -> group_is stash "reg" stash_reg ->
    patcher_match fuel p ("str " +:+ stash_reg +:+ ", \[sp, #(?P<off>\d+)\]") (Some gdt) (Some ret) (Some 0)
    = inl AssertionError ->
    finds "bl .+" gdt (Some gdt_last) 0 call ->
    finds "mov r0, (?P<reg>r\d+)" gdt (Some (match_start call)) (-1) mov -> group_is mov "reg" reg ->
    finds ("add " +:+ reg +:+ ", sp, #(?P<off>\d+)") gdt (Some (match_start mov)) (-1) m -> number_is m "off" off ->
    text_found gdt gdt_last ret off.

(** The end of the drawing function, which the unshaping replaces: the jump, and the instructions from
    the first of the match to the one after its last. *)
Record unshape_found (gdt : Z) (gdt_end : MatchResult) (jump off : Z) (code : list Z) : Prop := {
  unshape_jump_found : markers gdt_end !! "JUMP"%string = Some jump;
  unshape_text_found : exists ret, match_end gdt_end = Some ret /\ text_found gdt (match_start gdt_end) ret off;
  unshape_code_found : exists ret next, match_end gdt_end = Some ret /\ addr_step fuel p ret 2 = Some next /\
    code = slice (match_start gdt_end) next (target_bin p);
  unshape_pointer_found : exists m,
    patcher_match fuel p "mov r1, (?P<reg>r\d+)" None (Some (match_start gdt_end)) (Some (-1)) = inr m;
}.

(** The offset of the end of the line: on aplite from the last call before the third branch of the
    layout function, and else what was measured. *)
Inductive line_end_found (layout_driver : Z) : op -> Prop :=
| line_end_aplite setup_end last_call m off : platform p = "aplite"%string ->
    finds "b(?:ne|eq).+" layout_driver None 2 setup_end ->
    finds "bl.+" layout_driver (Some (match_start setup_end)) (-1) last_call ->
    finds "add r1, sp, #(?P<off>\d+).*" layout_driver (Some (match_start last_call)) (-1) m -> number_is m "off" off ->
    line_end_found layout_driver (PatchDefineMacro "LINEEND_SP_OFF" (pretty off))
| line_end_diorite : platform p = "diorite"%string ->
    line_end_found layout_driver (PatchDefineMacro "LINEEND_INDIRECT_SP_OFF" "56")
| line_end_other : platform p <> "aplite"%string -> platform p <> "diorite"%string ->
    line_end_found layout_driver (PatchDefineMacro "LINEEND_SP_OFF" "124").

(** The register of the flag: of the last comparison before the render handler is called, if the
    call keeps it, and else of the third comparison from the end of the function. *)
Inductive flag_found (layout_driver : Z) (render_call layout_end : MatchResult) (reg : string) : Prop :=
| flag_kept m n : finds more_text_pattern layout_driver (Some (match_start render_call)) (-1) m ->
    register_is m "reg" reg n -> 4 <= n -> flag_found layout_driver render_call layout_end reg
| flag_again m reg0 n0 m' n : finds more_text_pattern layout_driver (Some (match_start render_call)) (-1) m ->
    register_is m "reg" reg0 n0 -> n0 < 4 ->
    finds more_text_pattern layout_driver (Some (match_start layout_end)) (-3) m' ->
    register_is m' "reg" reg n -> 2 < n -> flag_found layout_driver render_call layout_end reg.

(** Where the script has found it: the functions by their symbols; the end of the drawing function as the
    first place behind its start that looks like one; the layout function as the last that the drawing
    function calls; and the call of the render handler as the first place there that looks like one. *)
Record sites_found (s : sites) : Prop := {
  found_gdt : symtab p !! "graphics_draw_text"%string = Some (gdt s);
  found_gdt_end : finds gdt_end_pattern (gdt s) None 0 (gdt_end s);
  found_unshape : TEXT_UNSHAPE (platform p) = true ->
    unshape_found (gdt s) (gdt_end s) (unshape_jump s) (text_off s) (return_code s);
  found_measure : symtab p !! "graphics_text_layout_get_content_size"%string = Some (measure s);
  found_measure_attributes :
    symtab p !! "graphics_text_layout_get_content_size_with_attributes"%string = Some (measure_attributes s);
  found_layout_driver : exists ret call fnc, match_end (gdt_end s) = Some ret /\
    finds "bl\s+0x(?P<fnc>[0-9a-f]+)$" (gdt s) (Some ret) (-1) call /\ group_is call "fnc" fnc /\
    int_of 16 (ascii_bytes fnc) = Some (layout_driver s);
  found_layout_end : finds layout_driver_end_pattern (layout_driver s) None 0 (layout_end s);
  found_frame : exists size, number_is (layout_end s) "sz1" size;
  found_line_end : line_end_found (layout_driver s) (line_end s);
  found_render_call : finds render_handler_call_pattern (layout_driver s) None 0 (render_call s);
  found_render_jump : markers (render_call s) !! "JUMP"%string = Some (render_jump s);
  found_layout_reg : group_is (render_call s) "layout_reg" (layout_reg s);
  found_arg3 : group_is (render_call s) "arg3_sp_off" (arg3_sp_off s);
  found_hdlr_reg : group_is (render_call s) "hdlr_reg" (hdlr_reg s);
  found_more_text : flag_found (layout_driver s) (render_call s) (layout_end s) (more_text_reg s);
}.
End Found.

(** Searches and symbols do not depend on the queue. *)
Lemma patcher_match_queue fuel p ops pattern start end_ n :
  patcher_match fuel (queue p ops) pattern start end_ n = patcher_match fuel p pattern start end_ n.
Proof.
  assert (forall fuel a f, deasm_index fuel (queue p ops) a f = deasm_index fuel p a f) as H.
  { rewrite queue_spec. induction fuel0 as [|fuel0 IH]; intros a f; cbn; [done|].
    destruct (_ !! _); [done|]. destruct f; [apply IH|done]. }
  unfold patcher_match. rewrite queue_spec in *. cbn [target_deasm target_deasm_index]. 
  destruct (filter_markers _ _ _) as [mi ls]. destruct (raises _) as [|ps]; [done|]. cbn [mbind outcome_bind].
  destruct (raises _) as [|re]; [done|]. cbn [mbind outcome_bind].
  by destruct (truthy start), (truthy end_); rewrite ?H.
Qed.

Lemma wrap_ops_queue p ops dest jump ret passthru :
  wrap_ops (queue p ops) dest jump ret passthru = wrap_ops p dest jump ret passthru.
Proof. by rewrite queue_spec. Qed.

Lemma inject_ops_queue p ops dest jump asm : inject_ops (queue p ops) dest jump asm = inject_ops p dest jump asm.
Proof. by rewrite queue_spec. Qed.

Lemma wrap_symbol_spec p dest symbol ret passthru p' : wrap_symbol p dest symbol ret passthru = inr p' <->
  exists jump, symtab p !! symbol = Some jump /\ p' = queue p (wrap_ops p dest jump ret passthru).
Proof.
  unfold wrap_symbol. rewrite outcome_bind_inr. setoid_rewrite raises_inr. split.
  - intros (m & Hm & H). destruct (wrap_match p dest _ _ ret passthru Hm) as [Hs Hw]. rewrite Hw in H. injection H as <-. eauto.
  - intros (jump & Hs & ->). assert (exists m, match_symbol p symbol = Some m) as [m Hm] by (unfold match_symbol; rewrite Hs; eauto).
    exists m. destruct (wrap_match p dest _ _ ret passthru Hm) as [Hs' Hw]. split; [done|]. congruence.
Qed.

#[local] Opaque patcher_match queue.

(** ** The script succeeds exactly when it finds everything *)

(** Steps of the script whose results are at hand. *)
Ltac found_steps :=
  repeat (apply outcome_bind_inr; eexists; split; [first [eassumption | apply raises_inr; eassumption]|]; cbn beta).

Section Searches.
Context (fuel : nat).

Lemma group_of_spec m name v : group_of m name = inr v <-> group_is m name v.
Proof. apply raises_inr. Qed.

Lemma int_group_spec m name v : int_group m name = inr v <-> number_is m name v.
Proof.
  unfold int_group, number_is. rewrite outcome_bind_inr. by setoid_rewrite group_of_spec; setoid_rewrite raises_inr.
Qed.

Lemma text_struct_sp_off_spec p gdt_match gdt_end_match off :
  text_struct_sp_off fuel p gdt_match gdt_end_match = inr off <->
  exists ret, match_end gdt_end_match = Some ret /\
    text_found fuel p (match_start gdt_match) (match_start gdt_end_match) ret off.
Proof.
  unfold text_struct_sp_off, end_of. split.
  - intros (stash & Hs & (reg & Hreg%group_of_spec & (ret & Hret%raises_inr & H)%outcome_bind_inr)%outcome_bind_inr)%outcome_bind_inr.
    exists ret. split; [done|].
    destruct (patcher_match fuel p ("str " +:+ _) _ _ _) as [[]|m] eqn:Em; try done.
    + apply outcome_bind_inr in H as (call & Hc & (mov & Hm & (r & Hr%group_of_spec & (m & Ha & Ho%int_group_spec)
        %outcome_bind_inr)%outcome_bind_inr)%outcome_bind_inr).
      by apply (text_in_struct fuel p _ _ _ _ stash reg call mov r m).
    + apply int_group_spec in H. by apply (text_stored fuel p _ _ _ _ stash reg m).
  - intros (ret & Hret & H). unfold group_of, int_group.
    destruct H as [stash reg m Hs Hr Hm (v & Hv & Ho)|stash sreg call mov reg m Hs Hr Hn Hc Hmv Hreg Hm (v & Hv & Ho)];
      unfold finds, group_is in *; found_steps.
    + rewrite Hm. found_steps. by apply raises_inr.
    + rewrite Hn. found_steps. by apply raises_inr.
Qed.

Lemma patch_unshape_spec p gdt_match gdt_end p' : patch_unshape fuel p gdt_match gdt_end = inr p' <->
  exists jump off code, unshape_found fuel p (match_start gdt_match) gdt_end jump off code /\
    p' = queue p (inject_ops p "graphics_draw_text_unshape" jump (PatchScript.unshape_asm off code)).
Proof.
  unfold patch_unshape, end_of. split.
  - intros (ret & Hret%raises_inr & (e & He & (off & Ho%text_struct_sp_off_spec & (tp & Ht & H%raises_inr)%outcome_bind_inr)
      %outcome_bind_inr)%outcome_bind_inr)%outcome_bind_inr.
    destruct (addr_step fuel p ret 2) as [e'|] eqn:Es; [|done]. injection He as ->.
    apply inject_queue in H as (jump & Hj & ->); [|done]. eexists jump, off, _. split; [|done]. split; eauto.
  - intros (jump & off & code & [Hj Ho (ret & next & Hret & Hn & ->) (tp & Ht)] & ->).
    apply text_struct_sp_off_spec in Ho. apply outcome_bind_inr. exists ret. split; [by apply raises_inr|].
    rewrite Hn. apply outcome_bind_inr. exists next. split; [done|]. found_steps.
    apply raises_inr, inject_queue; [done|]. exists jump. split; [assumption|reflexivity].
Qed.

Lemma patch_line_end_spec p a p' : patch_line_end fuel p a = inr p' <->
  exists o, line_end_found fuel p a o /\ p' = queue p [o].
Proof.
  unfold patch_line_end. split.
  - case_decide as Ha; [|case_decide as Hd].
    + intros (m1 & H1 & (m2 & H2 & (m3 & H3 & (off & Ho%int_group_spec & [= <-])%outcome_bind_inr)%outcome_bind_inr)
        %outcome_bind_inr)%outcome_bind_inr. eexists. split; [by eapply line_end_aplite|done].
    + intros [= <-]. eexists. split; [by apply line_end_diorite|done].
    + intros [= <-]. eexists. split; [by apply line_end_other|done].
  - intros (o & [setup call m off Ha H1 H2 H3 (v & Hv & Ho)|Hd|Ha Hd] & ->).
    + rewrite decide_True by done. unfold finds, int_group, group_of, group_is in *.
      found_steps. apply outcome_bind_inr. exists off. split; [|done]. found_steps. by apply raises_inr.
    + by rewrite decide_False, decide_True by (done || by rewrite Hd).
    + by rewrite !decide_False by done.
Qed.

Lemma more_text_register_spec p a call_match end_match reg :
  more_text_register fuel p a call_match end_match = inr reg <-> flag_found fuel p a call_match end_match reg.
Proof.
  unfold more_text_register. split.
  - intros (m & Hm & (reg0 & Hr0%group_of_spec & (n0 & Hn0%raises_inr & (reg' & Hr' & (n & Hn%raises_inr & H)%outcome_bind_inr)
      %outcome_bind_inr)%outcome_bind_inr)%outcome_bind_inr)%outcome_bind_inr.
    destruct (Z.gtb_spec n 2); [|done]. injection H as <-. destruct (Z.ltb_spec n0 4).
    + apply outcome_bind_inr in Hr' as (m' & Hm' & Hr'%group_of_spec). apply (flag_again _ _ _ _ _ _ m reg0 n0 m' n); first [assumption|split; assumption].
    + injection Hr' as <-. apply (flag_kept _ _ _ _ _ _ m n0); first [assumption|split; assumption].
  - unfold group_of. intros [m n Hm [Hr Hn] Hlt|m reg0 n0 m' n Hm [Hr Hn] Hlt Hm' [Hr' Hn'] Hlt']; unfold finds, group_is in *.
    + do 3 (apply outcome_bind_inr; eexists; split; [first [eassumption | apply raises_inr; eassumption]|]; cbn beta).
      apply outcome_bind_inr. exists reg. split; [by destruct (Z.ltb_spec n 4); [lia|]|]. found_steps.
      by destruct (Z.gtb_spec n 2); [|lia].
    + do 3 (apply outcome_bind_inr; eexists; split; [first [eassumption | apply raises_inr; eassumption]|]; cbn beta).
      apply outcome_bind_inr. exists reg. split; [destruct (Z.ltb_spec n0 4); [|lia]; found_steps; by apply raises_inr|].
      found_steps. by destruct (Z.gtb_spec n 2); [|lia].
Qed.
(** The places do not depend on the queue. *)
Lemma finds_queue p ops pattern start stop n m : finds fuel (queue p ops) pattern start stop n m <-> finds fuel p pattern start stop n m.
Proof. unfold finds. by rewrite patcher_match_queue. Qed.

Lemma line_end_found_queue p ops a o : line_end_found fuel (queue p ops) a o <-> line_end_found fuel p a o.
Proof.
  assert (platform (queue p ops) = platform p) as Hp by by rewrite queue_spec.
  split; (intros [m1 m2 m off Ha H1 H2 H3 Ho|Hd|Ha Hd];
    [apply (line_end_aplite _ _ _ m1 m2 m off); rewrite ?finds_queue in *; congruence || assumption
    |apply line_end_diorite; congruence|apply line_end_other; congruence]).
Qed.

Lemma flag_found_queue p ops a call e reg : flag_found fuel (queue p ops) a call e reg <-> flag_found fuel p a call e reg.
Proof.
  split; (intros [m n Hm Hr Hn|m reg0 n0 m' n Hm Hr Hn Hm' Hr' Hn'];
    [apply (flag_kept _ _ _ _ _ _ m n)|apply (flag_again _ _ _ _ _ _ m reg0 n0 m' n)]; rewrite ?finds_queue in *; assumption).
Qed.

Lemma patch_render_spec p gdt_match gdt_end p' : patch_render fuel p gdt_match gdt_end = inr p' <->
  exists driver driver_end o call jump lr mt arg3 hr,
    (exists ret m fnc, match_end gdt_end = Some ret /\
       finds fuel p "bl\s+0x(?P<fnc>[0-9a-f]+)$" (match_start gdt_match) (Some ret) (-1) m /\ group_is m "fnc" fnc /\
       int_of 16 (ascii_bytes fnc) = Some driver) /\
    finds fuel p layout_driver_end_pattern driver None 0 driver_end /\ (exists size, number_is driver_end "sz1" size) /\
    line_end_found fuel p driver o /\ finds fuel p render_handler_call_pattern driver None 0 call /\
    markers call !! "JUMP"%string = Some jump /\ group_is call "layout_reg" lr /\ group_is call "arg3_sp_off" arg3 /\
    group_is call "hdlr_reg" hr /\ flag_found fuel p driver call driver_end mt /\
    p' = queue p ([o; PatchDefineMacro "RENDERHDLR_ARG3_SP_OFF" arg3]
      ++ inject_ops p "render_wrap" jump (PatchScript.render_wrap_asm lr mt arg3 hr)).
Proof.
  unfold patch_render, end_of. split.
  - intros (ret & Hret%raises_inr & (m & Hm & (fnc & Hfnc%group_of_spec & (a & Ha%raises_inr & (me & Hme &
      (sz & Hsz%int_group_spec & (p1 & (o & Ho & ->)%patch_line_end_spec & (call & Hc & (mt & Hmt%more_text_register_spec &
      (lr & Hlr%group_of_spec & (hr & Hhr%group_of_spec & (arg3 & Harg%group_of_spec & H%raises_inr)%outcome_bind_inr)
      %outcome_bind_inr)%outcome_bind_inr)%outcome_bind_inr)%outcome_bind_inr)%outcome_bind_inr)%outcome_bind_inr)
      %outcome_bind_inr)%outcome_bind_inr)%outcome_bind_inr)%outcome_bind_inr)%outcome_bind_inr.
    apply inject_queue in H as (jump & Hj & ->); [|done]. apply flag_found_queue in Hmt.
    exists a, me, o, call, jump, lr, mt, arg3, hr. rewrite patcher_match_queue in Hc. split_and!; [|eauto..|].
    + exists ret, m, fnc. exact (conj Hret (conj Hm (conj Hfnc Ha))).
    + reflexivity.
  - intros (a & me & o & call & jump & lr & mt & arg3 & hr & (ret & m & fnc & Hret & Hm & Hfnc & Ha) & Hme & (sz & Hsz) & Ho &
      Hc & Hj & Hlr & Harg & Hhr & Hmt & ->).
    apply group_of_spec in Hfnc, Hlr, Harg, Hhr. apply int_group_spec in Hsz. unfold finds in *.
    assert (patch_line_end fuel p a = inr (queue p [o])) as Hl by (apply patch_line_end_spec; exists o; split; [exact Ho|reflexivity]).
    apply (flag_found_queue p [o]), more_text_register_spec in Hmt. rewrite <- (patcher_match_queue fuel p [o]) in Hc.
    found_steps. apply raises_inr, inject_queue; [done|]. exists jump. split; [assumption|reflexivity].
Qed.
End Searches.

(** The script succeeds exactly when there are such places, and has then queued these changes. *)
Lemma patch_run fuel p p' : patch fuel p = inr p' <-> exists s, sites_found fuel p s /\ p' = queue p (patch_ops p s).
Proof.
  unfold patch. split.
  - intros (gm & Hg%raises_inr & (ge & He & (p1 & Hu & (p2 & Hw%raises_inr & (p3 & (jm & Hm & ->)%wrap_symbol_spec &
      (p4 & (ja & Hma & ->)%wrap_symbol_spec & (driver & driver_end & o & call & jump & lr & mt & arg3 & hr &
      (ret & m & fnc & Hret & Hfnc & Hf & Hd) & Hde & Hsz & Ho & Hc & Hj & Hlr & Harg & Hhr & Hmt & ->)%patch_render_spec)
      %outcome_bind_inr)%outcome_bind_inr)%outcome_bind_inr)%outcome_bind_inr)%outcome_bind_inr)%outcome_bind_inr.
    assert (exists ops uj off code, p1 = queue p ops /\
      (TEXT_UNSHAPE (platform p) = true -> unshape_found fuel p (match_start gm) ge uj off code) /\
      ops = (if TEXT_UNSHAPE (platform p) then
        inject_ops p "graphics_draw_text_unshape" uj (PatchScript.unshape_asm off code) else []))
      as (ops & uj & off & code & -> & Huf & Hops).
    { destruct (TEXT_UNSHAPE (platform p)).
      - apply patch_unshape_spec in Hu as (uj & off & code & Hu & ->). eexists _, uj, off, code. split_and!; [reflexivity|intros _; exact Hu|reflexivity].
      - injection Hu as <-. exists [], 0, 0, []. split_and!; [reflexivity|discriminate|reflexivity]. }
    rewrite <- (match_symbol_queue p ops) in Hg.
    destruct (wrap_match _ "graphics_draw_text_patch" _ _ "void" true Hg) as [Hgs Hw'].
    rewrite Hw' in Hw. apply Some_inj in Hw. subst p2.
    rewrite ?queue_app, ?wrap_ops_queue, ?inject_ops_queue in *. rewrite finds_queue in Hfnc, Hde, Hc.
    apply line_end_found_queue in Ho. apply flag_found_queue in Hmt.
    rewrite symtab_queue in Hgs, Hm, Hma.
    exists (mk_sites (match_start gm) ge uj off code jm ja driver driver_end o call jump lr mt arg3 hr). split.
    + split; [exact Hgs|exact He|exact Huf|exact Hm|exact Hma| |exact Hde|exact Hsz|exact Ho|exact Hc|exact Hj|exact Hlr|exact Harg
        |exact Hhr|exact Hmt]. exists ret, m, fnc. exact (conj Hret (conj Hfnc (conj Hf Hd))).
    + unfold patch_ops. rewrite Hops. by rewrite <- ?app_assoc.
  - intros (s & [Hg Hge Hu Hm Hma Hd Hde Hsz Ho Hc Hj Hlr Harg Hhr Hmt] & ->).
    assert (exists gm, match_symbol p "graphics_draw_text" = Some gm /\ match_start gm = gdt s) as (gm & Hgm & Egm)
      by (unfold match_symbol; rewrite Hg; eexists; split; reflexivity).
    apply outcome_bind_inr. exists gm. split; [by apply raises_inr|]. rewrite Egm. unfold finds in Hge. found_steps.
    set (ops := if TEXT_UNSHAPE (platform p) then inject_ops p "graphics_draw_text_unshape" (unshape_jump s)
      (PatchScript.unshape_asm (text_off s) (return_code s)) else []).
    apply outcome_bind_inr. exists (queue p ops). split.
    { subst ops. destruct (TEXT_UNSHAPE (platform p)); [|done]. apply patch_unshape_spec. rewrite Egm. eauto 10. }
    rewrite <- (match_symbol_queue p ops) in Hgm.
    destruct (wrap_match _ "graphics_draw_text_patch" _ _ "void" true Hgm) as [_ Hw].
    apply outcome_bind_inr. eexists. split; [apply raises_inr, Hw|].
    apply outcome_bind_inr. eexists. split; [apply wrap_symbol_spec; exists (measure s); split; [by rewrite !symtab_queue|reflexivity]|].
    apply outcome_bind_inr. eexists.
    split; [apply wrap_symbol_spec; exists (measure_attributes s); split; [by rewrite !symtab_queue|reflexivity]|].
    apply patch_render_spec. rewrite !queue_app, !wrap_ops_queue, Egm.
    exists (layout_driver s), (layout_end s), (line_end s), (render_call s), (render_jump s), (layout_reg s), (more_text_reg s),
      (arg3_sp_off s), (hdlr_reg s).
    destruct Hd as (ret & m & fnc & Hret & Hf & Hfnc & Hd).
    rewrite !finds_queue, line_end_found_queue, flag_found_queue, inject_ops_queue, queue_app.
    split; [exists ret, m, fnc; rewrite finds_queue; exact (conj Hret (conj Hf (conj Hfnc Hd)))|].
    do 9 (split; [assumption|]). unfold patch_ops. fold ops. by rewrite <- !app_assoc.
Qed.

(** ** The injected assembly *)

(** The lines of assembly that are not empty and no comments, without the blanks before them. *)
Fixpoint unindent (s : string) : string :=
  match s with String c s' => if decide (c = " "%char) then unindent s' else s | EmptyString => s end.
Definition is_code (s : string) : bool :=
  match s with
  | EmptyString => false
  | String c _ => negb (bool_decide (c = "@"%char) || bool_decide (c = "#"%char))
  end.
Definition code_lines (ls : list string) : list string := filter is_code (unindent <$> ls).

(** How instructions are written. *)
Definition reg_text (n : Z) : string :=
  if n =? IP then "ip" else if n =? SP then "sp" else if n =? LR then "lr" else if n =? PC then "pc"
  else "r" +:+ pretty n.
Definition reg_list (rs : list Z) : string :=
  "{" +:+ (if decide (rs = [0; 1; 2; 3]) then "r0-r3" else String.concat ", " (reg_text <$> rs)) +:+ "}".
Definition instr_text (i : instr) : list string :=
  match i with
  | PUSH rs => ["PUSH " +:+ reg_list rs]
  | POP rs => ["POP " +:+ reg_list rs]
  | MOV d s => ["MOV " +:+ reg_text d +:+ ", " +:+ reg_text s]
  | ADD d s imm => ["ADD " +:+ reg_text d +:+ ", " +:+ reg_text s +:+ ", #" +:+ pretty imm]
  | LDR d base off =>
      ["LDR " +:+ reg_text d +:+ ", [" +:+ reg_text base
       +:+ (if (off =? 0) && negb (base =? SP) then "]" else ", #" +:+ pretty off +:+ "]")]
  | STR s base off => ["STR " +:+ reg_text s +:+ ", [" +:+ reg_text base +:+ ", #" +:+ pretty off +:+ "]"]
  | BL f => ["BL " +:+ f]
  | BLX r => ["BLX " +:+ reg_text r]
  | BYTES bs => (fun b => ".byte 0x" +:+ hex b) <$> bs
  end.
Definition block_text (b : block) : list string :=
  concat (instr_text <$> code b) ++ match target b with Some l => ["B " +:+ l] | None => [] end.

Lemma code_lines_app ls1 ls2 : code_lines (ls1 ++ ls2) = code_lines ls1 ++ code_lines ls2.
Proof. unfold code_lines. by rewrite fmap_app, filter_app. Qed.

Lemma code_lines_cons l ls : is_code (unindent l) = true -> code_lines (l :: ls) = unindent l :: code_lines ls.
Proof. intros H. unfold code_lines. cbn [fmap list_fmap]. by rewrite filter_cons_True by by rewrite H. Qed.

Lemma code_lines_skip l ls : is_code (unindent l) = false -> code_lines (l :: ls) = code_lines ls.
Proof. intros H. unfold code_lines. cbn [fmap list_fmap]. by rewrite filter_cons_False by (rewrite H; by intros []). Qed.

Lemma code_lines_bytes mcode : code_lines (byte_directives mcode) = (fun b => ".byte 0x" +:+ hex b) <$> mcode.
Proof.
  destruct mcode as [|b mcode]; [done|]. unfold byte_directives. cbn [fmap list_fmap].
  rewrite code_lines_cons by done. f_equal.
  induction mcode as [|c mcode IH]; [done|]. cbn [fmap list_fmap]. rewrite code_lines_cons by done. by f_equal.
Qed.

(** The code that the script injects is the blocks of Asm, written as assembly. *)
Lemma injected_code_text off mcode layout_reg more_text_reg arg3_sp_off hdlr_reg :
  code_lines (PatchScript.unshape_asm off mcode) = block_text (Asm.unshape_asm off mcode) /\
  (layout_reg <> SP ->
   code_lines (PatchScript.render_wrap_asm (reg_text layout_reg) (reg_text more_text_reg) (pretty arg3_sp_off) (reg_text hdlr_reg))
   = block_text (Asm.render_wrap_asm layout_reg more_text_reg arg3_sp_off hdlr_reg)).
Proof.
  split.
  - unfold PatchScript.unshape_asm, Asm.unshape_asm, block_text. rewrite !code_lines_app, code_lines_bytes, slice_to_take by lia.
    cbn [code target fmap list_fmap concat instr_text app]. rewrite !app_nil_r, andb_false_r. reflexivity.
  - intros Hl%Z.eqb_neq. unfold PatchScript.render_wrap_asm, Asm.render_wrap_asm, block_text.
    cbn [code target fmap list_fmap concat instr_text concat app]. rewrite Hl.
    change (SP =? SP) with true. cbn [negb]. rewrite andb_false_r. reflexivity.
Qed.

(** C11: The script succeeds exactly when its searches find everything, and has then queued exactly these
    changes: the code that undoes the shaping (on the platforms that have it), the three hooks of
    functions, each with the overwritten instructions, the offset of the end of the line, and
    the code around the render handler.  The offset of the text, the registers and the layout function are
    what the script's patterns match in these places of the disassembly, and the lines of the
    injected code are the instructions of the blocks that are proved to implement the hooks. *)
Theorem patch_queues fuel p p' :
  (patch fuel p = inr p' <-> exists s, sites_found fuel p s /\ p' = queue p (patch_ops p s)) /\
  forall s, code_lines (PatchScript.unshape_asm (text_off s) (return_code s))
    = block_text (Asm.unshape_asm (text_off s) (return_code s)) /\
    forall l m a h, l <> SP -> layout_reg s = reg_text l -> more_text_reg s = reg_text m ->
      arg3_sp_off s = pretty a -> hdlr_reg s = reg_text h ->
      code_lines (PatchScript.render_wrap_asm (layout_reg s) (more_text_reg s) (arg3_sp_off s) (hdlr_reg s))
      = block_text (Asm.render_wrap_asm l m a h).
Proof.
  split; [apply patch_run|]. intros s. split; [by apply (injected_code_text (text_off s) (return_code s) 0 0 0 0)|].
  intros l m a h Hl -> -> -> ->. by apply (injected_code_text 0 []).
Qed.

(** ** The patched firmware *)

(** Where the hooks are, and the symbols of their code. *)
Definition hooks (p : Patcher) (s : sites) : list (Z * string) :=
  (if TEXT_UNSHAPE (platform p) then [(unshape_jump s, "graphics_draw_text_unshape__proxy")] else [])%string
  ++ [(gdt s, "graphics_draw_text_patch"); (measure s, "graphics_text_layout_get_content_size_patch");
      (measure_attributes s, "graphics_text_layout_get_content_size_with_attributes_patch");
      (render_jump s, "render_wrap__proxy")]%string.

(** The branches are whole Thumb instructions inside a firmware of [n] bytes and none overlaps another.
    The script does not check it: its patterns are chosen so that it holds. *)
Fixpoint apart (places : list Z) : Prop :=
  match places with a :: places => Forall (fun a' => a' + 4 <= a \/ a + 4 <= a') places /\ apart places | [] => True end.

Record well_placed (n : Z) (places : list Z) : Prop := {
  placed_even : Forall (fun a => a mod 2 = 0) places;
  placed_inside : Forall (fun a => 0 <= a /\ a + 4 < n) places;
  placed_apart : apart places;
}.

#[export] Instance apart_dec places : Decision (apart places).
Proof. induction places; cbn [apart]; apply _. Defined.

(** The queued branches; the script queues no other changes of the firmware's bytes. *)
Definition branch_of (o : op) : option (Z * string) :=
  match o with PatchBranchOffset a name _ => Some (a, name) | _ => None end.
Definition only_branches (ops : list op) : Prop :=
  Forall (fun o => match o with PatchOverwrite _ _ => False | PatchBranchOffset _ _ link => link = false | _ => True end) ops.

Lemma script_branches fuel p s : sites_found fuel p s ->
  omap branch_of (patch_ops p s) = hooks p s /\ only_branches (patch_ops p s).
Proof.
  intros [_ _ _ _ _ _ _ _ Hl _ _ _ _ _ _]. unfold patch_ops, hooks, only_branches, wrap_ops, inject_ops.
  destruct Hl; destruct (TEXT_UNSHAPE _); (split; [reflexivity|]); cbn [app];
    repeat (apply Forall_cons_2; [first [exact I|reflexivity]|]); apply Forall_nil_2.
Qed.

Lemma branch_elem ops a name : only_branches ops -> (a, name) ∈ omap branch_of ops <-> PatchBranchOffset a name false ∈ ops.
Proof.
  intros Ho. rewrite list_elem_of_omap. split.
  - intros (o & Hin & H). destruct o; try done. injection H as -> ->.
    apply (proj1 (Forall_forall _ _) Ho) in Hin as H. cbn in H. by subst.
  - intros Hin. by eexists.
Qed.

Lemma well_placed_queue n ops : only_branches ops -> well_placed n (omap branch_of ops).*1 ->
  Forall (in_image n) ops /\ Forall (branch_ok n) ops /\ disjoint_branches ops.
Proof.
  intros Ho [He Hi Ha]. induction ops as [|o ops IH]; [by repeat split|]. apply Forall_cons in Ho as [Ho1 Ho].
  destruct o as [|a name l| | |]; try done; cbn [omap list_omap branch_of fmap list_fmap fst] in *; try (destruct IH as (H1 & H2 & H3);
    try done; split_and!; [by constructor|by constructor|done]).
  apply Forall_cons in He as [He1 He], Hi as [[Hi0 Hi1] Hi]. destruct Ha as [Ha1 Ha].
  destruct IH as (H1 & H2 & H3); try done. split_and!; [constructor; [unfold in_image; cbn; lia|done]|by constructor|]. split; [|done].
  apply Forall_forall. intros o Hin. destruct o as [|a' name' l'| | |]; try done.
  apply (proj1 (Forall_forall _ _) Ha1). apply list_elem_of_fmap. exists (a', name'). split; [done|].
  apply list_elem_of_omap. by eexists.
Qed.

Section Finalize.
Variable build : string -> string -> Z -> option (gmap string Z * list Z).

End Finalize.

(** ** Examples *)

(** A firmware with the three functions, the layout function at 0x20 and a jump table, and its
    disassembly. *)
Definition script_bin : list Z :=
  [0xf0; 0xb5; 0x0c; 0x46; 0x02; 0x94; 0x21; 0x46; 0x00; 0xf0; 0x0a; 0xf8; 0x04; 0xb0; 0xbd; 0xe8; 0xf0; 0x40;
   0x04; 0xb0; 0x70; 0x47] ++ replicate 10 0
  ++ [0xf0; 0xb5; 0x86; 0xb0; 0x00; 0x2d; 0x20; 0x46; 0x39; 0x46; 0x02; 0x9a; 0x98; 0x47; 0xfb; 0xd0; 0x06; 0xb0;
      0xbd; 0xe8; 0xf0; 0x80]
  ++ [0x38; 0xb5; 0x04; 0x46; 0x38; 0xb5; 0xd0; 0xf8; 0x08; 0x10; 0x70; 0x47]
  ++ [0x00; 0x00; 0x01; 0x40; 0x00; 0x08; 0x37; 0x40; 0x00; 0x08; 0x3b; 0x40; 0x00; 0x08] ++ replicate 49 0.

Definition script_deasm : list Z := ascii_bytes (String.concat nl
  [""; "   0:	b5f0 	push	{r4, r5, r6, r7, lr}"; "   2:	460c 	mov	r4, r1"; "   4:	9402 	str	r4, [sp, #8]";
   "   6:	4621 	mov	r1, r4"; "   8:	f000 f80a 	bl	0x20"; "   c:	b004 	add	sp, #16";
   "   e:	e8bd 40f0 	ldmia.w	sp!, {r4, r5, r6, r7, lr}"; "  12:	b004 	add	sp, #16"; "  14:	4770 	bx	lr";
   "  20:	b5f0 	push	{r4, r5, r6, r7, lr}"; "  22:	b086 	sub	sp, #24"; "  24:	2d00 	cmp	r5, #0";
   "  26:	4620 	mov	r0, r4"; "  28:	4639 	mov	r1, r7"; "  2a:	9a02 	ldr	r2, [sp, #8]";
   "  2c:	4798 	blx	r3"; "  2e:	d0fb 	beq.n	0x28"; "  30:	b006 	add	sp, #24";
   "  32:	e8bd 80f0 	ldmia.w	sp!, {r4, r5, r6, r7, pc}"; "  36:	b538 	push	{r3, r4, r5, lr}";
   "  38:	4604 	mov	r4, r0"; "  3a:	b538 	push	{r3, r4, r5, lr}"; "  3c:	f8d0 1008 	ldr.w	r1, [r0, #8]";
   "  40:	4770 	bx	lr"]).

Definition script_libpebble : list Z := ascii_bytes (String.concat nl
  ["   8:	b.w	0 <graphics_draw_text>"; "   c:	00000000 	.word	0x00000000";
   "   8:	b.w	0 <graphics_text_layout_get_content_size>"; "   c:	00000004 	.word	0x00000004";
   "   8:	b.w	0 <graphics_text_layout_get_content_size_with_attributes>"; "   c:	00000008 	.word	0x00000008"]).

Definition script_patcher : Patcher :=
  Eval vm_compute in default (mk_Patcher "" [] [] ∅ 0 [] 0 ∅ [])
    (make_patcher "basalt" "tintin_fw.bin" script_bin script_deasm script_libpebble).

Definition script_result : Patcher :=
  Eval vm_compute in match patch 100 script_patcher with inr p => p | inl _ => script_patcher end.

Lemma patch_script : patch 100 script_patcher = inr script_result.
Proof. vm_compute. reflexivity. Qed.

(** The registers and offsets that the script finds in it. *)
Lemma patch_queues_witness : exists s, sites_found 100 script_patcher s /\
  op_queue script_result = patch_ops script_patcher s /\
  In (PatchAppendAsm "render_wrap__proxy" (lines (PatchScript.render_wrap_asm "r7" "r5" "8" "r3")) "void")
    (op_queue script_result) /\
  code_lines (PatchScript.render_wrap_asm "r7" "r5" "8" "r3") = block_text (Asm.render_wrap_asm 7 5 8 3).
Proof.
  destruct (proj1 (proj1 (patch_queues 100 script_patcher script_result)) patch_script) as (s & Hs & Hq).
  exists s. split; [exact Hs|]. split; [by rewrite Hq, queue_spec|]. split; [|vm_compute; reflexivity].
  vm_compute. repeat first [left; reflexivity|right].
Defined.

(** A linker that places ten bytes, and the hooks two bytes apart. *)
Definition script_build (h s : string) (target_end : Z) : option (gmap string Z * list Z) :=
  let v := target_end + target_end mod 2 in
  Some (list_to_map [("graphics_draw_text_unshape__proxy", v); ("graphics_draw_text_patch", v + 2);
    ("graphics_text_layout_get_content_size_patch", v + 4);
    ("graphics_text_layout_get_content_size_with_attributes_patch", v + 6); ("render_wrap__proxy", v + 8)]%string,
    [0; 0xBF; 1; 0xBF; 2; 0xBF; 3; 0xBF; 4; 0xBF]).

Definition script_image : list Z := default [] (finalize script_build script_result).

(** The places are those of the example's disassembly. *)
Lemma script_places s : sites_found 100 script_patcher s -> well_placed (len script_bin) (hooks script_patcher s).*1.
Proof.
  intros Hs. assert (patch 100 script_patcher = inr (queue script_patcher (patch_ops script_patcher s))) as Hq
    by (apply patch_run; by exists s).
  destruct (script_branches _ _ _ Hs) as [<- _].
  assert (patch_ops script_patcher s = op_queue script_result) as ->.
  { rewrite patch_script in Hq. assert (op_queue script_result = op_queue (queue script_patcher (patch_ops script_patcher s))) as ->
      by congruence. by rewrite queue_spec. }
  split; [apply (bool_decide_unpack _); vm_compute; exact I..|refine (@bool_decide_unpack _ (apart_dec _) _); vm_compute; exact I].
Qed.

Lemma make_script_patcher :
  make_patcher "basalt" "tintin_fw.bin" script_bin script_deasm script_libpebble = Some script_patcher.
Proof. vm_compute. reflexivity. Qed.

