(* ===== verification/FindFonts.v ===== *)
(** * The fonts of a firmware (fonts/find_system_fonts.py)

    The image of a firmware has a table of names of resources and their numbers.
    [extract_system_font_resource_ids] takes the longest run of words that looks like it.
    The dictionaries of the script are in a store: the best table may be the one that is
    still being filled. *)

From stdpp Require Import gmap strings pretty.
From S2P Require Import Prelude Bytes Loops Regex Disasm.

Definition MICROCODE_OFFSET : Z := 0x8000000.
Definition BOOTLOADER_OFFSET : Z := 0x4000.

(** ** The table *)

(** A table: numbers of resources by their names, which are bytes. *)
Abbreviation table := (gmap (list Z) Z).

(** [target_bin += '\0' * (4 - len(target_bin) % 4)], if the length is no multiple of 4 *)
Definition padded (target_bin : list Z) : list Z :=
  if len target_bin mod 4 =? 0 then target_bin
  else target_bin ++ replicate (Z.to_nat (4 - len target_bin mod 4)) 0.

(** The dictionaries, of which [final_table] and [work_table] are references. *)
Record scan := mk_scan {
  last_word : Z;
  since_last : Z;
  store : list table;
  final_table : nat;
  work_table : nat;
}.

Definition deref (st : scan) (r : nat) : table := default ∅ (store st !! r).

(** The name that a word points to, if it is one of a resource: an exception when it has no
    end. *)
Definition names_resource (target_bin : list Z) (word : Z) : option (option (list Z)) :=
  if (MICROCODE_OFFSET <? word) && (word <? 0x9000000) then
    let name_ptr := word - MICROCODE_OFFSET - BOOTLOADER_OFFSET in
    if decide (slice name_ptr (name_ptr + 11) target_bin = ascii_bytes "RESOURCE_ID") then
      i ← index [0] (slice_from name_ptr target_bin);
      Some (Some (slice name_ptr (i + name_ptr) target_bin))
    else Some None
  else Some None.

(** One iteration of the loop over the words. *)
Definition scan_word (target_bin : list Z) (st : scan) (word : Z) : option scan :=
  let since := since_last st + 1 in
  full_name ← names_resource target_bin (last_word st);
  let '(st, since) :=
    match full_name with
    | Some full_name =>
        (mk_scan (last_word st) since (alter <[full_name := Z.land word 0xffff]> (work_table st) (store st))
           (final_table st) (work_table st), 0)
    | None => (st, since)
    end in
  Some (
    if 2 <? since then
      mk_scan word since (store st ++ [∅]) (final_table st) (length (store st))
    else if (size (deref st (final_table st)) <? size (deref st (work_table st)))%nat then
      mk_scan word since (store st) (work_table st) (work_table st)
    else mk_scan word since (store st) (final_table st) (work_table st)).

Definition extract_system_font_resource_ids (target_bin : list Z) : option table :=
  let target_bin := padded target_bin in
  words ← unpack_us (replicate (length target_bin / 4) 4%nat) target_bin;
  st ← foldM (scan_word target_bin) (mk_scan 0 0 [∅; ∅] 0 1) words;
  Some (deref st (final_table st)).

(** ** Copying the fonts *)

(** ["%03d" % v] of a number that is not negative *)
Definition three_digits (v : Z) : string :=
  let s := pretty v in
  String.concat "" (replicate (3 - String.length s) "0"%string) +:+ s.

Section Copy.
(** The files of the unpacked resources whose names start with a text, in the order of the
    system. *)
Variable glob : string -> list string.

(** The files that are copied, with their new names; the items of the dictionary come in any
    order. *)
Fixpoint copies (result : list (list Z * Z)) : option (list (string * string)) :=
  match result with
  | [] => Some []
  | (name, key) :: result =>
      if decide (is_Some (index (ascii_bytes "FALLBACK_INTERNAL") name)) then copies result
      else
        src ← head (glob (three_digits key));
        rest ← copies result;
        Some ((src, three_digits key +:+ "_" +:+ string_of (replace "RESOURCE_ID_" "" name) +:+ ".pfo") :: rest)
  end.
End Copy.

(** ** The longest run *)

(** The words that are numbers of resources, with the name that the word before points to. *)
Fixpoint entries (target_bin : list Z) (last : Z) (words : list Z) : option (list (option (list Z * Z))) :=
  match words with
  | [] => Some []
  | word :: words =>
      name ← names_resource target_bin last;
      es ← entries target_bin word words;
      Some (option_map (fun full_name => (full_name, Z.land word 0xffff)) name :: es)
  end.

(** Runs of entries: three words without an entry end a run. *)
Fixpoint runs (since : Z) (run : list (list Z * Z)) (es : list (option (list Z * Z))) : list (list (list Z * Z)) :=
  match es with
  | [] => [run]
  | Some e :: es => runs 0 (run ++ [e]) es
  | None :: es => if 2 <? since + 1 then run :: runs (since + 1) [] es else runs (since + 1) run es
  end.

(** The dictionary of a run, where the last item of a name counts. *)
Definition table_of (run : list (list Z * Z)) : table := list_to_map (rev run).

Lemma table_of_snoc run e : table_of (run ++ [e]) = <[e.1 := e.2]> (table_of run).
Proof. unfold table_of. rewrite rev_app_distr. by destruct e. Qed.

Lemma runs_concat since run es : concat (runs since run es) = run ++ omap id es.
Proof.
  revert since run. induction es as [|[e|] es IH]; intros since run; cbn [runs].
  - done.
  - rewrite IH, <- app_assoc. done.
  - case_match; cbn [concat]; by rewrite IH.
Qed.

Lemma runs_ne since run es : runs since run es <> [].
Proof. revert since run. induction es as [|[e|] es IH]; intros since run; cbn [runs]; [done|apply IH|]. case_match; [done|apply IH]. Qed.

Definition better (best t : table) : table := if (size best <? size t)%nat then t else best.

(** The best table of the runs before, and the one that is being filled, in the store. *)
Record scanning (st : scan) (best : table) (run : list (list Z * Z)) : Prop := {
  scanning_work : store st !! work_table st = Some (table_of run);
  scanning_final :
    final_table st = work_table st /\ (size best < size (table_of run))%nat \/
    final_table st <> work_table st /\ store st !! final_table st = Some best /\ (size (table_of run) <= size best)%nat;
}.

Lemma scanning_best st best run : scanning st best run -> deref st (final_table st) = better best (table_of run).
Proof.
  intros [Hw Hf]. unfold deref, better. destruct Hf as [[-> Hs]|(_ & -> & Hs)]; [rewrite Hw|];
    destruct (Nat.ltb_spec (size best) (size (table_of run))); done || lia.
Qed.

Lemma size_insert_le {V} (m : gmap (list Z) V) k v : (size m <= size (<[k := v]> m))%nat.
Proof.
  rewrite map_size_insert. destruct (m !! k); cbn; lia.
Qed.

(** The three ways of an iteration: an entry, a word in the table, and a word behind it. *)
Lemma scan_word_entry target_bin st word best run name :
  scanning st best run -> names_resource target_bin (last_word st) = Some (Some name) ->
  exists st', scan_word target_bin st word = Some st' /\ last_word st' = word /\ since_last st' = 0 /\
    scanning st' best (run ++ [(name, Z.land word 0xffff)]).
Proof.
  intros [Hw Hf] Hn. unfold scan_word. rewrite Hn. cbn [mbind option_bind].
  change (2 <? 0) with false. cbn [store final_table work_table].
  set (t := <[name := Z.land word 0xffff]> (table_of run)).
  assert (forall s, store st !! work_table st = Some s -> alter <[name := Z.land word 0xffff]> (work_table st) (store st)
    !! work_table st = Some (<[name := Z.land word 0xffff]> s)) as Hwork.
  { intros s Hs. by rewrite list_lookup_alter_eq, Hs. }
  assert (forall r, r <> work_table st -> alter <[name := Z.land word 0xffff]> (work_table st) (store st) !! r = store st !! r)
    as Hother by (intros r Hr; by rewrite list_lookup_alter_ne).
  unfold deref. cbn [store]. rewrite (Hwork _ Hw). cbn [default from_option id]. fold t.
  pose proof (size_insert_le (table_of run) name (Z.land word 0xffff)) as Hs. fold t in Hs.
  destruct Hf as [[Ef Hb]|(Hne & Ef & Hb)].
  - rewrite Ef, (Hwork _ Hw). cbn [default from_option id]. fold t. rewrite Nat.ltb_irrefl.
    eexists. split; [reflexivity|]. split; [done|]. split; [done|]. split; cbn [store work_table final_table]; rewrite table_of_snoc.
    + by rewrite (Hwork _ Hw).
    + left. split; [done|]. cbn [fst snd]. fold t. lia.
  - rewrite Hother, Ef by done. cbn [default from_option id].
    destruct (Nat.ltb_spec (size best) (size t)); (eexists; split; [reflexivity|]; split; [done|]; split; [done|];
      split; cbn [store work_table final_table]; rewrite table_of_snoc; [by rewrite (Hwork _ Hw)|]); cbn [fst snd]; fold t.
    + left. by split.
    + right. rewrite Hother, Ef by done. split; [done|]. split; [done|lia].
Qed.

Lemma scan_word_inside target_bin st word best run :
  scanning st best run -> names_resource target_bin (last_word st) = Some None -> (2 <? since_last st + 1) = false ->
  exists st', scan_word target_bin st word = Some st' /\ last_word st' = word /\ since_last st' = since_last st + 1 /\
    scanning st' best run.
Proof.
  intros [Hw Hf] Hn Hs. unfold scan_word. rewrite Hn. cbn [mbind option_bind]. rewrite Hs. unfold deref. rewrite Hw.
  cbn [default from_option id]. destruct Hf as [[Ef Hb]|(Hne & Ef & Hb)].
  - rewrite Ef, Hw. cbn [default from_option id]. rewrite Nat.ltb_irrefl. eexists. split; [reflexivity|].
    split; [done|]. split; [done|]. split; [done|]. by left.
  - rewrite Ef. cbn [default from_option id]. destruct (Nat.ltb_spec (size best) (size (table_of run))); [lia|].
    eexists. split; [reflexivity|]. split; [done|]. split; [done|]. split; [done|]. by right.
Qed.

Lemma scan_word_reset target_bin st word best run :
  scanning st best run -> names_resource target_bin (last_word st) = Some None -> (2 <? since_last st + 1) = true ->
  exists st', scan_word target_bin st word = Some st' /\ last_word st' = word /\ since_last st' = since_last st + 1 /\
    scanning st' (better best (table_of run)) [].
Proof.
  intros H Hn Hs. pose proof (scanning_best _ _ _ H) as Hb. destruct H as [Hw Hf]. unfold scan_word. rewrite Hn.
  cbn [mbind option_bind]. rewrite Hs. eexists. split; [reflexivity|]. split; [done|]. split; [done|].
  split; cbn [store work_table final_table].
  - by rewrite lookup_app_r, Nat.sub_diag by lia.
  - right. rewrite <- Hb. unfold deref.
    assert (is_Some (store st !! final_table st)) as [t Ht].
    { destruct Hf as [[-> _]|(_ & -> & _)]; [rewrite Hw|]; by eexists. }
    pose proof (lookup_lt_Some _ _ _ Ht). split; [lia|]. rewrite lookup_app_l, Ht by done. split; [done|]. unfold table_of. cbn [rev list_to_map foldr]. rewrite map_size_empty. lia.
Qed.

Lemma scan_loop target_bin words st best run :
  scanning st best run ->
  match entries target_bin (last_word st) words with
  | None => foldM (scan_word target_bin) st words = None
  | Some es => exists st', foldM (scan_word target_bin) st words = Some st' /\
      deref st' (final_table st') = fold_left better (table_of <$> runs (since_last st) run es) best
  end.
Proof.
  revert st best run. induction words as [|word words IH]; intros st best run H; cbn [foldM entries].
  { exists st. split; [done|]. by apply scanning_best. }
  destruct (names_resource target_bin (last_word st)) as [[name|]|] eqn:Hn; cbn [mbind option_bind].
  3: unfold scan_word; by rewrite Hn.
  - destruct (scan_word_entry _ _ word _ _ _ H Hn) as (st' & -> & Hl & Hs & H'). specialize (IH st' _ _ H').
    rewrite Hl, Hs in IH. cbn [mbind option_bind]. by destruct (entries target_bin word words).
  - destruct (2 <? since_last st + 1) eqn:Hs.
    + destruct (scan_word_reset _ _ word _ _ H Hn Hs) as (st' & -> & Hl & Hs' & H'). specialize (IH st' _ _ H').
      rewrite Hl, Hs' in IH. cbn [mbind option_bind]. destruct (entries target_bin word words) as [es|]; [|done].
      destruct IH as (st'' & Hf & Hd). exists st''. split; [done|]. rewrite Hd. cbn [option_map runs]. by rewrite Hs.
    + destruct (scan_word_inside _ _ word _ _ H Hn Hs) as (st' & -> & Hl & Hs' & H'). specialize (IH st' _ _ H').
      rewrite Hl, Hs' in IH. cbn [mbind option_bind]. destruct (entries target_bin word words) as [es|]; [|done].
      destruct IH as (st'' & Hf & Hd). exists st''. split; [done|]. rewrite Hd. cbn [option_map runs]. by rewrite Hs.
Qed.

(** The first one of the largest. *)
Lemma fold_better ts best : exists l1 t l2, best :: ts = l1 ++ t :: l2 /\ fold_left better ts best = t /\
  Forall (fun t' => size t' < size t)%nat l1 /\ Forall (fun t' => size t' <= size t)%nat l2.
Proof.
  revert best. induction ts as [|t ts IH]; intros best; cbn [fold_left].
  { exists [], best, []. by repeat split; constructor. }
  unfold better at 2. destruct (Nat.ltb_spec (size best) (size t)) as [Hlt|Hle].
  - destruct (IH t) as (l1 & t' & l2 & E & Ht & H1 & H2). exists (best :: l1), t', l2. rewrite E. split; [done|].
    split; [done|]. split; [|done]. constructor; [|done]. destruct l1 as [|t0 l1]; injection E as <- E; [lia|].
    apply Forall_cons in H1 as [H1 _]. lia.
  - destruct (IH best) as (l1 & t' & l2 & E & Ht & H1 & H2). destruct l1 as [|t0 l1]; injection E as E1 E2.
    + subst t'. exists [], best, (t :: l2). subst l2. split; [done|]. split; [done|].
      split; [constructor|]. by constructor.
    + subst t0. exists (best :: t :: l1), t', l2. rewrite E2. split; [done|]. split; [by rewrite <- E2|]. split; [|done].
      apply Forall_cons in H1 as [Hb H1]. constructor; [lia|]. by constructor; [lia|].
Qed.

Lemma padded_length target_bin : exists k, length (padded target_bin) = (k * 4)%nat.
Proof.
  exists (Z.to_nat ((len target_bin + 3) / 4)). unfold padded. destruct (Z.eqb_spec (len target_bin mod 4) 0) as [E|E].
  - dlia.
  - rewrite length_app, length_replicate. dlia.
Qed.

(** C23: The table that is found is that of the longest run: among the runs of the image, separated by
    three words that are no entries, the first one that has the most names; the numbers are the
    low half-words of the entries.  There is an exception exactly when a name has no end. *)
Theorem extract_longest_run target_bin :
  exists words, unpack_us (replicate (length (padded target_bin) / 4) 4%nat) (padded target_bin) = Some words /\
  match entries (padded target_bin) 0 words with
  | None => extract_system_font_resource_ids target_bin = None
  | Some es => exists l1 run l2, runs 0 [] es = l1 ++ run :: l2 /\
      extract_system_font_resource_ids target_bin = Some (table_of run) /\
      Forall (fun r => size (table_of r) < size (table_of run))%nat l1 /\
      Forall (fun r => size (table_of r) <= size (table_of run))%nat l2
  end.
Proof.
  assert (is_Some (unpack_us (replicate (length (padded target_bin) / 4) 4%nat) (padded target_bin))) as [words Hw].
  { unfold unpack_us. assert (sum_list (replicate (length (padded target_bin) / 4) 4%nat) = length (padded target_bin)) as ->.
    - rewrite sum_list_replicate. destruct (padded_length target_bin) as [k ->]. by rewrite Nat.div_mul.
    - rewrite Nat.eqb_refl. by eexists. }
  exists words. split; [done|]. unfold extract_system_font_resource_ids. rewrite Hw. cbn [mbind option_bind].
  pose proof (scan_loop (padded target_bin) words (mk_scan 0 0 [∅; ∅] 0 1) ∅ []) as H. cbn [last_word since_last] in H.
  assert (scanning (mk_scan 0 0 [∅; ∅] 0 1) ∅ []) as H0.
  { split; [done|]. right. split; [done|]. split; [done|]. done. }
  specialize (H H0). destruct (entries (padded target_bin) 0 words) as [es|]; [|by rewrite H].
  destruct H as (st & -> & Hd). cbn [mbind option_bind]. rewrite Hd.
  destruct (fold_better (table_of <$> runs 0 [] es) ∅) as (l1 & t & l2 & E & -> & H1 & H2).
  pose proof (runs_ne 0 [] es) as Hne.
  destruct l1 as [|t0 l1]; injection E as E1 E2.
  - subst t. destruct (runs 0 [] es) as [|r rs]; [done|]. exists [], r, rs. split; [done|].
    rewrite <- E2 in H2. apply Forall_cons in H2 as [Hr H2]. rewrite map_size_empty in Hr, H2.
    assert (table_of r = ∅) as -> by (apply map_size_empty_inv; lia).
    split; [done|]. split; [constructor|]. rewrite map_size_empty. by apply Forall_fmap in H2.
  - subst t0. apply fmap_app_inv in E2 as (r1 & r2 & -> & E2 & ->). symmetry in E2.
    apply fmap_cons_inv in E2 as (r & r2' & -> & -> & ->). exists r1, r, r2'. split; [done|]. split; [done|].
    apply Forall_cons in H1 as [_ H1]. rewrite Forall_fmap in H1, H2. done.
Qed.

(** ** Example *)

(** Two names and their numbers, and the names behind them. *)
Example extract_example : extract_system_font_resource_ids (concat (le_bytes 4 <$> [0x8004010; 7; 0x800401e; 0xAB0008])
    ++ ascii_bytes "RESOURCE_ID_A" ++ [0] ++ ascii_bytes "RESOURCE_ID_B" ++ [0])
  = Some {[ ascii_bytes "RESOURCE_ID_A" := 7; ascii_bytes "RESOURCE_ID_B" := 8 ]}.
Proof. vm_compute. reflexivity. Qed.
