(* ===== verification/FixIjam.v ===== *)
(** * Consonant marks of Arabic letters (fonts/fix_ijam.py)

    [process_glyph] makes the dots of a glyph, single pixels, into squares of four, and
    moves the rest of the glyph to make room.  It works on the text files of bitmaps that
    fontgen.py dumps and collects.  An exception is [None]. *)

From stdpp Require Import gmap strings.
From S2P Require Import Prelude Bytes.

Abbreviation point := (Z * Z)%type.

(** The first line of a file, which is JSON; other items of it are kept. *)
Record meta := mk_meta { width : Z; height : Z; left : Z; bottom : Z; advance : Z }.

(** [range(n)] *)
Definition range (n : Z) : list Z := seqZ 0 n.

(** ** Finding the marks *)

(** The bitmap of the file: ['#'] is a pixel. *)
Definition read_bitmap (m : meta) (text : list Z) : option (gmap point bool) :=
  let bmp_str := filter (fun c => c <> 10) text in
  if len bmp_str =? width m * height m then
    Some (list_to_map (y ← range (height m); x ← range (width m);
      [((x, y), bool_decide (bmp_str !! Z.to_nat (y * width m + x) = Some 35))]))
  else None.

Definition adj_cells (x y : Z) : list point :=
  [(x - 1, y); (x + 1, y); (x - 1, y - 1); (x, y - 1); (x + 1, y - 1); (x - 1, y + 1); (x, y + 1); (x + 1, y + 1)].

Section Glyph.
Variable bmp_data : gmap point bool.

(** Cells outside of the bitmap are not lit. *)
Definition lit (p : point) : bool := default false (bmp_data !! p).

Definition check_isolated (x y : Z) (excepting : list point) : bool :=
  forallb (fun adj => bool_decide (adj ∈ excepting) || negb (lit adj)) (adj_cells x y).

(** A mark, with the direction to grow in when it is already given. *)
Record isolated_point := mk_isolated { ix : Z; iy : Z; isx : option Z }.

Record points := mk_points { other_points : list point; isolated_points : list isolated_point }.

(** [l.remove(p)] of a list that has [p] *)
Fixpoint remove_first (p : point) (l : list point) : list point :=
  match l with
  | [] => []
  | p' :: l => if decide (p' = p) then l else p' :: remove_first p l
  end.

(** One iteration of the loops over the pixels.  A line of two pixels is a mark as well. *)
Definition classify (ps : points) (p : point) : points :=
  let '(x, y) := p in
  if negb (lit p) then ps
  else if check_isolated x y [] then mk_points (other_points ps) (isolated_points ps ++ [mk_isolated x y None])
  else if bool_decide ((x - 1, y) ∈ other_points ps) && check_isolated x y [(x - 1, y)]
          && check_isolated (x - 1) y [(x, y)] then
    mk_points (remove_first (x - 1, y) (other_points ps)) (isolated_points ps ++ [mk_isolated x y (Some (-1))])
  else mk_points (other_points ps ++ [p]) (isolated_points ps).

Definition cells (m : meta) : list point := x ← range (width m); y ← range (height m); [(x, y)].

Definition find_points (m : meta) : points := fold_left classify (cells m) (mk_points [] []).
End Glyph.

(** ** Growing the marks *)

Definition sum (l : list Z) : Z := foldr Z.add 0 l.

(** The direction of a coordinate from the mean of the marks, or when it is on it, of the other
    points: comparisons with fractions, which floating-point numbers decide exactly at the
    sizes of glyphs. *)
Definition direction (v : Z) (marks others : list Z) : Z :=
  if v * len marks =? sum marks then if v * len others <? sum others then -1 else 1
  else if v * len marks <? sum marks then -1 else 1.

(** The squares; [hit_left] is 0 for False.  Nothing sets [hit_right] here. *)
Record ijam := mk_ijam { ijam_bmp_data : gset point; hit_left : Z }.

Definition square (x y sx sy : Z) : gset point := {[ (x, y); (x, y + sy); (x + sx, y + sy); (x + sx, y) ]}.

Definition grow_direction (ps : points) (p : isolated_point) : Z * Z :=
  (match isx p with
   | Some sx => sx
   | None => direction (ix p) (ix <$> isolated_points ps) (fst <$> other_points ps)
   end,
   direction (iy p) (iy <$> isolated_points ps) (snd <$> other_points ps)).

Definition grow (m : meta) (ps : points) (st : ijam) (p : isolated_point) : ijam :=
  let '(sx, sy) := grow_direction ps p in
  let x := ix p in
  let hit := hit_left st in
  let hit := if (x <=? 0) || (x + sx <=? 0) then Z.max (0 - x + 1) (0 - (x + sx) + 1) else hit in
  let hit := if (width m - 1 <=? x) || (width m - 1 <=? x + sx) then
               Z.max (x - width m + 1) (x + sx - width m + 1) else hit in
  mk_ijam (square x (iy p) sx sy ∪ ijam_bmp_data st) hit.

Definition list_min (l : list Z) : Z := match l with [] => 0 | x :: l => foldr Z.min x l end.
Definition list_max (l : list Z) : Z := match l with [] => 0 | x :: l => foldr Z.max x l end.

(** [int(round(d / 2))], which rounds halves away from zero *)
Definition round_half (d : Z) : Z := if 0 <=? d then (d + 1) / 2 else - ((- d + 1) / 2).

Section Process.
(** The order of the items of a dictionary. *)
Variable order : gset point -> list point.

Definition off_x (ps : points) (ijam_bmp : gset point) : Z :=
  let ix := fst <$> order ijam_bmp in
  let ox := fst <$> other_points ps in
  round_half ((list_max ox - list_min ox) - (list_max ix - list_min ix)).

(** Marks at an edge are moved sideways, all by the same distance. *)
Definition recentre (ps : points) (st : ijam) : ijam :=
  if hit_left st =? 0 then st
  else
    let off := off_x ps (ijam_bmp_data st) in
    fold_left (fun st k =>
        mk_ijam ({[ (k.1 - off, k.2) ]} ∪ ijam_bmp_data st) (if k.1 - off <=? 0 then 0 - (k.1 - off) + 1 else hit_left st))
      (order (ijam_bmp_data st)) (mk_ijam ∅ 0).

(** How far the marks reach out of the glyph, to the left, top, right and bottom. *)
Record reach := mk_reach { reach_sx : Z; reach_sy : Z; reach_hdx : Z; reach_hdy : Z }.

Definition expand (m : meta) (r : reach) (p : point) : reach :=
  let '(x, y) := p in
  mk_reach (if x <? 0 then Z.max (- x) (reach_sx r) else reach_sx r)
    (if y <? 0 then Z.max (- y) (reach_sy r) else reach_sy r)
    (if width m <=? x then Z.max (x - width m + 1) (reach_hdx r) else reach_hdx r)
    (if height m <=? y then Z.max (y - height m + 1) (reach_hdy r) else reach_hdy r).

Definition reach_of (m : meta) (ijam_bmp : gset point) : reach :=
  fold_left (expand m) (order ijam_bmp) (mk_reach 0 0 0 0).

Definition new_meta (m : meta) (r : reach) (hit : Z) : meta :=
  mk_meta (width m + (reach_sx r + reach_hdx r)) (height m + (reach_sy r + reach_hdy r))
    (left m + (reach_sx r - hit)) (bottom m - reach_sy r) (advance m + (reach_sx r + reach_hdx r)).

(** The body of the glyph is moved; what touches the left edge is continued up to there. *)
Definition add_body (r : reach) (bmp : gset point) (p : point) : gset point :=
  let '(x, y) := p in
  let bmp := {[ (x + reach_hdx r, y) ]} ∪ bmp in
  if x =? 0 then list_to_set ((fun xoff => (x + xoff - reach_sx r, y)) <$> range (reach_hdx r + reach_sx r)) ∪ bmp
  else bmp.

Definition rebuild (r : reach) (ps : points) (ijam_bmp : gset point) : gset point :=
  fold_left (add_body r) (other_points ps) ijam_bmp.

(** The lines of the file that is written. *)
Definition draw (m : meta) (r : reach) (bmp : gset point) : list (list Z) :=
  (fun y => (fun x => if decide ((x - reach_sx r, y - reach_sy r) ∈ bmp) then 35 else 32) <$> range (width m))
    <$> range (height m).

(** The new file, or nothing when the glyph has no marks.  The mean of no points is an
    exception. *)
Definition process_glyph (m : meta) (text : list Z) : option (option (meta * list (list Z))) :=
  bmp_data ← read_bitmap m text;
  let ps := find_points bmp_data m in
  if decide (isolated_points ps = []) then Some None
  else if decide (other_points ps = []) then None
  else
    let st := recentre ps (fold_left (grow m ps) (isolated_points ps) (mk_ijam ∅ 0)) in
    let r := reach_of m (ijam_bmp_data st) in
    let m' := new_meta m r (hit_left st) in
    Some (Some (m', draw m' r (rebuild r ps (ijam_bmp_data st)))).
End Process.
