(* ===== verification/FixIjamProps.v ===== *)
(** * Growing the marks keeps the glyph

    The written bitmap shows every pixel of the glyph: the marks, now squares, all at one
    offset, and the rest of the glyph at another one. *)

From Stdlib Require Import Ascii.
From stdpp Require Import gmap strings.
From S2P Require Import Prelude Bytes Disasm FixIjam.

(** A pixel of the lines of a file. *)
Definition shown (lines : list (list Z)) (x y : Z) : Prop :=
  0 <= x /\ 0 <= y /\ (row ← lines !! Z.to_nat y; row !! Z.to_nat x) = Some 35.

Lemma range_elem n i : i ∈ range n <-> 0 <= i < n.
Proof. unfold range. rewrite elem_of_seqZ. lia. Qed.

Lemma range_lookup n i : 0 <= i < n -> range n !! Z.to_nat i = Some i.
Proof. intros H. unfold range. rewrite lookup_seqZ. lia. Qed.

Lemma range_length n : len (range n) = Z.max 0 n.
Proof. unfold range. rewrite length_seqZ. lia. Qed.

(** ** Every pixel is a mark or part of the body *)

Lemma cells_elem m x y : (x, y) ∈ cells m <-> 0 <= x < width m /\ 0 <= y < height m.
Proof.
  unfold cells. rewrite list_elem_of_bind. split.
  - intros (x' & (y' & H & Hy)%list_elem_of_bind & Hx). apply list_elem_of_singleton in H as [= -> ->].
    by apply range_elem in Hx, Hy.
  - intros [Hx%range_elem Hy%range_elem]. exists x. split; [|done]. apply list_elem_of_bind. exists y.
    split; [by apply list_elem_of_singleton|done].
Qed.

Lemma lit_cells m text bmp p : read_bitmap m text = Some bmp -> lit bmp p = true -> p ∈ cells m.
Proof.
  unfold read_bitmap, lit. destruct (_ =? _); [|done]. intros [= <-] H.
  destruct (list_to_map _ !! p) as [b|] eqn:E; [|done]. apply elem_of_list_to_map_2 in E.
  apply list_elem_of_bind in E as (y & (x & E & Hx)%list_elem_of_bind & Hy).
  apply list_elem_of_singleton in E as [= -> _]. apply cells_elem. by apply range_elem in Hx, Hy.
Qed.

(** The pixels that a mark stands for. *)
Definition of_mark (p : isolated_point) (q : point) : Prop :=
  q = (ix p, iy p) \/ isx p = Some (-1) /\ q = (ix p - 1, iy p).

Lemma remove_first_elem p q l : q ∈ l -> q = p \/ q ∈ remove_first p l.
Proof.
  induction l as [|p' l IH]; [by intros ?%elem_of_nil|]. cbn [remove_first]. intros [->|H]%elem_of_cons.
  - case_decide; [by left|right; left].
  - case_decide; [by right|]. destruct (IH H); [by left|right; by right].
Qed.

Lemma remove_first_sub p q l : q ∈ remove_first p l -> q ∈ l.
Proof.
  induction l as [|p' l IH]; [done|]. cbn [remove_first]. case_decide; [by right|].
  intros [->|Hin]%elem_of_cons; [left|right; auto].
Qed.

Record classified (bmp : gmap point bool) (seen : list point) (ps : points) : Prop := {
  classified_lit q : q ∈ seen -> lit bmp q = true ->
    q ∈ other_points ps \/ exists p, p ∈ isolated_points ps /\ of_mark p q;
  classified_other q : q ∈ other_points ps -> q ∈ seen;
}.

Lemma classify_classified bmp seen ps p : classified bmp seen ps -> classified bmp (seen ++ [p]) (classify bmp ps p).
Proof.
  intros [Hl Ho]. destruct p as [x y]. unfold classify.
  destruct (lit bmp (x, y)) eqn:E; cbn [negb].
  2:{ split; [|intros q H; apply elem_of_app; left; auto]. intros q [H|H%list_elem_of_singleton]%elem_of_app Hq; [auto|]. congruence. }
  destruct (check_isolated bmp x y []); [|destruct (_ && _)]; split; cbn [other_points isolated_points].
  - intros q [H|H%list_elem_of_singleton]%elem_of_app Hq.
    + destruct (Hl q H Hq) as [|(p & Hp & Hm)]; [by left|]. right. exists p. split; [apply elem_of_app; by left|done].
    + subst q. right. eexists. split; [apply elem_of_app; right; by left|]. by left.
  - intros q H. apply elem_of_app. left. auto.
  - intros q [H|H%list_elem_of_singleton]%elem_of_app Hq.
    + destruct (Hl q H Hq) as [H1|(p & Hp & Hm)].
      * destruct (remove_first_elem (x - 1, y) q _ H1) as [->|]; [|by left]. right. eexists.
        split; [apply elem_of_app; right; by left|]. by right.
      * right. exists p. split; [apply elem_of_app; by left|done].
    + subst q. right. eexists. split; [apply elem_of_app; right; by left|]. by left.
  - intros q H%remove_first_sub. apply elem_of_app. left. auto.
  - intros q [H|H%list_elem_of_singleton]%elem_of_app Hq.
    + destruct (Hl q H Hq) as [|]; [|by right]. left. apply elem_of_app. by left.
    + subst q. left. apply elem_of_app. right. by left.
  - intros q [H|H]%elem_of_app; apply elem_of_app; [left; auto|by right].
Qed.

Lemma find_points_classified bmp m : classified bmp (cells m) (find_points bmp m).
Proof.
  unfold find_points. assert (forall l seen ps, classified bmp seen ps -> classified bmp (seen ++ l) (fold_left (classify bmp) l ps)) as H.
  { induction l as [|p l IH]; intros seen ps Hc; cbn; [by rewrite app_nil_r|].
    replace (seen ++ p :: l) with ((seen ++ [p]) ++ l) by by rewrite <- app_assoc. by apply IH, classify_classified. }
  apply (H (cells m) []). by split; [intros q ?%elem_of_nil|].
Qed.

(** ** The squares *)

(** Folds that only add to a set. *)
Lemma fold_adds {A} (f : gset point -> A -> gset point) l s q :
  (forall s a q, q ∈ s -> q ∈ f s a) -> q ∈ s -> q ∈ fold_left f l s.
Proof. intros Hf. revert s. induction l as [|a l IH]; intros s H; cbn; [done|]. by apply IH, Hf. Qed.

Lemma fold_adds_elem {A} (f : gset point -> A -> gset point) l s a q :
  (forall s a q, q ∈ s -> q ∈ f s a) -> a ∈ l -> (forall s, q ∈ f s a) -> q ∈ fold_left f l s.
Proof.
  intros Hf Ha Hq. revert s. induction Ha as [a l|a b l _ IH]; intros s; cbn; [by apply fold_adds|by apply IH].
Qed.

Definition square_of (ps : points) (p : isolated_point) : gset point :=
  let '(sx, sy) := grow_direction ps p in square (ix p) (iy p) sx sy.

Lemma square_of_mark ps p q : of_mark p q -> q ∈ square_of ps p.
Proof.
  unfold of_mark, square_of, grow_direction, square. destruct p as [x y sx]. cbn [ix iy isx].
  intros [->|[-> ->]]; set_solver.
Qed.

Lemma grow_bitmap m ps st p : ijam_bmp_data (grow m ps st p) = square_of ps p ∪ ijam_bmp_data st.
Proof. unfold grow, square_of. by destruct (grow_direction ps p). Qed.

Lemma grown_squares m ps l st :
  ijam_bmp_data (fold_left (grow m ps) l st) = fold_left (fun s p => square_of ps p ∪ s) l (ijam_bmp_data st).
Proof. revert st. induction l as [|p l IH]; intros st; cbn [fold_left]; [done|]. by rewrite IH, grow_bitmap. Qed.

Section Process.
Variable order : gset point -> list point.
Hypothesis order_elements : forall s, order s ≡ₚ elements s.

Lemma order_elem s p : p ∈ order s <-> p ∈ s.
Proof using order_elements. by rewrite order_elements, elem_of_elements. Qed.

Lemma recentre_shifts ps st : exists off, forall q, q ∈ ijam_bmp_data st ->
  (q.1 - off, q.2) ∈ ijam_bmp_data (recentre order ps st).
Proof using order_elements.
  unfold recentre. destruct (hit_left st =? 0).
  { exists 0. intros [x y] H. cbn. by rewrite Z.sub_0_r. }
  set (off := off_x order ps (ijam_bmp_data st)). exists off. intros q Hq%order_elem.
  assert (forall l st0, ijam_bmp_data (fold_left (fun st k =>
        mk_ijam ({[ (k.1 - off, k.2) ]} ∪ ijam_bmp_data st) (if k.1 - off <=? 0 then 0 - (k.1 - off) + 1 else hit_left st)) l st0)
    = fold_left (fun s (k : point) => {[ (k.1 - off, k.2) ]} ∪ s) l (ijam_bmp_data st0)) as ->.
  { induction l as [|k l IH]; intros st0; cbn; [done|]. by rewrite IH. }
  eapply fold_adds_elem; [|exact Hq|]; set_solver.
Qed.

(** ** The size of the new glyph *)

(** A point is inside of the glyph with its margins. *)
Definition reaches (m : meta) (r : reach) (p : point) : Prop :=
  - reach_sx r <= p.1 < width m + reach_hdx r /\ - reach_sy r <= p.2 < height m + reach_hdy r.

Definition wider (r r' : reach) : Prop :=
  reach_sx r <= reach_sx r' /\ reach_sy r <= reach_sy r' /\ reach_hdx r <= reach_hdx r' /\ reach_hdy r <= reach_hdy r'.

Lemma expand_wider m r p : wider r (expand m r p).
Proof.
  destruct p as [x y]. unfold wider, expand. cbn [reach_sx reach_sy reach_hdx reach_hdy].
  destruct (x <? 0), (y <? 0), (width m <=? x), (height m <=? y); lia.
Qed.

Lemma expand_reaches m r p : wider (mk_reach 0 0 0 0) r -> reaches m (expand m r p) p.
Proof.
  destruct p as [x y]. unfold wider, reaches, expand. cbn [reach_sx reach_sy reach_hdx reach_hdy fst snd]. intros H.
  destruct (Z.ltb_spec x 0), (Z.ltb_spec y 0), (Z.leb_spec (width m) x), (Z.leb_spec (height m) y); lia.
Qed.

Lemma wider_trans r1 r2 r3 : wider r1 r2 -> wider r2 r3 -> wider r1 r3.
Proof. unfold wider. lia. Qed.

Lemma wider_reaches m r r' p : wider r r' -> reaches m r p -> reaches m r' p.
Proof. unfold wider, reaches. lia. Qed.

Lemma fold_wider m l r : wider r (fold_left (expand m) l r).
Proof. revert r. induction l as [|p l IH]; intros r; cbn; [unfold wider; lia|]. eapply wider_trans; [apply expand_wider|apply IH]. Qed.

Lemma reach_of_spec m bmp : wider (mk_reach 0 0 0 0) (reach_of order m bmp) /\
  forall p, p ∈ bmp -> reaches m (reach_of order m bmp) p.
Proof using order_elements.
  unfold reach_of. split; [apply fold_wider|]. intros p Hp%order_elem. revert Hp.
  assert (wider (mk_reach 0 0 0 0) (mk_reach 0 0 0 0)) as H by (unfold wider; lia). revert H.
  generalize (mk_reach 0 0 0 0) at 2 3. induction (order bmp) as [|p' l IH]; intros r Hr; [by intros ?%elem_of_nil|].
  intros [->|Hp]%elem_of_cons; cbn.
  - eapply wider_reaches; [apply fold_wider|]. by apply expand_reaches.
  - apply IH; [|done]. eapply wider_trans; [exact Hr|apply expand_wider].
Qed.

(** ** The new file *)

Lemma add_body_adds r bmp p q : q ∈ bmp -> q ∈ add_body r bmp p.
Proof. destruct p as [x y]. unfold add_body. destruct (x =? 0); set_solver. Qed.

Lemma add_body_point r bmp p : (p.1 + reach_hdx r, p.2) ∈ add_body r bmp p.
Proof. destruct p as [x y]. unfold add_body. destruct (x =? 0); set_solver. Qed.

Lemma draw_shown m r bmp x y : 0 <= x < width m -> 0 <= y < height m ->
  (x - reach_sx r, y - reach_sy r) ∈ bmp -> shown (draw m r bmp) x y.
Proof.
  intros Hx Hy H. split; [lia|]. split; [lia|]. unfold draw. rewrite list_lookup_fmap, range_lookup by done. cbn.
  rewrite list_lookup_fmap, range_lookup by done. cbn. by rewrite decide_True.
Qed.

Lemma draw_size m r bmp : len (draw m r bmp) = Z.max 0 (height m) /\ Forall (fun row => len row = Z.max 0 (width m)) (draw m r bmp).
Proof.
  unfold draw. rewrite length_fmap, range_length. split; [done|]. apply Forall_fmap, Forall_true. intros y. cbn.
  by rewrite length_fmap, range_length.
Qed.

(** C22: The new glyph has what the old one had: the pixels of the marks and their squares, all at
    one offset, and all other pixels, all at another one in the same rows; and the lines have
    the size that the first line says. *)
Theorem process_glyph_keeps m text bmp m' lines :
  read_bitmap m text = Some bmp -> process_glyph order m text = Some (Some (m', lines)) ->
  let ps := find_points bmp m in
  exists mark_dx body_dx dy,
    (forall q, lit bmp q = true -> q ∈ other_points ps \/ exists p, p ∈ isolated_points ps /\ of_mark p q) /\
    (forall p q, p ∈ isolated_points ps -> q ∈ square_of ps p -> shown lines (q.1 + mark_dx) (q.2 + dy)) /\
    (forall q, q ∈ other_points ps -> shown lines (q.1 + body_dx) (q.2 + dy)) /\
    (forall p q, of_mark p q -> q ∈ square_of ps p) /\
    len lines = Z.max 0 (height m') /\ Forall (fun row => len row = Z.max 0 (width m')) lines.
Proof using order_elements.
  intros Hb H ps. unfold process_glyph in H. rewrite Hb in H. cbn [mbind option_bind] in H. fold ps in H.
  case_decide; [done|]. case_decide; [done|].
  set (grown := fold_left (grow m ps) (isolated_points ps) (mk_ijam ∅ 0)) in H.
  set (st := recentre order ps grown) in H. set (r := reach_of order m (ijam_bmp_data st)) in H.
  injection H as <- <-. destruct (recentre_shifts ps grown) as [off Hoff]. fold st in Hoff.
  destruct (reach_of_spec m (ijam_bmp_data st)) as [Hr Hin]. fold r in Hr, Hin.
  destruct (find_points_classified bmp m) as [Hl Ho]. fold ps in Hl, Ho.
  set (bmp' := rebuild r ps (ijam_bmp_data st)).
  assert (forall q, reaches m r q -> q ∈ bmp' -> shown (draw (new_meta m r (hit_left st)) r bmp')
    (q.1 + reach_sx r) (q.2 + reach_sy r)) as Hshown.
  { intros [x y] Hq Hq'. unfold reaches in Hq. apply draw_shown; cbn [new_meta width height fst snd] in *; [lia|lia|].
    by rewrite !Z.add_simpl_r. }
  exists (reach_sx r - off), (reach_hdx r + reach_sx r), (reach_sy r). split_and!.
  - intros q Hq. apply Hl; [by eapply lit_cells|done].
  - intros p q Hp Hq. replace (q.1 + (reach_sx r - off)) with (q.1 - off + reach_sx r) by lia.
    assert ((q.1 - off, q.2) ∈ ijam_bmp_data st) as Hq'.
    { apply Hoff. unfold grown. rewrite grown_squares. eapply fold_adds_elem; [set_solver|exact Hp|set_solver]. }
    apply (Hshown (q.1 - off, q.2)); [by apply Hin|]. apply fold_adds; [|done]. intros. by apply add_body_adds.
  - intros q Hq. rewrite Z.add_assoc. apply (Hshown (q.1 + reach_hdx r, q.2)).
    + apply Ho in Hq. destruct q as [x y]. apply cells_elem in Hq. unfold reaches, wider in *. cbn in *. lia.
    + eapply fold_adds_elem; [intros; by apply add_body_adds|exact Hq|]. intros. apply add_body_point.
  - intros p q. apply square_of_mark.
  - apply draw_size.
  - apply draw_size.
Qed.

End Process.

(** ** Examples *)

Definition text_of (rows : list string) : list Z := ascii_bytes (String.concat (String "010"%char EmptyString) rows).

(** A dot over a line of six pixels. *)
Definition dot_and_line : list Z := text_of ["  #   "; "      "; "######"; ""]%string.
Definition dot_and_line_lines : list (list Z) := ascii_bytes <$> [" ##   "; " ##   "; "      "; "######"]%string.

Lemma process_glyph_keeps_witness :
  process_glyph elements (mk_meta 6 3 0 3 6) dot_and_line = Some (Some (mk_meta 6 4 0 2 6, dot_and_line_lines)) /\
  exists body_dx dy, forall x, 0 <= x < 6 -> shown dot_and_line_lines (x + body_dx) (2 + dy).
Proof.
  assert (process_glyph elements (mk_meta 6 3 0 3 6) dot_and_line = Some (Some (mk_meta 6 4 0 2 6, dot_and_line_lines)))
    as H by (vm_compute; reflexivity).
  split; [exact H|].
  destruct (process_glyph_keeps elements (fun s => reflexivity _) (mk_meta 6 3 0 3 6) dot_and_line
    (default ∅ (read_bitmap (mk_meta 6 3 0 3 6) dot_and_line)) (mk_meta 6 4 0 2 6) dot_and_line_lines)
    as (mark_dx & body_dx & dy & _ & _ & Hbody & _).
  - vm_compute. reflexivity.
  - exact H.
  - exists body_dx, dy. intros x Hx. apply (Hbody (x, 2)).
    assert (x = 0 \/ x = 1 \/ x = 2 \/ x = 3 \/ x = 4 \/ x = 5) as Hc by lia. vm_compute.
    repeat (destruct Hc as [->|Hc]; [repeat first [left|right]|]); subst x; repeat first [left|right].
Defined.

(** A glyph that has nothing but a dot: the mean of no other points. *)
Example lone_dot_error : process_glyph elements (mk_meta 2 1 0 3 6) (text_of ["# "; ""]%string) = None.
Proof. vm_compute. reflexivity. Qed.

(** A dot at the left edge is not centred over the line but moved away from it: the distance
    is that between the middles of two spans that both start at 0. *)
Example left_dot_moves_out :
  process_glyph elements (mk_meta 6 3 0 3 6) (text_of ["#     "; "      "; "######"; ""]%string)
  = Some (Some (mk_meta 9 4 0 2 9, ascii_bytes <$> ["##       "; "##       "; "         "; "#########"]%string)).
Proof. vm_compute. reflexivity. Qed.

(** The second mark, at the right edge, grows inwards and sets the flag of the left edge to 0, so that
    the marks are not moved and the first one stays outside. *)
Example right_edge_clears_left :
  hit_left (grow (mk_meta 4 3 0 3 4) (mk_points [(1, 2); (2, 2)] [mk_isolated 0 0 None; mk_isolated 3 0 (Some (-1))])
    (mk_ijam ∅ 2) (mk_isolated 3 0 (Some (-1)))) = 0.
Proof. vm_compute. reflexivity. Qed.
