(* ===== verification/Glyph.v ===== *)
(** * Glyphs of a font (pebblesdk/fontgen.py)

    A glyph is a header and a bitmap of one bit per pixel, either packed into words or
    compressed with run lengths ([compress_glyph_RLE4]).  The watch decompresses a glyph
    in the buffer that holds it; [check_decompress_glyph_RLE4] tries that out.  The font
    rasteriser is a parameter.  An exception is [inl]. *)

From S2P Require Import Prelude Bytes.

Definition GLYPH_BUFFER_SIZE_BYTES : Z := 256.
(** [struct.calcsize("<BBbbb")] *)
Definition header_size : Z := 5.

Inductive error :=
| StructError
| IndexError
| AssertError
| InputTooLarge
| UnableToDecodeInPlace
| OutputTooLarge
| MoreThan255Units
| UnsupportedPixelMode.

(** A computation that may raise. *)
Abbreviation result A := (error + A)%type.

#[export] Instance result_ret : MRet (sum error) := fun A a => inr a.
#[export] Instance result_bind : MBind (sum error) := fun A B f c =>
  match c with inl e => inl e | inr a => f a end.

Definition raise {A} (e : error) : result A := inl e.
Definition of_option {A} (e : error) (o : option A) : result A :=
  match o with Some a => inr a | None => inl e end.

(** [struct.pack("<b", v)] *)
Definition pack_s (v : Z) : option (list Z) :=
  if (-128 <=? v) && (v <? 128) then Some [v mod 256] else None.

(** ** Bitmaps *)

(** The bits of a byte, the most significant one first. *)
Fixpoint bits_from (n : nat) (x : Z) (data : list bool) : list bool :=
  match n with
  | O => data
  | S n => bits_from n (Z.shiftr x 1) ((Z.land x 1 =? 1) :: data)
  end.
Definition bits (x : Z) : list bool := bits_from 8 x [].

(** What the rasteriser says about a glyph. *)
Record rendered := mk_rendered {
  r_width : Z;
  r_rows : Z;
  r_pitch : Z;
  r_buffer : list Z;
  r_pixel_mode : Z;
  r_left : Z;
  r_top : Z;
  r_advance_x : Z;
}.

(** A row of a monochrome bitmap, without the padding up to whole bytes. *)
Definition mono_row (r : rendered) (i : Z) : result (list bool) :=
  row ← of_option IndexError (mapM (fun j => r_buffer r !! Z.to_nat (i * r_pitch r + j)) (seqZ 0 (r_pitch r)));
  mret (slice_to (r_width r) (concat (bits <$> row))).

Fixpoint mono_rows (r : rendered) (rows : list Z) : result (list bool) :=
  match rows with
  | [] => mret []
  | i :: rows => row ← mono_row r i; rest ← mono_rows r rows; mret (row ++ rest)
  end.

Definition glyph_bitmap (threshold : Z) (r : rendered) : result (list bool) :=
  if r_pixel_mode r =? 1 then mono_rows r (seqZ 0 (r_rows r))
  else if r_pixel_mode r =? 2 then mret ((fun val => val >? threshold) <$> r_buffer r)
  else raise UnsupportedPixelMode.

(** [w |= bit << index] over the bits of a word. *)
Fixpoint word_of_bits (l : list bool) : Z :=
  match l with
  | [] => 0
  | b :: l => Z.lor (Z.b2z b) (Z.shiftl (word_of_bits l) 1)
  end.

(** [grouper(32, glyph_bitmap, 0)]: the last word is filled up with zeros. *)
Fixpoint pack_words (fuel : nat) (glyph_bitmap : list bool) : list Z :=
  match fuel, glyph_bitmap with
  | O, _ | _, [] => []
  | S fuel, _ => le_bytes 4 (word_of_bits (take 32 glyph_bitmap)) ++ pack_words fuel (drop 32 glyph_bitmap)
  end.
Definition pack_bitmap (glyph_bitmap : list bool) : list Z := pack_words (length glyph_bitmap) glyph_bitmap.

(** ** Run-length encoding *)

Definition RLE_LEN : nat := 2 ^ (4 - 1).

(** [itertools.groupby(bitmap)] with the length of the groups *)
Fixpoint unit_list (bitmap : list bool) : list (bool * nat) :=
  match bitmap with
  | [] => []
  | b :: bitmap =>
      match unit_list bitmap with
      | (b', n) :: units => if eqb b b' then (b', S n) :: units else (b, 1%nat) :: (b', n) :: units
      | [] => [(b, 1%nat)]
      end
  end.

(** The loop [while length > 0]: units of at most [RLE_LEN]. *)
Fixpoint split_unit (fuel : nat) (name : bool) (length : nat) : list (bool * nat) :=
  match fuel with
  | O => []
  | S fuel =>
      if (0 <? length)%nat then
        let unit_len := Nat.min length RLE_LEN in
        (name, unit_len) :: split_unit fuel name (length - unit_len)
      else []
  end.

Definition rle_unit_list (bitmap : list bool) : list (bool * nat) :=
  concat ((fun u : bool * nat => split_unit u.2 u.1 u.2) <$> unit_list bitmap).

Definition packed_byte (u1 u2 : bool * nat) : Z :=
  Z.lor (Z.lor (Z.lor (Z.shiftl (Z.b2z u1.1) 3) (Z.of_nat u1.2 - 1)) (Z.shiftl (Z.b2z u2.1) 7))
    (Z.shiftl (Z.of_nat u2.2 - 1) 4).

Fixpoint pack_units (units : list (bool * nat)) : list Z :=
  match units with
  | u1 :: u2 :: units => packed_byte u1 u2 :: pack_units units
  | _ => []
  end.

(** Zeros up to a multiple of 4. *)
Definition pad4 (l : list Z) : list Z := l ++ replicate (Z.to_nat (- len l mod 4)) 0.

Definition compress_glyph_RLE4 (bitmap : list bool) : list Z * Z :=
  let units := rle_unit_list bitmap in
  let num_units := len units in
  let units := if num_units mod 2 =? 1 then units ++ [(false, 1%nat)] else units in
  (pad4 (pack_units units), num_units).

(** ** Decompression in place *)

(** The variables of the decoder; the buffer is [bitmap]. *)
Record decoder := mk_decoder {
  d_bitmap : list Z;
  d_src_ptr : Z;
  d_dst_ptr : Z;
  d_out : Z;
  d_out_num_bits : Z;
}.

(** [bitmap[i]] and [bitmap[i] = v]: negative indices count from the end. *)
Definition list_index (l : list Z) (i : Z) : result nat :=
  let i := if i <? 0 then i + len l else i in
  if (0 <=? i) && (i <? len l) then mret (Z.to_nat i) else raise IndexError.

(** One unit: four bits of [unit_pair]. *)
Definition decode_unit (unit_pair : Z) (d : decoder) : result decoder :=
  let colour := Z.land (Z.shiftr unit_pair 3) 1 in
  let length := Z.land unit_pair 0x07 + 1 in
  let out :=
    if negb (colour =? 0) then
      Z.lor (d_out d) (Z.shiftl (Z.shiftl 1 length - 1) (d_out_num_bits d))
    else d_out d in
  let out_num_bits := d_out_num_bits d + length in
  if out_num_bits >=? 8 then
    if d_dst_ptr d >=? d_src_ptr d then raise UnableToDecodeInPlace
    else if d_dst_ptr d >=? GLYPH_BUFFER_SIZE_BYTES then raise OutputTooLarge
    else
      i ← list_index (d_bitmap d) (d_dst_ptr d);
      mret (mk_decoder (<[i := Z.land out 0xFF]> (d_bitmap d)) (d_src_ptr d) (d_dst_ptr d + 1)
              (Z.shiftr out 8) (out_num_bits - 8))
  else mret (mk_decoder (d_bitmap d) (d_src_ptr d) (d_dst_ptr d) out out_num_bits).

(** The loop over the bytes; [rle_units] counts down by the units of a byte, which is at
    most two. *)
Fixpoint decode_units (rle_units : nat) (d : decoder) : result decoder :=
  match rle_units with
  | O => mret d
  | S rest =>
      if d_src_ptr d >=? GLYPH_BUFFER_SIZE_BYTES then raise InputTooLarge
      else
        i ← list_index (d_bitmap d) (d_src_ptr d);
        unit_pair ← of_option IndexError (d_bitmap d !! i);
        let d := mk_decoder (d_bitmap d) (d_src_ptr d + 1) (d_dst_ptr d) (d_out d) (d_out_num_bits d) in
        d ← decode_unit unit_pair d;
        match rest with
        | O => mret d
        | S rest => d ← decode_unit (Z.shiftr unit_pair 4) d; decode_units rest d
        end
  end.

(** [while out_num_bits > 0] *)
Fixpoint flush (fuel : nat) (d : decoder) : result decoder :=
  match fuel with
  | O => mret d
  | S fuel =>
      if d_out_num_bits d >? 0 then
        i ← list_index (d_bitmap d) (d_dst_ptr d);
        flush fuel (mk_decoder (<[i := Z.land (d_out d) 0xFF]> (d_bitmap d)) (d_src_ptr d)
                      (d_dst_ptr d + 1) (Z.shiftr (d_out d) 8) (d_out_num_bits d - 8))
      else mret d
  end.

(** The decoder on a buffer with the glyph at its end: the buffer that it leaves. *)
Definition decompress (glyph_packed : list Z) (rle_units : Z) : result (list Z) :=
  let bitmap := slice_to (- len glyph_packed) (replicate (Z.to_nat GLYPH_BUFFER_SIZE_BYTES) 0) ++ glyph_packed in
  let src_ptr := GLYPH_BUFFER_SIZE_BYTES - len glyph_packed in
  d ← decode_units (Z.to_nat rle_units) (mk_decoder bitmap src_ptr header_size 0 0);
  d ← flush (Z.to_nat (d_out_num_bits d)) d;
  mret (d_bitmap d).

Definition check_decompress_glyph_RLE4 (glyph_packed : list Z) (width rle_units : Z) : result bool :=
  _ ← decompress glyph_packed rle_units;
  mret true.

(** ** A glyph *)

(** The header and the bitmap of a glyph. *)
Record glyph_data := mk_glyph_data {
  g_width : Z;
  g_height : Z;
  g_left : Z;
  g_bottom : Z;
  g_advance : Z;
  g_bitmap : list bool;
}.

(** The settings of a [Font]. *)
Record font_settings := mk_settings {
  max_height : Z;
  tracking_adjust : Z;
  threshold : Z;
  shift : Z * Z;
  rle4 : bool;
}.

Inductive glyph_index := ZERO_WIDTH_GLYPH_INDEX | GlyphIndex (g : Z).

#[export] Instance glyph_index_eq_dec : EqDecision glyph_index.
Proof. solve_decision. Defined.

(** [struct.pack(self.glyph_header, ...)] *)
Definition pack_header (width height left bottom advance : Z) : option (list Z) :=
  w ← pack_u 1 width; h ← pack_u 1 height; l ← pack_s left; b ← pack_s bottom; a ← pack_s advance;
  Some (w ++ h ++ l ++ b ++ a).

Section GlyphBits.
Variable cfg : font_settings.
(** The rasteriser, and the bitmaps that were edited by hand ([--collect-bitmaps]). *)
Variable load_glyph : Z -> rendered.
Variable collected : Z -> Z -> option glyph_data.

(** The glyph as it is rendered or collected.  [advance.x / 64] rounds down. *)
Definition glyph_of (codepoint gindex : Z) : result glyph_data :=
  let r := load_glyph gindex in
  let g := mk_glyph_data (r_width r) (r_rows r) (r_left r) (max_height cfg - r_top r)
             (r_advance_x r / 64 + tracking_adjust cfg) [] in
  if negb (r_rows r =? 0) && negb (r_width r =? 0) then
    bitmap ← glyph_bitmap (threshold cfg) r;
    match collected codepoint gindex with
    | Some c => if len (g_bitmap c) =? g_width c * g_height c then mret c else raise AssertError
    | None => mret (mk_glyph_data (g_width g) (g_height g) (g_left g) (g_bottom g) (g_advance g) bitmap)
    end
  else mret g.

(** The bitmap as it is stored, and the height, which is the number of units when it is
    compressed. *)
Definition packed_bitmap (rows width : Z) (g : glyph_data) : result (list Z * Z) :=
  if negb (rows =? 0) && negb (width =? 0) then
    if rle4 cfg then
      let '(glyph_packed, height) := compress_glyph_RLE4 (g_bitmap g) in
      if height >? 255 then raise MoreThan255Units
      else
        _ ← check_decompress_glyph_RLE4 glyph_packed (g_width g) height;
        mret (glyph_packed, height)
    else mret (pack_bitmap (g_bitmap g), g_height g)
  else mret ([], g_height g).

Definition glyph_bits (codepoint : Z) (gindex : glyph_index) : result (list Z) :=
  match gindex with
  | ZERO_WIDTH_GLYPH_INDEX => of_option StructError (pack_header 0 0 0 0 0)
  | GlyphIndex gindex =>
      let r := load_glyph gindex in
      g ← glyph_of codepoint gindex;
      '(glyph_packed, height) ← packed_bitmap (r_rows r) (r_width r) g;
      glyph_header ← of_option StructError
        (pack_header (g_width g) height (g_left g + (shift cfg).1) (g_bottom g + (shift cfg).2) (g_advance g));
      mret (glyph_header ++ glyph_packed)
  end.
End GlyphBits.
