(* ===== verification/GlyphProps.v ===== *)
(** * Glyphs of a font: theorems

    Run-length encoding loses nothing, and when the check of the generator passes, the
    watch's decoder turns the compressed glyph in place into the bitmap that is stored
    without compression. *)

From S2P Require Import Prelude Bytes Glyph.

(** ** Runs *)

(** The pixels of a list of units. *)
Definition expand (units : list (bool * nat)) : list bool :=
  concat ((fun u : bool * nat => replicate u.2 u.1) <$> units).

Definition unit_ok (u : bool * nat) : Prop := (1 <= u.2 <= 8)%nat.

Lemma expand_app us vs : expand (us ++ vs) = expand us ++ expand vs.
Proof. unfold expand. by rewrite fmap_app, concat_app. Qed.

Lemma expand_cons u us : expand (u :: us) = replicate u.2 u.1 ++ expand us.
Proof. done. Qed.

Lemma unit_list_expand bitmap : expand (unit_list bitmap) = bitmap.
Proof.
  induction bitmap as [|b bitmap IH]; [done|]. cbn [unit_list].
  destruct (unit_list bitmap) as [|[b' n] units]; [by rewrite <- IH|].
  destruct (eqb b b') eqn:E; rewrite <- IH.
  - apply eqb_prop in E as ->. done.
  - done.
Qed.

Lemma split_unit_expand fuel name n : (n <= fuel)%nat ->
  expand (split_unit fuel name n) = replicate n name /\ Forall unit_ok (split_unit fuel name n).
Proof.
  revert n. induction fuel as [|fuel IH]; intros n Hn; cbn [split_unit].
  { by replace n with 0%nat by lia. }
  destruct (Nat.ltb_spec 0 n); [|by replace n with 0%nat by lia].
  unfold RLE_LEN. change (2 ^ (4 - 1))%nat with 8%nat. destruct (IH (n - Nat.min n 8)%nat) as [E F]; [lia|].
  split; [|constructor; [unfold unit_ok; cbn; lia|done]].
  rewrite expand_cons, E. cbn [fst snd]. rewrite <- replicate_add. f_equal. lia.
Qed.

Lemma rle_unit_list_expand bitmap :
  expand (rle_unit_list bitmap) = bitmap /\ Forall unit_ok (rle_unit_list bitmap).
Proof.
  rewrite <- (unit_list_expand bitmap) at 2. unfold rle_unit_list.
  induction (unit_list bitmap) as [|[b n] units [IH1 IH2]]; [done|]. cbn [fmap list_fmap concat fst snd].
  destruct (split_unit_expand n b n) as [E F]; [done|]. split.
  - by rewrite expand_app, E, IH1, expand_cons.
  - by apply Forall_app.
Qed.

(** ** Units in bytes *)

(** The unit in the low four bits of a byte. *)
Definition nibble_unit (x : Z) : bool * nat :=
  (negb (Z.land (Z.shiftr x 3) 1 =? 0), Z.to_nat (Z.land x 0x07 + 1)).

Lemma unit_ok_cases (P : bool * nat -> Prop) :
  (forall b, Forall (fun n => P (b, n)) (seq 1 8)) -> forall u, unit_ok u -> P u.
Proof.
  intros H [b n] Hu. specialize (H b). rewrite Forall_forall in H. apply H.
  unfold unit_ok in Hu. cbn in Hu. apply elem_of_seq. lia.
Qed.

Lemma packed_byte_units u1 u2 : unit_ok u1 -> unit_ok u2 ->
  nibble_unit (packed_byte u1 u2) = u1 /\ nibble_unit (Z.shiftr (packed_byte u1 u2) 4) = u2.
Proof.
  intros H1 H2. revert u1 H1. apply unit_ok_cases. intros b1.
  revert u2 H2. enough (forall u2, unit_ok u2 -> Forall (fun n => nibble_unit (packed_byte (b1, n) u2) = (b1, n)
    /\ nibble_unit (Z.shiftr (packed_byte (b1, n) u2) 4) = u2) (seq 1 8)) as H by exact H.
  apply unit_ok_cases. intros b2. cbn [seq].
  destruct b1, b2; repeat (constructor; [repeat (constructor; [split; reflexivity|]); constructor|]); constructor.
Qed.

(** The units of bytes, two in every byte. *)
Fixpoint units_of (n : nat) (bytes : list Z) : list (bool * nat) :=
  match n, bytes with
  | O, _ | _, [] => []
  | S O, b :: _ => [nibble_unit b]
  | S (S n), b :: bytes => nibble_unit b :: nibble_unit (Z.shiftr b 4) :: units_of n bytes
  end.

Definition pad_units (units : list (bool * nat)) : list (bool * nat) :=
  if len units mod 2 =? 1 then units ++ [(false, 1%nat)] else units.

Lemma list_ind_2 {A} (P : list A -> Prop) :
  P [] -> (forall a, P [a]) -> (forall a b l, P l -> P (a :: b :: l)) -> forall l, P l.
Proof.
  intros H0 H1 H2. enough (forall l, P l /\ forall a, P (a :: l)) as H by (intros l; apply H).
  induction l as [|b l [IH1 IH2]]; [by split|]. split; [apply IH2|]. intros a. by apply H2.
Qed.

Lemma pad_units_cons u1 u2 units : pad_units (u1 :: u2 :: units) = u1 :: u2 :: pad_units units.
Proof.
  unfold pad_units. cbn [length]. replace (Z.of_nat (S (S (length units)))) with (len units + 1 * 2) by lia.
  rewrite Z.mod_add by lia. by destruct (len units mod 2 =? 1).
Qed.

(** Packing in the form of an induction over two units. *)
Lemma pack_units_1 u : pack_units (pad_units [u]) = [packed_byte u (false, 1%nat)].
Proof. done. Qed.

Lemma units_of_pack units rest :
  Forall unit_ok units -> units_of (length units) (pack_units (pad_units units) ++ rest) = units.
Proof.
  induction units as [|u|u1 u2 units IH] using list_ind_2; intros HF; [done|..].
  - apply Forall_cons in HF as [Hu _]. cbn [length pack_units pad_units app].
    rewrite pack_units_1. cbn [app units_of]. f_equal. apply packed_byte_units; [done|]. unfold unit_ok. cbn. lia.
  - rewrite !Forall_cons in HF. destruct HF as (H1 & H2 & HF). rewrite pad_units_cons.
    cbn [length pack_units app units_of]. destruct (packed_byte_units u1 u2 H1 H2) as [-> ->].
    by rewrite IH.
Qed.

Lemma compress_eq bitmap :
  compress_glyph_RLE4 bitmap = (pad4 (pack_units (pad_units (rle_unit_list bitmap))), len (rle_unit_list bitmap)).
Proof. done. Qed.

(** C26: The units of the compressed bitmap, as many as [compress_glyph_RLE4] says, spell the
    bitmap; every unit is one to eight pixels. *)
Theorem compress_glyph_RLE4_round_trip bitmap :
  let '(glyph_packed, num_units) := compress_glyph_RLE4 bitmap in
  expand (units_of (Z.to_nat num_units) glyph_packed) = bitmap /\
  Forall unit_ok (units_of (Z.to_nat num_units) glyph_packed) /\ len glyph_packed mod 4 = 0.
Proof.
  rewrite compress_eq. destruct (rle_unit_list_expand bitmap) as [E F].
  unfold pad4. rewrite Nat2Z.id, units_of_pack by done. split; [done|]. split; [done|].
  rewrite length_app, length_replicate. pose proof (Z.mod_pos_bound (- len (pack_units (pad_units (rle_unit_list bitmap)))) 4).
  dlia.
Qed.

(** ** Bits in bytes, the least significant one first *)

Lemma word_of_bits_cons b l : word_of_bits (b :: l) = Z.b2z b + 2 * word_of_bits l.
Proof.
  cbn [word_of_bits]. rewrite Z.lor_comm, (lor_shiftl_add _ _ 1); [lia|lia|].
  destruct b; cbn; lia.
Qed.

Lemma word_of_bits_app a b : word_of_bits (a ++ b) = word_of_bits a + 2 ^ len a * word_of_bits b.
Proof.
  induction a as [|x a IH]; [cbn [app word_of_bits length]; lia|]. cbn [app length].
  rewrite !word_of_bits_cons, IH, Nat2Z.inj_succ, Z.pow_succ_r by lia. lia.
Qed.

Lemma word_of_bits_bound l : 0 <= word_of_bits l < 2 ^ len l.
Proof.
  induction l as [|b l IH]; [cbn; lia|]. cbn [length].
  rewrite word_of_bits_cons, Nat2Z.inj_succ, Z.pow_succ_r by lia. destruct b; cbn [Z.b2z]; lia.
Qed.

Lemma word_of_bits_replicate n b :
  word_of_bits (replicate n b) = if b then 2 ^ Z.of_nat n - 1 else 0.
Proof.
  induction n as [|n IH]; [by destruct b|]. rewrite replicate_S, word_of_bits_cons, IH.
  rewrite Nat2Z.inj_succ, Z.pow_succ_r by lia. destruct b; cbn [Z.b2z]; lia.
Qed.

(** The bytes of a bitmap; the last one is filled up with zeros. *)
Fixpoint pack_bytes (fuel : nat) (l : list bool) : list Z :=
  match fuel, l with
  | O, _ | _, [] => []
  | S fuel, _ => word_of_bits (take 8 l) :: pack_bytes fuel (drop 8 l)
  end.
Definition bytes_of_bits (l : list bool) : list Z := pack_bytes (length l) l.

Lemma pack_bytes_fuel f1 f2 l : (length l <= f1)%nat -> (length l <= f2)%nat -> pack_bytes f1 l = pack_bytes f2 l.
Proof.
  revert f2 l. induction f1 as [|f1 IH]; intros f2 l H1 H2.
  { destruct l; [by destruct f2|cbn in H1; lia]. }
  destruct l as [|b l]; [by destruct f2|]. destruct f2 as [|f2]; [cbn in H2; lia|].
  cbn [pack_bytes]. f_equal. apply IH; rewrite length_drop; cbn in *; lia.
Qed.

Lemma bytes_of_bits_step l : l <> [] -> bytes_of_bits l = word_of_bits (take 8 l) :: bytes_of_bits (drop 8 l).
Proof.
  destruct l as [|b l]; [done|]. intros _. unfold bytes_of_bits at 1. cbn [length pack_bytes]. f_equal.
  apply pack_bytes_fuel; rewrite ?length_drop; cbn; lia.
Qed.

(** Whole bytes can be packed first. *)
Lemma bytes_of_bits_app a b : (length a mod 8 = 0)%nat -> bytes_of_bits (a ++ b) = bytes_of_bits a ++ bytes_of_bits b.
Proof.
  intros Ha. assert (exists k, length a = 8 * k)%nat as [k Hk].
  { exists (length a / 8)%nat. pose proof (Nat.div_mod_eq (length a) 8). lia. }
  clear Ha. revert a Hk. induction k as [|k IH]; intros a Hk.
  { by apply length_zero_iff_nil in Hk as ->. }
  rewrite (bytes_of_bits_step (a ++ b)), (bytes_of_bits_step a) by (by destruct a).
  rewrite take_app_le, drop_app_le by lia. cbn [app]. f_equal. apply IH. rewrite length_drop. lia.
Qed.

Lemma bytes_of_bits_short l : (0 < length l <= 8)%nat -> bytes_of_bits l = [word_of_bits l].
Proof.
  intros H. rewrite bytes_of_bits_step by (by destruct l; cbn in H; [lia|]).
  rewrite take_ge, drop_ge by lia. done.
Qed.

Lemma bytes_of_bits_length l : (length l mod 8 = 0)%nat -> (8 * length (bytes_of_bits l) = length l)%nat.
Proof.
  intros Ha. assert (exists k, length l = 8 * k)%nat as [k Hk].
  { exists (length l / 8)%nat. pose proof (Nat.div_mod_eq (length l) 8). lia. }
  clear Ha. revert l Hk. induction k as [|k IH]; intros l Hk.
  { by apply length_zero_iff_nil in Hk as ->. }
  rewrite (bytes_of_bits_step l) by (by destruct l). cbn [length].
  specialize (IH (drop 8 l)). rewrite length_drop in IH. lia.
Qed.

(** ** Decompression in place *)

(** The decoder has decoded the pixels [done_]: whole bytes of them are behind the header,
    the others are in [out], and the bytes [unread] are at the end of the buffer. *)
Record decoding (done_ : list bool) (unread : list Z) (d : decoder) : Prop := {
  dec_parts : exists header full rest gap,
    done_ = full ++ rest /\ (length full mod 8 = 0)%nat /\ (length rest < 8)%nat /\
    d_bitmap d = header ++ bytes_of_bits full ++ gap ++ unread /\ length header = 5%nat /\
    d_dst_ptr d = 5 + len (bytes_of_bits full) /\ d_src_ptr d = d_dst_ptr d + len gap /\
    d_out d = word_of_bits rest /\ d_out_num_bits d = len rest;
  dec_size : length (d_bitmap d) = 256%nat;
}.

Lemma list_index_in l i : 0 <= i < len l -> list_index l i = inr (Z.to_nat i).
Proof.
  intros H. unfold list_index. destruct (Z.ltb_spec i 0); [lia|].
  by destruct (Z.leb_spec 0 i), (Z.ltb_spec i (len l)); try lia.
Qed.

(** The bits of a unit in front of the ones that are in [out]. *)
Lemma out_unit rest (u : bool * nat) x :
  unit_ok u -> nibble_unit x = u ->
  (if negb (Z.land (Z.shiftr x 3) 1 =? 0) then
     Z.lor (word_of_bits rest) (Z.shiftl (Z.shiftl 1 (Z.land x 0x07 + 1) - 1) (len rest))
   else word_of_bits rest) = word_of_bits (rest ++ replicate u.2 u.1) /\
  Z.land x 0x07 + 1 = Z.of_nat u.2.
Proof.
  intros Hu Hx. unfold nibble_unit in Hx. subst u. cbn [fst snd] in *.
  assert (0 <= Z.land x 7) by (apply Z.land_nonneg; lia). unfold unit_ok in Hu. cbn in Hu.
  split; [|lia]. rewrite word_of_bits_app, word_of_bits_replicate.
  destruct (negb (Z.land (Z.shiftr x 3) 1 =? 0)); [|lia].
  rewrite Z.lor_comm, lor_shiftl_add by (lia || apply word_of_bits_bound).
  rewrite (Z.shiftl_mul_pow2 1) by lia. rewrite Z2Nat.id by lia. lia.
Qed.

(** One unit: it either stays in [out] or completes a byte. *)
Lemma decode_unit_decoding done_ unread d x u d' :
  decoding done_ unread d -> unit_ok u -> nibble_unit x = u ->
  decode_unit x d = inr d' -> decoding (done_ ++ replicate u.2 u.1) unread d'.
Proof.
  intros [(header & full & rest & gap & -> & Hf8 & Hr & Hbuf & Hh & Hdst & Hsrc & Hout & Hbits) Hsize] Hu Hx.
  destruct (out_unit rest u x Hu Hx) as [Eout Elen]. unfold decode_unit. rewrite Hout, Hbits, Eout, Elen.
  set (rest' := rest ++ replicate u.2 u.1). unfold unit_ok in Hu.
  assert (length rest' = length rest + u.2)%nat as Hlr' by (unfold rest'; by rewrite length_app, length_replicate).
  rewrite <- app_assoc. fold rest'.
  destruct (Z.geb_spec (len rest + Z.of_nat u.2) 8).
  2: { intros [= <-]. split; [|done]. exists header, full, rest', gap. cbn. repeat (split; [done || lia|]). lia. }
  destruct (Z.geb_spec (d_dst_ptr d) (d_src_ptr d)); [done|].
  destruct (Z.geb_spec (d_dst_ptr d) GLYPH_BUFFER_SIZE_BYTES); [done|].
  unfold GLYPH_BUFFER_SIZE_BYTES in *. rewrite list_index_in by lia. cbn [mbind result_bind].
  intros [= <-]. destruct gap as [|g gap]; [cbn in Hsrc; lia|].
  split; [|cbn; by rewrite length_insert].
  exists header, (full ++ take 8 rest'), (drop 8 rest'), gap. cbn [d_bitmap d_dst_ptr d_src_ptr d_out d_out_num_bits].
  assert (length (take 8 rest') = 8)%nat as H8 by (rewrite length_take; lia).
  assert (bytes_of_bits (full ++ take 8 rest') = bytes_of_bits full ++ [word_of_bits (take 8 rest')]) as Hb.
  { by rewrite bytes_of_bits_app, (bytes_of_bits_short (take 8 rest')) by (done || lia). }
  assert (word_of_bits rest' = word_of_bits (take 8 rest') + 256 * word_of_bits (drop 8 rest')) as Hw.
  { rewrite <- (take_drop 8 rest') at 1. rewrite word_of_bits_app, H8. done. }
  pose proof (word_of_bits_bound (take 8 rest')) as Hw8. rewrite H8 in Hw8. change (2 ^ Z.of_nat 8) with 256 in Hw8.
  rewrite Hb, !length_app, length_drop. change 0xFF with (Z.ones 8).
  rewrite Z.land_ones, Z.shiftr_div_pow2, Hw by lia. change (2 ^ 8) with 256.
  rewrite <- app_assoc, take_drop. split; [done|]. split; [rewrite H8, Nat.Div0.add_mod, Hf8; done|].
  split; [lia|]. split; [|split; [done|]; cbn in *; split; [lia|]; split; [lia|]; split; [dlia|lia]].
  rewrite Hbuf. replace (Z.to_nat (d_dst_ptr d)) with (length header + length (bytes_of_bits full))%nat by lia.
  rewrite !(app_assoc header), <- length_app, insert_app_r_alt, Nat.sub_diag by lia. cbn [app insert list_insert].
  rewrite <- !app_assoc. cbn [app]. do 3 f_equal. dlia.
Qed.

(** Reading the next byte of the encoded glyph. *)
Lemma decoding_read done_ b unread d :
  decoding done_ (b :: unread) d ->
  exists i, list_index (d_bitmap d) (d_src_ptr d) = inr i /\ d_bitmap d !! i = Some b /\
    d_src_ptr d < GLYPH_BUFFER_SIZE_BYTES /\
    decoding done_ unread (mk_decoder (d_bitmap d) (d_src_ptr d + 1) (d_dst_ptr d) (d_out d) (d_out_num_bits d)).
Proof.
  intros [(header & full & rest & gap & -> & Hf8 & Hr & Hbuf & Hh & Hdst & Hsrc & Hout & Hbits) Hsize].
  pose proof Hsize as Hs. rewrite Hbuf, !length_app, Hh in Hs. cbn [length] in Hs.
  exists (Z.to_nat (d_src_ptr d)). rewrite list_index_in by lia. split; [done|]. split.
  { rewrite Hbuf. rewrite !lookup_app_r by lia.
    replace (_ - _ - _ - _)%nat with 0%nat by lia. done. }
  unfold GLYPH_BUFFER_SIZE_BYTES. split; [lia|]. split; [|done].
  exists header, full, rest, (gap ++ [b]). cbn. rewrite <- !app_assoc, length_app. cbn. repeat (split; [done|]). lia.
Qed.

Lemma decode_units_decoding units rest done_ d d' :
  Forall unit_ok units -> decoding done_ (pack_units (pad_units units) ++ rest) d ->
  decode_units (length units) d = inr d' -> exists unread, decoding (done_ ++ expand units) unread d'.
Proof.
  revert done_ d. induction units as [|u|u1 u2 units IH] using list_ind_2; intros done_ d HF Hd.
  - intros [= <-]. exists rest. cbn [expand fmap list_fmap concat]. by rewrite app_nil_r.
  - apply Forall_cons in HF as [Hu _]. rewrite pack_units_1 in Hd. cbn [length decode_units app] in *.
    destruct (decoding_read _ _ _ _ Hd) as (i & Hi & Hb & Hlt & Hd1).
    destruct (Z.geb_spec (d_src_ptr d) GLYPH_BUFFER_SIZE_BYTES); [lia|].
    rewrite Hi. cbn [mbind result_bind]. rewrite Hb. cbn [of_option mbind result_bind].
    destruct (decode_unit _ _) as [e|d1] eqn:E; [done|]. intros [= <-]. exists rest.
    rewrite expand_cons, app_nil_r. eapply decode_unit_decoding; [exact Hd1|done| |exact E].
    apply packed_byte_units; [done|]. unfold unit_ok. cbn. lia.
  - rewrite !Forall_cons in HF. destruct HF as (H1 & H2 & HF). rewrite pad_units_cons in Hd.
    cbn [pack_units length decode_units app] in *.
    destruct (decoding_read _ _ _ _ Hd) as (i & Hi & Hb & Hlt & Hd1).
    destruct (Z.geb_spec (d_src_ptr d) GLYPH_BUFFER_SIZE_BYTES); [lia|].
    rewrite Hi. cbn [mbind result_bind]. rewrite Hb. cbn [of_option mbind result_bind].
    destruct (packed_byte_units u1 u2 H1 H2) as [E1 E2].
    destruct (decode_unit _ _) as [e|d1] eqn:Ed1; [done|]. cbn [mbind result_bind].
    destruct (decode_unit _ d1) as [e|d2] eqn:Ed2; [done|]. cbn [mbind result_bind]. intros Hdec.
    pose proof (decode_unit_decoding _ _ _ _ _ _ Hd1 H1 E1 Ed1) as Hd2.
    pose proof (decode_unit_decoding _ _ _ _ _ _ Hd2 H2 E2 Ed2) as Hd3.
    destruct (IH _ _ HF Hd3 Hdec) as [unread Hun]. exists unread.
    by rewrite !expand_cons, !app_assoc.
Qed.

(** The last, incomplete byte. *)
Lemma flush_decoding done_ unread d d' :
  decoding done_ unread d -> flush (Z.to_nat (d_out_num_bits d)) d = inr d' ->
  slice 5 (5 + len (bytes_of_bits done_)) (d_bitmap d') = bytes_of_bits done_ /\
  length (d_bitmap d') = 256%nat.
Proof.
  intros [(header & full & rest & gap & -> & Hf8 & Hr & Hbuf & Hh & Hdst & Hsrc & Hout & Hbits) Hsize].
  rewrite bytes_of_bits_app by done. rewrite Hbits, Nat2Z.id.
  destruct rest as [|b rest].
  { cbn [length flush]. intros [= <-]. rewrite app_nil_r, Hbuf. split; [|by rewrite <- Hbuf].
    apply slice_middle; rewrite Hh; lia. }
  rewrite (bytes_of_bits_short (b :: rest)) by (cbn [length] in *; lia).
  cbn [length flush]. rewrite Hbits. destruct (Z.gtb_spec (len (b :: rest)) 0); [|cbn [length] in *; lia].
  unfold list_index. destruct (Z.ltb_spec (d_dst_ptr d) 0); [lia|].
  destruct (Z.leb_spec 0 (d_dst_ptr d)), (Z.ltb_spec (d_dst_ptr d) (len (d_bitmap d))); try done.
  cbn [andb mret result_ret mbind result_bind]. set (d1 := mk_decoder _ _ _ _ _). intros Hf.
  assert (d' = d1) as ->.
  { revert Hf. destruct (length rest); cbn [flush]; [by intros [= <-]|]. unfold d1 at 1. cbn [d_out_num_bits].
    destruct (Z.gtb_spec (len (b :: rest) - 8) 0); [lia|]. by intros [= <-]. }
  unfold d1. cbn [d_bitmap]. rewrite length_insert. split; [|done].
  pose proof Hsize as Hs. rewrite Hbuf, !length_app in Hs.
  rewrite Hout. pose proof (word_of_bits_bound (b :: rest)) as Hw.
  assert (2 ^ len (b :: rest) <= 2 ^ 8) by (apply Z.pow_le_mono_r; lia).
  change 0xFF with (Z.ones 8). rewrite Z.land_ones, Z.mod_small by lia.
  rewrite Hbuf, !(app_assoc header).
  replace (Z.to_nat (d_dst_ptr d)) with (length (header ++ bytes_of_bits full) + 0)%nat by (rewrite length_app; lia).
  rewrite insert_app_r. destruct (gap ++ unread) as [|g tail] eqn:Eg.
  { exfalso. apply (f_equal length) in Eg. rewrite length_app in Eg. cbn in Eg. rewrite Hbuf, !length_app in *. lia. }
  cbn [insert list_insert]. set (w := word_of_bits (b :: rest)).
  replace ((header ++ bytes_of_bits full) ++ w :: tail) with (header ++ (bytes_of_bits full ++ [w]) ++ tail)
    by (by rewrite <- !app_assoc).
  apply slice_middle; rewrite Hh; lia.
Qed.

Lemma pack_units_length units : (2 * length (pack_units (pad_units units)) = length (pad_units units))%nat.
Proof.
  induction units as [|u|u1 u2 units IH] using list_ind_2; [done..|].
  rewrite pad_units_cons. cbn [pack_units length]. lia.
Qed.

Lemma pad_units_length units : len (pad_units units) = len units + len units mod 2.
Proof.
  unfold pad_units. pose proof (Z.mod_pos_bound (len units) 2).
  destruct (Z.eqb_spec (len units mod 2) 1) as [E|E]; rewrite ?length_app; cbn [length]; lia.
Qed.

Lemma pad4_length l : len (pad4 l) = len l + - len l mod 4.
Proof.
  unfold pad4. rewrite length_app, length_replicate. pose proof (Z.mod_pos_bound (- len l) 4). lia.
Qed.

(** The bytes of a bitmap that is not empty, up to 255 units. *)
Lemma compressed_length units :
  units <> [] -> len units <= 255 -> 0 < len (pad4 (pack_units (pad_units units))) <= 128.
Proof.
  intros Hne Hle. assert (0 < length units)%nat by (destruct units; cbn; [done|lia]).
  rewrite pad4_length. pose proof (pack_units_length units). pose proof (pad_units_length units). dlia.
Qed.

(** The decoder starts with the glyph at the end of the buffer. *)
Lemma decoding_start glyph_packed :
  0 < len glyph_packed <= 251 ->
  decoding [] glyph_packed
    (mk_decoder (slice_to (- len glyph_packed) (replicate (Z.to_nat GLYPH_BUFFER_SIZE_BYTES) 0) ++ glyph_packed)
       (GLYPH_BUFFER_SIZE_BYTES - len glyph_packed) header_size 0 0).
Proof.
  intros Hl. unfold GLYPH_BUFFER_SIZE_BYTES, header_size. change (Z.to_nat 256) with 256%nat.
  assert (slice_to (- len glyph_packed) (replicate 256 0) = replicate (256 - length glyph_packed) 0) as ->.
  { unfold slice_to, slice, slice_index. rewrite length_replicate.
    destruct (Z.ltb_spec (- len glyph_packed) 0); [|lia]. change (0 <? 0) with false. cbv iota.
    rewrite drop_0, take_replicate. f_equal. lia. }
  split; cbn [d_bitmap d_src_ptr d_dst_ptr d_out d_out_num_bits].
  - exists (replicate 5 0), [], [], (replicate (251 - length glyph_packed) 0).
    rewrite !length_replicate. split; [done|]. split; [done|]. split; [cbn; lia|]. split.
    { change (bytes_of_bits []) with (@nil Z). rewrite app_nil_l, app_assoc, <- replicate_add.
      do 2 f_equal. lia. }
    change (len (bytes_of_bits [])) with 0. cbn [word_of_bits length]. repeat (split; [done || lia|]). done.
  - rewrite length_app, length_replicate. lia.
Qed.

(** When the check of a compressed bitmap passes, the buffer that the decoder leaves holds
    the bitmap behind the header, packed into bytes: decompressing in place never
    overwrote a byte that was still to be read. *)
Theorem decompress_in_place bitmap glyph_packed rle_units buffer :
  bitmap <> [] -> compress_glyph_RLE4 bitmap = (glyph_packed, rle_units) -> rle_units <= 255 ->
  decompress glyph_packed rle_units = inr buffer ->
  slice header_size (header_size + len (bytes_of_bits bitmap)) buffer = bytes_of_bits bitmap /\
  length buffer = 256%nat.
Proof.
  rewrite compress_eq. intros Hne [= <- <-] Hle. destruct (rle_unit_list_expand bitmap) as [E F].
  set (units := rle_unit_list bitmap) in *.
  assert (units <> []) as Hu by (intros Hu; by rewrite Hu in E).
  pose proof (compressed_length units Hu Hle) as Hl.
  unfold decompress. rewrite Nat2Z.id. pose proof (decoding_start (pad4 (pack_units (pad_units units))) ltac:(lia)) as Hd0.
  set (d0 := mk_decoder _ _ _ _ _) in *.
  destruct (decode_units (length units) d0) as [e|d1] eqn:E1; [done|]. cbn [mbind result_bind].
  destruct (decode_units_decoding _ _ _ _ _ F Hd0 E1) as [unread Hd1]. rewrite app_nil_l, E in Hd1.
  destruct (flush _ d1) as [e|d2] eqn:E2; [done|]. intros [= <-].
  by apply (flush_decoding _ _ _ _ Hd1 E2).
Qed.

(** ** Bitmaps that are not compressed *)

Lemma word_of_bits_32 l : (length l <= 32)%nat ->
  le_bytes 4 (word_of_bits l) =
  bytes_of_bits l ++ replicate (4 - length (bytes_of_bits l)) 0.
Proof.
  intros Hl. assert (forall n l, (length l <= 8 * n)%nat ->
    le_bytes n (word_of_bits l) = bytes_of_bits l ++ replicate (n - length (bytes_of_bits l)) 0) as H; [|by apply H].
  clear l Hl. induction n as [|n IH]; intros l Hl.
  { by destruct l; cbn in Hl; [|lia]. }
  destruct l as [|b l].
  { cbn [word_of_bits le_bytes]. change (0 mod 256) with 0. change (0 / 256) with (word_of_bits []).
    rewrite IH by (cbn; lia). cbn. by rewrite Nat.sub_0_r. }
  rewrite bytes_of_bits_step by done. cbn [le_bytes app length Nat.sub].
  pose proof (word_of_bits_bound (take 8 (b :: l))) as Hb.
  assert (word_of_bits (b :: l) = word_of_bits (take 8 (b :: l)) + 256 * word_of_bits (drop 8 (b :: l))
    /\ word_of_bits (take 8 (b :: l)) < 256) as [Hw Hlt].
  { destruct (le_lt_dec 8 (length (b :: l))) as [H8|H8].
    - rewrite <- (take_drop 8 (b :: l)) at 1. rewrite word_of_bits_app, length_take, Nat.min_l in * by done.
      split; [done|]. apply Hb.
    - rewrite (take_ge (b :: l)), (drop_ge (b :: l)) in * by lia. split; [cbn [word_of_bits]; lia|].
      assert (2 ^ len (b :: l) <= 2 ^ 8) by (apply Z.pow_le_mono_r; lia). lia. }
  set (lo := word_of_bits (take 8 (b :: l))) in *. set (hi := word_of_bits (drop 8 (b :: l))) in *.
  rewrite Hw. replace ((lo + 256 * hi) mod 256) with lo by dlia.
  replace ((lo + 256 * hi) / 256) with hi by dlia. f_equal. apply IH. rewrite length_drop. lia.
Qed.

Lemma pack_words_fuel f1 f2 l : (length l <= f1)%nat -> (length l <= f2)%nat -> pack_words f1 l = pack_words f2 l.
Proof.
  revert f2 l. induction f1 as [|f1 IH]; intros f2 l H1 H2.
  { destruct l; [by destruct f2|cbn in H1; lia]. }
  destruct l as [|b l]; [by destruct f2|]. destruct f2 as [|f2]; [cbn in H2; lia|].
  cbn [pack_words]. f_equal. apply IH; rewrite length_drop; cbn in *; lia.
Qed.

Lemma pack_bitmap_step l : l <> [] ->
  pack_bitmap l = le_bytes 4 (word_of_bits (take 32 l)) ++ pack_bitmap (drop 32 l).
Proof.
  destruct l as [|b l]; [done|]. intros _. unfold pack_bitmap at 1. cbn [length pack_words]. f_equal.
  apply pack_words_fuel; rewrite ?length_drop; cbn; lia.
Qed.

(** The words of a bitmap are its bytes, filled up to whole words. *)
Lemma pack_bitmap_bytes l : pack_bitmap l = pad4 (bytes_of_bits l).
Proof.
  remember (length l) as n eqn:Hn. revert l Hn. induction (lt_wf n) as [n _ IH]. intros l Hn.
  destruct l as [|b l]; [done|]. rewrite pack_bitmap_step by done.
  destruct (le_lt_dec (length (b :: l)) 32) as [Hs|Hs].
  - rewrite (take_ge (b :: l)), (drop_ge (b :: l)) by lia. change (pack_bitmap []) with (@nil Z).
    rewrite app_nil_r, word_of_bits_32 by done. unfold pad4. f_equal. f_equal.
    assert (0 < length (bytes_of_bits (b :: l)) <= 4)%nat; [|dlia].
    pose proof (word_of_bits_32 (b :: l) Hs) as H4. apply (f_equal length) in H4.
    rewrite length_le_bytes, length_app, length_replicate in H4.
    rewrite bytes_of_bits_step in * by done. cbn [length] in *. lia.
  - rewrite (IH (length (drop 32 (b :: l)))) by (rewrite ?length_drop; cbn [length] in *; lia).
    assert (bytes_of_bits (b :: l) = bytes_of_bits (take 32 (b :: l)) ++ bytes_of_bits (drop 32 (b :: l))) as ->.
    { rewrite <- bytes_of_bits_app, take_drop by (rewrite length_take, Nat.min_l by lia; done). done. }
    assert (length (take 32 (b :: l)) = 32)%nat as H32 by (rewrite length_take; lia).
    rewrite word_of_bits_32 by lia. pose proof (bytes_of_bits_length (take 32 (b :: l))) as H4.
    rewrite H32 in H4. specialize (H4 eq_refl).
    replace (4 - length (bytes_of_bits (take 32 (b :: l))))%nat with 0%nat by lia.
    unfold pad4. rewrite app_nil_r, <- app_assoc, length_app. do 3 f_equal. dlia.
Qed.

(** Pixel [i] is bit [i mod 8] of byte [i / 8]. *)
Lemma bytes_of_bits_pixel l i b :
  l !! i = Some b -> exists x, bytes_of_bits l !! (i / 8)%nat = Some x /\ Z.testbit x (Z.of_nat (i mod 8)) = b.
Proof.
  assert (forall (w : list bool) k b, w !! k = Some b -> Z.testbit (word_of_bits w) (Z.of_nat k) = b) as Hw.
  { clear. induction w as [|c w IH]; intros k b; [done|]. rewrite word_of_bits_cons, Z.add_comm. destruct k as [|k].
    - intros [= ->]. by rewrite Z.testbit_0_r.
    - intros H. rewrite Nat2Z.inj_succ, Z.testbit_succ_r by lia. by apply IH. }
  revert l. induction (lt_wf i) as [i _ IH]. intros l Hi.
  assert (l <> []) as Hne by (by intros ->). rewrite bytes_of_bits_step by done.
  destruct (le_lt_dec 8 i) as [H8|H8].
  - destruct (IH (i - 8)%nat ltac:(lia) (drop 8 l)) as (x & Hx & Hb).
    { rewrite lookup_drop. by replace (8 + (i - 8))%nat with i by lia. }
    exists x. replace i with (i - 8 + 1 * 8)%nat by lia. rewrite Nat.div_add, Nat.Div0.mod_add by lia.
    rewrite Nat.add_1_r. split; [exact Hx|exact Hb].
  - rewrite Nat.div_small, Nat.mod_small by lia. eexists. split; [done|]. apply Hw.
    by rewrite lookup_take_lt.
Qed.

(** ** Monochrome bitmaps of the rasteriser *)

Lemma bits_spec x : bits x = (fun k => Z.testbit x (7 - Z.of_nat k)) <$> seq 0 8.
Proof.
  assert (forall y, (Z.land y 1 =? 1) = Z.testbit y 0) as H1.
  { intros y. change 1 with (Z.ones 1) at 1. rewrite Z.land_ones, Z.bit0_odd by lia. change (2 ^ 1) with 2.
    rewrite Zmod_odd. by destruct (Z.odd y). }
  unfold bits. cbn [bits_from]. rewrite !H1, !Z.shiftr_spec by lia. cbn. done.
Qed.

Lemma mapM_lookup_seqZ {A} (l : list A) (s n : Z) :
  0 <= s -> 0 <= n -> s + n <= len l ->
  mapM (fun j => l !! Z.to_nat (s + j)) (seqZ 0 n) = Some (slice s (s + n) l).
Proof.
  intros Hs Hn Hl.
  destruct (mapM_seqZ (fun j => l !! Z.to_nat (s + j)) (fun i a => l !! (Z.to_nat s + i)%nat = Some a) (Z.to_nat n))
    as (r & Hr & Hlr & HP).
  { intros i Hi. destruct (lookup_lt_is_Some_2 l (Z.to_nat s + i)%nat) as [a Ha]; [lia|].
    exists a. split; [|done]. by replace (Z.to_nat (s + Z.of_nat i)) with (Z.to_nat s + i)%nat by lia. }
  rewrite Z2Nat.id in Hr by lia. rewrite Hr. f_equal. apply list_eq. intros i.
  destruct (lt_dec i (Z.to_nat n)) as [Hi|Hi].
  - destruct (lookup_lt_is_Some_2 r i) as [a Ha]; [lia|]. rewrite slice_lookup by lia.
    by rewrite Ha, (HP _ _ Ha).
  - rewrite !lookup_ge_None_2; [done| |lia].
    rewrite slice_in, length_take by lia. lia.
Qed.

Lemma concat_bits_lookup (l : list Z) (j : nat) x :
  l !! (j / 8)%nat = Some x -> concat (bits <$> l) !! j = Some (Z.testbit x (7 - Z.of_nat (j mod 8))).
Proof.
  revert j. induction l as [|y l IH]; intros j Hj; [done|]. cbn [fmap list_fmap concat].
  assert (length (bits y) = 8%nat) as H8 by done.
  destruct (le_lt_dec 8 j) as [Hge|Hlt].
  - rewrite lookup_app_r, H8 by lia. replace j with (j - 8 + 1 * 8)%nat in Hj by lia.
    rewrite Nat.div_add, Nat.add_1_r in Hj by lia. rewrite (IH _ Hj).
    replace (j mod 8)%nat with ((j - 8 + 1 * 8) mod 8)%nat by (f_equal; lia). by rewrite Nat.Div0.mod_add.
  - rewrite Nat.div_small in Hj by done. injection Hj as ->. rewrite lookup_app_l by lia.
    rewrite bits_spec, Nat.mod_small, list_lookup_fmap, lookup_seq_lt by done. done.
Qed.

Lemma concat_bits_length (l : list Z) : length (concat (bits <$> l)) = (8 * length l)%nat.
Proof. induction l as [|y l IH]; [done|]. cbn [fmap list_fmap concat]. rewrite length_app, IH. cbn. lia. Qed.

(** A monochrome bitmap whose buffer has all of its rows. *)
Record mono_ok (r : rendered) : Prop := {
  mono_mode : r_pixel_mode r = 1;
  mono_width : 0 <= r_width r <= 8 * r_pitch r;
  mono_rows_nonneg : 0 <= r_rows r;
  mono_buffer : r_rows r * r_pitch r <= len (r_buffer r);
}.

Lemma mono_row_ok r i : mono_ok r -> 0 <= i < r_rows r ->
  exists row, mono_row r i = inr row /\ len row = r_width r /\
    forall j x, Z.of_nat j < r_width r -> r_buffer r !! Z.to_nat (i * r_pitch r + Z.of_nat j / 8) = Some x ->
      row !! j = Some (Z.testbit x (7 - Z.of_nat j mod 8)).
Proof.
  intros [Hm Hw Hr Hb] Hi. unfold mono_row. assert (0 <= r_pitch r) by lia.
  assert (0 <= i * r_pitch r /\ i * r_pitch r + r_pitch r <= len (r_buffer r)) as [H1 H2] by nia.
  rewrite mapM_lookup_seqZ by done. cbn [of_option mbind result_bind mret result_ret].
  set (bytes := slice _ _ _). assert (len bytes = r_pitch r) as Hlb by (unfold bytes; rewrite length_slice; lia).
  eexists. split; [done|]. rewrite slice_to_take by lia. split.
  { rewrite length_take, concat_bits_length. lia. }
  intros j x Hj Hx. rewrite lookup_take_lt by lia.
  replace (7 - Z.of_nat j mod 8) with (7 - Z.of_nat (j mod 8)) by (rewrite Nat2Z.inj_mod; done).
  apply concat_bits_lookup. unfold bytes. rewrite slice_lookup by (try lia; rewrite Nat2Z.inj_div; dlia).
  rewrite <- Hx. f_equal. rewrite <- (Nat2Z.id (j / 8)), Nat2Z.inj_div. change (Z.of_nat 8) with 8.
  assert (0 <= Z.of_nat j / 8) by (apply Z.div_pos; lia). lia.
Qed.

(** The rows from [s] on. *)
Lemma mono_rows_ok r (n : nat) s : mono_ok r -> 0 <= s -> s + Z.of_nat n <= r_rows r ->
  exists bm, mono_rows r (seqZ s (Z.of_nat n)) = inr bm /\ len bm = Z.of_nat n * r_width r /\
  forall i j x, s <= i < s + Z.of_nat n -> 0 <= j < r_width r ->
    r_buffer r !! Z.to_nat (i * r_pitch r + j / 8) = Some x ->
    bm !! Z.to_nat ((i - s) * r_width r + j) = Some (Z.testbit x (7 - j mod 8)).
Proof.
  intros Hok. revert s. induction n as [|n IH]; intros s Hs Hsn.
  { exists []. split; [done|]. split; [done|]. intros; lia. }
  destruct (mono_row_ok r s Hok ltac:(lia)) as (row & Hrow & Hlrow & Hpix).
  destruct (IH (s + 1) ltac:(lia) ltac:(lia)) as (bm & Hbm & Hlbm & Hpix').
  exists (row ++ bm). rewrite Nat2Z.inj_succ, seqZ_cons, Z.pred_succ by lia. cbn [mono_rows].
  rewrite Hrow. cbn [mbind result_bind]. change (Z.succ s) with (s + 1). rewrite Hbm. cbn [mbind result_bind mret result_ret].
  split; [done|]. rewrite length_app. split; [lia|]. intros i j x Hi Hj Hx.
  pose proof (mono_width _ Hok). destruct (decide (i = s)) as [->|].
  - rewrite Z.sub_diag, Z.mul_0_l, Z.add_0_l. rewrite lookup_app_l by lia.
    rewrite <- (Z2Nat.id j) at 2 by lia. apply Hpix; [lia|]. by rewrite Z2Nat.id by lia.
  - rewrite lookup_app_r by nia. replace (Z.to_nat ((i - s) * r_width r + j) - length row)%nat with
      (Z.to_nat ((i - (s + 1)) * r_width r + j)) by nia. apply Hpix'; [lia|done|done].
Qed.

(** Pixel [(j, i)] of a monochrome bitmap is a bit of byte [j / 8] of row [i], the most
    significant one first; the bits that pad a row are left out. *)
Theorem glyph_bitmap_mono threshold r :
  mono_ok r -> exists bm, glyph_bitmap threshold r = inr bm /\ len bm = r_rows r * r_width r /\
    forall i j x, 0 <= i < r_rows r -> 0 <= j < r_width r ->
      r_buffer r !! Z.to_nat (i * r_pitch r + j / 8) = Some x ->
      bm !! Z.to_nat (i * r_width r + j) = Some (Z.testbit x (7 - j mod 8)).
Proof.
  intros Hok. unfold glyph_bitmap. rewrite (mono_mode _ Hok). cbn [Z.eqb Pos.eqb].
  pose proof (mono_rows_nonneg _ Hok).
  destruct (mono_rows_ok r (Z.to_nat (r_rows r)) 0 Hok ltac:(lia) ltac:(lia)) as (bm & Hbm & Hlen & Hpix).
  rewrite !Z2Nat.id in * by lia. exists bm. split; [done|]. split; [done|]. intros i j x Hi Hj Hx.
  rewrite <- (Z.sub_0_r i) at 1. apply Hpix; [lia|done|done].
Qed.

(** ** Witnesses *)

(** Two rows of five pixels, in three runs. *)
Theorem decompress_in_place_witness :
  let bitmap := [true; true; true; false; false; false; false; true; true; true] in
  let '(glyph_packed, rle_units) := compress_glyph_RLE4 bitmap in
  exists buffer, decompress glyph_packed rle_units = inr buffer /\
    slice header_size (header_size + 2) buffer = [0x87; 0x03] /\ length buffer = 256%nat.
Proof.
  intros bitmap. destruct (compress_glyph_RLE4 bitmap) as [glyph_packed rle_units] eqn:E.
  destruct (decompress glyph_packed rle_units) as [e|buffer] eqn:D.
  { exfalso. revert D. injection E as <- <-. by vm_compute. }
  exists buffer. split; [done|].
  apply (decompress_in_place bitmap glyph_packed rle_units buffer); [done|done| |done].
  injection E as _ <-. by vm_compute.
Defined.

(** Two rows of ten pixels, each in two bytes. *)
Theorem glyph_bitmap_mono_witness :
  let r := mk_rendered 10 2 2 [0xF0; 0x40; 0x0F; 0x80] 1 0 0 0 in
  exists bm, glyph_bitmap 0 r = inr bm /\ len bm = 20 /\ bm !! 9%nat = Some true.
Proof.
  intros r. destruct (glyph_bitmap_mono 0 r) as (bm & Hbm & Hlen & Hpix).
  { constructor; vm_compute; by split || done. }
  exists bm. split; [done|]. split; [done|]. by apply (Hpix 0 9 0x40).
Defined.
