(* ===== verification/Bundle.v ===== *)
(** * Resource packs and the version tag of a firmware (generator.py)

    [pack_resources] writes a resource pack: a header, a table with a fixed number of
    entries, and the resources, where equal ones are stored once.  [unpack_resources]
    reads one.  [tag_version] marks the version string of a patched firmware.  A file is
    its bytes, an exception is [None]; the file system is a parameter. *)

From stdpp Require Import gmap sorting strings pretty.
From S2P Require Import Prelude Bytes Crc.

Definition MAX_RESOURCES : Z := 512.
Definition OFFSET_TABLE_OFFSET : Z := 0xC.

(** ** Writing *)

Section Pack.
(** The contents of a file. *)
Variable read_file : string -> list Z.

(** A path that is [None] or empty stands for an empty resource. *)
Definition resource_content (path : option string) : list Z :=
  match path with
  | Some p => if decide (p = EmptyString) then [] else read_file p
  | None => []
  end.

Record packer := mk_packer {
  data_offset_map : gmap (list Z) Z;
  resource_table : list Z;
  resource_data : list Z;
}.

(** One iteration of the loop over the resources. *)
Definition pack_resource (st : packer) (item : Z * option string) : option packer :=
  let data := resource_content item.2 in
  let '(offset, st) :=
    match data_offset_map st !! data with
    | Some offset => (offset, st)
    | None =>
        let offset := len (resource_data st) in
        (offset, mk_packer (<[data := offset]> (data_offset_map st)) (resource_table st)
                   (resource_data st ++ data))
    end in
  entry ← pack_us [(4%nat, item.1); (4%nat, offset); (4%nat, len data); (4%nat, crc32 data)];
  Some (mk_packer (data_offset_map st) (resource_table st ++ entry) (resource_data st)).

Fixpoint pack_items (st : packer) (items : list (Z * option string)) : option packer :=
  match items with
  | [] => Some st
  | item :: items => st ← pack_resource st item; pack_items st items
  end.

(** [sorted(list(resmap.items()), key=lambda x: x[0])] *)
Definition sorted_items (resmap : gmap Z (option string)) : list (Z * option string) :=
  merge_sort (fun a b => Is_true (a.1 <=? b.1)) (map_to_list resmap).

(** The file that is written. *)
Definition pack_resources (resmap : gmap Z (option string)) (max_resources : Z) : option (list Z) :=
  let resources := sorted_items resmap in
  st ← pack_items (mk_packer ∅ [] []) resources;
  let table := resource_table st ++
    concat (replicate (Z.to_nat (max_resources - len resources)) (replicate 16 0)) in
  if len table =? max_resources * 16 then
    pack_header ← pack_us [(4%nat, len resources); (4%nat, crc32 (resource_data st)); (4%nat, 0)];
    Some (pack_header ++ table ++ resource_data st)
  else None.
End Pack.

(** ** Reading *)

(** The fields of entry [i] of the table; the checksum is not read further. *)
Definition read_entry (pbpack : list Z) (i : Z) : option (Z * Z * Z) :=
  let at_ := OFFSET_TABLE_OFFSET + 16 * i in
  fields ← unpack_us [4%nat; 4%nat; 4%nat; 4%nat] (slice at_ (at_ + 16) pbpack);
  match fields with
  | [resid; offset; size_; crc] => Some (resid, offset, size_)
  | _ => None
  end.

(** The files that are written, by the number of the resource. *)
Definition unpack_resources (pbpack : list Z) : option (list (Z * list Z)) :=
  header ← unpack_us [4%nat] (slice 0 4 pbpack);
  match header with
  | [n_resources] =>
      resources ← mapM (read_entry pbpack) (seqZ 0 n_resources);
      let res_base := OFFSET_TABLE_OFFSET + MAX_RESOURCES * 16 in
      Some ((fun r : Z * Z * Z =>
               (r.1.1, slice (res_base + r.1.2) (res_base + r.1.2 + r.2) pbpack)) <$> resources)
  | _ => None
  end.

(** ** The version tag *)

(** [fw_ver + b"-RTL-r%d" % rev_no] *)
Definition new_ver_string (fw_ver : list Z) (rev_no : Z) : list Z :=
  fw_ver ++ ascii_bytes "-RTL-r" ++ ascii_bytes (pretty rev_no).

Definition tag_version (fw_ver : list Z) (rev_no : Z) (fw_bin : list Z) : option (list Z) :=
  ver_string_loc ← index fw_ver fw_bin;
  let new_ver := new_ver_string fw_ver rev_no in
  Some (slice_to ver_string_loc fw_bin ++ new_ver
          ++ slice_from (ver_string_loc + len new_ver) fw_bin).

(** The firmware of the bundle and what the manifest says about it. *)
Record firmware_entry := mk_firmware_entry {
  fw_bin : list Z;
  fw_size : Z;
  fw_crc : Z;
}.

Definition pack_firmware (fw_ver : list Z) (rev_no : Z) (bin : list Z) : option firmware_entry :=
  bin ← tag_version fw_ver rev_no bin;
  Some (mk_firmware_entry bin (len bin) (crc32 bin)).
