(* ===== verification/BundleProps.v ===== *)
(** * Resource packs and version tags: theorems

    A pack has the layout of its format for every number of table entries, stores equal
    resources once, and is read back by [unpack_resources]; the version tag overwrites
    the first version string and the bytes behind it, and nothing else. *)

From stdpp Require Import gmap sorting strings pretty.
From S2P Require Import Prelude Bytes Crc Bundle.

(** A checksum always fits its field. *)
Lemma crc32_word data : 0 <= crc32 data < 2 ^ 32.
Proof.
  unfold crc32. rewrite process_buffer_words. generalize (buffer_words data). intros ws.
  destruct ws as [|w ws _] using rev_ind; [simpl; lia|].
  rewrite fold_left_app, fold_left_cons. cbn [fold_left]. apply crc_word_range.
Qed.

Section Pack.
Variable read_file : string -> list Z.
Abbreviation content := (resource_content read_file).

(** ** The table and the data *)

(** The bytes of the table entry of a resource. *)
Definition entry_ok (data : list Z) (item : Z * option string) (entry : list Z) : Prop :=
  exists offset,
    pack_us [(4%nat, item.1); (4%nat, offset); (4%nat, len (content item.2));
             (4%nat, crc32 (content item.2))] = Some entry /\
    0 <= offset /\ offset + len (content item.2) <= len data /\
    slice offset (offset + len (content item.2)) data = content item.2.

(** The resources that are stored, in the order of their first appearance. *)
Definition add_new (stored : list (list Z)) (d : list Z) : list (list Z) :=
  if decide (d ∈ stored) then stored else stored ++ [d].
Definition distinct (l : list (list Z)) : list (list Z) := fold_left add_new l [].

(** The distinct contents of resources. *)
Definition contents (items : list (Z * option string)) : list (list Z) :=
  distinct ((fun i => content i.2) <$> items).

Lemma contents_app items item : contents (items ++ [item]) = add_new (contents items) (content item.2).
Proof. unfold contents, distinct. by rewrite fmap_app, fold_left_app. Qed.

(** The invariant of the loop after the resources [items]. *)
Record packed (items : list (Z * option string)) (st : packer) : Prop := {
  packed_entries : exists entries,
    resource_table st = concat entries /\ Forall2 (entry_ok (resource_data st)) items entries;
  packed_offsets : forall d o, data_offset_map st !! d = Some o ->
    0 <= o /\ o + len d <= len (resource_data st) /\ slice o (o + len d) (resource_data st) = d;
  packed_stored : forall d, is_Some (data_offset_map st !! d) <-> d ∈ contents items;
  packed_data : resource_data st = concat (contents items);
}.

Lemma packer_start : packed [] (mk_packer ∅ [] []).
Proof.
  split; cbn; [by exists []|done| |done].
  intros d. rewrite lookup_empty. split; [by intros []|by intros ?%elem_of_nil].
Qed.

Lemma entry_ok_app data more item entry :
  entry_ok data item entry -> entry_ok (data ++ more) item entry.
Proof.
  intros (o & Hp & Ho & Hl & Hs). exists o. rewrite length_app, slice_app_l by lia. naive_solver lia.
Qed.

Lemma packed_step items st item st' :
  packed items st -> pack_resource read_file st item = Some st' -> packed (items ++ [item]) st'.
Proof.
  intros [(es & Ht & Hes) Hoff Hst Hdata]. unfold pack_resource.
  set (d := content item.2). destruct (data_offset_map st !! d) as [o|] eqn:E.
  - intros (entry & Hp & [= <-])%bind_Some. destruct (Hoff _ _ E) as (? & ? & ?).
    assert (d ∈ contents items) as Hin by (apply Hst; by exists o).
    split; cbn -[pack_us]; rewrite ?contents_app; unfold add_new;
      fold d; rewrite ?decide_True by done; [|done..].
    exists (es ++ [entry]). rewrite concat_app, Ht. cbn. rewrite app_nil_r. split; [done|].
    apply Forall2_app; [done|]. constructor; [|done]. by exists o.
  - intros (entry & Hp & [= <-])%bind_Some. cbn -[pack_us] in *.
    assert (d ∉ contents items) as Hnin.
    { intros [? Hin]%Hst. congruence. }
    split; cbn -[pack_us]; rewrite ?contents_app; unfold add_new;
      fold d; rewrite ?decide_False by done.
    + exists (es ++ [entry]). rewrite concat_app, Ht. cbn. rewrite app_nil_r. split; [done|].
      apply Forall2_app; [eapply Forall2_impl; [done|]; intros; by apply entry_ok_app|].
      constructor; [|done]. exists (len (resource_data st)). fold d. rewrite length_app.
      split; [done|]. split; [lia|]. split; [lia|].
      rewrite <- (app_nil_r (_ ++ d)), <- app_assoc. apply slice_middle; lia.
    + intros d' o [[<- <-]|[? Hd]]%lookup_insert_Some; rewrite length_app.
      * split; [lia|]. split; [lia|].
        rewrite <- (app_nil_r (_ ++ d)), <- app_assoc. apply slice_middle; lia.
      * destruct (Hoff _ _ Hd) as (? & ? & ?). rewrite slice_app_l by lia. split; [lia|]. split; [lia|done].
    + intros d'. rewrite elem_of_app, list_elem_of_singleton, <- Hst.
      destruct (decide (d = d')) as [->|]; [rewrite lookup_insert_eq; split; eauto|].
      rewrite lookup_insert_ne by done. split; [by left|by intros [|<-]].
    + rewrite Hdata, concat_app. cbn. by rewrite app_nil_r.
Qed.

Lemma packed_items items0 items st st' :
  packed items0 st -> pack_items read_file st items = Some st' -> packed (items0 ++ items) st'.
Proof.
  revert items0 st. induction items as [|item items IH]; intros items0 st H; cbn [pack_items].
  { intros [= <-]. by rewrite app_nil_r. }
  intros (st1 & H1 & H2)%bind_Some. rewrite (app_assoc _ [item] items : _ ++ item :: items = _).
  eapply IH; [|done]. by eapply packed_step.
Qed.

Lemma pack_items_app items1 items2 st :
  pack_items read_file st (items1 ++ items2) = st ← pack_items read_file st items1; pack_items read_file st items2.
Proof.
  revert st. induction items1 as [|item items1 IH]; intros st; [done|]. cbn [app pack_items].
  destruct (pack_resource read_file st item); [apply IH|done].
Qed.

(** ** The layout of a pack *)

Lemma entry_ok_length data item entry : entry_ok data item entry -> length entry = 16%nat.
Proof. intros (o & H & _). by rewrite (pack_us_length _ _ H). Qed.

Lemma concat_length_16 (entries : list (list Z)) :
  Forall (fun e => length e = 16%nat) entries -> length (concat entries) = (16 * length entries)%nat.
Proof. induction 1 as [|e es He Hes IH]; [done|]. cbn. rewrite length_app, He, IH. lia. Qed.

Lemma entries_length data items entries :
  Forall2 (entry_ok data) items entries ->
  Forall (fun e => length e = 16%nat) entries /\ length entries = length items.
Proof.
  induction 1 as [|item e items es He Hes [IH1 IH2]]; [done|]. cbn. rewrite IH2. split; [|done].
  constructor; [by eapply entry_ok_length|done].
Qed.

(** A pack is a header with the number of resources and the checksum of the data, the
    entries in the order of the resources' numbers, zeros up to [max_resources] entries,
    and the data, which is the distinct resources one behind the other; every entry has
    the number, size and checksum of its resource and says where in the data it is. *)
Theorem pack_resources_layout resmap max_resources f :
  pack_resources read_file resmap max_resources = Some f ->
  let items := sorted_items resmap in
  exists header entries,
    let data := concat (contents items) in
    f = header ++ concat entries
          ++ replicate (16 * (Z.to_nat max_resources - length items)) 0 ++ data /\
    pack_us [(4%nat, len items); (4%nat, crc32 data); (4%nat, 0)] = Some header /\
    Forall2 (entry_ok data) items entries /\ len items <= max_resources.
Proof.
  unfold pack_resources. intros (st & Hst & H)%bind_Some. cbv zeta.
  set (items := sorted_items resmap) in *.
  pose proof (packed_items [] items _ _ packer_start Hst) as [(es & Ht & Hes) _ _ Hdata].
  rewrite app_nil_l in *. destruct (entries_length _ _ _ Hes) as [H16 Hlen].
  assert (forall n, concat (replicate n (replicate 16 0)) = replicate (16 * n) 0) as Hz.
  { induction n as [|n IH]; [done|]. rewrite replicate_S. cbn [concat].
    rewrite IH, <- replicate_add. f_equal. lia. }
  rewrite Ht, Hz, length_app, length_replicate, concat_length_16 in H by done.
  destruct (Z.eqb_spec (Z.of_nat (16 * length es + 16 * Z.to_nat (max_resources - len items)))
    (max_resources * 16)) as [Hm|]; [|done].
  apply bind_Some in H as (header & Hh & [= <-]). exists header, es.
  rewrite <- Hdata. split; [|split; [done|split; [done|lia]]].
  rewrite <- app_assoc. repeat f_equal. lia.
Qed.

(** ** Reading a pack *)

(** The entry of number [i] in a file whose table starts with [entries]. *)
Lemma read_entry_at header (entries : list (list Z)) rest i data item e :
  length header = 12%nat -> Forall (fun e => length e = 16%nat) entries ->
  entries !! i = Some e -> entry_ok data item e ->
  exists offset, read_entry (header ++ concat entries ++ rest) (Z.of_nat i)
      = Some (item.1, offset, len (content item.2)) /\
    0 <= offset /\ offset + len (content item.2) <= len data /\
    slice offset (offset + len (content item.2)) data = content item.2.
Proof.
  intros Hh H16 Hi (o & Hp & Ho). exists o. split; [|done].
  assert (slice (12 + 16 * Z.of_nat i) (12 + 16 * Z.of_nat i + 16) (header ++ concat entries ++ rest) = e) as Hs.
  { rewrite <- (take_drop_middle _ _ _ Hi), concat_app. cbn [concat].
    rewrite <- !app_assoc, (app_assoc header). pose proof (pack_us_length _ _ Hp) as He. cbn in He.
    pose proof (lookup_lt_Some _ _ _ Hi).
    assert (length (concat (take i entries)) = 16 * i)%nat as Ht.
    { rewrite concat_length_16, length_take by (by apply Forall_take). lia. }
    apply slice_middle; rewrite ?length_app, Ht; lia. }
  unfold read_entry, OFFSET_TABLE_OFFSET. cbv zeta. rewrite Hs.
  pose proof (unpack_pack_us _ _ Hp) as Hu. cbn [fmap list_fmap fst snd] in Hu. by rewrite Hu.
Qed.

(** C18: The pack that [pack_resources] writes is read back: [unpack_resources] writes the
    files of the resources in the order of their numbers, with their contents. *)
Theorem unpack_pack_resources resmap f :
  pack_resources read_file resmap MAX_RESOURCES = Some f ->
  unpack_resources f = Some ((fun item => (item.1, content item.2)) <$> sorted_items resmap).
Proof.
  intros H. destruct (pack_resources_layout _ _ _ H) as (header & es & -> & Hh & Hes & Hmax).
  set (items := sorted_items resmap) in *. set (data := concat (contents items)) in *.
  destruct (entries_length _ _ _ Hes) as [H16 Hlen]. pose proof (pack_us_length _ _ Hh) as Hl.
  cbn in Hl. set (rest := replicate _ 0 ++ data). set (f := header ++ concat es ++ rest).
  assert (unpack_us [4%nat] (slice 0 4 f) = Some [len items]) as Hn.
  { cbn [pack_us] in Hh. apply bind_Some in Hh as (b & Hb & (b2 & _ & [= E])%bind_Some).
    pose proof (proj2 (proj1 (pack_u_Some _ _ _) Hb)) as Hb'. unfold f. rewrite <- E, <- app_assoc.
    match goal with |- context [b ++ ?r] => set (r' := r) end.
    pose proof (slice_middle 0 4 [] b r' eq_refl ltac:(by rewrite Hb')) as Hs.
    rewrite app_nil_l in Hs. rewrite Hs.
    apply (unpack_pack_us [(4%nat, len items)]). cbn [pack_us]. rewrite Hb. cbn. by rewrite app_nil_r. }
  destruct (mapM_seqZ (read_entry f) (fun i r => exists item, items !! i = Some item /\
    r.1.1 = item.1 /\ 0 <= r.1.2 /\ 0 <= r.2 /\ r.1.2 + r.2 <= len data /\
    slice r.1.2 (r.1.2 + r.2) data = content item.2) (length items)) as (rs & Hrs & Hlrs & HP).
  { intros i Hi. destruct (lookup_lt_is_Some_2 items i Hi) as [item Hitem].
    destruct (Forall2_lookup_l _ _ _ _ _ Hes Hitem) as (e & He & Hok).
    destruct (read_entry_at header es rest i data item e Hl H16 He Hok) as (o & Hr & ? & ? & ?).
    exists (item.1, o, len (content item.2)). split; [exact Hr|]. exists item. cbn. naive_solver lia. }
  unfold unpack_resources. rewrite Hn. cbn [mbind option_bind]. rewrite Hrs. cbn [mbind option_bind].
  f_equal. apply list_eq. intros i. rewrite !list_lookup_fmap.
  destruct (rs !! i) as [[[resid o] sz]|] eqn:Ei; cbn [fmap option_fmap option_map].
  - destruct (HP _ _ Ei) as (item & -> & Hk & Ho & Hsz & Hle & Hs). cbn [fst snd] in *.
    cbn [fmap option_fmap option_map]. rewrite Hk, <- Hs. do 2 f_equal.
    assert (len (header ++ concat es ++ replicate (16 * (Z.to_nat MAX_RESOURCES - length items)) 0)
      = OFFSET_TABLE_OFFSET + MAX_RESOURCES * 16) as Hbase.
    { rewrite !length_app, concat_length_16, length_replicate by done.
      unfold OFFSET_TABLE_OFFSET, MAX_RESOURCES in *. lia. }
    unfold f, rest. rewrite (app_assoc (concat es)), (app_assoc header), slice_app_r by lia.
    f_equal; lia.
  - apply lookup_ge_None in Ei. by rewrite (lookup_ge_None_2 items) by lia.
Qed.

(** ** Errors *)

(** The bytes of all resources, counted as often as they occur. *)
Definition total_size (items : list (Z * option string)) : Z :=
  foldr (fun i n => len (content i.2) + n) 0 items.

Lemma total_size_cons item items : total_size (item :: items) = len (content item.2) + total_size items.
Proof. done. Qed.

Lemma total_size_nonneg items : 0 <= total_size items.
Proof. induction items as [|item items IH]; [done|]. rewrite total_size_cons. lia. Qed.

Lemma pack_u4 v : 0 <= v < 2 ^ 32 -> pack_u 4 v = Some (le_bytes 4 v).
Proof. intros. by apply pack_u_Some. Qed.

Lemma pack_resource_total st items0 item :
  packed items0 st -> 0 <= item.1 < 2 ^ 32 ->
  len (resource_data st) + len (content item.2) < 2 ^ 32 ->
  exists st', pack_resource read_file st item = Some st' /\
    len (resource_data st') <= len (resource_data st) + len (content item.2).
Proof.
  intros [_ Hoff _ _] Hk Hl. unfold pack_resource. pose proof (crc32_word (content item.2)).
  destruct (data_offset_map st !! content item.2) as [o|] eqn:E; cbn [pack_us].
  - destruct (Hoff _ _ E) as (? & ? & _). rewrite !pack_u4 by lia. cbn. eexists. split; [done|].
    cbn. lia.
  - rewrite !pack_u4 by lia. cbn. eexists. split; [done|]. cbn. rewrite length_app. lia.
Qed.

Lemma pack_items_total items st items0 :
  packed items0 st -> Forall (fun i => 0 <= i.1 < 2 ^ 32) items ->
  len (resource_data st) + total_size items < 2 ^ 32 -> is_Some (pack_items read_file st items).
Proof.
  intros Hp HF. revert st items0 Hp. induction HF as [|item items Hk HF IH]; intros st items0 Hp Hl; [by eexists|].
  cbn [pack_items]. pose proof (total_size_nonneg items) as Hn. rewrite total_size_cons in Hl.
  destruct (pack_resource_total st items0 item Hp Hk) as (st' & E & Hle); [lia|].
  rewrite E. cbn [mbind option_bind]. apply (IH _ (items0 ++ [item])); [by eapply packed_step|lia].
Qed.

(** C35: With numbers and sizes that fit their fields, packing fails exactly when there are
    more resources than entries of the table: the assertion of the script. *)
Theorem pack_resources_error resmap max_resources :
  (forall k, k ∈ dom resmap -> 0 <= k < 2 ^ 32) ->
  total_size (sorted_items resmap) < 2 ^ 32 -> max_resources < 2 ^ 32 ->
  pack_resources read_file resmap max_resources = None <-> max_resources < Z.of_nat (size resmap).
Proof.
  intros Hk Hs Hm. assert (length (sorted_items resmap) = size resmap) as Hlen.
  { unfold sorted_items. by rewrite (merge_sort_Permutation _ _), length_map_to_list. }
  split.
  - intros Hnone. apply Z.nle_gt. intros Hle. revert Hnone. unfold pack_resources.
    destruct (pack_items_total (sorted_items resmap) _ [] packer_start) as [st Hst]; [|done|].
    { apply Forall_forall. intros [k p]. unfold sorted_items. rewrite (merge_sort_Permutation _ _).
      intros Hin%elem_of_map_to_list. apply Hk, elem_of_dom. by exists p. }
    rewrite Hst. cbn [mbind option_bind].
    pose proof (packed_items [] _ _ _ packer_start Hst) as [(es & Ht & Hes) _ _ _].
    destruct (entries_length _ _ _ Hes) as [H16 Hl]. rewrite app_nil_l in Hl.
    rewrite Ht, length_app, concat_length_16, (concat_length_16 (replicate _ _)), length_replicate
      by (done || by apply Forall_replicate).
    destruct (Z.eqb_spec (Z.of_nat (16 * length es + 16 * Z.to_nat (max_resources - len (sorted_items resmap))))
      (max_resources * 16)); [|lia].
    pose proof (crc32_word (resource_data st)). cbn [pack_us].
    by rewrite !pack_u4 by lia.
  - intros Hlt. destruct (pack_resources _ _ _) as [f|] eqn:E; [|done].
    destruct (pack_resources_layout _ _ _ E) as (? & ? & _ & _ & _ & Hle). lia.
Qed.
End Pack.

(** ** The version tag *)

(** [tag_version] writes the tagged version over the first version string of the firmware
    and as many bytes behind it as the tag has, whatever they are; all other bytes and,
    when that many bytes follow, the size stay as they are.  A firmware without the
    version string is an error. *)
Theorem tag_version_spec fw_ver rev_no bin :
  match tag_version fw_ver rev_no bin with
  | Some bin' =>
      exists pre post, let tagged := new_ver_string fw_ver rev_no in
        bin = pre ++ fw_ver ++ post /\
        (forall j, 0 <= j < len pre -> ~ occurs_at fw_ver bin j) /\
        bin' = pre ++ tagged ++ drop (length tagged - length fw_ver) post /\
        ((length tagged <= length fw_ver + length post)%nat -> length bin' = length bin)
  | None => forall i, ~ occurs_at fw_ver bin i
  end.
Proof.
  unfold tag_version. destruct (index fw_ver bin) as [i|] eqn:E; cbn [mbind option_bind].
  2: by apply index_None.
  apply index_Some in E as (Hi & (pre & post & -> & <-) & Hno).
  set (tagged := new_ver_string fw_ver rev_no). exists pre, post. cbv zeta.
  rewrite slice_to_take, slice_from_drop, Nat2Z.id by lia.
  assert (length fw_ver <= length tagged)%nat as Hl.
  { unfold tagged, new_ver_string. rewrite length_app. lia. }
  replace (Z.to_nat (len pre + len tagged)) with
    (length pre + (length fw_ver + (length tagged - length fw_ver)))%nat by lia.
  rewrite take_app_length, !drop_app_add. split; [done|]. split; [done|]. split; [done|].
  intros. rewrite !length_app, length_drop. lia.
Qed.

(** ** Examples *)

Definition example_files (p : string) : list Z := ascii_bytes p.
Definition example_resmap : gmap Z (option string) :=
  {[ 1 := Some "abc"%string; 2 := None; 5 := Some "hello"%string; 7 := Some "abc"%string ]}.

Lemma unpack_pack_resources_witness :
  exists f, pack_resources example_files example_resmap MAX_RESOURCES = Some f /\
    unpack_resources f = Some [(1, [97; 98; 99]); (2, []); (5, [104; 101; 108; 108; 111]); (7, [97; 98; 99])].
Proof.
  destruct (pack_resources example_files example_resmap MAX_RESOURCES) as [f|] eqn:E.
  - exists f. split; [reflexivity|]. rewrite (unpack_pack_resources _ _ _ E). vm_compute. reflexivity.
  - exfalso. vm_compute in E. discriminate E.
Defined.

Lemma pack_resources_layout_witness :
  exists f header entries, pack_resources example_files example_resmap 256 = Some f /\
    f = header ++ concat entries ++ replicate (16 * 252) 0 ++ [97; 98; 99; 104; 101; 108; 108; 111] /\
    length header = 12%nat /\ length entries = 4%nat.
Proof.
  destruct (pack_resources example_files example_resmap 256) as [f|] eqn:E.
  - destruct (pack_resources_layout _ _ _ _ E) as (header & entries & Hf & Hh & He & _).
    exists f, header, entries. split; [reflexivity|]. split; [exact Hf|].
    split; [exact (pack_us_length _ _ Hh)|]. exact (proj2 (entries_length _ _ _ _ He)).
  - exfalso. vm_compute in E. discriminate E.
Defined.

Lemma pack_resources_error_witness :
  pack_resources example_files example_resmap 3 = None.
Proof.
  apply pack_resources_error; [|vm_compute; reflexivity|lia|vm_compute; reflexivity].
  unfold example_resmap. intros k. rewrite !dom_insert_L, dom_singleton_L.
  rewrite !elem_of_union, !elem_of_singleton. lia.
Defined.

Example tag_version_example :
  tag_version (ascii_bytes "v3.8"%string) 12 (ascii_bytes "..v3.8..........v3.8"%string)
  = Some (ascii_bytes "..v3.8-RTL-r12..v3.8"%string).
Proof. vm_compute. reflexivity. Qed.

(** At the end of a firmware there is no room, and the firmware grows. *)
Example tag_version_at_end :
  tag_version (ascii_bytes "v3.8"%string) 12 (ascii_bytes "..v3.8"%string)
  = Some (ascii_bytes "..v3.8-RTL-r12"%string).
Proof. vm_compute. reflexivity. Qed.
