(* ===== verification/Pfo.v ===== *)
(** * Font files (fonts/pfo_merge.py)

    A font file has a header, a directory of 255 hash bins, for every bin the chain of its
    code points with the offsets of their glyphs, and the glyphs.  [font_read] and
    [font_write] read and write one, [merge_fonts] puts the glyphs of two fonts together.
    An exception is [None].

    A Python dictionary is a finite map; the order in which its items come is a parameter
    [items].  The list of code points of a glyph is shared between references to it:
    where that matters, in [merge_fonts], glyphs are in a heap. *)

From stdpp Require Import gmap.
From S2P Require Import Prelude Bytes Loops.

Record Glyph := mk_Glyph { codepoints : list Z; data : list Z }.

Record Font := mk_Font {
  max_height : Z;
  wildcard : Z;
  compressed : bool;
  glyphs : gmap Z Glyph;
}.

#[export] Instance Glyph_eq_dec : EqDecision Glyph.
Proof. solve_decision. Defined.

Definition HASHTABLE_DIRECTORY_SIZE : Z := 255.
Definition HASHTABLE_DIRECTORY_ITEM_SIZE : Z := 4.
Definition OFFSET_TABLE_MAX_SIZE : Z := 128.

(** [struct.Struct("<HH")] and [struct.Struct("<HL")] *)
Definition chain_item (short : bool) : list nat := if short then [2; 2]%nat else [2; 4]%nat.
Definition chain_item_size (short : bool) : Z := Z.of_nat (sum_list (chain_item short)).

(** ** Reading *)

(** The header: its size, the height, the number of code points, the wildcard, whether
    offsets are short, and the compression. *)
Record header := mk_header {
  HEADER_SIZE : Z;
  h_max_height : Z;
  codept_ct : Z;
  h_wildcard : Z;
  short_offsets : bool;
  h_compressed : bool;
}.

Definition read_header (pfo : list Z) : option header :=
  pfo_ver ← pfo !! 0%nat;
  if pfo_ver =? 2 then
    fields ← unpack_us [1; 1; 2; 2; 1; 1]%nat (slice_to 8 pfo);
    match fields with
    | [_; max_height; codept_ct; wildcard; _; codept_sz] =>
        if codept_sz =? 2 then Some (mk_header 8 max_height codept_ct wildcard true false) else None
    | _ => None
    end
  else if pfo_ver =? 3 then
    fields ← unpack_us [1; 1; 2; 2; 1; 1; 1; 1]%nat (slice_to 10 pfo);
    match fields with
    | [_; max_height; codept_ct; wildcard; _; codept_sz; _; features] =>
        if codept_sz =? 2 then
          Some (mk_header 10 max_height codept_ct wildcard (negb (Z.land features 1 =? 0))
                  (negb (Z.land features 2 =? 0)))
        else None
    | _ => None
    end
  else None.

(** [int(math.ceil(x / n))] *)
Definition ceil_div (x n : Z) : Z := - (- x / n).

(** The size of the bitmap of a glyph, from the first two bytes of its header. *)
Definition bitmap_data_sz (h w : Z) : Z := ceil_div (ceil_div (h * w) 8) 4 * 4.

Definition read_glyph_data (pfo : list Z) (data_start : Z) : option (list Z) :=
  hw ← unpack_us [1; 1]%nat (slice data_start (data_start + 2) pfo);
  match hw with
  | [h; w] => Some (slice data_start (data_start + 5 + bitmap_data_sz h w) pfo)
  | _ => None
  end.

(** A code point with the offset of its glyph: the glyph is read the first time. *)
Definition add_codepoint (pfo : list Z) (glyphs_base : Z) (glyphs : gmap Z Glyph) (codept offset : Z)
    : option (gmap Z Glyph) :=
  match glyphs !! offset with
  | None =>
      glyph_data ← read_glyph_data pfo (glyphs_base + offset);
      Some (<[offset := mk_Glyph [codept] glyph_data]> glyphs)
  | Some g => Some (<[offset := mk_Glyph (codepoints g ++ [codept]) (data g)]> glyphs)
  end.

(** An item of a chain. *)
Definition read_item (pfo : list Z) (short : bool) (glyphs_base chain_base : Z)
    (glyphs : gmap Z Glyph) (item_idx : Z) : option (gmap Z Glyph) :=
  let item_addr := chain_base + item_idx * chain_item_size short in
  item ← unpack_us (chain_item short) (slice item_addr (item_addr + chain_item_size short) pfo);
  match item with
  | [codept; offset] => add_codepoint pfo glyphs_base glyphs codept offset
  | _ => None
  end.

(** A bin of the directory with its chain. *)
Definition read_bin (pfo : list Z) (hd : header) (glyphs_base : Z) (glyphs : gmap Z Glyph)
    (directory_index : Z) : option (gmap Z Glyph) :=
  let dir_addr := HEADER_SIZE hd + directory_index * HASHTABLE_DIRECTORY_ITEM_SIZE in
  entry ← unpack_us [1; 1; 2]%nat (slice dir_addr (dir_addr + HASHTABLE_DIRECTORY_ITEM_SIZE) pfo);
  match entry with
  | [_; table_size; offset] =>
      let chain_base := HEADER_SIZE hd + HASHTABLE_DIRECTORY_SIZE * HASHTABLE_DIRECTORY_ITEM_SIZE + offset in
      foldM (read_item pfo (short_offsets hd) glyphs_base chain_base) glyphs (seqZ 0 table_size)
  | _ => None
  end.

Definition font_read (pfo : list Z) : option Font :=
  hd ← read_header pfo;
  let glyphs_base := HEADER_SIZE hd + HASHTABLE_DIRECTORY_SIZE * HASHTABLE_DIRECTORY_ITEM_SIZE
                     + codept_ct hd * chain_item_size (short_offsets hd) in
  glyphs ← foldM (read_bin pfo hd glyphs_base) ∅ (seqZ 0 HASHTABLE_DIRECTORY_SIZE);
  Some (mk_Font (h_max_height hd) (h_wildcard hd) (h_compressed hd) glyphs).

(** ** Writing *)

Section Order.
(** The items of a dictionary in the order in which they are iterated. *)
Variable items : forall A, gmap Z A -> list (Z * A).
Arguments items {A}.

(** [d.values()] *)
Definition values {A} (d : gmap Z A) : list A := (items d).*2.

(** [sorted(font.glyphs.values(), key=lambda x: x.codepoints[0])]: an exception if a glyph
    has no code point. *)
Definition sorted_glyphs (gs : list Glyph) : option (list Glyph) :=
  keyed ← mapM (fun g => c ← head (codepoints g); Some (c, g)) gs;
  Some (sorted_by fst keyed).*2.

(** The glyph data and the pairs of a code point and an offset, glyph by glyph. *)
Fixpoint place_glyphs (gs : list Glyph) (pairs : list (Z * Z)) (glyph_data : list Z)
    : list (Z * Z) * list Z :=
  match gs with
  | [] => (pairs, glyph_data)
  | g :: gs =>
      place_glyphs gs (pairs ++ ((fun cpt => (cpt, len glyph_data)) <$> codepoints g))
        (glyph_data ++ data g)
  end.

(** The chains and the number of items of each. *)
Record chains_state := mk_chains { chains : list (list Z); chain_counts : gmap Z Z }.

Definition add_to_chain (short : bool) (st : chains_state) (pair : Z * Z) : option chains_state :=
  let bin_no := pair.1 mod HASHTABLE_DIRECTORY_SIZE in
  item ← pack_us (zip (chain_item short) [pair.1; pair.2]);
  let count := default 0 (chain_counts st !! bin_no) + 1 in
  if count <? OFFSET_TABLE_MAX_SIZE then
    Some (mk_chains (alter (fun c => c ++ item) (Z.to_nat bin_no) (chains st))
            (<[bin_no := count]> (chain_counts st)))
  else None.

(** The directory, with the offset of the next chain. *)
Definition add_directory (st : chains_state) (acc : list Z * Z) (x : Z) : option (list Z * Z) :=
  let '(hashtable_data, off) := acc in
  entry ← pack_us [(1%nat, x); (1%nat, default 0 (chain_counts st !! x)); (2%nat, off)];
  chain ← chains st !! Z.to_nat x;
  Some (hashtable_data ++ entry, off + len chain).

Definition font_write (font : Font) : option (list Z) :=
  let gs := values (glyphs font) in
  let bitmapdata_length := Z.of_nat (sum_list_with (fun g => length (data g)) gs) in
  let short := bitmapdata_length <? 65535 in
  let features := Z.lor (if short then 1 else 0) (if compressed font then 2 else 0) in
  header ← pack_us [(1%nat, 3); (1%nat, max_height font);
    (2%nat, Z.of_nat (sum_list_with (fun g => length (codepoints g)) gs)); (2%nat, wildcard font);
    (1%nat, HASHTABLE_DIRECTORY_SIZE); (1%nat, 2); (1%nat, 10); (1%nat, features)];
  sorted ← sorted_glyphs gs;
  let '(pairs, glyph_data) := place_glyphs sorted [] [0; 0; 0; 0] in
  st ← foldM (add_to_chain short) (mk_chains (replicate (Z.to_nat HASHTABLE_DIRECTORY_SIZE) []) ∅)
         (sorted_by fst pairs);
  '(hashtable_data, _) ← foldM (add_directory st) ([], 0) (seqZ 0 HASHTABLE_DIRECTORY_SIZE);
  Some (header ++ hashtable_data ++ concat (chains st) ++ glyph_data).

(** ** Merging *)

(** The glyphs that are made, and which of them a code point has. *)
Record merging := mk_merging { heap : list Glyph; font_cpt_map : gmap Z nat }.

(** [new_glyph = Glyph([], glyph.data)], for all code points of [glyph]. *)
Definition take_glyph (m : merging) (glyph : Glyph) : merging :=
  let new_glyph := length (heap m) in
  mk_merging (heap m ++ [mk_Glyph [] (data glyph)])
    (fold_left (fun d cpt => <[cpt := new_glyph]> d) (codepoints glyph) (font_cpt_map m)).

(** [glyph.codepoints.append(cpt)], and the glyph is added unless there is an equal one. *)
Definition add_to_font (st : list Glyph * gmap Z nat) (item : Z * nat) : list Glyph * gmap Z nat :=
  let '(hp, font_glyphs) := st in
  let '(cpt, glyph) := item in
  let hp := alter (fun g => mk_Glyph (codepoints g ++ [cpt]) (data g)) glyph hp in
  if bool_decide (hp !! glyph ∈ (fun i => hp !! i) <$> values font_glyphs) then (hp, font_glyphs)
  else (hp, <[cpt := glyph]> font_glyphs).

Definition merge_fonts (font_1 font_2 : Font) : option Font :=
  if bool_decide (compressed font_1 = compressed font_2) then
    let m := fold_left take_glyph (values (glyphs font_1)) (mk_merging [] ∅) in
    let m := fold_left take_glyph (values (glyphs font_2)) m in
    let '(hp, font_glyphs) := fold_left add_to_font (items (font_cpt_map m)) (heap m, ∅) in
    Some (mk_Font (max_height font_1) (wildcard font_1) (compressed font_1)
            (omap (fun i => hp !! i) font_glyphs))
  else None.

(** The main program: the fonts of the arguments are merged one after the other. *)
Definition merge_files (pfos : list (list Z)) : option (list Z) :=
  fonts ← mapM font_read pfos;
  match fonts with
  | [] => None
  | font_accum :: fonts => font_accum ← foldM merge_fonts font_accum fonts; font_write font_accum
  end.
End Order.
