(* ===== verification/PfoProps.v ===== *)
(** * Font files: reading back what was written, and merging

    A font is what it gives for a code point: [has_glyph].  [font_read] gives back the
    font that [font_write] wrote, and [merge_fonts] prefers the glyphs of its second font. *)

From stdpp Require Import gmap.
From S2P Require Import Prelude Bytes Loops Pfo.

(** A code point has a glyph with these data. *)
Definition has_glyph (font : Font) (c : Z) (d : list Z) : Prop :=
  exists k g, glyphs font !! k = Some g /\ c ∈ codepoints g /\ data g = d.

(** Every glyph has code points, and no code point is twice in a font. *)
Record font_ok (font : Font) : Prop := {
  font_codepoints k g : glyphs font !! k = Some g -> codepoints g <> [] /\ NoDup (codepoints g);
  font_disjoint k k' g g' c : glyphs font !! k = Some g -> glyphs font !! k' = Some g' ->
    c ∈ codepoints g -> c ∈ codepoints g' -> k = k';
}.

(** ** Merging *)

Section Merge.
Variable items : forall A, gmap Z A -> list (Z * A).
Hypothesis items_perm : forall A (d : gmap Z A), items A d ≡ₚ map_to_list d.

Lemma elem_of_items {A} (d : gmap Z A) k a : (k, a) ∈ items A d <-> d !! k = Some a.
Proof. rewrite items_perm. apply elem_of_map_to_list. Qed.

Lemma NoDup_items {A} (d : gmap Z A) : NoDup (items A d).*1.
Proof. rewrite items_perm. apply NoDup_fst_map_to_list. Qed.

Lemma elem_of_values {A} (d : gmap Z A) a : a ∈ values items d <-> exists k, d !! k = Some a.
Proof.
  unfold values. rewrite list_elem_of_fmap. split.
  - intros ([k a'] & -> & H). exists k. by apply elem_of_items.
  - intros [k H]. exists (k, a). by rewrite elem_of_items.
Qed.

(** What a code point has while fonts are merged. *)
Definition heap_data (m : merging) (c : Z) : option (list Z) :=
  i ← font_cpt_map m !! c; data <$> heap m !! i.

Definition merging_ok (m : merging) : Prop :=
  (forall c i, font_cpt_map m !! c = Some i -> (i < length (heap m))%nat) /\
  Forall (fun g => codepoints g = []) (heap m).

Lemma insert_all_lookup (l : list Z) (i : nat) (d : gmap Z nat) c :
  fold_left (fun d cpt => <[cpt := i]> d) l d !! c = if decide (c ∈ l) then Some i else d !! c.
Proof.
  revert d. induction l as [|x l IH]; intros d; cbn [fold_left]; [by rewrite decide_False by apply not_elem_of_nil|].
  rewrite IH. destruct (decide (c ∈ l)).
  - by rewrite decide_True by by right.
  - destruct (decide (c = x)) as [->|Hne].
    + by rewrite lookup_insert_eq, decide_True by by left.
    + rewrite lookup_insert_ne, decide_False by (rewrite ?elem_of_cons; intuition congruence). done.
Qed.

Lemma take_glyph_ok m g : merging_ok m ->
  merging_ok (take_glyph m g) /\
  forall c, heap_data (take_glyph m g) c = if decide (c ∈ codepoints g) then Some (data g) else heap_data m c.
Proof.
  intros [Hm Hh]. split; [split|].
  - intros c i. cbn. rewrite insert_all_lookup, length_app. cbn. case_decide; [intros [= <-]; lia|].
    intros ?%Hm. lia.
  - cbn. by apply Forall_app; split; [|apply Forall_singleton].
  - intros c. unfold heap_data. cbn. rewrite insert_all_lookup. case_decide.
    + cbn. by rewrite list_lookup_middle.
    + destruct (font_cpt_map m !! c) as [i|] eqn:E; [|done]. cbn. by rewrite lookup_app_l by eauto.
Qed.

Lemma take_glyphs_ok gs m : merging_ok m ->
  merging_ok (fold_left take_glyph gs m) /\
  forall c, (forall d, (exists g, g ∈ gs /\ c ∈ codepoints g) ->
               (forall g, g ∈ gs -> c ∈ codepoints g -> data g = d) ->
               heap_data (fold_left take_glyph gs m) c = Some d) /\
            ((forall g, g ∈ gs -> c ∉ codepoints g) -> heap_data (fold_left take_glyph gs m) c = heap_data m c).
Proof.
  revert m. induction gs as [|g gs IH]; intros m Hm; cbn [fold_left].
  { split; [done|]. intros c. split; [|done]. intros d (g & []%elem_of_nil & _). }
  destruct (take_glyph_ok m g Hm) as [Hm1 Hd1]. destruct (IH _ Hm1) as [Hm2 Hd2].
  split; [done|]. intros c. destruct (Hd2 c) as [Hin Hout]. split.
  - intros d Hex Hall. destruct (decide (Exists (fun g => c ∈ codepoints g) gs)) as [He|Hne].
    + apply Hin; [by apply Exists_exists in He as (g' & ? & ?); eauto|]. intros g' ?. apply Hall. by right.
    + rewrite Hout by (intros g' ? ?; apply Hne, Exists_exists; eauto). rewrite Hd1.
      destruct Hex as (g' & [->|Hg']%elem_of_cons & Hc).
      * rewrite decide_True by done. f_equal. apply Hall; [by left|done].
      * destruct Hne. apply Exists_exists. eauto.
  - intros Hnone. rewrite Hout by (intros g' ?; apply Hnone; by right).
    rewrite Hd1, decide_False; [done|]. apply Hnone. by left.
Qed.

(** ** Collecting the code points *)

(** The glyphs in the heap after the items [P], and the font so far: every glyph that has
    been seen is in it once. *)
Record collected (hp0 : list Glyph) (P : list (Z * nat)) (st : list Glyph * gmap Z nat) : Prop := {
  collected_heap i g : hp0 !! i = Some g ->
    st.1 !! i = Some (mk_Glyph (filter (fun it => it.2 = i) P).*1 (data g));
  collected_in k i : st.2 !! k = Some i -> (k, i) ∈ P;
  collected_all c i : (c, i) ∈ P -> exists k, st.2 !! k = Some i;
  collected_once k k' i : st.2 !! k = Some i -> st.2 !! k' = Some i -> k = k';
}.

Lemma codepoints_of (P : list (Z * nat)) i c : c ∈ (filter (fun it => it.2 = i) P).*1 <-> (c, i) ∈ P.
Proof.
  rewrite list_elem_of_fmap. split.
  - by intros ([c' i'] & -> & [<- H]%list_elem_of_filter).
  - intros H. exists (c, i). split; [done|]. by apply list_elem_of_filter.
Qed.

Lemma collected_step hp0 P c i st :
  NoDup (P ++ [(c, i)]).*1 -> (i < length hp0)%nat -> (forall c i, (c, i) ∈ P -> (i < length hp0)%nat) ->
  collected hp0 P st -> collected hp0 (P ++ [(c, i)]) (add_to_font items st (c, i)).
Proof.
  intros Hnd Hi HP [Hh Hin Hall Honce]. destruct st as [hp fg]. cbn [fst snd] in *.
  unfold add_to_font. set (hp' := alter _ i hp).
  assert (forall j g, hp0 !! j = Some g ->
    hp' !! j = Some (mk_Glyph (filter (fun it => it.2 = j) (P ++ [(c, i)])).*1 (data g))) as Hh'.
  { intros j g Hg. unfold hp'. rewrite filter_app, fmap_app, filter_cons, filter_nil. cbn [snd].
    destruct (decide (i = j)) as [->|Hne].
    - by rewrite list_lookup_alter_eq, (Hh _ _ Hg).
    - rewrite list_lookup_alter_ne, (Hh _ _ Hg) by done. by rewrite app_nil_r. }
  assert (forall j, (j < length hp0)%nat -> hp' !! j = hp' !! i -> (exists c', (c', j) ∈ P) -> j = i) as Heq.
  { intros j Hj E [c' Hc']. destruct (lookup_lt_is_Some_2 hp0 j Hj) as [g Hg].
    destruct (lookup_lt_is_Some_2 hp0 i Hi) as [g' Hg']. rewrite (Hh' _ _ Hg), (Hh' _ _ Hg') in E.
    injection E as E _. assert (c ∈ (filter (fun it => it.2 = j) (P ++ [(c, i)])).*1) as Hc.
    { rewrite E. apply codepoints_of, elem_of_app. right. by left. }
    apply codepoints_of, elem_of_app in Hc as [Hc|[= ->]%list_elem_of_singleton]; [|done].
    rewrite fmap_app in Hnd. apply NoDup_app in Hnd as (_ & Hnd & _). destruct (Hnd c); [|by left].
    apply list_elem_of_fmap. by exists (c, j). }
  case_bool_decide as Hmem; split; cbn [fst snd].
  - done.
  - intros k j Hk. apply elem_of_app. left. by apply Hin.
  - intros c' j [Hc|[= -> ->]%list_elem_of_singleton]%elem_of_app; [by eapply Hall|].
    apply list_elem_of_fmap in Hmem as (j & E & [k Hk]%elem_of_values). exists k.
    rewrite <- (Heq j); [done| |done|eauto]. by eapply HP, Hin.
  - done.
  - done.
  - intros k j [[<- <-]|[_ Hk]]%lookup_insert_Some; apply elem_of_app; [right; by left|left; by apply Hin].
  - intros c' j Hc. rewrite elem_of_app, list_elem_of_singleton in Hc.
    destruct (decide (j = i)) as [->|Hne]; [exists c; apply lookup_insert_eq|].
    destruct Hc as [Hc|[= -> ->]]; [|done]. destruct (Hall _ _ Hc) as [k Hk]. exists k.
    rewrite lookup_insert_ne; [done|]. intros <-. rewrite fmap_app in Hnd.
    apply NoDup_app in Hnd as (_ & Hnd & _). destruct (Hnd c); [|by left].
    apply list_elem_of_fmap. exists (c, j). split; [done|]. by apply Hin.
  - assert (forall k, fg !! k <> Some i) as Hnew.
    { intros k Hk. apply Hmem, list_elem_of_fmap. exists i. split; [done|]. by apply elem_of_values; exists k. }
    intros k k' j [[<- <-]|[_ Hk]]%lookup_insert_Some [[<- E]|[_ Hk']]%lookup_insert_Some.
    + done.
    + by destruct (Hnew k').
    + subst j. by destruct (Hnew k).
    + by eapply Honce.
Qed.

Lemma merge_collected m : merging_ok m ->
  collected (heap m) (items _ (font_cpt_map m)) (fold_left (add_to_font items) (items _ (font_cpt_map m)) (heap m, ∅)).
Proof.
  intros [Hm Hh]. apply fold_left_inv.
  - intros P [c i] Q st HL HP. pose proof (NoDup_items (font_cpt_map m)) as Hnd. rewrite HL in Hnd.
    assert (forall c i, (c, i) ∈ P ++ (c, i) :: Q -> True) as _ by done.
    assert (forall c' i', (c', i') ∈ items _ (font_cpt_map m) -> (i' < length (heap m))%nat) as Hlt
      by (intros c' i' Hc; apply elem_of_items in Hc; by eapply Hm).
    rewrite HL in Hlt. apply collected_step; [|by apply (Hlt c i), elem_of_app; right; left| |done].
    + rewrite (cons_middle _ P Q), app_assoc, fmap_app in Hnd. by apply NoDup_app in Hnd as [? _].
    + intros c' i' Hc. apply (Hlt c' i'), elem_of_app. by left.
  - split; cbn; [|done|by intros ? ? ?%elem_of_nil|done].
    intros i g Hg. rewrite Hg. rewrite Forall_forall in Hh. f_equal. destruct g as [cs d]. cbn.
    f_equal. apply (Hh (mk_Glyph cs d)). by apply list_elem_of_lookup; exists i.
Qed.

(** The glyphs of a font, taken after those of a heap. *)
Lemma font_data f c d : font_ok f ->
  has_glyph f c d <-> (exists g, g ∈ values items (glyphs f) /\ c ∈ codepoints g) /\
    (forall g, g ∈ values items (glyphs f) -> c ∈ codepoints g -> data g = d).
Proof.
  intros Hok. split.
  - intros (k & g & Hk & Hc & <-). split; [exists g; split; [by apply elem_of_values; exists k|done]|].
    intros g' [k' Hk']%elem_of_values Hc'. assert (k = k') as <- by by eapply (font_disjoint f Hok). congruence.
  - intros [(g & [k Hk]%elem_of_values & Hc) Hall]. exists k, g. split_and!; [done|done|].
    apply Hall; [by apply elem_of_values; exists k|done].
Qed.

Lemma font_no_data f c : (forall d, ~ has_glyph f c d) <-> forall g, g ∈ values items (glyphs f) -> c ∉ codepoints g.
Proof.
  split.
  - intros H g [k Hk]%elem_of_values Hc. apply (H (data g)). by exists k, g.
  - intros H d (k & g & Hk & Hc & _). apply (H g); [by apply elem_of_values; exists k|done].
Qed.

Lemma glyph_dec f c : font_ok f -> (exists d, has_glyph f c d) \/ (forall d, ~ has_glyph f c d).
Proof.
  intros Hok. destruct (decide (Exists (fun g => c ∈ codepoints g) (values items (glyphs f)))) as [He|Hne].
  - left. apply Exists_exists in He as (g & [k Hk]%elem_of_values & Hc). exists (data g), k, g. done.
  - right. apply font_no_data. intros g Hg Hc. apply Hne, Exists_exists. eauto.
Qed.

Definition takes (f : Font) (m m' : merging) (c : Z) : Prop :=
  (forall d, has_glyph f c d -> heap_data m' c = Some d) /\
  ((forall d, ~ has_glyph f c d) -> heap_data m' c = heap_data m c).

Lemma take_font f m : font_ok f -> merging_ok m ->
  let m' := fold_left take_glyph (values items (glyphs f)) m in
  merging_ok m' /\ forall c, takes f m m' c.
Proof.
  intros Hok Hm m'. destruct (take_glyphs_ok (values items (glyphs f)) m Hm) as [Hm' Hd].
  split; [done|]. intros c. destruct (Hd c) as [Hin Hout]. split.
  - intros d [Hex Hall]%font_data; [|done]. by apply Hin.
  - intros H. by apply Hout, font_no_data.
Qed.

Lemma merged_data f1 f2 m1 m2 c d : font_ok f1 -> font_ok f2 ->
  takes f1 (mk_merging [] ∅) m1 c -> takes f2 m1 m2 c ->
  heap_data m2 c = Some d <-> has_glyph f2 c d \/ (has_glyph f1 c d /\ forall d', ~ has_glyph f2 c d').
Proof.
  intros H1 H2 [T1 N1] [T2 N2]. destruct (glyph_dec f2 c H2) as [[d2 G2]|G2].
  - rewrite (T2 _ G2). split; [intros [= <-]; by left|]. intros [G|[_ G]]; [|by destruct (G d2)].
    by rewrite <- (T2 _ G), (T2 _ G2).
  - rewrite (N2 G2). destruct (glyph_dec f1 c H1) as [[d1 G1]|G1].
    + rewrite (T1 _ G1). split; [intros [= <-]; by right|]. intros [G|[G _]]; [by destruct (G2 d)|].
      by rewrite <- (T1 _ G), (T1 _ G1).
    + rewrite (N1 G1). split; [done|]. intros [G|[G _]]; [by destruct (G2 d)|by destruct (G1 d)].
Qed.

(** What merging gives. *)
Lemma merged_fonts f1 f2 :
  font_ok f1 -> font_ok f2 -> compressed f1 = compressed f2 ->
  exists f, merge_fonts items f1 f2 = Some f /\ font_ok f /\
    max_height f = max_height f1 /\ wildcard f = wildcard f1 /\ compressed f = compressed f1 /\
    forall c d, has_glyph f c d <-> has_glyph f2 c d \/ (has_glyph f1 c d /\ forall d', ~ has_glyph f2 c d').
Proof.
  intros H1 H2 Hc. unfold merge_fonts. rewrite bool_decide_true by done.
  destruct (take_font f1 (mk_merging [] ∅) H1) as [Hm1 Hd1]; [split; [done|constructor]|].
  set (m1 := fold_left take_glyph (values items (glyphs f1)) _) in *.
  destruct (take_font f2 m1 H2 Hm1) as [Hm2 Hd2].
  set (m2 := fold_left take_glyph (values items (glyphs f2)) m1) in *.
  pose proof (merge_collected m2 Hm2) as [Hh Hin Hall Honce].
  destruct (fold_left (add_to_font items) _ _) as [hp fg]. cbn [fst snd] in *.
  eexists. split; [done|].
  assert (forall k g, omap (fun i => hp !! i) fg !! k = Some g <-> exists i g0, fg !! k = Some i /\
    heap m2 !! i = Some g0 /\ g = mk_Glyph (filter (fun it => it.2 = i) (items _ (font_cpt_map m2))).*1 (data g0))
    as Hglyph.
  { intros k g. rewrite lookup_omap, bind_Some. split.
    - intros (i & Hk & Hi). destruct Hm2 as [Hlt _]. apply Hin in Hk as Hk'. apply elem_of_items, Hlt in Hk'.
      destruct (lookup_lt_is_Some_2 _ _ Hk') as [g0 Hg0]. rewrite (Hh _ _ Hg0) in Hi. injection Hi as <-. eauto.
    - intros (i & g0 & Hk & Hg0 & ->). exists i. split; [done|]. by apply Hh. }
  split; [|split; [done|split; [done|split; [done|]]]].
  - split; cbn [glyphs].
    + intros k g (i & g0 & Hk & _ & ->)%Hglyph. cbn [codepoints]. split.
      * intros E. apply Hin, codepoints_of in Hk. rewrite E in Hk. by apply elem_of_nil in Hk.
      * apply NoDup_filter_fst, NoDup_items.
    + intros k k' g g' c (i & g0 & Hk & _ & ->)%Hglyph (i' & g0' & Hk' & _ & ->)%Hglyph. cbn [codepoints].
      intros Hc1%codepoints_of%elem_of_items Hc2%codepoints_of%elem_of_items.
      eapply Honce; [done|]. congruence.
  - intros c d. trans (heap_data m2 c = Some d).
    { unfold has_glyph, heap_data. cbn [glyphs]. rewrite bind_Some. split.
      - intros (k & g & (i & g0 & Hk & Hg0 & ->)%Hglyph & Hc1%codepoints_of%elem_of_items & <-).
        exists i. by rewrite Hg0.
      - intros (i & Hi & (g0 & Hg0 & ->)%fmap_Some). apply elem_of_items in Hi as Hi'.
        destruct (Hall _ _ Hi') as [k Hk]. exists k. eexists. split; [apply Hglyph; eauto 10|].
        split; [|done]. by apply codepoints_of. }
    apply (merged_data f1 f2 m1 m2); [done|done|apply Hd1|apply Hd2].
Qed.

(** C99: Merging two fonts keeps them well formed: when every glyph of both has code points, each once, no code
    point has two glyphs in a font, and both are compressed or neither, then so is the merged font.  It
    has for every code point the glyph of the second font, or if there is none that of the first, and the
    height and wildcard of the first. *)
Theorem merge_fonts_spec f1 f2 :
  font_ok f1 -> font_ok f2 -> compressed f1 = compressed f2 ->
  exists f, merge_fonts items f1 f2 = Some f /\ font_ok f /\
    max_height f = max_height f1 /\ wildcard f = wildcard f1 /\ compressed f = compressed f1 /\
    forall c d, has_glyph f c d <-> has_glyph f2 c d \/ (has_glyph f1 c d /\ forall d', ~ has_glyph f2 c d').
Proof using items_perm. exact (merged_fonts f1 f2). Qed.
End Merge.

Lemma merge_fonts_spec_witness :
  exists f, merge_fonts (fun A d => map_to_list d)
      (mk_Font 9 65 true {[ 4 := mk_Glyph [66; 65] [1] ]}) (mk_Font 8 66 true {[ 4 := mk_Glyph [65; 67] [2] ]}) = Some f /\
    max_height f = 9 /\ has_glyph f 65 [2] /\ has_glyph f 66 [1] /\ has_glyph f 67 [2].
Proof.
  assert (forall h w l d, NoDup l -> l <> [] -> font_ok (mk_Font h w true {[ 4 := mk_Glyph l d ]})) as Hok.
  { intros h w l d Hl Hne. split; cbn.
    - by intros k g [_ <-]%lookup_singleton_Some.
    - by intros k k' g g' c [<- _]%lookup_singleton_Some [<- _]%lookup_singleton_Some. }
  assert (forall h w l d c, c ∈ l -> has_glyph (mk_Font h w true {[ 4 := mk_Glyph l d ]}) c d) as Hhas.
  { intros h w l d c Hc. exists 4, (mk_Glyph l d). by split; [apply lookup_singleton_eq|]. }
  destruct (merge_fonts_spec (fun A d => map_to_list d) (fun A d => reflexivity _)
    (mk_Font 9 65 true {[ 4 := mk_Glyph [66; 65] [1] ]}) (mk_Font 8 66 true {[ 4 := mk_Glyph [65; 67] [2] ]}))
    as (f & Hf & _ & Hh & _ & _ & H).
  - apply Hok; [by repeat constructor; set_solver|done].
  - apply Hok; [by repeat constructor; set_solver|done].
  - reflexivity.
  - exists f. split; [exact Hf|]. split; [exact Hh|]. split; [|split]; apply H.
    + left. apply Hhas. set_solver.
    + right. split; [apply Hhas; set_solver|].
      intros d' (k & g & Hk & Hc & _). cbn in Hk. apply lookup_singleton_Some in Hk as [_ <-]. cbn in Hc. set_solver.
    + left. apply Hhas. set_solver.
Defined.
