(* ===== verification/PfoFormat.v ===== *)
(** * The format of a font file

    What the parts of a font file are, for the two programs that write one: the chains of
    the bins ([chained]), the entries of the directory ([entry_bytes]) and the glyphs
    ([glyph_at]).  [file_read] says what [font_read] makes of such a file. *)

From stdpp Require Import gmap.
From S2P Require Import Prelude Bytes Loops Pfo PfoProps.

(** The data of a glyph have the size that the header says. *)
Definition sized (d : list Z) : Prop :=
  exists h w rest, d = h :: w :: rest /\ is_byte h /\ is_byte w /\ len d = 5 + bitmap_data_sz h w.

(** The glyph at an offset. *)
Definition glyph_at (gd : list Z) (o : Z) (d : list Z) : Prop :=
  exists pre post, gd = pre ++ d ++ post /\ len pre = o /\ sized d.

(** ** Slices of concatenations *)

Lemma concat_split {A} (ls : list (list A)) i x :
  ls !! i = Some x -> concat ls = concat (take i ls) ++ x ++ concat (drop (S i) ls).
Proof. intros H. rewrite <- (take_drop_middle ls i x H) at 1. rewrite concat_app. done. Qed.

Lemma slice_concat {A} (pre post : list A) ls i x a b :
  ls !! i = Some x -> a = len pre + len (concat (take i ls)) -> b = a + len x ->
  slice a b (pre ++ concat ls ++ post) = x.
Proof.
  intros Hi -> ->. rewrite (concat_split _ _ _ Hi).
  replace (pre ++ _ ++ post) with ((pre ++ concat (take i ls)) ++ x ++ concat (drop (S i) ls) ++ post)
    by by rewrite <- !app_assoc.
  apply slice_middle; rewrite length_app; lia.
Qed.

Lemma length_concat_uniform {A} (ls : list (list A)) k :
  Forall (fun x => length x = k) ls -> length (concat ls) = (k * length ls)%nat.
Proof. induction 1 as [|x ls Hx _ IH]; cbn; [lia|]. rewrite length_app, IH. lia. Qed.

Lemma NoDup_fst_inj {A B} (l : list (A * B)) a b b' : NoDup l.*1 -> (a, b) ∈ l -> (a, b') ∈ l -> b = b'.
Proof.
  intros Hnd H H'. apply list_elem_of_lookup in H as [i Hi], H' as [j Hj].
  assert (i = j) as <- by (apply (NoDup_lookup _ i j a Hnd); by rewrite list_lookup_fmap, ?Hi, ?Hj). congruence.
Qed.

(** ** Header *)

Lemma read_header_v3 height n wc features hdr rest :
  pack_us [(1%nat, 3); (1%nat, height); (2%nat, n); (2%nat, wc); (1%nat, HASHTABLE_DIRECTORY_SIZE); (1%nat, 2);
           (1%nat, 10); (1%nat, features)] = Some hdr ->
  read_header (hdr ++ rest) = Some (mk_header 10 height n wc (negb (Z.land features 1 =? 0))
    (negb (Z.land features 2 =? 0))).
Proof.
  intros H. pose proof (unpack_pack_us _ _ H) as Hu. pose proof (pack_us_length _ _ H) as Hl.
  apply bind_Some in H as (b & [_ ->]%pack_u_Some & (bs & _ & [= <-])%bind_Some).
  change ([_; _; _; _; _; _; _; _].*1) with [1; 1; 2; 2; 1; 1; 1; 1]%nat in Hu.
  unfold read_header. cbn [app lookup list_lookup le_bytes mbind option_bind] in *.
  change (3 mod 256) with 3 in *. cbn [Z.eqb Pos.eqb].
  rewrite slice_to_take by lia. change (3 :: bs ++ rest) with ((3 :: bs) ++ rest).
  rewrite (take_app_length' (3 :: bs)) by (by rewrite Hl). by rewrite Hu.
Qed.

(** ** Chains *)

(** The bytes of an item of a chain. *)
Definition item_bytes (short : bool) (p : Z * Z) : list Z :=
  default [] (pack_us (zip (chain_item short) [p.1; p.2])).

Definition item_ok (short : bool) (p : Z * Z) : Prop :=
  pack_us (zip (chain_item short) [p.1; p.2]) = Some (item_bytes short p).

Definition in_bin (b : Z) (p : Z * Z) : Prop := p.1 mod HASHTABLE_DIRECTORY_SIZE = b.

#[export] Instance in_bin_dec b p : Decision (in_bin b p).
Proof. unfold in_bin. apply _. Defined.

Definition chain_bytes (short : bool) (L : list (Z * Z)) (b : Z) : list Z :=
  concat (item_bytes short <$> filter (in_bin b) L).

(** The chains and the counts of the items [P]. *)
Record chained (short : bool) (P : list (Z * Z)) (st : chains_state) : Prop := {
  chained_chains : chains st = chain_bytes short P <$> seqZ 0 HASHTABLE_DIRECTORY_SIZE;
  chained_counts b : default 0 (chain_counts st !! b) = len (filter (in_bin b) P);
  chained_ok : Forall (item_ok short) P;
}.

Lemma item_length short p : item_ok short p -> len (item_bytes short p) = chain_item_size short.
Proof. intros H. rewrite (pack_us_length _ _ H). by destruct short. Qed.

Lemma items_length short P : Forall (item_ok short) P ->
  len (concat (item_bytes short <$> P)) = chain_item_size short * len P.
Proof.
  induction 1 as [|p P Hp _ IH]; cbn [fmap list_fmap concat length]; [lia|].
  rewrite length_app, Nat2Z.inj_add, item_length, IH by done. lia.
Qed.

Lemma bin_range (p : Z * Z) : 0 <= p.1 mod HASHTABLE_DIRECTORY_SIZE < HASHTABLE_DIRECTORY_SIZE.
Proof. by apply Z.mod_pos_bound. Qed.

Lemma chain_bytes_snoc short P p b :
  chain_bytes short (P ++ [p]) b =
  chain_bytes short P b ++ if decide (in_bin b p) then item_bytes short p else [].
Proof.
  unfold chain_bytes. rewrite filter_app, filter_cons, filter_nil, fmap_app, concat_app.
  case_decide; cbn; by rewrite ?app_nil_r.
Qed.

Lemma alter_bins {A} (f g : Z -> A) (h : A -> A) b :
  (forall x, g x = if decide (b = x) then h (f x) else f x) -> 0 <= b < HASHTABLE_DIRECTORY_SIZE ->
  alter h (Z.to_nat b) (f <$> seqZ 0 HASHTABLE_DIRECTORY_SIZE) = g <$> seqZ 0 HASHTABLE_DIRECTORY_SIZE.
Proof.
  intros Hg Hb. apply list_eq. intros i.
  assert (length (seqZ 0 HASHTABLE_DIRECTORY_SIZE) = 255%nat) as Hl by done.
  destruct (decide (i < 255)%nat) as [Hi|Hi].
  - assert (seqZ 0 HASHTABLE_DIRECTORY_SIZE !! i = Some (Z.of_nat i)) as Hs
      by (apply lookup_seqZ; unfold HASHTABLE_DIRECTORY_SIZE; lia).
    destruct (decide (Z.to_nat b = i)) as [<-|Hne].
    + rewrite list_lookup_alter_eq, !list_lookup_fmap, Hs. cbn [fmap option_fmap option_map].
      by rewrite Hg, decide_True by lia.
    + rewrite list_lookup_alter_ne, !list_lookup_fmap, Hs by done. cbn [fmap option_fmap option_map].
      by rewrite Hg, decide_False by lia.
  - rewrite !lookup_ge_None_2; [done|..]; rewrite ?length_alter, length_fmap; lia.
Qed.

(** ** Directory *)

(** The offset of a chain, and the bytes of an entry of the directory. *)
Definition chain_offset (st : chains_state) (x : Z) : Z := len (concat (take (Z.to_nat x) (chains st))).

Lemma chain_offset_S st (n : nat) chain : chains st !! n = Some chain ->
  chain_offset st (Z.of_nat (n + 1)) = chain_offset st (Z.of_nat n) + len chain.
Proof.
  intros H. unfold chain_offset. rewrite !Nat2Z.id, Nat.add_1_r, (take_S_r _ _ _ H), concat_app, length_app. cbn.
  rewrite app_nil_r. lia.
Qed.

Definition entry_fields (st : chains_state) (x : Z) : list (nat * Z) :=
  [(1%nat, x); (1%nat, default 0 (chain_counts st !! x)); (2%nat, chain_offset st x)].

Definition entry_bytes (st : chains_state) (x : Z) : list Z := default [] (pack_us (entry_fields st x)).

Lemma entry_length st x :
  pack_us (entry_fields st x) = Some (entry_bytes st x) -> length (entry_bytes st x) = 4%nat.
Proof. apply pack_us_length. Qed.

(** ** Glyphs *)

Lemma read_glyph_at pre gd o d : glyph_at gd o d -> read_glyph_data (pre ++ gd) (len pre + o) = Some d.
Proof.
  intros (pre' & post & -> & <- & h & w & rest & E & Hh & Hw & Hl). unfold read_glyph_data.
  replace (pre ++ pre' ++ d ++ post) with ((pre ++ pre') ++ d ++ post) by by rewrite <- app_assoc.
  assert (len pre + len pre' = len (pre ++ pre')) as -> by (rewrite length_app; lia).
  assert (slice (len (pre ++ pre')) (len (pre ++ pre') + 2) ((pre ++ pre') ++ d ++ post) = [h; w]) as ->.
  { rewrite E. apply (slice_middle _ _ (pre ++ pre') [h; w] (rest ++ post)); done. }
  assert (unpack_us [1; 1]%nat [h; w] = Some [h; w]) as -> by (cbn; by rewrite !Z.add_0_r).
  cbn [mbind option_bind]. f_equal. apply slice_middle; [done|lia].
Qed.

Lemma glyph_at_inj gd o d d' : glyph_at gd o d -> glyph_at gd o d' -> d = d'.
Proof.
  intros H H'. apply (read_glyph_at []) in H, H'. congruence.
Qed.

(** ** Reading *)

Definition add_item (pfo : list Z) (glyphs_base : Z) (gl : gmap Z Glyph) (p : Z * Z) : option (gmap Z Glyph) :=
  add_codepoint pfo glyphs_base gl p.1 p.2.

(** The code points of an offset. *)
Definition at_offset (M : list (Z * Z)) (o : Z) : list Z := (filter (fun p => p.2 = o) M).*1.

Lemma elem_of_at_offset M o c : c ∈ at_offset M o <-> (c, o) ∈ M.
Proof.
  unfold at_offset. rewrite list_elem_of_fmap. split.
  - by intros ([c' o'] & -> & [<- H]%list_elem_of_filter).
  - intros H. exists (c, o). split; [done|]. by apply list_elem_of_filter.
Qed.

Lemma at_offset_snoc M p o : at_offset (M ++ [p]) o = at_offset M o ++ if decide (p.2 = o) then [p.1] else [].
Proof. unfold at_offset. rewrite filter_app, filter_cons, filter_nil, fmap_app. by case_decide. Qed.

(** The glyphs of the items [M]: one for every offset. *)
Definition items_read (bits_at : Z -> list Z) (M : list (Z * Z)) (gl : gmap Z Glyph) : Prop :=
  forall o, gl !! o =
    if decide (at_offset M o = []) then None else Some (mk_Glyph (at_offset M o) (bits_at o)).

(** All items are read when every glyph can be read. *)
Lemma read_items pfo gb (bits_at : Z -> list Z) M :
  (forall c o, (c, o) ∈ M -> read_glyph_data pfo (gb + o) = Some (bits_at o)) ->
  exists gl, foldM (add_item pfo gb) ∅ M = Some gl /\ items_read bits_at M gl.
Proof.
  intros Hread. apply (foldM_total _ (items_read bits_at)); [|done].
  intros P [c o] Q gl HM HI. unfold add_item, add_codepoint. cbn [fst snd]. rewrite (HI o).
  rewrite (Hread c o) by (rewrite HM; apply elem_of_app; right; by left).
  assert (forall l, l ++ [c] <> []) as Hsnoc by by intros [].
  case_decide as Ho; cbn [mbind option_bind codepoints data]; (eexists; split; [done|]; intros o');
    rewrite at_offset_snoc; cbn [fst snd]; (destruct (decide (o = o')) as [<-|Hne];
    [rewrite lookup_insert_eq, (decide_False (P := _ = _)) by apply Hsnoc
    |rewrite lookup_insert_ne, app_nil_r by done; apply HI]); [by rewrite Ho|done].
Qed.

Lemma items_read_lookup bits_at M gl o g : items_read bits_at M gl ->
  gl !! o = Some g <-> at_offset M o <> [] /\ g = mk_Glyph (at_offset M o) (bits_at o).
Proof. intros H. rewrite (H o). case_decide; naive_solver. Qed.

Lemma items_read_has bits_at M gl : items_read bits_at M gl -> forall h wc comp c d,
  has_glyph (mk_Font h wc comp gl) c d <-> exists o, (c, o) ∈ M /\ d = bits_at o.
Proof.
  intros H h wc comp c d. unfold has_glyph. cbn [glyphs]. split.
  - intros (o & g & [_ ->]%(items_read_lookup _ _ _ _ _ H) & Hc%elem_of_at_offset & <-). by exists o.
  - intros (o & Ho & ->). apply elem_of_at_offset in Ho. exists o. eexists.
    split; [apply (items_read_lookup _ _ _ _ _ H); split; [|done]; by intros E; rewrite E in Ho; apply elem_of_nil in Ho|done].
Qed.

Lemma items_read_ok bits_at M gl h wc comp :
  items_read bits_at M gl -> NoDup M.*1 -> font_ok (mk_Font h wc comp gl).
Proof.
  intros H Hnd. split; cbn [glyphs].
  - intros o g [Hne ->]%(items_read_lookup _ _ _ _ _ H). split; [done|]. by apply NoDup_filter_fst.
  - intros o o' g g' c [_ ->]%(items_read_lookup _ _ _ _ _ H) [_ ->]%(items_read_lookup _ _ _ _ _ H).
    cbn [codepoints]. intros Hc%elem_of_at_offset Hc'%elem_of_at_offset. by eapply NoDup_fst_inj.
Qed.

(** All bins together have the items once. *)
Lemma bins_perm (L : list (Z * Z)) : NoDup L ->
  (seqZ 0 HASHTABLE_DIRECTORY_SIZE ≫= fun b => filter (in_bin b) L) ≡ₚ L.
Proof.
  intros HL. apply NoDup_Permutation; [|done|].
  - apply NoDup_bind; [|by intros; apply NoDup_filter|apply NoDup_seqZ].
    intros b1 b2 p _ _ [H1 _]%list_elem_of_filter [H2 _]%list_elem_of_filter. unfold in_bin in *. congruence.
  - intros p. rewrite list_elem_of_bind. split.
    + by intros (b & [_ ?]%list_elem_of_filter & _).
    + intros Hp. exists (p.1 mod HASHTABLE_DIRECTORY_SIZE). split; [by apply list_elem_of_filter|].
      apply elem_of_seqZ. pose proof (bin_range p). lia.
Qed.

Lemma concat_bind {A B C} (f : B -> list C) (h : A -> list B) (l : list A) :
  concat ((fun b => concat (f <$> h b)) <$> l) = concat (f <$> (l ≫= h)).
Proof. induction l as [|x l IH]; [done|]. cbn. by rewrite fmap_app, concat_app, <- IH. Qed.

Lemma chains_length short L st : NoDup L -> chained short L st ->
  len (concat (chains st)) = len L * chain_item_size short.
Proof.
  intros Hnd [Hc _ Hok]. rewrite Hc. unfold chain_bytes. rewrite concat_bind, items_length.
  - rewrite (bins_perm L Hnd). lia.
  - by rewrite (bins_perm L Hnd).
Qed.

Section Layout.
Context (short : bool) (L : list (Z * Z)) (st : chains_state) (hd : header) (hdr gd : list Z).
Hypothesis HL : chained short L st.
Hypothesis Hentries : Forall (fun x => pack_us (entry_fields st x) = Some (entry_bytes st x))
  (seqZ 0 HASHTABLE_DIRECTORY_SIZE).
Hypothesis Hshort : short_offsets hd = short.
Hypothesis Hhdr : len hdr = HEADER_SIZE hd.

Let entries := entry_bytes st <$> seqZ 0 HASHTABLE_DIRECTORY_SIZE.
Let pfo := hdr ++ concat entries ++ concat (chains st) ++ gd.

Lemma directory_length : len (concat entries) = HASHTABLE_DIRECTORY_SIZE * HASHTABLE_DIRECTORY_ITEM_SIZE.
Proof using Hentries.
  rewrite (length_concat_uniform _ 4); [by unfold entries; rewrite length_fmap|].
  apply Forall_fmap. eapply Forall_impl; [exact Hentries|]. intros x. apply entry_length.
Qed.

Lemma read_entry b : 0 <= b < HASHTABLE_DIRECTORY_SIZE ->
  let dir_addr := HEADER_SIZE hd + b * HASHTABLE_DIRECTORY_ITEM_SIZE in
  unpack_us [1; 1; 2]%nat (slice dir_addr (dir_addr + HASHTABLE_DIRECTORY_ITEM_SIZE) pfo) =
  Some [b; len (filter (in_bin b) L); chain_offset st b].
Proof using HL Hentries Hhdr Hshort.
  intros Hb dir_addr. rewrite Forall_forall in Hentries.
  assert (forall x, x ∈ seqZ 0 HASHTABLE_DIRECTORY_SIZE -> length (entry_bytes st x) = 4%nat) as H4
    by (intros x Hx; by apply entry_length, Hentries).
  assert (seqZ 0 HASHTABLE_DIRECTORY_SIZE !! Z.to_nat b = Some b) as Hlk by (apply lookup_seqZ; lia).
  unfold pfo, entries. rewrite (slice_concat hdr _ _ (Z.to_nat b) (entry_bytes st b)).
  - rewrite (unpack_pack_us (entry_fields st b)) by (apply Hentries; by eapply list_elem_of_lookup_2).
    cbn. by rewrite (chained_counts _ _ _ HL).
  - by rewrite list_lookup_fmap, Hlk.
  - unfold dir_addr. rewrite <- fmap_take, (length_concat_uniform _ 4).
    + rewrite length_fmap, length_take. change (length (seqZ _ _)) with 255%nat.
      unfold HASHTABLE_DIRECTORY_SIZE, HASHTABLE_DIRECTORY_ITEM_SIZE in *. lia.
    + apply Forall_fmap, Forall_take, Forall_forall, H4.
  - rewrite (H4 b); [done|]. by eapply list_elem_of_lookup_2.
Qed.

Lemma read_chain_item glyphs_base gl b i p :
  0 <= b < HASHTABLE_DIRECTORY_SIZE -> filter (in_bin b) L !! i = Some p ->
  read_item pfo short glyphs_base
    (HEADER_SIZE hd + HASHTABLE_DIRECTORY_SIZE * HASHTABLE_DIRECTORY_ITEM_SIZE + chain_offset st b) gl (Z.of_nat i) =
  add_item pfo glyphs_base gl p.
Proof using HL Hentries Hhdr Hshort.
  intros Hb Hi. assert (p ∈ L) as Hp by (by apply list_elem_of_lookup_2, list_elem_of_filter in Hi as [_ ?]).
  pose proof (chained_ok _ _ _ HL) as Hok. rewrite Forall_forall in Hok.
  assert (chains st !! Z.to_nat b = Some (chain_bytes short L b)) as Hc.
  { rewrite (chained_chains _ _ _ HL), list_lookup_fmap. by rewrite (proj2 (lookup_seqZ _ _ _ b)) by lia. }
  unfold read_item. set (a := _ + Z.of_nat i * _).
  assert (slice a (a + chain_item_size short) pfo = item_bytes short p) as ->.
  { unfold pfo. rewrite (concat_split _ _ _ Hc).
    replace (hdr ++ _) with ((hdr ++ concat entries ++ concat (take (Z.to_nat b) (chains st))) ++
      chain_bytes short L b ++ concat (drop (S (Z.to_nat b)) (chains st)) ++ gd) by by rewrite <- !app_assoc.
    apply (slice_concat _ _ _ i).
    - by rewrite list_lookup_fmap, Hi.
    - rewrite !length_app, !Nat2Z.inj_add, directory_length, Hhdr, <- fmap_take.
      rewrite items_length by (apply Forall_take, Forall_forall; intros x [_ Hx]%list_elem_of_filter; by apply Hok).
      rewrite length_take_le by (apply lookup_lt_Some in Hi; lia). unfold a, chain_offset. lia.
    - by rewrite (item_length short p (Hok p Hp)). }
  pose proof (unpack_pack_us _ _ (Hok p Hp)) as E.
  replace ((zip (chain_item short) [p.1; p.2]).*1) with (chain_item short) in E by by destruct short.
  rewrite E. by destruct short.
Qed.

(** A bin of the directory is read as the items that were put into it. *)
Lemma read_bin_layout glyphs_base gl b : 0 <= b < HASHTABLE_DIRECTORY_SIZE ->
  read_bin pfo hd glyphs_base gl b = foldM (add_item pfo glyphs_base) gl (filter (in_bin b) L).
Proof using HL Hentries Hhdr Hshort.
  intros Hb. unfold read_bin. rewrite (read_entry b Hb). cbn [mbind option_bind]. rewrite Hshort.
  apply foldM_index. intros i p s Hi. rewrite Z.add_0_l. by apply read_chain_item.
Qed.

Definition layout_base : Z :=
  HEADER_SIZE hd + HASHTABLE_DIRECTORY_SIZE * HASHTABLE_DIRECTORY_ITEM_SIZE + len L * chain_item_size short.

(** The items are read bin by bin. *)
Lemma font_read_layout gl : read_header pfo = Some hd -> codept_ct hd = len L ->
  foldM (add_item pfo layout_base) ∅ (seqZ 0 HASHTABLE_DIRECTORY_SIZE ≫= fun b => filter (in_bin b) L) = Some gl ->
  font_read pfo = Some (mk_Font (h_max_height hd) (h_wildcard hd) (h_compressed hd) gl).
Proof using HL Hentries Hhdr Hshort.
  intros Hrd Hct Hgl. unfold font_read. rewrite Hrd. cbn [mbind option_bind]. rewrite Hct, Hshort. fold layout_base.
  rewrite (foldM_bind _ (add_item pfo layout_base) (fun b => filter (in_bin b) L)); [by rewrite Hgl|].
  intros b s Hb%elem_of_seqZ. apply read_bin_layout. lia.
Qed.

Lemma glyphs_read o d : NoDup L -> glyph_at gd o d -> read_glyph_data pfo (layout_base + o) = Some d.
Proof using HL Hentries Hhdr Hshort.
  intros Hnd H. replace pfo with ((hdr ++ concat entries ++ concat (chains st)) ++ gd)
    by (unfold pfo; by rewrite <- !app_assoc).
  replace layout_base with (len (hdr ++ concat entries ++ concat (chains st))); [by apply read_glyph_at|].
  rewrite !length_app, !Nat2Z.inj_add, directory_length, (chains_length short L st Hnd HL). unfold layout_base. lia.
Qed.

(** What is read from a file of this layout. *)
Lemma file_read : read_header pfo = Some hd -> codept_ct hd = len L -> NoDup L.*1 ->
  (forall c o, (c, o) ∈ L -> exists d, glyph_at gd o d) ->
  exists f, font_read pfo = Some f /\ font_ok f /\
    max_height f = h_max_height hd /\ wildcard f = h_wildcard hd /\ compressed f = h_compressed hd /\
    forall c d, has_glyph f c d <-> exists o, (c, o) ∈ L /\ glyph_at gd o d.
Proof using HL Hentries Hhdr Hshort.
  intros Hrd Hct Hnd Hgd. assert (NoDup L) as HndL by by eapply NoDup_fmap_1.
  pose proof (bins_perm L HndL) as HM. set (M := _ ≫= _) in HM.
  destruct (read_items pfo layout_base (fun o => default [] (read_glyph_data pfo (layout_base + o))) M)
    as (gl & Hgl & HI).
  { intros c o H. rewrite HM in H. destruct (Hgd c o H) as [d Hd]. by rewrite (glyphs_read o d HndL Hd). }
  eexists. split; [by apply font_read_layout|]. split; [eapply items_read_ok; [done|by rewrite HM]|].
  split_and!; [done..|]. intros c d. rewrite (items_read_has _ _ _ HI). setoid_rewrite HM. split.
  - intros (o & H & ->). exists o. split; [done|]. destruct (Hgd c o H) as [d Hd].
    by rewrite (glyphs_read o d HndL Hd).
  - intros (o & H & Hd). exists o. split; [done|]. by rewrite (glyphs_read o d HndL Hd).
Qed.
End Layout.
