(* ===== verification/PfoRoundtrip.v ===== *)
(** * Font files: what is written is read back

    [font_write] writes a file of the format of [PfoFormat], and [font_read_write] shows
    that [font_read] reads from it the font that was written, up to the keys and the order
    of its glyphs. *)

From stdpp Require Import gmap.
From S2P Require Import Prelude Bytes Loops Pfo PfoProps PfoFormat.

Lemma add_to_chain_chained short P p st st' :
  chained short P st -> add_to_chain short st p = Some st' -> chained short (P ++ [p]) st'.
Proof.
  intros [Hc Hn Hok] (it & Hit & Hst)%bind_Some. pose proof (bin_range p) as Hb.
  assert (item_bytes short p = it) as <- by (unfold item_bytes; by rewrite Hit).
  cbv zeta in Hst. case_match; [|done]. injection Hst as <-. split; cbn [chains chain_counts].
  - rewrite Hc. apply alter_bins; [|done]. intros b. rewrite chain_bytes_snoc.
    by case_decide; case_decide; rewrite ?app_nil_r.
  - intros b. rewrite filter_app, filter_cons, filter_nil, length_app.
    destruct (decide (in_bin b p)) as [<-|Hne].
    + rewrite lookup_insert_eq. cbn. rewrite Hn. lia.
    + rewrite lookup_insert_ne by done. rewrite Hn. cbn. lia.
  - apply Forall_app. by split; [|apply Forall_singleton].
Qed.

Lemma chains_chained short L st :
  foldM (add_to_chain short) (mk_chains (replicate (Z.to_nat HASHTABLE_DIRECTORY_SIZE) []) ∅) L = Some st ->
  chained short L st.
Proof.
  apply foldM_inv.
  - intros P x Q s s' _. apply add_to_chain_chained.
  - split; [done|done|constructor].
Qed.

(** A font with 128 code points in one bin is refused. *)
Lemma add_to_chain_limit short P p st st' :
  chained short P st -> (forall b, len (filter (in_bin b) P) < OFFSET_TABLE_MAX_SIZE) ->
  add_to_chain short st p = Some st' -> forall b, len (filter (in_bin b) (P ++ [p])) < OFFSET_TABLE_MAX_SIZE.
Proof.
  intros [_ Hn _] HP (it & _ & Hst)%bind_Some b. cbv zeta in Hst.
  destruct (Z.ltb_spec (default 0 (chain_counts st !! (p.1 mod HASHTABLE_DIRECTORY_SIZE)) + 1) OFFSET_TABLE_MAX_SIZE)
    as [Hlt|]; [|done].
  rewrite Hn in Hlt. rewrite filter_app, length_app, filter_cons, filter_nil.
  case_decide as Hb; cbn; [unfold in_bin in Hb at 1; rewrite Hb in Hlt; lia|]. specialize (HP b). lia.
Qed.

Lemma chains_limit short L st :
  foldM (add_to_chain short) (mk_chains (replicate (Z.to_nat HASHTABLE_DIRECTORY_SIZE) []) ∅) L = Some st ->
  forall b, len (filter (in_bin b) L) < OFFSET_TABLE_MAX_SIZE.
Proof.
  intros H. apply (foldM_inv _ (fun P st => chained short P st /\
    forall b, len (filter (in_bin b) P) < OFFSET_TABLE_MAX_SIZE)) in H as [_ H]; [done| |].
  - intros P x Q s s' _ [Hs HP] Hx. split; [by eapply add_to_chain_chained|by eapply add_to_chain_limit].
  - split; [by split; [done|done|constructor]|done].
Qed.

(** ** Directory *)

Lemma directory_entries st hashtable_data off :
  foldM (add_directory st) ([], 0) (seqZ 0 HASHTABLE_DIRECTORY_SIZE) = Some (hashtable_data, off) ->
  hashtable_data = concat (entry_bytes st <$> seqZ 0 HASHTABLE_DIRECTORY_SIZE) /\
  Forall (fun x => pack_us (entry_fields st x) = Some (entry_bytes st x)) (seqZ 0 HASHTABLE_DIRECTORY_SIZE).
Proof.
  intros H. apply (foldM_inv _ (fun P acc => acc.1 = concat (entry_bytes st <$> P) /\
    acc.2 = chain_offset st (len P) /\
    Forall (fun x => pack_us (entry_fields st x) = Some (entry_bytes st x)) P)) in H as (H1 & _ & H2); [done| |done].
  intros P x Q [hd o] [hd' o'] Hl (H1 & H2 & Hok) Hstep. cbn [fst snd] in *. subst hd o.
  assert (seqZ 0 HASHTABLE_DIRECTORY_SIZE !! length P = Some x) as Hx by (rewrite Hl; by apply list_lookup_middle).
  apply lookup_seqZ in Hx as [-> _]. rewrite Z.add_0_l in *.
  unfold add_directory in Hstep. apply bind_Some in Hstep as (entry & He & (chain & Hc & [= <- <-])%bind_Some).
  assert (pack_us (entry_fields st (len P)) = Some entry) as He' by done.
  assert (entry_bytes st (len P) = entry) as E by (unfold entry_bytes; by rewrite He').
  cbn [fst snd]. split_and!.
  - rewrite fmap_app, concat_app. cbn [fmap list_fmap concat]. by rewrite E, app_nil_r.
  - rewrite length_app. cbn [length]. rewrite Nat2Z.id in Hc. by rewrite (chain_offset_S _ _ _ Hc).
  - apply Forall_app. split; [done|]. apply Forall_singleton. by rewrite E.
Qed.

(** ** Glyphs *)

Lemma place_glyphs_spec gs pairs gd : 
  let '(pairs', gd') := place_glyphs gs pairs gd in
  gd' = gd ++ concat (data <$> gs) /\ pairs'.*1 = pairs.*1 ++ (gs ≫= codepoints) /\
  forall c o, (c, o) ∈ pairs' <-> (c, o) ∈ pairs \/ exists i g, gs !! i = Some g /\ c ∈ codepoints g /\
    o = len gd + len (concat (take i (data <$> gs))).
Proof.
  revert pairs gd. induction gs as [|g gs IH]; intros pairs gd; cbn [place_glyphs].
  { split; [by rewrite app_nil_r|]. split; [by rewrite app_nil_r|]. intros c o. split; [by left|].
    by intros [?|(i & g & ? & _)]. }
  specialize (IH (pairs ++ ((fun cpt => (cpt, len gd)) <$> codepoints g)) (gd ++ data g)).
  destruct (place_glyphs _ _ _) as [pairs' gd']. destruct IH as (-> & E & H). split_and!.
  - cbn. by rewrite app_assoc.
  - rewrite E, fmap_app, <- app_assoc, <- list_fmap_compose. cbn. by rewrite list_fmap_id.
  - intros c o. rewrite H, elem_of_app, list_elem_of_fmap. split.
    + intros [[?|(c' & [= <- ->] & Hc)]|(i & g' & Hi & Hc & ->)]; [by left| |].
      * right. exists 0%nat, g. split_and!; [done|done|cbn; lia].
      * right. exists (S i), g'. split_and!; [done|done|]. cbn. rewrite !length_app. lia.
    + intros [?|([|i] & g' & Hi & Hc & ->)]; [by left; left| |].
      * injection Hi as <-. left. right. exists c. split; [|done]. f_equal. cbn. lia.
      * right. exists i, g'. split_and!; [done|done|]. cbn. rewrite !length_app. lia.
Qed.

Lemma sorted_glyphs_perm gs sorted : sorted_glyphs gs = Some sorted -> sorted ≡ₚ gs.
Proof.
  intros (keyed & H & [= <-])%bind_Some. rewrite sorted_by_perm.
  apply mapM_Some in H. induction H as [|g [c g'] gs keyed Hg _ IH]; [done|].
  apply bind_Some in Hg as (? & _ & [= _ ->]). cbn. by rewrite IH.
Qed.

(** ** The round trip *)

Section Written.
Variable items : forall A, gmap Z A -> list (Z * A).
Hypothesis items_perm : forall A (d : gmap Z A), items A d ≡ₚ map_to_list d.

Definition short_file (f : Font) : bool :=
  Z.of_nat (sum_list_with (fun g => length (data g)) (values items (glyphs f))) <? 65535.

Definition header_fields (f : Font) : list (nat * Z) :=
  [(1%nat, 3); (1%nat, max_height f);
   (2%nat, Z.of_nat (sum_list_with (fun g => length (codepoints g)) (values items (glyphs f)))); (2%nat, wildcard f);
   (1%nat, HASHTABLE_DIRECTORY_SIZE); (1%nat, 2); (1%nat, 10);
   (1%nat, Z.lor (if short_file f then 1 else 0) (if compressed f then 2 else 0))].

(** The parts of a file that was written. *)
Record written (f : Font) (pfo hdr : list Z) (sorted : list Glyph) (pairs : list (Z * Z)) (st : chains_state)
    (gd : list Z) : Prop := {
  written_header : pack_us (header_fields f) = Some hdr;
  written_sorted : sorted ≡ₚ values items (glyphs f);
  written_glyphs : place_glyphs sorted [] [0; 0; 0; 0] = (pairs, gd);
  written_chains : chained (short_file f) (sorted_by fst pairs) st;
  written_entries : Forall (fun x => pack_us (entry_fields st x) = Some (entry_bytes st x))
    (seqZ 0 HASHTABLE_DIRECTORY_SIZE);
  written_limit b : len (filter (in_bin b) pairs) < OFFSET_TABLE_MAX_SIZE;
  written_file : pfo = hdr ++ concat (entry_bytes st <$> seqZ 0 HASHTABLE_DIRECTORY_SIZE)
    ++ concat (chains st) ++ gd;
}.

Lemma font_write_written f pfo : font_write items f = Some pfo ->
  exists hdr sorted pairs st gd, written f pfo hdr sorted pairs st gd.
Proof.
  intros (hdr & Hhdr & (sorted & Hs & H)%bind_Some)%bind_Some.
  destruct (place_glyphs _ _ _) as [pairs gd] eqn:Hp.
  apply bind_Some in H as (st & Hst & ([hd off] & Hd & [= <-])%bind_Some).
  apply directory_entries in Hd as [-> He]. exists hdr, sorted, pairs, st, gd.
  split; [done|by apply sorted_glyphs_perm|done|by apply chains_chained|done| |done].
  intros b. rewrite <- (sorted_by_perm fst pairs). by eapply chains_limit.
Qed.

Lemma read_header_written f hdr rest : pack_us (header_fields f) = Some hdr ->
  read_header (hdr ++ rest) = Some (mk_header 10 (max_height f)
    (Z.of_nat (sum_list_with (fun g => length (codepoints g)) (values items (glyphs f))))
    (wildcard f) (short_file f) (compressed f)).
Proof. intros H. rewrite (read_header_v3 _ _ _ _ _ _ H). by destruct (short_file f), (compressed f). Qed.

Lemma NoDup_values f : font_ok f -> NoDup (values items (glyphs f)).
Proof using items_perm.
  intros Hok. unfold values. apply NoDup_fmap_2_strong; [|rewrite items_perm; apply NoDup_map_to_list].
  intros [k g] [k' g'] H H' E. cbn in E. subst g'. apply (elem_of_items items items_perm) in H, H'.
  destruct (font_codepoints f Hok k g H) as [Hne _]. destruct (codepoints g) as [|c cs] eqn:Ec; [done|].
  f_equal. apply (font_disjoint f Hok k k' g g c); [done|done|rewrite Ec; by left..].
Qed.

Section Read.
Context (f : Font) (pfo hdr : list Z) (sorted : list Glyph) (pairs : list (Z * Z)) (st : chains_state) (gd : list Z).
Hypothesis Hok : font_ok f.
Hypothesis Hsized : forall k g, glyphs f !! k = Some g -> sized (data g).
Hypothesis Hw : written f pfo hdr sorted pairs st gd.

Lemma elem_of_sorted g : g ∈ sorted <-> exists k, glyphs f !! k = Some g.
Proof using items_perm Hw. rewrite (written_sorted _ _ _ _ _ _ _ Hw). by apply elem_of_values. Qed.

Lemma pairs_codepoints : pairs.*1 = sorted ≫= codepoints.
Proof using Hw.
  pose proof (place_glyphs_spec sorted [] [0; 0; 0; 0]) as H. rewrite (written_glyphs _ _ _ _ _ _ _ Hw) in H.
  by destruct H as (_ & -> & _).
Qed.

Lemma NoDup_pairs : NoDup pairs.*1.
Proof using items_perm Hok Hw.
  rewrite pairs_codepoints. apply NoDup_bind.
  - intros g g' c [k Hk]%elem_of_sorted [k' Hk']%elem_of_sorted Hc Hc'.
    assert (k = k') as <- by by eapply (font_disjoint f Hok). congruence.
  - intros g [k Hk]%elem_of_sorted. by apply (font_codepoints f Hok k).
  - rewrite (written_sorted _ _ _ _ _ _ _ Hw). by apply NoDup_values.
Qed.

Lemma pairs_length :
  Z.of_nat (sum_list_with (fun g => length (codepoints g)) (values items (glyphs f))) = len pairs.
Proof using Hw.
  rewrite <- (length_fmap fst), pairs_codepoints. rewrite <- (written_sorted _ _ _ _ _ _ _ Hw).
  clear. induction sorted as [|g gs IH]; [done|]. cbn. rewrite length_app, Nat2Z.inj_add. cbn in IH. lia.
Qed.

(** The offset of a code point is where its glyph is. *)
Lemma pair_glyph c o : (c, o) ∈ pairs -> exists g, g ∈ sorted /\ c ∈ codepoints g /\ glyph_at gd o (data g).
Proof using items_perm Hw Hsized.
  pose proof (place_glyphs_spec sorted [] [0; 0; 0; 0]) as H. rewrite (written_glyphs _ _ _ _ _ _ _ Hw) in H.
  destruct H as (Hgd & _ & Hp). intros [[]%elem_of_nil|(i & g & Hi & Hc & ->)]%Hp.
  exists g. split; [by eapply list_elem_of_lookup_2|]. split; [done|].
  exists ([0; 0; 0; 0] ++ concat (take i (data <$> sorted))), (concat (drop (S i) (data <$> sorted))).
  split_and!.
  - rewrite Hgd, (concat_split (data <$> sorted) i (data g)) by by rewrite list_lookup_fmap, Hi. by rewrite <- app_assoc.
  - rewrite length_app. lia.
  - apply list_elem_of_lookup_2, elem_of_sorted in Hi as [k Hk]. by eapply Hsized.
Qed.

Lemma pair_of g c : g ∈ sorted -> c ∈ codepoints g -> exists o, (c, o) ∈ pairs.
Proof using Hw.
  intros Hg Hc. assert (c ∈ pairs.*1) as ([c' o] & -> & H)%list_elem_of_fmap; [|by exists o].
  rewrite pairs_codepoints, list_elem_of_bind. eauto.
Qed.
End Read.
End Written.

(** C28: Only fonts with fewer than 128 code points in every bin are written. *)
Theorem font_write_bins items f pfo :
  (forall A (d : gmap Z A), items A d ≡ₚ map_to_list d) -> font_write items f = Some pfo ->
  forall b, len (filter (fun c => c mod HASHTABLE_DIRECTORY_SIZE = b) (values items (glyphs f) ≫= codepoints))
    < OFFSET_TABLE_MAX_SIZE.
Proof.
  intros Hitems (hdr & sorted & pairs & st & gd & Hw)%font_write_written b.
  pose proof (written_limit _ _ _ _ _ _ _ _ Hw b) as H.
  rewrite <- (written_sorted _ _ _ _ _ _ _ _ Hw), <- (pairs_codepoints items f pfo hdr sorted pairs st gd Hw).
  replace (length (filter _ pairs.*1)) with (length (filter (in_bin b) pairs)); [done|].
  clear. induction pairs as [|p l IH]; [done|]. rewrite fmap_cons, !filter_cons. unfold in_bin at 1.
  case_decide; case_decide; cbn; (by rewrite IH || done).
Qed.

(** Reading a file that was written. *)
Lemma font_write_read items f pfo :
  (forall A (d : gmap Z A), items A d ≡ₚ map_to_list d) ->
  font_ok f -> (forall k g, glyphs f !! k = Some g -> sized (data g)) ->
  font_write items f = Some pfo ->
  exists f', font_read pfo = Some f' /\ font_ok f' /\
    max_height f' = max_height f /\ wildcard f' = wildcard f /\ compressed f' = compressed f /\
    forall c d, has_glyph f' c d <-> has_glyph f c d.
Proof.
  intros Hitems Hok Hsized (hdr & sorted & pairs & st & gd & Hw)%font_write_written. pose proof Hw as [Hh _ _ Hc He _ ->].
  pose proof (NoDup_pairs items Hitems f _ hdr sorted pairs st gd Hok Hw) as Hnd.
  destruct (file_read (short_file items f) (sorted_by fst pairs) st
    (mk_header 10 (max_height f) (len pairs) (wildcard f) (short_file items f) (compressed f)) hdr gd)
    as (f' & Hf & Hok' & Hmh & Hwc & Hcomp & Hhas); [done|done|done|by rewrite (pack_us_length _ _ Hh)| | | | |].
  - rewrite <- (pairs_length items f _ hdr sorted pairs st gd Hw). by apply read_header_written.
  - cbn. by rewrite sorted_by_perm.
  - by rewrite sorted_by_perm.
  - intros c o H. rewrite sorted_by_perm in H.
    destruct (pair_glyph items Hitems f _ hdr sorted pairs st gd Hsized Hw c o H) as (g & _ & _ & Hg). by exists (data g).
  - exists f'. split_and!; [done..|]. intros c d. rewrite Hhas. setoid_rewrite sorted_by_perm. split.
    + intros (o & H & Hd). destruct (pair_glyph items Hitems f _ hdr sorted pairs st gd Hsized Hw c o H)
        as (g & [k Hk]%(elem_of_sorted items Hitems f _ hdr sorted pairs st gd Hw) & Hcg & Hg).
      exists k, g. split_and!; [done..|]. by eapply glyph_at_inj.
    + intros (k & g & Hk & Hcg & <-).
      assert (g ∈ sorted) as Hg by (apply (elem_of_sorted items Hitems f _ hdr sorted pairs st gd Hw); eauto).
      destruct (pair_of items f _ hdr sorted pairs st gd Hw g c Hg Hcg) as [o Ho]. exists o. split; [done|].
      destruct (pair_glyph items Hitems f _ hdr sorted pairs st gd Hsized Hw c o Ho)
        as (g' & [k' Hk']%(elem_of_sorted items Hitems f _ hdr sorted pairs st gd Hw) & Hc' & Hd).
      assert (k = k') as <- by by eapply (font_disjoint f Hok). by replace g with g' by congruence.
Qed.

(** C27: A file that was written can be read.  The font that is read has the same height,
    wildcard, compression and the same glyph for every code point, in glyphs that are
    again without duplicates, whatever the order of the items of the dictionary. *)
Theorem font_read_write items f pfo :
  (forall A (d : gmap Z A), items A d ≡ₚ map_to_list d) ->
  font_ok f -> (forall k g, glyphs f !! k = Some g -> sized (data g)) ->
  font_write items f = Some pfo ->
  exists f', font_read pfo = Some f' /\ font_ok f' /\
    max_height f' = max_height f /\ wildcard f' = wildcard f /\ compressed f' = compressed f /\
    forall c d, has_glyph f' c d <-> has_glyph f c d.
Proof. exact (font_write_read items f pfo). Qed.

(** A font whose first glyph has two code points. *)
Definition example_font : Font :=
  mk_Font 9 65 true {[ 4 := mk_Glyph [66; 65] [2; 3; 0; 0; 0; 1; 2; 3; 4];
                       13 := mk_Glyph [320] [1; 1; 5; 6; 7; 1; 0; 0; 0] ]}.

Lemma example_font_glyphs k g : glyphs example_font !! k = Some g ->
  (k = 4 /\ g = mk_Glyph [66; 65] [2; 3; 0; 0; 0; 1; 2; 3; 4]) \/
  (k = 13 /\ g = mk_Glyph [320] [1; 1; 5; 6; 7; 1; 0; 0; 0]).
Proof. cbn. intros [[<- <-]|[_ [<- <-]%lookup_singleton_Some]]%lookup_insert_Some; auto. Qed.

Lemma example_font_ok : font_ok example_font.
Proof.
  split.
  - intros k g [[_ ->]|[_ ->]]%example_font_glyphs; cbn; (split; [done|]); by repeat constructor; set_solver.
  - intros k k' g g' c [[-> ->]|[-> ->]]%example_font_glyphs [[-> ->]|[-> ->]]%example_font_glyphs; cbn; set_solver.
Qed.

Lemma font_read_write_witness :
  exists pfo f', font_write (fun A d => map_to_list d) example_font = Some pfo /\ length pfo = 1064%nat /\
    font_read pfo = Some f' /\ has_glyph f' 65 [2; 3; 0; 0; 0; 1; 2; 3; 4] /\ ~ has_glyph f' 67 [].
Proof.
  set (pfo := default [] (font_write (fun A d => map_to_list d) example_font)).
  assert (font_write (fun A d => map_to_list d) example_font = Some pfo) as Hw by (vm_compute; reflexivity).
  destruct (font_read_write (fun A d => map_to_list d) example_font pfo) as (f' & Hf & _ & _ & _ & _ & H).
  - intros A d. reflexivity.
  - exact example_font_ok.
  - intros k g [[_ ->]|[_ ->]]%example_font_glyphs; eexists _, _, _; (split; [reflexivity|]);
      unfold is_byte; cbn; (split; [lia|]); split; [lia|reflexivity|lia|reflexivity].
  - exact Hw.
  - exists pfo, f'. split; [exact Hw|]. split; [vm_compute; reflexivity|]. split; [exact Hf|]. split.
    + apply H. exists 4. eexists. split; [reflexivity|]. split; [right; left|reflexivity].
    + rewrite H. intros (k & g & [[_ ->]|[_ ->]]%example_font_glyphs & _ & E); discriminate E.
Defined.

Lemma font_write_bins_witness :
  (65 ∈ values (fun A d => map_to_list d) (glyphs example_font) ≫= codepoints) /\ forall b,
    len (filter (fun c => c mod HASHTABLE_DIRECTORY_SIZE = b)
      (values (fun A d => map_to_list d) (glyphs example_font) ≫= codepoints)) < OFFSET_TABLE_MAX_SIZE.
Proof.
  split; [apply (bool_decide_unpack _); vm_compute; exact I|].
  apply (font_write_bins (fun A d => map_to_list d) example_font
    (default [] (font_write (fun A d => map_to_list d) example_font))); [intros A d; reflexivity|].
  vm_compute. reflexivity.
Defined.
