(* ===== verification/Fontgen.v ===== *)
(** * The generator of a font file (pebblesdk/fontgen.py)

    A [Font] collects the glyphs of a font for the code points that are asked for
    ([build_tables]) and writes them with the tables to find them ([bitstring]).  The
    characters of the font come from freetype: [chars] are those that [get_first_char]
    and [get_next_char] give, in their order, and [load_glyph] renders a glyph.  An
    exception is [None]. *)

From stdpp Require Import gmap.
From S2P Require Import Prelude Bytes Loops Glyph.

Definition WILDCARD_CODEPOINT : Z := 0x25AF.
Definition ELLIPSIS_CODEPOINT : Z := 0x2026.
Definition MAX_2_BYTES_CODEPOINT : Z := 0xffff.
Definition MIN_CODEPOINT : Z := 0x20.
Definition MAX_EXTENDED_CODEPOINT : Z := 0x10ffff.
Definition FEATURE_OFFSET_16 : Z := 1.
Definition FEATURE_RLE4 : Z := 2.
Definition HASH_TABLE_SIZE : Z := 255.
Definition MAX_GLYPHS : Z := 256.
Definition MAX_GLYPHS_EXTENDED : Z := HASH_TABLE_SIZE * 128.

Definition hasher (codepoint num_glyphs : Z) : Z := codepoint mod num_glyphs.

#[export] Instance glyph_index_countable : Countable glyph_index.
Proof.
  refine (inj_countable' (fun i => match i with ZERO_WIDTH_GLYPH_INDEX => None | GlyphIndex g => Some g end)
    (fun o => match o with None => ZERO_WIDTH_GLYPH_INDEX | Some g => GlyphIndex g end) _). by intros [].
Defined.

(** The settings of a [Font] that its tables depend on. *)
Record options := mk_options {
  version : Z;
  settings : font_settings;
  max_glyphs : Z;
  in_codepoints : Z -> bool;
  regex : option (Z -> bool);
  codepoints_map : gmap Z Z;
  zero_width_codepts : list Z;
}.

(** [range(MIN_CODEPOINT, MAX_EXTENDED_CODEPOINT)], unless there is a list *)
Definition in_codepoints_of (codepoints : option (list Z)) (c : Z) : bool :=
  match codepoints with
  | None => (MIN_CODEPOINT <=? c) && (c <? MAX_EXTENDED_CODEPOINT)
  | Some l => bool_decide (c ∈ l)
  end.

(** What [build_tables] changes while it adds glyphs. *)
Record tables := mk_tables {
  glyph_table : list (list Z);
  number_of_glyphs : Z;
  codepoint_bytes : Z;
  next_offset : Z;
  glyph_indices_lookup : gmap glyph_index Z;
  glyph_entries : list (Z * Z);
}.

(** The font after [build_tables]. *)
Record built := mk_built {
  b_tables : tables;
  features : Z;
  offset_size_bytes : Z;
  hash_table : list (list Z);
  offset_tables : list (list (list Z));
}.

Definition result_option {A} (r : result A) : option A :=
  match r with inl _ => None | inr a => Some a end.

Section Fontgen.
Variable opts : options.
Variable chars : list (Z * Z).
Variable load_glyph : Z -> rendered.
Variable collected : Z -> Z -> option glyph_data.
(** Whether [is] holds of two equal integers is up to the implementation of Python. *)
Variable same_object : bool.

(** ** Adding glyphs *)

(** [add_glyph], and the entry that every caller appends. *)
Definition add_glyph (st : tables) (request : Z * glyph_index) : option tables :=
  let '(codepoint, gindex) := request in
  let codepoint_bytes := if codepoint >? MAX_2_BYTES_CODEPOINT then 4 else codepoint_bytes st in
  match glyph_indices_lookup st !! gindex with
  | None =>
      glyph_bits ← result_option (glyph_bits (settings opts) load_glyph collected codepoint gindex);
      Some (mk_tables (glyph_table st ++ [glyph_bits]) (number_of_glyphs st + 1) codepoint_bytes
        (next_offset st + len glyph_bits) (<[gindex := next_offset st]> (glyph_indices_lookup st))
        (glyph_entries st ++ [(codepoint, next_offset st)]))
  | Some offset =>
      Some (mk_tables (glyph_table st) (number_of_glyphs st + 1) codepoint_bytes (next_offset st)
        (glyph_indices_lookup st) (glyph_entries st ++ [(codepoint, offset)]))
  end.

Definition codepoint_is_in_subset (codepoint : Z) : bool :=
  if negb ((codepoint =? WILDCARD_CODEPOINT) || (codepoint =? ELLIPSIS_CODEPOINT)) then
    match regex opts with
    | Some matches => matches codepoint && in_codepoints opts codepoint
    | None => in_codepoints opts codepoint
    end
  else true.

(** The loop over the characters of the font, which ends at the glyph index 0. *)
Fixpoint add_chars (st : tables) (chars : list (Z * Z)) : option tables :=
  match chars with
  | [] => Some st
  | (codepoint, gindex) :: chars =>
      if gindex =? 0 then Some st
      else if number_of_glyphs st >? max_glyphs opts then Some st
      else if (codepoint =? WILDCARD_CODEPOINT) && same_object then None
      else if codepoint_is_in_subset codepoint then
        st ← add_glyph st (codepoint, GlyphIndex gindex); add_chars st chars
      else add_chars st chars
  end.

(** [sorted(self.codepoints_map.items(), key=lambda x: x[0])] *)
Definition map_requests : list (Z * glyph_index) :=
  (fun item => (item.1, GlyphIndex item.2)) <$> sorted_by fst (map_to_list (codepoints_map opts)).

Definition initial_tables : tables := mk_tables [le_bytes 4 0] 0 2 4 ∅ [].

Definition add_glyphs : option tables :=
  st ← add_glyph initial_tables (WILDCARD_CODEPOINT, GlyphIndex 0);
  st ← foldM add_glyph st ((fun codept => (codept, ZERO_WIDTH_GLYPH_INDEX)) <$> zero_width_codepts opts);
  if bool_decide (codepoints_map opts = ∅) then add_chars st chars else foldM add_glyph st map_requests.

(** ** The tables *)

(** An item of an offset table. *)
Definition offset_table_format (codepoint_bytes offset_size_bytes : Z) : list nat :=
  [if codepoint_bytes =? 4 then 4%nat else 2%nat; if offset_size_bytes =? 4 then 4%nat else 2%nat].

Definition add_offset (format : list nat) (st : list (list (list Z)) * list Z) (entry : Z * Z)
    : option (list (list (list Z)) * list Z) :=
  let '(codepoint, offset) := entry in
  let glyph_hash := Z.to_nat (hasher codepoint HASH_TABLE_SIZE) in
  item ← pack_us (zip format [codepoint; offset]);
  Some (alter (fun table => table ++ [item]) glyph_hash st.1, alter (fun n => n + 1) glyph_hash st.2).

Definition build_offset_tables (format : list nat) (entries : list (Z * Z))
    : option (list (list (list Z)) * list Z) :=
  foldM (add_offset format)
    (replicate (Z.to_nat HASH_TABLE_SIZE) [], replicate (Z.to_nat HASH_TABLE_SIZE) 0) entries.

Definition add_bucket (item_size : Z) (bucket_sizes : list Z) (st : list (list Z) * Z) (i : Z)
    : option (list (list Z) * Z) :=
  bucket_size ← bucket_sizes !! Z.to_nat i;
  entry ← pack_us [(1%nat, i); (1%nat, bucket_size); (2%nat, st.2)];
  Some (st.1 ++ [entry], st.2 + bucket_size * item_size).

Definition build_hash_table (item_size : Z) (bucket_sizes : list Z) : option (list (list Z)) :=
  fst <$> foldM (add_bucket item_size bucket_sizes) ([], 0) (seqZ 0 HASH_TABLE_SIZE).

Definition build_tables : option built :=
  st ← add_glyphs;
  let glyph_data_bytes := Z.of_nat (sum_list_with length (glyph_table st)) in
  let offset_16 := (version opts =? 3) && (glyph_data_bytes <? 65536) in
  let features := Z.lor (if rle4 (settings opts) then FEATURE_RLE4 else 0) (if offset_16 then FEATURE_OFFSET_16 else 0) in
  let offset_size_bytes := if offset_16 then 2 else 4 in
  '(offset_tables, bucket_sizes) ← build_offset_tables
     (offset_table_format (codepoint_bytes st) offset_size_bytes) (sorted_by fst (glyph_entries st));
  hash_table ← build_hash_table (offset_size_bytes + codepoint_bytes st) bucket_sizes;
  Some (mk_built st features offset_size_bytes hash_table offset_tables).

(** ** The file *)

Definition fontinfo_bits (b : built) : option (list Z) :=
  let fields := [(1%nat, version opts); (1%nat, max_height (settings opts)); (2%nat, number_of_glyphs (b_tables b));
                 (2%nat, WILDCARD_CODEPOINT); (1%nat, HASH_TABLE_SIZE); (1%nat, codepoint_bytes (b_tables b))] in
  if version opts =? 2 then pack_us fields
  else pack_us (fields ++ [(1%nat, 10); (1%nat, features b)]).

Definition bitstring (b : built) : option (list Z) :=
  btstr ← fontinfo_bits b;
  Some (btstr ++ concat (hash_table b) ++ concat (@concat Z <$> offset_tables b) ++ concat (glyph_table (b_tables b))).

Definition convert_to_pfo : option (list Z) := b ← build_tables; bitstring b.
End Fontgen.
