(* ===== verification/FontgenProps.v ===== *)
(** * Generated font files can be read

    [requests] are the code points that [build_tables] asks for, with their glyph indices.
    [build_tables_read]: in the file that is generated, [font_read] finds for every
    requested code point the glyph of its index, as [glyph_bits] made it for the first
    code point with this index. *)

From stdpp Require Import gmap.
From S2P Require Import Prelude Bytes Loops Glyph GlyphProps Fontgen Pfo PfoProps PfoFormat.

Section Requests.
Context (opts : options) (chars : list (Z * Z)) (load_glyph : Z -> rendered)
  (collected : Z -> Z -> option glyph_data) (same_object : bool).

(** ** What is asked for *)

(** The characters of the font that are taken when [n] glyphs are there already. *)
Fixpoint char_requests (n : Z) (chars : list (Z * Z)) : list (Z * glyph_index) :=
  match chars with
  | [] => []
  | (codepoint, gindex) :: chars =>
      if (gindex =? 0) || (n >? max_glyphs opts) then []
      else if codepoint_is_in_subset opts codepoint then
        (codepoint, GlyphIndex gindex) :: char_requests (n + 1) chars
      else char_requests n chars
  end.

Definition first_requests : list (Z * glyph_index) :=
  [(WILDCARD_CODEPOINT, GlyphIndex 0)]
  ++ ((fun codept => (codept, ZERO_WIDTH_GLYPH_INDEX)) <$> zero_width_codepts opts).

Definition requests : list (Z * glyph_index) :=
  first_requests ++ (if bool_decide (codepoints_map opts = ∅) then char_requests (len first_requests) chars
                     else map_requests opts).

(** The data of a glyph index: those of the first request with it. *)
Definition requested_bits (reqs : list (Z * glyph_index)) (g : glyph_index) (d : list Z) : Prop :=
  exists P c Q, reqs = P ++ ((c, g) :: Q) /\ (g ∉ P.*2) /\
    glyph_bits (settings opts) load_glyph collected c g = inr d.

#[local] Abbreviation add_glyph := (add_glyph opts load_glyph collected).

Lemma requested_bits_app reqs reqs' g d : requested_bits reqs g d -> requested_bits (reqs ++ reqs') g d.
Proof.
  intros (P & c & Q & -> & Hg & Hd). exists P, c, (Q ++ reqs'). split; [|done].
  by rewrite <- app_assoc.
Qed.

(** ** The tables while glyphs are added *)

(** The glyph of an index is at the offset that was noted for it. *)
Record tables_ok (reqs : list (Z * glyph_index)) (st : tables) : Prop := {
  ok_number : number_of_glyphs st = len reqs;
  ok_bytes : codepoint_bytes st =
    if bool_decide (Exists (fun r => r.1 > MAX_2_BYTES_CODEPOINT) reqs) then 4 else 2;
  ok_next : next_offset st = len (concat (glyph_table st));
  ok_lookup g o : glyph_indices_lookup st !! g = Some o -> exists i d, glyph_table st !! i = Some d /\
    o = len (concat (take i (glyph_table st))) /\ requested_bits reqs g d;
  ok_known g : g ∈ reqs.*2 -> is_Some (glyph_indices_lookup st !! g);
  ok_entries : Forall2 (fun r e => e.1 = r.1 /\ glyph_indices_lookup st !! r.2 = Some e.2) reqs (glyph_entries st);
}.

Lemma bytes_snoc reqs (r : Z * glyph_index) n :
  n = (if bool_decide (Exists (fun r => r.1 > MAX_2_BYTES_CODEPOINT) reqs) then 4 else 2) ->
  (if r.1 >? MAX_2_BYTES_CODEPOINT then 4 else n) =
  if bool_decide (Exists (fun r => r.1 > MAX_2_BYTES_CODEPOINT) (reqs ++ [r])) then 4 else 2.
Proof.
  intros ->. rewrite Z.gtb_ltb. destruct (Z.ltb_spec MAX_2_BYTES_CODEPOINT r.1).
  - rewrite bool_decide_true; [done|]. apply Exists_app. right. left. lia.
  - destruct (decide (Exists (fun r : Z * glyph_index => r.1 > MAX_2_BYTES_CODEPOINT) reqs)) as [H'|H'].
    + rewrite !bool_decide_true; [done| |done]. apply Exists_app. by left.
    + rewrite !bool_decide_false; [done| |done]. rewrite Exists_app, Exists_cons, Exists_nil. intros [?|[?|?]]; [done|lia|done].
Qed.

Lemma add_glyph_ok reqs st r st' :
  tables_ok reqs st -> add_glyph st r = Some st' -> tables_ok (reqs ++ [r]) st'.
Proof.
  intros [Hn Hb Hx Hl Hk He] H. destruct r as [c g]. unfold Fontgen.add_glyph in H.
  destruct (glyph_indices_lookup st !! g) as [o|] eqn:Hg.
  - injection H as <-. split; cbn [glyph_table number_of_glyphs codepoint_bytes next_offset glyph_indices_lookup glyph_entries].
    + rewrite length_app, Hn. cbn. lia.
    + by apply (bytes_snoc reqs (c, g)).
    + done.
    + intros g' o' H'. destruct (Hl g' o' H') as (i & d & Hi & Ho & Hd). exists i, d. split_and!; [done..|].
      by apply requested_bits_app.
    + intros g'. rewrite fmap_app, elem_of_app. intros [?| ->%list_elem_of_singleton]; [by apply Hk|by exists o].
    + apply Forall2_app; [done|]. by constructor.
  - apply bind_Some in H as (d & Hd & [= <-]).
    assert (requested_bits (reqs ++ [(c, g)]) g d) as Hreq.
    { exists reqs, c, []. split_and!; [done| |unfold result_option in Hd; case_match; congruence].
      intros Hin. apply Hk in Hin as [? ?]. congruence. }
    split; cbn [glyph_table number_of_glyphs codepoint_bytes next_offset glyph_indices_lookup glyph_entries].
    + rewrite length_app, Hn. cbn. lia.
    + by apply (bytes_snoc reqs (c, g)).
    + rewrite concat_app, length_app, Hx. cbn. rewrite app_nil_r. lia.
    + intros g' o' [[<- <-]|[_ H']]%lookup_insert_Some.
      * exists (length (glyph_table st)), d. split_and!; [by apply list_lookup_middle| |done].
        by rewrite take_app_length, Hx.
      * destruct (Hl g' o' H') as (i & d' & Hi & -> & Hd'). exists i, d'.
        pose proof (lookup_lt_Some _ _ _ Hi). split_and!; [by rewrite lookup_app_l by lia| |by apply requested_bits_app].
        by rewrite take_app_le by lia.
    + intros g'. rewrite fmap_app, elem_of_app. intros [H'| ->%list_elem_of_singleton].
      * destruct (decide (g = g')) as [->|]; [rewrite lookup_insert_eq; eauto|].
        rewrite lookup_insert_ne by done. by apply Hk.
      * rewrite lookup_insert_eq. eauto.
    + apply Forall2_app; [|constructor; [by rewrite lookup_insert_eq|constructor]].
      eapply Forall2_impl; [exact He|]. intros [c1 g1] [c2 o2] [-> H2]. split; [done|].
      cbn in *. rewrite lookup_insert_ne; congruence.
Qed.

Lemma foldM_add_ok l reqs st st' :
  tables_ok reqs st -> foldM add_glyph st l = Some st' -> tables_ok (reqs ++ l) st'.
Proof.
  intros H Hf. apply (foldM_inv _ (fun P st => tables_ok (reqs ++ P) st)) in Hf; [done| |by rewrite app_nil_r].
  intros P r Q s s' _ Hs Hr. rewrite app_assoc. by eapply add_glyph_ok.
Qed.

Lemma initial_tables_ok : tables_ok [] initial_tables.
Proof. split; cbn; [done..|intros g o; by rewrite lookup_empty|by intros g ?%elem_of_nil|constructor]. Qed.

(** The loop over the characters takes what [char_requests] says. *)
Lemma add_chars_ok l reqs st st' : tables_ok reqs st -> add_chars opts load_glyph collected same_object st l = Some st' ->
  tables_ok (reqs ++ char_requests (len reqs) l) st'.
Proof.
  revert reqs st. induction l as [|[c g] l IH]; intros reqs st Hok; cbn [add_chars char_requests].
  { intros [= <-]. by rewrite app_nil_r. }
  rewrite (ok_number _ _ Hok).
  destruct (g =? 0); cbn [orb]; [intros [= <-]; by rewrite app_nil_r|].
  destruct (_ >? _); [intros [= <-]; by rewrite app_nil_r|]. destruct (_ && _); [done|].
  destruct (codepoint_is_in_subset _ _); [|by apply IH].
  intros (st1 & H1 & H)%bind_Some. pose proof (add_glyph_ok _ _ _ _ Hok H1) as Hok1.
  specialize (IH _ _ Hok1 H). rewrite <- app_assoc, length_app, Nat2Z.inj_add in IH. done.
Qed.

Lemma add_glyphs_ok st : add_glyphs opts chars load_glyph collected same_object = Some st -> tables_ok requests st.
Proof.
  intros (st1 & H1 & (st2 & H2 & H)%bind_Some)%bind_Some.
  apply (add_glyph_ok _ _ _ _ initial_tables_ok) in H1. apply (foldM_add_ok _ _ _ _ H1) in H2.
  change (([] ++ [(WILDCARD_CODEPOINT, GlyphIndex 0)]) ++ _) with first_requests in H2. unfold requests.
  case_bool_decide; [by eapply add_chars_ok|by eapply foldM_add_ok].
Qed.
End Requests.

(** ** The size of a glyph *)

Lemma pack_bitmap_length l : len (pack_bitmap l) = 4 * ((len l + 31) / 32).
Proof.
  remember (length l) as n eqn:Hn. revert l Hn. induction n as [n IH] using lt_wf_ind. intros l ->.
  destruct (decide (l = [])) as [->|Hne]; [done|]. rewrite pack_bitmap_step by done.
  assert (0 < length l)%nat by (destruct l; [done|cbn; lia]).
  rewrite length_app, length_le_bytes, Nat2Z.inj_add, (IH (length (drop 32 l))); [|rewrite length_drop; lia|done].
  rewrite length_drop. destruct (le_lt_dec 32 (length l)).
  - replace (Z.of_nat (length l) + 31) with (Z.of_nat (length l - 32) + 31 + 1 * 32) by lia.
    rewrite Z.div_add by lia. lia.
  - replace (length l - 32)%nat with 0%nat by lia. dlia.
Qed.

Lemma bitmap_data_sz_words h w : bitmap_data_sz h w = 4 * ((h * w + 31) / 32).
Proof. unfold bitmap_data_sz, ceil_div. generalize (h * w). intros n. dlia. Qed.

(** What the rasteriser gives: a bitmap with all of its pixels. *)
Definition rendered_ok (r : rendered) : Prop :=
  mono_ok r \/ (r_pixel_mode r = 2 /\ len (r_buffer r) = r_rows r * r_width r).

Lemma glyph_bitmap_length threshold r bm : rendered_ok r -> glyph_bitmap threshold r = inr bm ->
  len bm = r_rows r * r_width r.
Proof.
  intros [Hm|[Hm Hl]].
  - destruct (glyph_bitmap_mono threshold r Hm) as (bm' & -> & Hlen & _). by intros [= <-].
  - unfold glyph_bitmap. rewrite Hm. cbn. intros [= <-]. by rewrite length_fmap.
Qed.

Lemma bind_inr {A B} (m : result A) (f : A -> result B) b :
  m ≫= f = inr b <-> exists a, m = inr a /\ f a = inr b.
Proof. destruct m; cbn; naive_solver. Qed.

Lemma of_option_inr {A} (e : error) (o : option A) a : of_option e o = inr a <-> o = Some a.
Proof. destruct o; cbn; naive_solver. Qed.

Lemma pack_header_bytes w h l b a hdr : pack_header w h l b a = Some hdr ->
  exists rest, hdr = w :: h :: rest /\ is_byte w /\ is_byte h /\ len hdr = 5.
Proof.
  intros (w' & [Hw ->]%pack_u_Some & (h' & [Hh ->]%pack_u_Some & (l' & Hl & (b' & Hb & (a' & Ha & [= <-])%bind_Some)%bind_Some)%bind_Some)%bind_Some)%bind_Some.
  assert (forall v bs, pack_s v = Some bs -> len bs = 1) as Hs.
  { intros v bs. unfold pack_s. case_match; [|done]. by intros [= <-]. }
  apply Hs in Hl, Hb, Ha. cbn [le_bytes app]. rewrite !Z.mod_small by (cbn in *; lia). eexists.
  split; [done|]. unfold is_byte. cbn [length]. rewrite !length_app. cbn in *. split_and!; lia.
Qed.

(** The size of a bitmap that is not compressed can be computed from its header. *)
Lemma glyph_bits_sized cfg load_glyph collected c g d :
  rle4 cfg = false -> (forall i, rendered_ok (load_glyph i)) ->
  glyph_bits cfg load_glyph collected c g = inr d -> sized d.
Proof.
  intros Hrle Hr. destruct g as [|g]; cbn [glyph_bits].
  { intros H%of_option_inr. apply pack_header_bytes in H as (rest & -> & ? & ? & Hl). by exists 0, 0, rest. }
  intros (gd & Hgd & ([packed height] & Hp & (hdr & Hh%of_option_inr & [= <-])%bind_inr)%bind_inr)%bind_inr.
  assert (height = g_height gd /\ len packed = bitmap_data_sz (g_width gd) (g_height gd)) as [-> Hlen].
  { unfold packed_bitmap in Hp. unfold glyph_of in Hgd. rewrite Hrle in Hp.
    rewrite bitmap_data_sz_words, (Z.mul_comm (g_width gd)).
    destruct (Z.eqb_spec (r_rows (load_glyph g)) 0) as [E0|]; cbn [negb andb] in *;
      [|destruct (Z.eqb_spec (r_width (load_glyph g)) 0) as [E0|]; cbn [negb andb] in *].
    - injection Hp as <- <-. injection Hgd as <-. cbn. by rewrite E0.
    - injection Hp as <- <-. injection Hgd as <-. cbn. by rewrite E0, Z.mul_0_r.
    - injection Hp as <- <-. split; [done|]. rewrite pack_bitmap_length. f_equal. f_equal. f_equal.
      apply bind_inr in Hgd as (bm & Hbm & Hgd). destruct (collected c g) as [k|].
      + case_match eqn:Hk; [|done]. injection Hgd as <-. apply Z.eqb_eq in Hk. lia.
      + injection Hgd as <-. cbn. by apply glyph_bitmap_length in Hbm. }
  apply pack_header_bytes in Hh as (rest & -> & Hw & Hhb & Hl).
  exists (g_width gd), (g_height gd), (rest ++ packed). split_and!; [done..|]. rewrite length_app. lia.
Qed.

(** ** The tables of the file *)

(** The tables in terms of the format. *)
Definition chains_of (offset_tables : list (list (list Z))) (bucket_sizes : list Z) : chains_state :=
  mk_chains (@concat Z <$> offset_tables) (map_seqZ 0 bucket_sizes).

Lemma build_offset_tables_chained short entries offset_tables bucket_sizes :
  build_offset_tables (chain_item short) entries = Some (offset_tables, bucket_sizes) ->
  chained short entries (chains_of offset_tables bucket_sizes) /\
  bucket_sizes = (fun b => len (filter (in_bin b) entries)) <$> seqZ 0 HASHTABLE_DIRECTORY_SIZE.
Proof.
  intros H.
  apply (foldM_inv _ (fun P st =>
    st.1 = (fun b => item_bytes short <$> filter (in_bin b) P) <$> seqZ 0 HASHTABLE_DIRECTORY_SIZE /\
    st.2 = (fun b => len (filter (in_bin b) P)) <$> seqZ 0 HASHTABLE_DIRECTORY_SIZE /\ Forall (item_ok short) P))
    in H as (H1 & H2 & Hok); cbn [fst snd] in *.
  - split; [|done]. unfold chains_of. split; cbn [chains chain_counts].
    + rewrite H1, <- list_fmap_compose. done.
    + intros b. rewrite lookup_map_seqZ. subst bucket_sizes. destruct (decide (0 <= b < HASHTABLE_DIRECTORY_SIZE)) as [Hb|Hb].
      * rewrite option_guard_True by lia. rewrite list_lookup_fmap, (proj2 (lookup_seqZ _ _ _ b)) by lia. done.
      * assert (filter (in_bin b) entries = []) as ->.
        { destruct (filter (in_bin b) entries) as [|p l] eqn:E; [done|].
          assert (p ∈ filter (in_bin b) entries) as [Hp _]%list_elem_of_filter by (rewrite E; by left).
          pose proof (bin_range p). unfold in_bin in Hp. lia. }
        case_guard; [|done]. cbn. rewrite lookup_ge_None_2; [done|].
        rewrite length_fmap. change (length (seqZ _ _)) with 255%nat. unfold HASHTABLE_DIRECTORY_SIZE in Hb. lia.
    + done.
  - intros P p Q [ots bs] [ots' bs'] _ (E1 & E2 & HP) Hs. cbn [fst snd] in *. unfold add_offset in Hs.
    destruct p as [c o]. apply bind_Some in Hs as (it & Hit & [= <- <-]). cbn [fst snd]. rewrite E1, E2.
    assert (item_bytes short (c, o) = it) as E by (unfold item_bytes; cbn [fst snd]; by rewrite Hit).
    assert (item_ok short (c, o)) as Hok by (unfold item_ok; by rewrite E).
    assert (0 <= c mod 255 < 255) by (by apply Z.mod_pos_bound).
    split_and!; [apply alter_bins; [|done]|apply alter_bins; [|done]|apply Forall_app; by split; [|apply Forall_singleton]];
      intros b; rewrite filter_app, filter_cons, filter_nil; case_decide; case_decide; rewrite ?app_nil_r; try done.
    + rewrite fmap_app. cbn. by rewrite E.
    + rewrite length_app. cbn. lia.
  - split_and!; [done..|constructor].
Qed.

Lemma build_hash_table_entries short entries offset_tables bucket_sizes hash_table :
  let st := chains_of offset_tables bucket_sizes in
  chained short entries st ->
  bucket_sizes = (fun b => len (filter (in_bin b) entries)) <$> seqZ 0 HASHTABLE_DIRECTORY_SIZE ->
  build_hash_table (chain_item_size short) bucket_sizes = Some hash_table ->
  hash_table = entry_bytes st <$> seqZ 0 HASHTABLE_DIRECTORY_SIZE /\
  Forall (fun x => pack_us (entry_fields st x) = Some (entry_bytes st x)) (seqZ 0 HASHTABLE_DIRECTORY_SIZE).
Proof.
  intros st Hst Hbs ([ht off] & H & ->)%fmap_Some.
  apply (foldM_inv _ (fun P acc => acc.1 = entry_bytes st <$> P /\ acc.2 = chain_offset st (len P) /\
    Forall (fun x => pack_us (entry_fields st x) = Some (entry_bytes st x)) P)) in H as (H1 & _ & H2); [done| |done].
  intros P x Q [ht' o] [ht'' o'] Hl (E1 & E2 & Hok) Hstep. cbn [fst snd] in *.
  assert (seqZ 0 HASHTABLE_DIRECTORY_SIZE !! length P = Some x) as Hx
    by (change HASHTABLE_DIRECTORY_SIZE with HASH_TABLE_SIZE; rewrite Hl; by apply list_lookup_middle).
  pose proof Hx as [Hxe _]%lookup_seqZ. rewrite Z.add_0_l in Hxe.
  unfold add_bucket in Hstep. apply bind_Some in Hstep as (n & Hn & (entry & He & [= <- <-])%bind_Some).
  cbn [fst snd] in *.
  assert (n = len (filter (in_bin x) entries)) as ->.
  { rewrite Hbs, Hxe, Nat2Z.id, list_lookup_fmap, Hx in Hn. by injection Hn as <-. }
  assert (pack_us (entry_fields st x) = Some entry) as He'.
  { unfold entry_fields. by rewrite (chained_counts _ _ _ Hst), Hxe, <- E2, <- Hxe. }
  assert (entry_bytes st x = entry) as E by (unfold entry_bytes; by rewrite He').
  assert (chains st !! length P = Some (chain_bytes short entries x)) as Hc
    by (by rewrite (chained_chains _ _ _ Hst), list_lookup_fmap, Hx).
  split_and!.
  - rewrite E1, fmap_app. cbn [fmap list_fmap]. by rewrite E.
  - rewrite length_app. cbn [length]. rewrite (chain_offset_S _ _ _ Hc), E2. unfold chain_bytes.
    rewrite items_length; [lia|]. apply Forall_forall. intros p [_ Hp]%list_elem_of_filter.
    pose proof (chained_ok _ _ _ Hst) as Hall. rewrite Forall_forall in Hall. by apply Hall.
  - apply Forall_app. split; [done|]. apply Forall_singleton. by rewrite E.
Qed.

(** ** The file *)

Section File.
Context (opts : options) (chars : list (Z * Z)) (load_glyph : Z -> rendered)
  (collected : Z -> Z -> option glyph_data) (same_object : bool).

#[local] Abbreviation reqs := (requests opts chars).
#[local] Abbreviation bits_of := (requested_bits opts load_glyph collected reqs).

Lemma requested_bits_inj g d d' : bits_of g d -> bits_of g d' -> d = d'.
Proof.
  intros (P & c & Q & E & Hg & Hd) (P' & c' & Q' & E' & Hg' & Hd').
  assert (forall (A B : list (Z * glyph_index)) x y A' B', A ++ ((x, g) :: A') = B ++ ((y, g) :: B') ->
    g ∉ A.*2 -> g ∉ B.*2 -> x = y) as H.
  { clear. intros A. induction A as [|[a b] A IH]; intros [|[a' b'] B] x y A' B'; cbn; rewrite ?not_elem_of_cons;
      intros H; injection H; [done|naive_solver..|]. intros H' <- <- [_ ?] [_ ?]. by eapply IH. }
  assert (c = c') as <- by (eapply H; [by rewrite <- E|done|done]). congruence.
Qed.

(** When a file is made, every glyph that was asked for could be. *)
Lemma requests_have_bits pfo c g : convert_to_pfo opts chars load_glyph collected same_object = Some pfo ->
  (c, g) ∈ reqs -> exists d, bits_of g d.
Proof.
  intros (b & (st & Hst%add_glyphs_ok & _)%bind_Some & _)%bind_Some Hin.
  destruct (ok_known _ _ _ _ _ Hst g) as [o Ho]; [by apply (list_elem_of_fmap_2 snd) in Hin|].
  destruct (ok_lookup _ _ _ _ _ Hst g o Ho) as (i & d & _ & _ & Hd). by exists d.
Qed.

Section Read.
Context (st : tables).
Hypothesis Hok : tables_ok opts load_glyph collected reqs st.
Hypothesis Hrle : rle4 (settings opts) = false.
Hypothesis Hr : forall i, rendered_ok (load_glyph i).

Lemma entries_codepoints : (glyph_entries st).*1 = reqs.*1.
Proof using Hok.
  generalize (ok_entries _ _ _ _ _ Hok). generalize reqs, (glyph_entries st).
  induction 1 as [|r e l l' [He _] _ IH]; [done|]. by rewrite !fmap_cons, He, IH.
Qed.

Lemma index_glyph g o : glyph_indices_lookup st !! g = Some o ->
  exists d, glyph_at (concat (glyph_table st)) o d /\ bits_of g d.
Proof using Hok Hrle Hr.
  intros (i & d & Hi & -> & Hd)%(ok_lookup _ _ _ _ _ Hok). exists d. split; [|done].
  eexists _, _. split; [by apply concat_split|]. split; [done|].
  destruct Hd as (P & c & Q & _ & _ & Hd). by eapply glyph_bits_sized.
Qed.

Lemma entry_request c o : (c, o) ∈ glyph_entries st ->
  exists g, (c, g) ∈ reqs /\ glyph_indices_lookup st !! g = Some o.
Proof using Hok.
  intros [i Hi]%list_elem_of_lookup. pose proof (ok_entries _ _ _ _ _ Hok) as H.
  destruct (Forall2_lookup_r _ _ _ _ _ H Hi) as ([c' g] & Hr' & [[= ->] Hl]). exists g. split; [|done].
  by eapply list_elem_of_lookup_2.
Qed.

Lemma request_entry c g : (c, g) ∈ reqs -> exists o, (c, o) ∈ glyph_entries st /\ glyph_indices_lookup st !! g = Some o.
Proof using Hok.
  intros [i Hi]%list_elem_of_lookup. pose proof (ok_entries _ _ _ _ _ Hok) as H.
  destruct (Forall2_lookup_l _ _ _ _ _ H Hi) as ([c' o] & He & [[= ->] Hl]). exists o. split; [|done].
  by eapply list_elem_of_lookup_2.
Qed.

Lemma codepoint_bytes_2 : (forall c, c ∈ reqs.*1 -> c <= MAX_2_BYTES_CODEPOINT) -> codepoint_bytes st = 2.
Proof using Hok.
  intros H. rewrite (ok_bytes _ _ _ _ _ Hok), bool_decide_false; [done|].
  rewrite Exists_exists. intros ([c g] & Hin & Hc). cbn in Hc.
  assert (c <= MAX_2_BYTES_CODEPOINT); [|lia]. apply H, list_elem_of_fmap. by exists (c, g).
Qed.
End Read.

(** A file that is generated for code points of two bytes, each asked for once, and without
    compression can be read.  It has the height of the font and the wildcard, and every
    requested code point has the glyph of its index. *)
Theorem build_tables_read pfo :
  version opts = 3 -> rle4 (settings opts) = false -> (forall i, rendered_ok (load_glyph i)) ->
  NoDup reqs.*1 -> (forall c, c ∈ reqs.*1 -> c <= MAX_2_BYTES_CODEPOINT) ->
  convert_to_pfo opts chars load_glyph collected same_object = Some pfo ->
  exists f, font_read pfo = Some f /\ font_ok f /\
    Pfo.max_height f = Glyph.max_height (settings opts) /\ wildcard f = WILDCARD_CODEPOINT /\ compressed f = false /\
    forall c d, has_glyph f c d <-> exists g, (c, g) ∈ reqs /\ bits_of g d.
Proof.
  intros Hv Hrle Hr Hnd Hmax (b & (st & Hst%add_glyphs_ok & H)%bind_Some & (hdr & Hh & [= <-])%bind_Some)%bind_Some.
  rewrite (codepoint_bytes_2 st Hst Hmax), Hv, Hrle in H. cbn [Z.eqb Pos.eqb andb] in H.
  set (short := Z.of_nat (sum_list_with length (glyph_table st)) <? 65536) in H.
  apply bind_Some in H as ([ots bs] & Hots & (ht & Hht & [= <-])%bind_Some).
  replace (offset_table_format 2 _) with (chain_item short) in Hots by by destruct short.
  replace (_ + 2) with (chain_item_size short) in Hht by by destruct short.
  apply build_offset_tables_chained in Hots as [Hch Hbs].
  destruct (build_hash_table_entries _ _ _ _ _ Hch Hbs Hht) as [-> Hent].
  unfold fontinfo_bits in Hh. cbn [b_tables features] in Hh. rewrite Hv, (codepoint_bytes_2 st Hst Hmax) in Hh.
  cbn [Z.eqb Pos.eqb app] in Hh. pose proof (Forall2_length _ _ _ (ok_entries _ _ _ _ _ Hst)) as Hlen.
  assert (number_of_glyphs st = len (sorted_by fst (glyph_entries st))) as Hn
    by (rewrite (ok_number _ _ _ _ _ Hst), sorted_by_perm; lia).
  destruct (file_read short (sorted_by fst (glyph_entries st)) (chains_of ots bs)
    (mk_header 10 (Glyph.max_height (settings opts)) (number_of_glyphs st) WILDCARD_CODEPOINT short false)
    hdr (concat (glyph_table st))) as (f & Hf & Hfok & Hmh & Hwc & Hcomp & Hhas);
    [done|done|done|by rewrite (pack_us_length _ _ Hh)| |done| | |].
  - rewrite (read_header_v3 _ _ _ _ _ _ Hh). by destruct short.
  - by rewrite sorted_by_perm, (entries_codepoints st Hst).
  - intros c o. rewrite sorted_by_perm. intros (g & _ & Hg)%(entry_request st Hst).
    destruct (index_glyph st Hst Hrle Hr g o Hg) as (d & Hd & _). by exists d.
  - exists f. split_and!; [done..|]. intros c d. rewrite Hhas. setoid_rewrite sorted_by_perm. split.
    + intros (o & (g & Hg & Ho)%(entry_request st Hst) & Hd). exists g. split; [done|].
      destruct (index_glyph st Hst Hrle Hr g o Ho) as (d' & Hd' & Hb). by rewrite (glyph_at_inj _ _ _ _ Hd Hd').
    + intros (g & Hg & Hb). destruct (request_entry st Hst c g Hg) as (o & Ho & Hl). exists o. split; [done|].
      destruct (index_glyph st Hst Hrle Hr g o Hl) as (d' & Hd' & Hb'). by rewrite (requested_bits_inj g d d' Hb Hb').
Qed.
End File.


(** ** Examples *)

(** Every glyph is five rows of two pixels. *)
Definition example_rendered (g : Z) : rendered := mk_rendered 2 5 1 [128; 128; 128; 128; (32 * g) mod 256] 1 0 5 192.

Definition example_options (version : Z) (rle4 : bool) : options :=
  mk_options version (mk_settings 14 0 127 (0, 0) rle4) MAX_GLYPHS (in_codepoints_of None) None ∅ [0x591; 0x592].

(** The characters of a font: two of them have the same glyph. *)
Definition example_chars : list (Z * Z) := [(65, 3); (66, 7); (0x2026, 3); (0, 0)].

Definition example_pfo (version : Z) (rle4 : bool) : list Z :=
  default [] (convert_to_pfo (example_options version rle4) example_chars example_rendered (fun _ _ => None) false).

Theorem build_tables_read_witness :
  exists f, font_read (example_pfo 3 false) = Some f /\ wildcard f = 0x25AF /\
    has_glyph f 0x591 [0; 0; 0; 0; 0] /\ has_glyph f 0x2026 [2; 5; 0; 9; 3; 85; 2; 0; 0].
Proof.
  destruct (build_tables_read (example_options 3 false) example_chars example_rendered (fun _ _ => None) false
    (example_pfo 3 false)) as (f & Hf & _ & _ & Hw & _ & H).
  - reflexivity.
  - reflexivity.
  - intros i. left. split; cbn; (reflexivity || lia).
  - apply (bool_decide_unpack _). vm_compute. exact I.
  - vm_compute requests. cbn. intros c. rewrite !elem_of_cons, elem_of_nil. unfold MAX_2_BYTES_CODEPOINT. lia.
  - vm_compute. reflexivity.
  - exists f. split; [exact Hf|]. split; [exact Hw|]. split; apply H.
    + exists ZERO_WIDTH_GLYPH_INDEX. split; [vm_compute; right; left|].
      exists [(0x25AF, GlyphIndex 0)], 0x591, (drop 2 (requests (example_options 3 false) example_chars)).
      split; [reflexivity|]. split; [by apply (bool_decide_unpack _)|reflexivity].
    + exists (GlyphIndex 3). split; [vm_compute; do 5 right; left|].
      exists (take 3 (requests (example_options 3 false) example_chars)), 65,
        (drop 4 (requests (example_options 3 false) example_chars)).
      split; [reflexivity|]. split; [by apply (bool_decide_unpack _)|reflexivity].
Defined.

(** [font_read] takes the number of units of a compressed glyph for its height, and cuts
    off what a narrow glyph has more. *)
Example font_read_rle4_truncates :
  exists d f, glyph_bits (settings (example_options 3 true)) example_rendered (fun _ _ => None) 65 (GlyphIndex 3) = inr d /\
    len d = 13 /\ font_read (example_pfo 3 true) = Some f /\ has_glyph f 65 (take 9 d).
Proof.
  eexists. exists (default (mk_Font 0 0 false ∅) (font_read (example_pfo 3 true))).
  split; [vm_compute; reflexivity|]. split; [reflexivity|]. split; [vm_compute; reflexivity|].
  exists 18. eexists. split; [vm_compute; reflexivity|]. split; [left|reflexivity].
Qed.

(** A file of version 2 has offsets of four bytes, which [font_read] reads as two. *)
Example font_read_version_2 :
  exists f, font_read (example_pfo 2 false) = Some f /\ has_glyph f 66 [0; 0; 0; 2; 5].
Proof.
  exists (default (mk_Font 0 0 false ∅) (font_read (example_pfo 2 false))).
  split; [vm_compute; reflexivity|]. exists 27. eexists. split; [vm_compute; reflexivity|]. split; [left|reflexivity].
Qed.

(** When the font has a glyph for the wildcard it is in the file twice: [is] does not see
    that the code points are equal. *)
Example wildcard_twice :
  requests (example_options 3 false) [(WILDCARD_CODEPOINT, 9)] =
    [(WILDCARD_CODEPOINT, GlyphIndex 0); (0x591, ZERO_WIDTH_GLYPH_INDEX); (0x592, ZERO_WIDTH_GLYPH_INDEX);
     (WILDCARD_CODEPOINT, GlyphIndex 9)] /\
  is_Some (convert_to_pfo (example_options 3 false) [(WILDCARD_CODEPOINT, 9)] example_rendered (fun _ _ => None) false).
Proof. split; [reflexivity|]. by eexists; vm_compute. Qed.
