(* ===== verification/CArray.v ===== *)
(** * Byte arrays in C (pebblesdk/generate_c_byte_array.py)

    A font as the initializer of an array, and the bytes that a compiler reads of it. *)

From stdpp Require Import strings pretty.
From S2P Require Import Prelude Bytes Fontgen.

(** ["0x%02x, "] *)
Definition hex_char (d : Z) : Z := if d <? 10 then 48 + d else 87 + d.
Definition byte_item (b : Z) : list Z :=
  ascii_bytes "0x" ++ [hex_char (b / 16); hex_char (b mod 16)] ++ ascii_bytes ", ".

(** In front of every sixteenth byte, a comment about those before it. *)
Definition row_comment (index : Z) : list Z :=
  ascii_bytes ("/* bytes " +:+ pretty (index - 16) +:+ " - " +:+ pretty index +:+ " */") ++ [10] ++ ascii_bytes "  ".

Definition array_item (index b : Z) : list Z :=
  (if negb (index =? 0) && (index mod 16 =? 0) then row_comment index else []) ++ byte_item b.

Fixpoint array_items (index : Z) (bytes : list Z) : list Z :=
  match bytes with
  | [] => []
  | b :: bytes => array_item index b ++ array_items (index + 1) bytes
  end.

Definition write (bytes var_name : list Z) : list Z :=
  ascii_bytes "static const uint8_t " ++ var_name ++ ascii_bytes "[] = {" ++ [10] ++ ascii_bytes "  "
  ++ array_items 0 bytes ++ [10] ++ ascii_bytes "};" ++ [10].

(** The file of [convert_to_h]: [pfo] are the bytes that [convert_to_pfo] makes, and [name] is the
    family and the style of the font. *)
Definition convert_to_h (pfo name : list Z) : list Z :=
  ascii_bytes "#pragma once" ++ [10; 10] ++ ascii_bytes "#include <stdint.h>" ++ [10; 10]
  ++ ascii_bytes "// TODO: Load font from flash..." ++ [10; 10] ++ write pfo name.

(** ** Reading *)

Definition hex_char_value (c : Z) : option Z :=
  if (48 <=? c) && (c <=? 57) then Some (c - 48) else if (97 <=? c) && (c <=? 102) then Some (c - 87) else None.

(** The constants ["0x.."] of an initializer that are not in comments. *)
Fixpoint read_items (comment : bool) (s : list Z) : list Z :=
  match s with
  | [] => []
  | c :: s' =>
      if comment then read_items (negb ((c =? 42) && bool_decide (head s' = Some 47))) s'
      else if (c =? 47) && bool_decide (head s' = Some 42) then read_items true s'
      else
        match s' with
        | x :: h1 :: h2 :: _ =>
            if (c =? 48) && (x =? 120) then
              match hex_char_value h1, hex_char_value h2 with
              | Some v1, Some v2 => 16 * v1 + v2 :: read_items false s'
              | _, _ => read_items false s'
              end
            else read_items false s'
        | _ => read_items false s'
        end
  end.

Lemma read_skip c s : c <> 47 -> c <> 48 \/ head s <> Some 120 -> read_items false (c :: s) = read_items false s.
Proof.
  intros H1 H2. cbn [read_items]. rewrite (proj2 (Z.eqb_neq _ _) H1). cbn [andb].
  destruct s as [|x [|h1 [|h2 s]]]; try done.
  destruct (Z.eqb_spec c 48), (Z.eqb_spec x 120); try done. subst. by destruct H2.
Qed.

Lemma skip_comment w s : Forall (fun c => c <> 42) w -> read_items true (w ++ s) = read_items true s.
Proof. induction 1 as [|c w Hc _ IH]; [done|]. cbn [app read_items]. by rewrite (proj2 (Z.eqb_neq _ _) Hc). Qed.

Lemma hex_char_range d : 0 <= d < 16 -> hex_char_value (hex_char d) = Some d /\ hex_char d <> 47 /\ hex_char d <> 120.
Proof.
  intros Hd. unfold hex_char, hex_char_value. destruct (Z.ltb_spec d 10).
  - destruct (Z.leb_spec 48 (48 + d)), (Z.leb_spec (48 + d) 57); try lia. cbn [andb]. split; [f_equal|]; lia.
  - destruct (Z.leb_spec 48 (87 + d)), (Z.leb_spec (87 + d) 57), (Z.leb_spec 97 (87 + d)), (Z.leb_spec (87 + d) 102); try lia.
    cbn [andb]. split; [f_equal|]; lia.
Qed.

Lemma read_const h1 h2 v1 v2 s : hex_char_value h1 = Some v1 -> hex_char_value h2 = Some v2 ->
  read_items false (48 :: 120 :: h1 :: h2 :: s) = 16 * v1 + v2 :: read_items false (120 :: h1 :: h2 :: s).
Proof.
  intros E1 E2. assert (read_items false (48 :: 120 :: h1 :: h2 :: s) =
    match hex_char_value h1, hex_char_value h2 with
    | Some v1, Some v2 => 16 * v1 + v2 :: read_items false (120 :: h1 :: h2 :: s)
    | _, _ => read_items false (120 :: h1 :: h2 :: s)
    end) as -> by reflexivity. by rewrite E1, E2.
Qed.

Lemma read_byte b s : is_byte b -> read_items false (byte_item b ++ s) = b :: read_items false s.
Proof.
  unfold is_byte. intros Hb. unfold byte_item.
  destruct (hex_char_range (b / 16)) as (E1 & Hs1 & Hx1); [dlia|]. destruct (hex_char_range (b mod 16)) as (E2 & Hs2 & Hx2); [dlia|].
  set (h1 := hex_char (b / 16)) in *. set (h2 := hex_char (b mod 16)) in *.
  change ((ascii_bytes "0x" ++ [h1; h2] ++ ascii_bytes ", ") ++ s) with (48 :: 120 :: h1 :: h2 :: 44 :: 32 :: s).
  assert (read_items false (120 :: h1 :: h2 :: 44 :: 32 :: s) = read_items false s) as E.
  { rewrite read_skip by (lia || (left; lia)). rewrite !(read_skip h1), (read_skip h2), (read_skip 44), (read_skip 32); [done|..];
      (done || lia || (left; lia) || (right; intros [= Eh]; lia)). }
  rewrite (read_const _ _ _ _ _ E1 E2), E. f_equal. dlia.
Qed.

Lemma decimal_plain w : decimal w -> Forall (fun c => c <> 42) w.
Proof. intros H. eapply Forall_impl; [exact H|]. cbn. lia. Qed.

Lemma read_comment index s : 16 <= index -> read_items false (row_comment index ++ s) = read_items false s.
Proof.
  intros Hi. unfold row_comment. rewrite !ascii_bytes_app.
  replace ((_ ++ [10] ++ ascii_bytes "  ") ++ s) with
    (47 :: 42 :: (ascii_bytes " bytes " ++ ascii_bytes (pretty (index - 16)) ++ ascii_bytes " - " ++ ascii_bytes (pretty index)
      ++ [32]) ++ 42 :: 47 :: 10 :: 32 :: 32 :: s) by (rewrite <- !app_assoc; reflexivity).
  change (read_items true (42 :: (ascii_bytes " bytes " ++ ascii_bytes (pretty (index - 16)) ++ ascii_bytes " - "
      ++ ascii_bytes (pretty index) ++ [32]) ++ 42 :: 47 :: 10 :: 32 :: 32 :: s) = read_items false s).
  change (read_items true ((ascii_bytes " bytes " ++ ascii_bytes (pretty (index - 16)) ++ ascii_bytes " - "
      ++ ascii_bytes (pretty index) ++ [32]) ++ 42 :: 47 :: 10 :: 32 :: 32 :: s) = read_items false s).
  rewrite skip_comment.
  - change (read_items false (47 :: 10 :: 32 :: 32 :: s) = read_items false s).
    assert (read_items false (47 :: 10 :: 32 :: 32 :: s) = read_items false (10 :: 32 :: 32 :: s)) as -> by reflexivity.
    rewrite (read_skip 10), !(read_skip 32); done || lia || (left; lia).
  - rewrite !Forall_app. split_and!; [by apply (bool_decide_unpack _)| |by apply (bool_decide_unpack _)| |by repeat constructor];
      apply decimal_plain, pretty_digits; lia.
Qed.

Lemma read_array index bytes s : 0 <= index -> Forall is_byte bytes ->
  read_items false (array_items index bytes ++ s) = bytes ++ read_items false s.
Proof.
  revert index. induction bytes as [|b bytes IH]; intros index Hi Hb; [done|]. apply Forall_cons in Hb as [Hb Hbs].
  cbn [array_items app]. rewrite <- !app_assoc. unfold array_item. rewrite <- app_assoc.
  assert (forall s, read_items false ((if negb (index =? 0) && (index mod 16 =? 0) then row_comment index else []) ++ s)
    = read_items false s) as ->.
  { intros s'. destruct (Z.eqb_spec index 0), (Z.eqb_spec (index mod 16) 0); cbn [negb andb]; try done.
    apply read_comment. dlia. }
  rewrite read_byte by done. f_equal. apply IH; [lia|done].
Qed.

(** The array that is written is an initializer from which a compiler reads the bytes. *)
Theorem write_reads_back bytes var_name : Forall is_byte bytes ->
  exists items, write bytes var_name =
    ascii_bytes "static const uint8_t " ++ var_name ++ ascii_bytes "[] = {" ++ items ++ ascii_bytes "};" ++ [10] /\
    read_items false items = bytes.
Proof.
  intros Hb. exists ([10] ++ ascii_bytes "  " ++ array_items 0 bytes ++ [10]). split.
  - unfold write. by rewrite <- !app_assoc.
  - cbn [app]. change (ascii_bytes "  ") with [32; 32]. cbn [app]. rewrite (read_skip 10), !(read_skip 32) by (lia || (left; lia)).
    rewrite read_array by (done || lia). change (read_items false [10]) with (@nil Z). by rewrite app_nil_r.
Qed.

(** The names of fonts are not identifiers: [family_name], an underscore and [style_name], which
    may have spaces. *)
Example name_with_space : take 43 (write [7] (ascii_bytes "Open Sans_Light Italic"))
  = ascii_bytes "static const uint8_t Open Sans_Light Italic".
Proof. vm_compute. reflexivity. Qed.
