(* ===== verification/Compose.v ===== *)
(** * Composing a font (fonts/compose.py)

    [compose_font] makes the font of a language pack from one of the firmware: its name says
    the size and the variant, [select_template] which Arabic and Hebrew fonts are rendered
    at which size, and the generated fonts are merged into it.  The scripts that it calls
    are [cmd_pfo] (pebblesdk/fontgen.py) and [merge_files].  An exception is [None]. *)

From stdpp Require Import gmap strings.
From S2P Require Import Prelude Bytes Ranges Regex Glyph Fontgen Pfo.

(** ** Names *)

(** [s.split(c)] *)
Fixpoint split_from (c : Z) (word s : list Z) : list (list Z) :=
  match s with
  | [] => [word]
  | x :: s => if x =? c then word :: split_from c [] s else split_from c (word ++ [x]) s
  end.
Definition split (c : Z) (s : list Z) : list (list Z) := split_from c [] s.

(** [sub in s] *)
Definition contains (sub : string) (s : list Z) : bool := bool_decide (is_Some (index (ascii_bytes sub) s)).

(** The size and the variant that the name of a file says. *)
Definition parse_name (name : list Z) : option (Z * option (list Z)) :=
  stem ← head (split 46 name);
  let input_split := split 95 stem in
  let n := length input_split in
  '(size, variant) ←
    if (3 <? n)%nat then
      size ← input_split !! (n - 2)%nat; variant ← input_split !! (n - 1)%nat; Some (size, Some variant)
    else
      size ← input_split !! (n - 1)%nat; Some (size, None);
  '(size, variant) ←
    match int_of 10 size with
    | Some size => Some (size, variant)
    | None => size' ← variant; size' ← int_of 10 size'; Some (size', Some size)
    end;
  if contains "SERIF" name then
    variant ← variant; Some (size, Some (variant ++ ascii_bytes "_SERIF"))
  else Some (size, variant).

(** ** Templates *)

Record MergeMember := mk_member {
  ttf_path : string;
  member_size : Z;
  with_shaper : bool;
  codepts : option (list Z);
  member_threshold : option Z;
  fix_ijam : bool;
}.

Definition ARABIC_FONT : string := "/Library/Fonts/Tahoma.ttf".
Definition ARABIC_FONT_BOLD : string := "/Library/Fonts/Tahoma Bold.ttf".
Definition ARABIC_FONT_BOLD_SERIF : string := "/Library/Fonts/Times New Roman Bold.ttf".
Definition HEBREW_FONT : string := ARABIC_FONT.
Definition HEBREW_FONT_BOLD : string := ARABIC_FONT_BOLD.
Definition HEBREW_FONT_BOLD_SERIF : string := ARABIC_FONT_BOLD_SERIF.

Definition HEBREW_CODEPT_LIST : list Z := [0x5c0; 0x5c3; 0x5c6; 0x20aa] ++ seqZ 0x5d0 (0x5f5 - 0x5d0).

(** An Arabic and a Hebrew member, with the options that differ. *)
Definition arabic (path : string) (size : Z) (threshold : option Z) (fix_ijam : bool) : MergeMember :=
  mk_member path size true None threshold fix_ijam.
Definition hebrew (path : string) (size : Z) (threshold : option Z) : MergeMember :=
  mk_member path size false (Some HEBREW_CODEPT_LIST) threshold false.

Definition NOTIFICATION_SET_SM : list MergeMember := [arabic ARABIC_FONT 15 None false; hebrew HEBREW_FONT 15 None].
Definition NOTIFICATION_SET_SM_BOLD : list MergeMember :=
  [arabic ARABIC_FONT_BOLD 14 None true; hebrew HEBREW_FONT_BOLD 16 None].
Definition NOTIFICATION_SET_MED : list MergeMember :=
  [arabic ARABIC_FONT 19 (Some 100) true; hebrew HEBREW_FONT 19 (Some 100)].
Definition NOTIFICATION_SET_MED_BOLD : list MergeMember :=
  [arabic ARABIC_FONT_BOLD 19 None true; hebrew HEBREW_FONT_BOLD 19 None].
Definition NOTIFICATION_SET_LG : list MergeMember := [arabic ARABIC_FONT 24 None false; hebrew HEBREW_FONT 26 None].
Definition NOTIFICATION_SET_LG_BOLD : list MergeMember :=
  [arabic ARABIC_FONT_BOLD 24 None false; hebrew HEBREW_FONT_BOLD 26 None].

Definition notification_size_map (size_shift_key : string) : option (list MergeMember * list MergeMember) :=
  if decide (size_shift_key = "small") then Some (NOTIFICATION_SET_SM, NOTIFICATION_SET_SM_BOLD)
  else if decide (size_shift_key = "medium") then Some (NOTIFICATION_SET_MED, NOTIFICATION_SET_MED_BOLD)
  else if decide (size_shift_key = "large") then Some (NOTIFICATION_SET_LG, NOTIFICATION_SET_LG_BOLD)
  else None.

Definition TEMPLATES (notification : list MergeMember * list MergeMember) : list ((Z * option string) * list MergeMember) :=
  [((9, None), [arabic ARABIC_FONT 9 None false; hebrew HEBREW_FONT 9 None]);
   ((14, None), [arabic ARABIC_FONT 13 None false; hebrew HEBREW_FONT 14 None]);
   ((14, Some "BOLD"), [arabic ARABIC_FONT_BOLD 13 None true; hebrew HEBREW_FONT_BOLD 14 None]);
   ((18, None), NOTIFICATION_SET_SM);
   ((18, Some "BOLD"), NOTIFICATION_SET_SM_BOLD);
   ((21, Some "CONDENSED"), [arabic ARABIC_FONT 20 None true; hebrew HEBREW_FONT 21 None]);
   ((24, None), notification.1);
   ((24, Some "BOLD"), notification.2);
   ((28, None), NOTIFICATION_SET_LG);
   ((28, Some "BOLD"), NOTIFICATION_SET_LG_BOLD);
   ((28, Some "BOLD_SERIF"), [arabic ARABIC_FONT_BOLD_SERIF 24 None false; hebrew HEBREW_FONT_BOLD_SERIF 26 None]);
   ((30, Some "BLACK"), [arabic ARABIC_FONT_BOLD 28 None false; hebrew HEBREW_FONT_BOLD 30 None]);
   ((42, Some "LIGHT"), [arabic ARABIC_FONT 38 None false; hebrew HEBREW_FONT 42 None]);
   ((42, Some "BOLD"), [arabic ARABIC_FONT_BOLD 38 None false; hebrew HEBREW_FONT_BOLD 42 None])]%string.

(** [TEMPLATES[(size, variant)]] *)
Fixpoint find_template (size : Z) (variant : option (list Z)) (templates : list ((Z * option string) * list MergeMember))
    : option (list MergeMember) :=
  match templates with
  | [] => None
  | ((s, v), t) :: templates =>
      if (s =? size) && bool_decide (option_map ascii_bytes v = variant) then Some t
      else find_template size variant templates
  end.

(** [None] is a [KeyError]. *)
Definition select_template (size : Z) (variant : option (list Z)) (size_shift_key : string) : option (list MergeMember) :=
  notification ← notification_size_map size_shift_key; find_template size variant (TEMPLATES notification).

(** ** Generating the members *)

(** The features of the file that say whether it is compressed. *)
Definition compressed_flag (pfo : list Z) : option bool :=
  pfo_ver ← pfo !! 0%nat;
  if pfo_ver =? 3 then features ← pfo !! 9%nat; Some (negb (Z.land features 0x02 =? 0)) else Some false.

(** The options on the command line of fontgen.py pfo. *)
Record pfo_args := mk_pfo_args {
  arg_height : Z;
  arg_input_ttf : string;
  arg_collect_bitmaps : bool;
  arg_compress : bool;
  arg_shift : option (Z * Z);
  arg_threshold : option Z;
  arg_map : option (gmap Z Z);
  arg_list : option (list Z);
  arg_zero_width_codept_list : list Z;
}.

Definition fontgen_params (size : Z) (compressed : bool) (shaper_map : gmap Z Z) (member : MergeMember) : pfo_args :=
  mk_pfo_args (member_size member) (ttf_path member) (fix_ijam member) compressed
    (if member_size member =? size then None else Some (0, size - member_size member))
    (member_threshold member) (if with_shaper member then Some shaper_map else None)
    (codepts member) ZERO_WIDTH_CODEPOINTS.

(** The settings that [cmd_pfo] makes of them; a threshold of 0 would not be set. *)
Definition font_options (args : pfo_args) : options :=
  mk_options 3
    (mk_settings (arg_height args) 0
       (match arg_threshold args with Some t => if t =? 0 then 127 else t | None => 127 end)
       (default (0, 0) (arg_shift args)) (arg_compress args))
    MAX_GLYPHS (in_codepoints_of (arg_list args)) None (default ∅ (arg_map args)) (arg_zero_width_codept_list args).

Section Compose.
(** The order of the items of a dictionary, and how Python compares integers with [is]. *)
Variable items : forall A, gmap Z A -> list (Z * A).
Variable same_object : bool.
(** What freetype reads of a font file at a size, and the bitmaps that were edited. *)
Variable face_chars : string -> list (Z * Z).
Variable face_glyph : string -> Z -> Z -> rendered.
Variable edited : string -> Z -> Z -> Z -> option glyph_data.
(** The map of code points that text_shaper.py writes for a font and a subset: an exception
    is [None]. *)
Variable text_shaper : string -> string -> option (gmap Z Z).

Definition cmd_pfo (args : pfo_args) : option (list Z) :=
  convert_to_pfo (font_options args) (face_chars (arg_input_ttf args))
    (face_glyph (arg_input_ttf args) (arg_height args))
    (if arg_collect_bitmaps args then edited (arg_input_ttf args) (arg_height args) else fun _ _ => None)
    same_object.

(** The shaper runs once, for the first member that asks for it: its result is kept. *)
Definition shaper_result_of (subset_key : string) (shaper_result : option (gmap Z Z)) (member : MergeMember)
    : option (option (gmap Z Z)) :=
  if with_shaper member then
    match shaper_result with
    | Some m => Some (Some m)
    | None => m ← text_shaper (ttf_path member) subset_key; Some (Some m)
    end
  else Some shaper_result.

(** The generated members, [None] when the generator fails for one of them. *)
Fixpoint generate (size : Z) (compressed : bool) (subset_key : string) (shaper_result : option (gmap Z Z))
    (template : list MergeMember) : option (option (gmap Z Z) * option (list (list Z))) :=
  match template with
  | [] => Some (shaper_result, Some [])
  | member :: template =>
      shaper_result ← shaper_result_of subset_key shaper_result member;
      match cmd_pfo (fontgen_params size compressed (default ∅ shaper_result) member) with
      | None => Some (shaper_result, None)
      | Some pfo =>
          '(shaper_result, pfos) ← generate size compressed subset_key shaper_result template;
          Some (shaper_result, option_map (cons pfo) pfos)
      end
  end.

(** The composed font; there is none without a template or when a member fails. *)
Definition compose_font (shaper_result : option (gmap Z Z)) (name : list Z) (input_pfo : list Z)
    (subset_key size_shift_key : string) : option (option (gmap Z Z) * option (list Z)) :=
  '(size, variant) ← parse_name name;
  match select_template size variant size_shift_key with
  | None => Some (shaper_result, None)
  | Some template =>
      compressed ← compressed_flag input_pfo;
      '(shaper_result, members) ← generate size compressed subset_key shaper_result template;
      match members with
      | None => Some (shaper_result, None)
      | Some members => pfo ← merge_files items (input_pfo :: members); Some (shaper_result, Some pfo)
      end
  end.

Definition blacklist : list string := ["NUMBERS"; "SUBSET"; "EMOJI"].

(** The main program: the files of a directory, with their contents, and those it writes. *)
Fixpoint compose (in_dir : list Z) (subset_key size_shift_key : string) (shaper_result : option (gmap Z Z))
    (files : list (list Z * list Z)) : option (list (list Z * list Z)) :=
  match files with
  | [] => Some []
  | (name, pfo) :: files =>
      let in_file := in_dir ++ ascii_bytes "/" ++ name in
      if existsb (fun b => contains b in_file) blacklist then compose in_dir subset_key size_shift_key shaper_result files
      else
        '(shaper_result, out) ← compose_font shaper_result name pfo subset_key size_shift_key;
        rest ← compose in_dir subset_key size_shift_key shaper_result files;
        Some (match out with Some pfo => (name, pfo) :: rest | None => rest end)
  end.
End Compose.
