(* ===== verification/ComposeProps.v ===== *)
(** * What a composed font shows

    The font of a language pack has the glyphs of the firmware's font, under those of the
    Arabic member, under those of the Hebrew member. *)

From stdpp Require Import gmap strings.
From S2P Require Import Prelude Bytes Loops Ranges Regex Glyph GlyphProps Fontgen FontgenProps.
From S2P Require Import Pfo PfoProps PfoFormat PfoRoundtrip Compose.

(** ** Layers *)

(** The topmost of several fonts that has a code point. *)
Definition topmost (layers : list (Z -> list Z -> Prop)) (c : Z) (d : list Z) : Prop :=
  exists below L above, layers = below ++ L :: above /\ L c d /\ Forall (fun L' => forall d', ~ L' c d') above.

Lemma topmost_one L c d : topmost [L] c d <-> L c d.
Proof.
  split.
  - intros (below & L' & above & E & H & _). destruct below as [|? []]; [by injection E as ->|done..].
  - intros H. exists [], L, []. by repeat constructor.
Qed.

Lemma topmost_cons L1 L2 layers c d :
  topmost (L1 :: L2 :: layers) c d <->
  topmost ((fun c d => L2 c d \/ L1 c d /\ forall d', ~ L2 c d') :: layers) c d.
Proof.
  split; intros (below & L & above & E & H & Ha).
  - destruct below as [|? below]; injection E as -> E.
    + subst above. apply Forall_cons in Ha as [Ha1 Ha2]. eexists [], _, layers. split; [reflexivity|]. split; [|done]. by right.
    + destruct below as [|? below]; injection E as -> E; subst.
      * eexists [], _, above. split; [reflexivity|]. split; [by left|done].
      * eexists (_ :: below), L, above. done.
  - destruct below as [|? below]; injection E as E1 E2.
    + subst L above. destruct H as [H|[H Hno]]; [exists [L1], L2, layers|exists [], L1, (L2 :: layers)]; (split; [done|]; split; [done|]).
      * done.
      * by constructor.
    + subst layers. exists (L1 :: L2 :: below), L, above. done.
Qed.

Lemma topmost_iff layers layers' c d : Forall2 (fun L L' => forall c d, L c d <-> L' c d) layers layers' ->
  topmost layers c d -> topmost layers' c d.
Proof.
  intros HF (below & L & above & -> & H & Ha). apply Forall2_app_inv_l in HF as (b & r & _ & Hr & ->).
  apply Forall2_cons_inv_l in Hr as (L' & a & HL & Hr & ->). exists b, L', a. split; [done|]. split; [by apply HL|].
  clear -Hr Ha. induction Hr as [|? ? ? ? Hx _ IH]; [constructor|]. apply Forall_cons in Ha as [Hn Ha].
  constructor; [|by apply IH]. intros d' H%Hx. by apply (Hn d').
Qed.

Section Merge.
Variable items : forall A, gmap Z A -> list (Z * A).
Hypothesis items_perm : forall A (d : gmap Z A), items A d ≡ₚ map_to_list d.

(** Merging several fonts puts them over each other. *)
Lemma merge_all f0 fs f :
  font_ok f0 -> Forall (fun f' => font_ok f' /\ compressed f' = compressed f0) fs ->
  foldM (merge_fonts items) f0 fs = Some f ->
  font_ok f /\ max_height f = max_height f0 /\ wildcard f = wildcard f0 /\ compressed f = compressed f0 /\
  forall c d, has_glyph f c d <-> topmost (has_glyph f0 :: (has_glyph <$> fs)) c d.
Proof using items_perm.
  revert f0. induction fs as [|f1 fs IH]; intros f0 H0 Hfs; cbn [foldM].
  { intros [= <-]. split_and!; [done..|]. intros c d. by rewrite topmost_one. }
  apply Forall_cons in Hfs as [[H1 C1] Hfs]. intros (f01 & Hm & Hf)%bind_Some.
  destruct (merged_fonts items items_perm f0 f1 H0 H1) as (f01' & Hm' & Hok & Hh & Hw & Hc & Hg); [done|].
  rewrite Hm in Hm'. injection Hm' as <-. rewrite <- Hc in Hfs.
  destruct (IH f01 Hok Hfs Hf) as (Hokf & Hhf & Hwf & Hcf & Hgf). split_and!; [done|congruence..|].
  intros c d. rewrite Hgf, fmap_cons, topmost_cons.
  split; apply topmost_iff; (constructor; [intros c' d'; by rewrite Hg|]); by apply Forall_Forall2_diag, Forall_true.
Qed.

Lemma merge_files_read pfo pfos f0 fs out :
  font_read pfo = Some f0 -> mapM font_read pfos = Some fs ->
  font_ok f0 -> Forall (fun f' => font_ok f' /\ compressed f' = compressed f0) fs ->
  Forall (fun f' => forall c d, has_glyph f' c d -> sized d) (f0 :: fs) ->
  merge_files items (pfo :: pfos) = Some out ->
  exists f, font_read out = Some f /\ max_height f = max_height f0 /\ wildcard f = wildcard f0 /\
    forall c d, has_glyph f c d <-> topmost (has_glyph f0 :: (has_glyph <$> fs)) c d.
Proof using items_perm.
  intros H0 Hfs Hok Hoks Hsized. unfold merge_files. cbn [mapM]. rewrite H0, Hfs. cbn [mbind option_bind mret option_ret].
  intros (f & Hf & Hw)%bind_Some. destruct (merge_all f0 fs f Hok Hoks Hf) as (Hokf & Hh & Hwc & Hc & Hg).
  destruct (font_write_read items f out items_perm Hokf) as (f' & Hf' & _ & Hh' & Hw' & _ & Hg').
  - intros k g Hk. destruct (font_codepoints _ Hokf k g Hk) as [Hne _].
    destruct (codepoints g) as [|c cs] eqn:Ec; [done|].
    assert (has_glyph f c (data g)) as (below & L & above & E & HL & _)%Hg by (exists k, g; rewrite Ec; split_and!; [done|left|done]).
    assert (L ∈ has_glyph <$> (f0 :: fs)) as (f1 & -> & Hin)%list_elem_of_fmap.
    { rewrite fmap_cons, E. apply elem_of_app. right. left. }
    rewrite Forall_forall in Hsized. by apply (Hsized f1 Hin c).
  - done.
  - exists f'. split_and!; [done|congruence|congruence|]. intros c d. by rewrite Hg'.
Qed.
End Merge.

(** ** The members *)

Section Compose.
Context (items : forall A, gmap Z A -> list (Z * A)) (same_object : bool) (face_chars : string -> list (Z * Z))
  (face_glyph : string -> Z -> Z -> rendered) (edited : string -> Z -> Z -> Z -> option glyph_data)
  (text_shaper : string -> string -> option (gmap Z Z)).
Hypothesis items_perm : forall A (d : gmap Z A), items A d ≡ₚ map_to_list d.

#[local] Abbreviation cmd_pfo := (cmd_pfo same_object face_chars face_glyph edited).
#[local] Abbreviation generate := (generate same_object face_chars face_glyph edited text_shaper).
#[local] Abbreviation compose_font := (compose_font items same_object face_chars face_glyph edited text_shaper).

Lemma generate_keeps size compressed subset_key m template sr r :
  generate size compressed subset_key (Some m) template = Some (sr, r) -> sr = Some m.
Proof.
  revert r. induction template as [|member template IH]; intros r; cbn [Compose.generate]; [by intros [= <- _]|].
  unfold shaper_result_of. destruct (with_shaper member); cbn [mbind option_bind];
    (destruct (cmd_pfo _); [|by intros [= <- _]]; intros ([sr' pfos] & H & [= <- _])%bind_Some; by eapply IH).
Qed.

(** Every member was made with its options, and with the same map if it asks for one. *)
Lemma generate_members size compressed subset_key sr0 template sr pfos :
  generate size compressed subset_key sr0 template = Some (sr, Some pfos) ->
  Forall2 (fun member pfo => cmd_pfo (fontgen_params size compressed (default ∅ sr) member) = Some pfo) template pfos.
Proof.
  revert sr0 pfos. induction template as [|member template IH]; intros sr0 pfos; cbn [Compose.generate].
  { intros [= _ <-]. constructor. }
  intros (sr1 & Hs & H)%bind_Some. destruct (cmd_pfo _) as [pfo|] eqn:Hp; [|done].
  apply bind_Some in H as ([sr' [pfos'|]] & Hg & [= -> <-]). constructor; [|by eapply IH]. rewrite <- Hp. f_equal.
  unfold fontgen_params. unfold shaper_result_of in Hs. destruct (with_shaper member); [|done].
  assert (exists m, sr1 = Some m) as [m ->].
  { destruct sr0; [injection Hs as <-; by eexists|]. apply bind_Some in Hs as (m & _ & [= <-]). by eexists. }
  by rewrite (generate_keeps _ _ _ _ _ _ _ Hg).
Qed.

(** What a member shows: the glyphs that were made for what its options ask for. *)
Definition member_requests (size : Z) (map : gmap Z Z) (member : MergeMember) : list (Z * glyph_index) :=
  requests (font_options (fontgen_params size false map member)) (face_chars (ttf_path member)).

Definition member_glyph (size : Z) (map : gmap Z Z) (member : MergeMember) (c : Z) (d : list Z) : Prop :=
  exists g, (c, g) ∈ member_requests size map member /\
    requested_bits (font_options (fontgen_params size false map member)) (face_glyph (ttf_path member) (member_size member))
      (if fix_ijam member then edited (ttf_path member) (member_size member) else fun _ _ => None)
      (member_requests size map member) g d.

(** A member can be read: its code points are of two bytes and asked for once. *)
Definition member_ok (size : Z) (map : gmap Z Z) (member : MergeMember) : Prop :=
  NoDup (member_requests size map member).*1 /\
  forall c, c ∈ (member_requests size map member).*1 -> c <= MAX_2_BYTES_CODEPOINT.

Hypothesis faces_ok : forall path size i, rendered_ok (face_glyph path size i).

Lemma member_read size map member pfo : member_ok size map member ->
  cmd_pfo (fontgen_params size false map member) = Some pfo ->
  exists f, font_read pfo = Some f /\ font_ok f /\ Pfo.compressed f = false /\
    (forall c d, has_glyph f c d <-> member_glyph size map member c d) /\ forall c d, has_glyph f c d -> sized d.
Proof using faces_ok.
  intros [Hnd Hmax] H.
  destruct (build_tables_read (font_options (fontgen_params size false map member)) (face_chars (ttf_path member))
    (face_glyph (ttf_path member) (member_size member))
    (if fix_ijam member then edited (ttf_path member) (member_size member) else fun _ _ => None) same_object pfo
    eq_refl eq_refl (faces_ok _ _) Hnd Hmax H) as (f & Hf & Hok & _ & _ & Hc & Hg).
  exists f. split_and!; [done..|]. intros c d (g & _ & P & c' & Q & _ & _ & Hd)%Hg.
  exact (glyph_bits_sized _ _ _ c' g d (eq_refl : rle4 (settings (font_options (fontgen_params size false map member))) = false)
    (faces_ok _ _) Hd).
Qed.

Lemma members_read size map template pfos : Forall (member_ok size map) template ->
  Forall2 (fun member pfo => cmd_pfo (fontgen_params size false map member) = Some pfo) template pfos ->
  exists fs, mapM font_read pfos = Some fs /\ Forall (fun f => font_ok f /\ Pfo.compressed f = false) fs /\
    Forall (fun f => forall c d, has_glyph f c d -> sized d) fs /\
    Forall2 (fun L L' => forall c d, L c d <-> L' c d) (has_glyph <$> fs) (member_glyph size map <$> template).
Proof using faces_ok.
  intros Hok H. induction H as [|member pfo template pfos Hp _ IH]; [by exists []; repeat constructor|].
  apply Forall_cons in Hok as [Hm Hok]. destruct (IH Hok) as (fs & Hfs & H1 & H2 & H3).
  destruct (member_read size map member pfo Hm Hp) as (f & Hf & Hfok & Hc & Hg & Hs).
  exists (f :: fs). split; [by cbn; rewrite Hf, Hfs|]. split; [by constructor|].
  split; [by constructor|]. constructor; [exact Hg|exact H3].
Qed.

(** The flag in the file is the one that the merging script reads. *)
Lemma compressed_flag_read pfo f b : font_read pfo = Some f -> compressed_flag pfo = Some b -> Pfo.compressed f = b.
Proof.
  unfold font_read, read_header, compressed_flag.
  intros (hd & (v & Hv & Hh)%bind_Some & (g & _ & [= <-])%bind_Some)%bind_Some. rewrite Hv. cbn [mbind option_bind Pfo.compressed].
  destruct (Z.eqb_spec v 2) as [->|]; cbn [Z.eqb Pos.eqb].
  { apply bind_Some in Hh as (fs & _ & Hh). repeat (destruct fs as [|? fs]; try done). case_match; [|done].
    injection Hh as <-. by intros [= <-]. }
  destruct (v =? 3); [|done]. apply bind_Some in Hh as (fs & Hfs & Hh).
  intros (features & H9 & [= <-])%bind_Some.
  assert (slice_to 10 pfo !! 9%nat = Some features) as H9'.
  { rewrite slice_to_take by lia. by rewrite lookup_take_lt by lia. }
  unfold unpack_us in Hfs. destruct (Nat.eqb_spec (length (slice_to 10 pfo)) (sum_list [1; 1; 2; 2; 1; 1; 1; 1]%nat)) as [Hl|]; [|done].
  destruct (slice_to 10 pfo) as [|b0 [|b1 [|b2 [|b3 [|b4 [|b5 [|b6 [|b7 [|b8 [|b9 [|]]]]]]]]]]]; try done.
  injection H9' as ->. injection Hfs as <-. case_match; [|done]. injection Hh as <-. cbn. by rewrite Z.add_0_r.
Qed.

(** Composing: every font is read back, and they are laid over each other. *)
Lemma composed_layers sr0 name input_pfo subset_key size_shift_key sr out f0 :
  compose_font sr0 name input_pfo subset_key size_shift_key = Some (sr, Some out) ->
  font_read input_pfo = Some f0 -> font_ok f0 -> Pfo.compressed f0 = false ->
  (forall c d, has_glyph f0 c d -> sized d) ->
  exists size variant template,
    parse_name name = Some (size, variant) /\ select_template size variant size_shift_key = Some template /\
    (Forall (member_ok size (default ∅ sr)) template ->
     exists f, font_read out = Some f /\ Pfo.max_height f = Pfo.max_height f0 /\ wildcard f = wildcard f0 /\
       forall c d, has_glyph f c d <->
         topmost (has_glyph f0 :: (member_glyph size (default ∅ sr) <$> template)) c d).
Proof using items_perm faces_ok.
  intros H Hf0 Hok0 Hc0 Hs0. unfold Compose.compose_font in H. apply bind_Some in H as ([size variant] & Hn & H).
  destruct (select_template size variant size_shift_key) as [template|] eqn:Ht; [|done].
  apply bind_Some in H as (compressed & Hcf & ([sr' [members|]] & Hg & H)%bind_Some); [|done].
  apply bind_Some in H as (pfo & Hm & [= -> ->]). exists size, variant, template. split; [done|]. split; [done|]. intros Hoks.
  assert (compressed = false) as -> by (rewrite <- Hc0; symmetry; by eapply compressed_flag_read).
  apply generate_members in Hg. destruct (members_read _ _ _ _ Hoks Hg) as (fs & Hfs & H1 & H2 & H3).
  destruct (merge_files_read items items_perm input_pfo members f0 fs out Hf0 Hfs Hok0) as (f & Hf & Hh & Hw & Hg').
  - eapply Forall_impl; [exact H1|]. intros f' [? ?]. split; [done|congruence].
  - by constructor.
  - done.
  - exists f. split_and!; [done..|]. intros c d. rewrite Hg'. split; apply topmost_iff; (constructor; [done|]); [exact H3|].
    apply Forall2_flip. eapply Forall2_impl; [exact H3|]. intros L L' HL c' d'. symmetry. apply HL.
Qed.
(** The composed font has the height and the wildcard of the firmware's font.  A code point has the
    glyph of the last member of the template that has it, as it was made for that member's
    options, or else the glyph of the firmware's font; it has none when none of them has. *)
Theorem compose_font_layers sr0 name input_pfo subset_key size_shift_key sr out f0 :
  compose_font sr0 name input_pfo subset_key size_shift_key = Some (sr, Some out) ->
  font_read input_pfo = Some f0 -> font_ok f0 -> Pfo.compressed f0 = false ->
  (forall c d, has_glyph f0 c d -> sized d) ->
  exists size variant template,
    parse_name name = Some (size, variant) /\ select_template size variant size_shift_key = Some template /\
    (Forall (member_ok size (default ∅ sr)) template ->
     exists f, font_read out = Some f /\ Pfo.max_height f = Pfo.max_height f0 /\ wildcard f = wildcard f0 /\
       forall c d, has_glyph f c d <->
         topmost (has_glyph f0 :: (member_glyph size (default ∅ sr) <$> template)) c d).
Proof using items_perm faces_ok. exact (composed_layers _ _ _ _ _ _ _ _). Qed.
End Compose.

(** ** Example *)

(** A font of the firmware with the letters A, B and ŀ, and a font with an alef and a beh. *)
Definition compose_name : list Z := ascii_bytes "001_GOTHIC_14.pfo".
Definition compose_font0 : Font := mk_Font 9 65 false (glyphs example_font).
Definition compose_input : list Z := default [] (font_write (fun A d => map_to_list d) compose_font0).
Definition compose_chars (path : string) : list (Z * Z) := [(65, 3); (0x5d0, 4); (0x628, 5)].
Definition compose_map : gmap Z Z := {[ 0x628 := 5 ]}.

Abbreviation composed := (compose_font (fun A d => map_to_list d) false compose_chars (fun _ _ => example_rendered)
  (fun _ _ _ _ => None) (fun _ _ => Some compose_map) None compose_name compose_input "full" "small").
Definition compose_output : list Z := match composed with Some (_, Some out) => out | _ => [] end.

Lemma example_rendered_ok i : rendered_ok (example_rendered i).
Proof. left. split; cbn; (reflexivity || lia). Qed.

Lemma compose_members_ok member : member ∈ [arabic ARABIC_FONT 13 None false; hebrew HEBREW_FONT 14 None] ->
  member_ok compose_chars 14 compose_map member.
Proof.
  assert (forall member, bool_decide (NoDup (member_requests compose_chars 14 compose_map member).*1) &&
    bool_decide (Forall (fun c => c <= MAX_2_BYTES_CODEPOINT) (member_requests compose_chars 14 compose_map member).*1) = true ->
    member_ok compose_chars 14 compose_map member) as H.
  { intros m. rewrite andb_true_iff, !bool_decide_eq_true, Forall_forall. by intros []. }
  intros [->|[->|[]%elem_of_nil]%elem_of_cons]%elem_of_cons; apply H; vm_compute; reflexivity.
Qed.

Lemma compose_input_read : exists f0, font_read compose_input = Some f0 /\ font_ok f0 /\ Pfo.compressed f0 = false /\
  Pfo.max_height f0 = 9 /\ forall c d, has_glyph f0 c d -> sized d.
Proof.
  assert (forall k g, glyphs example_font !! k = Some g -> sized (data g)) as Hs.
  { intros k g [[_ ->]|[_ ->]]%example_font_glyphs; eexists _, _, _; (split; [reflexivity|]);
      unfold is_byte; cbn; (split; [lia|]); split; [lia|reflexivity|lia|reflexivity]. }
  assert (font_ok compose_font0) as Hok0 by (destruct example_font_ok as [H1 H2]; split; [exact H1|exact H2]).
  assert (font_write (fun A d => map_to_list d) compose_font0 = Some compose_input) as Hw by (vm_compute; reflexivity).
  destruct (font_write_read (fun A d => map_to_list d) compose_font0 compose_input (fun A d => reflexivity _) Hok0 Hs Hw)
    as (f0 & Hf & Hok & Hh & _ & Hc & H).
  exists f0. repeat (split; [assumption|]). intros c d (k & g & Hg & _ & <-)%H. by eapply Hs.
Qed.

(** The alef of the Hebrew member, as it was rendered, is in the composed font. *)
Lemma compose_font_layers_witness :
  composed = Some (Some compose_map, Some compose_output) /\
  exists f, font_read compose_output = Some f /\ max_height f = 9 /\ has_glyph f 0x5d0 [2; 5; 0; 9; 3; 85; 1; 0; 0].
Proof.
  assert (composed = Some (Some compose_map, Some compose_output)) as Hc by (vm_compute; reflexivity).
  split; [exact Hc|]. destruct compose_input_read as (f0 & Hf0 & Hok & Hcomp & Hh & Hs).
  destruct (compose_font_layers (fun A d => map_to_list d) false compose_chars (fun _ _ => example_rendered)
    (fun _ _ _ _ => None) (fun _ _ => Some compose_map) (fun A d => reflexivity _)
    (fun _ _ => example_rendered_ok) None compose_name compose_input "full" "small" (Some compose_map) compose_output f0 Hc Hf0 Hok Hcomp Hs)
    as (size & variant & template & Hn & Ht & H).
  injection Hn as <- <-. injection Ht as <-. destruct H as (f & Hf & Hmh & _ & H).
  - apply Forall_forall. exact compose_members_ok.
  - exists f. split; [exact Hf|]. split; [rewrite Hmh; exact Hh|]. apply H.
    exists [has_glyph f0; member_glyph compose_chars (fun _ _ => example_rendered) (fun _ _ _ _ => None) 14 compose_map
       (arabic ARABIC_FONT 13 None false)], (member_glyph compose_chars (fun _ _ => example_rendered) (fun _ _ _ _ => None)
       14 compose_map (hebrew HEBREW_FONT 14 None)), [].
    split; [reflexivity|]. split; [|constructor].
    set (reqs := member_requests compose_chars 14 compose_map (hebrew HEBREW_FONT 14 None)).
    assert (reqs = take (length reqs - 1) reqs ++ [(0x5d0, GlyphIndex 4)]) as E by (vm_compute; reflexivity).
    exists (GlyphIndex 4). fold reqs. split; [rewrite E; apply elem_of_app; right; left|].
    exists (take (length reqs - 1) reqs), 0x5d0, []. split; [exact E|].
    split; [apply (bool_decide_unpack _); vm_compute; exact I|]. vm_compute. reflexivity.
Defined.
