(* ===== verification/ShownProps.v ===== *)
(** * What a composed font shows for every code point

    The Hebrew member shows the wildcard, the zero-width code points and the Hebrew letters that
    its font has, all of them: the limit on the number of glyphs is not reached.  The Arabic
    member shows what the shaper's map has, and the firmware's font the rest. *)

From stdpp Require Import gmap sorting strings.
From S2P Require Import Prelude Bytes Loops Ranges Regex Glyph GlyphProps Fontgen FontgenProps.
From S2P Require Import Pfo PfoProps PfoFormat PfoRoundtrip Compose ComposeProps.

(** ** Templates *)

(** An Arabic and a Hebrew member. *)
Definition member_pair (t : list MergeMember) : Prop :=
  match t with
  | [a; h] => with_shaper a = true /\ codepts a = None /\ with_shaper h = false /\
      codepts h = Some HEBREW_CODEPT_LIST /\ fix_ijam h = false
  | _ => False
  end.

#[local] Instance member_pair_dec t : Decision (member_pair t).
Proof. destruct t as [|a [|h [|]]]; cbn; apply _. Defined.

Lemma find_template_elem size variant ts t : find_template size variant ts = Some t -> exists k, (k, t) ∈ ts.
Proof.
  induction ts as [|[[s v] t'] ts IH]; [done|]. cbn. case_match.
  - intros [= ->]. eexists. left.
  - intros (k & Hk)%IH. exists k. by right.
Qed.

Lemma select_template_pair size variant key t : select_template size variant key = Some t -> member_pair t.
Proof.
  intros (n & Hn & (k & Hk)%find_template_elem)%bind_Some.
  assert (Forall (fun e => member_pair e.2) (TEMPLATES n)) as H; [|rewrite Forall_forall in H; exact (H _ Hk)].
  unfold notification_size_map in Hn.
  do 3 (case_decide; [injection Hn as <-; apply (bool_decide_unpack _); vm_compute; exact I|]). done.
Qed.

(** ** What the members ask for *)

(** The characters of a font, as freetype gives them: each once, none with the glyph 0, and none for the
    wildcard. *)
Record face_ok (chars : list (Z * Z)) : Prop := {
  face_codepoints : NoDup chars.*1;
  face_glyphs : Forall (fun x => x.2 <> 0) chars;
  face_wildcard : WILDCARD_CODEPOINT ∉ chars.*1;
}.

(** The map of the shaper has none of the code points that every font has. *)
Record map_ok (m : gmap Z Z) : Prop := {
  map_not_empty : m <> ∅;
  map_codepoints c : is_Some (m !! c) -> c <= MAX_2_BYTES_CODEPOINT /\ c <> WILDCARD_CODEPOINT /\ c ∉ ZERO_WIDTH_CODEPOINTS;
}.

Definition hebrew_codes : list Z := ELLIPSIS_CODEPOINT :: HEBREW_CODEPT_LIST.

Lemma filter_ext_elem {A} (P Q : A -> Prop) `{forall x, Decision (P x), forall x, Decision (Q x)} (l : list A) :
  (forall x, x ∈ l -> P x <-> Q x) -> filter P l = filter Q l.
Proof.
  induction l as [|x l IH]; intros HPQ; [done|]. rewrite !filter_cons, IH by (intros y Hy; apply HPQ; by right).
  assert (P x <-> Q x) as Hx by (apply HPQ; left).
  destruct (decide (P x)) as [HP|HP], (decide (Q x)) as [HQ|HQ]; tauto.
Qed.

(** When the limit is not reached, all characters of the subset are asked for. *)
Lemma char_requests_all opts n chars : Forall (fun x => x.2 <> 0) chars ->
  n + len (filter (fun x => codepoint_is_in_subset opts x.1 = true) chars) <= max_glyphs opts ->
  char_requests opts n chars =
  (fun x => (x.1, GlyphIndex x.2)) <$> filter (fun x => codepoint_is_in_subset opts x.1 = true) chars.
Proof.
  intros H. revert n. induction H as [|[c g] chars Hg _ IH]; intros n Hn; [done|]. cbn [char_requests]. cbn in Hg.
  rewrite (proj2 (Z.eqb_neq _ _) Hg). cbn [orb]. assert ((n >? max_glyphs opts) = false) as -> by lia.
  rewrite filter_cons in Hn |- *. cbn [fst] in *. destruct (codepoint_is_in_subset opts c) eqn:E.
  - rewrite decide_True in Hn |- * by done. cbn [length] in Hn. rewrite fmap_cons, IH by lia. done.
  - rewrite decide_False in Hn |- * by done. by apply IH.
Qed.

Section Members.
Context (face_chars : string -> list (Z * Z)) (size : Z) (m : gmap Z Z).

#[local] Abbreviation member_requests := (member_requests face_chars size m).

(** The wildcard and the zero-width code points. *)
Definition common_requests : list (Z * glyph_index) :=
  (WILDCARD_CODEPOINT, GlyphIndex 0) :: ((fun c => (c, ZERO_WIDTH_GLYPH_INDEX)) <$> ZERO_WIDTH_CODEPOINTS).

Lemma common_codes : common_requests.*1 = WILDCARD_CODEPOINT :: ZERO_WIDTH_CODEPOINTS.
Proof. reflexivity. Qed.

Lemma common_elem c g : (c, g) ∈ common_requests <->
  c = WILDCARD_CODEPOINT /\ g = GlyphIndex 0 \/ c ∈ ZERO_WIDTH_CODEPOINTS /\ g = ZERO_WIDTH_GLYPH_INDEX.
Proof.
  unfold common_requests. rewrite elem_of_cons, list_elem_of_fmap. split.
  - intros [[= -> ->]|(c' & [= -> ->] & H)]; [by left|by right].
  - intros [[-> ->]|[H ->]]; [by left|right; by exists c].
Qed.

Lemma common_NoDup : NoDup common_requests.*1 /\ forall c, c ∈ common_requests.*1 -> c <= MAX_2_BYTES_CODEPOINT.
Proof.
  rewrite common_codes. rewrite <- Forall_forall. split; apply (bool_decide_unpack _); vm_compute; exact I.
Qed.

(** The characters that the Hebrew member takes of a font. *)
Definition hebrew_chars (chars : list (Z * Z)) : list (Z * Z) := filter (fun x => x.1 ∈ hebrew_codes) chars.

Lemma hebrew_chars_few chars : face_ok chars -> len (hebrew_chars chars) <= 42.
Proof.
  intros [Hnd _ _]. assert ((hebrew_chars chars).*1 ⊆+ hebrew_codes) as H.
  { apply NoDup_submseteq.
    - eapply sublist_NoDup; [exact Hnd|]. apply fmap_sublist, sublist_filter.
    - intros c (x & -> & [Hx _]%list_elem_of_filter)%list_elem_of_fmap. exact Hx. }
  apply submseteq_length in H. rewrite length_fmap in H. change (length hebrew_codes) with 42%nat in H. lia.
Qed.

Lemma hebrew_requests h : with_shaper h = false -> codepts h = Some HEBREW_CODEPT_LIST -> face_ok (face_chars (ttf_path h)) ->
  member_requests h = common_requests ++ ((fun x => (x.1, GlyphIndex x.2)) <$> hebrew_chars (face_chars (ttf_path h))).
Proof.
  intros Hs Hc Hf. unfold ComposeProps.member_requests, requests, font_options, fontgen_params.
  cbn [codepoints_map arg_map]. rewrite Hs. rewrite bool_decide_true by done. unfold first_requests.
  cbn [zero_width_codepts arg_zero_width_codept_list]. fold common_requests. f_equal.
  set (opts := mk_options _ _ _ _ _ _ _).
  assert (forall c, c <> WILDCARD_CODEPOINT -> codepoint_is_in_subset opts c = true <-> c ∈ hebrew_codes) as Hsub.
  { intros c Hw. unfold codepoint_is_in_subset, opts. cbn [in_codepoints regex arg_list]. rewrite Hc.
    unfold in_codepoints_of, hebrew_codes. rewrite elem_of_cons.
    destruct (Z.eqb_spec c WILDCARD_CODEPOINT); [done|]. destruct (Z.eqb_spec c ELLIPSIS_CODEPOINT); cbn [orb negb].
    - split; [by left|done].
    - rewrite bool_decide_eq_true. split; [by right|by intros [|]]. }
  assert (filter (fun x => codepoint_is_in_subset opts x.1 = true) (face_chars (ttf_path h)) = hebrew_chars (face_chars (ttf_path h))) as E.
  { destruct Hf as [_ _ Hw]. unfold hebrew_chars. apply filter_ext_elem. intros x Hx. apply Hsub.
    intros Ex. apply Hw. rewrite <- Ex. by apply list_elem_of_fmap_2. }
  rewrite <- E. apply char_requests_all; [by destruct Hf|]. rewrite E. pose proof (hebrew_chars_few _ Hf) as Hl.
  change (max_glyphs opts) with 256.
  match goal with |- len ?l + _ <= _ => assert (len l = 178) as -> by (vm_compute; reflexivity) end. lia.
Qed.

Lemma arabic_requests a : with_shaper a = true -> m <> ∅ ->
  member_requests a = common_requests ++ ((fun item => (item.1, GlyphIndex item.2)) <$> sorted_by fst (map_to_list m)).
Proof.
  intros Hs Hm. unfold ComposeProps.member_requests, requests, font_options, fontgen_params, map_requests.
  cbn [codepoints_map arg_map]. rewrite Hs. cbn [default from_option id]. rewrite bool_decide_false by done. reflexivity.
Qed.

Lemma hebrew_ok h : with_shaper h = false -> codepts h = Some HEBREW_CODEPT_LIST -> face_ok (face_chars (ttf_path h)) ->
  member_ok face_chars size m h.
Proof.
  intros Hs Hc Hf. unfold member_ok. rewrite (hebrew_requests h Hs Hc Hf), fmap_app, <- list_fmap_compose.
  change (fst ∘ (fun x : Z * Z => (x.1, GlyphIndex x.2))) with (@fst Z Z). destruct common_NoDup as [Hnd Hmax].
  assert (forall c, c ∈ (hebrew_chars (face_chars (ttf_path h))).*1 -> c ∈ hebrew_codes) as Hin.
  { intros c (x & -> & [Hx _]%list_elem_of_filter)%list_elem_of_fmap. exact Hx. }
  assert (Forall (fun c => c ∉ common_requests.*1 /\ c <= MAX_2_BYTES_CODEPOINT) hebrew_codes) as Hh
    by (apply (bool_decide_unpack _); vm_compute; exact I).
  rewrite Forall_forall in Hh. split.
  - apply NoDup_app. split; [exact Hnd|]. split; [intros c Hc1 Hc2%Hin; by apply Hh in Hc2 as []|].
    destruct Hf as [Hf _ _]. eapply sublist_NoDup; [exact Hf|]. apply fmap_sublist, sublist_filter.
  - intros c [Hc1|Hc2%Hin%Hh]%elem_of_app; [by apply Hmax|by destruct Hc2].
Qed.

Lemma arabic_ok a : with_shaper a = true -> map_ok m -> member_ok face_chars size m a.
Proof.
  intros Hs [Hm Hk]. unfold member_ok. rewrite (arabic_requests a Hs Hm), fmap_app, <- list_fmap_compose.
  change (fst ∘ (fun item : Z * Z => (item.1, GlyphIndex item.2))) with (@fst Z Z). destruct common_NoDup as [Hnd Hmax].
  assert (forall c, c ∈ (sorted_by fst (map_to_list m)).*1 -> is_Some (m !! c)) as Hin.
  { intros c (x & -> & Hx)%list_elem_of_fmap. rewrite sorted_by_perm in Hx. destruct x as [c g].
    apply elem_of_map_to_list in Hx. by exists g. }
  split.
  - apply NoDup_app. split; [exact Hnd|]. split.
    + intros c Hc1 Hc2%Hin%Hk. rewrite common_codes, elem_of_cons in Hc1. naive_solver.
    + rewrite sorted_by_perm. apply NoDup_fst_map_to_list.
  - intros c [Hc1|Hc2%Hin%Hk]%elem_of_app; [by apply Hmax|by destruct Hc2].
Qed.
End Members.

(** ** The composed font *)

Section Shown.
Context (items : forall A, gmap Z A -> list (Z * A)) (same_object : bool) (face_chars : string -> list (Z * Z))
  (face_glyph : string -> Z -> Z -> rendered) (edited : string -> Z -> Z -> Z -> option glyph_data)
  (text_shaper : string -> string -> option (gmap Z Z)).
Hypothesis items_perm : forall A (d : gmap Z A), items A d ≡ₚ map_to_list d.
Hypothesis faces_ok : forall path size i, rendered_ok (face_glyph path size i).
Hypothesis chars_ok : forall path, face_ok (face_chars path).

#[local] Abbreviation cmd_pfo := (cmd_pfo same_object face_chars face_glyph edited).
#[local] Abbreviation compose_font := (compose_font items same_object face_chars face_glyph edited text_shaper).
#[local] Abbreviation member_glyph := (member_glyph face_chars face_glyph edited).
#[local] Abbreviation member_requests := (member_requests face_chars).

(** The bitmap of a glyph, as it was made for a member. *)
Definition member_bits (size : Z) (m : gmap Z Z) (member : MergeMember) (g : glyph_index) (d : list Z) : Prop :=
  requested_bits (font_options (fontgen_params size false m member)) (face_glyph (ttf_path member) (member_size member))
    (if fix_ijam member then edited (ttf_path member) (member_size member) else fun _ _ => None)
    (member_requests size m member) g d.

(** The members of a composed font have all been made. *)
Lemma composed_members sr0 name input_pfo subset_key key sr out f0 :
  compose_font sr0 name input_pfo subset_key key = Some (sr, Some out) ->
  font_read input_pfo = Some f0 -> Pfo.compressed f0 = false ->
  exists size variant template pfos, parse_name name = Some (size, variant) /\
    select_template size variant key = Some template /\
    Forall2 (fun member pfo => cmd_pfo (fontgen_params size false (default ∅ sr) member) = Some pfo) template pfos /\
    (forall a template', template = a :: template' -> with_shaper a = true -> sr0 = None ->
      exists m, text_shaper (ttf_path a) subset_key = Some m /\ sr = Some m).
Proof.
  intros H Hf0 Hc0. unfold Compose.compose_font in H. apply bind_Some in H as ([size variant] & Hn & H).
  destruct (select_template size variant key) as [template|] eqn:Ht; [|done].
  apply bind_Some in H as (compressed & Hcf & ([sr' [members|]] & Hg & H)%bind_Some); [|done].
  apply bind_Some in H as (pfo & Hm & [= -> ->]). exists size, variant, template, members. split; [done|]. split; [done|].
  assert (compressed = false) as -> by (rewrite <- Hc0; symmetry; by eapply compressed_flag_read).
  split; [by eapply generate_members|]. intros a t -> Ha ->. cbn in Hg. unfold shaper_result_of in Hg. rewrite Ha in Hg.
  destruct (text_shaper _ _) as [m|]; [|done]. cbn in Hg. case_match; [|done].
  apply bind_Some in Hg as ([sr1 pfos] & Hg & [= -> _]).
  apply generate_keeps in Hg as ->. by exists m.
Qed.

(** The map of the shaper is made once and kept. *)
Lemma generate_map size compressed subset_key sr0 template sr r :
  generate same_object face_chars face_glyph edited text_shaper size compressed subset_key sr0 template = Some (sr, r) ->
  sr = sr0 \/ sr0 = None /\ exists path, sr = text_shaper path subset_key.
Proof.
  revert sr0 r. induction template as [|member template IH]; intros sr0 r; cbn [Compose.generate]; [intros [= <- _]; by left|].
  intros (sr1 & Hs & H)%bind_Some.
  assert (sr = sr1 \/ sr1 = None /\ exists path, sr = text_shaper path subset_key) as Hsr.
  { destruct (cmd_pfo _); [|injection H as <- _; by left]. apply bind_Some in H as ([sr' pfos] & H & [= <- _]). by eapply IH. }
  unfold shaper_result_of in Hs. destruct (with_shaper member); [|by injection Hs as <-].
  destruct sr0 as [m|]; [by injection Hs as <-|]. apply bind_Some in Hs as (m & Hm & [= <-]).
  destruct Hsr as [->|[? _]]; [|done]. right. split; [done|]. by exists (ttf_path member).
Qed.

Lemma compose_font_map sr0 name input_pfo subset_key key sr o :
  compose_font sr0 name input_pfo subset_key key = Some (sr, o) ->
  (sr = sr0 \/ sr0 = None /\ exists path, sr = text_shaper path subset_key) /\ (is_Some o -> is_Some sr).
Proof.
  unfold Compose.compose_font. intros ([size variant] & _ & H)%bind_Some.
  destruct (select_template size variant key) as [template|] eqn:Ht.
  2:{ injection H as <- <-. split; [by left|by intros []]. }
  apply bind_Some in H as (compressed & _ & ([sr' members] & Hg & H)%bind_Some).
  assert (sr = sr') as -> by (destruct members; [by apply bind_Some in H as (pfo & _ & [= <- _])|by injection H as <- _]).
  split; [by eapply generate_map|]. intros Ho. destruct members as [members|]; [|by injection H as <-; destruct Ho].
  pose proof (select_template_pair _ _ _ _ Ht) as Hpair. destruct template as [|a t]; [done|].
  assert (with_shaper a = true) as Ha by (destruct t as [|? [|]]; [done|by destruct Hpair|done]).
  cbn [Compose.generate] in Hg. unfold shaper_result_of in Hg. rewrite Ha in Hg.
  apply bind_Some in Hg as (sr1 & Hs & Hg). assert (is_Some sr1) as [m ->].
  { destruct sr0 as [m|]; [by injection Hs as <-; eauto|]. apply bind_Some in Hs as (m & _ & [= <-]). by exists m. }
  destruct (cmd_pfo _); [|done]. apply bind_Some in Hg as ([sr2 pfos] & Hg & [= <- _]). apply generate_keeps in Hg as ->. by exists m.
Qed.

(** All fonts of a run have the same map. *)
Lemma compose_shares_map in_dir subset_key key sr0 files out :
  compose items same_object face_chars face_glyph edited text_shaper in_dir subset_key key sr0 files = Some out ->
  exists sr, (sr = sr0 \/ sr0 = None /\ exists path, sr = text_shaper path subset_key) /\
    forall name pfo, (name, pfo) ∈ out -> exists input sr1, (name, input) ∈ files /\
      compose_font sr1 name input subset_key key = Some (sr, Some pfo).
Proof.
  revert sr0 out. induction files as [|[name input] files IH]; intros sr0 out; cbn [Compose.compose].
  { intros [= <-]. exists sr0. split; [by left|]. by intros ? ? ?%elem_of_nil. }
  case_match.
  { intros (sr & Hsr & H')%IH. exists sr. split; [done|]. intros n p (i & s1 & Hi & Hc)%H'.
    exists i, s1. split; [by right|done]. }
  intros ([sr' o] & Hc & (rest & (sr & Hsr & Hr)%IH & [= <-])%bind_Some)%bind_Some.
  destruct (compose_font_map _ _ _ _ _ _ _ Hc) as [Hsr' Ho]. exists sr. split; [naive_solver|].
  assert (forall n p, (n, p) ∈ rest -> exists input0 sr1, (n, input0) ∈ (name, input) :: files /\
    compose_font sr1 n input0 subset_key key = Some (sr, Some p)) as Hrest.
  { intros n p (i & s1 & Hi & Hc')%Hr. exists i, s1. split; [by right|done]. }
  destruct o as [pfo|]; [|exact Hrest]. intros n p [[= -> ->]|Hin]%elem_of_cons; [|by apply Hrest].
  exists input, sr0. split; [left|]. destruct (Ho ltac:(eauto)) as [m ->]. destruct Hsr as [->|[? _]]; [exact Hc|done].
Qed.

(** A member shows the glyph of what was asked for, and nothing else. *)
Lemma member_glyph_asked size m member pfo c g d : member_ok face_chars size m member ->
  cmd_pfo (fontgen_params size false m member) = Some pfo -> (c, g) ∈ member_requests size m member ->
  (member_glyph size m member c d <-> member_bits size m member g d) /\ exists d', member_glyph size m member c d'.
Proof.
  intros [Hnd _] Hp Hin. split.
  - split; [|by exists g]. intros (g' & Hin' & Hd).
    by rewrite (NoDup_fst_inj _ _ _ _ Hnd Hin Hin').
  - destruct (requests_have_bits _ _ _ _ _ _ c g Hp Hin) as [d' Hd]. by exists d', g.
Qed.

Lemma topmost_three (L0 L1 L2 : Z -> list Z -> Prop) c d : topmost [L0; L1; L2] c d <->
  L2 c d \/ (L1 c d \/ L0 c d /\ forall d', ~ L1 c d') /\ forall d', ~ L2 c d'.
Proof. by rewrite !topmost_cons, topmost_one. Qed.

(** Which member shows a code point, and with which glyph: [true] is the Arabic one. *)
Definition glyph_of (chars : list (Z * Z)) (m : gmap Z Z) (c : Z) : option (bool * glyph_index) :=
  if decide (c = WILDCARD_CODEPOINT) then Some (false, GlyphIndex 0)
  else if decide (c ∈ ZERO_WIDTH_CODEPOINTS) then Some (false, ZERO_WIDTH_GLYPH_INDEX)
  else match (if decide (c ∈ hebrew_codes) then (list_to_map chars : gmap Z Z) !! c else None) with
       | Some i => Some (false, GlyphIndex i)
       | None => (fun i => (true, GlyphIndex i)) <$> m !! c
       end.

Lemma glyph_of_asked size m a h c : map_ok m -> with_shaper a = true -> with_shaper h = false ->
  codepts h = Some HEBREW_CODEPT_LIST ->
  match glyph_of (face_chars (ttf_path h)) m c with
  | Some (false, g) => (c, g) ∈ member_requests size m h
  | Some (true, g) => (c, g) ∈ member_requests size m a /\ c ∉ (member_requests size m h).*1
  | None => c ∉ (member_requests size m a).*1 /\ c ∉ (member_requests size m h).*1
  end.
Proof using chars_ok.
  intros [Hm Hk] Ha Hh Hc. pose proof (chars_ok (ttf_path h)) as Hf.
  rewrite (hebrew_requests face_chars size m h Hh Hc Hf), (arabic_requests face_chars size m a Ha Hm).
  set (chars := face_chars (ttf_path h)) in *. rewrite !fmap_app, <- !list_fmap_compose.
  change (fst ∘ (fun x : Z * Z => (x.1, GlyphIndex x.2))) with (@fst Z Z). rewrite common_codes.
  unfold glyph_of.
  destruct (decide (c = WILDCARD_CODEPOINT)) as [->|Hw]; [apply elem_of_app; left; apply common_elem; by left|].
  destruct (decide (c ∈ ZERO_WIDTH_CODEPOINTS)) as [Hz|Hz]; [apply elem_of_app; left; apply common_elem; by right|].
  assert (forall i, (c, i) ∈ chars <-> (list_to_map chars : gmap Z Z) !! c = Some i) as Hl.
  { intros i. destruct Hf as [Hnd _ _]. by apply elem_of_list_to_map. }
  assert (c ∉ (sorted_by fst (map_to_list m)).*1 <-> m !! c = None) as Hma.
  { rewrite sorted_by_perm. split.
    - intros Hn. destruct (m !! c) as [g|] eqn:E; [|done]. exfalso. apply Hn, list_elem_of_fmap. exists (c, g).
      split; [done|]. by apply elem_of_map_to_list.
    - intros Hn ([c' g] & -> & Hin%elem_of_map_to_list)%list_elem_of_fmap. cbn in Hn. congruence. }
  assert (c ∉ (hebrew_chars chars).*1 <-> (if decide (c ∈ hebrew_codes) then (list_to_map chars : gmap Z Z) !! c else None) = None) as Hno.
  { split.
    - intros Hn. case_decide as Hc'; [|done]. destruct (_ !! c) as [i|] eqn:E; [|done]. exfalso. apply Hn, list_elem_of_fmap.
      exists (c, i). split; [done|]. apply list_elem_of_filter. split; [done|]. by apply Hl.
    - intros Hn ([c' i] & -> & [Hx Hin]%list_elem_of_filter)%list_elem_of_fmap. cbn in Hx, Hn. rewrite decide_True in Hn by done.
      apply Hl in Hin. cbn in Hin. congruence. }
  assert (forall l : list Z, c ∉ (WILDCARD_CODEPOINT :: ZERO_WIDTH_CODEPOINTS) ++ l <-> c ∉ l) as Hcom.
  { intros l. rewrite not_elem_of_app, not_elem_of_cons. naive_solver. }
  destruct (if decide _ then _ else _) as [i|] eqn:E.
  - apply elem_of_app. right. case_decide as Hc'; [|done]. apply list_elem_of_fmap. exists (c, i). split; [done|].
    apply list_elem_of_filter. split; [done|]. by apply Hl.
  - apply proj2 in Hno. specialize (Hno eq_refl). destruct (m !! c) as [g|] eqn:Em; cbn [fmap option_fmap option_map].
    + split; [|by apply Hcom]. apply elem_of_app. right. apply list_elem_of_fmap. exists (c, g). split; [done|].
      rewrite sorted_by_perm. by apply elem_of_map_to_list.
    + split; apply Hcom; [by apply Hma|done].
Qed.

(** A font shows a code point with a glyph of a member. *)
Definition shown (f : Font) (c size : Z) (m : gmap Z Z) (member : MergeMember) (g : glyph_index) : Prop :=
  (exists d, has_glyph f c d) /\ forall d, has_glyph f c d <-> member_bits size m member g d.

(** A font that has the layers of the firmware's font and of two members. *)
Lemma layers_shown size m a h f0 f c : map_ok m -> with_shaper a = true -> with_shaper h = false ->
  codepts h = Some HEBREW_CODEPT_LIST ->
  (exists pfo, cmd_pfo (fontgen_params size false m a) = Some pfo) ->
  (exists pfo, cmd_pfo (fontgen_params size false m h) = Some pfo) ->
  (forall c d, has_glyph f c d <-> topmost [has_glyph f0; member_glyph size m a; member_glyph size m h] c d) ->
  match glyph_of (face_chars (ttf_path h)) m c with
  | Some (arabic, g) => shown f c size m (if arabic : bool then a else h) g
  | None => forall d, has_glyph f c d <-> has_glyph f0 c d
  end.
Proof using chars_ok.
  intros Hm Ha Hh Hc [pa Hpa] [ph Hph] Hf.
  assert (forall d, has_glyph f c d <-> member_glyph size m h c d \/
    (member_glyph size m a c d \/ has_glyph f0 c d /\ forall d', ~ member_glyph size m a c d') /\
    forall d', ~ member_glyph size m h c d') as Hlay by (intros d; by rewrite Hf, topmost_three).
  pose proof (arabic_ok face_chars size m a Ha Hm) as Hoka.
  pose proof (hebrew_ok face_chars size m h Hh Hc (chars_ok _)) as Hokh.
  assert (forall member, c ∉ (member_requests size m member).*1 -> forall d', ~ member_glyph size m member c d') as Hnot.
  { intros member Hn d' (g & Hin & _). apply Hn. by apply (list_elem_of_fmap_2 fst _ (c, g)). }
  pose proof (glyph_of_asked size m a h c Hm Ha Hh Hc) as Hg.
  destruct (glyph_of _ m c) as [[[] g]|]; unfold shown; setoid_rewrite Hlay.
  - destruct Hg as [Hin Hn]. specialize (Hnot _ Hn).
    pose proof (fun d => member_glyph_asked size m a pa c g d Hoka Hpa Hin) as Hasked.
    destruct (Hasked []) as [_ [d' Hd']]. split; [exists d'; auto|]. intros d. rewrite <- (proj1 (Hasked d)).
    split; [|auto]. intros [H|[[H|[_ H]] _]]; [by apply Hnot in H|done|by apply H in Hd'].
  - pose proof (fun d => member_glyph_asked size m h ph c g d Hokh Hph Hg) as Hasked.
    destruct (Hasked []) as [_ [d' Hd']]. split; [exists d'; auto|]. intros d. rewrite <- (proj1 (Hasked d)).
    split; [|auto]. intros [H|[_ H]]; [done|by apply H in Hd'].
  - destruct Hg as [Hna Hnh]. pose proof (Hnot _ Hna) as Hga. pose proof (Hnot _ Hnh) as Hgh. intros d.
    split; [|auto]. intros [H|[[H|[H _]] _]]; [by apply Hgh in H|by apply Hga in H|done].
Qed.

(** A composed font. *)
Lemma composed_shows sr0 name input_pfo subset_key key sr out f0 :
  compose_font sr0 name input_pfo subset_key key = Some (sr, Some out) ->
  font_read input_pfo = Some f0 -> font_ok f0 -> Pfo.compressed f0 = false ->
  (forall c d, has_glyph f0 c d -> sized d) ->
  exists size variant a h, parse_name name = Some (size, variant) /\
    select_template size variant key = Some [a; h] /\ member_pair [a; h] /\
    (sr0 = None -> exists m, text_shaper (ttf_path a) subset_key = Some m /\ sr = Some m) /\
    (map_ok (default ∅ sr) -> exists f, font_read out = Some f /\ Pfo.max_height f = Pfo.max_height f0 /\
      wildcard f = wildcard f0 /\
      forall c, match glyph_of (face_chars (ttf_path h)) (default ∅ sr) c with
                | Some (arabic, g) => shown f c size (default ∅ sr) (if arabic : bool then a else h) g
                | None => forall d, has_glyph f c d <-> has_glyph f0 c d
                end).
Proof using items_perm faces_ok chars_ok.
  intros H Hf0 Hok0 Hc0 Hs0.
  destruct (composed_members _ _ _ _ _ _ _ _ H Hf0 Hc0) as (size & variant & t & pfos & Hn & Ht & Hp & Hsr).
  destruct (composed_layers items same_object face_chars face_glyph edited text_shaper items_perm faces_ok
    _ _ _ _ _ _ _ _ H Hf0 Hok0 Hc0 Hs0) as (? & ? & ? & Hn' & Ht' & Hl).
  rewrite Hn in Hn'. injection Hn' as <- <-. rewrite Ht in Ht'. injection Ht' as <-.
  pose proof (select_template_pair _ _ _ _ Ht) as Hpair. destruct t as [|a [|h [|]]]; [done..| |done].
  exists size, variant, a, h. split_and!; [done..|by apply (Hsr a [h]); [|by destruct Hpair]|]. intros Hm.
  destruct Hpair as (Ha & Hca & Hh & Hc & Hi). destruct Hl as (f & Hf & Hmh & Hw & Hg).
  { apply Forall_cons. split; [by apply arabic_ok|]. apply Forall_singleton. by apply hebrew_ok. }
  exists f. split_and!; [done..|]. intros c.
  apply Forall2_cons_inv_l in Hp as (pa & ? & Hpa & (ph & ? & Hph & _)%Forall2_cons_inv_l & _).
  eapply layers_shown; eauto.
Qed.

End Shown.

(** ** Example *)

Lemma compose_chars_ok path : face_ok (compose_chars path).
Proof. split; apply (bool_decide_unpack _); vm_compute; exact I. Qed.

Lemma compose_map_ok : map_ok compose_map.
Proof.
  split; [done|]. unfold compose_map. intros c [g [<- _]%lookup_singleton_Some]. split_and!; [done..|].
  apply (bool_decide_unpack _); vm_compute; exact I.
Qed.

