(* ===== verification/Generator.v ===== *)
(** * The generator of firmwares and language packs (generator.py)

    From the firmware of a hardware revision, its disassembly and the library of the SDK to
    the bundle that is written, and from the composed fonts to the language packs.  What
    is downloaded, the archives, and the programs that compile and disassemble are
    parameters.  An exception is [None]. *)

From stdpp Require Import gmap strings pretty.
From S2P Require Import Prelude Bytes Bundle Regex Disasm Patcher PatchScript FindFonts Glyph Compose.

(** ** Platforms *)

Definition hw_rev_platform_map : list (string * string) :=
  [("ev2_4", "aplite"); ("v1_5", "aplite"); ("v2_0", "aplite"); ("snowy_dvt", "basalt"); ("snowy_s3", "basalt");
   ("spalding", "chalk"); ("silk", "diorite")]%string.

Definition platform_subset_map : list (string * string) :=
  [("aplite", "arabic"); ("basalt", "full"); ("chalk", "full"); ("diorite", "full")]%string.

Definition size_shift_keys : list string := ["small"; "medium"; "large"].

(** [d[k]] of a literal dictionary *)
Fixpoint get {A} (d : list (string * A)) (k : string) : option A :=
  match d with
  | [] => None
  | (k', v) :: d => if decide (k' = k) then Some v else get d k
  end.

(** ** The version of the SDK *)

(** [s.strip("v")] *)
Fixpoint lstrip_v (s : list Z) : list Z :=
  match s with x :: s' => if x =? 118 then lstrip_v s' else s | [] => [] end.
Definition strip_v (s : list Z) : list Z := rev (lstrip_v (rev (lstrip_v s))).

(** [s.rpartition(".")[0]]: what is before the last dot, or nothing *)
Definition before_last_dot (s : list Z) : list Z :=
  match index [46] (rev s) with
  | Some i => rev (drop (S (Z.to_nat i)) (rev s))
  | None => []
  end.

Definition sdk_version (versions : list (list Z)) (fw_ver : list Z) : list Z :=
  let fw_ver := strip_v fw_ver in
  if bool_decide (fw_ver ∈ versions) then fw_ver else before_last_dot fw_ver.

(** ** The fonts of a firmware *)

(** A directory in which files are written one after the other; a file that is there is replaced. *)
Definition write_files (files : list (string * list Z)) : gmap string (list Z) :=
  foldl (fun dir file => <[file.1 := file.2]> dir) ∅ files.

Section ExtractFonts.
(** The order of the items of a dictionary, and in which the system lists the files of a directory. *)
Variable items : table -> list (list Z * Z).
Variable listing : list string -> list string.

(** [glob] of a pattern ["%s*"] *)
Definition glob_prefix (dir : gmap string (list Z)) (start : string) : list string :=
  filter (fun file => String.prefix start file = true) (listing (map_to_list dir).*1).

(** The resources are unpacked, and those that the image names as fonts are copied under new names. *)
Definition extract_fonts (bin pbpack : list Z) : option (gmap string (list Z)) :=
  resources ← unpack_resources pbpack;
  let res_path := write_files ((fun r => (three_digits r.1, r.2)) <$> resources) in
  result ← extract_system_font_resource_ids bin;
  files ← copies (glob_prefix res_path) (items result);
  fonts ← mapM (fun f => data ← res_path !! f.1; Some (f.2, data)) files;
  Some (write_files fonts).
End ExtractFonts.

(** ** Language packs *)

(** The fonts of a language pack, in the order of their resources. *)
Definition font_seq : list string :=
  ["GOTHIC_14"; "GOTHIC_14_BOLD"; "GOTHIC_18"; "GOTHIC_18_BOLD"; "GOTHIC_24"; "GOTHIC_24_BOLD"; "GOTHIC_28"; "GOTHIC_28_BOLD";
   "BITHAM_30_BLACK"; "BITHAM_42_BOLD"; "BITHAM_42_LIGHT"; "BITHAM_42_MEDIUM_NUMBERS"; "BITHAM_34_MEDIUM_NUMBERS";
   "BITHAM_34_LIGHT_SUBSET"; "BITHAM_18_LIGHT_SUBSET"; "ROBOTO_CONDENSED_21"; "ROBOTO_BOLD_SUBSET_49"; "DROID_SERIF_28_BOLD"].

(** [glob] of a pattern ["*%s*"]: the files of a directory, in the order of the system, whose
    names have the text. *)
Definition glob_containing (fonts_dir : list string) (font : string) : list string :=
  filter (fun file => contains font (ascii_bytes file) = true) fonts_dir.

(** The paths by the numbers of the resources: the translation, and a font or nothing. *)
Definition langpack_resmap (mo : string) (fonts_dir : list string) : gmap Z (option string) :=
  list_to_map ((1, Some mo) :: imap (fun resid_off font => (Z.of_nat resid_off + 2, head (glob_containing fonts_dir font))) font_seq).

Definition generate_langpack (read_file : string -> list Z) (mo : string) (fonts_dir : list string) : option (list Z) :=
  pack_resources read_file (langpack_resmap mo fonts_dir) 256.

Section Langpacks.
(** What composing the fonts needs, as in Compose. *)
Context (items : forall A, gmap Z A -> list (Z * A)) (same_object : bool) (face_chars : string -> list (Z * Z))
  (face_glyph : string -> Z -> Z -> rendered) (edited : string -> Z -> Z -> Z -> option glyph_data)
  (text_shaper : string -> string -> option (gmap Z Z)).
(** The order in which the system lists the files of a directory. *)
Variable listing : list string -> list string.

(** The directory of the composed fonts. *)
Definition generate_fonts (in_dir : list Z) (subset_key size_shift_key : string) (originals : list (string * list Z))
    : option (list (string * list Z)) :=
  fonts ← compose items same_object face_chars face_glyph edited text_shaper in_dir subset_key size_shift_key None
            (List.map (fun f => (ascii_bytes f.1, f.2)) originals);
  Some (List.map (fun f => (string_of f.1, f.2)) fonts).

(** The files that the pack is made of: the fonts, and the translation. *)
Definition read_file_of (mo : list Z) (fonts : list (string * list Z)) (path : string) : list Z :=
  default mo (get fonts path).

Definition write_langpack (in_dir : list Z) (subset_key size_shift_key : string) (originals : list (string * list Z))
    (mo_path : string) (mo : list Z) : option (list Z) :=
  fonts ← generate_fonts in_dir subset_key size_shift_key originals;
  generate_langpack (read_file_of mo fonts) mo_path (listing (List.map fst fonts)).

(** One pack for each size; [out_pbl_paths] is the number of files that the command line has
    for them. *)
Definition write_langpacks (out_pbl_paths : nat) (hw_rev : string) (in_dir : list Z) (originals : list (string * list Z))
    (mo_path : string) (mo : list Z) : option (list (list Z)) :=
  if decide (out_pbl_paths = length size_shift_keys) then
    platform ← get hw_rev_platform_map hw_rev;
    subset_key ← get platform_subset_map platform;
    mapM (fun size_shift_key => write_langpack in_dir subset_key size_shift_key originals mo_path mo) size_shift_keys
  else None.
End Langpacks.

(** ** The firmware *)

Section Firmware.
Variable build : string -> string -> Z -> option (gmap string Z * list Z).

(** patch.py with its arguments: the patched image. *)
Definition patch_firmware (fuel : nat) (hw_rev target_bin_path : string) (bin deasm libpebble_deasm : list Z)
    : option (list Z) :=
  platform ← get hw_rev_platform_map hw_rev;
  p ← make_patcher platform target_bin_path bin deasm libpebble_deasm;
  match patch fuel p with
  | inr p => finalize build p
  | inl _ => None
  end.

(** The firmware that is put into the bundle. *)
Definition generate_firmware (fuel : nat) (hw_rev target_bin_path : string) (fw_ver : list Z) (rev_no : Z)
    (bin deasm libpebble_deasm : list Z) : option firmware_entry :=
  patched_bin ← patch_firmware fuel hw_rev target_bin_path bin deasm libpebble_deasm;
  pack_firmware fw_ver rev_no patched_bin.
End Firmware.
