(* ===== verification/GeneratorProps.v ===== *)
(** * What the generator writes

    Language packs have the fonts at the numbers that the watch expects, and every font
    that is composed has a template; the firmware of a bundle fits in flash. *)

From stdpp Require Import gmap strings pretty.
From S2P Require Import Prelude Bytes Crc Bundle BundleProps Regex Patcher PatcherProps PatchScript PatchScriptProps Compose Generator.

(** ** Platforms *)

Lemma get_elem {A} (d : list (string * A)) k v : get d k = Some v -> (k, v) ∈ d.
Proof.
  induction d as [|[k' v'] d IH]; [done|]. cbn [get]. case_decide; [intros [= <-]; subst; left|intros; right; auto].
Qed.

(** Every hardware revision has a platform for which there is a subset of the alphabet and, whatever
    the boot loader, a size of the image. *)
Theorem platforms_known hw_rev platform bootloader_size :
  get hw_rev_platform_map hw_rev = Some platform ->
  is_Some (get platform_subset_map platform) /\ is_Some (max_image_size platform bootloader_size).
Proof.
  intros H%get_elem. unfold hw_rev_platform_map in H.
  repeat (apply elem_of_cons in H as [[= -> ->]|H]; [split; by eexists|]). by apply not_elem_of_nil in H.
Qed.

(** ** Fonts *)

(** The names of composed fonts: digits, and a font of the firmware. *)
Definition named (file font : string) : Prop :=
  font ∈ font_seq /\ exists digits, Forall (fun c => 48 <= c <= 57) digits /\
    ascii_bytes file = digits ++ ascii_bytes ("_" +:+ font +:+ ".pfo").

(** A file whose name has none of the fonts of language packs. *)
Definition other_font (file : string) : Prop := forall font, font ∈ font_seq -> contains font (ascii_bytes file) = false.

Lemma contains_spec sub s : contains sub s = true <-> exists pre post, s = pre ++ ascii_bytes sub ++ post.
Proof.
  unfold contains. rewrite bool_decide_eq_true. split.
  - intros [i (_ & (pre & post & -> & _) & _)%index_Some]. eauto.
  - intros (pre & post & ->). destruct (index _ _) eqn:E; [by eexists|]. exfalso.
    apply (proj1 (index_None _ _) E (len pre)). by exists pre, post.
Qed.

(** The name of one font in that of another one. *)
Lemma fonts_in_names : Forall (fun font => Forall (fun font' =>
    contains font (ascii_bytes ("_" +:+ font' +:+ ".pfo")) = true -> font' = font \/ font' = font +:+ "_BOLD") font_seq) font_seq.
Proof. apply (bool_decide_unpack _). vm_compute. exact I. Qed.

Lemma fonts_start : Forall (fun font => 57 < default 0 (head (ascii_bytes font))) font_seq.
Proof. apply (bool_decide_unpack _). vm_compute. exact I. Qed.

(** Digits in front of a name do not have a text that starts with a letter. *)
Lemma contains_digits font digits rest : Forall (fun c => 48 <= c <= 57) digits -> 57 < default 0 (head (ascii_bytes font)) ->
  contains font (digits ++ rest) = contains font rest.
Proof.
  intros Hd Hlt. apply eq_true_iff_eq. rewrite !contains_spec. split; [|intros (pre & post & ->); exists (digits ++ pre), post; by rewrite <- app_assoc].
  intros (pre & post & E). apply app_eq_inv in E as [(k & -> & E)|(k & -> & E)]; [|by exists k, post].
  destruct k as [|x k]; [by exists [], post|]. exfalso. destruct (ascii_bytes font) as [|c w]; [cbn in Hlt; lia|].
  injection E as <- E. cbn in Hlt. apply Forall_app in Hd as [_ Hd]. apply Forall_cons in Hd as [Hx _]. lia.
Qed.

Lemma named_contains font font' file : font ∈ font_seq -> named file font' -> contains font (ascii_bytes file) = true ->
  font' = font \/ font' = font +:+ "_BOLD".
Proof.
  intros Hf [Hf' (digits & Hd & ->)] H. pose proof fonts_start as Hs. pose proof fonts_in_names as Hn.
  rewrite Forall_forall in Hs, Hn. specialize (Hn font Hf). rewrite Forall_forall in Hn. apply (Hn font' Hf').
  rewrite contains_digits in H; [done|done|by apply Hs].
Qed.

(** The resources of a language pack in their order. *)
Lemma langpack_items mo fonts_dir : sorted_items (langpack_resmap mo fonts_dir) =
  (1, Some mo) :: imap (fun i font => (Z.of_nat i + 2, head (glob_containing fonts_dir font))) font_seq.
Proof.
  unfold langpack_resmap. 
  assert (forall ms : list (option string), length ms = 18%nat ->
    sorted_items (list_to_map ((1, Some mo) :: imap (fun i m => (Z.of_nat i + 2, m)) ms))
    = (1, Some mo) :: imap (fun i m => (Z.of_nat i + 2, m)) ms) as H.
  { intros ms Hl. do 18 (destruct ms as [|? ms]; [done|]). destruct ms; [|done]. vm_compute. reflexivity. }
  specialize (H ((fun font => head (glob_containing fonts_dir font)) <$> font_seq) eq_refl).
  by rewrite imap_fmap in H.
Qed.

(** A language pack has nineteen resources: the translation is 1, and from 2 on come the fonts that the
    watch expects there.  A font is one whose name has the expected name, if there is any: so
    it is the expected font, but for the regular sizes it may also be the bold one. *)
Theorem langpack_fonts read_file mo fonts_dir f :
  generate_langpack read_file mo fonts_dir = Some f ->
  (forall file, file ∈ fonts_dir -> (exists font, named file font) \/ other_font file) ->
  exists header entries data, f = header ++ concat entries ++ replicate (16 * (256 - 19)) 0 ++ data /\
    length entries = 19%nat /\ Forall (fun e => length e = 16%nat) entries /\
    (forall e, entries !! 0%nat = Some e -> entry_ok read_file data (1, Some mo) e) /\
    forall i font, font_seq !! i = Some font -> exists e path,
      entries !! S i = Some e /\ entry_ok read_file data (Z.of_nat i + 2, path) e /\
      match path with
      | Some file => file ∈ fonts_dir /\ (named file font \/ named file (font +:+ "_BOLD"))
      | None => forall file, file ∈ fonts_dir -> ~ named file font
      end.
Proof.
  intros H Hn. destruct (pack_resources_layout _ _ _ _ H) as (header & entries & Hf & _ & He & _).
  rewrite langpack_items in Hf, He. destruct (entries_length _ _ _ _ He) as [H16 Hl]. 
  eexists header, entries, _. split; [exact Hf|]. split; [done|]. split; [done|]. split.
  - intros e H0. destruct entries as [|e' entries]; [done|]. injection H0 as ->. by apply Forall2_cons in He as [He _].
  - intros i font Hi. apply Forall2_cons_inv_l in He as (e0 & es & _ & He & ->).
    assert (imap (fun i font => (Z.of_nat i + 2, head (glob_containing fonts_dir font))) font_seq !! i
      = Some (Z.of_nat i + 2, head (glob_containing fonts_dir font))) as Hlook by (rewrite list_lookup_imap, Hi; done).
    destruct (Forall2_lookup_l _ _ _ _ _ He Hlook) as (e & Hei & Hok). eexists e, _. split; [done|]. split; [exact Hok|].
    destruct (head (glob_containing fonts_dir font)) as [file|] eqn:Eh.
    + assert (file ∈ glob_containing fonts_dir font) as [Hc Hin]%list_elem_of_filter.
      { destruct (glob_containing fonts_dir font); [done|]. injection Eh as ->. left. }
      split; [done|]. destruct (Hn file Hin) as [[font' Hnamed]|Ho].
      2:{ rewrite (Ho font) in Hc; [done|by eapply list_elem_of_lookup_2]. }
      destruct (named_contains font font' file) as [->| ->]; [by eapply list_elem_of_lookup_2|done|done|by left|by right].
    + intros file Hin [Hf' (digits & _ & E)]. assert (file ∈ glob_containing fonts_dir font) as Hg.
      { apply list_elem_of_filter. split; [|done]. rewrite E. apply contains_spec.
        exists (digits ++ ascii_bytes "_"), (ascii_bytes ".pfo").
        rewrite !ascii_bytes_app, <- !app_assoc. done. }
      destruct (glob_containing fonts_dir font); [by apply elem_of_nil in Hg|done].
Qed.

(** ** Templates *)

Lemma split_from_app c word digits s : Forall (fun x => x <> c) digits -> split_from c word (digits ++ s) = split_from c (word ++ digits) s.
Proof.
  revert word. induction digits as [|x digits IH]; intros word H; cbn; [by rewrite app_nil_r|].
  apply Forall_cons in H as [Hx H]. destruct (Z.eqb_spec x c); [done|]. by rewrite IH, <- app_assoc.
Qed.

Lemma split_from_head c word s : exists w ws, split_from c word s = (word ++ w) :: ws /\ split_from c [] s = w :: ws.
Proof.
  revert word. induction s as [|x s IH]; intros word; cbn; [exists [], []; by rewrite app_nil_r|].
  destruct (x =? c); [exists [], (split_from c [] s); by rewrite app_nil_r|].
  destruct (IH (word ++ [x])) as (w & ws & E1 & E2), (IH [x]) as (w' & ws' & E3 & E4). rewrite E2 in E4.
  injection E4 as <- <-. exists (x :: w), ws. rewrite E1, E3. by rewrite <- app_assoc.
Qed.

(** The number at the start of the name does not matter. *)
Lemma parse_name_digits digits rest : Forall (fun c => 48 <= c <= 57) digits ->
  parse_name (digits ++ 95 :: rest) = parse_name (95 :: rest).
Proof.
  intros Hd. assert (forall c, c < 48 \/ 57 < c -> Forall (fun x => x <> c) digits) as Hne.
  { intros c Hc. eapply Forall_impl; [exact Hd|]. cbn. lia. }
  unfold parse_name, split. rewrite (split_from_app 46) by (apply Hne; lia). cbn [app].
  destruct (split_from_head 46 digits (95 :: rest)) as (w & ws & -> & E2). rewrite E2. cbn [head mbind option_bind].
  cbn [split_from Z.eqb Pos.eqb app] in E2. destruct (split_from_head 46 [95] rest) as (w' & ws' & E3 & _). rewrite E3 in E2.
  injection E2 as <- <-. rewrite (split_from_app 95) by (apply Hne; lia). cbn [app split_from Z.eqb Pos.eqb].
  set (ws := split_from 95 [] w'). assert (ws <> []) as Hws.
  { destruct (split_from_head 95 [] w') as (? & ? & E & _). unfold ws. by rewrite E. }
  rewrite contains_digits by (done || (vm_compute; reflexivity)).
  assert (forall x : list Z, (3 <? length (x :: ws)) = (3 <? S (length ws)))%nat as Hl by done.
  rewrite !Hl. destruct (Nat.ltb_spec 3 (S (length ws))) as [H3|H3].
  - cbn [length]. replace (S (length ws) - 2)%nat with (S (length ws - 2)) by lia.
    replace (S (length ws) - 1)%nat with (S (length ws - 1)) by lia. done.
  - cbn [length]. destruct ws as [|x ws]; [done|]. cbn [length]. by rewrite Nat.sub_1_r.
Qed.

(** A template is an Arabic font, with the map of the shaper, and a Hebrew font with its letters. *)
Definition template_ok (key : string) (name : list Z) : bool :=
  match parse_name name with
  | Some (size, variant) =>
      match select_template size variant key with
      | Some [a; h] => with_shaper a && negb (with_shaper h) && bool_decide (codepts a = None)
          && bool_decide (codepts h = Some HEBREW_CODEPT_LIST)
      | _ => false
      end
  | None => false
  end.

(** Every font of a language pack that compose.py does not skip has a template for every size of
    notifications: a font for the Arabic letters and one for the Hebrew letters. *)
Theorem fonts_have_templates key file font :
  key ∈ size_shift_keys -> named file font -> existsb (fun b => contains b (ascii_bytes file)) blacklist = false ->
  exists size variant a h, parse_name (ascii_bytes file) = Some (size, variant) /\
    select_template size variant key = Some [a; h] /\ with_shaper a = true /\ codepts a = None /\
    with_shaper h = false /\ codepts h = Some HEBREW_CODEPT_LIST.
Proof.
  intros Hk [Hf (digits & Hd & ->)] Hb.
  assert (Forall (fun b => 57 < default 0 (head (ascii_bytes b))) blacklist) as Hbl by (apply (bool_decide_unpack _); vm_compute; exact I).
  set (rest := ascii_bytes ("_" +:+ font +:+ ".pfo")) in *.
  assert (existsb (fun b => contains b rest) blacklist = existsb (fun b => contains b (digits ++ rest)) blacklist) as Hb'.
  { clear Hb. induction Hbl as [|b l Hlt _ IH]; [done|]. cbn [existsb]. by rewrite contains_digits, IH. }
  rewrite Hb in Hb'. subst rest.
  clear Hb. assert (Forall (fun key => Forall (fun font =>
    existsb (fun b => contains b (ascii_bytes ("_" +:+ font +:+ ".pfo"))) blacklist = false ->
    template_ok key (ascii_bytes ("_" +:+ font +:+ ".pfo")) = true) font_seq) size_shift_keys) as H
    by (apply (bool_decide_unpack _); vm_compute; exact I).
  rewrite Forall_forall in H. specialize (H key Hk). rewrite Forall_forall in H. specialize (H font Hf Hb').
  rewrite ascii_bytes_app in *. change (ascii_bytes "_") with [95] in *. cbn [app] in *.
  rewrite parse_name_digits by done. unfold template_ok in H. destruct (parse_name _) as [[size variant]|]; [|done].
  destruct (select_template size variant key) as [[|a [|h [|]]]|] eqn:Et; try done.
  rewrite !andb_true_iff, !bool_decide_eq_true, negb_true_iff in H. destruct H as [[[? ?] ?] ?].
  by exists size, variant, a, h.
Qed.

(** ** The firmware *)

Section Firmware.
Variable build : string -> string -> Z -> option (gmap string Z * list Z).

Definition BOOTLOADER_SIZE_of (path : string) : Z :=
  if bool_decide (is_Some (index (ascii_bytes "qemu") (ascii_bytes path))) then 0 else 0x4000.

(** The patched image fits in the flash of the platform of the hardware revision. *)
Lemma patch_firmware_fits fuel hw_rev path bin deasm libpebble img :
  patch_firmware build fuel hw_rev path bin deasm libpebble = Some img ->
  exists platform size, get hw_rev_platform_map hw_rev = Some platform /\
    max_image_size platform (BOOTLOADER_SIZE_of path) = Some size /\ len img <= size.
Proof.
  unfold patch_firmware, make_patcher. intros (platform & Hp & (p & (ix & _ & (size & Hm & (fom & _ &
    (st & _ & [= <-])%bind_Some)%bind_Some)%bind_Some)%bind_Some & H)%bind_Some)%bind_Some.
  exists platform, size. split; [done|]. split; [exact Hm|].
  destruct (patch _ _) as [|p'] eqn:E; [done|]. apply patch_run in E as (s & _ & ->). rewrite queue_spec in H.
  unfold finalize in H. apply bind_Some in H as ([linked code] & _ & (b & _ & H)%bind_Some).
  cbn [MAX_IMAGE_SIZE] in H. match type of H with context [0 <=? ?x] => destruct (Z.leb_spec 0 x); [|done] end.
  injection H as <-. cbn [MAX_IMAGE_SIZE trailing_bin_content] in *. lia.
Qed.

(** C25: The firmware of a bundle is the patched image, which fits in flash, with the tagged version in the
    place of the first version string and of as many bytes behind it as the tag has; the manifest
    has its size and its checksum. *)
Theorem generated_firmware fuel hw_rev path fw_ver rev_no bin deasm libpebble e :
  generate_firmware build fuel hw_rev path fw_ver rev_no bin deasm libpebble = Some e ->
  exists platform size img pre post,
    get hw_rev_platform_map hw_rev = Some platform /\
    max_image_size platform (BOOTLOADER_SIZE_of path) = Some size /\
    patch_firmware build fuel hw_rev path bin deasm libpebble = Some img /\ len img <= size /\
    img = pre ++ fw_ver ++ post /\ (forall j, 0 <= j < len pre -> ~ occurs_at fw_ver img j) /\
    fw_bin e = pre ++ new_ver_string fw_ver rev_no ++ drop (length (new_ver_string fw_ver rev_no) - length fw_ver) post /\
    fw_size e = len (fw_bin e) /\ fw_crc e = crc32 (fw_bin e) /\ 0 <= fw_crc e < 2 ^ 32.
Proof.
  unfold generate_firmware, pack_firmware. intros (img & Hi & (b & Ht & [= <-])%bind_Some)%bind_Some.
  destruct (patch_firmware_fits _ _ _ _ _ _ _ Hi) as (platform & size & Hp & Hs & Hl).
  pose proof (tag_version_spec fw_ver rev_no img) as H. rewrite Ht in H.
  destruct H as (pre & post & E & Hno & Hb & _). exists platform, size, img, pre, post.
  repeat (split; [first [assumption|reflexivity]|]). exact (crc32_word b).
Qed.
End Firmware.

(** ** Examples *)

Lemma platforms_known_witness : get hw_rev_platform_map "snowy_s3" = Some "basalt"%string /\
  is_Some (get platform_subset_map "basalt") /\ is_Some (max_image_size "basalt" 0).
Proof. split; [reflexivity|]. by apply (platforms_known "snowy_s3"). Defined.

(** The fonts of a directory, a bold one first; one of them is not for language packs. *)
Definition pack_dir : list string := ["002_GOTHIC_14_BOLD.pfo"; "001_GOTHIC_14.pfo"; "003_GOTHIC_18.pfo"; "004_GOTHIC_36.pfo"].
Definition pack_file (file : string) : list Z := ascii_bytes file.

(** The text that the names are searched for does not end them: the resource of the regular font
    has the bold one, when the directory lists that first. *)
Example bold_for_regular : langpack_resmap "mo" pack_dir !! 2 = Some (Some "002_GOTHIC_14_BOLD.pfo"%string)
  /\ langpack_resmap "mo" pack_dir !! 3 = Some (Some "002_GOTHIC_14_BOLD.pfo"%string).
Proof. by vm_compute. Qed.

Lemma pack_dir_named file : file ∈ pack_dir -> (exists font, named file font) \/ other_font file.
Proof.
  intros H. repeat (apply elem_of_cons in H as [->|H]); [left..| |by apply not_elem_of_nil in H].
  4:{ right. unfold other_font. rewrite <- Forall_forall. apply (bool_decide_unpack _). vm_compute. exact I. }
  all: [> exists "GOTHIC_14_BOLD"%string|exists "GOTHIC_14"%string|exists "GOTHIC_18"%string].
  all: (split; [apply (bool_decide_unpack _); vm_compute; exact I|]).
  all: [> exists [48; 48; 50]|exists [48; 48; 49]|exists [48; 48; 51]].
  all: (split; [apply (bool_decide_unpack _); vm_compute; exact I|vm_compute; reflexivity]).
Qed.

Definition pack_of_dir : list Z := default [] (generate_langpack pack_file "mo" pack_dir).

Lemma langpack_fonts_witness :
  generate_langpack pack_file "mo" pack_dir = Some pack_of_dir /\
  exists header entries data, pack_of_dir = header ++ concat entries ++ replicate (16 * (256 - 19)) 0 ++ data /\
    length entries = 19%nat.
Proof.
  assert (generate_langpack pack_file "mo" pack_dir = Some pack_of_dir) as Hp by (vm_compute; reflexivity).
  split; [exact Hp|]. destruct (langpack_fonts pack_file "mo" pack_dir pack_of_dir Hp pack_dir_named) as (h & es & d & H & Hl & _).
  exists h, es, d. exact (conj H Hl).
Defined.

Lemma fonts_have_templates_witness : exists size variant a h,
  parse_name (ascii_bytes "002_GOTHIC_14_BOLD.pfo") = Some (size, variant) /\
  select_template size variant "large" = Some [a; h].
Proof.
  destruct (fonts_have_templates "large" "002_GOTHIC_14_BOLD.pfo" "GOTHIC_14_BOLD") as (size & variant & a & h & Hn & Ht & _).
  - apply (bool_decide_unpack _). vm_compute. exact I.
  - split; [apply (bool_decide_unpack _); vm_compute; exact I|]. exists [48; 48; 50].
    split; [apply (bool_decide_unpack _); vm_compute; exact I|vm_compute; reflexivity].
  - vm_compute. reflexivity.
  - by exists size, variant, a, h.
Defined.

(** The firmware of the script's example, with a version string of which there is a first one. *)
Definition tagged_firmware : firmware_entry := default (mk_firmware_entry [] 0 0)
  (generate_firmware script_build 100 "snowy_s3" "tintin_fw.bin" [0xf0; 0xb5] 3 script_bin script_deasm script_libpebble).

Lemma generated_firmware_witness :
  fw_size tagged_firmware = len (fw_bin tagged_firmware) /\ fw_crc tagged_firmware = crc32 (fw_bin tagged_firmware).
Proof.
  destruct (generated_firmware script_build 100 "snowy_s3" "tintin_fw.bin" [0xf0; 0xb5] 3 script_bin script_deasm
    script_libpebble tagged_firmware) as (platform & size & img & pre & post & _ & _ & _ & _ & _ & _ & _ & Hs & Hc & _).
  - vm_compute. reflexivity.
  - by split.
Defined.
