(* ===== verification/LangpackProps.v ===== *)
(** * The fonts that a language pack shows

    From the fonts of a firmware to the language packs: composing, writing, and packing
    together. *)

From stdpp Require Import gmap strings pretty.
From S2P Require Import Prelude Bytes Bundle BundleProps Regex Disasm Glyph FontgenProps Pfo PfoProps.
From S2P Require Import PfoFormat PfoRoundtrip Compose ComposeProps ShownProps Generator GeneratorProps FindFonts.

Lemma string_of_ascii s : string_of (ascii_bytes s) = s.
Proof.
  unfold string_of, ascii_bytes. induction s as [|c s IH]; [done|]. cbn. rewrite IH.
  by rewrite Nat2Z.id, Ascii.ascii_nat_embedding.
Qed.

Lemma get_lookup {A} (d : list (string * A)) k v : NoDup d.*1 -> (k, v) ∈ d -> get d k = Some v.
Proof.
  induction d as [|[k' v'] d IH]; [by intros _ ?%elem_of_nil|]. cbn [get fmap list_fmap fst].
  intros [Hn Hd]%NoDup_cons [[= <- <-]|H]%elem_of_cons; [by rewrite decide_True|].
  rewrite decide_False; [auto|]. intros ->. apply Hn, list_elem_of_fmap. by exists (k, v).
Qed.

Section Langpack.
Context (items : forall A, gmap Z A -> list (Z * A)) (same_object : bool) (face_chars : string -> list (Z * Z))
  (face_glyph : string -> Z -> Z -> rendered) (edited : string -> Z -> Z -> Z -> option glyph_data)
  (text_shaper : string -> string -> option (gmap Z Z)) (listing : list string -> list string).
Hypothesis items_perm : forall A (d : gmap Z A), items A d ≡ₚ map_to_list d.
Hypothesis faces_ok : forall path size i, rendered_ok (face_glyph path size i).
Hypothesis chars_ok : forall path, face_ok (face_chars path).
Hypothesis listing_perm : forall l, listing l ≡ₚ l.

#[local] Abbreviation compose_font := (compose_font items same_object face_chars face_glyph edited text_shaper).
#[local] Abbreviation compose := (compose items same_object face_chars face_glyph edited text_shaper).
#[local] Abbreviation generate_fonts := (generate_fonts items same_object face_chars face_glyph edited text_shaper).
#[local] Abbreviation write_langpack := (write_langpack items same_object face_chars face_glyph edited text_shaper listing).

(** The files that are written have names of the directory. *)
Lemma compose_names in_dir subset_key key sr files out : compose in_dir subset_key key sr files = Some out ->
  out.*1 `sublist_of` files.*1.
Proof.
  revert sr out. induction files as [|[name input] files IH]; intros sr out; cbn [Compose.compose]; [by intros [= <-]|].
  case_match; [intros Hsub%IH; by apply sublist_cons|].
  intros ([sr' o] & Hc & (rest & Hsub%IH & [= <-])%bind_Some)%bind_Some.
  destruct o as [pfo|]; [by apply sublist_skip|by apply sublist_cons].
Qed.

Lemma generate_fonts_written in_dir subset_key key originals fonts : NoDup originals.*1 ->
  generate_fonts in_dir subset_key key originals = Some fonts ->
  NoDup fonts.*1 /\ exists sr, (sr = None \/ exists path, sr = text_shaper path subset_key) /\
    forall name pfo, (name, pfo) ∈ fonts -> exists input sr0, (name, input) ∈ originals /\
      compose_font sr0 (ascii_bytes name) input subset_key key = Some (sr, Some pfo).
Proof.
  intros Hnd (out & Hc & [= <-])%bind_Some. pose proof (compose_names _ _ _ _ _ _ Hc) as Hsub.
  apply compose_shares_map in Hc as (sr & Hsr & H).
  change (@List.map (string * list Z) (list Z * list Z)) with (@fmap list _ (string * list Z) (list Z * list Z)) in *.
  change (@List.map (list Z * list Z) (string * list Z)) with (@fmap list _ (list Z * list Z) (string * list Z)). split.
  - apply (fmap_sublist string_of) in Hsub.
    assert (forall l : list (string * list Z), string_of <$> ((fun f : string * list Z => (ascii_bytes f.1, f.2)) <$> l).*1 = l.*1) as E1
      by (induction l as [|[n d] l IH]; [done|]; rewrite !fmap_cons; cbn [fst]; by rewrite string_of_ascii, IH).
    assert (forall l : list (list Z * list Z), ((fun f : list Z * list Z => (string_of f.1, f.2)) <$> l).*1 = string_of <$> l.*1) as E2
      by (induction l as [|[n d] l IH]; [done|]; by rewrite !fmap_cons, IH).
    rewrite E1 in Hsub. rewrite E2. by eapply sublist_NoDup.
  - exists sr. split; [naive_solver|]. intros name pfo ([n d] & [= -> ->] & Hin)%list_elem_of_fmap.
    apply H in Hin as (i & s0 & Hi & Hc).
    apply list_elem_of_fmap in Hi as ([n' d'] & [= -> ->] & Hi). exists d', s0. cbn [fst snd]. rewrite string_of_ascii. by split.
Qed.

(** The fonts of a firmware that can be composed: names of their own, and contents that can be read
    and are not compressed. *)
Record originals_ok (originals : list (string * list Z)) : Prop := {
  originals_names : NoDup originals.*1;
  originals_named : forall name, name ∈ originals.*1 -> (exists font, named name font) \/ other_font name;
  originals_read : forall name pfo, (name, pfo) ∈ originals -> exists f0, font_read pfo = Some f0 /\ font_ok f0 /\
    Pfo.compressed f0 = false /\ forall c d, has_glyph f0 c d -> sized d;
}.

(** What the composed font of a file shows for every code point: the glyphs of the Hebrew and of the Arabic
    member of its template, or that of the firmware's font. *)
Definition shows_glyphs (sr : option (gmap Z Z)) (key name : string) (input out : list Z) : Prop :=
  exists m f0 size variant a h f, sr = Some m /\ font_read input = Some f0 /\
    parse_name (ascii_bytes name) = Some (size, variant) /\ select_template size variant key = Some [a; h] /\
    font_read out = Some f /\ Pfo.max_height f = Pfo.max_height f0 /\ wildcard f = wildcard f0 /\
    forall c, match glyph_of (face_chars (ttf_path h)) m c with
              | Some (arabic, g) => shown face_chars face_glyph edited f c size m (if arabic : bool then a else h) g
              | None => forall d, has_glyph f c d <-> has_glyph f0 c d
              end.

(** The glyphs of a pack. *)
Lemma langpack_glyphs in_dir subset_key key originals mo_path mo pack :
  originals_ok originals -> (forall path m, text_shaper path subset_key = Some m -> map_ok m) ->
  write_langpack in_dir subset_key key originals mo_path mo = Some pack ->
  exists fonts sr header entries data, (sr = None \/ exists path, sr = text_shaper path subset_key) /\
    generate_fonts in_dir subset_key key originals = Some fonts /\
    pack = header ++ concat entries ++ replicate (16 * (256 - 19)) 0 ++ data /\
    length entries = 19%nat /\ Forall (fun e => length e = 16%nat) entries /\
    forall i font, font_seq !! i = Some font -> exists e path, entries !! S i = Some e /\
      entry_ok (read_file_of mo fonts) data (Z.of_nat i + 2, path) e /\
      match path with
      | Some name => (named name font \/ named name (font +:+ "_BOLD")) /\
          exists input out, (name, input) ∈ originals /\ resource_content (read_file_of mo fonts) path = out /\
            shows_glyphs sr key name input out
      | None => forall name, name ∈ fonts.*1 -> ~ named name font
      end.
Proof using items_perm faces_ok chars_ok listing_perm.
  intros [Hnd Hnamed Hread] Hmap (fonts & Hf & H)%bind_Some.
  change (@List.map (string * list Z) string fst) with (@fmap list _ (string * list Z) string fst) in H.
  destruct (generate_fonts_written _ _ _ _ _ Hnd Hf) as (Hnd' & sr & Hsr & Hw).
  assert (forall name, name ∈ listing fonts.*1 -> exists pfo, (name, pfo) ∈ fonts) as Hl.
  { intros name Hin. rewrite listing_perm in Hin. apply list_elem_of_fmap in Hin as ([n d] & -> & Hin). by exists d. }
  destruct (langpack_fonts _ _ _ _ H) as (header & entries & data & Hp & Hlen & H16 & _ & He).
  { intros name [pfo Hin]%Hl. apply Hw in Hin as (input & _ & Hin & _). apply Hnamed, list_elem_of_fmap. by exists (name, input). }
  exists fonts, sr, header, entries, data. repeat (split; [assumption|]). intros i font Hi.
  destruct (He i font Hi) as (e & path & Hei & Hok & Hpath). exists e, path. split; [done|]. split; [done|].
  destruct path as [name|]; [|intros name Hin; apply Hpath; by rewrite listing_perm].
  destruct Hpath as [[pfo Hin]%Hl Hn]. split; [done|].
  destruct (Hw name pfo Hin) as (input & sr0 & Hinput & Hc). exists input, pfo. split; [done|]. split.
  { unfold resource_content, read_file_of. rewrite (get_lookup _ _ _ Hnd' Hin). rewrite decide_False; [done|].
    intros ->. destruct Hn as [Hn|Hn]; destruct Hn as [_ (digits & _ & E)]; rewrite ascii_bytes_app in E; by destruct digits. }
  destruct (Hread name input Hinput) as (f0 & Hf0 & Hok0 & Hcomp & Hs).
  destruct (composed_shows items same_object face_chars face_glyph edited text_shaper items_perm faces_ok chars_ok
    _ _ _ _ _ _ _ f0 Hc Hf0 Hok0 Hcomp Hs) as (size & variant & a & h & Hpn & Ht & _ & _ & Hg).
  destruct (compose_font_map items same_object face_chars face_glyph edited text_shaper _ _ _ _ _ _ _ Hc) as [_ [m ->]]; [done|].
  destruct Hsr as [?|[p Hp']]; [done|]. destruct (Hg (Hmap p m (eq_sym Hp'))) as (f & Hf' & Hh & Hw' & Hc').
  by exists m, f0, size, variant, a, h, f.
Qed.

End Langpack.

(** ** The names of the fonts of a firmware *)

Lemma three_digits_digits v : 0 <= v -> decimal (ascii_bytes (three_digits v)).
Proof.
  intros Hv. unfold three_digits. rewrite ascii_bytes_app, Forall_app. split; [|by apply pretty_digits].
  generalize (3 - String.length (pretty v))%nat. intros n. induction n as [|[|n] IH]; [constructor|repeat constructor; vm_compute; discriminate|].
  change (String.concat "" (replicate (S (S n)) "0"%string)) with ("0" +:+ ("" +:+ String.concat "" (replicate (S n) "0"%string))).
  rewrite !ascii_bytes_app, !Forall_app. split; [repeat constructor; vm_compute; discriminate|]. split; [constructor|exact IH].
Qed.

(** The files that find_system_fonts.py copies have the names that the generator looks for. *)
Lemma copies_named glob result files font key : copies glob result = Some files ->
  (ascii_bytes ("RESOURCE_ID_" +:+ font), key) ∈ result -> font ∈ font_seq -> 0 <= key ->
  exists src file, (src, file) ∈ files /\ src ∈ glob (three_digits key) /\ named file font.
Proof.
  intros H Hin Hf Hk. revert files H. remember (ascii_bytes ("RESOURCE_ID_" +:+ font), key) as item eqn:Eitem.
  induction Hin as [item result|item [name k] result Hin IH]; intros files; [subst item|]; cbn [copies].
  - assert (Forall (fun font => index (ascii_bytes "FALLBACK_INTERNAL") (ascii_bytes ("RESOURCE_ID_" +:+ font)) = None /\
      string_of (Regex.replace "RESOURCE_ID_" "" (ascii_bytes ("RESOURCE_ID_" +:+ font))) = font) font_seq) as Hs
      by (apply (bool_decide_unpack _); vm_compute; exact I).
    rewrite Forall_forall in Hs. destruct (Hs font Hf) as [-> ->]. rewrite decide_False by by intros [].
    intros (src & Hsrc & (rest & _ & [= <-])%bind_Some)%bind_Some. eexists src, _. split; [left|]. split.
    + destruct (glob (three_digits key)); [done|]. injection Hsrc as ->. left.
    + split; [done|]. exists (ascii_bytes (three_digits key)). split; [by apply three_digits_digits|].
      by rewrite ascii_bytes_app.
  - case_decide; [by apply IH|].
    intros (src & _ & (rest & Hr & [= <-])%bind_Some)%bind_Some. destruct (IH Eitem _ Hr) as (s & f & ? & ? & ?).
    exists s, f. split; [by right|done].
Qed.

(** ** Example *)

(** A font that is composed, one for which there is no template, and one that is skipped. *)
Definition pack_names : list string := ["004_GOTHIC_36.pfo"; "001_GOTHIC_14.pfo"; "012_BITHAM_42_MEDIUM_NUMBERS.pfo"].
Definition pack_originals : list (string * list Z) := (fun name => (name, compose_input)) <$> pack_names.

Lemma gothic_named : named "001_GOTHIC_14.pfo" "GOTHIC_14".
Proof.
  split; [apply (bool_decide_unpack _); vm_compute; exact I|]. exists [48; 48; 49].
  split; [apply (bool_decide_unpack _); vm_compute; exact I|vm_compute; reflexivity].
Qed.

Lemma same_content (names : list string) (input : list Z) name pfo :
  (name, pfo) ∈ (fun name => (name, input)) <$> names -> pfo = input.
Proof. by intros (n & [= _ ->] & _)%list_elem_of_fmap. Qed.

Lemma pack_originals_ok : originals_ok pack_originals.
Proof.
  split.
  - apply (bool_decide_unpack _). vm_compute. exact I.
  - intros name H. change (name ∈ pack_names) in H. repeat (apply elem_of_cons in H as [->|H]); [right|left..|by apply not_elem_of_nil in H].
    + unfold other_font. rewrite <- Forall_forall. apply (bool_decide_unpack _). vm_compute. exact I.
    + exists "GOTHIC_14"%string. exact gothic_named.
    + exists "BITHAM_42_MEDIUM_NUMBERS"%string. split; [apply (bool_decide_unpack _); vm_compute; exact I|]. exists [48; 49; 50].
      split; [apply (bool_decide_unpack _); vm_compute; exact I|vm_compute; reflexivity].
  - intros name pfo H. assert (pfo = compose_input) as ->.
    { exact (same_content _ _ _ _ H). }
    destruct compose_input_read as (f0 & Hf & Hok & Hc & _ & Hs). exists f0. exact (conj Hf (conj Hok (conj Hc Hs))).
Qed.

Abbreviation pack_written := (write_langpack (fun A d => map_to_list d) false compose_chars (fun _ _ => example_rendered)
  (fun _ _ _ _ => None) (fun _ _ => Some compose_map) (fun l => l) (ascii_bytes "fonts") "full" "small" pack_originals "mo" [1; 2]).
Definition pack_bytes : list Z := default [] pack_written.

