(* ===== verification/ExtractProps.v ===== *)
(** * The fonts that are extracted from a firmware (generator.py, fonts/find_system_fonts.py)

    Unpacking the resources, reading the table of the image and copying together: what the
    directory of the fonts holds, and when there is an exception. *)

From stdpp Require Import gmap strings pretty.
From S2P Require Import Prelude Bytes Loops Bundle Regex Disasm FindFonts PfoFormat Generator GeneratorProps.

(** ** Three digits *)

Lemma int_from_pretty_N_go x s : int_from 10 0 (ascii_bytes (pretty_N_go x s)) = int_from 10 (Z.of_N x) (ascii_bytes s).
Proof.
  revert s. induction (N.lt_wf_0 x) as [x _ IH]; intros s. destruct (decide (0 < x)%N) as [Hx|Hx].
  - rewrite pretty_N_go_step by done. rewrite IH by by apply N.div_lt.
    pose proof (N.mod_lt x 10 ltac:(done)) as Hmod.
    assert (0 <= Z.of_N (x mod 10) < 10) as Hd by (split; [apply N2Z.is_nonneg|exact (proj1 (N2Z.inj_lt _ 10) Hmod)]).
    assert (forall d, 0 <= Z.of_N d < 10 -> digit_value (Z.of_nat (Ascii.nat_of_ascii (pretty_N_char d))) = Some (Z.of_N d)) as Hc.
    { intros d Hd'. assert (In d [0; 1; 2; 3; 4; 5; 6; 7; 8; 9]%N) as Hin by (cbn; lia).
      cbn in Hin. repeat (destruct Hin as [<-|Hin]; [reflexivity|]). done. }
    change (ascii_bytes (String (pretty_N_char (x mod 10)) s))
      with (Z.of_nat (Ascii.nat_of_ascii (pretty_N_char (x mod 10))) :: ascii_bytes s).
    cbn [int_from]. rewrite Hc by done. cbn [mbind option_bind].
    rewrite (proj2 (Z.ltb_lt (Z.of_N (x mod 10)) 10)) by lia. f_equal.
    rewrite N2Z.inj_div, N2Z.inj_mod. pose proof (Z.div_mod (Z.of_N x) 10 ltac:(done)). change (Z.of_N 10) with 10. lia.
  - replace x with 0%N by lia. by rewrite pretty_N_go_0.
Qed.

Lemma int_from_zeros n s : int_from 10 0 (ascii_bytes (String.concat "" (replicate n "0"%string) +:+ s)) = int_from 10 0 (ascii_bytes s).
Proof.
  rewrite ascii_bytes_app.
  assert (ascii_bytes (String.concat "" (replicate n "0"%string)) = replicate n 48) as ->.
  { induction n as [|[|n] IH]; [done..|]. cbn [replicate] in *. rewrite <- IH.
    change (String.concat "" ("0" :: "0" :: replicate n "0")) with ("0" +:+ String.concat "" ("0" :: replicate n "0")).
    by rewrite ascii_bytes_app. }
  by induction n.
Qed.

Lemma int_from_three_digits v : 0 <= v -> int_from 10 0 (ascii_bytes (three_digits v)) = Some v.
Proof.
  intros Hv. unfold three_digits. rewrite int_from_zeros. destruct v as [|v|v]; [done| |lia].
  exact (int_from_pretty_N_go (N.pos v) "").
Qed.

Lemma three_digits_inj v w : 0 <= v -> 0 <= w -> three_digits v = three_digits w -> v = w.
Proof.
  intros Hv Hw E. pose proof (int_from_three_digits v Hv) as H. rewrite E, (int_from_three_digits w Hw) in H. by injection H.
Qed.

Lemma string_length_app s t : String.length (s +:+ t) = (String.length s + String.length t)%nat.
Proof. induction s as [|c s IH]; [done|]. exact (f_equal S IH). Qed.

Lemma three_digits_long v : (3 <= String.length (three_digits v))%nat.
Proof.
  unfold three_digits. rewrite string_length_app.
  assert (forall n, String.length (String.concat "" (replicate n "0"%string)) = n) as ->; [|lia].
  induction n as [|[|n] IH]; [done..|]. cbn [replicate] in *. exact (f_equal S IH).
Qed.

Lemma three_digits_short v : 0 <= v < 1000 -> String.length (three_digits v) = 3%nat.
Proof.
  intros Hv. assert (Forall (fun v => String.length (three_digits v) = 3%nat) (seqZ 0 1000)) as H
    by (apply (bool_decide_unpack _); vm_compute; exact I).
  rewrite Forall_forall in H. apply H, elem_of_seqZ. lia.
Qed.

Lemma prefix_same s t : String.prefix s t = true -> (String.length t <= String.length s)%nat -> s = t.
Proof.
  revert t. induction s as [|a s IH]; intros [|b t]; cbn; [done|lia|done|].
  destruct (Ascii.ascii_dec a b) as [->|]; [|done]. intros H Hl. f_equal. apply IH; [done|lia].
Qed.

Lemma prefix_refl s : String.prefix s s = true.
Proof. induction s as [|a s IH]; [done|]. cbn. by destruct (Ascii.ascii_dec a a). Qed.

(** A pattern of three digits finds the resource of that number and no other. *)
Lemma prefix_three_digits v w : 0 <= v -> 0 <= w < 1000 -> String.prefix (three_digits v) (three_digits w) = true <-> v = w.
Proof.
  intros Hv Hw. split; [|intros ->; apply prefix_refl]. intros H.
  apply three_digits_inj; [lia..|]. apply prefix_same; [exact H|].
  rewrite (three_digits_short w Hw). apply three_digits_long.
Qed.

(** ** Directories *)

Lemma write_files_snoc fs f : write_files (fs ++ [f]) = <[f.1 := f.2]> (write_files fs).
Proof. unfold write_files. by rewrite foldl_app. Qed.

Lemma write_files_Some fs n d : write_files fs !! n = Some d -> (n, d) ∈ fs.
Proof.
  induction fs as [|[n' d'] fs IH] using rev_ind; [done|]. rewrite write_files_snoc, elem_of_app. cbn.
  intros [[-> ->]|[_ H]]%lookup_insert_Some; [right; left|]. left. by apply IH.
Qed.

Lemma write_files_None fs n : write_files fs !! n = None <-> n ∉ fs.*1.
Proof.
  induction fs as [|[n' d'] fs IH] using rev_ind; [split; [by intros _ ?%elem_of_nil|done]|].
  rewrite write_files_snoc, lookup_insert_None, IH, fmap_app, not_elem_of_app. cbn. rewrite list_elem_of_singleton. naive_solver.
Qed.

Lemma write_files_lookup fs n d : NoDup fs.*1 -> write_files fs !! n = Some d <-> (n, d) ∈ fs.
Proof.
  intros Hnd. split; [apply write_files_Some|]. intros Hin. destruct (write_files fs !! n) as [d'|] eqn:E.
  - apply write_files_Some in E. f_equal. by eapply NoDup_fst_inj.
  - apply write_files_None in E. destruct E. by apply (list_elem_of_fmap_2 fst _ (n, d)).
Qed.

(** ** The table of the image *)

Definition counts (t : table) : Prop := map_Forall (fun _ key => 0 <= key) t.

Lemma deref_counts st r : Forall counts (store st) -> counts (deref st r).
Proof.
  intros H. unfold deref. destruct (store st !! r) as [t|] eqn:E; [|done]. rewrite Forall_lookup in H. by apply (H r).
Qed.

(** The numbers of resources are 16 bits of a word. *)
Lemma extract_counts bin result : extract_system_font_resource_ids bin = Some result -> counts result.
Proof.
  intros (words & _ & (st & Hst & [= <-])%bind_Some)%bind_Some. apply deref_counts.
  refine (foldM_inv _ (fun _ st => Forall counts (store st)) words _ _ _ _ Hst); [|by repeat constructor].
  clear. intros _ x _ st st' _ H (name & _ & E)%bind_Some.
  set (st1 := match name with Some _ => _ | None => _ end) in E.
  assert (Forall counts (store st1.1)) as H1.
  { subst st1. destruct name as [name|]; [|exact H]. cbn [fst store]. rewrite Forall_lookup in H |- *.
    intros i t Ht. rewrite list_lookup_alter in Ht. case_decide; [|by apply (H i)].
    apply fmap_Some in Ht as (t' & Ht & ->). apply map_Forall_insert_2; [|exact (H _ _ Ht)]. apply Z.land_nonneg. right. lia. }
  destruct st1 as [st1 since]. cbn [fst] in H1. injection E as <-.
  destruct (2 <? since); [|by destruct (_ <? _)%nat]. cbn [store]. apply Forall_app. by split; [|repeat constructor].
Qed.

(** ** Copies *)

Definition fallback (name : list Z) : Prop := is_Some (index (ascii_bytes "FALLBACK_INTERNAL") name).

(** The name of the file of a font. *)
Definition font_file (name : list Z) (key : Z) : string :=
  three_digits key +:+ "_" +:+ string_of (Regex.replace "RESOURCE_ID_" "" name) +:+ ".pfo".

Lemma copies_Some glob result files : copies glob result = Some files ->
  (forall src dest, (src, dest) ∈ files <-> exists name key, (name, key) ∈ result /\ ~ fallback name /\
    head (glob (three_digits key)) = Some src /\ dest = font_file name key) /\
  forall name key, (name, key) ∈ result -> ~ fallback name -> is_Some (head (glob (three_digits key))).
Proof.
  revert files. induction result as [|[name key] result IH]; intros files; cbn [copies].
  { intros [= <-]. split; [|by intros ? ? ?%elem_of_nil]. intros src dest. split; [by intros ?%elem_of_nil|].
    by intros (? & ? & ?%elem_of_nil & _). }
  case_decide as Hf.
  { intros [H1 H2]%IH. split.
    - intros src dest. rewrite H1. split.
      + intros (n & k & Hin & H). exists n, k. split; [by right|done].
      + intros (n & k & [[= -> ->]|Hin]%elem_of_cons & H & H'); [by destruct H|]. by exists n, k.
    - intros n k [[= -> ->]|Hin]%elem_of_cons H; [by destruct H|by apply (H2 n)]. }
  intros (src0 & Hsrc & (rest & [H1 H2]%IH & [= <-])%bind_Some)%bind_Some. split.
  - intros src dest. rewrite elem_of_cons, H1. split.
    + intros [[= -> ->]|(n & k & Hin & H)]; [exists name, key; split; [left|done]|exists n, k; split; [by right|done]].
    + intros (n & k & [[= -> ->]|Hin]%elem_of_cons & H & H' & ->); [left; rewrite Hsrc in H'; by injection H' as ->|right; by exists n, k].
  - intros n k [[= -> ->]|Hin]%elem_of_cons H; [by exists src0|by apply (H2 n)].
Qed.

Lemma copies_None glob result : copies glob result = None -> exists name key, (name, key) ∈ result /\ ~ fallback name /\
  head (glob (three_digits key)) = None.
Proof.
  assert (forall x, (exists name key, (name, key) ∈ result /\ ~ fallback name /\ head (glob (three_digits key)) = None) ->
    exists name key, (name, key) ∈ x :: result /\ ~ fallback name /\ head (glob (three_digits key)) = None) as Hcons.
  { intros x (n & k & Hin & H). exists n, k. split; [by right|done]. }
  induction result as [|[name key] result IH]; cbn [copies]; [done|].
  assert (copies glob result = None -> exists n k, (n, k) ∈ (name, key) :: result /\ ~ fallback n /\
    head (glob (three_digits k)) = None) as H.
  { intros (n & k & Hin & H)%IH; [exists n, k; split; [by right|done]|]. intros x (n' & k' & Hin' & H'). exists n', k'.
    split; [by right|done]. }
  case_decide as Hf; [exact H|]. destruct (head (glob (three_digits key))) as [src|] eqn:E.
  - cbn [mbind option_bind]. destruct (copies glob result); [done|]. intros _. by apply H.
  - intros _. exists name, key. split; [left|done].
Qed.

(** ** The directory of the fonts *)

Section Extract.
Context (items : table -> list (list Z * Z)) (listing : list string -> list string).
Hypothesis items_perm : forall t, items t ≡ₚ map_to_list t.
Hypothesis listing_perm : forall l, listing l ≡ₚ l.

(** The directory of the resources. *)
Section Resources.
Context (resources : list (Z * list Z)).
Hypothesis Hnd : NoDup resources.*1.
Hypothesis Hrange : Forall (fun id => 0 <= id < 1000) resources.*1.

Abbreviation res_path := (write_files ((fun r => (three_digits r.1, r.2)) <$> resources)).

Lemma res_ids id d : (id, d) ∈ resources -> 0 <= id < 1000.
Proof using Hrange. intros Hin. rewrite Forall_forall in Hrange. apply Hrange. by apply (list_elem_of_fmap_2 fst _ (id, d)). Qed.

Lemma res_path_lookup file d : res_path !! file = Some d <-> exists id, file = three_digits id /\ (id, d) ∈ resources.
Proof using Hnd Hrange.
  rewrite write_files_lookup.
  - rewrite list_elem_of_fmap. split; [intros ([id d'] & [= -> ->] & Hin); by exists id|intros (id & -> & Hin); by exists (id, d)].
  - rewrite <- list_fmap_compose. change (NoDup (three_digits ∘ fst <$> resources)).
    rewrite list_fmap_compose.
    apply NoDup_fmap_2_strong; [|exact Hnd]. rewrite Forall_forall in Hrange.
    intros v w Hv%Hrange Hw%Hrange. apply three_digits_inj; lia.
Qed.

(** A number finds the file of the resource, if there is one. *)
Lemma glob_resource key : 0 <= key ->
  match head (glob_prefix listing res_path (three_digits key)) with
  | Some src => src = three_digits key /\ exists d, (key, d) ∈ resources
  | None => key ∉ resources.*1
  end.
Proof using Hnd Hrange listing_perm.
  intros Hk.
  assert (forall file, file ∈ glob_prefix listing res_path (three_digits key) <->
    file = three_digits key /\ exists d, (key, d) ∈ resources) as H.
  { intros file. unfold glob_prefix. rewrite list_elem_of_filter, listing_perm, list_elem_of_fmap. split.
    - intros (Hp & [n d] & -> & (id & -> & Hin)%elem_of_map_to_list%res_path_lookup). cbn [fst] in *.
      apply prefix_three_digits in Hp as ->; [|done|by eapply res_ids]. split; [done|by exists d].
    - intros (-> & d & Hin). split; [apply prefix_refl|]. exists (three_digits key, d). split; [done|].
      apply elem_of_map_to_list, res_path_lookup. by exists key. }
  destruct (glob_prefix listing res_path (three_digits key)) as [|src l] eqn:E; cbn [head].
  - intros ([id d] & -> & Hin)%list_elem_of_fmap. assert (three_digits id ∈ @nil string) as []%elem_of_nil.
    apply H. split; [done|by exists d].
  - apply H. left.
Qed.
End Resources.

(** The copies and their contents. *)
Lemma extracted_files bin resources result :
  NoDup resources.*1 -> Forall (fun id => 0 <= id < 1000) resources.*1 -> extract_system_font_resource_ids bin = Some result ->
  let res_path := write_files ((fun r => (three_digits r.1, r.2)) <$> resources) in
  match files ← copies (glob_prefix listing res_path) (items result);
        fonts ← mapM (fun f => data ← res_path !! f.1; Some (f.2, data)) files; Some (write_files fonts) with
  | Some dir => (forall name key, result !! name = Some key -> ~ fallback name -> key ∈ resources.*1) /\
      forall file, match dir !! file with
      | Some content => exists name key, result !! name = Some key /\ ~ fallback name /\ file = font_file name key /\
          (key, content) ∈ resources
      | None => forall name key, result !! name = Some key -> ~ fallback name -> file <> font_file name key
      end
  | None => exists name key, result !! name = Some key /\ ~ fallback name /\ key ∉ resources.*1
  end.
Proof using items_perm listing_perm.
  intros Hnd Hrange Htable res_path. pose proof (extract_counts _ _ Htable) as Hcounts. subst res_path.
  assert (forall name key, (name, key) ∈ items result <-> result !! name = Some key) as Hitems.
  { intros name key. rewrite items_perm. apply elem_of_map_to_list. }
  pose proof (fun name key H => glob_resource resources Hnd Hrange key (Hcounts name key H)) as Hglob.
  destruct (copies _ _) as [files|] eqn:Hc; cbn [mbind option_bind].
  2:{ apply copies_None in Hc as (name & key & Hin%Hitems & Hf & Hn). exists name, key. split_and!; [done..|].
      specialize (Hglob name key Hin). by rewrite Hn in Hglob. }
  apply copies_Some in Hc as [Hc Hsome].
  set (read := fun f : string * string => _). assert (exists fonts, mapM read files = Some fonts) as [fonts Hm].
  { apply mapM_is_Some. apply Forall_forall. intros [src dest] (name & key & Hin%Hitems & _ & Hs & _)%Hc.
    specialize (Hglob name key Hin). rewrite Hs in Hglob. destruct Hglob as (-> & d & Hd).
    exists (dest, d). unfold read. cbn [fst snd].
    rewrite (proj2 (res_path_lookup resources Hnd Hrange _ d)); [done|by exists key]. }
  rewrite Hm. apply mapM_Some in Hm. cbn [mbind option_bind]. split.
  { intros name key Hin Hnf. specialize (Hglob name key Hin). destruct (Hsome name key (proj2 (Hitems _ _) Hin) Hnf) as [src Hs].
    rewrite Hs in Hglob. destruct Hglob as (_ & d & Hd). by apply (list_elem_of_fmap_2 fst _ (key, d)). }
  intros file.
  destruct (write_files fonts !! file) as [content|] eqn:E.
  - apply write_files_Some, list_elem_of_lookup in E as [i Hi].
    destruct (Forall2_lookup_r _ _ _ _ _ Hm Hi) as ([src dest] & Hf & Hr).
    apply list_elem_of_lookup_2, Hc in Hf as (name & key & Hin%Hitems & Hnf & Hs & Hdest).
    specialize (Hglob name key Hin). rewrite Hs in Hglob. destruct Hglob as (-> & _).
    apply bind_Some in Hr as (d & (id & Hid & Hd)%(res_path_lookup resources Hnd Hrange) & [= Hfile ->]).
    cbn [fst snd] in Hid, Hfile. apply three_digits_inj in Hid as <-; [|by eapply Hcounts|by eapply res_ids in Hd as []].
    exists name, key. split_and!; [done..|congruence|done].
  - intros name key Hin Hnf ->. apply write_files_None in E. apply E.
    destruct (Hsome name key (proj2 (Hitems _ _) Hin) Hnf) as [src Hs].
    assert ((src, font_file name key) ∈ files) as [i Hi]%list_elem_of_lookup.
    { apply Hc. exists name, key. split_and!; [by apply Hitems|done..]. }
    destruct (Forall2_lookup_l _ _ _ _ _ Hm Hi) as ([n d] & Hf & (d' & _ & [= -> ->])%bind_Some).
    by apply list_elem_of_lookup_2, (list_elem_of_fmap_2 fst) in Hf.
Qed.

(** The numbers of the resources of a pack: each once, and of three digits at most. *)
Definition numbers_ok (resources : list (Z * list Z)) : Prop :=
  NoDup resources.*1 /\ Forall (fun id => 0 <= id < 1000) resources.*1.

End Extract.

(** ** Example *)

(** An image that names a font and the internal fallback, and its resources. *)
Definition extract_bin : list Z :=
  concat (le_bytes 4 <$> [0x8004010; 7; 0x800402e; 0xAB0008])
    ++ ascii_bytes "RESOURCE_ID_FALLBACK_INTERNAL" ++ [0] ++ ascii_bytes "RESOURCE_ID_GOTHIC_14" ++ [0].
Definition extract_pack : list Z :=
  default [] (pack_resources ascii_bytes {[ 7 := Some "abc"%string; 8 := Some "hello"%string; 9 := None ]} MAX_RESOURCES).
Definition extract_resources : list (Z * list Z) := [(7, [97; 98; 99]); (8, [104; 101; 108; 108; 111]); (9, [])].
Definition extract_table : table := default ∅ (extract_system_font_resource_ids extract_bin).
Definition extract_dir : gmap string (list Z) := default ∅ (extract_fonts map_to_list id extract_bin extract_pack).

