(* ===== verification/ShownTextProps.v ===== *)
(** * What is seen of a shaped text

    The table generator, the shaper and the composed fonts together: [text_shaper] writes the tables
    of the code and the map that the fonts are generated with, and every code point that the
    shaper leaves of a text has in the fonts of a language pack the glyph that hb-shape
    chose. *)

From stdpp Require Import gmap sorting strings.
From S2P Require Import Prelude Memory Utf8 Ranges Shaper ShaperSpec ShaperRefine ShaperForms Unshape.
From S2P Require Import LutGen LutGenProps ShaperScriptProps ScriptText.
From S2P Require Import Bytes Loops Glyph GlyphProps Fontgen FontgenProps Pfo PfoProps PfoFormat PfoRoundtrip Compose ComposeProps ShownProps.
From S2P Require Import Bundle BundleProps Generator GeneratorProps LangpackProps.

(** ** The map of the script *)

Lemma scratch_free c : c ∈ scratch_codepoints \/ c ∈ supplemental_alphabet ->
  c <= MAX_2_BYTES_CODEPOINT /\ c <> WILDCARD_CODEPOINT /\ c ∉ ZERO_WIDTH_CODEPOINTS /\ c ∉ hebrew_codes.
Proof.
  intros H. assert (c ∈ scratch_codepoints ++ supplemental_alphabet) as Hin by by apply elem_of_app.
  assert (Forall (fun c => c <= MAX_2_BYTES_CODEPOINT /\ c <> WILDCARD_CODEPOINT /\ c ∉ ZERO_WIDTH_CODEPOINTS /\ c ∉ hebrew_codes)
    (scratch_codepoints ++ supplemental_alphabet)) as HF by (apply (bool_decide_unpack _); vm_compute; exact I).
  rewrite Forall_forall in HF. by apply HF.
Qed.

Section Map.
Context (hb_shape : list Z -> list Z) (subset_key : string) (out : shaper_output).
Hypothesis Hout : text_shaper hb_shape subset_key = Some out.

Lemma map_codepoint c g : out_map out !! c = Some g ->
  c <= MAX_2_BYTES_CODEPOINT /\ c <> WILDCARD_CODEPOINT /\ c ∉ ZERO_WIDTH_CODEPOINTS /\ c ∉ hebrew_codes.
Proof using Hout.
  intros Hc. destruct (text_shaper_written _ _ _ Hout) as (alphabet & fs & st & ligs & es & rs & sel & Hw).
  apply scratch_free. exact (output_map_keys _ _ _ _ _ _ _ _ _ _ Hw c g Hc).
Qed.

Lemma script_map_ok c g : out_map out !! c = Some g -> map_ok (out_map out).
Proof using Hout.
  intros Hc. split; [intros E; by rewrite E in Hc|]. intros c' [g' Hc'%map_codepoint]. naive_solver.
Qed.

(** A code point of the map is shown by the Arabic member. *)
Lemma glyph_of_map chars c g : out_map out !! c = Some g -> glyph_of chars (out_map out) c = Some (true, GlyphIndex g).
Proof using Hout.
  intros Hc. destruct (map_codepoint c g Hc) as (_ & Hw & Hz & Hh). unfold glyph_of.
  by rewrite (decide_False (P := c = _)), (decide_False (P := c ∈ ZERO_WIDTH_CODEPOINTS)), decide_False, Hc by done.
Qed.
End Map.

(** The code points that the shaper skips are those that the fonts have with no width. *)
Lemma in_ranges_elem rs c : in_ranges rs c = true <-> c ∈ flat_map (fun r => seqZ r.1 (r.2 - r.1)) rs.
Proof.
  induction rs as [|r rs IH]; [by rewrite elem_of_nil|]. unfold in_ranges in *. cbn [existsb flat_map].
  rewrite orb_true_iff, elem_of_app, IH, RANGE_spec, elem_of_seqZ. split; (intros [H|H]; [left; lia|by right]).
Qed.

Lemma glyph_of_zero_width chars m c : is_zero_width c = true -> glyph_of chars m c = Some (false, ZERO_WIDTH_GLYPH_INDEX).
Proof.
  intros Hc%in_ranges_elem. change (c ∈ ZERO_WIDTH_CODEPOINTS) in Hc. unfold glyph_of.
  rewrite decide_False, decide_True; [done..|]. intros ->. revert Hc. apply (bool_decide_unpack _). vm_compute. exact I.
Qed.

Lemma subsets_kashida subset_key alphabet : subsets subset_key = Some alphabet -> kashida ∈ alphabet.
Proof.
  unfold subsets. do 2 (case_decide; [intros [= <-]; apply elem_of_app; right; left|]). done.
Qed.

(** ** Shaped texts in a font *)

Section Text.
Context (items : forall A, gmap Z A -> list (Z * A)) (same_object : bool) (face_chars : string -> list (Z * Z))
  (face_glyph : string -> Z -> Z -> rendered) (edited : string -> Z -> Z -> Z -> option glyph_data)
  (hb_shape : string -> list Z -> list Z) (listing : list string -> list string).
Hypothesis items_perm : forall A (d : gmap Z A), items A d ≡ₚ map_to_list d.
Hypothesis faces_ok : forall path size i, rendered_ok (face_glyph path size i).
Hypothesis chars_ok : forall path, face_ok (face_chars path).
Hypothesis listing_perm : forall l, listing l ≡ₚ l.

(** The map that compose.py reads back of the script. *)
Definition script_map (path subset_key : string) : option (gmap Z Z) := out_map <$> text_shaper (hb_shape path) subset_key.

#[local] Abbreviation generate_fonts := (generate_fonts items same_object face_chars face_glyph edited script_map).
#[local] Abbreviation write_langpack := (write_langpack items same_object face_chars face_glyph edited script_map listing).
#[local] Abbreviation shown := (shown face_chars face_glyph edited).

(** A font shows the texts that are shaped with the tables [tbl], which were made for the font file [path].
    In place of the units that a text is spelled with, shaping leaves as many code points: for a letter or a
    ligature one that has the glyph of the form that it takes at its place, for a mark the mark, which
    has the glyph without width, and anything else as it was.  And the four shapes of a letter have the
    glyphs of its four compositions with the kashida. *)
Definition text_shown (path : string) (alphabet : list Z) (tbl : shaper_output) (f : Font) (size : Z) (a h : MergeMember) : Prop :=
  let tables := output_tables tbl in
  (forall oob uninit p cps tail m, 0 < p -> Forall plain cps -> holds m p (encode cps ++ 0 :: tail) ->
    exists runes, @shape_text tables oob uninit p m = Ok tt (put p (encode runes ++ 0 :: tail) m) /\
      length runes = length (spell cps) /\
      forall (i : nat) (u : list Z) (c : Z), spell cps !! i = Some u -> runes !! i = Some c ->
        match unit_kind (hb_shape path) alphabet u with
        | Letter _ => exists g, letter_glyph (hb_shape path) alphabet (spell cps) i u = Some g /\
            shown f c size (out_map tbl) a (GlyphIndex g)
        | Mark => u = [c] /\ shown f c size (out_map tbl) h ZERO_WIDTH_GLYPH_INDEX
        | Other => u = [c]
        end) /\
  forall c, c ∈ alphabet -> exists e gs, @find_lut_entry_by_codept tables c = Some e /\
    letter_forms (hb_shape path) [c] = Some gs /\
    Forall2 (fun shape g => shown f shape size (out_map tbl) a (GlyphIndex g)) (forms e) gs.

Lemma script_letters path subset_key tbl alphabet : text_shaper (hb_shape path) subset_key = Some tbl ->
  subsets subset_key = Some alphabet -> supplements_apart (hb_shape path) alphabet ->
  forall c, c ∈ alphabet -> exists e gs, @find_lut_entry_by_codept (output_tables tbl) c = Some e /\
    letter_forms (hb_shape path) [c] = Some gs /\ Forall2 (fun f g => out_map tbl !! f = Some g) (forms e) gs.
Proof.
  intros Htbl Ha Hapart c Hc. destruct (text_shaper_written _ _ _ Htbl) as (alphabet' & fs & st & ligs & es & rs & sel & Hw).
  assert (alphabet' = alphabet) as -> by (destruct Hw; congruence). by apply (letter_shown _ _ _ _ _ _ _ _ _ _ Hw).
Qed.

(** The map of the script is such as the fonts need. *)
Lemma script_maps_ok subset_key alphabet : subsets subset_key = Some alphabet ->
  (forall path, supplements_apart (hb_shape path) alphabet) ->
  forall path m, script_map path subset_key = Some m -> map_ok m.
Proof.
  intros Ha Hapart path m (tbl & Htbl & ->)%fmap_Some.
  destruct (script_letters path subset_key tbl alphabet Htbl Ha (Hapart path) kashida) as (e & gs & _ & _ & Hs);
    [by apply (subsets_kashida subset_key)|].
  inversion Hs as [|sh g ? ? Hg]; subst. exact (script_map_ok _ _ _ Htbl _ _ Hg).
Qed.

Lemma font_shows_text path subset_key alphabet tbl f f0 size a h : text_shaper (hb_shape path) subset_key = Some tbl ->
  subsets subset_key = Some alphabet -> supplements_apart (hb_shape path) alphabet ->
  (forall c, match glyph_of (face_chars (ttf_path h)) (out_map tbl) c with
             | Some (arabic, g) => shown f c size (out_map tbl) (if arabic : bool then a else h) g
             | None => forall d, has_glyph f c d <-> has_glyph f0 c d
             end) ->
  text_shown path alphabet tbl f size a h.
Proof.
  intros Htbl Ha Hapart Hg.
  assert (forall c g, out_map tbl !! c = Some g -> shown f c size (out_map tbl) a (GlyphIndex g)) as Hmap.
  { intros c g Hc. specialize (Hg c). by rewrite (glyph_of_map _ _ _ Htbl _ c g Hc) in Hg. }
  split.
  - intros oob uninit p cps tail m Hp Hcps Hm.
    destruct (shaped_glyphs (hb_shape path) subset_key tbl alphabet oob uninit p cps tail m Htbl Ha Hapart Hp Hcps Hm)
      as (runes & Hs & Hl & Hr).
    exists runes. split_and!; [done..|]. intros i u c Hu Hc. specialize (Hr i u c Hu Hc).
    destruct (unit_kind (hb_shape path) alphabet u) eqn:Ek; [| |done].
    + split; [done|]. subst u. specialize (Hg c). rewrite glyph_of_zero_width in Hg; [done|].
      unfold unit_kind in Ek. destruct (is_zero_width c); [done|]. by case_bool_decide.
    + destruct Hr as (g & Hgl & Hmc). exists g. auto.
  - intros c (e & gs & He & Hgs & Hs)%(script_letters _ _ _ _ Htbl Ha Hapart). exists e, gs. split_and!; [done..|].
    eapply Forall2_impl; [exact Hs|]. auto.
Qed.

End Text.

(** ** Example *)

Abbreviation text_pack := (write_langpack (fun A d => map_to_list d) false compose_chars (fun _ _ => example_rendered)
  (fun _ _ _ _ => None) (script_map (fun _ => example_hb_shape)) (fun l => l) (ascii_bytes "fonts") "arabic" "small"
  pack_originals "mo" [1; 2]).
Definition text_pack_bytes : list Z := default [] text_pack.

Lemma text_pack_eq : text_pack = Some text_pack_bytes.
Proof. vm_compute. reflexivity. Qed.

